(* ===== verification/_CoqProject ===== *)
-Q . S2P
Prelude.v
Errors.v
Common.v
Rate.v
Decimal.v
RatePow.v
DecimalSpec.v
Codec.v
LastUpdate.v
RateLimiter.v
RateLimiterSpec.v
ReserveConfig.v
ReserveConfigSpec.v
ReserveLiquidity.v
ReserveCollateral.v
ObligationCollateral.v
ObligationLiquidity.v
Obligation.v
ObligationSpec.v
Reserve.v
ReserveRates.v
ReserveExchange.v
ReserveCalc.v
ReserveLiquidation.v
ObligationWithdraw.v
LendingMarket.v
ReserveCodec.v
ObligationCodec.v
Nonneg.v
Instruction.v
Runtime.v
Oracles.v
ProcessorHelpers.v
ProcessMarket.v
ProcessReserve.v
ProcessDeposit.v
ProcessConfig.v
ReserveTyped.v
ProcessObligation.v
ProcessCollateral.v
ProcessBorrow.v
ProcessLiquidation.v
ProcessFlash.v
Processor.v
AccountSpec.v
ExampleRuntime.v
Identity.v
Evolution.v
BorrowSpec.v
ConfigSpec.v
FlashSpec.v
RefreshSpec.v
Frames.v
Tracking.v
ObligationMoves.v
LiquidationSpec.v
WithdrawSpec.v
HistorySpec.v
RepaySpec.v
SupplySpec.v
Builders.v
BuilderSpec.v
OracleSpec.v
Offchain.v
OffchainSpec.v
Client.v
Cli.v
CliArgs.v
CliMain.v
CliSpec.v
ArgsSpec.v
UpdateSpec.v
ObligationTracks.v
CustodySpec.v
ReserveMoves.v
ReserveTracks.v
ReserveHistory.v
TokenFlow.v
Solvency.v
SourceTests.v
