(* ===== verification/Prelude.v ===== *)
(** * Solend token lending: a verification library

    A model in Rocq of the Solend token lending program, translated from the
    Rust sources under src/token-lending, with the theorems that make it correct.

    ** The program

    Lenders deposit liquidity into a reserve and receive collateral tokens;
    borrowers put collateral tokens into an obligation and borrow the liquidity of
    other reserves against them.  A lending market groups reserves and obligations.
    Interest accrues on the debt of a reserve, so that a collateral token is worth
    more liquidity with time.  An obligation whose debt outgrows its collateral can
    be liquidated at a bonus.  Flash loans are lent and repaid within a transaction.
    Outflow is bounded by a sliding-window rate limiter per market and per reserve.

    The on-chain program consists of the account types with their arithmetic
    (sdk/src/state, sdk/src/math), the wire format of instructions
    (sdk/src/instruction.rs), the price oracles (sdk/src/oracles.rs) and the
    handlers, one per instruction (program/src/processor.rs).  Around it are the
    builders of instructions (also instruction.rs), the off-chain utilities that
    value a snapshot of the accounts (sdk/src/offchain_utils.rs), and a command-line
    client that composes, signs and sends transactions (cli/src).

    ** How the code is modelled

    A [Result<A, ProgramError>] is an [outcome]: [Ok], [Err] or [Panic] (an
    [unwrap] of a failure, an index out of range, a division by zero); [let?] is
    the [?] operator and [reject_if .. with .. then] an early return.  Integers are
    [Z] with the width written out (Common: checked, wrapping and saturating
    operations; the words of the uint crate are integers of their width).  [Rate]
    and [Decimal] are scaled integers of 128 and 192 bits, with the roundings of
    the code.  Packed accounts are [list byte], laid out as [pack_into_slice] does.
    A method that takes [&mut self] returns the new value.

    The accounts a handler sees are a [World]: a finite map from addresses to
    owner, lamports and data, with the clock and the invocation depth.  Two
    [AccountInfo]s of the same address are the same account, as on chain.  A failed
    instruction has no world to return: the runtime rolls it back.  What the Solana
    runtime and the other third-party crates do (program addresses, rent, the
    instructions sysvar, the token program, Pyth and Switchboard accounts) is not
    under src/: it is the class [Runtime] of Runtime.v, over which the handlers are
    defined, and the theorems about handlers assume of it the documented laws of
    [RuntimeLaws].  What the token program's accounts hold and who may move it is the
    class [TokenProgram], with the laws [TokenLaws].  ExampleRuntime.v is an instance
    with a small token program, and proves those laws of it; the witnesses run the
    handlers in it.

    The client's commands are functions of the list of transactions sent so far,
    which they extend; the node they question, the signing of transactions and the
    instructions of other crates are the class [ClientEnv] of Client.v, with the
    laws [ClientLaws], and CliSpec.v has an instance.  Splitting a command line is
    clap's, and the parsers and validators of values are other crates': the class
    [ClapUtils] of CliArgs.v, with the laws [ClapLaws].

    ** The files

    Arithmetic and shared parts:
    - Prelude: outcomes, tactics ([minv] inverts a computation that succeeded),
      hints and generic lemmas; Errors: sdk/src/error.rs;
    - Common (with the machine integers), Rate, Decimal: sdk/src/math; RatePow and
      DecimalSpec their theorems;
    - Codec: sdk/src/state/mod.rs and the fixed-width fields of layouts.

    Account types (sdk/src/state, a file per type or part of a type):
    - LastUpdate; RateLimiter with RateLimiterSpec; LendingMarket (the account and
      its metadata);
    - reserve.rs: ReserveConfig, ReserveLiquidity, ReserveCollateral, Reserve,
      ReserveCodec; theorems in ReserveConfigSpec, ReserveRates, ReserveExchange,
      ReserveCalc, ReserveLiquidation and ReserveCodec;
    - obligation.rs: ObligationCollateral, ObligationLiquidity, Obligation,
      ObligationWithdraw, ObligationCodec; theorems in ObligationSpec and the last two;
    - Nonneg: what reading an account guarantees of its integers; no amount is negative.

    Instructions, oracles and handlers:
    - Instruction: the instruction type, its [unpack] and [pack], and that they are
      inverse;
    - Runtime: accounts, the interface of the third-party crates and its laws;
    - Oracles: oracles.rs and the price functions of processor.rs;
    - ProcessorHelpers: the account checks and token calls the handlers share;
    - ProcessMarket, ProcessReserve, ProcessDeposit, ProcessConfig,
      ProcessObligation, ProcessCollateral, ProcessBorrow, ProcessLiquidation,
      ProcessFlash: the handlers of processor.rs under their own names; Processor:
      [process_instruction], the dispatch, and the entrypoints of the program and of
      the brick program;
    - AccountSpec: what a read, a write and a token call say about two worlds
      ([holds], [saved], [keeps_but]); BorrowSpec, RepaySpec, LiquidationSpec,
      RefreshSpec, FlashSpec, WithdrawSpec, SupplySpec (deposits and redemptions),
      ConfigSpec: the contracts of handlers;
    - Identity: what of an account never changes, read off its bytes, as a class
      over the account types; Evolution: every handler keeps it; HistorySpec: so
      does every history of instructions;
    - ReserveTyped: the machine widths of a reserve and the soundness of its
      configuration, kept by each of its operations;
    - Frames: which accounts each handler writes; OracleSpec: what a price means.

    Histories, the instructions that succeed interleaved with what other programs do:
    - Tracking: handlers as sequences of moves of the accounts of one type, each a move
      of the value that was read;
    - ObligationMoves: the moves of an obligation and who must sign for them, and what it
      reads as right after a refresh, on which LiquidationSpec and CliSpec build too;
      ObligationTracks: every instruction makes only those; CustodySpec: histories, and
      what they leave an owner;
    - ReserveMoves, ReserveTracks, ReserveHistory: the same of a reserve;
    - TokenFlow: what each step does to the difference between the tokens in the supply
      account of a reserve and its available liquidity; Solvency: it is never negative.

    Off chain:
    - Builders: the 22 builders of instruction.rs; BuilderSpec: what the program
      does with what they build ([means]);
    - Offchain: offchain_utils.rs; OffchainSpec: it agrees with the handlers;
    - Client: the client's environment, and lending_state.rs; Cli: the commands of
      main.rs; CliArgs: the arguments it declares; CliMain: [main], which reads their
      values and runs the command;
    - CliSpec: what the commands sign and send, and what a withdrawal then does on
      chain; ArgsSpec: what a command line that is accepted reads as; UpdateSpec:
      update-reserve against a description of its arguments.

    Tests:
    - SourceTests: the unit tests and the property tests of the SDK, which run on the
      model.

    ** What the theorems show

    Handlers.  A borrow ([BorrowSpec.borrow_is_safe]), a repayment
    ([RepaySpec.repayment_settles]), a deposit and a redemption
    ([SupplySpec.deposit_mints_its_worth], [SupplySpec.redemption_pays_its_worth]),
    a withdrawal
    ([WithdrawSpec.withdraw_is_safe]), a liquidation
    ([LiquidationSpec.liquidation_is_justified]), the forgiveness of bad debt
    ([LiquidationSpec.forgiveness_keeps_ratio]), a flash borrow
    ([FlashSpec.flash_borrow_is_repaid]) and a change of configuration
    ([ConfigSpec.update_config_authorized]) that succeed have the signatures the code
    demands, act on accounts of one market that were refreshed in the same slot
    where their values count, respect the limits, write exactly the values stated,
    and leave every other account of the program alone.
    [RefreshSpec.refresh_obligation_exact] says what the values are that those
    limits are checked against.  An explicit amount is borrowed with its fee on top, which
    the reserve's borrow limit does not count ([BorrowSpec.borrow_fee_exceeds_limit]); a
    maximum borrow fits in every limit ([ReserveCalc.calculate_borrow_within_limits]).  A
    liquidation is within the close factor, the offer and the deposit, but that a debt worth
    at most one may be closed out whatever the offer; the debt it repays is one of the
    heaviest as the refresh in that slot left them.

    Histories.  Over any history of [process_instruction], whatever other programs do
    in between, accounts keep their identity ([HistorySpec.accounts_keep_identity]) and
    only its owner hands a market over ([HistorySpec.market_handover_is_signed]).
    Obligations have one position per reserve and side and at most ten
    ([CustodySpec.positions_always_ok]); as long as its owner does not sign, an
    obligation loses no collateral but to liquidations, and owes no more but for its
    interest ([CustodySpec.custody_of_owner]).  The configurations of reserves stay
    sound ([ReserveHistory.configurations_stay_sound]), their interest index never
    falls, and a collateral token loses no value but by redemptions and forgiven debts
    ([ReserveHistory.collateral_keeps_value]).  Every reserve keeps a supply account of
    its own, out of which only the program pays and which holds at least what the
    reserve counts as available ([Solvency.reserves_stay_solvent]).

    Reserves.  The liquidity behind a collateral token never decreases, over any
    sequence of operations ([ReserveExchange.share_price_never_drops]); depositing
    and redeeming does not pay; the borrow rate of a validated reserve exists, is the
    point of the configured curve at its utilization and never falls as that rises
    ([ReserveRates.current_borrow_rate_total]); with rates of at most 255 percent, up to
    a year of interest always accrues
    ([ReserveRates.interest_accrues_for_a_year]), which an unbounded super maximum rate
    can prevent ([ReserveRates.unbounded_rate_freezes]); borrows, repayments, liquidations, bonuses and fees are
    within their bounds.  Obligations.  At most one position per reserve and side
    and ten in all; repayments and withdrawals are exact; the largest withdrawal
    keeps the obligation within its limit.  Rate limiter.  At most twice the
    maximum leaves in any window of the configured length, and that is attained.
    Types.  Every operation on a reserve, updates of its configuration included, keeps
    its fields within their widths and its configuration sound: every constraint of
    validation but the cap on the bonus ([ReserveTyped.reserve_operations_typed]).
    Fixed point.  [Decimal] refines the rationals up to one unit in the last place;
    [try_pow] rounds down and terminates; the decimal notation reads as the number it
    shows ([DecimalSpec.display_reads_back]).  Formats.  Reserves, obligations, markets
    and instructions read back as packed; what reads is within its widths, and only the
    encoding of an instruction reads as it ([Instruction.wire_format_exact]).
    Oracles.  A price is an exactly scaled and recent quote, of Pyth within a confidence
    of a tenth, or, if Pyth fails, of Switchboard, whose confidence is not checked
    ([OracleSpec.get_price_sound]).

    Builders and clients.  Running what a builder made is the operation it is named
    after, on its arguments ([BuilderSpec.built_instruction_means]), and writes only
    what it marked writable; a flash loan put together with the builders passes the
    checks of the protocol ([BuilderSpec.built_flash_loan_accepted]).  The off-chain
    refresh of a reserve does what the program does, but for the smoothed price
    ([OffchainSpec.offchain_reserve_agrees]); that of an obligation computes its positions,
    its deposited and borrowed values and its thresholds as the program does, up to caps
    and the order of borrows, and leaves its limits alone
    ([OffchainSpec.offchain_obligation_agrees]); and the snapshot is what is on chain.  The client signs exactly what its messages
    ask for; its withdrawal is the owner's, refreshes every reserve once, and on
    chain reads the obligation as just refreshed from them and satisfies the contract of a
    withdrawal ([CliSpec.client_withdraw_settles], which composes the client, the builders,
    the dispatch and two handlers); update-reserve sends the arguments laid over the
    configuration, or nothing if that asks for no change
    ([UpdateSpec.update_reserve_sends]), and makes isolated reserves
    regular ([UpdateSpec.update_reserve_unisolates]).  A command line that the
    declarations of its arguments accept is read without a panic, but for the arguments
    that no validator guards, the quote currency of create-market among them
    ([ArgsSpec.accepted_line_reads]).

    Tests.  The tables of cases of the SDK pass, and most of its property tests hold for
    every argument in their ranges; of two it is decided of which arguments they hold, and
    two are refuted ([SourceTests.sdk_tests_decided]).

    ** Fuel

    Two loops of the code are not structural.  [try_pow] halves a 64-bit exponent:
    64 iterations are enough ([RatePow.try_pow_terminates]); a year has fewer than 2^26
    slots, for which [RatePow.pow_bound] bounds the products of 26 iterations.  The flash borrow scans
    the instructions of its transaction, of which there are fewer than 2^16, the
    range of the sysvar's index: [ProcessFlash.flash_fuel] is 2^16, and
    [FlashSpec.flash_borrow_is_repaid] states that the loop equals a recursion over the
    remaining instructions, whether the borrow succeeds or not.

    ** Not modelled

    Log messages and what the client prints; the splitting of its command line (clap),
    its help texts, its configuration file and the choice of its signer, the keypairs
    being public keys passed to the commands.  Of the tests of the SDK: the test of
    the word crate, and that of the Pyth price, which parses a recorded account of a
    third-party format; the random values of the others are any that fit their types
    (the class [Draws] of SourceTests.v, with the laws [DrawsLaws]).  The integration tests of the program (program/tests) run it in a simulated
    bank, which is third-party.  Compute limits, transaction fees and rent collection
    are the runtime's. *)

From Stdlib Require Export ZArith Lia ZifyBool.
From stdpp Require Export base tactics option list numbers.

#[global] Open Scope Z_scope.

(** ** Outcomes of fallible Rust code

    A call of a Rust function of type [Result<A, ProgramError>] ends in one of
    three ways: [Ok], [Err], or a panic ([unwrap] of a failure, an index out of
    range, a division of machine integers by zero, ...), which aborts the
    transaction. *)

Inductive outcome (E A : Type) : Type :=
  | Ok (a : A)
  | Err (e : E)
  | Panic.

Arguments Ok {E A} a.
Arguments Err {E A} e.
Arguments Panic {E A}.

Section outcome.
Context {E A B : Type}.

(** The [?] operator. *)
Definition obind (m : outcome E A) (k : A -> outcome E B) : outcome E B :=
  match m with
  | Ok a => k a
  | Err e => Err e
  | Panic => Panic
  end.

(** [Option::ok_or]. *)
Definition ok_or (o : option A) (e : E) : outcome E A :=
  match o with
  | Some a => Ok a
  | None => Err e
  end.

(** [Option::unwrap]. *)
Definition unwrap_option (o : option A) : outcome E A :=
  match o with
  | Some a => Ok a
  | None => Panic
  end.

(** [Result::unwrap_or_else(|_| d)]. *)
Definition unwrap_or_else (m : outcome E A) (d : A) : outcome E A :=
  match m with
  | Ok a => Ok a
  | Err _ => Ok d
  | Panic => Panic
  end.

Definition is_ok (m : outcome E A) : bool :=
  match m with
  | Ok _ => true
  | _ => false
  end.
End outcome.

(** [Result::unwrap]. *)
Definition unwrap {E A : Type} (m : outcome E A) : outcome E A :=
  match m with
  | Ok a => Ok a
  | _ => Panic
  end.

Declare Scope outcome_scope.
Delimit Scope outcome_scope with outcome.
#[global] Open Scope outcome_scope.

(** [let? x := m in k] is [let x = m?; k]. *)
Notation "'let?' x ':=' m 'in' k" :=
  (obind m (fun x => k))
    (at level 10, x name, m at level 100, k at level 200,
     format "'[v' 'let?'  x  ':='  m  'in' '/' k ']'") : outcome_scope.
Notation "'let?' ' p ':=' m 'in' k" :=
  (obind m (fun x => match x with p => k end))
    (at level 10, p strict pattern, m at level 100, k at level 200,
     format "'[v' 'let?'  ' p  ':='  m  'in' '/' k ']'") : outcome_scope.
(** [m ;;? k] is [m?; k]. *)
Notation "m ';;?' k" :=
  (obind m (fun _ => k))
    (at level 100, k at level 200, right associativity) : outcome_scope.
(** [reject_if c e k] is [if c { return Err(e); } k]. *)
Notation "'reject_if' c 'with' e 'then' k" :=
  (if c then Err e else k)
    (at level 10, c at level 100, e at level 100, k at level 200,
     format "'[v' 'reject_if'  c  'with'  e  'then' '/' k ']'") : outcome_scope.

(** ** Inversion of outcomes *)

Section outcome_lemmas.
Context {E A B : Type}.
Implicit Types (m : outcome E A) (k : A -> outcome E B).

Lemma obind_Ok_inv m k b : obind m k = Ok b -> exists a, m = Ok a /\ k a = Ok b.
Proof. destruct m; simpl; [eauto | discriminate | discriminate]. Qed.

Lemma obind_Err_inv m k e :
  obind m k = Err e -> m = Err e \/ exists a, m = Ok a /\ k a = Err e.
Proof. destruct m; simpl; intros H; [eauto | left; congruence | discriminate]. Qed.

Lemma obind_Panic_inv m k :
  obind m k = Panic -> m = Panic \/ exists a, m = Ok a /\ k a = Panic.
Proof. destruct m; simpl; intros H; [eauto | discriminate | eauto]. Qed.

Lemma obind_not_panic m k :
  m <> Panic -> (forall a, m = Ok a -> k a <> Panic) -> obind m k <> Panic.
Proof. destruct m; simpl; auto. Qed.

Lemma ok_or_Ok_inv (o : option A) (e : E) a : ok_or o e = Ok a -> o = Some a.
Proof. destruct o; simpl; congruence. Qed.

Lemma ok_or_Err_inv (o : option A) (e e' : E) :
  ok_or o e = Err e' -> o = None /\ e = e'.
Proof. destruct o; simpl; [discriminate | intros [= ->]; auto]. Qed.

Lemma ok_or_not_panic (o : option A) (e : E) : ok_or o e <> Panic.
Proof. destruct o; discriminate. Qed.

Lemma unwrap_option_Ok_inv (o : option A) a :
  unwrap_option (E:=E) o = Ok a -> o = Some a.
Proof. destruct o; simpl; congruence. Qed.

Lemma unwrap_Ok_inv m a : unwrap m = Ok a -> m = Ok a.
Proof. destruct m; simpl; congruence. Qed.

Lemma unwrap_or_else_Ok_inv m d a :
  unwrap_or_else m d = Ok a -> m = Ok a \/ (exists e, m = Err e) /\ a = d.
Proof. destruct m; simpl; intros [= ->]; eauto. Qed.

Lemma reject_Ok_inv (c : bool) (e : E) m a :
  (if c then Err e else m) = Ok a -> c = false /\ m = Ok a.
Proof. destruct c; [discriminate | auto]. Qed.

Lemma Ok_pair_inv (a a' : A) (b b' : B) :
  Ok (E:=E) (a, b) = Ok (a', b') -> Ok (E:=E) a = Ok a' /\ Ok (E:=E) b = Ok b'.
Proof. by intros [= -> ->]. Qed.

Lemma is_ok_true m : is_ok m = true <-> exists a, m = Ok a.
Proof. destruct m; simpl; split; try discriminate; [eauto | eauto | intros [? [=]] | intros [? [=]]]. Qed.
End outcome_lemmas.

(** [minv H] takes apart a hypothesis [H : ... = Ok v]: every step that
    succeeded, every guard that did not fire. *)
Ltac minv_step H :=
 
  lazymatch type of H with
  | obind _ _ = Ok _ =>
      let x := fresh "v" in
      let E := fresh "E" in
      apply obind_Ok_inv in H as (x & E & H); cbn beta in H
  | ok_or _ _ = Ok _ => apply ok_or_Ok_inv in H
  | unwrap_option _ = Ok _ => apply unwrap_option_Ok_inv in H
  | unwrap _ = Ok _ => apply unwrap_Ok_inv in H
  | (if _ then Err _ else _) = Ok _ =>
      let G := fresh "G" in
      apply reject_Ok_inv in H as [G H]
  | Ok (_, _) = Ok (_, _) =>
      let H1 := fresh H in
      apply Ok_pair_inv in H as [H1 H]; repeat minv_step H1
  | Ok _ = Ok ?r => injection H as H; try (is_var r; subst r)
  | Err _ = Ok _ => discriminate H
  | Panic = Ok _ => discriminate H
  | (match ?p with (a, b) => _ end) = Ok _ =>
      let x := fresh a in let y := fresh b in destruct p as [x y]; cbn beta iota in H
  end.
Ltac minv H := repeat (minv_step H).

(** Simplify the goal [obind m k = ...] once the value of [m] is known. *)
Ltac ostep E := rewrite E; cbn [obind].

(** ** Arithmetic helpers shared by the components *)

Section arith.
Implicit Types a b c d : Z.

Lemma div_le_mono_num a b c : 0 < c -> a <= b -> a / c <= b / c.
Proof. intros. now apply Z.div_le_mono. Qed.

(** The product of two bounded factors. *)
Lemma mul_le_bound a b c d : 0 <= a <= c -> 0 <= b <= d -> 0 <= a * b <= c * d.
Proof. nia. Qed.

Lemma div_mul_le_l a c : 0 < c -> a / c * c <= a.
Proof. intros. rewrite Z.mul_comm. now apply Z.mul_div_le. Qed.

Lemma div_mul_gt a c : 0 < c -> a < (a / c + 1) * c.
Proof. intros. pose proof (Z.mul_succ_div_gt a c). lia. Qed.

Lemma div_nonneg a c : 0 <= a -> 0 < c -> 0 <= a / c.
Proof. intros. now apply Z.div_pos. Qed.

Lemma div_le_self a c : 0 <= a -> 0 < c -> a / c <= a.
Proof. intros. apply Z.div_le_upper_bound; nia. Qed.

(** A fraction of at most one never increases the amount it scales. *)
Lemma mul_div_le_self a p q : 0 <= a -> 0 <= p <= q -> 0 < q -> a * p / q <= a.
Proof. intros. apply Z.div_le_upper_bound; nia. Qed.

(** A factor of at least one never decreases it. *)
Lemma mul_div_ge_self a p q : 0 <= a -> q <= p -> 0 < q -> a <= a * p / q.
Proof. intros. apply Z.div_le_lower_bound; nia. Qed.

Lemma mul_div_mono a b p q :
  0 <= p -> 0 < q -> a <= b -> a * p / q <= b * p / q.
Proof. intros. apply Z.div_le_mono; nia. Qed.

(** Scaling [b] by the quotient [r/c], held at [w] parts, stays below [b*r/c]. *)
Lemma scaled_div_le b r c w :
  0 <= b -> 0 < c -> 0 < w -> b * (r * w / c) / w * c <= b * r.
Proof.
  intros Hb Hc Hw.
  pose proof (div_mul_le_l (r * w) c Hc) as H1.
  pose proof (div_mul_le_l (b * (r * w / c)) w Hw) as H2.
  set (q := r * w / c) in *. set (p := b * q / w) in *.
  apply (Z.mul_le_mono_pos_r _ _ w Hw).
  assert (p * w * c <= b * q * c) by (apply Z.mul_le_mono_nonneg_r; lia).
  assert (b * (q * c) <= b * (r * w)) by (apply Z.mul_le_mono_nonneg_l; lia).
  lia.
Qed.

Lemma mul_div_mono_factor a p p' q :
  0 <= a -> 0 < q -> p <= p' -> a * p / q <= a * p' / q.
Proof. intros. apply Z.div_le_mono; nia. Qed.
End arith.

Create HintDb lending discriminated.
#[export] Hint Resolve div_nonneg Z.mul_nonneg_nonneg Z.add_nonneg_nonneg : lending.
#[export] Hint Resolve ok_or_not_panic : lending.
#[export] Hint Extern 5 (_ <= _) => lia : lending.
#[export] Hint Extern 5 (_ < _) => lia : lending.
