(* ===== verification/Errors.v ===== *)
(** Errors: [LendingError] (sdk/src/error.rs) and the [ProgramError] values the
    program returns, with the [result] type built on them. *)

From S2P Require Import Prelude.

(** Errors that may be returned by the TokenLending program. *)
Inductive LendingError : Type :=
  | InstructionUnpackError
  | AlreadyInitialized
  | NotRentExempt
  | InvalidMarketAuthority
  | InvalidMarketOwner
  | InvalidAccountOwner
  | InvalidTokenOwner
  | InvalidTokenAccount
  | InvalidTokenMint
  | InvalidTokenProgram
  | InvalidAmount
  | InvalidConfig
  | InvalidSigner
  | InvalidAccountInput
  | MathOverflow
  | TokenInitializeMintFailed
  | TokenInitializeAccountFailed
  | TokenTransferFailed
  | TokenMintToFailed
  | TokenBurnFailed
  | InsufficientLiquidity
  | ReserveCollateralDisabled
  | ReserveStale
  | WithdrawTooSmall
  | WithdrawTooLarge
  | BorrowTooSmall
  | BorrowTooLarge
  | RepayTooSmall
  | LiquidationTooSmall
  | ObligationHealthy
  | ObligationStale
  | ObligationReserveLimit
  | InvalidObligationOwner
  | ObligationDepositsEmpty
  | ObligationBorrowsEmpty
  | ObligationDepositsZero
  | ObligationBorrowsZero
  | InvalidObligationCollateral
  | InvalidObligationLiquidity
  | ObligationCollateralEmpty
  | ObligationLiquidityEmpty
  | NegativeInterestRate
  | InvalidOracleConfig
  | InvalidFlashLoanReceiverProgram
  | NotEnoughLiquidityAfterFlashLoan
  | NullOracleConfig
  | InsufficientProtocolFeesToRedeem
  | FlashBorrowCpi
  | NoFlashRepayFound
  | InvalidFlashRepay
  | FlashRepayCpi
  | MultipleFlashBorrows
  | FlashLoansDisabled
  | DeprecatedInstruction
  | OutflowRateLimitExceeded
  | NotWhitelistedLiquidator
  | IsolatedTierAssetViolation.

#[export] Instance LendingError_eq_dec : EqDecision LendingError.
Proof. solve_decision. Defined.

(** The discriminant [e as u32]. *)
Definition lending_error_code (e : LendingError) : Z :=
  match e with
  | InstructionUnpackError => 0
  | AlreadyInitialized => 1
  | NotRentExempt => 2
  | InvalidMarketAuthority => 3
  | InvalidMarketOwner => 4
  | InvalidAccountOwner => 5
  | InvalidTokenOwner => 6
  | InvalidTokenAccount => 7
  | InvalidTokenMint => 8
  | InvalidTokenProgram => 9
  | InvalidAmount => 10
  | InvalidConfig => 11
  | InvalidSigner => 12
  | InvalidAccountInput => 13
  | MathOverflow => 14
  | TokenInitializeMintFailed => 15
  | TokenInitializeAccountFailed => 16
  | TokenTransferFailed => 17
  | TokenMintToFailed => 18
  | TokenBurnFailed => 19
  | InsufficientLiquidity => 20
  | ReserveCollateralDisabled => 21
  | ReserveStale => 22
  | WithdrawTooSmall => 23
  | WithdrawTooLarge => 24
  | BorrowTooSmall => 25
  | BorrowTooLarge => 26
  | RepayTooSmall => 27
  | LiquidationTooSmall => 28
  | ObligationHealthy => 29
  | ObligationStale => 30
  | ObligationReserveLimit => 31
  | InvalidObligationOwner => 32
  | ObligationDepositsEmpty => 33
  | ObligationBorrowsEmpty => 34
  | ObligationDepositsZero => 35
  | ObligationBorrowsZero => 36
  | InvalidObligationCollateral => 37
  | InvalidObligationLiquidity => 38
  | ObligationCollateralEmpty => 39
  | ObligationLiquidityEmpty => 40
  | NegativeInterestRate => 41
  | InvalidOracleConfig => 42
  | InvalidFlashLoanReceiverProgram => 43
  | NotEnoughLiquidityAfterFlashLoan => 44
  | NullOracleConfig => 45
  | InsufficientProtocolFeesToRedeem => 46
  | FlashBorrowCpi => 47
  | NoFlashRepayFound => 48
  | InvalidFlashRepay => 49
  | FlashRepayCpi => 50
  | MultipleFlashBorrows => 51
  | FlashLoansDisabled => 52
  | DeprecatedInstruction => 53
  | OutflowRateLimitExceeded => 54
  | NotWhitelistedLiquidator => 55
  | IsolatedTierAssetViolation => 56
  end.

(** The variants of [solana_program::ProgramError] that the program builds or
    matches on. *)
Inductive ProgramError : Type :=
  | Custom (code : Z)
  | InvalidArgument
  | InvalidAccountData
  | NotEnoughAccountKeys
  | OtherProgramError (code : Z).

#[export] Instance ProgramError_eq_dec : EqDecision ProgramError.
Proof. solve_decision. Defined.

(** [impl From<LendingError> for ProgramError]. *)
Definition lending_error (e : LendingError) : ProgramError :=
  Custom (lending_error_code e).

Abbreviation result A := (outcome ProgramError A).

(** [Err(LendingError::...)]. *)
Definition fail {A : Type} (e : LendingError) : result A := Err (lending_error e).

Lemma lending_error_code_inj e1 e2 :
  lending_error_code e1 = lending_error_code e2 -> e1 = e2.
Proof. destruct e1, e2; simpl; intros; congruence. Qed.

Lemma lending_error_inj e1 e2 : lending_error e1 = lending_error e2 -> e1 = e2.
Proof. intros [= H]. by apply lending_error_code_inj. Qed.

(** [.ok_or(LendingError::MathOverflow)?] at the end of a checked operation. *)
Definition math {A : Type} (o : option A) : result A :=
  ok_or o (lending_error MathOverflow).

Lemma math_Ok_inv {A : Type} (o : option A) (a : A) : math o = Ok a -> o = Some a.
Proof. apply ok_or_Ok_inv. Qed.

Lemma math_not_panic {A : Type} (o : option A) : math o <> Panic.
Proof. apply ok_or_not_panic. Qed.

#[export] Hint Resolve math_not_panic : lending.

(** Reduce the monadic glue of a goal whose first step is known. *)
Ltac mred := cbn [obind math ok_or unwrap_option unwrap unwrap_or_else].
Tactic Notation "mred" "in" hyp(H) :=
  cbn [obind math ok_or unwrap_option unwrap unwrap_or_else] in H.
