(* ===== verification/Common.v ===== *)
(** Fixed-width unsigned integers, and math/common.rs: the scaling constants and the
    fallible arithmetic traits shared by [Rate] and [Decimal].

    A [w]-bit unsigned integer ([u8], [u16], [u32], [u64], [u128], and the
    [U128]/[U192] words that math/rate.rs and math/decimal.rs build with
    [construct_uint!]) is a [Z] in [[0, 2^w)].  The checked operations return
    [None] outside of that range, the wrapping ones reduce modulo [2^w]. *)

From S2P Require Import Prelude.
From S2P Require Import Errors.

Definition in_uint (w x : Z) : Prop := 0 <= x < 2 ^ w.

#[export] Instance in_uint_dec w x : Decision (in_uint w x).
Proof. unfold in_uint. apply _. Defined.

Abbreviation is_u8 := (in_uint 8).
Abbreviation is_u64 := (in_uint 64).
Abbreviation is_u128 := (in_uint 128).
Abbreviation is_u192 := (in_uint 192).
Abbreviation is_u256 := (in_uint 256).

Definition u8_max : Z := 255.
Definition u64_max : Z := 18446744073709551615.

(** [TryFrom] of a wider unsigned integer, and the overflow test of the checked
    operations. *)
Definition fit (w x : Z) : option Z := if x <? 2 ^ w then Some x else None.

Definition checked_add (w a b : Z) : option Z := fit w (a + b).
Definition checked_sub (a b : Z) : option Z := if b <=? a then Some (a - b) else None.
Definition checked_mul (w a b : Z) : option Z := fit w (a * b).
Definition checked_div (a b : Z) : option Z := if b =? 0 then None else Some (a / b).
Definition checked_pow (w a n : Z) : option Z := fit w (a ^ n).

(** Arithmetic in a build without overflow checks, which is the profile the
    program is built with. *)
Definition wrapping_add (w a b : Z) : Z := (a + b) mod 2 ^ w.
Definition wrapping_sub (w a b : Z) : Z := (a - b) mod 2 ^ w.
Definition wrapping_mul (w a b : Z) : Z := (a * b) mod 2 ^ w.
Definition saturating_mul (w a b : Z) : Z := Z.min (a * b) (2 ^ w - 1).

Section lemmas.
Implicit Types w a b c n x : Z.

Lemma fit_Some_inv w x c : fit w x = Some c -> c = x /\ x < 2 ^ w.
Proof. unfold fit. case_match; [intros [= <-]; lia | discriminate]. Qed.

Lemma fit_Some w x : x < 2 ^ w -> fit w x = Some x.
Proof. unfold fit. intros. case_match; [done | lia]. Qed.

Lemma fit_None w x : 2 ^ w <= x -> fit w x = None.
Proof. unfold fit. intros. case_match; [lia | done]. Qed.

Lemma checked_add_Some_inv w a b c :
  checked_add w a b = Some c -> c = a + b /\ a + b < 2 ^ w.
Proof. apply fit_Some_inv. Qed.

Lemma checked_add_Some w a b : a + b < 2 ^ w -> checked_add w a b = Some (a + b).
Proof. apply fit_Some. Qed.

Lemma checked_sub_Some_inv a b c : checked_sub a b = Some c -> c = a - b /\ b <= a.
Proof. unfold checked_sub. case_match; [intros [= <-]; lia | discriminate]. Qed.

Lemma checked_sub_Some a b : b <= a -> checked_sub a b = Some (a - b).
Proof. unfold checked_sub. intros. case_match; [done | lia]. Qed.

Lemma checked_mul_Some_inv w a b c :
  checked_mul w a b = Some c -> c = a * b /\ a * b < 2 ^ w.
Proof. apply fit_Some_inv. Qed.

Lemma checked_mul_Some w a b : a * b < 2 ^ w -> checked_mul w a b = Some (a * b).
Proof. apply fit_Some. Qed.

Lemma checked_div_Some_inv a b c : checked_div a b = Some c -> c = a / b /\ b <> 0.
Proof. unfold checked_div. case_match; [discriminate | intros [= <-]; lia]. Qed.

Lemma checked_div_Some a b : b <> 0 -> checked_div a b = Some (a / b).
Proof. unfold checked_div. intros. case_match; [lia | done]. Qed.

Lemma checked_pow_Some_inv w a n c :
  checked_pow w a n = Some c -> c = a ^ n /\ a ^ n < 2 ^ w.
Proof. apply fit_Some_inv. Qed.

Lemma wrapping_add_small w a b :
  0 <= a + b < 2 ^ w -> wrapping_add w a b = a + b.
Proof. intros. by apply Z.mod_small. Qed.

Lemma wrapping_sub_small w a b :
  0 <= a - b < 2 ^ w -> wrapping_sub w a b = a - b.
Proof. intros. by apply Z.mod_small. Qed.

Lemma in_uint_mono w w' x : 0 <= w <= w' -> in_uint w x -> in_uint w' x.
Proof. unfold in_uint. intros. pose proof (Z.pow_le_mono_r 2 w w'). lia. Qed.

Lemma u64_bound x : is_u64 x <-> 0 <= x <= u64_max.
Proof. unfold in_uint, u64_max. change (2 ^ 64) with 18446744073709551616. lia. Qed.

Lemma u8_bound x : is_u8 x <-> 0 <= x <= u8_max.
Proof. unfold in_uint, u8_max. change (2 ^ 8) with 256. lia. Qed.
End lemmas.

#[export] Hint Resolve in_uint_mono : lending.

(** Scale of precision. *)
Definition SCALE : nat := 18.
(** Identity. *)
Definition WAD : Z := 1000000000000000000.
(** Half of identity. *)
Definition HALF_WAD : Z := 500000000000000000.
(** Scale for percentages. *)
Definition PERCENT_SCALER : Z := 10000000000000000.
(** Scale for basis points. *)
Definition BPS_SCALER : Z := 100000000000000.

(** [TrySub]: subtract, an error on underflow. *)
Class TrySub (Self : Type) := try_sub : Self -> Self -> result Self.
(** [TryAdd]: add, an error on overflow. *)
Class TryAdd (Self : Type) := try_add : Self -> Self -> result Self.
(** [TryDiv<RHS>]: divide, an error on overflow or division by zero. *)
Class TryDiv (Self RHS : Type) := try_div : Self -> RHS -> result Self.
(** [TryMul<RHS>]: multiply, an error on overflow. *)
Class TryMul (Self RHS : Type) := try_mul : Self -> RHS -> result Self.


Lemma WAD_pos : 0 < WAD.
Proof. reflexivity. Qed.

Lemma scaling_constants :
  WAD = 10 ^ Z.of_nat SCALE /\ HALF_WAD * 2 = WAD /\
  PERCENT_SCALER * 100 = WAD /\ BPS_SCALER * 10000 = WAD.
Proof. repeat split. Qed.

#[export] Hint Resolve WAD_pos : lending.
