(* ===== verification/Rate.v ===== *)
(** math/rate.rs: ratios and percentages, scaled by a WAD in 128 bits. *)

From Stdlib Require Import Strings.String.
From Stdlib Require Numbers.DecimalString.
From S2P Require Import Prelude Errors Common.

(** Small decimal values, precise to 18 digits: a [U128]. *)
Record Rate : Type := mkRate { rate_raw : Z }.

#[export] Instance Rate_eq_dec : EqDecision Rate.
Proof. solve_decision. Defined.

Definition rate_wf (r : Rate) : Prop := is_u128 (rate_raw r).

(** The derived [PartialOrd]. *)
Definition rate_le (a b : Rate) : bool := rate_raw a <=? rate_raw b.
Definition rate_lt (a b : Rate) : bool := rate_raw a <? rate_raw b.
Definition rate_eqb (a b : Rate) : bool := rate_raw a =? rate_raw b.

Definition one : Rate := mkRate WAD.
Definition zero : Rate := mkRate 0.

(** Create scaled decimal from percent value ([u8], then [u64]). *)
Definition from_percent (percent : Z) : Rate := mkRate (percent * PERCENT_SCALER).
Definition from_percent_u64 (percent : Z) : Rate := mkRate (percent * PERCENT_SCALER).

(** Return raw scaled value. *)
Definition to_scaled_val (r : Rate) : Z := rate_raw r.
(** Create decimal from scaled value. *)
Definition from_scaled_val (scaled_val : Z) : Rate := mkRate scaled_val.

#[export] Instance rate_try_add : TryAdd Rate := fun a b =>
  let? c := math (checked_add 128 (rate_raw a) (rate_raw b)) in Ok (mkRate c).

#[export] Instance rate_try_sub : TrySub Rate := fun a b =>
  let? c := math (checked_sub (rate_raw a) (rate_raw b)) in Ok (mkRate c).

#[export] Instance rate_try_div_u64 : TryDiv Rate Z := fun a rhs =>
  let? c := math (checked_div (rate_raw a) rhs) in Ok (mkRate c).

#[export] Instance rate_try_div : TryDiv Rate Rate := fun a b =>
  let? p := math (checked_mul 128 (rate_raw a) WAD) in
  let? c := math (checked_div p (rate_raw b)) in Ok (mkRate c).

#[export] Instance rate_try_mul_u64 : TryMul Rate Z := fun a rhs =>
  let? c := math (checked_mul 128 (rate_raw a) rhs) in Ok (mkRate c).

#[export] Instance rate_try_mul : TryMul Rate Rate := fun a b =>
  let? p := math (checked_mul 128 (rate_raw a) (rate_raw b)) in
  let? c := math (checked_div p WAD) in Ok (mkRate c).

(** The loop of [try_pow], from its test on.  [None] stands for fuel that ran
    out; [try_pow_terminates] shows that 64 iterations exhaust a [u64]. *)
Fixpoint try_pow_loop (fuel : nat) (exp : Z) (base ret : Rate) : option (result Rate) :=
  if 0 <? exp then
    match fuel with
    | O => None
    | S fuel =>
        let exp := exp / 2 in
        match try_mul base base with
        | Ok base =>
            match (if negb (exp mod 2 =? 0) then try_mul ret base else Ok ret) with
            | Ok ret => try_pow_loop fuel exp base ret
            | err => Some err
            end
        | err => Some err
        end
    end
  else Some (Ok ret).

(** Calculates base^exp. *)
Definition try_pow (r : Rate) (exp : Z) : result Rate :=
  let ret := if negb (exp mod 2 =? 0) then r else one in
  match try_pow_loop 64 exp r ret with
  | Some res => res
  | None => Panic
  end.

(** ** Printing *)

(** [String::insert_str], for an index up to the length. *)
Fixpoint insert_str (index : nat) (t s : String.string) : String.string :=
  match index, s with
  | S index, String.String c s => String.String c (insert_str index t s)
  | _, _ => String.append t s
  end.

(** [n] zeros, joined. *)
Fixpoint zeros (n : nat) : String.string :=
  match n with O => ""%string | S n => String.append "0"%string (zeros n) end.

(** [fmt]: the digits, at least 18 of them after the point. *)
Definition fmt_scaled (raw : Z) : String.string :=
  let scaled_val := DecimalString.NilZero.string_of_uint (N.to_uint (Z.to_N raw)) in
  if (String.length scaled_val <=? SCALE)%nat then
    let scaled_val := insert_str 0 (zeros (SCALE - String.length scaled_val)) scaled_val in
    insert_str 0 "0."%string scaled_val
  else insert_str (String.length scaled_val - SCALE) "."%string scaled_val.

Definition to_string (r : Rate) : String.string := fmt_scaled (rate_raw r).

(** ** Equations of the operations *)

Section equations.
Implicit Types a b c r : Rate.

Lemma rate_eta a : mkRate (rate_raw a) = a.
Proof. by destruct a. Qed.

Lemma rate_ext a b : rate_raw a = rate_raw b -> a = b.
Proof. destruct a, b; simpl; congruence. Qed.

Lemma rate_add_inv a b c :
  try_add a b = Ok c ->
  rate_raw c = rate_raw a + rate_raw b /\ rate_raw a + rate_raw b < 2 ^ 128.
Proof.
  unfold try_add, rate_try_add. intros H. minv H.
  apply math_Ok_inv, checked_add_Some_inv in E as [-> ?]. done.
Qed.

Lemma rate_add_ok a b :
  rate_raw a + rate_raw b < 2 ^ 128 ->
  try_add a b = Ok (mkRate (rate_raw a + rate_raw b)).
Proof. intros. unfold try_add, rate_try_add. by rewrite checked_add_Some. Qed.

Lemma rate_sub_inv a b c :
  try_sub a b = Ok c ->
  rate_raw c = rate_raw a - rate_raw b /\ rate_raw b <= rate_raw a.
Proof.
  unfold try_sub, rate_try_sub. intros H. minv H.
  apply math_Ok_inv, checked_sub_Some_inv in E as [-> ?]. done.
Qed.

Lemma rate_sub_ok a b :
  rate_raw b <= rate_raw a ->
  try_sub a b = Ok (mkRate (rate_raw a - rate_raw b)).
Proof. intros. unfold try_sub, rate_try_sub. by rewrite checked_sub_Some. Qed.

Lemma rate_mul_inv a b c :
  try_mul a b = Ok c ->
  rate_raw c = rate_raw a * rate_raw b / WAD /\ rate_raw a * rate_raw b < 2 ^ 128.
Proof.
  unfold try_mul, rate_try_mul. intros H. minv H.
  apply math_Ok_inv, checked_mul_Some_inv in E as [-> ?].
  apply math_Ok_inv, checked_div_Some_inv in E0 as [-> ?]. done.
Qed.

Lemma rate_mul_ok a b :
  rate_raw a * rate_raw b < 2 ^ 128 ->
  try_mul a b = Ok (mkRate (rate_raw a * rate_raw b / WAD)).
Proof. intros. unfold try_mul, rate_try_mul. by rewrite checked_mul_Some. Qed.

Lemma rate_mul_overflow a b :
  2 ^ 128 <= rate_raw a * rate_raw b -> try_mul a b = fail (A:=Rate) MathOverflow.
Proof. intros. unfold try_mul, rate_try_mul, checked_mul. by rewrite fit_None. Qed.

Lemma rate_mul_not_panic a b : try_mul a b <> (Panic : result Rate).
Proof.
  destruct (decide (rate_raw a * rate_raw b < 2 ^ 128)).
  - by rewrite rate_mul_ok.
  - by rewrite rate_mul_overflow by lia.
Qed.

Lemma rate_div_inv a b c :
  try_div a b = Ok c ->
  rate_raw c = rate_raw a * WAD / rate_raw b /\
  rate_raw a * WAD < 2 ^ 128 /\ rate_raw b <> 0.
Proof.
  unfold try_div, rate_try_div. intros H. minv H.
  apply math_Ok_inv, checked_mul_Some_inv in E as [-> ?].
  apply math_Ok_inv, checked_div_Some_inv in E0 as [-> ?]. done.
Qed.

Lemma rate_div_ok a b :
  rate_raw a * WAD < 2 ^ 128 -> rate_raw b <> 0 ->
  try_div a b = Ok (mkRate (rate_raw a * WAD / rate_raw b)).
Proof.
  intros. unfold try_div, rate_try_div.
  rewrite checked_mul_Some by done. cbn. by rewrite checked_div_Some.
Qed.

Lemma rate_div_u64_inv a (n : Z) c :
  try_div a n = Ok c -> rate_raw c = rate_raw a / n /\ n <> 0.
Proof.
  unfold try_div, rate_try_div_u64. intros H. minv H.
  apply math_Ok_inv, checked_div_Some_inv in E as [-> ?]. done.
Qed.

Lemma rate_div_u64_ok a (n : Z) :
  n <> 0 -> try_div a n = Ok (mkRate (rate_raw a / n)).
Proof. intros. unfold try_div, rate_try_div_u64. by rewrite checked_div_Some. Qed.
End equations.
