(* ===== verification/Decimal.v ===== *)
(** math/decimal.rs: large decimal values, scaled by a WAD in 192 bits, and
    the conversion back to [Rate] (math/rate.rs). *)

From Stdlib Require Strings.String.
From S2P Require Import Prelude Errors Common Rate.

(** Large decimal values, precise to 18 digits: a [U192]. *)
Record Decimal : Type := mkDecimal { dec_raw : Z }.

#[export] Instance Decimal_eq_dec : EqDecision Decimal.
Proof. solve_decision. Defined.

Definition dec_wf (d : Decimal) : Prop := is_u192 (dec_raw d).

(** The derived [PartialOrd], [Ord], [Eq]. *)
Definition dec_le (a b : Decimal) : bool := dec_raw a <=? dec_raw b.
Definition dec_lt (a b : Decimal) : bool := dec_raw a <? dec_raw b.
Definition dec_eqb (a b : Decimal) : bool := dec_raw a =? dec_raw b.
Definition dec_cmp (a b : Decimal) : comparison := dec_raw a ?= dec_raw b.
Definition dec_min (a b : Decimal) : Decimal := if dec_le a b then a else b.
Definition dec_max (a b : Decimal) : Decimal := if dec_le a b then b else a.

Definition one : Decimal := mkDecimal WAD.
Definition zero : Decimal := mkDecimal 0.

(** Create scaled decimal from percent value. *)
Definition from_percent (percent : Z) : Decimal := mkDecimal (percent * PERCENT_SCALER).

(** [From<u64>] and [From<u128>]. *)
Definition from_int (val : Z) : Decimal := mkDecimal (WAD * val).

(** [From<Rate>]. *)
Definition from_rate (val : Rate) : Decimal := mkDecimal (Rate.to_scaled_val val).

(** Return raw scaled value if it fits within u128. *)
Definition to_scaled_val (d : Decimal) : result Z := math (fit 128 (dec_raw d)).

(** Create decimal from scaled value. *)
Definition from_scaled_val (scaled_val : Z) : Decimal := mkDecimal scaled_val.

(** Round scaled decimal to u64. *)
Definition try_round_u64 (d : Decimal) : result Z :=
  let? s := math (checked_add 192 HALF_WAD (dec_raw d)) in
  let? rounded_val := math (checked_div s WAD) in
  math (fit 64 rounded_val).

(** Ceiling scaled decimal to u64. *)
Definition try_ceil_u64 (d : Decimal) : result Z :=
  let? w := math (checked_sub WAD 1) in
  let? s := math (checked_add 192 w (dec_raw d)) in
  let? ceil_val := math (checked_div s WAD) in
  math (fit 64 ceil_val).

(** Floor scaled decimal to u64. *)
Definition try_floor_u64 (d : Decimal) : result Z :=
  let? ceil_val := math (checked_div (dec_raw d) WAD) in
  math (fit 64 ceil_val).

#[export] Instance dec_try_add : TryAdd Decimal := fun a b =>
  let? c := math (checked_add 192 (dec_raw a) (dec_raw b)) in Ok (mkDecimal c).

#[export] Instance dec_try_sub : TrySub Decimal := fun a b =>
  let? c := math (checked_sub (dec_raw a) (dec_raw b)) in Ok (mkDecimal c).

#[export] Instance dec_try_div_u64 : TryDiv Decimal Z := fun a rhs =>
  let? c := math (checked_div (dec_raw a) rhs) in Ok (mkDecimal c).

#[export] Instance dec_try_div : TryDiv Decimal Decimal := fun a b =>
  let? p := math (checked_mul 192 (dec_raw a) WAD) in
  let? c := math (checked_div p (dec_raw b)) in Ok (mkDecimal c).

#[export] Instance dec_try_div_rate : TryDiv Decimal Rate := fun a r =>
  try_div a (from_rate r).

#[export] Instance dec_try_mul_u64 : TryMul Decimal Z := fun a rhs =>
  let? c := math (checked_mul 192 (dec_raw a) rhs) in Ok (mkDecimal c).

#[export] Instance dec_try_mul : TryMul Decimal Decimal := fun a b =>
  let? p := math (checked_mul 192 (dec_raw a) (dec_raw b)) in
  let? c := math (checked_div p WAD) in Ok (mkDecimal c).

#[export] Instance dec_try_mul_rate : TryMul Decimal Rate := fun a r =>
  try_mul a (from_rate r).

(** Create scaled decimal from deca bps value (1 deca bp = 10 bps). *)
Definition from_deca_bps (deca_bps : Z) : result Decimal :=
  unwrap (try_div (from_int deca_bps) 1000).

(** Create scaled decimal from bps value. *)
Definition from_bps (bps : Z) : result Decimal :=
  unwrap (try_div (from_int bps) 10000).

(** [TryFrom<Decimal> for Rate], math/rate.rs. *)
Definition rate_try_from (d : Decimal) : result Rate :=
  let? v := to_scaled_val d in Ok (mkRate v).

(** [Display], and [Debug], which writes the same. *)
Definition to_string (d : Decimal) : String.string := fmt_scaled (dec_raw d).

(** ** Equations and inversions of the operations *)

Section equations.
Implicit Types a b c d : Decimal.

Lemma dec_ext a b : dec_raw a = dec_raw b -> a = b.
Proof. destruct a, b; simpl; congruence. Qed.

Lemma dec_min_raw a b : dec_raw (dec_min a b) = Z.min (dec_raw a) (dec_raw b).
Proof. unfold dec_min, dec_le. case_match; lia. Qed.

Lemma dec_max_raw a b : dec_raw (dec_max a b) = Z.max (dec_raw a) (dec_raw b).
Proof. unfold dec_max, dec_le. case_match; lia. Qed.

Lemma dec_eqb_eq a b : dec_eqb a b = true <-> a = b.
Proof. unfold dec_eqb. rewrite Z.eqb_eq. split; [apply dec_ext | by intros ->]. Qed.

Lemma dec_add_inv a b c :
  try_add a b = Ok c ->
  dec_raw c = dec_raw a + dec_raw b /\ dec_raw a + dec_raw b < 2 ^ 192.
Proof.
  unfold try_add, dec_try_add. intros H. minv H.
  apply math_Ok_inv, checked_add_Some_inv in E as [-> ?]. done.
Qed.

Lemma dec_add_ok a b :
  dec_raw a + dec_raw b < 2 ^ 192 ->
  try_add a b = Ok (mkDecimal (dec_raw a + dec_raw b)).
Proof. intros. unfold try_add, dec_try_add. by rewrite checked_add_Some. Qed.

Lemma dec_sub_inv a b c :
  try_sub a b = Ok c ->
  dec_raw c = dec_raw a - dec_raw b /\ dec_raw b <= dec_raw a.
Proof.
  unfold try_sub, dec_try_sub. intros H. minv H.
  apply math_Ok_inv, checked_sub_Some_inv in E as [-> ?]. done.
Qed.

Lemma dec_sub_ok a b :
  dec_raw b <= dec_raw a ->
  try_sub a b = Ok (mkDecimal (dec_raw a - dec_raw b)).
Proof. intros. unfold try_sub, dec_try_sub. by rewrite checked_sub_Some. Qed.

Lemma dec_sub_underflow a b :
  dec_raw a < dec_raw b -> try_sub a b = fail (A:=Decimal) MathOverflow.
Proof.
  intros. unfold try_sub, dec_try_sub, checked_sub.
  destruct (Z.leb_spec (dec_raw b) (dec_raw a)); [lia | done].
Qed.

Lemma dec_mul_inv a b c :
  try_mul a b = Ok c ->
  dec_raw c = dec_raw a * dec_raw b / WAD /\ dec_raw a * dec_raw b < 2 ^ 192.
Proof.
  unfold try_mul, dec_try_mul. intros H. minv H.
  apply math_Ok_inv, checked_mul_Some_inv in E as [-> ?].
  apply math_Ok_inv, checked_div_Some_inv in E0 as [-> ?]. done.
Qed.

Lemma dec_mul_ok a b :
  dec_raw a * dec_raw b < 2 ^ 192 ->
  try_mul a b = Ok (mkDecimal (dec_raw a * dec_raw b / WAD)).
Proof. intros. unfold try_mul, dec_try_mul. by rewrite checked_mul_Some. Qed.

Lemma dec_mul_rate_inv a (r : Rate) c :
  try_mul a r = Ok c ->
  dec_raw c = dec_raw a * rate_raw r / WAD /\ dec_raw a * rate_raw r < 2 ^ 192.
Proof. apply dec_mul_inv. Qed.

Lemma dec_mul_rate_ok a (r : Rate) :
  dec_raw a * rate_raw r < 2 ^ 192 ->
  try_mul a r = Ok (mkDecimal (dec_raw a * rate_raw r / WAD)).
Proof. exact (dec_mul_ok a (from_rate r)). Qed.

Lemma dec_mul_u64_inv a (n : Z) c :
  try_mul a n = Ok c ->
  dec_raw c = dec_raw a * n /\ dec_raw a * n < 2 ^ 192.
Proof.
  unfold try_mul, dec_try_mul_u64. intros H. minv H.
  apply math_Ok_inv, checked_mul_Some_inv in E as [-> ?]. done.
Qed.

Lemma dec_mul_u64_ok a (n : Z) :
  dec_raw a * n < 2 ^ 192 -> try_mul a n = Ok (mkDecimal (dec_raw a * n)).
Proof. intros. unfold try_mul, dec_try_mul_u64. by rewrite checked_mul_Some. Qed.

Lemma dec_div_inv a b c :
  try_div a b = Ok c ->
  dec_raw c = dec_raw a * WAD / dec_raw b /\
  dec_raw a * WAD < 2 ^ 192 /\ dec_raw b <> 0.
Proof.
  unfold try_div, dec_try_div. intros H. minv H.
  apply math_Ok_inv, checked_mul_Some_inv in E as [-> ?].
  apply math_Ok_inv, checked_div_Some_inv in E0 as [-> ?]. done.
Qed.

Lemma dec_div_ok a b :
  dec_raw a * WAD < 2 ^ 192 -> dec_raw b <> 0 ->
  try_div a b = Ok (mkDecimal (dec_raw a * WAD / dec_raw b)).
Proof.
  intros. unfold try_div, dec_try_div.
  rewrite checked_mul_Some by done. cbn. by rewrite checked_div_Some.
Qed.

Lemma dec_div_zero a b :
  dec_raw b = 0 -> try_div a b = fail (A:=Decimal) MathOverflow.
Proof.
  intros Hb. unfold try_div, dec_try_div, checked_mul, fit.
  case_match; cbn; [|done]. unfold checked_div. by rewrite Hb.
Qed.

Lemma dec_div_rate_inv a (r : Rate) c :
  try_div a r = Ok c ->
  dec_raw c = dec_raw a * WAD / rate_raw r /\
  dec_raw a * WAD < 2 ^ 192 /\ rate_raw r <> 0.
Proof. apply dec_div_inv. Qed.

Lemma dec_div_rate_ok a (r : Rate) :
  dec_raw a * WAD < 2 ^ 192 -> rate_raw r <> 0 ->
  try_div a r = Ok (mkDecimal (dec_raw a * WAD / rate_raw r)).
Proof. exact (dec_div_ok a (from_rate r)). Qed.

Lemma dec_div_u64_inv a (n : Z) c :
  try_div a n = Ok c -> dec_raw c = dec_raw a / n /\ n <> 0.
Proof.
  unfold try_div, dec_try_div_u64. intros H. minv H.
  apply math_Ok_inv, checked_div_Some_inv in E as [-> ?]. done.
Qed.

Lemma dec_div_u64_ok a (n : Z) :
  n <> 0 -> try_div a n = Ok (mkDecimal (dec_raw a / n)).
Proof. intros. unfold try_div, dec_try_div_u64. by rewrite checked_div_Some. Qed.

Lemma dec_floor_inv d n :
  try_floor_u64 d = Ok n -> n = dec_raw d / WAD /\ dec_raw d / WAD < 2 ^ 64.
Proof.
  unfold try_floor_u64. intros H. minv H.
  apply math_Ok_inv, checked_div_Some_inv in E as [-> _].
  apply math_Ok_inv, fit_Some_inv in H as [-> ?]. done.
Qed.

Lemma dec_floor_ok d :
  dec_raw d / WAD < 2 ^ 64 -> try_floor_u64 d = Ok (dec_raw d / WAD).
Proof. intros. unfold try_floor_u64. cbn. by rewrite fit_Some. Qed.

Lemma dec_ceil_inv d n :
  try_ceil_u64 d = Ok n ->
  n = (WAD - 1 + dec_raw d) / WAD /\ (WAD - 1 + dec_raw d) / WAD < 2 ^ 64.
Proof.
  unfold try_ceil_u64. intros H. minv H.
  apply math_Ok_inv, checked_sub_Some_inv in E as [-> _].
  apply math_Ok_inv, checked_add_Some_inv in E0 as [-> _].
  apply math_Ok_inv, checked_div_Some_inv in E1 as [-> _].
  apply math_Ok_inv, fit_Some_inv in H as [-> ?]. done.
Qed.

Lemma dec_ceil_ok d :
  (WAD - 1 + dec_raw d) / WAD < 2 ^ 64 ->
  try_ceil_u64 d = Ok ((WAD - 1 + dec_raw d) / WAD).
Proof.
  intros H. unfold try_ceil_u64.
  rewrite checked_sub_Some by (unfold WAD; lia). mred.
  rewrite checked_add_Some.
  - cbn. by rewrite fit_Some.
  - pose proof (div_mul_gt (WAD - 1 + dec_raw d) WAD WAD_pos).
    unfold WAD in *. lia.
Qed.

Lemma dec_round_inv d n :
  try_round_u64 d = Ok n ->
  n = (HALF_WAD + dec_raw d) / WAD /\ (HALF_WAD + dec_raw d) / WAD < 2 ^ 64.
Proof.
  unfold try_round_u64. intros H. minv H.
  apply math_Ok_inv, checked_add_Some_inv in E as [-> _].
  apply math_Ok_inv, checked_div_Some_inv in E0 as [-> _].
  apply math_Ok_inv, fit_Some_inv in H as [-> ?]. done.
Qed.

Lemma dec_round_ok d :
  (HALF_WAD + dec_raw d) / WAD < 2 ^ 64 ->
  try_round_u64 d = Ok ((HALF_WAD + dec_raw d) / WAD).
Proof.
  intros H. unfold try_round_u64.
  rewrite checked_add_Some.
  - cbn. by rewrite fit_Some.
  - pose proof (div_mul_gt (HALF_WAD + dec_raw d) WAD WAD_pos).
    unfold WAD, HALF_WAD in *. lia.
Qed.

Lemma to_scaled_val_inv d v : to_scaled_val d = Ok v -> v = dec_raw d /\ v < 2 ^ 128.
Proof. intros H. apply math_Ok_inv, fit_Some_inv in H as [-> ?]. done. Qed.

Lemma to_scaled_val_ok d : dec_raw d < 2 ^ 128 -> to_scaled_val d = Ok (dec_raw d).
Proof. intros. unfold to_scaled_val. by rewrite fit_Some. Qed.

Lemma rate_try_from_inv d r :
  rate_try_from d = Ok r -> rate_raw r = dec_raw d /\ dec_raw d < 2 ^ 128.
Proof.
  unfold rate_try_from. intros H. minv H.
  apply to_scaled_val_inv in E as [-> ?]. done.
Qed.

Lemma rate_try_from_ok d :
  dec_raw d < 2 ^ 128 -> rate_try_from d = Ok (mkRate (dec_raw d)).
Proof. intros. unfold rate_try_from. by rewrite to_scaled_val_ok. Qed.

Lemma from_deca_bps_eq n : from_deca_bps n = Ok (mkDecimal (WAD * n / 1000)).
Proof. reflexivity. Qed.

Lemma from_bps_eq n : from_bps n = Ok (mkDecimal (WAD * n / 10000)).
Proof. reflexivity. Qed.
End equations.
