(* ===== verification/RatePow.v ===== *)
(** Properties of [Rate::try_pow]: the loop terminates within the 64 halvings
    of a [u64], truncation only ever lowers the result, and a growth factor of
    at least one stays at least one. *)

From S2P Require Import Prelude Errors Common Rate.

(** ** The loop *)

Section loop.
Implicit Types (fuel : nat) (exp : Z) (base ret p : Rate).

Lemma try_pow_loop_done fuel exp base ret :
  exp <= 0 -> try_pow_loop fuel exp base ret = Some (Ok ret).
Proof. intros. destruct fuel; simpl; case_match; (lia || done). Qed.

(** One iteration, as the [while] loop reads. *)
Lemma try_pow_loop_step fuel exp base ret :
  0 < exp ->
  try_pow_loop (S fuel) exp base ret =
    match try_mul base base with
    | Ok base =>
        match (if negb ((exp / 2) mod 2 =? 0) then try_mul ret base else Ok ret) with
        | Ok ret => try_pow_loop fuel (exp / 2) base ret
        | err => Some err
        end
    | err => Some err
    end.
Proof. intros. simpl. case_match; [done | lia]. Qed.

Lemma try_pow_loop_enough_fuel n : forall fuel exp base ret,
  (n <= fuel)%nat -> exp < 2 ^ Z.of_nat n ->
  try_pow_loop fuel exp base ret = try_pow_loop n exp base ret /\
  exists res, try_pow_loop n exp base ret = Some res /\ res <> Panic.
Proof.
  induction n as [|n IH]; intros fuel exp base ret Hf He.
  { rewrite !try_pow_loop_done by (simpl in He; lia). eauto. }
  destruct (decide (0 < exp)); cycle 1.
  { rewrite !try_pow_loop_done by lia. eauto. }
  destruct fuel as [|fuel]; [lia|]. rewrite !try_pow_loop_step by done.
  assert (exp / 2 < 2 ^ Z.of_nat n).
  { apply Z.div_lt_upper_bound; [lia|].
    rewrite Nat2Z.inj_succ, Z.pow_succ_r in He; lia. }
  pose proof (rate_mul_not_panic base base).
  destruct (try_mul base base) as [base'| |]; [|by eauto|done].
  pose proof (rate_mul_not_panic ret base').
  destruct (negb _); [|apply IH; lia || done].
  destruct (try_mul ret base') as [ret'| |]; [|by eauto|done].
  apply IH; lia || done.
Qed.

(** Inversion of an iteration that does not fail. *)
Lemma try_pow_loop_inv fuel exp base ret p :
  0 < exp -> try_pow_loop (S fuel) exp base ret = Some (Ok p) ->
  exists base' ret',
    try_mul base base = Ok base' /\
    (if negb ((exp / 2) mod 2 =? 0) then try_mul ret base' else Ok ret) = Ok ret' /\
    try_pow_loop fuel (exp / 2) base' ret' = Some (Ok p).
Proof.
  intros He H. rewrite try_pow_loop_step in H by done.
  destruct (try_mul base base) as [base'| |]; [|discriminate..].
  destruct (if negb _ then _ else _) as [ret'| |] eqn:E in H; [|discriminate..].
  eauto.
Qed.

Lemma square_step (e b b' ret p : Z) :
  0 <= e -> 0 <= b' -> 0 <= b -> 0 <= ret -> b' * WAD <= b * b ->
  p * WAD ^ e <= ret * b' ^ e ->
  p * WAD ^ (2 * e) <= ret * b ^ (2 * e).
Proof.
  intros He Hb' Hb Hret Hsq Hp.
  pose proof WAD_pos as HW.
  rewrite !Z.pow_twice_r, Z.mul_assoc.
  assert (0 <= WAD ^ e) by (apply Z.pow_nonneg; lia).
  transitivity (ret * b' ^ e * WAD ^ e); [nia|].
  rewrite <- Z.mul_assoc, <- Z.pow_mul_l, <- Z.pow_mul_l.
  apply Z.mul_le_mono_nonneg_l; [done|]. apply Z.pow_le_mono_l. split; [apply Z.mul_nonneg_nonneg; lia | done].
Qed.

(** The product still to be computed, [ret * (base^2)^(exp/2)], bounds the
    result from above. *)
Lemma try_pow_loop_upper fuel : forall exp base ret p,
  0 <= exp -> 0 <= rate_raw base -> 0 <= rate_raw ret ->
  try_pow_loop fuel exp base ret = Some (Ok p) ->
  rate_raw p * WAD ^ (2 * (exp / 2)) <= rate_raw ret * rate_raw base ^ (2 * (exp / 2)).
Proof.
  induction fuel as [|fuel IH]; intros exp base ret p He Hb Hr H;
    (destruct (decide (exp = 0)) as [->|];
     [rewrite try_pow_loop_done in H by lia; injection H as <-; change (2 * (0 / 2)) with 0; rewrite !Z.pow_0_r; lia|]).
  { simpl in H. case_match; [discriminate | lia]. }
  apply try_pow_loop_inv in H as (base' & ret' & Hb' & Hr' & H); [|lia].
  apply rate_mul_inv in Hb' as [Hb' _].
  pose proof (div_mul_le_l (rate_raw base * rate_raw base) WAD WAD_pos) as Hsq.
  rewrite <- Hb' in Hsq.
  assert (0 <= rate_raw base') by (rewrite Hb'; eauto with lending).
  assert (0 <= exp / 2) by eauto with lending.
  apply square_step with (b' := rate_raw base'); [done..|].
  pose proof (Z.div_mod (exp / 2) 2 ltac:(lia)) as Hdm.
  destruct (Z.eqb_spec ((exp / 2) mod 2) 0) as [Hm|Hm]; simpl in Hr'.
  - injection Hr' as <-. apply IH in H; [|done..].
    rewrite Hm, Z.add_0_r in Hdm. by rewrite Hdm.
  - apply rate_mul_inv in Hr' as [Hr' _].
    pose proof (div_mul_le_l (rate_raw ret * rate_raw base') WAD WAD_pos) as Hm'.
    rewrite <- Hr' in Hm'.
    apply IH in H; [|done..|rewrite Hr'; eauto with lending].
    assert ((exp / 2) mod 2 = 1) as Hm1 by (pose proof (Z.mod_pos_bound (exp / 2) 2); lia).
    rewrite Hdm, Hm1. set (k := 2 * (exp / 2 / 2)) in *.
    assert (0 <= k) by (unfold k; lia).
    rewrite !Z.pow_add_r, !Z.pow_1_r by lia.
    assert (0 <= rate_raw base' ^ k) by (apply Z.pow_nonneg; lia).
    pose proof WAD_pos. nia.
Qed.

Lemma try_pow_loop_lower fuel : forall exp base ret p,
  WAD <= rate_raw base -> 0 <= rate_raw ret ->
  try_pow_loop fuel exp base ret = Some (Ok p) ->
  rate_raw ret <= rate_raw p.
Proof.
  induction fuel as [|fuel IH]; intros exp base ret p Hb Hr H;
    (destruct (decide (0 < exp));
     [|rewrite try_pow_loop_done in H by lia; by injection H as <-]).
  { simpl in H. case_match; [discriminate | lia]. }
  apply try_pow_loop_inv in H as (base' & ret' & Hb' & Hr' & H); [|lia].
  apply rate_mul_inv in Hb' as [Hb' _].
  pose proof WAD_pos.
  assert (WAD <= rate_raw base').
  { rewrite Hb'. transitivity (rate_raw base); [done|]. apply mul_div_ge_self; lia. }
  destruct (negb _).
  - apply rate_mul_inv in Hr' as [Hr' _].
    assert (rate_raw ret <= rate_raw ret')
      by (rewrite Hr'; apply mul_div_ge_self; lia).
    apply IH in H; lia.
  - injection Hr' as <-. by eapply IH.
Qed.
End loop.

(** ** Powers that fit

    [pow_bound n b c] follows [n] iterations on the bounds [b] of the base and [c] of
    the product, for as long as nothing overflows; the last one only squares. *)
Fixpoint pow_bound (n : nat) (b c : Z) : option Z :=
  match n with
  | O => Some c
  | S n =>
      let b' := b * b / WAD in
      if 2 ^ 128 <=? b * b then None
      else match n with
      | O => Some c
      | S _ => if 2 ^ 128 <=? c * b' then None else pow_bound n b' (c * b' / WAD)
      end
  end.

Lemma scaled_mul_mono (a b c d : Z) :
  0 <= a <= b -> 0 <= c <= d -> 0 <= a * c / WAD <= b * d / WAD.
Proof.
  intros Ha Hc. pose proof WAD_pos. split; [apply div_nonneg; nia|].
  apply Z.div_le_mono; [done|nia].
Qed.

Lemma try_pow_loop_fits n : forall fuel (exp : Z) (base ret : Rate) b c d,
  (n <= fuel)%nat -> 0 <= exp < 2 ^ Z.of_nat n -> WAD <= b -> 0 <= c ->
  0 <= rate_raw base <= b -> 0 <= rate_raw ret <= c -> pow_bound n b c = Some d ->
  exists p, try_pow_loop fuel exp base ret = Some (Ok p) /\ rate_raw p <= d /\ c <= d.
Proof.
  induction n as [|n IH]; intros fuel exp base ret b c d Hf He Hb Hc Hbase Hret H.
  { injection H as <-. rewrite try_pow_loop_done by (simpl in He; lia). exists ret. split; [done|lia]. }
  cbn [pow_bound] in H. destruct (Z.leb_spec (2 ^ 128) (b * b)) as [|Hbb]; [discriminate|].
  pose proof WAD_pos as HW. set (b' := b * b / WAD) in *.
  assert (Hb' : WAD <= b') by (transitivity b; [done|apply mul_div_ge_self; lia]).
  destruct (decide (0 < exp)) as [Hpos|]; cycle 1.
  { rewrite try_pow_loop_done by lia. exists ret. split; [done|].
    destruct n as [|n]; [injection H as <-; lia|].
    destruct (2 ^ 128 <=? c * b'); [discriminate|].
    assert (Hcc : c <= c * b' / WAD) by (apply mul_div_ge_self; lia).
    destruct (IH (S n) 0 one zero b' (c * b' / WAD) d) as (_ & _ & _ & ?);
      try done; try (cbn; lia). }
  destruct fuel as [|fuel]; [lia|]. rewrite try_pow_loop_step by done.
  assert (Hsq : rate_raw base * rate_raw base < 2 ^ 128) by nia.
  rewrite rate_mul_ok by done.
  pose proof (scaled_mul_mono _ _ _ _ Hbase Hbase) as Hbase'. fold b' in Hbase'.
  assert (He2 : 0 <= exp / 2 < 2 ^ Z.of_nat n).
  { split; [by apply Z.div_pos; lia|]. apply Z.div_lt_upper_bound; [lia|].
    rewrite Nat2Z.inj_succ, Z.pow_succ_r in He; lia. }
  destruct n as [|n].
  { injection H as <-. assert (exp / 2 = 0) as -> by (simpl in He2; lia).
    change (negb (0 mod 2 =? 0)) with false. cbn iota. rewrite try_pow_loop_done by lia. exists ret. split; [done|lia]. }
  destruct (Z.leb_spec (2 ^ 128) (c * b')); [discriminate|].
  assert (Hcc : c <= c * b' / WAD) by (apply mul_div_ge_self; lia).
  pose proof (scaled_mul_mono _ _ _ _ Hret Hbase') as Hret'.
  destruct (negb _).
  - rewrite rate_mul_ok by (cbn [rate_raw]; nia).
    destruct (IH fuel (exp / 2) (mkRate (rate_raw base * rate_raw base / WAD))
      (mkRate (rate_raw ret * (rate_raw base * rate_raw base / WAD) / WAD))
      b' (c * b' / WAD) d) as (p & Hp & Hpd & Hcd); try done; try lia.
    exists p. split; [exact Hp|]. lia.
  - destruct (IH fuel (exp / 2) (mkRate (rate_raw base * rate_raw base / WAD)) ret
      b' (c * b' / WAD) d) as (p & Hp & Hpd & Hcd); try done; try lia.
    exists p. split; [exact Hp|]. lia.
Qed.

Lemma try_pow_fits n (exp : Z) (r : Rate) b d :
  (n <= 64)%nat -> 0 <= exp < 2 ^ Z.of_nat n -> WAD <= b -> 0 <= rate_raw r <= b ->
  pow_bound n b b = Some d -> exists p, try_pow r exp = Ok p /\ rate_raw p <= d.
Proof.
  intros Hn He Hb Hr H. unfold try_pow.
  destruct (try_pow_loop_fits n 64 exp r (if negb (exp mod 2 =? 0) then r else one) b b d)
    as (p & -> & Hp & _); try done; try lia.
  { destruct (negb _); [done|]. cbn. pose proof WAD_pos. lia. }
  by exists p.
Qed.

Lemma try_pow_inv r exp p :
  try_pow r exp = Ok p ->
  try_pow_loop 64 exp r (if negb (exp mod 2 =? 0) then r else one) = Some (Ok p).
Proof. unfold try_pow. case_match; congruence. Qed.

(** A growth factor of at least one stays one. *)
Lemma try_pow_growth r exp p :
  WAD <= rate_raw r -> try_pow r exp = Ok p -> WAD <= rate_raw p.
Proof.
  intros Hr H%try_pow_inv. pose proof WAD_pos.
  apply try_pow_loop_lower in H; [|done|]; destruct (negb _); cbn [one rate_raw] in *; lia.
Qed.

(** With a bit of the exponent left, the base is a factor of the result. *)
Lemma try_pow_loop_ge_base fuel : forall exp (base ret p : Rate),
  0 < exp / 2 -> WAD <= rate_raw base -> WAD <= rate_raw ret ->
  try_pow_loop fuel exp base ret = Some (Ok p) -> rate_raw base <= rate_raw p.
Proof.
  induction fuel as [|fuel IH]; intros exp base ret p He Hb Hr H.
  all: pose proof (Z.mul_div_le exp 2 ltac:(lia)).
  { simpl in H. case_match; [discriminate|lia]. }
  apply try_pow_loop_inv in H as (base' & ret' & Hb' & Hr' & H); [|lia].
  apply rate_mul_inv in Hb' as [Hb' _]. pose proof WAD_pos.
  assert (rate_raw base <= rate_raw base') by (rewrite Hb'; apply mul_div_ge_self; lia).
  destruct (Z.eqb_spec ((exp / 2) mod 2) 0) as [Hm|Hm]; cbn [negb] in Hr'.
  - injection Hr' as <-. apply IH in H; [lia| |lia..].
    pose proof (Z.div_mod (exp / 2) 2 ltac:(lia)). lia.
  - apply rate_mul_inv in Hr' as [Hr' _].
    assert (rate_raw base' <= rate_raw ret').
    { rewrite Hr', Z.mul_comm. apply mul_div_ge_self; lia. }
    apply try_pow_loop_lower in H; lia.
Qed.

(** A positive power of a growth factor is at least the factor. *)
Lemma try_pow_ge_base (r : Rate) exp (p : Rate) :
  WAD <= rate_raw r -> 0 < exp -> try_pow r exp = Ok p -> rate_raw r <= rate_raw p.
Proof.
  intros Hr He H%try_pow_inv. pose proof WAD_pos.
  pose proof (Z.div_mod exp 2 ltac:(lia)).
  destruct (Z.eqb_spec (exp mod 2) 0) as [Hm|Hm]; cbn [negb] in H.
  - apply try_pow_loop_ge_base in H; [done|lia|done|done].
  - apply try_pow_loop_lower in H; [done|done|lia].
Qed.

(** ** The theorems *)

(** C39: [try_pow] terminates: on any [u64] exponent the loop is over after 64
    iterations (more fuel changes nothing), and it never panics. *)
Theorem try_pow_terminates (r : Rate) (exp : Z) (Hexp : is_u64 exp) :
  try_pow r exp <> Panic /\
  forall fuel base ret, (64 <= fuel)%nat ->
    try_pow_loop fuel exp base ret = try_pow_loop 64 exp base ret /\
    try_pow_loop fuel exp base ret <> None.
Proof.
  destruct Hexp as [_ Hexp]. change 64 with (Z.of_nat 64) in Hexp. split.
  - unfold try_pow.
    destruct (try_pow_loop_enough_fuel 64 64 exp r
      (if negb (exp mod 2 =? 0) then r else one)) as [_ (res & -> & Hres)];
      [lia | exact Hexp | exact Hres].
  - intros fuel base ret Hf.
    destruct (try_pow_loop_enough_fuel 64 fuel exp base ret Hf Hexp)
      as [-> (res & -> & _)]. done.
Qed.

Lemma try_pow_terminates_witness :
  is_u64 63072000 /\ try_pow one 63072000 <> Panic.
Proof. split; [by vm_compute|]. apply (try_pow_terminates one 63072000). by vm_compute. Defined.

(** [try_pow] computes base^exp from below, never above: with the scaled
    values, [p * WAD^exp <= base^exp * WAD]; and for a base of at least one and
    a positive exponent, the result is at least the base, so a growth factor
    never shrinks a debt. *)
Theorem try_pow_bounds (r p : Rate) (exp : Z)
    (Hr : rate_wf r) (Hexp : is_u64 exp) (H : try_pow r exp = Ok p) :
  rate_raw p * WAD ^ exp <= rate_raw r ^ exp * WAD /\
  (WAD <= rate_raw r -> WAD <= rate_raw p).
Proof.
  apply try_pow_inv in H. destruct Hr as [Hr _], Hexp as [Hexp _].
  pose proof WAD_pos as HW.
  pose proof (Z.div_mod exp 2 ltac:(lia)) as Hdm.
  pose proof (Z.mod_pos_bound exp 2 ltac:(lia)) as Hmb.
  assert (0 <= exp / 2) as He2 by eauto with lending.
  split.
  - pose proof (Z.pow_nonneg (rate_raw r) (2 * (exp / 2)) Hr).
    pose proof (Z.pow_nonneg WAD (2 * (exp / 2)) ltac:(lia)).
    destruct (Z.eqb_spec (exp mod 2) 0) as [Hm|Hm]; cbn [negb] in H;
      apply try_pow_loop_upper in H; try done.
    + rewrite Hm, Z.add_0_r in Hdm. rewrite Hdm at 1 2. cbn [rate_raw one] in H. nia.
    + assert (exp mod 2 = 1) as Hm1 by lia. rewrite Hm1 in Hdm.
      rewrite Hdm at 1 2. rewrite !Z.pow_add_r, !Z.pow_1_r by lia. nia.
  - intros Hone. destruct (negb _);
      apply try_pow_loop_lower in H; cbn [rate_raw one] in *; lia.
Qed.

Lemma try_pow_bounds_witness :
  exists p, try_pow (from_percent 110) 3 = Ok p /\
    rate_raw p * WAD ^ 3 <= rate_raw (from_percent 110) ^ 3 * WAD /\
    (WAD <= rate_raw (from_percent 110) -> WAD <= rate_raw p).
Proof.
  exists (mkRate 1331000000000000000). split; [by vm_compute|].
  apply (try_pow_bounds (from_percent 110) _ 3); by vm_compute.
Defined.

(** The last iteration of the loop squares a base that is not used any more:
    [try_pow] with exponent one answers the base exactly when its square fits in
    128 bits, and an overflow error otherwise, although the result itself
    always fits. *)
Theorem try_pow_one_spurious_overflow (r : Rate) :
  try_pow r 1 =
    if rate_raw r * rate_raw r <? 2 ^ 128 then Ok r else fail MathOverflow.
Proof.
  unfold try_pow. change (negb (1 mod 2 =? 0)) with true. cbn iota.
  rewrite try_pow_loop_step by lia. change (1 / 2) with 0.
  change (negb (0 mod 2 =? 0)) with false. cbn iota.
  destruct (Z.ltb_spec (rate_raw r * rate_raw r) (2 ^ 128)).
  - rewrite rate_mul_ok by done. by rewrite try_pow_loop_done.
  - by rewrite rate_mul_overflow.
Qed.
