(* ===== verification/DecimalSpec.v ===== *)
(** What [Decimal] promises: it denotes the rational [raw / WAD], addition and
    subtraction are exact, multiplication and division are the exact result
    rounded down to a multiple of one ulp, and the conversions to [u64] bracket
    the value. *)

From Stdlib Require Import QArith.
From Stdlib Require Import Strings.String.
From Stdlib Require Numbers.DecimalString Numbers.DecimalN.
From S2P Require Import Prelude Errors Common Rate Decimal.
Open Scope Z_scope.

(** The rational a decimal denotes, and the unit in the last place. *)
Definition value (d : Decimal) : Q := Qmake (dec_raw d) (Z.to_pos WAD).
Definition ulp : Q := Qmake 1 (Z.to_pos WAD).

Ltac unfold_value :=
  unfold Qminus in *;
  unfold value, ulp, Qle, Qlt, Qeq, Qmult, Qplus, Qopp in *;
  cbn [Qnum Qden] in *; rewrite ?Pos2Z.inj_mul in *; rewrite ?Z2Pos.id in * by done.

Lemma value_mul_floor (a b c : Decimal) :
  dec_raw c = dec_raw a * dec_raw b / WAD ->
  (value c <= value a * value b)%Q /\ (value a * value b < value c + ulp)%Q.
Proof.
  intros Hc.
  pose proof (div_mul_le_l (dec_raw a * dec_raw b) WAD WAD_pos) as Hl.
  pose proof (div_mul_gt (dec_raw a * dec_raw b) WAD WAD_pos) as Hg.
  rewrite <- Hc in Hl, Hg. pose proof WAD_pos. split; unfold_value; nia.
Qed.

Lemma value_div_floor (a b c : Decimal) :
  0 < dec_raw b -> dec_raw c = dec_raw a * WAD / dec_raw b ->
  (value c * value b <= value a)%Q /\ (value a < (value c + ulp) * value b)%Q.
Proof.
  intros Hb Hc.
  pose proof (div_mul_le_l (dec_raw a * WAD) (dec_raw b) Hb) as Hl.
  pose proof (div_mul_gt (dec_raw a * WAD) (dec_raw b) Hb) as Hg.
  rewrite <- Hc in Hl, Hg. pose proof WAD_pos. split; unfold_value; nia.
Qed.

(** C40: arithmetic on decimals refines arithmetic on rationals.  Sums and
    differences are exact; a product is the exact product rounded down by less
    than one ulp, and a quotient by a nonzero decimal likewise; a difference
    below zero and a division by zero are errors, and no operation panics. *)
Theorem decimal_refines_rationals (a b c : Decimal)
    (Ha : dec_wf a) (Hb : dec_wf b) :
  (try_add a b = Ok c -> (value c == value a + value b)%Q) /\
  (try_sub a b = Ok c -> (value c == value a - value b)%Q) /\
  (try_sub a b = fail (A:=Decimal) MathOverflow <-> (value a < value b)%Q) /\
  (try_mul a b = Ok c ->
     (value c <= value a * value b)%Q /\ (value a * value b < value c + ulp)%Q) /\
  (try_div a b = Ok c ->
     (value c * value b <= value a)%Q /\ (value a < (value c + ulp) * value b)%Q) /\
  (dec_raw b = 0 -> try_div a b = fail (A:=Decimal) MathOverflow).
Proof.
  unfold dec_wf, in_uint in *. repeat split.
  - intros H. apply dec_add_inv in H as [H _]. unfold_value. rewrite H. nia.
  - intros H. apply dec_sub_inv in H as [H _]. unfold_value. rewrite H. nia.
  - intros H. destruct (decide (dec_raw b <= dec_raw a)).
    + rewrite dec_sub_ok in H by done. discriminate.
    + unfold_value. pose proof WAD_pos. nia.
  - intros H. apply dec_sub_underflow. unfold_value. pose proof WAD_pos. nia.
  - apply dec_mul_inv in H as [H _]. by apply value_mul_floor.
  - apply dec_mul_inv in H as [H _]. by apply value_mul_floor.
  - apply dec_div_inv in H as (H & _ & ?). apply value_div_floor; lia.
  - apply dec_div_inv in H as (H & _ & ?). apply value_div_floor; lia.
  - apply dec_div_zero.
Qed.

Lemma decimal_refines_rationals_witness :
  dec_wf one /\ (value (from_scaled_val 333) <= value (from_scaled_val 999))%Q.
Proof.
  split; [by vm_compute|].
  destruct (decimal_refines_rationals (from_scaled_val 999) (from_int 3)
    (from_scaled_val 333)) as (_ & _ & _ & _ & H & _); [by vm_compute..|].
  destruct H as [H _]; [by vm_compute|].
  vm_compute in H |- *. discriminate.
Defined.

(** The three conversions to [u64] bracket the decimal: the floor is the
    integer part, the ceiling the least integer not below it, rounding is to
    the nearest with ties upwards; and all three succeed on, and agree about, a
    whole [u64] number. *)
Theorem rounding_brackets (d : Decimal) (f c r : Z) (Hd : dec_wf d)
    (Hf : try_floor_u64 d = Ok f) (Hc : try_ceil_u64 d = Ok c)
    (Hr : try_round_u64 d = Ok r) :
  f * WAD <= dec_raw d < (f + 1) * WAD /\
  (c - 1) * WAD < dec_raw d <= c * WAD /\
  r * WAD - HALF_WAD <= dec_raw d < r * WAD + HALF_WAD /\
  f <= r <= c /\ c <= f + 1 /\ is_u64 f /\ is_u64 c /\ is_u64 r.
Proof.
  destruct Hd as [Hd _].
  apply dec_floor_inv in Hf as [-> ?]. apply dec_ceil_inv in Hc as [-> ?].
  apply dec_round_inv in Hr as [-> ?]. unfold in_uint, WAD, HALF_WAD in *.
  repeat split; Z.div_mod_to_equations; lia.
Qed.

Lemma rounding_brackets_witness :
  dec_wf (from_percent 150) /\ 1 <= 2.
Proof.
  split; [by vm_compute|].
  destruct (rounding_brackets (from_percent 150) 1 2 2) as (_ & _ & _ & [H _] & _);
    by vm_compute.
Defined.

Lemma whole_number_conversions (n : Z) :
  is_u64 n ->
  try_floor_u64 (from_int n) = Ok n /\ try_ceil_u64 (from_int n) = Ok n /\
  try_round_u64 (from_int n) = Ok n.
Proof.
  intros Hn. unfold in_uint in Hn.
  assert (WAD * n / WAD = n /\ (WAD - 1 + WAD * n) / WAD = n /\
          (HALF_WAD + WAD * n) / WAD = n) as (H1 & H2 & H3).
  { unfold WAD, HALF_WAD. repeat split; Z.div_mod_to_equations; lia. }
  rewrite dec_floor_ok, dec_ceil_ok, dec_round_ok; cbn [from_int dec_raw];
    rewrite ?H1, ?H2, ?H3; repeat split; lia || done.
Qed.

(** ** Printing

    The text of a decimal reads back as the decimal: with the point left out, it is the
    scaled value, and there are 18 digits after the point. *)

Abbreviation append := String.append.

Lemma append_assoc (a b c : String.string) : append a (append b c) = append (append a b) c.
Proof. induction a as [|x a IH]; [done|]. cbn. by rewrite IH. Qed.

Lemma append_length (a b : String.string) :
  String.length (append a b) = (String.length a + String.length b)%nat.
Proof. induction a as [|x a IH]; [done|]. cbn. by rewrite IH. Qed.

Lemma insert_str_split (i : nat) (t s : String.string) :
  (i <= String.length s)%nat -> exists a b, s = append a b /\ String.length a = i /\
    insert_str i t s = append a (append t b).
Proof.
  revert s. induction i as [|i IH]; intros s Hi.
  { exists ""%string, s. done. }
  destruct s as [|c s]; cbn [String.length] in Hi; [lia|].
  destruct (IH s) as (a & b & Hs & Ha & Hins); [lia|].
  exists (String.String c a), b. cbn. by rewrite Hs, Ha, <- Hs, Hins.
Qed.

Lemma zeros_length (n : nat) : String.length (zeros n) = n.
Proof. induction n as [|n IH]; [done|]. cbn. by rewrite IH. Qed.

(** [n] as the number that a text reads as. *)
Definition reads_as (s : String.string) (n : N) : Prop :=
  exists u, DecimalString.NilEmpty.uint_of_string s = Some u /\ N.of_uint u = n.

Lemma zeros_read (k : nat) (s : String.string) (n : N) :
  reads_as s n -> reads_as (append (zeros k) s) n.
Proof.
  intros (u & Hu & Hn). induction k as [|k (v & Hv & Hn')]; [by exists u|].
  exists (Decimal.D0 v). cbn [zeros append DecimalString.NilEmpty.uint_of_string].
  split; [|exact Hn']. cbn. by rewrite Hv.
Qed.

Lemma digits_read (n : N) :
  reads_as (DecimalString.NilZero.string_of_uint (N.to_uint n)) n.
Proof.
  exists (N.to_uint n). split; [|apply DecimalN.Unsigned.of_to].
  destruct (N.to_uint n) eqn:E; try apply DecimalString.NilEmpty.usu.
  exfalso. apply (f_equal N.of_uint) in E as E'. rewrite DecimalN.Unsigned.of_to in E'.
  rewrite E' in E. discriminate.
Qed.

(** The printed text is a whole part and 18 digits, and reads back as the raw value. *)
Lemma fmt_scaled_reads (raw : Z) :
  0 <= raw ->
  exists whole fraction, fmt_scaled raw = append whole (append "." fraction) /\
    (0 < String.length whole)%nat /\ String.length fraction = SCALE /\
    reads_as (append whole fraction) (Z.to_N raw).
Proof.
  intros Hr. unfold fmt_scaled. pose proof (digits_read (Z.to_N raw)) as Hd.
  set (s := DecimalString.NilZero.string_of_uint _) in *.
  destruct (Nat.leb_spec (String.length s) SCALE) as [Hl|Hl].
  - exists "0"%string, (append (zeros (SCALE - String.length s)) s). split; [reflexivity|].
    split; [cbn; lia|]. rewrite append_length, zeros_length. split; [lia|].
    by apply (zeros_read 1), zeros_read.
  - destruct (insert_str_split (String.length s - SCALE) "." s) as (a & b & Hs & Ha & ->);
      [lia|].
    exists a, b. split; [done|]. rewrite <- Hs. split; [lia|].
    assert (Hlen : String.length s = (String.length a + String.length b)%nat)
      by by rewrite Hs at 1; rewrite append_length.
    split; [lia|done].
Qed.

Theorem display_reads_back (d : Decimal) (Hd : dec_wf d) :
  exists whole fraction, to_string d = append whole (append "." fraction) /\
    String.length fraction = SCALE /\
    exists n, reads_as (append whole fraction) n /\ Z.of_N n = dec_raw d.
Proof.
  destruct (fmt_scaled_reads (dec_raw d) (proj1 Hd)) as (a & b & Hs & _ & Hb & Hn).
  exists a, b. split; [exact Hs|]. split; [exact Hb|]. exists (Z.to_N (dec_raw d)).
  split; [exact Hn|]. destruct Hd. lia.
Qed.
