(* ===== verification/Codec.v ===== *)
(** Byte-level encoding shared by the account types, and the constants of state/mod.rs,
    state/reserve.rs and state/obligation.rs.

    Account data is a list of bytes.  [array_refs] cuts a slice into consecutive
    fields of the given widths, as the fixed-size array slicing that the [Pack]
    implementations are written with; integers are little-endian; a [Pubkey] is the
    256-bit number its 32 bytes denote most significant byte first, so that the
    lexicographic order of keys is the order of numbers. *)

From Stdlib Require Import Init.Byte.
From coqutil Require Import Word.LittleEndianList.
From S2P Require Import Prelude Errors Common Rate Decimal.

Create Rewrite HintDb lengths.
Create Rewrite HintDb unpack.

Abbreviation bytes := (list Byte.byte).

#[export] Instance byte_eq_decision : EqDecision Byte.byte := Byte.byte_eq_dec.

Definition zero_bytes (n : nat) : bytes := replicate n Byte.x00.

(** [to_le_bytes] and [from_le_bytes] of an [8*n]-bit integer. *)
Definition to_le_bytes (n : nat) (x : Z) : bytes := LittleEndianList.le_split n x.
Definition from_le_bytes (bs : bytes) : Z := LittleEndianList.le_combine bs.

(** ** Public keys *)

Definition Pubkey : Type := Z.
Definition PUBKEY_BYTES : nat := 32.
Definition pubkey_to_bytes (k : Pubkey) : bytes := rev (to_le_bytes PUBKEY_BYTES k).
Definition pubkey_from_bytes (bs : bytes) : Pubkey := from_le_bytes (rev bs).

(** ** Slices *)

Fixpoint array_refs (widths : list nat) (bs : bytes) : list bytes :=
  match widths with
  | [] => []
  | w :: widths => take w bs :: array_refs widths (drop w bs)
  end.

Fixpoint total_width (widths : list nat) : nat :=
  match widths with
  | [] => 0%nat
  | w :: widths => (w + total_width widths)%nat
  end.

(** The bytes of field number [i]: what a [pack] that leaves a field alone
    keeps of its destination. *)
Definition field_at (widths : list nat) (i : nat) (bs : bytes) : bytes :=
  nth i (array_refs widths bs) [].

(** ** state/mod.rs *)

Definition pack_decimal (d : Decimal) : result bytes :=
  let? v := unwrap (to_scaled_val d) in Ok (to_le_bytes 16 v).

Definition unpack_decimal (src : bytes) : Decimal :=
  from_scaled_val (from_le_bytes src).

Definition pack_bool (b : bool) : bytes := to_le_bytes 1 (if b then 1 else 0).

Definition unpack_bool (src : bytes) : result bool :=
  match from_le_bytes src with
  | 0 => Ok false
  | 1 => Ok true
  | _ => Err InvalidAccountData
  end.

(** ** Lengths *)

Lemma length_to_le_bytes n x : length (to_le_bytes n x) = n.
Proof. apply LittleEndianList.length_le_split. Qed.

Lemma length_pubkey_to_bytes k : length (pubkey_to_bytes k) = PUBKEY_BYTES.
Proof. unfold pubkey_to_bytes. by rewrite length_rev, length_to_le_bytes. Qed.

Lemma length_zero_bytes n : length (zero_bytes n) = n.
Proof. apply length_replicate. Qed.

Lemma length_pack_bool b : length (pack_bool b) = 1%nat.
Proof. apply length_to_le_bytes. Qed.

Lemma length_pack_decimal d bs : pack_decimal d = Ok bs -> length bs = 16%nat.
Proof. unfold pack_decimal. intros H. minv H. apply length_to_le_bytes. Qed.

(** ** Round trips of the scalar fields *)

Lemma from_to_le_bytes n x :
  in_uint (8 * Z.of_nat n) x -> from_le_bytes (to_le_bytes n x) = x.
Proof.
  intros Hx. unfold from_le_bytes, to_le_bytes.
  rewrite LittleEndianList.le_combine_split, (Z.mul_comm _ 8).
  apply Z.mod_small, Hx.
Qed.

Lemma from_le_bytes_range bs : in_uint (8 * Z.of_nat (length bs)) (from_le_bytes bs).
Proof. apply LittleEndianList.le_combine_bound. Qed.

Lemma to_from_le_bytes n bs : length bs = n -> to_le_bytes n (from_le_bytes bs) = bs.
Proof. apply LittleEndianList.split_le_combine'. Qed.

Lemma pubkey_from_to_bytes k : is_u256 k -> pubkey_from_bytes (pubkey_to_bytes k) = k.
Proof.
  intros Hk. unfold pubkey_from_bytes, pubkey_to_bytes.
  by rewrite rev_involutive, from_to_le_bytes.
Qed.

Lemma pubkey_from_bytes_range bs :
  length bs = PUBKEY_BYTES -> is_u256 (pubkey_from_bytes bs).
Proof.
  intros Hl. unfold pubkey_from_bytes.
  pose proof (from_le_bytes_range (rev bs)) as H. by rewrite length_rev, Hl in H.
Qed.

Lemma pubkey_to_from_bytes bs :
  length bs = PUBKEY_BYTES -> pubkey_to_bytes (pubkey_from_bytes bs) = bs.
Proof.
  intros Hl. unfold pubkey_from_bytes, pubkey_to_bytes.
  rewrite to_from_le_bytes by (by rewrite length_rev). apply rev_involutive.
Qed.

Lemma pubkey_to_bytes_inj k1 k2 :
  is_u256 k1 -> is_u256 k2 -> pubkey_to_bytes k1 = pubkey_to_bytes k2 -> k1 = k2.
Proof.
  intros H1 H2 H. rewrite <- (pubkey_from_to_bytes k1), <- (pubkey_from_to_bytes k2) by done.
  by rewrite H.
Qed.

Lemma unpack_pack_bool b : unpack_bool (pack_bool b) = Ok b.
Proof. by destruct b. Qed.

Definition dec_u128 (d : Decimal) : Prop := is_u128 (dec_raw d).

Lemma pack_decimal_ok d :
  dec_u128 d -> pack_decimal d = Ok (to_le_bytes 16 (dec_raw d)).
Proof. intros [_ H]. unfold pack_decimal. by rewrite to_scaled_val_ok. Qed.

Lemma pack_decimal_panics d : 2 ^ 128 <= dec_raw d -> pack_decimal d = Panic.
Proof. intros H. unfold pack_decimal, to_scaled_val. by rewrite fit_None. Qed.

Lemma pack_decimal_inv d bs :
  pack_decimal d = Ok bs -> bs = to_le_bytes 16 (dec_raw d) /\ dec_raw d < 2 ^ 128.
Proof.
  unfold pack_decimal. intros H. minv H.
  apply unwrap_Ok_inv in E. by apply to_scaled_val_inv in E as [-> ?].
Qed.

Lemma unpack_pack_decimal d :
  dec_u128 d -> unpack_decimal (to_le_bytes 16 (dec_raw d)) = d.
Proof.
  intros H. unfold unpack_decimal. rewrite from_to_le_bytes by exact H. by destruct d.
Qed.

Lemma unpack_decimal_u128 bs : length bs = 16%nat -> dec_u128 (unpack_decimal bs).
Proof.
  intros Hl. unfold dec_u128, unpack_decimal. cbn.
  pose proof (from_le_bytes_range bs) as H. by rewrite Hl in H.
Qed.

(** ** Slicing what was concatenated *)

Lemma array_refs_concat (fields : list bytes) : forall rest,
  array_refs (length <$> fields) (concat fields ++ rest) = fields.
Proof.
  induction fields as [|f fields IH]; intros rest; simpl; [done|].
  rewrite <- app_assoc. f_equal.
  - apply take_app_length.
  - rewrite drop_app_length. apply IH.
Qed.

Lemma array_refs_fields widths fields rest :
  length <$> fields = widths -> array_refs widths (concat fields ++ rest) = fields.
Proof. intros <-. apply array_refs_concat. Qed.

Lemma length_concat_fields (fields : list bytes) :
  length (concat fields) = total_width (length <$> fields).
Proof. induction fields as [|f fields IH]; csimpl; [done|]. by rewrite length_app, IH. Qed.

Lemma length_array_refs widths bs : length (array_refs widths bs) = length widths.
Proof. revert bs. induction widths; intros; simpl; [done|]. by rewrite IHwidths. Qed.

Lemma array_refs_widths widths : forall bs,
  (total_width widths <= length bs)%nat -> length <$> array_refs widths bs = widths.
Proof.
  induction widths as [|w widths IH]; intros bs H; simpl in *; [done|].
  f_equal; [rewrite length_take; lia | apply IH; rewrite length_drop; lia].
Qed.

Lemma concat_array_refs widths : forall bs,
  length bs = total_width widths -> concat (array_refs widths bs) = bs.
Proof.
  induction widths as [|w widths IH]; intros bs H; simpl in *.
  - by apply nil_length_inv in H.
  - rewrite IH by (rewrite length_drop; lia). apply take_drop.
Qed.

Lemma length_field_at widths i bs w :
  (total_width widths <= length bs)%nat -> widths !! i = Some w ->
  length (field_at widths i bs) = w.
Proof.
  intros Hl Hi. unfold field_at.
  pose proof (array_refs_widths widths bs Hl) as Hw.
  rewrite <- Hw, list_lookup_fmap in Hi.
  apply fmap_Some in Hi as (f & Hf & ->).
  by rewrite (nth_lookup_Some _ _ _ _ Hf).
Qed.

(** Reading back a packed structure: its fields come out as they went in. *)
Lemma array_refs_packed widths n (fields : list bytes) rest :
  length <$> fields = widths -> total_width widths = n ->
  array_refs widths (take n (concat fields ++ rest)) = fields.
Proof.
  intros Hw Hn. rewrite take_app_length'.
  - rewrite <- (app_nil_r (concat fields)). by apply array_refs_fields.
  - by rewrite length_concat_fields, Hw.
Qed.

Lemma length_packed widths n (fields : list bytes) (dst : bytes) :
  length <$> fields = widths -> total_width widths = n -> (n <= length dst)%nat ->
  length (concat fields ++ drop n dst) = length dst.
Proof.
  intros Hw Hn Hl. rewrite length_app, length_concat_fields, Hw, Hn, length_drop. lia.
Qed.

#[export] Hint Rewrite length_to_le_bytes length_pubkey_to_bytes length_zero_bytes
  length_pack_bool : lengths.
#[export] Hint Rewrite unpack_pack_bool : unpack.
#[export] Hint Resolve length_to_le_bytes length_pubkey_to_bytes length_pack_bool
  length_zero_bytes length_pack_decimal unpack_decimal_u128 pubkey_from_bytes_range
  : lending.

(** Collateral tokens are initially valued at this ratio. *)
Definition INITIAL_COLLATERAL_RATIO : Z := 1.
Definition INITIAL_COLLATERAL_RATE : Z := INITIAL_COLLATERAL_RATIO * WAD.

(** Current version of the program and all new accounts created. *)
Definition PROGRAM_VERSION : Z := 1.
(** The version of an account that is still zeroed out. *)
Definition UNINITIALIZED_VERSION : Z := 0.

(** Number of slots per year. *)
Definition SLOTS_PER_YEAR : Z := 63072000.

(** state/reserve.rs *)

(** Percentage of an obligation that can be repaid during each liquidation call. *)
Definition LIQUIDATION_CLOSE_FACTOR : Z := 20.
(** Obligation borrow amount that is small enough to close out. *)
Definition LIQUIDATION_CLOSE_AMOUNT : Z := 2.
(** Maximum quote currency value that can be liquidated in one call. *)
Definition MAX_LIQUIDATABLE_VALUE_AT_ONCE : Z := 500000.
(** Maximum bonus received during liquidation, protocol fee included. *)
Definition MAX_BONUS_PCT : Z := 25.
(** Maximum protocol liquidation fee in deca bps. *)
Definition MAX_PROTOCOL_LIQUIDATION_FEE_DECA_BPS : Z := 50.

(** state/obligation.rs *)

(** Max number of collateral and liquidity reserve accounts combined. *)
Definition MAX_OBLIGATION_RESERVES : nat := 10.
