(* ===== verification/LastUpdate.v ===== *)
(** state/last_update.rs: the slot of the last refresh and its staleness. *)

From S2P Require Import Prelude Errors Common.

(** Number of slots to consider stale after. *)
Definition STALE_AFTER_SLOTS_ELAPSED : Z := 1.

(** Last update state. *)
Record LastUpdate : Type := mkLastUpdate {
  slot : Z;
  stale : bool;
}.

#[export] Instance LastUpdate_eq_dec : EqDecision LastUpdate.
Proof. solve_decision. Defined.

(** [PartialEq] and [PartialOrd] of the source compare the slots only. *)
Definition last_update_eqb (a b : LastUpdate) : bool := slot a =? slot b.
Definition last_update_cmp (a b : LastUpdate) : comparison := slot a ?= slot b.

(** [Default] and [new]. *)
Definition default : LastUpdate := mkLastUpdate 0 false.
Definition new (slot : Z) : LastUpdate := mkLastUpdate slot true.

(** Return slots elapsed since given slot. *)
Definition slots_elapsed (self : LastUpdate) (cur_slot : Z) : result Z :=
  math (checked_sub cur_slot (slot self)).

(** Set last update slot. *)
Definition update_slot (self : LastUpdate) (cur_slot : Z) : LastUpdate :=
  mkLastUpdate cur_slot false.

(** Set stale to true. *)
Definition mark_stale (self : LastUpdate) : LastUpdate := mkLastUpdate (slot self) true.

(** Check if marked stale or last update slot is too long ago. *)
Definition is_stale (self : LastUpdate) (cur_slot : Z) : result bool :=
  if stale self then Ok true
  else
    let? elapsed := slots_elapsed self cur_slot in
    Ok (STALE_AFTER_SLOTS_ELAPSED <=? elapsed).

Definition last_update_wf (u : LastUpdate) : Prop := is_u64 (slot u).

Lemma slots_elapsed_inv u s n :
  slots_elapsed u s = Ok n -> n = s - slot u /\ slot u <= s.
Proof. intros H. by apply math_Ok_inv, checked_sub_Some_inv in H. Qed.

(** Fresh means: refreshed in this very slot and not touched since. *)
Lemma is_stale_false u s : is_stale u s = Ok false <-> stale u = false /\ slot u = s.
Proof.
  unfold is_stale. destruct (stale u); [split; [discriminate | by intros [? _]]|].
  unfold slots_elapsed, checked_sub, STALE_AFTER_SLOTS_ELAPSED.
  case_match eqn:Hle; mred.
  - split; [intros [= H] | intros [_ ?]; f_equal]; lia.
  - split; [discriminate | intros [_ ?]; lia].
Qed.

Lemma is_stale_not_panic u s : is_stale u s <> Panic.
Proof.
  unfold is_stale. destruct (stale u); [done|].
  apply obind_not_panic; [apply math_not_panic | done].
Qed.

Lemma is_stale_update_slot u s : is_stale (update_slot u s) s = Ok false.
Proof. by apply is_stale_false. Qed.

Lemma is_stale_mark_stale u s : is_stale (mark_stale u) s = Ok true.
Proof. reflexivity. Qed.

#[export] Hint Resolve is_stale_not_panic : lending.
