(* ===== verification/RateLimiter.v ===== *)
(** state/rate_limiter.rs: the sliding-window outflow limiter.

    A method that takes [&mut self] returns the new value of [self] with its
    result.  When it fails, the partially updated [self] is dropped: every
    caller propagates the error, which undoes the instruction. *)

From S2P Require Import Prelude Errors Common Rate Decimal Codec.

(** Rate limiter configuration parameters. *)
Record RateLimiterConfig : Type := mkRateLimiterConfig {
  window_duration : Z;
  max_outflow : Z;
}.

#[export] Instance RateLimiterConfig_eq_dec : EqDecision RateLimiterConfig.
Proof. solve_decision. Defined.

Definition rate_limiter_config_default : RateLimiterConfig := mkRateLimiterConfig 0 0.

(** Sliding Window Rate limiter. *)
Record RateLimiter : Type := mkRateLimiter {
  config : RateLimiterConfig;
  prev_qty : Decimal;
  window_start : Z;
  cur_qty : Decimal;
}.

#[export] Instance RateLimiter_eq_dec : EqDecision RateLimiter.
Proof. solve_decision. Defined.

(** Initialize rate limiter. *)
Definition new (config : RateLimiterConfig) (cur_slot : Z) : RateLimiter :=
  let slot_start :=
    if negb (window_duration config =? 0)
    then cur_slot / window_duration config * window_duration config
    else cur_slot in
  mkRateLimiter config Decimal.zero slot_start Decimal.zero.

Definition default : RateLimiter := new (mkRateLimiterConfig 1 u64_max) 1.

Definition _update (self : RateLimiter) (cur_slot : Z) : result RateLimiter :=
  reject_if cur_slot <? window_start self with lending_error InvalidAccountInput then
  let d := window_duration (config self) in
  (* floor wrt window duration; dividing by zero panics *)
  let? q := unwrap_option (checked_div cur_slot d) in
  let cur_slot_start := q * d in
  match cur_slot_start ?= wrapping_add 64 (window_start self) d with
  | Lt => Ok self
  | Eq => Ok (mkRateLimiter (config self) (cur_qty self) cur_slot_start Decimal.zero)
  | Gt => Ok (mkRateLimiter (config self) Decimal.zero cur_slot_start Decimal.zero)
  end.

(** Calculate current outflow. Must only be called after [_update]. *)
Definition current_outflow (self : RateLimiter) (cur_slot : Z) : result Decimal :=
  let d := window_duration (config self) in
  reject_if d =? 0 with lending_error InvalidAccountInput then
  let in_window := wrapping_add 64 (wrapping_sub 64 cur_slot (window_start self)) 1 in
  let? left := try_sub (from_int d) (from_int in_window) in
  let? prev_weight := try_div left d in
  let? prev := try_mul prev_weight (prev_qty self) in
  try_add prev (cur_qty self).

(** Calculate remaining outflow for the current window. *)
Definition remaining_outflow (self : RateLimiter) (cur_slot : Z)
    : result (RateLimiter * Decimal) :=
  if window_duration (config self) =? 0 then Ok (self, from_int u64_max)
  else
    let? self := _update self cur_slot in
    let? cur_outflow := current_outflow self cur_slot in
    if dec_lt (from_int (max_outflow (config self))) cur_outflow
    then Ok (self, Decimal.zero)
    else
      let? diff := try_sub (from_int (max_outflow (config self))) cur_outflow in
      Ok (self, diff).

(** Update rate limiter with new quantity. Errors if rate limit has been reached. *)
Definition update (self : RateLimiter) (cur_slot : Z) (qty : Decimal)
    : result RateLimiter :=
  if window_duration (config self) =? 0 then Ok self
  else
    let? self := _update self cur_slot in
    let? cur_outflow := current_outflow self cur_slot in
    let? total := try_add cur_outflow qty in
    reject_if dec_lt (from_int (max_outflow (config self))) total
      with lending_error OutflowRateLimitExceeded then
    let? cur_qty := try_add (cur_qty self) qty in
    Ok (mkRateLimiter (config self) (prev_qty self) (window_start self) cur_qty).

(** ** Packed layout *)

Definition RATE_LIMITER_LEN : nat := 56.
Definition rate_limiter_widths : list nat := [8; 8; 16; 8; 16]%nat.

Definition is_initialized (self : RateLimiter) : bool := true.

Definition pack_into_slice (self : RateLimiter) (dst : bytes) : result bytes :=
  if (length dst <? RATE_LIMITER_LEN)%nat then Panic
  else
    let? prev := pack_decimal (prev_qty self) in
    let? cur := pack_decimal (cur_qty self) in
    Ok (concat
          [to_le_bytes 8 (max_outflow (config self));
           to_le_bytes 8 (window_duration (config self));
           prev;
           to_le_bytes 8 (window_start self);
           cur]
        ++ drop RATE_LIMITER_LEN dst).

Definition unpack_from_slice (src : bytes) : result RateLimiter :=
  if (length src <? RATE_LIMITER_LEN)%nat then Panic
  else
    match array_refs rate_limiter_widths (take RATE_LIMITER_LEN src) with
    | [config_max_outflow_src; config_window_duration_src; prev_qty_src;
       window_start_src; cur_qty_src] =>
        Ok (mkRateLimiter
              (mkRateLimiterConfig
                 (from_le_bytes config_window_duration_src)
                 (from_le_bytes config_max_outflow_src))
              (unpack_decimal prev_qty_src)
              (from_le_bytes window_start_src)
              (unpack_decimal cur_qty_src))
    | _ => Panic
    end.

(** The values a packed limiter can hold. *)
Definition rate_limiter_config_wf (c : RateLimiterConfig) : Prop :=
  is_u64 (window_duration c) /\ is_u64 (max_outflow c).

Definition rate_limiter_wf (r : RateLimiter) : Prop :=
  rate_limiter_config_wf (config r) /\ dec_u128 (prev_qty r) /\
  is_u64 (window_start r) /\ dec_u128 (cur_qty r).
