(* ===== verification/RateLimiterSpec.v ===== *)
(** What the rate limiter promises: its packed form reads back, and the outflow
    it admits in any sliding window is at most twice the configured maximum. *)

From S2P Require Import Prelude Errors Common Rate Decimal Codec RateLimiter.

(** ** Packing *)

Lemma pack_into_slice_ok r dst :
  rate_limiter_wf r -> (RATE_LIMITER_LEN <= length dst)%nat ->
  exists fields,
    pack_into_slice r dst = Ok (concat fields ++ drop RATE_LIMITER_LEN dst) /\
    length <$> fields = rate_limiter_widths /\
    forall rest, unpack_from_slice (concat fields ++ rest) = Ok r.
Proof.
  intros ((Hd & Hm) & Hp & Hs & Hc) Hl.
  unfold pack_into_slice. rewrite !pack_decimal_ok by done. mred.
  destruct (Nat.ltb_spec (length dst) RATE_LIMITER_LEN); [lia|].
  eexists. split; [done|]. split; [by cbn; autorewrite with lengths|].
  intros rest. unfold unpack_from_slice.
  rewrite array_refs_packed by (by cbn; autorewrite with lengths).
  rewrite length_app, length_concat_fields. cbn [fmap list_fmap].
  autorewrite with lengths.
  destruct (Nat.ltb_spec (total_width [8; 8; 16; 8; 16] + length rest)%nat RATE_LIMITER_LEN)
    as [Hlt|]; [cbn in Hlt; unfold RATE_LIMITER_LEN in Hlt; lia|].
  rewrite !unpack_pack_decimal, !from_to_le_bytes by done. by destruct r as [[]].
Qed.

(** ** Windows *)

Section window.
Implicit Types (r : RateLimiter) (s d m : Z).

Definition aligned r : Prop :=
  window_start r mod window_duration (config r) = 0.

Lemma new_window_start c s :
  window_duration c <> 0 ->
  window_start (new c s) = s / window_duration c * window_duration c.
Proof. intros. unfold new. cbn. case_match; [done | lia]. Qed.

Lemma floor_mult_bounds s d :
  0 < d -> 0 <= s -> s / d * d <= s < s / d * d + d /\ 0 <= s / d * d.
Proof.
  intros Hd Hs. pose proof (div_mul_le_l s d Hd). pose proof (div_mul_gt s d Hd).
  pose proof (div_nonneg s d Hs Hd). nia.
Qed.

(** [_update] lands on the window that contains the current slot. *)
Lemma update_window_inv r s r' (d := window_duration (config r)) :
  0 < d < 2 ^ 63 -> 0 <= window_start r -> 0 <= s < 2 ^ 63 -> aligned r ->
  _update r s = Ok r' ->
  config r' = config r /\ aligned r' /\ window_start r <= s /\
  window_start r' <= s < window_start r' + d /\ 0 <= window_start r' /\
  ((r' = r) \/
   (window_start r' = window_start r + d /\ prev_qty r' = cur_qty r /\
    dec_raw (cur_qty r') = 0) \/
   (window_start r + 2 * d <= window_start r' /\ dec_raw (prev_qty r') = 0 /\
    dec_raw (cur_qty r') = 0)).
Proof.
  intros Hd Hw Hs Ha H. unfold _update in H. minv H. fold d in E, H, Ha.
  apply unwrap_option_Ok_inv, checked_div_Some_inv in E as [-> _].
  unfold aligned in *. fold d in Ha.
  pose proof (floor_mult_bounds s d ltac:(lia) ltac:(lia)) as (Hb1 & Hb2).
  rewrite wrapping_add_small in H by lia.
  apply Z.mod_divide in Ha as [k Hk]; [|lia].
  destruct (Z.compare_spec (s / d * d) (window_start r + d)) as [Heq|Hlt|Hgt];
    injection H as <-; cbn [config window_start prev_qty cur_qty]; fold d.
  - repeat split; try lia. { apply Z.mod_mul. lia. } right. left. repeat split; lia.
  - repeat split; try lia. { rewrite Hk. apply Z.mod_mul. lia. }
    { assert (s / d <= k) by nia. nia. } auto.
  - repeat split; try lia. { apply Z.mod_mul. lia. }
    right. right. repeat split; try done. assert (k + 2 <= s / d) by nia. nia.
Qed.

(** What an accepted quantity left of the current window. *)
Lemma current_outflow_lower r s o :
  dec_wf (prev_qty r) -> current_outflow r s = Ok o ->
  dec_raw (cur_qty r) <= dec_raw o.
Proof.
  intros [Hp _] H. unfold current_outflow in H. minv H.
  apply dec_add_inv in H as [-> _]. apply dec_mul_inv in E1 as [-> _].
  apply dec_div_u64_inv in E0 as [-> ?]. apply dec_sub_inv in E as [-> ?].
  cbn [from_int dec_raw] in *.
  assert (0 <= WAD * window_duration (config r) - WAD *
    wrapping_add 64 (wrapping_sub 64 s (window_start r)) 1) by lia.
  destruct (Z.eqb_spec (window_duration (config r)) 0); [discriminate|].
  destruct (decide (0 < window_duration (config r))).
  - enough (0 <= (WAD * window_duration (config r) - WAD *
      wrapping_add 64 (wrapping_sub 64 s (window_start r)) 1)
      / window_duration (config r) * dec_raw (prev_qty r) / WAD) by lia.
    eauto 6 with lending.
  - exfalso.
    pose proof (Z.mod_pos_bound (wrapping_sub 64 s (window_start r) + 1) (2 ^ 64)
      ltac:(lia)) as Hm. unfold wrapping_add in *. unfold WAD in *. lia.
Qed.
End window.

(** ** Histories *)

(** The quantities admitted at slots in [[lo, hi]]. *)
Fixpoint outflow (log : list (Z * Decimal)) (lo hi : Z) : Z :=
  match log with
  | [] => 0
  | (s, q) :: log => (if (lo <=? s) && (s <=? hi) then dec_raw q else 0) + outflow log lo hi
  end.

(** The states a limiter goes through: created at some slot, then queried and
    updated at slots that never decrease, logging each admitted quantity. *)
Inductive history (c : RateLimiterConfig) : RateLimiter -> list (Z * Decimal) -> Z -> Prop :=
  | history_new s :
      0 <= s < 2 ^ 63 -> history c (new c s) [] s
  | history_update r log now s q r' :
      history c r log now -> now <= s < 2 ^ 63 -> dec_wf q ->
      update r s q = Ok r' -> history c r' ((s, q) :: log) s
  | history_remaining r log now s r' q :
      history c r log now -> now <= s < 2 ^ 63 ->
      remaining_outflow r s = Ok (r', q) -> history c r' log s.

Section outflow.
Implicit Types (log : list (Z * Decimal)) (lo mid hi : Z).

Definition quantities_ok log : Prop := Forall (fun e => 0 <= dec_raw e.2) log.

Lemma outflow_nonneg log lo hi : quantities_ok log -> 0 <= outflow log lo hi.
Proof. induction 1 as [|[s q] log Hq _ IH]; simpl in *; [lia|]. case_match; lia. Qed.

Lemma outflow_mono log lo hi lo' hi' :
  quantities_ok log -> lo' <= lo -> hi <= hi' -> outflow log lo hi <= outflow log lo' hi'.
Proof.
  intros H ? ?. induction H as [|[s q] log Hq _ IH]; simpl in *; [lia|].
  destruct ((lo <=? s) && (s <=? hi)) eqn:?, ((lo' <=? s) && (s <=? hi')) eqn:?; lia.
Qed.

Lemma outflow_split log lo mid hi :
  lo - 1 <= mid <= hi -> outflow log lo hi = outflow log lo mid + outflow log (mid + 1) hi.
Proof.
  intros ?. induction log as [|[s q] log IH]; simpl; [lia|].
  destruct ((lo <=? s) && (s <=? hi)) eqn:?, ((lo <=? s) && (s <=? mid)) eqn:?,
    ((mid + 1 <=? s) && (s <=? hi)) eqn:?; lia.
Qed.

Lemma slots_below_mono log (a b : Z) :
  Forall (fun e => e.1 < a) log -> a <= b -> Forall (fun e => e.1 < b) log.
Proof. intros H ?. induction H; constructor; [lia | done]. Qed.

Lemma outflow_outside log lo hi :
  Forall (fun e => e.1 < lo) log -> outflow log lo hi = 0.
Proof.
  induction 1 as [|[s q] log Hs _ IH]; simpl in *; [done|].
  destruct (lo <=? s) eqn:?; simpl; lia.
Qed.
End outflow.

(** The bookkeeping of a limiter with a nonempty window is exact, and neither
    window holds more than the maximum. *)
Record history_inv (c : RateLimiterConfig) (r : RateLimiter)
    (log : list (Z * Decimal)) (now : Z) : Prop := {
  inv_config : config r = c;
  inv_aligned : aligned r;
  inv_start : 0 <= window_start r <= now;
  inv_now : now < 2 ^ 63;
  inv_quantities : quantities_ok log;
  inv_slots : Forall (fun e => e.1 < window_start r + window_duration c) log;
  inv_prev : dec_raw (prev_qty r) =
    outflow log (window_start r - window_duration c) (window_start r - 1);
  inv_cur : dec_raw (cur_qty r) =
    outflow log (window_start r) (window_start r + window_duration c - 1);
  inv_prev_max : dec_raw (prev_qty r) <= WAD * max_outflow c;
  inv_cur_max : dec_raw (cur_qty r) <= WAD * max_outflow c;
}.

Section invariant.
Context (c : RateLimiterConfig) (Hd : 0 < window_duration c < 2 ^ 63)
  (Hm : is_u64 (max_outflow c)).
Implicit Types (r : RateLimiter) (log : list (Z * Decimal)) (s now : Z).

Lemma inv_new s : 0 <= s < 2 ^ 63 -> history_inv c (new c s) [] s.
Proof.
  intros Hs. pose proof (floor_mult_bounds s (window_duration c)) as Hb.
  pose proof WAD_pos. unfold in_uint in Hm.
  split; rewrite ?new_window_start by lia; try done; try (simpl; lia); try lia.
  { unfold aligned. rewrite new_window_start by lia. apply Z.mod_mul. simpl. lia. }
  all: constructor.
Qed.

(** Moving to the current window keeps the books. *)
Lemma inv_move r log now s r' :
  history_inv c r log now -> now <= s < 2 ^ 63 -> _update r s = Ok r' ->
  history_inv c r' log s /\ s < window_start r' + window_duration c.
Proof.
  intros [Hc Ha Hw Hn Hq Hs Hp Hcur Hpm Hcm] Hns H.
  pose proof WAD_pos. unfold in_uint in Hm.
  apply update_window_inv in H as (Hc' & Ha' & Hle & Hin & Hpos & Hcase);
    rewrite ?Hc in *; try done; try lia.
  split; [|lia].
  destruct Hcase as [->|[(Hw' & Hp' & Hcur')|(Hw' & Hp' & Hcur')]]; split; try done; try lia.
  - apply (slots_below_mono _ _ _ Hs). lia.
  - rewrite Hp', Hcur, Hw'. f_equal; lia.
  - rewrite Hcur', outflow_outside; [done|]. by rewrite Hw'.
  - by rewrite Hp'.
  - apply (slots_below_mono _ _ _ Hs). lia.
  - rewrite Hp', outflow_outside; [done|]. apply (slots_below_mono _ _ _ Hs). lia.
  - rewrite Hcur', outflow_outside; [done|]. apply (slots_below_mono _ _ _ Hs). lia.
Qed.

Lemma inv_prev_wf r log now : history_inv c r log now -> dec_wf (prev_qty r).
Proof.
  intros [? ? ? ? Hq ? Hp ? Hpm ?]. split.
  - rewrite Hp. by apply outflow_nonneg.
  - unfold in_uint in Hm. unfold WAD in *. lia.
Qed.

Lemma inv_admit r log now s q r' :
  history_inv c r log now -> now <= s < 2 ^ 63 -> dec_wf q ->
  update r s q = Ok r' -> history_inv c r' ((s, q) :: log) s.
Proof.
  intros Hinv Hns Hq H. pose proof (inv_config _ _ _ _ Hinv) as Hc.
  unfold update in H. rewrite Hc in H.
  destruct (Z.eqb_spec (window_duration c) 0); [lia|].
  minv H. rename v into r1, v0 into out, v1 into total.
  apply (inv_move _ _ _ _ _ Hinv Hns) in E as [Hinv1 Hs1].
  pose proof (inv_prev_wf _ _ _ Hinv1) as Hpw.
  apply current_outflow_lower in E0 as Hout; [|done].
  apply dec_add_inv in E1 as [Ht _].
  unfold dec_lt in G. rewrite (inv_config _ _ _ _ Hinv1) in G. cbn [from_int dec_raw] in G.
  apply dec_add_inv in E2 as [Hcur' _].
  destruct Hq as [Hq _]. destruct Hinv1 as [Hc1 ? Hw1 ? Hqs Hss Hp1 Hcur1 Hpm1 Hcm1].
  split; cbn [config prev_qty window_start cur_qty]; try done; try lia.
  - by constructor.
  - constructor; simpl; [lia | done].
  - simpl. destruct (_ && _) eqn:?; lia.
  - simpl. destruct (_ && _) eqn:?; lia.
Qed.

Lemma inv_query r log now s r' q :
  history_inv c r log now -> now <= s < 2 ^ 63 ->
  remaining_outflow r s = Ok (r', q) -> history_inv c r' log s.
Proof.
  intros Hinv Hns H. pose proof (inv_config _ _ _ _ Hinv) as Hc.
  unfold remaining_outflow in H. rewrite Hc in H.
  destruct (Z.eqb_spec (window_duration c) 0); [lia|].
  minv H. apply (inv_move _ _ _ _ _ Hinv Hns) in E as [Hinv1 _].
  destruct (dec_lt _ _); minv H; by subst.
Qed.

Lemma history_invariant r log now : history c r log now -> history_inv c r log now.
Proof.
  induction 1; [by apply inv_new | by eapply inv_admit | by eapply inv_query].
Qed.

(** At most the two windows that the slots [[t - d, t]] can touch. *)
Lemma inv_outflow_bound r log now t :
  history_inv c r log now -> now <= t ->
  outflow log (t - window_duration c) t <= 2 * (WAD * max_outflow c).
Proof.
  intros [_ _ Hw _ Hq Hs Hp Hcur Hpm Hcm] Ht.
  pose proof (outflow_mono log (t - window_duration c) t
    (window_start r - window_duration c) (Z.max t (window_start r + window_duration c - 1))
    Hq ltac:(lia) ltac:(lia)) as Hmono.
  rewrite (outflow_split log (window_start r - window_duration c) (window_start r - 1))
    in Hmono by lia.
  rewrite (outflow_split log (window_start r - 1 + 1) (window_start r + window_duration c - 1))
    in Hmono by lia.
  rewrite (outflow_outside log (window_start r + window_duration c - 1 + 1)) in Hmono
    by (apply (slots_below_mono _ _ _ Hs); lia).
  replace (window_start r - 1 + 1) with (window_start r) in Hmono by lia. lia.
Qed.
End invariant.

(** ** The guarantee *)

(** C24: the sliding-window guarantee.  Whatever the history of updates and
    queries, at any slot [t] from the last one on, the total quantity admitted
    at slots in [[t - window_duration, t]] is at most twice [max_outflow]. *)
Theorem outflow_at_most_twice_max (c : RateLimiterConfig) r log now t
    (Hd : 0 < window_duration c < 2 ^ 63) (Hm : is_u64 (max_outflow c))
    (H : history c r log now) (Ht : now <= t) :
  outflow log (t - window_duration c) t <= 2 * (WAD * max_outflow c).
Proof. by eapply inv_outflow_bound, Ht; [..|eapply history_invariant]. Qed.

Definition limiter_10_100 : RateLimiterConfig := mkRateLimiterConfig 10 100.

(** 100 tokens in the last slot of a window, 100 more in the last slot of the
    next one. *)
Definition double_log : list (Z * Decimal) := [(29, from_int 100); (19, from_int 100)].

Definition double_limiter : RateLimiter :=
  mkRateLimiter limiter_10_100 (from_int 100) 20 (from_int 100).

Lemma double_history : history limiter_10_100 double_limiter double_log 29.
Proof.
  eapply (history_update _ _ _ 19 29); [|lia|by vm_compute|].
  - eapply (history_update _ _ _ 10 19); [by apply history_new|lia|by vm_compute|].
    vm_compute. reflexivity.
  - vm_compute. reflexivity.
Defined.

Lemma outflow_at_most_twice_max_witness :
  history limiter_10_100 double_limiter double_log 29 /\
  outflow double_log (29 - 10) 29 <= 2 * (WAD * 100).
Proof.
  split; [exact double_history|].
  apply (outflow_at_most_twice_max limiter_10_100 double_limiter double_log 29 29);
    [simpl; lia|by vm_compute|exact double_history|lia].
Defined.

(** The bound of twice the maximum is attained: the header of the limiter
    promises less than twice [max_outflow] over [[t - window_duration, t]], and
    a limiter of 100 per 10 slots admits exactly 200 in such an interval. *)
Theorem outflow_bound_is_attained :
  exists r log now t,
    history limiter_10_100 r log now /\ now <= t /\
    outflow log (t - window_duration limiter_10_100) t
      = 2 * (WAD * max_outflow limiter_10_100).
Proof.
  exists double_limiter, double_log, 29, 29.
  split; [exact double_history|]. split; [lia|]. vm_compute. reflexivity.
Qed.

(** The limiter's view of the current window never fails, and stays within
    bounds. *)
Lemma inv_remaining (c : RateLimiterConfig) r log now s
    (Hd : 0 < window_duration c < 2 ^ 63) (Hm : is_u64 (max_outflow c)) :
  history_inv c r log now -> now <= s < 2 ^ 63 ->
  exists r1 out,
    _update r s = Ok r1 /\ current_outflow r1 s = Ok out /\ config r1 = c /\
    0 <= dec_raw (cur_qty r1) <= dec_raw out /\ dec_raw out < 2 ^ 190.
Proof.
  intros Hinv Hns. pose proof Hm as Hm'. unfold in_uint in Hm.
  assert (exists r1, _update r s = Ok r1) as [r1 Hr1].
  { unfold _update. rewrite (inv_config _ _ _ _ Hinv).
    pose proof (inv_start _ _ _ _ Hinv).
    destruct (Z.ltb_spec s (window_start r)); [lia|].
    rewrite checked_div_Some by lia. mred. destruct (_ ?= _); eauto. }
  destruct (inv_move c Hd Hm' _ _ _ _ _ Hinv Hns Hr1) as [Hinv1 Hs1].
  pose proof (inv_prev_wf c Hm' _ _ _ Hinv1) as Hpw.
  destruct Hinv1 as [Hc1 _ Hw1 _ Hq _ _ Hcur1 Hp1 Hc1m].
  pose proof (outflow_nonneg log (window_start r1)
    (window_start r1 + window_duration c - 1) Hq).
  exists r1.
  assert (exists out, current_outflow r1 s = Ok out /\ dec_raw out < 2 ^ 190) as (out & Ho & Hb).
  { unfold current_outflow. rewrite Hc1.
    destruct (Z.eqb_spec (window_duration c) 0); [lia|].
    rewrite (wrapping_sub_small 64 s) by lia. rewrite wrapping_add_small by lia.
    unfold WAD in *.
    rewrite dec_sub_ok by (cbn; unfold WAD; lia). mred.
    rewrite dec_div_u64_ok by lia. mred. cbn [dec_raw from_int].
    set (w := (WAD * _ - WAD * _) / _).
    assert (0 <= w <= WAD) as Hw.
    { unfold w, WAD. split; [apply div_nonneg; lia | apply Z.div_le_upper_bound; nia]. }
    destruct Hpw as [Hpw _].
    assert (w * dec_raw (prev_qty r1) <= WAD * dec_raw (prev_qty r1)) by nia.
    rewrite dec_mul_ok by (cbn; unfold WAD in *; lia). mred. cbn [dec_raw].
    assert (0 <= w * dec_raw (prev_qty r1) / WAD <= dec_raw (prev_qty r1)).
    { split; [apply div_nonneg; unfold WAD in *; nia|].
      rewrite Z.mul_comm. apply mul_div_le_self; unfold WAD in *; lia. }
    rewrite dec_add_ok by (cbn; lia). eexists. split; [done|]. cbn. lia. }
  exists out. split_and!; try done; [by rewrite Hcur1|].
  by apply (current_outflow_lower r1 s).
Qed.

(** [remaining_outflow] never fails and is exact.  For a limiter with any
    history, at any slot from the last one on, it returns some remaining
    quantity [rem], and an update in that slot with a positive quantity [q]
    (below 2^191 raw) is admitted when [q <= rem], adding [q] to the current
    window, and refused with [OutflowRateLimitExceeded] when [q > rem]. *)
Theorem remaining_outflow_exact (c : RateLimiterConfig) r log now s
    (Hd : 0 < window_duration c < 2 ^ 63) (Hm : is_u64 (max_outflow c))
    (H : history c r log now) (Hs : now <= s < 2 ^ 63) :
  exists r1 rem, remaining_outflow r s = Ok (r1, rem) /\
    forall q, 0 < dec_raw q < 2 ^ 191 ->
      update r s q =
        if dec_le q rem
        then Ok (mkRateLimiter (config r1) (prev_qty r1) (window_start r1)
                   (mkDecimal (dec_raw (cur_qty r1) + dec_raw q)))
        else fail OutflowRateLimitExceeded.
Proof.
  apply history_invariant in H; [|done..].
  pose proof (inv_config _ _ _ _ H) as Hc.
  destruct (inv_remaining c r log now s Hd Hm H Hs) as (r1 & out & Hu & Ho & Hc1 & Hcur & Hout).
  unfold remaining_outflow, update. rewrite Hc, Hu. mred. rewrite Hc1, Ho. mred.
  destruct (Z.eqb_spec (window_duration c) 0); [lia|].
  unfold in_uint in Hm. unfold dec_lt, dec_le. cbn [from_int dec_raw].
  exists r1. destruct (Z.ltb_spec (WAD * max_outflow c) (dec_raw out)).
  - eexists. split; [done|]. intros q Hq. rewrite dec_add_ok by lia. mred. cbn [dec_raw zero].
    destruct (Z.ltb_spec (WAD * max_outflow c) (dec_raw out + dec_raw q)); [|lia].
    destruct (Z.leb_spec (dec_raw q) 0); [lia | done].
  - rewrite dec_sub_ok by done. mred. eexists. split; [done|]. intros q Hq.
    rewrite dec_add_ok by lia. mred. cbn [dec_raw from_int].
    destruct (Z.ltb_spec (WAD * max_outflow c) (dec_raw out + dec_raw q)),
      (Z.leb_spec (dec_raw q) (WAD * max_outflow c - dec_raw out)); try lia; [done|].
    rewrite dec_add_ok by lia. by rewrite Hc1.
Qed.

Lemma remaining_outflow_exact_witness :
  history limiter_10_100 double_limiter double_log 29 /\
  update double_limiter 29 (from_int 1) = fail OutflowRateLimitExceeded.
Proof.
  split; [exact double_history|].
  destruct (remaining_outflow_exact limiter_10_100 double_limiter double_log 29 29
    ltac:(simpl; lia) ltac:(by vm_compute) double_history ltac:(lia)) as (r1 & rem & Hr & Hx).
  vm_compute in Hr. injection Hr as <- <-.
  exact (Hx (from_int 1) ltac:(vm_compute; done)).
Defined.
