(* ===== verification/ReserveConfig.v ===== *)
(** state/reserve.rs: reserve configuration, its validation, and fees. *)

From Stdlib Require Import String.
From S2P Require Import Prelude Errors Common Rate Decimal Codec.

(** Additional fee information on a reserve. *)
Record ReserveFees : Type := mkReserveFees {
  borrow_fee_wad : Z;
  flash_loan_fee_wad : Z;
  host_fee_percentage : Z;
}.

(** Asset type of the reserve. *)
Inductive ReserveType : Type :=
  | Regular
  | Isolated.

#[export] Instance ReserveFees_eq_dec : EqDecision ReserveFees.
Proof. solve_decision. Defined.

#[export] Instance ReserveType_eq_dec : EqDecision ReserveType.
Proof. solve_decision. Defined.

Definition reserve_type_eqb (a b : ReserveType) : bool := bool_decide (a = b).

(** [reserve_type as u8]. *)
Definition reserve_type_to_u8 (t : ReserveType) : Z :=
  match t with Regular => 0 | Isolated => 1 end.

(** The derived [FromPrimitive::from_u8]. *)
Definition reserve_type_from_u8 (n : Z) : option ReserveType :=
  match n with 0 => Some Regular | 1 => Some Isolated | _ => None end.

(** [impl FromStr for ReserveType]. *)
Definition reserve_type_from_str (input : string) : result ReserveType :=
  if String.eqb input "Regular" then Ok Regular
  else if String.eqb input "Isolated" then Ok Isolated
  else fail InvalidConfig.

(** Reserve configuration values. *)
Record ReserveConfig : Type := mkReserveConfig {
  optimal_utilization_rate : Z;
  max_utilization_rate : Z;
  loan_to_value_ratio : Z;
  liquidation_bonus : Z;
  max_liquidation_bonus : Z;
  liquidation_threshold : Z;
  max_liquidation_threshold : Z;
  min_borrow_rate : Z;
  optimal_borrow_rate : Z;
  max_borrow_rate : Z;
  super_max_borrow_rate : Z;
  fees : ReserveFees;
  deposit_limit : Z;
  borrow_limit : Z;
  fee_receiver : Pubkey;
  protocol_liquidation_fee : Z;
  protocol_take_rate : Z;
  added_borrow_weight_bps : Z;
  reserve_type : ReserveType;
}.

#[export] Instance ReserveConfig_eq_dec : EqDecision ReserveConfig.
Proof. solve_decision. Defined.

Definition reserve_fees_default : ReserveFees := mkReserveFees 0 0 0.
Definition reserve_config_default : ReserveConfig :=
  mkReserveConfig 0 0 0 0 0 0 0 0 0 0 0 reserve_fees_default 0 0 0 0 0 0 Regular.

(** The machine widths of the fields. *)
Definition reserve_fees_wf (f : ReserveFees) : Prop :=
  is_u64 (borrow_fee_wad f) /\ is_u64 (flash_loan_fee_wad f) /\
  is_u8 (host_fee_percentage f).

Record reserve_config_wf (c : ReserveConfig) : Prop := {
  wf_optimal_utilization_rate : is_u8 (optimal_utilization_rate c);
  wf_max_utilization_rate : is_u8 (max_utilization_rate c);
  wf_loan_to_value_ratio : is_u8 (loan_to_value_ratio c);
  wf_liquidation_bonus : is_u8 (liquidation_bonus c);
  wf_max_liquidation_bonus : is_u8 (max_liquidation_bonus c);
  wf_liquidation_threshold : is_u8 (liquidation_threshold c);
  wf_max_liquidation_threshold : is_u8 (max_liquidation_threshold c);
  wf_min_borrow_rate : is_u8 (min_borrow_rate c);
  wf_optimal_borrow_rate : is_u8 (optimal_borrow_rate c);
  wf_max_borrow_rate : is_u8 (max_borrow_rate c);
  wf_super_max_borrow_rate : is_u64 (super_max_borrow_rate c);
  wf_fees : reserve_fees_wf (fees c);
  wf_deposit_limit : is_u64 (deposit_limit c);
  wf_borrow_limit : is_u64 (borrow_limit c);
  wf_fee_receiver : is_u256 (fee_receiver c);
  wf_protocol_liquidation_fee : is_u8 (protocol_liquidation_fee c);
  wf_protocol_take_rate : is_u8 (protocol_take_rate c);
  wf_added_borrow_weight_bps : is_u64 (added_borrow_weight_bps c);
}.

(** Validates reserve configs. *)
Definition validate_reserve_config (config : ReserveConfig) : result unit :=
  let InvalidConfig := lending_error InvalidConfig in
  reject_if 100 <? optimal_utilization_rate config with InvalidConfig then
  reject_if (max_utilization_rate config <? optimal_utilization_rate config)
    || (100 <? max_utilization_rate config) with InvalidConfig then
  reject_if 100 <=? loan_to_value_ratio config with InvalidConfig then
  reject_if 100 <? liquidation_bonus config with InvalidConfig then
  reject_if (max_liquidation_bonus config <? liquidation_bonus config)
    || (100 <? max_liquidation_bonus config) with InvalidConfig then
  reject_if (liquidation_threshold config <? loan_to_value_ratio config)
    || (100 <? liquidation_threshold config) with InvalidConfig then
  reject_if (max_liquidation_threshold config <? liquidation_threshold config)
    || (100 <? max_liquidation_threshold config) with InvalidConfig then
  reject_if optimal_borrow_rate config <? min_borrow_rate config with InvalidConfig then
  reject_if max_borrow_rate config <? optimal_borrow_rate config with InvalidConfig then
  reject_if super_max_borrow_rate config <? max_borrow_rate config with InvalidConfig then
  reject_if WAD <=? borrow_fee_wad (fees config) with InvalidConfig then
  reject_if 100 <? host_fee_percentage (fees config) with InvalidConfig then
  reject_if MAX_PROTOCOL_LIQUIDATION_FEE_DECA_BPS <? protocol_liquidation_fee config
    with InvalidConfig then
  reject_if MAX_BONUS_PCT * 100 <?
    max_liquidation_bonus config * 100 + protocol_liquidation_fee config * 10
    with InvalidConfig then
  reject_if 100 <? protocol_take_rate config with InvalidConfig then
  reject_if reserve_type_eqb (reserve_type config) Isolated
    && negb ((loan_to_value_ratio config =? 0) && (liquidation_threshold config =? 0))
    with InvalidConfig then
  Ok tt.

(** ** Fees *)

(** Calculate fees exclusive or inclusive of an amount. *)
Inductive FeeCalculation : Type :=
  | Exclusive
  | Inclusive.

Definition rate_pos (r : Rate) : bool := rate_lt Rate.zero r.
Definition dec_pos (d : Decimal) : bool := dec_lt Decimal.zero d.

Definition calculate_fees (self : ReserveFees) (amount : Decimal) (fee_wad : Z)
    (fee_calculation : FeeCalculation) : result (Z * Z) :=
  let borrow_fee_rate := Rate.from_scaled_val fee_wad in
  let host_fee_rate := Rate.from_percent (host_fee_percentage self) in
  if rate_pos borrow_fee_rate && dec_pos amount then
    let need_to_assess_host_fee := rate_pos host_fee_rate in
    let minimum_fee := if need_to_assess_host_fee then 2 else 1 in
    let? borrow_fee_amount :=
      match fee_calculation with
      | Exclusive => try_mul amount borrow_fee_rate
      | Inclusive =>
          let? rate1 := try_add borrow_fee_rate Rate.one in
          let? borrow_fee_rate := try_div borrow_fee_rate rate1 in
          try_mul amount borrow_fee_rate
      end in
    let borrow_fee_decimal := dec_max borrow_fee_amount (from_int minimum_fee) in
    reject_if dec_le amount borrow_fee_decimal with lending_error BorrowTooSmall then
    let? borrow_fee := try_round_u64 borrow_fee_decimal in
    let? host_fee :=
      if need_to_assess_host_fee then
        let? h := try_mul borrow_fee_decimal host_fee_rate in
        let? h := try_round_u64 h in
        Ok (Z.max h 1)
      else Ok 0 in
    Ok (borrow_fee, host_fee)
  else Ok (0, 0).

(** Calculate the owner and host fees on borrow. *)
Definition calculate_borrow_fees (self : ReserveFees) (borrow_amount : Decimal)
    (fee_calculation : FeeCalculation) : result (Z * Z) :=
  calculate_fees self borrow_amount (borrow_fee_wad self) fee_calculation.

(** Calculate the owner and host fees on flash loan. *)
Definition calculate_flash_loan_fees (self : ReserveFees) (flash_loan_amount : Decimal)
    : result (Z * Z) :=
  let? ' (total_fees, host_fee) :=
    calculate_fees self flash_loan_amount (flash_loan_fee_wad self) Exclusive in
  let? origination_fee := math (checked_sub total_fees host_fee) in
  Ok (origination_fee, host_fee).
