(* ===== verification/ReserveConfigSpec.v ===== *)
(** What a validated configuration guarantees, and the bounds of the fees. *)

From S2P Require Import Prelude Errors Common Rate Decimal Codec ReserveConfig.

(** ** Validation *)

(** The constraints a reserve configuration must meet, but for the cap on the bonus
    and the protocol fee together. *)
Record sound_config (c : ReserveConfig) : Prop := {
  valid_optimal_utilization : optimal_utilization_rate c <= max_utilization_rate c;
  valid_max_utilization : max_utilization_rate c <= 100;
  valid_ltv : loan_to_value_ratio c < 100;
  valid_thresholds :
    loan_to_value_ratio c <= liquidation_threshold c <= max_liquidation_threshold c;
  valid_max_threshold : max_liquidation_threshold c <= 100;
  valid_bonus : liquidation_bonus c <= max_liquidation_bonus c;
  valid_protocol_fee : protocol_liquidation_fee c <= MAX_PROTOCOL_LIQUIDATION_FEE_DECA_BPS;
  valid_rates :
    min_borrow_rate c <= optimal_borrow_rate c <= max_borrow_rate c;
  valid_super_max : max_borrow_rate c <= super_max_borrow_rate c;
  valid_borrow_fee : borrow_fee_wad (fees c) < WAD;
  valid_host_fee : host_fee_percentage (fees c) <= 100;
  valid_take_rate : protocol_take_rate c <= 100;
  valid_isolated :
    reserve_type c = Isolated -> loan_to_value_ratio c = 0 /\ liquidation_threshold c = 0;
}.

(** All the constraints. *)
Record valid_config (c : ReserveConfig) : Prop := {
  valid_sound :> sound_config c;
  valid_total_bonus :
    max_liquidation_bonus c * 100 + protocol_liquidation_fee c * 10 <= MAX_BONUS_PCT * 100;
}.

Lemma reject_step {E A} (c : bool) (e : E) (m : outcome E A) :
  c = false -> (if c then Err e else m) = m.
Proof. by intros ->. Qed.

Lemma reserve_type_eqb_true a b : reserve_type_eqb a b = true <-> a = b.
Proof. unfold reserve_type_eqb. by rewrite bool_decide_eq_true. Qed.

Lemma validate_sound c : validate_reserve_config c = Ok tt -> valid_config c.
Proof.
  unfold validate_reserve_config. intros H. minv H. split; [|lia]. split; try lia.
  intros Ht. rewrite (proj2 (reserve_type_eqb_true _ _) Ht) in G14. lia.
Qed.

Lemma validated_sound c : validate_reserve_config c = Ok tt -> sound_config c.
Proof. intros H. apply validate_sound in H. apply H. Qed.

Lemma validate_complete c :
  valid_config c -> 0 <= protocol_liquidation_fee c -> validate_reserve_config c = Ok tt.
Proof.
  intros [[] Htot] Hf. unfold validate_reserve_config, MAX_BONUS_PCT in *.
  rewrite !reject_step; try lia; [done|].
  destruct (reserve_type_eqb _ _) eqn:Ht; [|done].
  apply reserve_type_eqb_true, valid_isolated0 in Ht. lia.
Qed.

Lemma validate_rejects c :
  validate_reserve_config c = Ok tt \/ validate_reserve_config c = fail InvalidConfig.
Proof.
  unfold validate_reserve_config. repeat (case_match; [by right|]). by left.
Qed.

(** C37: [validate_reserve_config] decides validity: it accepts exactly the
    configurations whose utilization points, loan-to-value and liquidation
    thresholds, bonuses and borrow rates are ordered and capped as [valid_config]
    lists, and refuses every other one with [InvalidConfig]. *)
Theorem validate_reserve_config_decides (c : ReserveConfig) (Hwf : reserve_config_wf c) :
  (validate_reserve_config c = Ok tt /\ valid_config c) \/
  (validate_reserve_config c = fail InvalidConfig /\ ~ valid_config c).
Proof.
  destruct (validate_rejects c) as [H | H]; [left | right]; split; try done.
  - by apply validate_sound.
  - intros Hv. rewrite validate_complete in H; [done | done |].
    apply (wf_protocol_liquidation_fee c Hwf).
Qed.

(** The configuration of the repository's tests. *)
Definition test_config : ReserveConfig :=
  mkReserveConfig 80 90 50 5 10 55 60 0 4 30 120
    (mkReserveFees 100000000000 3000000000000000 20)
    u64_max u64_max 7 30 10 0 Regular.

Lemma test_config_wf : reserve_config_wf test_config.
Proof. split; repeat split; vm_compute; congruence. Qed.

Lemma test_config_valid : valid_config test_config.
Proof. apply validate_sound. reflexivity. Qed.

Lemma validate_reserve_config_decides_witness :
  reserve_config_wf test_config /\
  (validate_reserve_config test_config = Ok tt /\ valid_config test_config \/
   validate_reserve_config test_config = fail InvalidConfig /\ ~ valid_config test_config).
Proof.
  split; [exact test_config_wf|].
  exact (validate_reserve_config_decides test_config test_config_wf).
Defined.

(** ** Fees *)

Lemma rate_pos_percent n : 0 <= n -> rate_pos (Rate.from_percent n) = (0 <? n).
Proof. intros. unfold rate_pos, rate_lt. cbn. unfold PERCENT_SCALER. lia. Qed.

Definition round_wad (x : Z) : Z := (HALF_WAD + x) / WAD.

Lemma round_wad_mono x y : x <= y -> round_wad x <= round_wad y.
Proof. intros. apply div_le_mono_num; [done|lia]. Qed.

Lemma round_wad_whole n : round_wad (WAD * n) = n.
Proof.
  unfold round_wad. rewrite Z.mul_comm, Z.div_add by done. reflexivity.
Qed.

(** The smallest fee that is ever charged. *)
Definition minimum_fee (f : ReserveFees) : Z :=
  if 0 <? host_fee_percentage f then 2 else 1.

Lemma calculate_fees_inv f amount w k fee host :
  0 <= host_fee_percentage f ->
  calculate_fees f amount w k = Ok (fee, host) ->
  ((w <= 0 \/ dec_raw amount <= 0) /\ fee = 0 /\ host = 0) \/
  (0 < w /\ exists d : Decimal,
     WAD * minimum_fee f <= dec_raw d < dec_raw amount /\
     fee = round_wad (dec_raw d) /\ fee < 2 ^ 64 /\
     host = if 0 <? host_fee_percentage f
            then Z.max (round_wad (dec_raw d * (host_fee_percentage f * PERCENT_SCALER) / WAD)) 1
            else 0).
Proof.
  intros Hp H. unfold calculate_fees in H. rewrite rate_pos_percent in H by done.
  destruct (rate_pos (Rate.from_scaled_val w)) eqn:Hw, (dec_pos amount) eqn:Ha;
    unfold rate_pos, rate_lt, dec_pos, dec_lt in Hw, Ha;
    cbn [andb Rate.zero Rate.from_scaled_val rate_raw Decimal.zero dec_raw] in Hw, Ha, H;
    try (left; injection H as <- <-; lia).
  right. split; [lia|]. minv H.
  set (d := dec_max v (from_int (if 0 <? host_fee_percentage f then 2 else 1))) in *.
  exists d. unfold dec_le in G. apply dec_round_inv in E0 as [-> Hlt].
  split; [|split; [done|split; [done|]]].
  - split; [|lia]. unfold d, minimum_fee. rewrite dec_max_raw. cbn. lia.
  - destruct (0 <? host_fee_percentage f); [|by injection E1].
    minv E1. apply dec_mul_rate_inv in E0 as [Hv _].
    apply dec_round_inv in E2 as [-> _]. by rewrite Hv.
Qed.

(** The bounds behind the theorems below. *)
Lemma calculate_fees_nonneg f amount w k fee host :
  0 <= host_fee_percentage f ->
  calculate_fees f amount w k = Ok (fee, host) -> 0 <= fee /\ 0 <= host.
Proof.
  intros Hp [(_ & -> & ->)|(_ & d & [Hd _] & -> & _ & ->)]%calculate_fees_inv; [done| |done].
  split; [|destruct (0 <? _); lia].
  apply div_nonneg; [|done]. unfold minimum_fee, HALF_WAD, WAD in *. destruct (0 <? _); lia.
Qed.

Lemma calculate_fees_range f amount w k fee host :
  0 <= host_fee_percentage f <= 100 ->
  calculate_fees f amount w k = Ok (fee, host) ->
  0 <= host <= fee /\
  (0 < w -> 0 < dec_raw amount ->
     minimum_fee f <= fee <= round_wad (dec_raw amount) /\
     (0 < host_fee_percentage f -> 1 <= host)).
Proof.
  intros Hp H.
  destruct (calculate_fees_inv f amount w k fee host ltac:(lia) H)
    as [(Hz & -> & ->) | (Hw & d & Hd & -> & _ & ->)]; [lia|].
  assert (minimum_fee f <= round_wad (dec_raw d) <= round_wad (dec_raw amount)).
  { rewrite <- (round_wad_whole (minimum_fee f)). split; apply round_wad_mono; lia. }
  assert (1 <= minimum_fee f) by (unfold minimum_fee; case_match; lia).
  destruct (Z.ltb_spec 0 (host_fee_percentage f)); [|lia].
  assert (round_wad (dec_raw d * (host_fee_percentage f * PERCENT_SCALER) / WAD)
    <= round_wad (dec_raw d)).
  { apply round_wad_mono, mul_div_le_self; unfold PERCENT_SCALER, WAD in *; nia. }
  lia.
Qed.

Lemma calculate_fees_host_le f amount w k fee host :
  0 <= host_fee_percentage f <= 100 ->
  calculate_fees f amount w k = Ok (fee, host) -> 0 <= host <= fee.
Proof. intros Hp H. by apply (calculate_fees_range f amount w k). Qed.

(** Fees are bounded.  When a fee is computed, it is zero exactly when there
    is nothing to charge; otherwise it is at least 1 (2 when a host shares it),
    no more than the amount rounded to whole tokens, and the host's part is at
    least 1 (when there is one) and never more than the whole fee. *)
Theorem calculate_fees_bounds (f : ReserveFees) (amount : Decimal) (w : Z)
    (k : FeeCalculation) (fee host : Z)
    (Hp : 0 <= host_fee_percentage f <= 100)
    (H : calculate_fees f amount w k = Ok (fee, host)) :
  0 <= host <= fee /\
  (0 < w -> 0 < dec_raw amount ->
     minimum_fee f <= fee <= round_wad (dec_raw amount) /\
     (0 < host_fee_percentage f -> 1 <= host)).
Proof. by apply (calculate_fees_range f amount w k). Qed.

Lemma calculate_fees_bounds_witness :
  calculate_fees (fees test_config) (from_int 1000000) 3000000000000000 Exclusive
    = Ok (3000, 600) /\ 0 <= 600 <= 3000.
Proof.
  assert (H : calculate_fees (fees test_config) (from_int 1000000) 3000000000000000 Exclusive
    = Ok (3000, 600)) by (vm_compute; reflexivity).
  split; [exact H|].
  exact (proj1 (calculate_fees_bounds (fees test_config) _ _ _ _ _ ltac:(cbn; lia) H)).
Defined.

(** The split of a flash-loan fee never underflows: whenever the fees of a
    validated configuration can be computed, the origination fee is the total
    less the host's part. *)
Theorem flash_loan_fee_split (c : ReserveConfig) (amount : Decimal) (total host : Z)
    (Hwf : reserve_config_wf c) (Hv : validate_reserve_config c = Ok tt)
    (H : calculate_fees (fees c) amount (flash_loan_fee_wad (fees c)) Exclusive
         = Ok (total, host)) :
  calculate_flash_loan_fees (fees c) amount = Ok (total - host, host) /\
  0 <= total - host.
Proof.
  apply validated_sound, valid_host_fee in Hv.
  pose proof (wf_fees c Hwf) as (_ & _ & [Hh _]).
  assert (0 <= host <= total).
  { exact (calculate_fees_host_le _ _ _ _ _ _ (conj Hh Hv) H). }
  unfold calculate_flash_loan_fees. rewrite H. mred.
  rewrite checked_sub_Some by lia. split; [done|lia].
Qed.

Lemma flash_loan_fee_split_witness :
  calculate_flash_loan_fees (fees test_config) (from_int 1000000) = Ok (2400, 600) /\
  0 <= 3000 - 600.
Proof.
  exact (flash_loan_fee_split test_config (from_int 1000000) 3000 600
    test_config_wf eq_refl ltac:(vm_compute; reflexivity)).
Defined.

Definition config_with_fees (f : ReserveFees) : ReserveConfig :=
  mkReserveConfig 80 90 50 5 10 55 60 0 4 30 120 f u64_max u64_max 7 30 10 0 Regular.

(** The two-token minimum does not reserve a token for the owner.  With a
    host percentage of 75 or more, a configuration that validation accepts
    charges the minimum fee of 2 and pays both tokens to the host. *)
Theorem minimum_fee_can_go_to_host_only (pct : Z) (Hp : 75 <= pct <= 100) :
  validate_reserve_config (config_with_fees (mkReserveFees 1 1 pct)) = Ok tt /\
  calculate_flash_loan_fees (mkReserveFees 1 1 pct) (from_int 10) = Ok (0, 2).
Proof.
  assert (pct ∈ seqZ 75 26) as Hin by (apply elem_of_seqZ; lia).
  clear Hp. revert pct Hin. apply list.Forall_forall.
  let l := eval vm_compute in (seqZ 75 26) in change (seqZ 75 26) with l.
  repeat (constructor; [split; vm_compute; reflexivity|]). constructor.
Qed.

Lemma minimum_fee_can_go_to_host_only_witness :
  75 <= 80 <= 100 /\
  calculate_flash_loan_fees (mkReserveFees 1 1 80) (from_int 10) = Ok (0, 2).
Proof.
  split; [lia|].
  exact (proj2 (minimum_fee_can_go_to_host_only 80 ltac:(lia))).
Defined.
