(* ===== verification/ReserveLiquidity.v ===== *)
(** state/reserve.rs: the liquidity side of a reserve. *)

From S2P Require Import Prelude Errors Common Rate Decimal Codec.

(** Reserve liquidity. *)
Record ReserveLiquidity : Type := mkReserveLiquidity {
  mint_pubkey : Pubkey;
  mint_decimals : Z;
  supply_pubkey : Pubkey;
  pyth_oracle_pubkey : Pubkey;
  switchboard_oracle_pubkey : Pubkey;
  available_amount : Z;
  borrowed_amount_wads : Decimal;
  cumulative_borrow_rate_wads : Decimal;
  accumulated_protocol_fees_wads : Decimal;
  market_price : Decimal;
  smoothed_market_price : Decimal;
}.

#[export] Instance ReserveLiquidity_eq_dec : EqDecision ReserveLiquidity.
Proof. solve_decision. Defined.

(** Create a new reserve liquidity. *)
Record NewReserveLiquidityParams : Type := mkNewReserveLiquidityParams {
  new_mint_pubkey : Pubkey;
  new_mint_decimals : Z;
  new_supply_pubkey : Pubkey;
  new_pyth_oracle_pubkey : Pubkey;
  new_switchboard_oracle_pubkey : Pubkey;
  new_market_price : Decimal;
  new_smoothed_market_price : Decimal;
}.

Definition default : ReserveLiquidity :=
  mkReserveLiquidity 0 0 0 0 0 0
    Decimal.zero Decimal.zero Decimal.zero Decimal.zero Decimal.zero.

Definition new (params : NewReserveLiquidityParams) : ReserveLiquidity :=
  mkReserveLiquidity
    (new_mint_pubkey params)
    (new_mint_decimals params)
    (new_supply_pubkey params)
    (new_pyth_oracle_pubkey params)
    (new_switchboard_oracle_pubkey params)
    0 Decimal.zero Decimal.one Decimal.zero
    (new_market_price params)
    (new_smoothed_market_price params).

(** Assignments to the fields that operations change. *)
Definition set_amounts (self : ReserveLiquidity) (available : Z) (borrowed : Decimal)
    : ReserveLiquidity :=
  mkReserveLiquidity (mint_pubkey self) (mint_decimals self) (supply_pubkey self)
    (pyth_oracle_pubkey self) (switchboard_oracle_pubkey self)
    available borrowed (cumulative_borrow_rate_wads self)
    (accumulated_protocol_fees_wads self) (market_price self) (smoothed_market_price self).

Definition set_debt (self : ReserveLiquidity) (borrowed rate fees : Decimal)
    : ReserveLiquidity :=
  mkReserveLiquidity (mint_pubkey self) (mint_decimals self) (supply_pubkey self)
    (pyth_oracle_pubkey self) (switchboard_oracle_pubkey self)
    (available_amount self) borrowed rate fees
    (market_price self) (smoothed_market_price self).

Definition set_prices (self : ReserveLiquidity) (price smoothed : Decimal)
    : ReserveLiquidity :=
  mkReserveLiquidity (mint_pubkey self) (mint_decimals self) (supply_pubkey self)
    (pyth_oracle_pubkey self) (switchboard_oracle_pubkey self)
    (available_amount self) (borrowed_amount_wads self) (cumulative_borrow_rate_wads self)
    (accumulated_protocol_fees_wads self) price smoothed.

Definition set_oracles (self : ReserveLiquidity) (pyth switchboard : Pubkey)
    : ReserveLiquidity :=
  mkReserveLiquidity (mint_pubkey self) (mint_decimals self) (supply_pubkey self)
    pyth switchboard
    (available_amount self) (borrowed_amount_wads self) (cumulative_borrow_rate_wads self)
    (accumulated_protocol_fees_wads self) (market_price self) (smoothed_market_price self).

(** Calculate the total reserve supply including active loans. *)
Definition total_supply (self : ReserveLiquidity) : result Decimal :=
  let? t := try_add (from_int (available_amount self)) (borrowed_amount_wads self) in
  try_sub t (accumulated_protocol_fees_wads self).

(** Add liquidity to available amount. *)
Definition deposit (self : ReserveLiquidity) (liquidity_amount : Z) : result ReserveLiquidity :=
  let? a := math (checked_add 64 (available_amount self) liquidity_amount) in
  Ok (set_amounts self a (borrowed_amount_wads self)).

(** Remove liquidity from available amount. *)
Definition withdraw (self : ReserveLiquidity) (liquidity_amount : Z) : result ReserveLiquidity :=
  reject_if available_amount self <? liquidity_amount
    with lending_error InsufficientLiquidity then
  let? a := math (checked_sub (available_amount self) liquidity_amount) in
  Ok (set_amounts self a (borrowed_amount_wads self)).

(** Subtract borrow amount from available liquidity and add to borrows. *)
Definition borrow (self : ReserveLiquidity) (borrow_decimal : Decimal)
    : result ReserveLiquidity :=
  let? borrow_amount := try_floor_u64 borrow_decimal in
  reject_if available_amount self <? borrow_amount
    with lending_error InsufficientLiquidity then
  let? a := math (checked_sub (available_amount self) borrow_amount) in
  let? b := try_add (borrowed_amount_wads self) borrow_decimal in
  Ok (set_amounts self a b).

(** Add repay amount to available liquidity and subtract settle amount from
    total borrows. *)
Definition repay (self : ReserveLiquidity) (repay_amount : Z) (settle_amount : Decimal)
    : result ReserveLiquidity :=
  let? a := math (checked_add 64 (available_amount self) repay_amount) in
  let safe_settle_amount := dec_min settle_amount (borrowed_amount_wads self) in
  let? b := try_sub (borrowed_amount_wads self) safe_settle_amount in
  Ok (set_amounts self a b).

(** Forgive bad debt: the loss is shared by all ctoken holders. *)
Definition forgive_debt (self : ReserveLiquidity) (liquidity_amount : Decimal)
    : result ReserveLiquidity :=
  let? b := try_sub (borrowed_amount_wads self) liquidity_amount in
  Ok (set_amounts self (available_amount self) b).

(** Subtract the withdrawn amount from the accumulated protocol fees and from
    the available liquidity. *)
Definition redeem_fees (self : ReserveLiquidity) (withdraw_amount : Z)
    : result ReserveLiquidity :=
  let? a := math (checked_sub (available_amount self) withdraw_amount) in
  let? f := try_sub (accumulated_protocol_fees_wads self) (from_int withdraw_amount) in
  Ok (set_debt (set_amounts self a (borrowed_amount_wads self))
        (borrowed_amount_wads self) (cumulative_borrow_rate_wads self) f).

(** Calculate the liquidity utilization rate of the reserve. *)
Definition utilization_rate (self : ReserveLiquidity) : result Rate :=
  let? total := total_supply self in
  if dec_eqb total Decimal.zero || dec_eqb (borrowed_amount_wads self) Decimal.zero
  then Ok Rate.zero
  else
    let? denominator :=
      try_add (borrowed_amount_wads self) (from_int (available_amount self)) in
    let? u := try_div (borrowed_amount_wads self) denominator in
    rate_try_from u.

(** Compound current borrow rate over elapsed slots. *)
Definition compound_interest (self : ReserveLiquidity) (current_borrow_rate : Rate)
    (slots_elapsed : Z) (take_rate : Rate) : result ReserveLiquidity :=
  let? slot_interest_rate := try_div current_borrow_rate SLOTS_PER_YEAR in
  let? slot_rate := try_add Rate.one slot_interest_rate in
  let? compounded_interest_rate := try_pow slot_rate slots_elapsed in
  let? cumulative :=
    try_mul (cumulative_borrow_rate_wads self) compounded_interest_rate in
  let? debt := try_mul (borrowed_amount_wads self) compounded_interest_rate in
  let? net_new_debt := try_sub debt (borrowed_amount_wads self) in
  let? take := try_mul net_new_debt take_rate in
  let? fees := try_add take (accumulated_protocol_fees_wads self) in
  let? borrowed := try_add (borrowed_amount_wads self) net_new_debt in
  Ok (set_debt self borrowed cumulative fees).

(** ** Well-formedness *)

(** Machine widths of the fields that hold integers and decimals. *)
Record liquidity_wf (l : ReserveLiquidity) : Prop := {
  wf_mint_decimals : is_u8 (mint_decimals l);
  wf_available_amount : is_u64 (available_amount l);
  wf_borrowed_amount : dec_wf (borrowed_amount_wads l);
  wf_cumulative_borrow_rate : dec_wf (cumulative_borrow_rate_wads l);
  wf_accumulated_fees : dec_wf (accumulated_protocol_fees_wads l);
  wf_market_price : dec_wf (market_price l);
  wf_smoothed_market_price : dec_wf (smoothed_market_price l);
}.

(** The raw total of a reserve: what [total_supply] computes. *)
Definition raw_supply (l : ReserveLiquidity) : Z :=
  WAD * available_amount l + dec_raw (borrowed_amount_wads l)
    - dec_raw (accumulated_protocol_fees_wads l).

Section equations.
Implicit Types l : ReserveLiquidity.

Lemma total_supply_inv l t :
  total_supply l = Ok t -> dec_raw t = raw_supply l /\ 0 <= raw_supply l.
Proof.
  unfold total_supply. intros H. minv H.
  apply dec_add_inv in E as [Hv _]. apply dec_sub_inv in H as [Ht Hle].
  unfold raw_supply. cbn [from_int dec_raw] in *. lia.
Qed.

Lemma total_supply_ok l :
  WAD * available_amount l + dec_raw (borrowed_amount_wads l) < 2 ^ 192 ->
  0 <= raw_supply l -> total_supply l = Ok (mkDecimal (raw_supply l)).
Proof.
  unfold raw_supply, total_supply. intros H1 H2.
  rewrite dec_add_ok by (cbn; lia). mred. rewrite dec_sub_ok by (cbn; lia).
  reflexivity.
Qed.

Lemma liq_deposit_inv l n l' :
  deposit l n = Ok l' ->
  l' = set_amounts l (available_amount l + n) (borrowed_amount_wads l) /\
  available_amount l + n < 2 ^ 64.
Proof.
  unfold deposit. intros H. minv H.
  apply math_Ok_inv, checked_add_Some_inv in E as [-> ?]. done.
Qed.

Lemma liq_withdraw_inv l n l' :
  withdraw l n = Ok l' ->
  l' = set_amounts l (available_amount l - n) (borrowed_amount_wads l) /\
  n <= available_amount l.
Proof.
  unfold withdraw. intros H. minv H.
  apply math_Ok_inv, checked_sub_Some_inv in E as [-> ?]. done.
Qed.

Lemma liq_withdraw_ok l n :
  n <= available_amount l ->
  withdraw l n = Ok (set_amounts l (available_amount l - n) (borrowed_amount_wads l)).
Proof.
  intros. unfold withdraw. destruct (Z.ltb_spec (available_amount l) n); [lia|].
  by rewrite checked_sub_Some.
Qed.

Lemma liq_borrow_inv l b l' :
  borrow l b = Ok l' ->
  l' = set_amounts l (available_amount l - dec_raw b / WAD)
         (mkDecimal (dec_raw (borrowed_amount_wads l) + dec_raw b)) /\
  dec_raw b / WAD <= available_amount l.
Proof.
  unfold borrow. intros H. minv H. apply dec_floor_inv in E as [-> _].
  apply math_Ok_inv, checked_sub_Some_inv in E0 as [-> ?].
  apply dec_add_inv in E1 as [Hv _]. split; [|done]. f_equal. by apply dec_ext.
Qed.

Lemma liq_repay_inv l n s l' :
  repay l n s = Ok l' ->
  l' = set_amounts l (available_amount l + n)
         (mkDecimal (dec_raw (borrowed_amount_wads l)
            - Z.min (dec_raw s) (dec_raw (borrowed_amount_wads l)))) /\
  available_amount l + n < 2 ^ 64.
Proof.
  unfold repay. intros H. minv H.
  apply math_Ok_inv, checked_add_Some_inv in E as [-> ?].
  apply dec_sub_inv in E0 as [Hv _]. rewrite dec_min_raw in Hv.
  split; [|done]. f_equal. by apply dec_ext.
Qed.

Lemma liq_forgive_inv l s l' :
  forgive_debt l s = Ok l' ->
  l' = set_amounts l (available_amount l)
         (mkDecimal (dec_raw (borrowed_amount_wads l) - dec_raw s)) /\
  dec_raw s <= dec_raw (borrowed_amount_wads l).
Proof.
  unfold forgive_debt. intros H. minv H. apply dec_sub_inv in E as [Hv ?].
  split; [|done]. f_equal. by apply dec_ext.
Qed.

Lemma liq_redeem_fees_inv l n l' :
  redeem_fees l n = Ok l' ->
  available_amount l' = available_amount l - n /\
  borrowed_amount_wads l' = borrowed_amount_wads l /\
  cumulative_borrow_rate_wads l' = cumulative_borrow_rate_wads l /\
  dec_raw (accumulated_protocol_fees_wads l')
    = dec_raw (accumulated_protocol_fees_wads l) - WAD * n /\
  n <= available_amount l /\ WAD * n <= dec_raw (accumulated_protocol_fees_wads l).
Proof.
  unfold redeem_fees. intros H. minv H.
  apply math_Ok_inv, checked_sub_Some_inv in E as [-> ?].
  apply dec_sub_inv in E0 as [Hv ?]. done.
Qed.
End equations.
