(* ===== verification/ReserveCollateral.v ===== *)
(** state/reserve.rs: the collateral side of a reserve and the exchange rate
    between collateral and liquidity. *)

From S2P Require Import Prelude Errors Common Rate Decimal Codec.

(** Reserve collateral. *)
Record ReserveCollateral : Type := mkReserveCollateral {
  mint_pubkey : Pubkey;
  mint_total_supply : Z;
  supply_pubkey : Pubkey;
}.

#[export] Instance ReserveCollateral_eq_dec : EqDecision ReserveCollateral.
Proof. solve_decision. Defined.

Record NewReserveCollateralParams : Type := mkNewReserveCollateralParams {
  new_mint_pubkey : Pubkey;
  new_supply_pubkey : Pubkey;
}.

Definition default : ReserveCollateral := mkReserveCollateral 0 0 0.

(** Create a new reserve collateral. *)
Definition new (params : NewReserveCollateralParams) : ReserveCollateral :=
  mkReserveCollateral (new_mint_pubkey params) 0 (new_supply_pubkey params).

Definition set_total_supply (self : ReserveCollateral) (n : Z) : ReserveCollateral :=
  mkReserveCollateral (mint_pubkey self) n (supply_pubkey self).

(** Add collateral to total supply. *)
Definition mint (self : ReserveCollateral) (collateral_amount : Z) : result ReserveCollateral :=
  let? n := math (checked_add 64 (mint_total_supply self) collateral_amount) in
  Ok (set_total_supply self n).

(** Remove collateral from total supply. *)
Definition burn (self : ReserveCollateral) (collateral_amount : Z) : result ReserveCollateral :=
  let? n := math (checked_sub (mint_total_supply self) collateral_amount) in
  Ok (set_total_supply self n).

(** Collateral exchange rate. *)
Record CollateralExchangeRate : Type := mkCollateralExchangeRate {
  exchange_rate_inner : Rate;
}.

(** Return the current collateral exchange rate. *)
Definition exchange_rate (self : ReserveCollateral) (total_liquidity : Decimal)
    : result CollateralExchangeRate :=
  let? rate :=
    if (mint_total_supply self =? 0) || dec_eqb total_liquidity Decimal.zero
    then Ok (Rate.from_scaled_val INITIAL_COLLATERAL_RATE)
    else
      let total := from_int (mint_total_supply self) in
      let? q := try_div total total_liquidity in
      rate_try_from q in
  Ok (mkCollateralExchangeRate rate).

Definition decimal_collateral_to_liquidity (self : CollateralExchangeRate)
    (collateral_amount : Decimal) : result Decimal :=
  try_div collateral_amount (exchange_rate_inner self).

Definition decimal_liquidity_to_collateral (self : CollateralExchangeRate)
    (liquidity_amount : Decimal) : result Decimal :=
  try_mul liquidity_amount (exchange_rate_inner self).

(** Convert reserve collateral to liquidity. *)
Definition collateral_to_liquidity (self : CollateralExchangeRate) (collateral_amount : Z)
    : result Z :=
  let? d := decimal_collateral_to_liquidity self (from_int collateral_amount) in
  try_floor_u64 d.

(** Convert reserve liquidity to collateral. *)
Definition liquidity_to_collateral (self : CollateralExchangeRate) (liquidity_amount : Z)
    : result Z :=
  let? d := decimal_liquidity_to_collateral self (from_int liquidity_amount) in
  try_floor_u64 d.

(** ** Equations *)

Section equations.
Implicit Types (c : ReserveCollateral) (e : CollateralExchangeRate).

Lemma mint_inv c n c' :
  mint c n = Ok c' ->
  c' = set_total_supply c (mint_total_supply c + n) /\ mint_total_supply c + n < 2 ^ 64.
Proof.
  unfold mint. intros H. minv H.
  apply math_Ok_inv, checked_add_Some_inv in E as [-> ?]. done.
Qed.

Lemma burn_inv c n c' :
  burn c n = Ok c' ->
  c' = set_total_supply c (mint_total_supply c - n) /\ n <= mint_total_supply c.
Proof.
  unfold burn. intros H. minv H.
  apply math_Ok_inv, checked_sub_Some_inv in E as [-> ?]. done.
Qed.

Lemma exchange_rate_inv c t e :
  exchange_rate c t = Ok e ->
  let r := rate_raw (exchange_rate_inner e) in
  ((mint_total_supply c = 0 \/ dec_raw t = 0) /\ r = WAD) \/
  (mint_total_supply c <> 0 /\ dec_raw t <> 0 /\
   r = WAD * mint_total_supply c * WAD / dec_raw t /\ r < 2 ^ 128).
Proof.
  unfold exchange_rate. intros H. minv H. cbn [exchange_rate_inner].
  unfold dec_eqb in E. cbn [Decimal.zero dec_raw] in E.
  destruct (_ || _) eqn:Hz.
  - injection E as <-. left. split; [lia | reflexivity].
  - minv E. apply dec_div_inv in E0 as (Hv & _ & Ht).
    apply rate_try_from_inv in E as [Hr Hlt]. right. cbn [from_int dec_raw] in *.
    rewrite Hr, Hv in *. lia.
Qed.

Lemma liquidity_to_collateral_inv e x y :
  liquidity_to_collateral e x = Ok y ->
  y = WAD * x * rate_raw (exchange_rate_inner e) / WAD / WAD.
Proof.
  unfold liquidity_to_collateral, decimal_liquidity_to_collateral. intros H. minv H.
  apply dec_mul_rate_inv in E as [Hv _]. apply dec_floor_inv in H as [-> _]. by rewrite Hv.
Qed.

Lemma collateral_to_liquidity_inv e y x :
  collateral_to_liquidity e y = Ok x ->
  x = WAD * y * WAD / rate_raw (exchange_rate_inner e) / WAD /\
  rate_raw (exchange_rate_inner e) <> 0.
Proof.
  unfold collateral_to_liquidity, decimal_collateral_to_liquidity. intros H. minv H.
  apply dec_div_rate_inv in E as (Hv & _ & Hz).
  apply dec_floor_inv in H as [-> _]. by rewrite Hv.
Qed.
End equations.
