(* ===== verification/ObligationCollateral.v ===== *)
(** state/obligation.rs: one deposit of an obligation. *)

From S2P Require Import Prelude Errors Common Rate Decimal Codec.

(** Obligation collateral state. *)
Record ObligationCollateral : Type := mkObligationCollateral {
  deposit_reserve : Pubkey;
  deposited_amount : Z;
  market_value : Decimal;
}.

#[export] Instance ObligationCollateral_eq_dec : EqDecision ObligationCollateral.
Proof. solve_decision. Defined.

(** Create new obligation collateral. *)
Definition new (deposit_reserve : Pubkey) : ObligationCollateral :=
  mkObligationCollateral deposit_reserve 0 Decimal.zero.

Definition set_deposited (self : ObligationCollateral) (n : Z) : ObligationCollateral :=
  mkObligationCollateral (deposit_reserve self) n (market_value self).

Definition set_market_value (self : ObligationCollateral) (v : Decimal)
    : ObligationCollateral :=
  mkObligationCollateral (deposit_reserve self) (deposited_amount self) v.

(** Increase deposited collateral. *)
Definition deposit (self : ObligationCollateral) (collateral_amount : Z)
    : result ObligationCollateral :=
  let? n := math (checked_add 64 (deposited_amount self) collateral_amount) in
  Ok (set_deposited self n).

(** Decrease deposited collateral. *)
Definition withdraw (self : ObligationCollateral) (collateral_amount : Z)
    : result ObligationCollateral :=
  let? n := math (checked_sub (deposited_amount self) collateral_amount) in
  Ok (set_deposited self n).

Definition collateral_wf (c : ObligationCollateral) : Prop :=
  is_u256 (deposit_reserve c) /\ is_u64 (deposited_amount c) /\ dec_u128 (market_value c).

Lemma oc_deposit_inv c n c' :
  deposit c n = Ok c' ->
  c' = set_deposited c (deposited_amount c + n) /\ deposited_amount c + n < 2 ^ 64.
Proof.
  unfold deposit. intros H. minv H.
  apply math_Ok_inv, checked_add_Some_inv in E as [-> ?]. done.
Qed.

Lemma oc_withdraw_inv c n c' :
  withdraw c n = Ok c' ->
  c' = set_deposited c (deposited_amount c - n) /\ n <= deposited_amount c.
Proof.
  unfold withdraw. intros H. minv H.
  apply math_Ok_inv, checked_sub_Some_inv in E as [-> ?]. done.
Qed.
