(* ===== verification/ObligationLiquidity.v ===== *)
(** state/obligation.rs: one borrow of an obligation. *)

From S2P Require Import Prelude Errors Common Rate Decimal Codec.

(** Obligation liquidity state. *)
Record ObligationLiquidity : Type := mkObligationLiquidity {
  borrow_reserve : Pubkey;
  cumulative_borrow_rate_wads : Decimal;
  borrowed_amount_wads : Decimal;
  market_value : Decimal;
}.

#[export] Instance ObligationLiquidity_eq_dec : EqDecision ObligationLiquidity.
Proof. solve_decision. Defined.

(** Create new obligation liquidity. *)
Definition new (borrow_reserve : Pubkey) (cumulative_borrow_rate_wads : Decimal)
    : ObligationLiquidity :=
  mkObligationLiquidity borrow_reserve cumulative_borrow_rate_wads Decimal.zero Decimal.zero.

Definition set_borrowed (self : ObligationLiquidity) (d : Decimal) : ObligationLiquidity :=
  mkObligationLiquidity (borrow_reserve self) (cumulative_borrow_rate_wads self) d
    (market_value self).

Definition set_market_value (self : ObligationLiquidity) (v : Decimal)
    : ObligationLiquidity :=
  mkObligationLiquidity (borrow_reserve self) (cumulative_borrow_rate_wads self)
    (borrowed_amount_wads self) v.

(** Decrease borrowed liquidity. *)
Definition repay (self : ObligationLiquidity) (settle_amount : Decimal)
    : result ObligationLiquidity :=
  let? d := try_sub (borrowed_amount_wads self) settle_amount in
  Ok (set_borrowed self d).

(** Increase borrowed liquidity. *)
Definition borrow (self : ObligationLiquidity) (borrow_amount : Decimal)
    : result ObligationLiquidity :=
  let? d := try_add (borrowed_amount_wads self) borrow_amount in
  Ok (set_borrowed self d).

(** Accrue interest. *)
Definition accrue_interest (self : ObligationLiquidity) (rate : Decimal)
    : result ObligationLiquidity :=
  match dec_cmp rate (cumulative_borrow_rate_wads self) with
  | Lt => fail NegativeInterestRate
  | Eq => Ok self
  | Gt =>
      let? q := try_div rate (cumulative_borrow_rate_wads self) in
      let? compounded_interest_rate := rate_try_from q in
      let? d := try_mul (borrowed_amount_wads self) compounded_interest_rate in
      Ok (mkObligationLiquidity (borrow_reserve self) rate d (market_value self))
  end.

Definition liquidity_wf (l : ObligationLiquidity) : Prop :=
  is_u256 (borrow_reserve l) /\ dec_u128 (cumulative_borrow_rate_wads l) /\
  dec_u128 (borrowed_amount_wads l) /\ dec_u128 (market_value l).

Lemma ol_repay_inv l s l' :
  repay l s = Ok l' ->
  l' = set_borrowed l (mkDecimal (dec_raw (borrowed_amount_wads l) - dec_raw s)) /\
  dec_raw s <= dec_raw (borrowed_amount_wads l).
Proof.
  unfold repay. intros H. minv H. apply dec_sub_inv in E as [Hv ?].
  split; [|done]. f_equal. by apply dec_ext.
Qed.

Lemma ol_borrow_inv l s l' :
  borrow l s = Ok l' ->
  l' = set_borrowed l (mkDecimal (dec_raw (borrowed_amount_wads l) + dec_raw s)).
Proof.
  unfold borrow. intros H. minv H. apply dec_add_inv in E as [Hv ?].
  f_equal. by apply dec_ext.
Qed.

(** Interest never shrinks a debt, and records the rate it was brought to. *)
Lemma ol_accrue_inv l r l' :
  0 <= dec_raw (borrowed_amount_wads l) -> 0 < dec_raw (cumulative_borrow_rate_wads l) ->
  accrue_interest l r = Ok l' ->
  dec_raw (cumulative_borrow_rate_wads l) <= dec_raw r /\
  cumulative_borrow_rate_wads l' = r /\ borrow_reserve l' = borrow_reserve l /\
  market_value l' = market_value l /\
  dec_raw (borrowed_amount_wads l) <= dec_raw (borrowed_amount_wads l') /\
  dec_raw (borrowed_amount_wads l') * dec_raw (cumulative_borrow_rate_wads l)
    <= dec_raw (borrowed_amount_wads l) * dec_raw r.
Proof.
  intros Hb Hc H. unfold accrue_interest, dec_cmp in H.
  destruct (Z.compare_spec (dec_raw r) (dec_raw (cumulative_borrow_rate_wads l))) as [Heq|Hlt|Hgt].
  - injection H as <-. apply dec_ext in Heq. rewrite Heq. split_and!; try done; lia.
  - discriminate.
  - minv H. cbn. apply dec_div_inv in E as (Hq & _ & _).
    apply rate_try_from_inv in E0 as [Hr _]. apply dec_mul_rate_inv in E1 as [Hd _].
    rewrite Hd, Hr, Hq. split_and!; try done; try lia.
    + apply mul_div_ge_self; [done| |done]. apply Z.div_le_lower_bound; unfold WAD; lia.
    + set (c := dec_raw (cumulative_borrow_rate_wads l)) in *.
      set (b := dec_raw (borrowed_amount_wads l)) in *.
      by apply scaled_div_le.
Qed.
