(* ===== verification/Obligation.v ===== *)
(** state/obligation.rs: a borrower's position.

    [max_withdraw_amount], which reads a reserve, is in ObligationWithdraw; the
    packed layout is in ObligationCodec.  A method that returns a [&mut] to one
    of the entries returns the obligation with the entry's index. *)

From S2P Require Import Prelude Errors Common Rate Decimal Codec LastUpdate.
From S2P Require Import ObligationCollateral ObligationLiquidity.

(** Lending market obligation state. *)
Record Obligation : Type := mkObligation {
  version : Z;
  last_update : LastUpdate;
  lending_market : Pubkey;
  owner : Pubkey;
  deposits : list ObligationCollateral;
  borrows : list ObligationLiquidity;
  deposited_value : Decimal;
  borrowed_value : Decimal;
  borrowed_value_upper_bound : Decimal;
  allowed_borrow_value : Decimal;
  unhealthy_borrow_value : Decimal;
  super_unhealthy_borrow_value : Decimal;
  borrowing_isolated_asset : bool;
}.

#[export] Instance Obligation_eq_dec : EqDecision Obligation.
Proof. solve_decision. Defined.

(** Initialize an obligation. *)
Record InitObligationParams : Type := mkInitObligationParams {
  init_current_slot : Z;
  init_lending_market : Pubkey;
  init_owner : Pubkey;
  init_deposits : list ObligationCollateral;
  init_borrows : list ObligationLiquidity;
}.

Definition default : Obligation :=
  mkObligation 0 LastUpdate.default 0 0 [] [] Decimal.zero Decimal.zero Decimal.zero
    Decimal.zero Decimal.zero Decimal.zero false.

Definition init (self : Obligation) (params : InitObligationParams) : Obligation :=
  mkObligation PROGRAM_VERSION (LastUpdate.new (init_current_slot params))
    (init_lending_market params) (init_owner params)
    (init_deposits params) (init_borrows params)
    (deposited_value self) (borrowed_value self) (borrowed_value_upper_bound self)
    (allowed_borrow_value self) (unhealthy_borrow_value self)
    (super_unhealthy_borrow_value self) (borrowing_isolated_asset self).

Definition new (params : InitObligationParams) : Obligation := init default params.

Definition is_initialized (self : Obligation) : bool :=
  negb (version self =? UNINITIALIZED_VERSION).

Definition set_positions (self : Obligation) (ds : list ObligationCollateral)
    (bs : list ObligationLiquidity) : Obligation :=
  mkObligation (version self) (last_update self) (lending_market self) (owner self) ds bs
    (deposited_value self) (borrowed_value self) (borrowed_value_upper_bound self)
    (allowed_borrow_value self) (unhealthy_borrow_value self)
    (super_unhealthy_borrow_value self) (borrowing_isolated_asset self).

Definition set_last_update (self : Obligation) (u : LastUpdate) : Obligation :=
  mkObligation (version self) u (lending_market self) (owner self)
    (deposits self) (borrows self)
    (deposited_value self) (borrowed_value self) (borrowed_value_upper_bound self)
    (allowed_borrow_value self) (unhealthy_borrow_value self)
    (super_unhealthy_borrow_value self) (borrowing_isolated_asset self).

Definition set_deposits (self : Obligation) (ds : list ObligationCollateral) : Obligation :=
  set_positions self ds (borrows self).
Definition set_borrows (self : Obligation) (bs : list ObligationLiquidity) : Obligation :=
  set_positions self (deposits self) bs.

(** Calculate the current ratio of borrowed value to deposited value. *)
Definition loan_to_value (self : Obligation) : result Decimal :=
  try_div (borrowed_value self) (deposited_value self).

(** Repay liquidity and remove it from borrows if zeroed out. *)
Definition repay (self : Obligation) (settle_amount : Decimal) (liquidity_index : nat)
    : result Obligation :=
  let? liquidity := unwrap_option (borrows self !! liquidity_index) in
  if dec_eqb settle_amount (borrowed_amount_wads liquidity) then
    Ok (set_borrows self (delete liquidity_index (borrows self)))
  else
    let? liquidity := ObligationLiquidity.repay liquidity settle_amount in
    Ok (set_borrows self (<[liquidity_index := liquidity]> (borrows self))).

(** Withdraw collateral and remove it from deposits if zeroed out. *)
Definition withdraw (self : Obligation) (withdraw_amount : Z) (collateral_index : nat)
    : result Obligation :=
  let? collateral := unwrap_option (deposits self !! collateral_index) in
  if withdraw_amount =? deposited_amount collateral then
    Ok (set_deposits self (delete collateral_index (deposits self)))
  else
    let? collateral := ObligationCollateral.withdraw collateral withdraw_amount in
    Ok (set_deposits self (<[collateral_index := collateral]> (deposits self))).

(** Calculate the maximum liquidity value that can be borrowed. *)
Definition remaining_borrow_value (self : Obligation) : result Decimal :=
  try_sub (allowed_borrow_value self) (borrowed_value_upper_bound self).

(** Calculate the maximum liquidation amount for a given liquidity. *)
Definition max_liquidation_amount (self : Obligation) (liquidity : ObligationLiquidity)
    : result Decimal :=
  let? close := try_mul (borrowed_value self) (Rate.from_percent LIQUIDATION_CLOSE_FACTOR) in
  let max_liquidation_value :=
    dec_min (dec_min close (ObligationLiquidity.market_value liquidity))
      (from_int MAX_LIQUIDATABLE_VALUE_AT_ONCE) in
  let? max_liquidation_pct :=
    try_div max_liquidation_value (ObligationLiquidity.market_value liquidity) in
  try_mul (borrowed_amount_wads liquidity) max_liquidation_pct.

(** ** Looking entries up *)

(** [iter().position(..)]. *)
Fixpoint position {A : Type} (p : A -> bool) (l : list A) : option nat :=
  match l with
  | [] => None
  | x :: l => if p x then Some 0%nat else S <$> position p l
  end.

Definition _find_collateral_index_in_deposits (self : Obligation) (k : Pubkey) : option nat :=
  position (fun c => deposit_reserve c =? k) (deposits self).

Definition _find_liquidity_index_in_borrows (self : Obligation) (k : Pubkey) : option nat :=
  position (fun l => borrow_reserve l =? k) (borrows self).

(** Find collateral by deposit reserve. *)
Definition find_collateral_in_deposits (self : Obligation) (k : Pubkey)
    : result (ObligationCollateral * nat) :=
  reject_if (length (deposits self) =? 0)%nat with lending_error ObligationDepositsEmpty then
  let? i := ok_or (_find_collateral_index_in_deposits self k)
              (lending_error InvalidObligationCollateral) in
  let? c := unwrap_option (deposits self !! i) in
  Ok (c, i).

(** Find or add collateral by deposit reserve. *)
Definition find_or_add_collateral_to_deposits (self : Obligation) (k : Pubkey)
    : result (Obligation * nat) :=
  match _find_collateral_index_in_deposits self k with
  | Some i => Ok (self, i)
  | None =>
      reject_if (MAX_OBLIGATION_RESERVES <=? length (deposits self) + length (borrows self))%nat
        with lending_error ObligationReserveLimit then
      Ok (set_deposits self (deposits self ++ [ObligationCollateral.new k]),
          length (deposits self))
  end.

(** Find liquidity by borrow reserve (also the [_mut] variant). *)
Definition find_liquidity_in_borrows (self : Obligation) (k : Pubkey)
    : result (ObligationLiquidity * nat) :=
  reject_if (length (borrows self) =? 0)%nat with lending_error ObligationBorrowsEmpty then
  let? i := ok_or (_find_liquidity_index_in_borrows self k)
              (lending_error InvalidObligationLiquidity) in
  let? l := unwrap_option (borrows self !! i) in
  Ok (l, i).

(** Find or add liquidity by borrow reserve. *)
Definition find_or_add_liquidity_to_borrows (self : Obligation) (k : Pubkey)
    (cumulative_borrow_rate_wads : Decimal) : result (Obligation * nat) :=
  match _find_liquidity_index_in_borrows self k with
  | Some i => Ok (self, i)
  | None =>
      reject_if (MAX_OBLIGATION_RESERVES <=? length (deposits self) + length (borrows self))%nat
        with lending_error ObligationReserveLimit then
      Ok (set_borrows self
            (borrows self ++ [ObligationLiquidity.new k cumulative_borrow_rate_wads]),
          length (borrows self))
  end.

(** ** Well-formedness: entries are unique per reserve, and at most ten. *)

Definition deposit_keys (o : Obligation) : list Pubkey := deposit_reserve <$> deposits o.
Definition borrow_keys (o : Obligation) : list Pubkey := borrow_reserve <$> borrows o.

Record positions_ok (o : Obligation) : Prop := {
  ok_deposits_unique : NoDup (deposit_keys o);
  ok_borrows_unique : NoDup (borrow_keys o);
  ok_reserve_limit : (length (deposits o) + length (borrows o) <= MAX_OBLIGATION_RESERVES)%nat;
}.
