(* ===== verification/ObligationSpec.v ===== *)
(** The positions of an obligation: unique per reserve, at most ten, found where
    they were put, and reduced by exactly what is repaid or withdrawn. *)

From S2P Require Import Prelude Errors Common Rate Decimal Codec LastUpdate.
From S2P Require Import ObligationCollateral ObligationLiquidity Obligation.

(** ** [position] *)

Section position.
Context {A : Type} (p : A -> bool).

Lemma position_Some l i :
  position p l = Some i -> exists x, l !! i = Some x /\ p x = true.
Proof.
  revert i. induction l as [|x l IH]; intros i; simpl; [done|].
  destruct (p x) eqn:Hp; [intros [= <-]; eauto|].
  intros (j & Hj & ->)%fmap_Some. by apply IH.
Qed.

Lemma position_None l : position p l = None <-> Forall (fun x => p x = false) l.
Proof.
  induction l as [|x l IH]; simpl; [by split|].
  rewrite list.Forall_cons. destruct (p x); [by split; [|intros []]|].
  destruct (position p l); simpl; [|naive_solver].
  split; [done|]. intros [_ H]. apply IH in H. done.
Qed.
End position.

Lemma position_key_None {A : Type} (f : A -> Pubkey) (k : Pubkey) (l : list A) :
  position (fun x => f x =? k) l = None <-> k ∉ f <$> l.
Proof.
  rewrite position_None, list_elem_of_fmap, list.Forall_forall. split.
  - intros H (x & -> & Hx). specialize (H x Hx). simpl in H. lia.
  - intros H x Hx. simpl. apply Z.eqb_neq. intros <-. eauto.
Qed.

Lemma position_key_Some {A : Type} (f : A -> Pubkey) (k : Pubkey) (l : list A) i :
  position (fun x => f x =? k) l = Some i -> exists x, l !! i = Some x /\ f x = k.
Proof.
  intros (x & Hx & Hk)%position_Some. exists x. split; [done|]. simpl in Hk. lia.
Qed.

Lemma NoDup_snoc {A : Type} (l : list A) (x : A) : NoDup l -> x ∉ l -> NoDup (l ++ [x]).
Proof.
  intros Hl Hx. apply list.NoDup_app. split_and!; [done| |apply NoDup_singleton].
  intros y Hy ->%list_elem_of_singleton. done.
Qed.

Lemma NoDup_fmap_delete {A B : Type} (f : A -> B) (l : list A) i :
  NoDup (f <$> l) -> NoDup (f <$> delete i l).
Proof.
  intros H. rewrite list_fmap_delete.
  eapply sublist_NoDup; [apply H | apply sublist_delete].
Qed.

Lemma fmap_insert_same {A B : Type} (f : A -> B) (l : list A) i x y :
  l !! i = Some x -> f y = f x -> f <$> <[i := y]> l = f <$> l.
Proof.
  intros Hx Hf. rewrite list_fmap_insert. apply list_insert_id.
  by rewrite list_lookup_fmap, Hx, Hf.
Qed.

(** ** The operations as steps *)

(** What an instruction may do to the positions: the two lookups that add an
    entry, the two removals, and an update of the entry at an index that keeps
    its reserve. *)
Inductive position_step : Obligation -> Obligation -> Prop :=
  | step_add_collateral o k o' i :
      find_or_add_collateral_to_deposits o k = Ok (o', i) -> position_step o o'
  | step_add_liquidity o k r o' i :
      find_or_add_liquidity_to_borrows o k r = Ok (o', i) -> position_step o o'
  | step_deposit o i c c' n :
      deposits o !! i = Some c -> ObligationCollateral.deposit c n = Ok c' ->
      position_step o (set_deposits o (<[i := c']> (deposits o)))
  | step_borrow o i l l' n :
      borrows o !! i = Some l -> ObligationLiquidity.borrow l n = Ok l' ->
      position_step o (set_borrows o (<[i := l']> (borrows o)))
  | step_accrue o i l l' r :
      borrows o !! i = Some l -> ObligationLiquidity.accrue_interest l r = Ok l' ->
      position_step o (set_borrows o (<[i := l']> (borrows o)))
  | step_repay o s i o' :
      Obligation.repay o s i = Ok o' -> position_step o o'
  | step_withdraw o n i o' :
      Obligation.withdraw o n i = Ok o' -> position_step o o'.

Lemma accrue_interest_key l r l' :
  ObligationLiquidity.accrue_interest l r = Ok l' -> borrow_reserve l' = borrow_reserve l.
Proof.
  unfold ObligationLiquidity.accrue_interest. intros H.
  destruct (dec_cmp _ _); [by injection H as <- | discriminate |]. minv H. done.
Qed.

Section steps.
Implicit Types o : Obligation.

Lemma add_collateral_inv o k o' i :
  find_or_add_collateral_to_deposits o k = Ok (o', i) ->
  (o' = o /\ exists c, deposits o !! i = Some c /\ deposit_reserve c = k) \/
  (k ∉ deposit_keys o /\
   (length (deposits o) + length (borrows o) < MAX_OBLIGATION_RESERVES)%nat /\
   o' = set_deposits o (deposits o ++ [ObligationCollateral.new k]) /\
   i = length (deposits o)).
Proof.
  unfold find_or_add_collateral_to_deposits, _find_collateral_index_in_deposits.
  destruct (position _ _) as [j|] eqn:Hp; intros H.
  - injection H as -> ->. left. split; [done|]. by apply position_key_Some in Hp.
  - minv H. right. apply position_key_None in Hp. split_and!; try done. lia.
Qed.

Lemma add_liquidity_inv o k r o' i :
  find_or_add_liquidity_to_borrows o k r = Ok (o', i) ->
  (o' = o /\ exists l, borrows o !! i = Some l /\ borrow_reserve l = k) \/
  (k ∉ borrow_keys o /\
   (length (deposits o) + length (borrows o) < MAX_OBLIGATION_RESERVES)%nat /\
   o' = set_borrows o (borrows o ++ [ObligationLiquidity.new k r]) /\
   i = length (borrows o)).
Proof.
  unfold find_or_add_liquidity_to_borrows, _find_liquidity_index_in_borrows.
  destruct (position _ _) as [j|] eqn:Hp; intros H.
  - injection H as -> ->. left. split; [done|]. by apply position_key_Some in Hp.
  - minv H. right. apply position_key_None in Hp. split_and!; try done. lia.
Qed.

Lemma ob_repay_inv o s i o' :
  Obligation.repay o s i = Ok o' ->
  exists l, borrows o !! i = Some l /\ dec_raw s <= dec_raw (borrowed_amount_wads l) /\
    o' = set_borrows o
      (if dec_eqb s (borrowed_amount_wads l) then delete i (borrows o)
       else <[i := set_borrowed l
              (mkDecimal (dec_raw (borrowed_amount_wads l) - dec_raw s))]> (borrows o)).
Proof.
  unfold Obligation.repay. intros H. minv H. apply unwrap_option_Ok_inv in E.
  rename v into l. exists l. split; [done|].
  destruct (dec_eqb s (borrowed_amount_wads l)) eqn:Heq.
  - apply dec_eqb_eq in Heq as ->. minv H. split; [lia|done].
  - minv H. by apply ol_repay_inv in E0 as [-> ?].
Qed.

Lemma ob_withdraw_inv o n i o' :
  Obligation.withdraw o n i = Ok o' ->
  exists c, deposits o !! i = Some c /\ n <= deposited_amount c /\
    o' = set_deposits o
      (if n =? deposited_amount c then delete i (deposits o)
       else <[i := set_deposited c (deposited_amount c - n)]> (deposits o)).
Proof.
  unfold Obligation.withdraw. intros H. minv H. apply unwrap_option_Ok_inv in E.
  rename v into c. exists c. split; [done|].
  destruct (Z.eqb_spec n (deposited_amount c)) as [->|Hne].
  - minv H. split; [lia|done].
  - minv H. by apply oc_withdraw_inv in E0 as [-> ?].
Qed.

Lemma positions_insert_borrow o i l l' :
  positions_ok o -> borrows o !! i = Some l -> borrow_reserve l' = borrow_reserve l ->
  positions_ok (set_borrows o (<[i := l']> (borrows o))).
Proof.
  intros [Hd Hb Hn] Hl Hk. split; unfold borrow_keys; cbn; [done| |].
  - by rewrite (fmap_insert_same _ _ _ l).
  - by rewrite length_insert.
Qed.

Lemma positions_insert_deposit o i c c' :
  positions_ok o -> deposits o !! i = Some c -> deposit_reserve c' = deposit_reserve c ->
  positions_ok (set_deposits o (<[i := c']> (deposits o))).
Proof.
  intros [Hd Hb Hn] Hl Hk. split; unfold deposit_keys; cbn; [|done|].
  - by rewrite (fmap_insert_same _ _ _ c).
  - by rewrite length_insert.
Qed.

Lemma length_delete_le {A : Type} (l : list A) i : (length (delete i l) <= length l)%nat.
Proof. apply sublist_length, sublist_delete. Qed.

Lemma positions_step o o' : positions_ok o -> position_step o o' -> positions_ok o'.
Proof.
  intros Hok Hs. pose proof Hok as [Hd Hb Hn]. destruct Hs.
  - apply add_collateral_inv in H as [[-> _]|(Hk & Hlt & -> & _)]; [done|].
    split; unfold deposit_keys; cbn; [|done|].
    + rewrite fmap_app. by apply NoDup_snoc.
    + rewrite length_app. simpl. lia.
  - apply add_liquidity_inv in H as [[-> _]|(Hk & Hlt & -> & _)]; [done|].
    split; unfold borrow_keys; cbn; [done| |].
    + rewrite fmap_app. by apply NoDup_snoc.
    + rewrite length_app. simpl. lia.
  - apply oc_deposit_inv in H0 as [-> _].
    by apply (positions_insert_deposit _ _ c).
  - apply ol_borrow_inv in H0 as ->.
    by apply (positions_insert_borrow _ _ l).
  - apply accrue_interest_key in H0. by apply (positions_insert_borrow _ _ l).
  - apply ob_repay_inv in H as (l & Hl & _ & ->). case_match.
    + split; unfold borrow_keys; cbn; [done|by apply NoDup_fmap_delete|].
      pose proof (length_delete_le (borrows o) i). lia.
    + by apply (positions_insert_borrow _ _ l).
  - apply ob_withdraw_inv in H as (c & Hc & _ & ->). case_match.
    + split; unfold deposit_keys; cbn; [by apply NoDup_fmap_delete|done|].
      pose proof (length_delete_le (deposits o) i). lia.
    + by apply (positions_insert_deposit _ _ c).
Qed.
End steps.

(** Obligations that instructions can produce from a fresh one. *)
Inductive reachable_positions (params : InitObligationParams) : Obligation -> Prop :=
  | reachable_new : reachable_positions params (Obligation.new params)
  | reachable_step o o' :
      reachable_positions params o -> position_step o o' -> reachable_positions params o'.

Definition empty_params : InitObligationParams := mkInitObligationParams 5 1 2 [] [].

(** An obligation opened without positions always has at most one deposit and
    one borrow per reserve, and at most ten positions in all, whatever sequence
    of deposits, borrows, interest accruals, repayments and withdrawals it goes
    through. *)
Theorem positions_invariant (params : InitObligationParams) (o : Obligation)
    (Hd : init_deposits params = []) (Hb : init_borrows params = [])
    (H : reachable_positions params o) :
  positions_ok o.
Proof.
  induction H as [|o o' _ IH Hs]; [|by eapply positions_step].
  split; unfold deposit_keys, borrow_keys; cbn; rewrite ?Hd, ?Hb; simpl;
    [apply NoDup_nil_2 | apply NoDup_nil_2 | lia].
Qed.

Lemma positions_invariant_witness :
  exists o, length (deposits o) = 1%nat /\ reachable_positions empty_params o /\
    positions_ok o.
Proof.
  exists (set_deposits (Obligation.new empty_params) [ObligationCollateral.new 9]).
  assert (H : reachable_positions empty_params
    (set_deposits (Obligation.new empty_params) [ObligationCollateral.new 9])).
  { eapply reachable_step; [apply reachable_new|].
    by apply (step_add_collateral _ 9 _ 0). }
  split; [done|]. split; [exact H|].
  exact (positions_invariant empty_params _ eq_refl eq_refl H).
Defined.

(** ** Exact effect of a repayment and of a withdrawal *)

Definition total_debt (o : Obligation) : Z :=
  foldr (fun l t => dec_raw (borrowed_amount_wads l) + t) 0 (borrows o).
Definition total_collateral (o : Obligation) : Z :=
  foldr (fun c t => deposited_amount c + t) 0 (deposits o).

Section sums.
Context {A : Type} (f : A -> Z).

Definition sum_by (l : list A) : Z := foldr (fun x t => f x + t) 0 l.

Lemma sum_by_delete l i x : l !! i = Some x -> sum_by (delete i l) = sum_by l - f x.
Proof.
  revert i. induction l as [|y l IH]; intros [|i] H; simplify_eq/=; [lia|].
  rewrite (IH _ H). lia.
Qed.

Lemma sum_by_insert l i x y :
  l !! i = Some x -> sum_by (<[i := y]> l) = sum_by l - f x + f y.
Proof.
  revert i. induction l as [|z l IH]; intros [|i] H; simplify_eq/=; [lia|].
  rewrite (IH _ H). lia.
Qed.
End sums.

Definition debt_of (l : ObligationLiquidity) : Z :=
  dec_raw (borrowed_amount_wads l).

Lemma total_debt_sum o : total_debt o = sum_by debt_of (borrows o).
Proof. done. Qed.

Lemma sum_by_snoc {A : Type} (f : A -> Z) l x : sum_by f (l ++ [x]) = sum_by f l + f x.
Proof. induction l as [|y l IH]; simpl; [lia|]. rewrite IH. lia. Qed.

Lemma total_collateral_sum o : total_collateral o = sum_by deposited_amount (deposits o).
Proof. done. Qed.

Lemma ob_repay_total o s i o' :
  Obligation.repay o s i = Ok o' ->
  total_debt o' = total_debt o - dec_raw s /\ deposits o' = deposits o.
Proof.
  intros (l & Hl & _ & ->)%ob_repay_inv. split; [|done]. rewrite !total_debt_sum.
  cbn [set_borrows set_positions borrows].
  destruct (dec_eqb s (borrowed_amount_wads l)) eqn:Heq.
  - apply dec_eqb_eq in Heq as ->. by rewrite (sum_by_delete _ _ _ _ Hl).
  - rewrite (sum_by_insert _ _ _ _ _ Hl). unfold debt_of. cbn. lia.
Qed.

Lemma ob_withdraw_total o n i o' :
  Obligation.withdraw o n i = Ok o' ->
  total_collateral o' = total_collateral o - n /\ borrows o' = borrows o.
Proof.
  intros (c & Hc & _ & ->)%ob_withdraw_inv. split; [|done]. rewrite !total_collateral_sum.
  cbn [set_deposits set_positions deposits].
  destruct (Z.eqb_spec n (deposited_amount c)) as [->|_].
  - by rewrite (sum_by_delete _ _ _ _ Hc).
  - rewrite (sum_by_insert _ _ _ _ _ Hc). cbn. lia.
Qed.

(** A repayment lowers the obligation's total debt by exactly the settled
    amount, never below the amount owed to the other reserves, leaves every
    other borrow in place, and drops the entry exactly when nothing is left. *)
Theorem repay_exact (o o' : Obligation) (s : Decimal) (i : nat) (l : ObligationLiquidity)
    (Hl : borrows o !! i = Some l) (H : Obligation.repay o s i = Ok o') :
  total_debt o' = total_debt o - dec_raw s /\
  dec_raw s <= dec_raw (borrowed_amount_wads l) /\
  deposits o' = deposits o /\
  ((s = borrowed_amount_wads l /\ borrows o' = delete i (borrows o)) \/
   (s <> borrowed_amount_wads l /\
    (forall j, j <> i -> borrows o' !! j = borrows o !! j) /\
    exists l', borrows o' !! i = Some l' /\ borrow_reserve l' = borrow_reserve l /\
      dec_raw (borrowed_amount_wads l') = dec_raw (borrowed_amount_wads l) - dec_raw s)).
Proof.
  apply ob_repay_total in H as Ht. destruct Ht as [Ht Hd].
  apply ob_repay_inv in H as (l2 & Hl2 & Hle & ->). rewrite Hl in Hl2.
  injection Hl2 as <-. split; [exact Ht|]. split; [done|]. split; [exact Hd|]. clear Ht Hd.
  cbn [set_borrows set_positions borrows].
  destruct (dec_eqb s (borrowed_amount_wads l)) eqn:Heq.
  - apply dec_eqb_eq in Heq as ->. by left.
  - assert (s <> borrowed_amount_wads l) as Hne.
    { intros He. by rewrite (proj2 (dec_eqb_eq _ _) He) in Heq. }
    right. split_and!; [done| |].
    + intros j Hj. by apply list_lookup_insert_ne.
    + eexists. rewrite list_lookup_insert_eq by (by eapply lookup_lt_Some). done.
Qed.

Definition two_borrows : Obligation :=
  set_borrows (Obligation.new empty_params)
    [mkObligationLiquidity 7 Decimal.one (from_int 30) Decimal.zero;
     mkObligationLiquidity 8 Decimal.one (from_int 50) Decimal.zero].

Lemma repay_exact_witness :
  exists o', Obligation.repay two_borrows (from_int 20) 1 = Ok o' /\
    total_debt o' = WAD * 80 - WAD * 20.
Proof.
  eexists. split; [vm_compute; reflexivity|].
  exact (proj1 (repay_exact two_borrows _ (from_int 20) 1 _ eq_refl
    ltac:(vm_compute; reflexivity))).
Defined.

(** A withdrawal lowers the obligation's total collateral by exactly the
    withdrawn amount, never more than the entry holds, and drops the entry
    exactly when nothing is left. *)
Theorem withdraw_exact (o o' : Obligation) (n : Z) (i : nat) (c : ObligationCollateral)
    (Hc : deposits o !! i = Some c) (H : Obligation.withdraw o n i = Ok o') :
  total_collateral o' = total_collateral o - n /\ n <= deposited_amount c /\
  borrows o' = borrows o /\
  deposits o' = if n =? deposited_amount c then delete i (deposits o)
                else <[i := set_deposited c (deposited_amount c - n)]> (deposits o).
Proof.
  apply ob_withdraw_total in H as Ht. destruct Ht as [Ht Hb].
  apply ob_withdraw_inv in H as (c2 & Hc2 & Hle & ->). rewrite Hc in Hc2.
  by injection Hc2 as <-.
Qed.

Definition one_deposit : Obligation :=
  set_deposits (Obligation.new empty_params)
    [mkObligationCollateral 7 100 Decimal.zero].

Lemma withdraw_exact_witness :
  exists o', Obligation.withdraw one_deposit 40 0 = Ok o' /\ total_collateral o' = 100 - 40.
Proof.
  eexists. split; [vm_compute; reflexivity|].
  exact (proj1 (withdraw_exact one_deposit _ 40 0 _ eq_refl ltac:(vm_compute; reflexivity))).
Defined.
