(* ===== verification/Reserve.v ===== *)
(** state/reserve.rs: a lending market reserve, its valuation, interest model and
    the calculations of borrows, repayments and liquidations.

    The components are in ReserveLiquidity, ReserveCollateral and ReserveConfig;
    the packed layout is in ReserveCodec. *)

From S2P Require Import Prelude Errors Common Rate Decimal Codec LastUpdate.
From S2P Require Import RateLimiter ReserveConfig ReserveLiquidity ReserveCollateral.
From S2P Require Import ObligationCollateral ObligationLiquidity Obligation.

(** Lending market reserve state. *)
Record Reserve : Type := mkReserve {
  version : Z;
  last_update : LastUpdate;
  lending_market : Pubkey;
  liquidity : ReserveLiquidity;
  collateral : ReserveCollateral;
  config : ReserveConfig;
  rate_limiter : RateLimiter;
}.

#[export] Instance Reserve_eq_dec : EqDecision Reserve.
Proof. solve_decision. Defined.

(** Initialize a reserve. *)
Record InitReserveParams : Type := mkInitReserveParams {
  init_current_slot : Z;
  init_lending_market : Pubkey;
  init_liquidity : ReserveLiquidity;
  init_collateral : ReserveCollateral;
  init_config : ReserveConfig;
  init_rate_limiter_config : RateLimiterConfig;
}.

Definition init (self : Reserve) (params : InitReserveParams) : Reserve :=
  mkReserve PROGRAM_VERSION (LastUpdate.new (init_current_slot params))
    (init_lending_market params) (init_liquidity params) (init_collateral params)
    (init_config params)
    (RateLimiter.new (init_rate_limiter_config params) (init_current_slot params)).

Definition default : Reserve :=
  mkReserve 0 LastUpdate.default 0 ReserveLiquidity.default ReserveCollateral.default
    reserve_config_default RateLimiter.default.

(** Create a new reserve. *)
Definition new (params : InitReserveParams) : Reserve := init default params.

Definition is_initialized (self : Reserve) : bool :=
  negb (version self =? UNINITIALIZED_VERSION).

(** Assignments to one component. *)
Definition set_liquidity (self : Reserve) (l : ReserveLiquidity) : Reserve :=
  mkReserve (version self) (last_update self) (lending_market self) l (collateral self)
    (config self) (rate_limiter self).
Definition set_collateral (self : Reserve) (c : ReserveCollateral) : Reserve :=
  mkReserve (version self) (last_update self) (lending_market self) (liquidity self) c
    (config self) (rate_limiter self).
Definition set_last_update (self : Reserve) (u : LastUpdate) : Reserve :=
  mkReserve (version self) u (lending_market self) (liquidity self) (collateral self)
    (config self) (rate_limiter self).
Definition set_config (self : Reserve) (c : ReserveConfig) : Reserve :=
  mkReserve (version self) (last_update self) (lending_market self) (liquidity self)
    (collateral self) c (rate_limiter self).
Definition set_rate_limiter (self : Reserve) (r : RateLimiter) : Reserve :=
  mkReserve (version self) (last_update self) (lending_market self) (liquidity self)
    (collateral self) (config self) r.

(** Get borrow weight. *)
Definition borrow_weight (self : Reserve) : result Decimal :=
  let? added := from_bps (added_borrow_weight_bps (config self)) in
  unwrap (try_add Decimal.one added).

(** Get loan to value ratio as a Rate. *)
Definition loan_to_value_ratio (self : Reserve) : Rate :=
  Rate.from_percent (ReserveConfig.loan_to_value_ratio (config self)).

(** [Decimal::from(10u128.checked_pow(mint_decimals)?)]. *)
Definition decimals_factor (self : Reserve) : result Decimal :=
  let? p := math (checked_pow 128 10 (mint_decimals (liquidity self))) in Ok (from_int p).

(** Convert USD to liquidity tokens. *)
Definition usd_to_liquidity_amount_lower_bound (self : Reserve) (quote_amount : Decimal)
    : result Decimal :=
  let? factor := decimals_factor self in
  let? q := try_mul quote_amount factor in
  try_div q (dec_max (smoothed_market_price (liquidity self))
                     (market_price (liquidity self))).

(** Find current market value of tokens. *)
Definition market_value (self : Reserve) (liquidity_amount : Decimal) : result Decimal :=
  let? v := try_mul (market_price (liquidity self)) liquidity_amount in
  let? factor := decimals_factor self in
  try_div v factor.

(** Find the current upper bound market value of tokens. *)
Definition market_value_upper_bound (self : Reserve) (liquidity_amount : Decimal)
    : result Decimal :=
  let price_upper_bound :=
    dec_max (market_price (liquidity self)) (smoothed_market_price (liquidity self)) in
  let? v := try_mul price_upper_bound liquidity_amount in
  let? factor := decimals_factor self in
  try_div v factor.

(** Find the current lower bound market value of tokens. *)
Definition market_value_lower_bound (self : Reserve) (liquidity_amount : Decimal)
    : result Decimal :=
  let price_lower_bound :=
    dec_min (market_price (liquidity self)) (smoothed_market_price (liquidity self)) in
  let? v := try_mul price_lower_bound liquidity_amount in
  let? factor := decimals_factor self in
  try_div v factor.

(** Collateral exchange rate. *)
Definition collateral_exchange_rate (self : Reserve) : result CollateralExchangeRate :=
  let? total_liquidity := total_supply (liquidity self) in
  exchange_rate (collateral self) total_liquidity.

(** Record deposited liquidity and return amount of collateral tokens to mint. *)
Definition deposit_liquidity (self : Reserve) (liquidity_amount : Z) : result (Reserve * Z) :=
  let? rate := collateral_exchange_rate self in
  let? collateral_amount := liquidity_to_collateral rate liquidity_amount in
  let? l := ReserveLiquidity.deposit (liquidity self) liquidity_amount in
  let? c := ReserveCollateral.mint (collateral self) collateral_amount in
  Ok (set_collateral (set_liquidity self l) c, collateral_amount).

(** Record redeemed collateral and return amount of liquidity to withdraw. *)
Definition redeem_collateral (self : Reserve) (collateral_amount : Z) : result (Reserve * Z) :=
  let? rate := collateral_exchange_rate self in
  let? liquidity_amount := collateral_to_liquidity rate collateral_amount in
  let? c := ReserveCollateral.burn (collateral self) collateral_amount in
  let? l := ReserveLiquidity.withdraw (liquidity self) liquidity_amount in
  Ok (set_liquidity (set_collateral self c) l, liquidity_amount).

(** Calculate the current borrow rate. *)
Definition current_borrow_rate (self : Reserve) : result Rate :=
  let? utilization_rate := utilization_rate (liquidity self) in
  let optimal_utilization_rate := Rate.from_percent (optimal_utilization_rate (config self)) in
  let max_utilization_rate' := Rate.from_percent (max_utilization_rate (config self)) in
  if rate_le utilization_rate optimal_utilization_rate then
    let min_rate := Rate.from_percent (min_borrow_rate (config self)) in
    if rate_eqb optimal_utilization_rate Rate.zero then Ok min_rate
    else
      let? normalized_rate := try_div utilization_rate optimal_utilization_rate in
      let? range := math (checked_sub (optimal_borrow_rate (config self))
                            (min_borrow_rate (config self))) in
      let rate_range := Rate.from_percent range in
      let? r := try_mul normalized_rate rate_range in
      try_add r min_rate
  else if rate_le utilization_rate max_utilization_rate' then
    let? excess := try_sub utilization_rate optimal_utilization_rate in
    let? width := try_sub max_utilization_rate' optimal_utilization_rate in
    let? weight := try_div excess width in
    let optimal_borrow_rate := Rate.from_percent (optimal_borrow_rate (config self)) in
    let max_borrow_rate := Rate.from_percent (max_borrow_rate (config self)) in
    let? rate_range := try_sub max_borrow_rate optimal_borrow_rate in
    let? r := try_mul weight rate_range in
    try_add r optimal_borrow_rate
  else
    let? excess := try_sub utilization_rate max_utilization_rate' in
    let? width := math (checked_sub 100 (max_utilization_rate (config self))) in
    let? w := try_div excess (Rate.from_percent width) in
    let weight := from_rate w in
    let max_borrow_rate := Rate.from_percent (max_borrow_rate (config self)) in
    let super_max_borrow_rate := Rate.from_percent_u64 (super_max_borrow_rate (config self)) in
    let? range := try_sub super_max_borrow_rate max_borrow_rate in
    let rate_range := from_rate range in
    let? d := try_mul weight rate_range in
    let? d := try_add d (from_rate max_borrow_rate) in
    rate_try_from d.

(** Update borrow rate and accrue interest. *)
Definition accrue_interest (self : Reserve) (current_slot : Z) : result Reserve :=
  let? slots_elapsed := slots_elapsed (last_update self) current_slot in
  if 0 <? slots_elapsed then
    let? current_borrow_rate := current_borrow_rate self in
    let take_rate := Rate.from_percent (protocol_take_rate (config self)) in
    let? l := compound_interest (liquidity self) current_borrow_rate slots_elapsed take_rate in
    Ok (set_liquidity self l)
  else Ok self.

(** Calculate borrow result. *)
Record CalculateBorrowResult : Type := mkCalculateBorrowResult {
  borrow_amount : Decimal;
  receive_amount : Z;
  borrow_fee : Z;
  host_fee : Z;
}.

(** Borrow liquidity up to a maximum market value. *)
Definition calculate_borrow (self : Reserve) (amount_to_borrow : Z)
    (max_borrow_value remaining_reserve_borrow : Decimal) : result CalculateBorrowResult :=
  let? decimals := math (checked_pow 64 10 (mint_decimals (liquidity self))) in
  if amount_to_borrow =? u64_max then
    let? v := try_mul max_borrow_value decimals in
    let? v := try_div v (dec_max (market_price (liquidity self))
                                 (smoothed_market_price (liquidity self))) in
    let? weight := borrow_weight self in
    let? v := try_div v weight in
    let borrow_amount :=
      dec_min (dec_min v remaining_reserve_borrow)
        (from_int (available_amount (liquidity self))) in
    let? ' (borrow_fee, host_fee) :=
      calculate_borrow_fees (fees (config self)) borrow_amount Inclusive in
    let? floor := try_floor_u64 borrow_amount in
    let? receive_amount := math (checked_sub floor borrow_fee) in
    Ok (mkCalculateBorrowResult borrow_amount receive_amount borrow_fee host_fee)
  else
    let receive_amount := amount_to_borrow in
    let borrow_amount := from_int receive_amount in
    let? ' (borrow_fee, host_fee) :=
      calculate_borrow_fees (fees (config self)) borrow_amount Exclusive in
    let? borrow_amount := try_add borrow_amount (from_int borrow_fee) in
    let? v := market_value_upper_bound self borrow_amount in
    let? weight := borrow_weight self in
    let? borrow_value := try_mul v weight in
    reject_if dec_lt max_borrow_value borrow_value with lending_error BorrowTooLarge then
    Ok (mkCalculateBorrowResult borrow_amount receive_amount borrow_fee host_fee).

(** Calculate repay result. *)
Record CalculateRepayResult : Type := mkCalculateRepayResult {
  repay_settle_amount : Decimal;
  repay_repay_amount : Z;
}.

(** Repay liquidity up to the borrowed amount. *)
Definition calculate_repay (self : Reserve) (amount_to_repay : Z) (borrowed_amount : Decimal)
    : result CalculateRepayResult :=
  let settle_amount :=
    if amount_to_repay =? u64_max then borrowed_amount
    else dec_min (from_int amount_to_repay) borrowed_amount in
  let? repay_amount := try_ceil_u64 settle_amount in
  Ok (mkCalculateRepayResult settle_amount repay_amount).

(** Calculate bonus as a percentage. *)
Definition calculate_bonus (self : Reserve) (obligation : Obligation) : result Decimal :=
  reject_if dec_lt (borrowed_value obligation) (unhealthy_borrow_value obligation)
    with lending_error ObligationHealthy then
  let liquidation_bonus := Decimal.from_percent (liquidation_bonus (config self)) in
  let max_liquidation_bonus := Decimal.from_percent (max_liquidation_bonus (config self)) in
  let? protocol_liquidation_fee := from_deca_bps (protocol_liquidation_fee (config self)) in
  if dec_eqb (unhealthy_borrow_value obligation) (super_unhealthy_borrow_value obligation) then
    let? b := try_add liquidation_bonus protocol_liquidation_fee in
    Ok (dec_min b (Decimal.from_percent MAX_BONUS_PCT))
  else
    let? excess := try_sub (borrowed_value obligation) (unhealthy_borrow_value obligation) in
    let? width :=
      try_sub (super_unhealthy_borrow_value obligation) (unhealthy_borrow_value obligation) in
    let? w := unwrap_or_else (try_div excess width) Decimal.one in
    let weight := dec_min w Decimal.one in
    let? range := try_sub max_liquidation_bonus liquidation_bonus in
    let? b := try_mul weight range in
    let? b := try_add liquidation_bonus b in
    let? bonus := try_add b protocol_liquidation_fee in
    Ok (dec_min bonus (Decimal.from_percent MAX_BONUS_PCT)).

(** Calculate liquidation result. *)
Record CalculateLiquidationResult : Type := mkCalculateLiquidationResult {
  settle_amount : Decimal;
  repay_amount : Z;
  withdraw_amount : Z;
  bonus_rate : Decimal;
}.

(** Liquidate some or all of an unhealthy obligation. *)
Definition calculate_liquidation (self : Reserve) (amount_to_liquidate : Z)
    (obligation : Obligation) (liquidity : ObligationLiquidity)
    (collateral : ObligationCollateral) : result CalculateLiquidationResult :=
  let? bonus := calculate_bonus self obligation in
  let? bonus_rate := try_add bonus Decimal.one in
  let borrowed := ObligationLiquidity.borrowed_amount_wads liquidity in
  let liquidity_value := ObligationLiquidity.market_value liquidity in
  let collateral_value := ObligationCollateral.market_value collateral in
  let max_amount :=
    if amount_to_liquidate =? u64_max then borrowed
    else dec_min (from_int amount_to_liquidate) borrowed in
  if dec_le liquidity_value Decimal.one then
    (* a full liquidation of a borrow worth at most one *)
    let? liquidation_value := try_mul liquidity_value bonus_rate in
    match dec_cmp liquidation_value collateral_value with
    | Gt =>
        let? repay_pct := try_div collateral_value liquidation_value in
        let? settle := try_mul borrowed repay_pct in
        let? repay := try_ceil_u64 settle in
        Ok (mkCalculateLiquidationResult settle repay (deposited_amount collateral) bonus_rate)
    | Eq =>
        let? repay := try_ceil_u64 borrowed in
        Ok (mkCalculateLiquidationResult borrowed repay (deposited_amount collateral) bonus_rate)
    | Lt =>
        let? withdraw_pct := try_div liquidation_value collateral_value in
        let? repay := try_ceil_u64 borrowed in
        reject_if repay =? 0 with lending_error LiquidationTooSmall then
        let? w := try_mul (from_int (deposited_amount collateral)) withdraw_pct in
        let? w := try_floor_u64 w in
        Ok (mkCalculateLiquidationResult borrowed repay (Z.max w 1) bonus_rate)
    end
  else
    (* partial liquidation *)
    let? max_liquidation := max_liquidation_amount obligation liquidity in
    let liquidation_amount := dec_min max_liquidation max_amount in
    let? liquidation_pct := try_div liquidation_amount borrowed in
    let? v := try_mul liquidity_value liquidation_pct in
    let? liquidation_value := try_mul v bonus_rate in
    match dec_cmp liquidation_value collateral_value with
    | Gt =>
        let? repay_pct := try_div collateral_value liquidation_value in
        let? settle := try_mul liquidation_amount repay_pct in
        let? repay := try_ceil_u64 settle in
        Ok (mkCalculateLiquidationResult settle repay (deposited_amount collateral) bonus_rate)
    | Eq =>
        let? repay := try_ceil_u64 liquidation_amount in
        Ok (mkCalculateLiquidationResult liquidation_amount repay
              (deposited_amount collateral) bonus_rate)
    | Lt =>
        let? withdraw_pct := try_div liquidation_value collateral_value in
        let? repay := try_ceil_u64 liquidation_amount in
        let? w := try_mul (from_int (deposited_amount collateral)) withdraw_pct in
        let? w := try_floor_u64 w in
        Ok (mkCalculateLiquidationResult liquidation_amount repay w bonus_rate)
    end.

(** Calculate protocol cut of liquidation bonus always at least 1 lamport. *)
Definition calculate_protocol_liquidation_fee (self : Reserve) (amount_liquidated : Z)
    (bonus_rate : Decimal) : result Z :=
  let amount_liquidated_wads := from_int amount_liquidated in
  let? nonbonus_amount := try_div amount_liquidated_wads bonus_rate in
  let? fee_rate := from_deca_bps (protocol_liquidation_fee (config self)) in
  let? fee := try_mul nonbonus_amount fee_rate in
  let? fee := try_ceil_u64 fee in
  Ok (Z.max fee 1).

(** Calculate protocol fee redemption accounting for availible liquidity and
    accumulated fees. *)
Definition calculate_redeem_fees (self : Reserve) : result Z :=
  let? fees := try_floor_u64 (accumulated_protocol_fees_wads (liquidity self)) in
  Ok (Z.min (available_amount (liquidity self)) fees).
