(* ===== verification/ReserveRates.v ===== *)
(** The interest model: the borrow rate exists for every validated reserve and
    lies between the configured minimum and super maximum. *)

From S2P Require Import Prelude Errors Common Rate Decimal RatePow Codec LastUpdate.
From S2P Require Import ObligationCollateral ObligationLiquidity Obligation.
From S2P Require Import RateLimiter ReserveConfig ReserveConfigSpec.
From S2P Require Import ReserveLiquidity ReserveCollateral Reserve.

(** A fraction of a range, added to its lower end, stays in the range. *)
Lemma interpolation_bounds (w range lo : Z) :
  0 <= w <= WAD -> 0 <= range -> lo <= w * range / WAD + lo <= lo + range.
Proof.
  intros Hw Hr. pose proof WAD_pos.
  assert (0 <= w * range / WAD) by (apply div_nonneg; nia).
  assert (range * w / WAD <= range) by (apply mul_div_le_self; lia).
  rewrite (Z.mul_comm range w) in *. lia.
Qed.

(** A part of a whole, in WADs, is at most one. *)
Lemma fraction_bounds (a b : Z) : 0 <= a <= b -> 0 < b -> 0 <= a * WAD / b <= WAD.
Proof.
  intros. pose proof WAD_pos. split; [apply div_nonneg; nia|].
  apply Z.div_le_upper_bound; nia.
Qed.

Section utilization.
Implicit Types l : ReserveLiquidity.

Lemma utilization_rate_inv l u :
  0 <= available_amount l -> 0 <= dec_raw (borrowed_amount_wads l) ->
  utilization_rate l = Ok u -> 0 <= rate_raw u <= WAD.
Proof.
  intros Ha Hb H. unfold utilization_rate in H. minv H.
  destruct (_ || _) eqn:Hz; [minv H; cbn; unfold WAD; lia|]. minv H.
  apply dec_add_inv in E0 as [Hd _]. apply dec_div_inv in E1 as [Hq _].
  apply rate_try_from_inv in H as [Hu _]. rewrite Hu, Hq, Hd. cbn [from_int dec_raw].
  unfold dec_eqb in Hz. cbn [Decimal.zero dec_raw] in Hz. pose proof WAD_pos.
  apply fraction_bounds; lia.
Qed.

Lemma utilization_rate_ok l :
  is_u64 (available_amount l) -> dec_u128 (borrowed_amount_wads l) ->
  0 <= raw_supply l -> exists u, utilization_rate l = Ok u.
Proof.
  intros Ha Hb Hs. unfold in_uint, dec_u128, in_uint in *. pose proof WAD_pos.
  unfold utilization_rate.
  assert (HW : WAD * 2 ^ 64 < 2 ^ 125) by (unfold WAD; lia).
  rewrite total_supply_ok by (try done; unfold WAD in *; lia). mred.
  destruct (_ || _) eqn:Hz; [eauto|].
  unfold dec_eqb in Hz. cbn [Decimal.zero dec_raw] in Hz.
  rewrite dec_add_ok by (cbn [from_int dec_raw]; unfold WAD in *; lia). mred.
  cbn [from_int dec_raw].
  rewrite dec_div_ok by (cbn [dec_raw]; unfold WAD in *; lia). mred. cbn [dec_raw].
  pose proof (fraction_bounds (dec_raw (borrowed_amount_wads l))
    (dec_raw (borrowed_amount_wads l) + WAD * available_amount l) ltac:(lia) ltac:(lia)).
  rewrite rate_try_from_ok by (cbn [dec_raw]; unfold WAD in *; lia). eauto.
Qed.
End utilization.

(** The rate on the segment between two utilization points. *)
Lemma percent_rate_range n : is_u8 n -> 0 <= n * PERCENT_SCALER < 2 ^ 63.
Proof. unfold in_uint, PERCENT_SCALER. lia. Qed.

Definition percent (n : Z) : Z := n * PERCENT_SCALER.

Lemma percent_mono a b : a <= b -> percent a <= percent b.
Proof. unfold percent, PERCENT_SCALER. lia. Qed.

Lemma percent_100 : percent 100 = WAD.
Proof. reflexivity. Qed.

(** ** The curve

    The rate as a function of the utilization: three lines, from the minimum to the
    optimal, the maximum and the super maximum rate. *)
Definition interpolate (u a b lo hi : Z) : Z :=
  (u - a) * WAD / (b - a) * (hi - lo) / WAD + lo.

Definition rate_at (c : ReserveConfig) (u : Z) : Z :=
  let optimal := percent (optimal_utilization_rate c) in
  let max := percent (max_utilization_rate c) in
  if u <=? optimal then
    if optimal =? 0 then percent (min_borrow_rate c)
    else interpolate u 0 optimal (percent (min_borrow_rate c)) (percent (optimal_borrow_rate c))
  else if u <=? max then
    interpolate u optimal max (percent (optimal_borrow_rate c)) (percent (max_borrow_rate c))
  else
    interpolate u max WAD (percent (max_borrow_rate c)) (percent (super_max_borrow_rate c)).

(** The rate [q] lies where the curve has the utilization [u]. *)
Record on_curve (c : ReserveConfig) (u q : Z) : Prop := {
  on_low : u <= percent (optimal_utilization_rate c) ->
    q <= percent (optimal_borrow_rate c);
  on_middle : percent (optimal_utilization_rate c) < u <= percent (max_utilization_rate c) ->
    percent (optimal_borrow_rate c) <= q <= percent (max_borrow_rate c);
  on_high : percent (max_utilization_rate c) < u -> percent (max_borrow_rate c) <= q;
  on_range : percent (min_borrow_rate c) <= q <= percent (super_max_borrow_rate c);
}.

Lemma interpolate_bounds u a b lo hi :
  a <= u <= b -> a < b -> lo <= hi -> lo <= interpolate u a b lo hi <= hi.
Proof.
  intros Hu Hab Hlh. unfold interpolate.
  pose proof (interpolation_bounds ((u - a) * WAD / (b - a)) (hi - lo) lo
    ltac:(apply fraction_bounds; lia) ltac:(lia)). lia.
Qed.

Lemma interpolate_mono u u' a b lo hi :
  u <= u' -> a < b -> lo <= hi -> interpolate u a b lo hi <= interpolate u' a b lo hi.
Proof.
  intros Hu Hab Hlh. unfold interpolate. pose proof WAD_pos.
  apply Z.add_le_mono_r, Z.div_le_mono; [done|]. apply Z.mul_le_mono_nonneg_r; [lia|].
  apply Z.div_le_mono; nia.
Qed.

Section curve.
Context (c : ReserveConfig) (Hwf : reserve_config_wf c) (Hv : sound_config c).

(** Bounds of the points of the curve, in WADs. *)
Lemma curve_points :
  0 <= percent (optimal_utilization_rate c) <= percent (max_utilization_rate c) /\
  percent (max_utilization_rate c) <= WAD /\
  0 <= percent (min_borrow_rate c) <= percent (optimal_borrow_rate c) /\
  percent (optimal_borrow_rate c) <= percent (max_borrow_rate c) < 2 ^ 63 /\
  percent (max_borrow_rate c) <= percent (super_max_borrow_rate c) < 2 ^ 118.
Proof.
  destruct Hwf, Hv. unfold in_uint, percent, PERCENT_SCALER, WAD in *. lia.
Qed.

Ltac curve_cases :=
  pose proof curve_points; pose proof WAD_pos; unfold rate_at;
  repeat match goal with
    | |- context [?x <=? ?y] => destruct (Z.leb_spec x y)
    | |- context [?x =? ?y] => destruct (Z.eqb_spec x y)
    end;
  try lia; try (apply interpolate_mono; lia);
  repeat match goal with
    | |- context [interpolate ?u ?a ?b ?lo ?hi] =>
        let i := fresh "i" in
        pose proof (interpolate_bounds u a b lo hi ltac:(lia) ltac:(lia) ltac:(lia));
        set (i := interpolate u a b lo hi) in *
    end.

Lemma rate_at_on_curve u : 0 <= u <= WAD -> on_curve c u (rate_at c u).
Proof. intros Hu. split; curve_cases; lia. Qed.

(** More utilization never makes borrowing cheaper. *)
Lemma rate_at_mono u u' : 0 <= u <= u' -> u' <= WAD -> rate_at c u <= rate_at c u'.
Proof.
  intros Hu Hu'. curve_cases; lia.
Qed.
End curve.

Section borrow_rate.
Context (r : Reserve) (Hwf : reserve_config_wf (config r)) (Hv : sound_config (config r)).
#[local] Abbreviation c := (config r).

(** The rate is the one on the curve. *)
Lemma current_borrow_rate_at q :
  current_borrow_rate r = Ok q ->
  exists u, utilization_rate (liquidity r) = Ok u /\ rate_raw q = rate_at c (rate_raw u).
Proof.
  intros H. unfold current_borrow_rate in H. minv H. exists v. split; [done|].
  unfold rate_at, interpolate. unfold rate_le, rate_eqb in H.
  cbn [Rate.from_percent Rate.zero rate_raw] in H.
  fold (percent (optimal_utilization_rate c)) (percent (max_utilization_rate c)) in H.
  destruct (rate_raw v <=? percent (optimal_utilization_rate c)).
  - destruct (percent (optimal_utilization_rate c) =? 0); [by minv H|].
    minv H. apply rate_div_inv in E0 as (Hn & _).
    apply math_Ok_inv, checked_sub_Some_inv in E1 as [-> _].
    apply rate_mul_inv in E2 as [Hm _]. apply rate_add_inv in H as [-> _].
    cbn [Rate.from_percent rate_raw] in *. rewrite Hm, Hn, !Z.sub_0_r.
    unfold percent. by rewrite <- Z.mul_sub_distr_r.
  - destruct (rate_raw v <=? percent (max_utilization_rate c)).
    + minv H. apply rate_sub_inv in E0 as [He _]. apply rate_sub_inv in E1 as [Hw _].
      apply rate_div_inv in E2 as (Hn & _). apply rate_sub_inv in E3 as [Hr _].
      apply rate_mul_inv in E4 as [Hm _]. apply rate_add_inv in H as [-> _].
      cbn [Rate.from_percent rate_raw] in *. by rewrite Hm, Hn, He, Hw, Hr.
    + minv H. apply rate_sub_inv in E0 as [He _].
      apply math_Ok_inv, checked_sub_Some_inv in E1 as [-> _].
      apply rate_div_inv in E2 as (Hn & _). apply rate_sub_inv in E3 as [Hr _].
      apply dec_mul_inv in E4 as [Hm _]. apply dec_add_inv in E5 as [Hd _].
      apply rate_try_from_inv in H as [-> _].
      cbn [Rate.from_percent from_percent_u64 from_rate Rate.to_scaled_val rate_raw dec_raw] in *.
      unfold Rate.to_scaled_val in *. rewrite Hd, Hm, Hn, He, Hr, <- percent_100.
      unfold percent. by rewrite <- !Z.mul_sub_distr_r.
Qed.

Lemma current_borrow_rate_range q :
  0 <= available_amount (liquidity r) ->
  0 <= dec_raw (borrowed_amount_wads (liquidity r)) ->
  current_borrow_rate r = Ok q ->
  percent (min_borrow_rate c) <= rate_raw q <= percent (super_max_borrow_rate c).
Proof.
  intros Ha Hb (u & Hu & ->)%current_borrow_rate_at.
  apply (on_range _ _ _ (rate_at_on_curve _ Hwf Hv (rate_raw u) ltac:(by eapply utilization_rate_inv))).
Qed.

#[local] Ltac curve :=
  cbn [Rate.from_percent from_percent_u64 rate_raw];
  unfold percent, PERCENT_SCALER, WAD in *; lia.

#[local] Ltac refold :=
  repeat match goal with
  | |- context [?n * PERCENT_SCALER] => change (n * PERCENT_SCALER) with (percent n)
  end.

Lemma current_borrow_rate_ok :
  is_u64 (available_amount (liquidity r)) ->
  dec_u128 (borrowed_amount_wads (liquidity r)) ->
  0 <= raw_supply (liquidity r) ->
  exists q, current_borrow_rate r = Ok q.
Proof.
  intros Ha Hb Hs. pose proof (curve_points _ Hwf Hv) as (Hu & Hmax & Hmin & Hopt & Hsup).
  assert (HW : WAD < 2 ^ 60) by reflexivity.
  destruct (utilization_rate_ok _ Ha Hb Hs) as [v Hv'].
  pose proof (utilization_rate_inv _ v (proj1 Ha) (proj1 Hb) Hv') as Huv.
  unfold current_borrow_rate. rewrite Hv'. mred.
  unfold rate_le, rate_eqb. cbn [Rate.from_percent Rate.zero rate_raw].
  fold (percent (optimal_utilization_rate c)) (percent (max_utilization_rate c)).
  destruct (Z.leb_spec (rate_raw v) (percent (optimal_utilization_rate c))).
  - destruct (Z.eqb_spec (percent (optimal_utilization_rate c)) 0); [eauto|].
    rewrite rate_div_ok by curve. mred.
    rewrite checked_sub_Some by curve. mred.
    cbn [Rate.from_percent rate_raw]. fold (percent (optimal_utilization_rate c)).
    pose proof (fraction_bounds (rate_raw v) (percent (optimal_utilization_rate c))
      ltac:(lia) ltac:(lia)).
    set (w := rate_raw v * WAD / percent (optimal_utilization_rate c)) in *.
    fold (percent (optimal_borrow_rate c - min_borrow_rate c)).
    assert (0 <= percent (optimal_borrow_rate c - min_borrow_rate c) < 2 ^ 63) as Hr
      by (unfold percent, PERCENT_SCALER in *; lia).
    pose proof (mul_le_bound w (percent (optimal_borrow_rate c - min_borrow_rate c)) WAD (2 ^ 63)
      ltac:(lia) ltac:(lia)).
    rewrite rate_mul_ok by curve. mred. cbn [Rate.from_percent rate_raw].
    pose proof (interpolation_bounds w _ (percent (min_borrow_rate c))
      ltac:(lia) (proj1 Hr)).
    rewrite rate_add_ok; [eauto|]. cbn [Rate.from_percent rate_raw].
    refold. lia.
  - destruct (Z.leb_spec (rate_raw v) (percent (max_utilization_rate c))).
    + rewrite rate_sub_ok by curve. mred.
      rewrite rate_sub_ok by curve. mred.
      cbn [Rate.from_percent rate_raw].
      fold (percent (optimal_utilization_rate c)) (percent (max_utilization_rate c)).
      rewrite rate_div_ok by curve. mred.
      rewrite rate_sub_ok by curve. mred.
      cbn [Rate.from_percent rate_raw].
      fold (percent (optimal_borrow_rate c)) (percent (max_borrow_rate c)).
      pose proof (fraction_bounds (rate_raw v - percent (optimal_utilization_rate c))
        (percent (max_utilization_rate c) - percent (optimal_utilization_rate c))
        ltac:(lia) ltac:(lia)) as Hw.
      set (w := _ * WAD / _) in *.
      pose proof (mul_le_bound w (percent (max_borrow_rate c) - percent (optimal_borrow_rate c))
        WAD (2 ^ 63) Hw ltac:(lia)).
      rewrite rate_mul_ok by curve. mred.
      pose proof (interpolation_bounds w (percent (max_borrow_rate c) -
        percent (optimal_borrow_rate c)) (percent (optimal_borrow_rate c))
        Hw ltac:(lia)).
      rewrite rate_add_ok; [eauto|]. cbn [Rate.from_percent rate_raw].
      refold. lia.
    + rewrite rate_sub_ok by curve. mred.
      rewrite checked_sub_Some by curve. mred.
      cbn [Rate.from_percent rate_raw].
      fold (percent (max_utilization_rate c)) (percent (100 - max_utilization_rate c)).
      assert (percent (100 - max_utilization_rate c) = WAD - percent (max_utilization_rate c))
        as Hp by (unfold percent, PERCENT_SCALER, WAD; lia).
      rewrite rate_div_ok by curve.
      mred. cbn [Rate.from_percent rate_raw]. fold (percent (100 - max_utilization_rate c)). rewrite Hp.
      rewrite rate_sub_ok by curve. mred.
      cbn [rate_raw from_percent_u64].
      fold (percent (super_max_borrow_rate c)) (percent (max_borrow_rate c)).
      pose proof (fraction_bounds (rate_raw v - percent (max_utilization_rate c))
        (WAD - percent (max_utilization_rate c)) ltac:(lia) ltac:(lia)) as Hw.
      set (w := _ * WAD / _) in *.
      pose proof (interpolation_bounds w (percent (super_max_borrow_rate c) -
        percent (max_borrow_rate c)) (percent (max_borrow_rate c)) Hw ltac:(lia)).
      pose proof (mul_le_bound w (percent (super_max_borrow_rate c) -
        percent (max_borrow_rate c)) WAD (2 ^ 118) Hw ltac:(lia)).
      unfold from_rate, Rate.to_scaled_val. cbn [Rate.from_percent rate_raw]. refold.
      rewrite dec_mul_ok by (cbn [dec_raw]; lia). mred. cbn [dec_raw].
      rewrite dec_add_ok by (cbn [dec_raw]; lia). mred. cbn [dec_raw].
      rewrite rate_try_from_ok by (cbn [dec_raw]; lia). eauto.
Qed.
End borrow_rate.

(** C33: the borrow rate of a reserve with a validated configuration always exists, for
    any liquidity that an account can hold.  It is the point of the configured curve at
    the utilization: between the minimum and the optimal rate up to the optimal
    utilization, from there to the maximum rate at the maximal utilization, and to the
    super maximum rate beyond; and more utilization never makes borrowing cheaper. *)
Theorem current_borrow_rate_total (r : Reserve)
    (Hwf : reserve_config_wf (config r))
    (Hv : validate_reserve_config (config r) = Ok tt)
    (Ha : is_u64 (available_amount (liquidity r)))
    (Hb : dec_u128 (borrowed_amount_wads (liquidity r)))
    (Hs : 0 <= raw_supply (liquidity r)) :
  exists u q, utilization_rate (liquidity r) = Ok u /\ 0 <= rate_raw u <= WAD /\
    current_borrow_rate r = Ok q /\
    rate_raw q = rate_at (config r) (rate_raw u) /\
    on_curve (config r) (rate_raw u) (rate_raw q) /\
    forall u', rate_raw u <= u' <= WAD -> rate_raw q <= rate_at (config r) u'.
Proof.
  apply validated_sound in Hv.
  destruct (current_borrow_rate_ok r Hwf Hv Ha Hb Hs) as [q Hq].
  destruct (current_borrow_rate_at r q Hq) as (u & Hu & Hqu). exists u, q. rewrite Hqu.
  pose proof (utilization_rate_inv _ u (proj1 Ha) (proj1 Hb) Hu) as Hw.
  do 4 (split; [done|]). split; [by apply rate_at_on_curve|].
  intros u' Hu'. apply rate_at_mono; [done|done|lia|lia].
Qed.

(** A reserve of the tests: 95 of 100 tokens are lent out. *)
Definition test_liquidity : ReserveLiquidity :=
  mkReserveLiquidity 1 6 2 3 4 5000000 (from_int 95000000) Decimal.one Decimal.zero
    Decimal.one Decimal.one.
Definition test_reserve : Reserve :=
  mkReserve 1 (LastUpdate.new 7) 10 test_liquidity
    (mkReserveCollateral 11 100000000 12) test_config RateLimiter.default.

Lemma current_borrow_rate_total_witness :
  exists u q, utilization_rate (liquidity test_reserve) = Ok u /\
    current_borrow_rate test_reserve = Ok q /\ on_curve test_config (rate_raw u) (rate_raw q).
Proof.
  destruct (current_borrow_rate_total test_reserve test_config_wf)
    as (u & q & Hu & _ & Hq & _ & Hc & _);
    [reflexivity | by vm_compute | by vm_compute | by vm_compute |].
  exists u, q. split; [exact Hu|]. split; [exact Hq|exact Hc].
Defined.

(** ** A year of interest *)

(** The largest growth per slot at 255 percent, and over the slots of a year. *)
Definition slot_growth : Z := WAD + percent 255 / SLOTS_PER_YEAR.
Definition year_growth : Z := 15077600844732522337.

Lemma year_growth_bound :
  pow_bound 26 slot_growth slot_growth = Some year_growth /\ year_growth <= 16 * WAD.
Proof. split; [vm_compute; reflexivity|by vm_compute]. Qed.

Lemma slot_growth_power (rate : Z) (n : Z) :
  0 <= rate <= percent 255 -> 0 <= n <= SLOTS_PER_YEAR ->
  exists p, try_pow (mkRate (WAD + rate / SLOTS_PER_YEAR)) n = Ok p /\
    WAD <= rate_raw p <= 16 * WAD.
Proof.
  intros Hr Hn. destruct year_growth_bound as [Hb Hy]. pose proof WAD_pos.
  assert (H0 : 0 <= rate / SLOTS_PER_YEAR) by (apply div_nonneg; [lia|by vm_compute]).
  assert (H1 : rate / SLOTS_PER_YEAR <= percent 255 / SLOTS_PER_YEAR)
    by (apply Z.div_le_mono; [by vm_compute|lia]).
  destruct (try_pow_fits 26 n (mkRate (WAD + rate / SLOTS_PER_YEAR)) slot_growth year_growth)
    as (p & Hp & Hle); [lia| |unfold slot_growth; lia| |exact Hb|].
  - split; [lia|]. apply Z.le_lt_trans with SLOTS_PER_YEAR; [lia|by vm_compute].
  - unfold slot_growth. cbn [rate_raw]. lia.
  - exists p. split; [exact Hp|]. split; [|lia].
    eapply try_pow_growth; [|exact Hp]. cbn [rate_raw]. lia.
Qed.

Lemma compound_interest_year l (rate take : Rate) (n : Z) :
  0 <= rate_raw rate <= percent 255 -> 0 <= rate_raw take <= WAD ->
  0 <= n <= SLOTS_PER_YEAR ->
  dec_u128 (borrowed_amount_wads l) -> dec_u128 (cumulative_borrow_rate_wads l) ->
  dec_u128 (accumulated_protocol_fees_wads l) ->
  exists l', compound_interest l rate n take = Ok l' /\
    dec_raw (borrowed_amount_wads l) <= dec_raw (borrowed_amount_wads l')
      <= 16 * dec_raw (borrowed_amount_wads l) /\
    dec_raw (cumulative_borrow_rate_wads l) <= dec_raw (cumulative_borrow_rate_wads l')
      <= 16 * dec_raw (cumulative_borrow_rate_wads l) /\
    dec_raw (accumulated_protocol_fees_wads l) <= dec_raw (accumulated_protocol_fees_wads l')
      <= dec_raw (accumulated_protocol_fees_wads l)
         + (dec_raw (borrowed_amount_wads l') - dec_raw (borrowed_amount_wads l)).
Proof.
  intros Hr Ht Hn Hb Hc Hf. unfold compound_interest. pose proof WAD_pos.
  assert (H60 : WAD < 2 ^ 60) by by vm_compute.
  assert (H63 : percent 255 < 2 ^ 63) by by vm_compute.
  rewrite rate_div_u64_ok by by vm_compute. mred.
  assert (Hi : 0 <= rate_raw rate / SLOTS_PER_YEAR <= rate_raw rate).
  { split; [apply div_nonneg; [lia|by vm_compute]|].
    apply Z.div_le_upper_bound; [by vm_compute|]. unfold SLOTS_PER_YEAR. lia. }
  rewrite rate_add_ok by (cbn [Rate.one rate_raw]; lia). mred. cbn [Rate.one rate_raw].
  destruct (slot_growth_power _ _ Hr Hn) as (p & -> & Hp). mred.
  set (b := dec_raw (borrowed_amount_wads l)) in *.
  set (cu := dec_raw (cumulative_borrow_rate_wads l)) in *.
  set (fe := dec_raw (accumulated_protocol_fees_wads l)) in *.
  unfold dec_u128, in_uint in Hb, Hc, Hf. fold b in Hb. fold cu in Hc. fold fe in Hf.
  assert (Hgrow : forall x, 0 <= x < 2 ^ 128 ->
    x * rate_raw p < 2 ^ 192 /\ x <= x * rate_raw p / WAD <= 16 * x).
  { intros x Hx. split; [nia|]. split; [apply mul_div_ge_self; lia|].
    apply Z.div_le_upper_bound; nia. }
  destruct (Hgrow cu Hc) as [Hc1 Hc2], (Hgrow b Hb) as [Hb1 Hb2].
  rewrite dec_mul_rate_ok by done. mred.
  rewrite dec_mul_rate_ok by done. mred.
  fold b cu. set (b' := b * rate_raw p / WAD) in *. set (cu' := cu * rate_raw p / WAD) in *.
  rewrite dec_sub_ok by (cbn [dec_raw]; fold b; lia). mred. cbn [dec_raw]. fold b.
  assert (Htake : 0 <= (b' - b) * rate_raw take / WAD <= b' - b).
  { split; [apply div_nonneg; nia|]. apply Z.div_le_upper_bound; nia. }
  rewrite dec_mul_rate_ok by (cbn [dec_raw]; nia). mred. cbn [dec_raw].
  rewrite dec_add_ok by (cbn [dec_raw]; fold fe; lia). mred. cbn [dec_raw]. fold fe.
  rewrite dec_add_ok by (cbn [dec_raw]; fold b; lia). mred. cbn [dec_raw]. fold b.
  eexists. split; [reflexivity|]. cbn. lia.
Qed.

(** Without a rate, no debt grows. *)
Lemma compound_interest_idle l (rate take : Rate) (n : Z) l' :
  rate_raw rate = 0 -> 0 <= n <= SLOTS_PER_YEAR ->
  compound_interest l rate n take = Ok l' ->
  dec_raw (borrowed_amount_wads l') = dec_raw (borrowed_amount_wads l).
Proof.
  intros Hr Hn H. unfold compound_interest in H. minv H. pose proof WAD_pos.
  apply rate_div_u64_inv in E as [Hv _]. apply rate_add_inv in E0 as [Hv0 _].
  rewrite Hv, Hr in Hv0. change (rate_raw v0 = WAD + 0) in Hv0. rewrite Z.add_0_r in Hv0.
  destruct (try_pow_fits 26 n v0 WAD WAD) as (p & Hp & Hle);
    [lia| |lia|lia|vm_compute; reflexivity|].
  { split; [lia|]. apply Z.le_lt_trans with SLOTS_PER_YEAR; [lia|by vm_compute]. }
  assert (v1 = p) as -> by congruence. apply try_pow_growth in Hp; [|lia].
  apply dec_mul_rate_inv in E3 as [Hd _]. apply dec_sub_inv in E4 as [Hnet _].
  apply dec_add_inv in E7 as [Hnew _]. cbn [set_debt borrowed_amount_wads].
  assert (Hone : rate_raw p = WAD) by lia. rewrite Hone, Z.div_mul in Hd by done. lia.
Qed.

(** A debt of a token or more grows in any slot in which there is a rate. *)
Lemma compound_interest_grows l (rate take : Rate) (n : Z) l' :
  SLOTS_PER_YEAR <= rate_raw rate -> 0 < n -> WAD <= dec_raw (borrowed_amount_wads l) ->
  compound_interest l rate n take = Ok l' ->
  dec_raw (borrowed_amount_wads l) < dec_raw (borrowed_amount_wads l').
Proof.
  intros Hr Hn Hb H. unfold compound_interest in H. minv H. pose proof WAD_pos.
  assert (Hs : 0 < SLOTS_PER_YEAR) by by vm_compute.
  apply rate_div_u64_inv in E as [Hv _]. apply rate_add_inv in E0 as [Hv0 _].
  assert (Hone : 1 <= rate_raw v).
  { rewrite Hv. apply Z.div_le_lower_bound; [done|lia]. }
  apply try_pow_ge_base in E1; [|cbn in Hv0; lia|done]. cbn [Rate.one rate_raw] in Hv0.
  apply dec_mul_rate_inv in E3 as [Hd _]. apply dec_sub_inv in E4 as [Hnet _].
  apply dec_add_inv in E7 as [Hnew _]. cbn [set_debt borrowed_amount_wads].
  rewrite Hnew, Hnet, Hd.
  assert (dec_raw (borrowed_amount_wads l) + 1
    <= dec_raw (borrowed_amount_wads l) * rate_raw v1 / WAD); [|lia].
  apply Z.div_le_lower_bound; [done|]. nia.
Qed.

(** C32: a reserve can always be refreshed within a year.  With a sound configuration
    whose super maximum rate is at most 255 percent, as every other rate is, accruing the
    interest of up to a year of slots succeeds whatever the reserve holds; the debt and
    the index do not shrink and grow at most sixteenfold, and the protocol takes no more
    than what the debt grew by. *)
Theorem interest_accrues_for_a_year (r : Reserve) (s : Z)
    (Hwf : reserve_config_wf (config r)) (Hv : sound_config (config r))
    (Hmax : super_max_borrow_rate (config r) <= 255)
    (Ha : is_u64 (available_amount (liquidity r)))
    (Hb : dec_u128 (borrowed_amount_wads (liquidity r)))
    (Hc : dec_u128 (cumulative_borrow_rate_wads (liquidity r)))
    (Hf : dec_u128 (accumulated_protocol_fees_wads (liquidity r)))
    (Hsup : 0 <= raw_supply (liquidity r))
    (Hs : slot (last_update r) <= s <= slot (last_update r) + SLOTS_PER_YEAR) :
  exists r', Reserve.accrue_interest r s = Ok r' /\
    let l := liquidity r in let l' := liquidity r' in
    available_amount l' = available_amount l /\
    dec_raw (borrowed_amount_wads l) <= dec_raw (borrowed_amount_wads l')
      <= 16 * dec_raw (borrowed_amount_wads l) /\
    dec_raw (cumulative_borrow_rate_wads l) <= dec_raw (cumulative_borrow_rate_wads l')
      <= 16 * dec_raw (cumulative_borrow_rate_wads l) /\
    0 <= dec_raw (accumulated_protocol_fees_wads l')
         - dec_raw (accumulated_protocol_fees_wads l)
      <= dec_raw (borrowed_amount_wads l') - dec_raw (borrowed_amount_wads l).
Proof.
  unfold Reserve.accrue_interest, slots_elapsed. rewrite checked_sub_Some by lia. mred.
  destruct (Z.ltb_spec 0 (s - slot (last_update r))).
  - destruct (current_borrow_rate_ok r Hwf Hv Ha Hb Hsup) as [q Hq]. rewrite Hq. mred.
    apply (current_borrow_rate_range r Hwf Hv q (proj1 Ha) (proj1 Hb)) in Hq.
    pose proof (curve_points _ Hwf Hv) as (_ & _ & Hmin & _).
    apply percent_mono in Hmax.
    destruct (compound_interest_year (liquidity r) q
      (Rate.from_percent (protocol_take_rate (config r))) (s - slot (last_update r)))
      as (l' & Hl & Hd & Hcu & Hfe); try assumption; try lia.
    { pose proof (wf_protocol_take_rate _ Hwf) as [Ht _]. pose proof (valid_take_rate _ Hv).
      cbn. unfold PERCENT_SCALER, WAD. lia. }
    rewrite Hl. mred. eexists. split; [reflexivity|]. cbn [liquidity set_liquidity].
    split; [|lia]. unfold compound_interest in Hl. by minv Hl.
  - exists r. split; [reflexivity|]. cbv zeta.
    destruct Hb as [Hb _], Hc as [Hc _]. split; [done|]. lia.
Qed.

Lemma interest_accrues_for_a_year_witness :
  exists r', Reserve.accrue_interest test_reserve (7 + SLOTS_PER_YEAR) = Ok r' /\
    dec_raw (borrowed_amount_wads (liquidity r'))
      <= 16 * dec_raw (borrowed_amount_wads test_liquidity).
Proof.
  destruct (interest_accrues_for_a_year test_reserve (7 + SLOTS_PER_YEAR))
    as (r' & Hr & _ & Hd & _);
    [exact test_config_wf|by apply validated_sound|vm_compute; discriminate
    |split; vm_compute; congruence..|vm_compute; discriminate|split; vm_compute; congruence|].
  exists r'. split; [exact Hr|exact (proj2 Hd)].
Defined.

(** Validation does not bound the super maximum rate, and beyond a bound the interest of
    a single slot cannot be accrued: a fully lent reserve is frozen. *)
Definition frozen_reserve : Reserve :=
  mkReserve 1 (LastUpdate.new 7) 10
    (set_amounts test_liquidity 0 (from_int 95000000))
    (mkReserveCollateral 11 95000000 12)
    (mkReserveConfig 80 90 50 5 10 55 60 0 4 30 u64_max
       (mkReserveFees 100000000000 3000000000000000 20) u64_max u64_max 7 10 10 0 Regular)
    RateLimiter.default.

Example unbounded_rate_freezes :
  validate_reserve_config (config frozen_reserve) = Ok tt /\
  Reserve.accrue_interest frozen_reserve 8 = fail MathOverflow.
Proof. split; vm_compute; reflexivity. Qed.
