(* ===== verification/ReserveExchange.v ===== *)
(** The exchange of liquidity for collateral tokens: the value of a collateral
    token never drops, and a round trip never pays. *)

From stdpp Require Import relations.
From S2P Require Import Prelude Errors Common Rate Decimal RatePow Codec LastUpdate.
From S2P Require Import ObligationCollateral ObligationLiquidity Obligation.
From S2P Require Import RateLimiter ReserveConfig ReserveConfigSpec.
From S2P Require Import ReserveLiquidity ReserveCollateral Reserve ReserveRates.

(** Raw supply and number of collateral tokens of a reserve. *)
Definition supply (r : Reserve) : Z := raw_supply (liquidity r).
Definition ctokens (r : Reserve) : Z := mint_total_supply (collateral r).

(** [r'] values a collateral token at least as much as [r]. *)
Definition share_price_le (r r' : Reserve) : Prop :=
  supply r * ctokens r' <= supply r' * ctokens r.

(** The fields that [u64] and [U192] hold are not negative, and the liquidity of
    an empty pool belongs to nobody. *)
Record reserve_ok (r : Reserve) : Prop := {
  ok_available : 0 <= available_amount (liquidity r);
  ok_borrowed : 0 <= dec_raw (borrowed_amount_wads (liquidity r));
  ok_supply : 0 <= supply r;
  ok_ctokens : 0 < ctokens r;
}.

Section exchange.
Implicit Types r : Reserve.

Lemma collateral_exchange_rate_inv r e :
  collateral_exchange_rate r = Ok e ->
  let x := rate_raw (exchange_rate_inner e) in
  0 <= supply r /\
  (((ctokens r = 0 \/ supply r = 0) /\ x = WAD) \/
   (ctokens r <> 0 /\ supply r <> 0 /\ x = WAD * ctokens r * WAD / supply r)).
Proof.
  unfold collateral_exchange_rate, supply, ctokens. intros H. minv H.
  apply total_supply_inv in E as [Hv Hs]. apply exchange_rate_inv in H.
  rewrite Hv in H. cbn zeta in *. split; [done|]. tauto.
Qed.

Lemma rate_nonneg r e :
  0 <= ctokens r -> collateral_exchange_rate r = Ok e -> 0 <= rate_raw (exchange_rate_inner e).
Proof.
  intros Hc H. apply collateral_exchange_rate_inv in H. cbn zeta in H.
  destruct H as [Hs [[_ ->]|(_ & _ & ->)]]; [unfold WAD; lia|].
  apply Z_div_nonneg_nonneg; unfold WAD; lia.
Qed.

Lemma deposit_liquidity_inv r x r' y :
  deposit_liquidity r x = Ok (r', y) ->
  exists e, collateral_exchange_rate r = Ok e /\
    y = WAD * x * rate_raw (exchange_rate_inner e) / WAD / WAD /\
    supply r' = supply r + WAD * x /\ ctokens r' = ctokens r + y /\
    borrowed_amount_wads (liquidity r') = borrowed_amount_wads (liquidity r) /\
    available_amount (liquidity r') = available_amount (liquidity r) + x.
Proof.
  unfold deposit_liquidity. intros H. minv H. subst. exists v. split; [done|].
  apply liquidity_to_collateral_inv in E0 as ->.
  apply liq_deposit_inv in E1 as [-> _]. apply mint_inv in E2 as [-> _].
  unfold supply, ctokens, raw_supply. cbn. split_and!; try done; lia.
Qed.

Lemma redeem_collateral_inv r y r' x :
  redeem_collateral r y = Ok (r', x) ->
  exists e, collateral_exchange_rate r = Ok e /\
    rate_raw (exchange_rate_inner e) <> 0 /\
    x = WAD * y * WAD / rate_raw (exchange_rate_inner e) / WAD /\
    supply r' = supply r - WAD * x /\ ctokens r' = ctokens r - y /\
    y <= ctokens r /\ x <= available_amount (liquidity r).
Proof.
  unfold redeem_collateral. intros H. minv H. subst. exists v. split; [done|].
  apply collateral_to_liquidity_inv in E0 as [-> ?].
  apply burn_inv in E1 as [-> ?]. apply liq_withdraw_inv in E2 as [-> ?].
  unfold supply, ctokens, raw_supply. cbn. split_and!; try done; lia.
Qed.

(** Minting at the floored rate never gives more than a fair share. *)
Lemma minted_fair (x c t : Z) :
  0 <= x -> 0 <= c -> 0 < t ->
  WAD * x * (WAD * c * WAD / t) / WAD / WAD * t <= WAD * x * c.
Proof.
  intros Hx Hc Ht. pose proof WAD_pos as HW.
  pose proof (div_mul_le_l (WAD * c * WAD) t Ht) as H1.
  set (q := WAD * c * WAD / t) in *.
  rewrite Z.div_div by lia.
  pose proof (div_mul_le_l (WAD * x * q) (WAD * WAD) ltac:(lia)) as H2.
  set (y := WAD * x * q / (WAD * WAD)) in *.
  apply (Z.mul_le_mono_pos_r _ _ (WAD * WAD)); [lia|].
  assert (y * (WAD * WAD) * t <= WAD * x * q * t) by (apply Z.mul_le_mono_nonneg_r; lia).
  assert (WAD * x * (q * t) <= WAD * x * (WAD * c * WAD))
    by (apply Z.mul_le_mono_nonneg_l; [nia|lia]).
  lia.
Qed.

Lemma deposit_share_price r x r' y :
  reserve_ok r -> 0 <= x -> deposit_liquidity r x = Ok (r', y) ->
  share_price_le r r' /\ 0 <= y.
Proof.
  intros [_ _ Hs Hc] Hx H.
  apply deposit_liquidity_inv in H as (e & He & -> & Hs' & Hc' & _).
  apply collateral_exchange_rate_inv in He as (_ & Hcase). cbn zeta in Hcase.
  unfold share_price_le. rewrite Hs', Hc'. pose proof WAD_pos as HW.
  destruct Hcase as [[Hz ->]|(Hc0 & Hs0 & ->)].
  - assert (supply r = 0) as -> by lia. split; [nia|].
    apply div_nonneg; [apply div_nonneg; nia|done].
  - pose proof (minted_fair x (ctokens r) (supply r) Hx ltac:(lia) ltac:(lia)).
    split; [lia|]. repeat apply div_nonneg; try lia.
    apply Z.mul_nonneg_nonneg; [nia|]. apply div_nonneg; lia.
Qed.
End exchange.

(** ** Operations that move value into a reserve *)

(** The operations on a reserve that do not redeem collateral or forgive a debt:
    a deposit, a borrow, a repayment of at least the settled debt, an interest
    accrual, and the protocol collecting its fees. *)
Inductive reserve_step : Reserve -> Reserve -> Prop :=
  | step_deposit r x r' y :
      0 <= x -> deposit_liquidity r x = Ok (r', y) -> reserve_step r r'
  | step_borrow r b l :
      0 <= dec_raw b -> ReserveLiquidity.borrow (liquidity r) b = Ok l ->
      reserve_step r (set_liquidity r l)
  | step_repay r n s l :
      0 <= n -> 0 <= dec_raw s <= WAD * n ->
      ReserveLiquidity.repay (liquidity r) n s = Ok l ->
      reserve_step r (set_liquidity r l)
  | step_accrue r s r' :
      reserve_config_wf (config r) -> sound_config (config r) ->
      Reserve.accrue_interest r s = Ok r' -> reserve_step r r'
  | step_redeem_fees r n l :
      calculate_redeem_fees r = Ok n -> redeem_fees (liquidity r) n = Ok l ->
      reserve_step r (set_liquidity r l).

Section steps.
Implicit Types r : Reserve.

Lemma calculate_repay_inv r amount debt res :
  calculate_repay r amount debt = Ok res ->
  repay_settle_amount res
    = (if amount =? u64_max then debt else dec_min (from_int amount) debt) /\
  repay_repay_amount res = (WAD - 1 + dec_raw (repay_settle_amount res)) / WAD.
Proof.
  unfold calculate_repay. intros H. minv H. cbn. by apply dec_ceil_inv in E as [-> _].
Qed.

Lemma ceil_covers s : s <= WAD * ((WAD - 1 + s) / WAD).
Proof. pose proof (div_mul_gt (WAD - 1 + s) WAD WAD_pos). lia. Qed.

(** A repayment by [calculate_repay] is one that covers what it settles. *)
Lemma step_calculated_repay r amount debt res l :
  0 <= amount -> 0 <= dec_raw debt -> calculate_repay r amount debt = Ok res ->
  ReserveLiquidity.repay (liquidity r) (repay_repay_amount res) (repay_settle_amount res)
    = Ok l ->
  reserve_step r (set_liquidity r l).
Proof.
  intros Ha Hd [Hset Hrep]%calculate_repay_inv H.
  assert (0 <= dec_raw (repay_settle_amount res)).
  { rewrite Hset. case_match; [done|]. rewrite dec_min_raw. cbn. pose proof WAD_pos. nia. }
  eapply step_repay; [|split|exact H]; rewrite ?Hrep; [|done|apply ceil_covers].
  apply div_nonneg; [pose proof WAD_pos; lia|done].
Qed.

Lemma take_rate_bounds (c : ReserveConfig) :
  reserve_config_wf c -> sound_config c ->
  0 <= rate_raw (Rate.from_percent (protocol_take_rate c)) <= WAD.
Proof.
  intros [] []. unfold in_uint, WAD in *. cbn [Rate.from_percent rate_raw].
  unfold PERCENT_SCALER. lia.
Qed.

(** What one accrual does to the debt, the fees and the rate. *)
Lemma compound_interest_inv (l l' : ReserveLiquidity) rate n take :
  0 <= rate_raw rate -> 0 <= rate_raw take <= WAD ->
  0 <= dec_raw (borrowed_amount_wads l) -> 0 <= dec_raw (cumulative_borrow_rate_wads l) ->
  compound_interest l rate n take = Ok l' ->
  exists debt fees,
    0 <= debt /\ 0 <= fees <= debt /\
    dec_raw (borrowed_amount_wads l') = dec_raw (borrowed_amount_wads l) + debt /\
    dec_raw (accumulated_protocol_fees_wads l')
      = dec_raw (accumulated_protocol_fees_wads l) + fees /\
    dec_raw (cumulative_borrow_rate_wads l) <= dec_raw (cumulative_borrow_rate_wads l') /\
    available_amount l' = available_amount l.
Proof.
  intros Hr Ht Hb Hc H. unfold compound_interest in H. minv H.
  apply rate_div_u64_inv in E as [Hv _]. apply rate_add_inv in E0 as [Hv0 _].
  cbn [Rate.one rate_raw] in Hv0.
  assert (0 <= rate_raw v) by (rewrite Hv; by apply div_nonneg).
  apply try_pow_growth in E1; [|lia].
  apply dec_mul_rate_inv in E2 as [Hcum _]. apply dec_mul_rate_inv in E3 as [Hdebt _].
  apply dec_sub_inv in E4 as [Hnew Hle]. apply dec_mul_rate_inv in E5 as [Htake _].
  apply dec_add_inv in E6 as [Hfees _]. apply dec_add_inv in E7 as [Hbor _].
  exists (dec_raw v4), (dec_raw v5). cbn. rewrite Hcum.
  pose proof (mul_div_ge_self (dec_raw (cumulative_borrow_rate_wads l)) (rate_raw v1) WAD
    Hc E1 WAD_pos).
  split_and!; try lia.
  - rewrite Htake. apply div_nonneg; [nia|done].
  - rewrite Htake. apply mul_div_le_self; [lia|done|done].
Qed.

Lemma step_preserves r r' :
  reserve_ok r -> 0 <= dec_raw (cumulative_borrow_rate_wads (liquidity r)) ->
  reserve_step r r' ->
  reserve_ok r' /\ share_price_le r r' /\
  0 <= dec_raw (cumulative_borrow_rate_wads (liquidity r')).
Proof.
  intros Hok Hcum Hs. pose proof Hok as [Ha Hb Hsup Hc].
  unfold share_price_le, supply, ctokens in *. destruct Hs.
  - pose proof (deposit_share_price _ _ _ _ Hok H H0) as [Hp Hy].
    assert (cumulative_borrow_rate_wads (liquidity r') = cumulative_borrow_rate_wads (liquidity r))
      as Hrate.
    { unfold deposit_liquidity in H0. minv H0. subst. apply liq_deposit_inv in E1 as [-> _]. done. }
    apply deposit_liquidity_inv in H0 as (e & _ & _ & Hs' & Hc' & Hb' & Ha').
    unfold supply, ctokens in *. pose proof WAD_pos.
    split_and!; [|done|by rewrite Hrate].
    split; unfold supply, ctokens; rewrite ?Hs', ?Hc', ?Hb', ?Ha'; nia.
  - apply liq_borrow_inv in H0 as [-> Hle].
    pose proof (div_mul_le_l (dec_raw b) WAD WAD_pos).
    assert (raw_supply (liquidity r) <= raw_supply (set_amounts (liquidity r)
      (available_amount (liquidity r) - dec_raw b / WAD)
      (mkDecimal (dec_raw (borrowed_amount_wads (liquidity r)) + dec_raw b)))).
    { unfold raw_supply. cbn. lia. }
    cbn [liquidity collateral set_liquidity].
    split_and!; [split; unfold supply, ctokens; cbn; lia | nia | done].
  - apply liq_repay_inv in H1 as [-> Hlt].
    assert (raw_supply (liquidity r) <= raw_supply (set_amounts (liquidity r)
      (available_amount (liquidity r) + n)
      (mkDecimal (dec_raw (borrowed_amount_wads (liquidity r)) -
         dec_raw s `min` dec_raw (borrowed_amount_wads (liquidity r)))))).
    { unfold raw_supply. cbn. lia. }
    cbn [liquidity collateral set_liquidity].
    split_and!; [split; unfold supply, ctokens; cbn; lia | nia | done].
  - unfold Reserve.accrue_interest in H1. minv H1.
    destruct (0 <? v); [|minv H1; done].
    minv H1. apply compound_interest_inv in E1 as (debt & fees & Hd & Hf & Hb' & Hf' & Hc' & Ha');
      [| |by apply take_rate_bounds|done..].
    2: { pose proof (current_borrow_rate_range r H H0 _ Ha Hb E0).
         pose proof (curve_points _ H H0). lia. }
    assert (raw_supply (liquidity r) <= raw_supply v1).
    { unfold raw_supply. rewrite Ha', Hb', Hf'. lia. }
    cbn [liquidity collateral set_liquidity].
    split_and!; [split; unfold supply, ctokens; cbn; lia | nia | lia].
  - unfold calculate_redeem_fees in H. minv H. apply dec_floor_inv in E as [-> _].
    apply liq_redeem_fees_inv in H0 as (Ha' & Hb' & Hr' & Hf' & Hle & Hle').
    assert (raw_supply l = raw_supply (liquidity r)) as Heq.
    { unfold raw_supply. rewrite Ha', Hb', Hf'. lia. }
    cbn [liquidity collateral set_liquidity]. rewrite Heq, Hr'.
    split_and!; [split; unfold supply, ctokens; cbn; rewrite ?Heq, ?Ha', ?Hb'; lia | lia | done].
Qed.
Lemma share_price_trans r1 r2 r3 :
  reserve_ok r1 -> reserve_ok r2 -> reserve_ok r3 ->
  share_price_le r1 r2 -> share_price_le r2 r3 -> share_price_le r1 r3.
Proof.
  unfold share_price_le. intros [_ _ Hs1 Hc1] [_ _ Hs2 Hc2] [_ _ Hs3 Hc3] H12 H23.
  apply (Z.mul_le_mono_pos_r _ _ (ctokens r2)); [done|].
  assert (supply r1 * ctokens r2 * ctokens r3 <= supply r2 * ctokens r1 * ctokens r3) by nia.
  assert (supply r2 * ctokens r3 * ctokens r1 <= supply r3 * ctokens r2 * ctokens r1) by nia.
  lia.
Qed.
End steps.

(** ** The guarantees *)

(** The value of a collateral token never drops.  Over any sequence of
    deposits, borrows, repayments, interest accruals and fee collections, the
    supply per collateral token (cross-multiplied) only grows, whatever the
    rounding of each step. *)
Theorem share_price_never_drops (r r' : Reserve)
    (Hok : reserve_ok r) (Hc : 0 <= dec_raw (cumulative_borrow_rate_wads (liquidity r)))
    (H : rtc reserve_step r r') :
  supply r * ctokens r' <= supply r' * ctokens r /\ reserve_ok r'.
Proof.
  change (share_price_le r r' /\ reserve_ok r').
  revert Hok Hc. induction H as [r|r r1 r' Hs _ IH]; intros Hok Hc.
  { split; [|done]. unfold share_price_le. lia. }
  destruct (step_preserves _ _ Hok Hc Hs) as (Hok1 & Hp & Hc1).
  destruct (IH Hok1 Hc1) as [Hp' Hok']. split; [|done].
  by eapply share_price_trans; [exact Hok|exact Hok1|exact Hok'|..].
Qed.

Lemma test_reserve_ok : reserve_ok test_reserve.
Proof. split; vm_compute; congruence. Qed.

Lemma share_price_never_drops_witness :
  exists r', rtc reserve_step test_reserve r' /\ 0 < ctokens r' - ctokens test_reserve /\
    supply test_reserve * ctokens r' <= supply r' * ctokens test_reserve.
Proof.
  destruct (deposit_liquidity test_reserve 1000) as [[r' y]| |] eqn:Hd;
    [|vm_compute in Hd; discriminate..].
  assert (H : rtc reserve_step test_reserve r').
  { apply rtc_once. by apply (step_deposit _ 1000 _ y). }
  exists r'. split; [exact H|]. split; [vm_compute in Hd; by injection Hd as <- <-|].
  exact (proj1 (share_price_never_drops test_reserve r' test_reserve_ok
    ltac:(by vm_compute) H)).
Defined.

(** Depositing and redeeming at once never pays.  From a reserve whose
    liquidity is owned by its collateral tokens, the liquidity returned for the
    tokens minted by a deposit is at most the deposit, as long as the amount is
    at most the scaled exchange rate (so the rounding of the rate is worth less
    than one token). *)
Theorem deposit_redeem_no_profit (r r1 r2 : Reserve) (x y x' : Z) (e : CollateralExchangeRate)
    (Hok : reserve_ok r) (Hx : 0 <= x)
    (Hd : deposit_liquidity r x = Ok (r1, y))
    (He : collateral_exchange_rate r1 = Ok e)
    (Hrate : x < rate_raw (exchange_rate_inner e))
    (Hr : redeem_collateral r1 y = Ok (r2, x')) :
  x' <= x.
Proof.
  destruct (deposit_share_price r x r1 y Hok Hx Hd) as [Hp Hy].
  apply redeem_collateral_inv in Hr as (e' & He' & Hnz & -> & _).
  rewrite He in He'. injection He' as <-.
  apply collateral_exchange_rate_inv in He as (Hs1 & Hcase). cbn zeta in Hcase.
  apply deposit_liquidity_inv in Hd as (e0 & _ & Hyv & Hsup & Hct & _).
  destruct Hok as [_ _ Hs Hc]. unfold share_price_le in Hp. pose proof WAD_pos as HW.
  set (q := rate_raw (exchange_rate_inner e)) in *.
  assert (Hfair : y * supply r1 <= x * WAD * ctokens r1) by nia.
  apply Z.lt_succ_r, Z.div_lt_upper_bound; [done|]. apply Z.div_lt_upper_bound; [lia|].
  destruct Hcase as [[Hz ->]|(_ & Hs0 & Hq)].
  { assert (x = 0) as -> by nia. assert (y = 0) as ->.
    { rewrite Hyv, Z.mul_0_r, Z.mul_0_l. reflexivity. } lia. }
  pose proof (div_mul_gt (WAD * ctokens r1 * WAD) (supply r1) ltac:(lia)) as Hgt.
  rewrite <- Hq in Hgt.
  apply (Z.mul_lt_mono_pos_r (supply r1)); [lia|].
  assert (WAD * WAD * (y * supply r1) <= WAD * WAD * (x * WAD * ctokens r1)) by nia.
  assert (x * WAD * (WAD * ctokens r1 * WAD) <= x * WAD * ((q + 1) * supply r1)) by nia.
  assert (x * WAD * (q + 1) <= WAD * (x + 1) * q) by nia.
  assert (x * WAD * (q + 1) * supply r1 <= WAD * (x + 1) * q * supply r1) by nia.
  nia.
Qed.

Definition after_deposit : Reserve :=
  Eval vm_compute in
    match deposit_liquidity test_reserve 1000 with Ok (r, _) => r | _ => test_reserve end.
Definition after_redeem : Reserve :=
  Eval vm_compute in
    match redeem_collateral after_deposit 1000 with Ok (r, _) => r | _ => test_reserve end.

Lemma deposit_redeem_no_profit_witness :
  deposit_liquidity test_reserve 1000 = Ok (after_deposit, 1000) /\
  redeem_collateral after_deposit 1000 = Ok (after_redeem, 1000) /\ 1000 <= 1000.
Proof.
  assert (Hd : deposit_liquidity test_reserve 1000 = Ok (after_deposit, 1000))
    by (vm_compute; reflexivity).
  assert (Hr : redeem_collateral after_deposit 1000 = Ok (after_redeem, 1000))
    by (vm_compute; reflexivity).
  split; [exact Hd|]. split; [exact Hr|].
  apply (deposit_redeem_no_profit test_reserve after_deposit after_redeem 1000 1000 1000
    (mkCollateralExchangeRate Rate.one) test_reserve_ok); [lia|exact Hd| | |exact Hr];
    vm_compute; reflexivity.
Defined.
