(* ===== verification/ReserveCalc.v ===== *)
(** The calculations of a reserve: what a borrow, a repayment, a liquidation and
    a fee collection may move. *)

From S2P Require Import Prelude Errors Common Rate Decimal RatePow Codec LastUpdate.
From S2P Require Import ObligationCollateral ObligationLiquidity Obligation.
From S2P Require Import RateLimiter ReserveConfig ReserveConfigSpec.
From S2P Require Import ReserveLiquidity ReserveCollateral Reserve ReserveRates.

(** ** Valuation *)

Lemma decimals_factor_inv r f :
  decimals_factor r = Ok f ->
  dec_raw f = WAD * 10 ^ mint_decimals (liquidity r).
Proof.
  unfold decimals_factor. intros H. minv H.
  by apply math_Ok_inv, checked_pow_Some_inv in E as [-> _].
Qed.

Definition price_upper (r : Reserve) : Z :=
  Z.max (dec_raw (market_price (liquidity r))) (dec_raw (smoothed_market_price (liquidity r))).

Lemma market_value_upper_bound_inv r a v :
  market_value_upper_bound r a = Ok v ->
  dec_raw v =
    price_upper r * dec_raw a / WAD * WAD / (WAD * 10 ^ mint_decimals (liquidity r)).
Proof.
  unfold market_value_upper_bound. intros H. minv H.
  apply dec_mul_inv in E as [Hv _]. apply decimals_factor_inv in E0 as Hf.
  apply dec_div_inv in H as [-> _]. by rewrite Hv, Hf, dec_max_raw.
Qed.

Lemma borrow_weight_inv r w :
  borrow_weight r = Ok w ->
  dec_raw w = WAD + WAD * added_borrow_weight_bps (config r) / 10000.
Proof.
  unfold borrow_weight. rewrite from_bps_eq. mred. intros H. minv H.
  apply dec_add_inv in H as [-> _]. done.
Qed.

(** A value bound divided down to an amount and valued back stays in the bound. *)
Lemma revalue_le (m d p w a : Z) :
  0 <= m -> 0 < d -> 0 < p -> 0 < w -> a <= m * d * WAD / p * WAD / w ->
  p * a / WAD * WAD / (WAD * d) * w / WAD <= m.
Proof.
  intros Hm Hd Hp Hw Ha. pose proof WAD_pos as HW.
  pose proof (div_mul_le_l (m * d * WAD) p Hp) as H1.
  set (v2 := m * d * WAD / p) in *.
  pose proof (div_mul_le_l (v2 * WAD) w Hw) as H2.
  set (v3 := v2 * WAD / w) in *.
  apply Z.div_le_upper_bound; [done|].
  rewrite (Z.mul_comm WAD d), Z.div_mul_cancel_r by lia.
  pose proof (div_mul_le_l (p * a / WAD) d Hd) as H3.
  set (v4 := p * a / WAD / d) in *.
  pose proof (div_mul_le_l (p * a) WAD HW) as H4.
  assert (p * a <= p * v3) by nia.
  apply (Z.mul_le_mono_pos_r _ _ (d * WAD)); [nia|].
  assert (v4 * d * WAD <= p * v3) by nia.
  assert (v4 * d * WAD * w <= p * v3 * w) by nia.
  assert (p * (v3 * w) <= p * (v2 * WAD)) by nia.
  assert (v2 * p * WAD <= m * d * WAD * WAD) by nia.
  nia.
Qed.

(** The risk-weighted value of what [calculate_borrow] lends. *)
Lemma calculate_borrow_value_le r n maxv remaining res v w bv :
  0 <= added_borrow_weight_bps (config r) -> 0 <= mint_decimals (liquidity r) ->
  0 <= price_upper r -> 0 <= dec_raw maxv ->
  calculate_borrow r n maxv remaining = Ok res ->
  market_value_upper_bound r (borrow_amount res) = Ok v -> borrow_weight r = Ok w ->
  try_mul v w = Ok bv -> dec_raw bv <= dec_raw maxv.
Proof.
  intros Hbps Hd Hp Hm H Hv Hw Hbv. unfold calculate_borrow, calculate_borrow_fees in H.
  minv H. apply math_Ok_inv, checked_pow_Some_inv in E as [-> _].
  assert (Hpow : 0 < 10 ^ mint_decimals (liquidity r)) by (apply Z.pow_pos_nonneg; lia).
  destruct (Z.eqb_spec n u64_max) as [->|Hne]; minv H; cbn [Reserve.borrow_amount] in *.
  - apply market_value_upper_bound_inv in Hv as Hv2. apply dec_mul_inv in Hbv as [-> _].
    rewrite E1 in Hw. injection Hw as <-. apply borrow_weight_inv in E1 as Hw2.
    apply dec_mul_u64_inv in E as [Hq _]. apply dec_div_inv in E0 as (Hq0 & _ & Hnz).
    apply dec_div_inv in E2 as [Hq1 _]. rewrite dec_max_raw in Hq0, Hnz.
    fold (price_upper r) in Hq0, Hnz.
    rewrite Hv2. apply revalue_le; [done|done|lia| |].
    + rewrite Hw2. pose proof (div_nonneg (WAD * added_borrow_weight_bps (config r)) 10000
        ltac:(unfold WAD; lia) ltac:(lia)). unfold WAD in *. lia.
    + rewrite !dec_min_raw, Hq1, Hq0, Hq in *. lia.
  - rewrite E1 in Hv. injection Hv as <-. rewrite E2 in Hw. injection Hw as <-.
    rewrite E3 in Hbv. injection Hbv as <-. unfold dec_lt in G. lia.
Qed.

(** A borrow is what is received and the fee, in whole tokens. *)
Lemma calculate_borrow_split r n maxv remaining res :
  0 <= host_fee_percentage (fees (config r)) -> 0 <= n ->
  calculate_borrow r n maxv remaining = Ok res ->
  receive_amount res + borrow_fee res = dec_raw (borrow_amount res) / WAD /\
  0 <= receive_amount res /\ 0 <= borrow_fee res /\ 0 <= host_fee res.
Proof.
  intros Hh Hn H. unfold calculate_borrow, calculate_borrow_fees in H. minv H.
  assert (Hfees : forall a w k f h, calculate_fees (fees (config r)) a w k = Ok (f, h) ->
    0 <= f /\ 0 <= h) by (intros ????? Hf; by eapply calculate_fees_nonneg, Hf).
  destruct (n =? u64_max); minv H;
    cbn [Reserve.receive_amount Reserve.borrow_fee Reserve.host_fee Reserve.borrow_amount] in *.
  - apply dec_floor_inv in E5 as [-> _]. apply math_Ok_inv, checked_sub_Some_inv in E6 as [-> ?].
    apply Hfees in E4. lia.
  - apply dec_add_inv in E1 as [Hb _]. cbn [from_int dec_raw] in Hb.
    rewrite Hb, <- Z.mul_add_distr_l, Z.mul_comm, Z.div_mul by done.
    apply Hfees in E0. lia.
Qed.

(** The most tokens whose risk-weighted value is at most [maxv], as the code divides
    it out. *)
Definition largest_borrow (r : Reserve) (maxv : Z) : Z :=
  maxv * 10 ^ mint_decimals (liquidity r) * WAD / price_upper r * WAD
    / (WAD + WAD * added_borrow_weight_bps (config r) / 10000).

(** What is borrowed on request: an explicit amount is received, and the fee, computed
    on top of it, is borrowed too; the maximum is the least of what the value, the
    reserve and the liquidity admit, and the fee comes out of it. *)
Record borrow_computed (r : Reserve) (n : Z) (maxv remaining : Decimal)
    (res : CalculateBorrowResult) : Prop := {
  computed_explicit : n <> u64_max ->
    receive_amount res = n /\
    calculate_borrow_fees (fees (config r)) (from_int n) Exclusive
      = Ok (borrow_fee res, host_fee res) /\
    dec_raw (borrow_amount res) = WAD * (n + borrow_fee res);
  computed_maximum : n = u64_max ->
    dec_raw (borrow_amount res)
      = Z.min (Z.min (largest_borrow r (dec_raw maxv)) (dec_raw remaining))
          (WAD * available_amount (liquidity r)) /\
    calculate_borrow_fees (fees (config r)) (borrow_amount res) Inclusive
      = Ok (borrow_fee res, host_fee res) /\
    receive_amount res = dec_raw (borrow_amount res) / WAD - borrow_fee res;
}.

Lemma calculate_borrow_computed r n maxv remaining res :
  calculate_borrow r n maxv remaining = Ok res -> borrow_computed r n maxv remaining res.
Proof.
  intros H. unfold calculate_borrow in H. minv H.
  apply math_Ok_inv, checked_pow_Some_inv in E as [-> _].
  destruct (Z.eqb_spec n u64_max) as [->|Hne]; minv H;
    (split; cbn [Reserve.receive_amount Reserve.borrow_fee Reserve.host_fee
                 Reserve.borrow_amount]; [intros Hn|intros Hn]; [try done|try done]).
  - apply dec_floor_inv in E4 as [-> _].
    apply math_Ok_inv, checked_sub_Some_inv in E5 as [-> _].
    apply dec_mul_u64_inv in E as [Hq _]. apply dec_div_inv in E0 as (Hq0 & _).
    apply borrow_weight_inv in E1. apply dec_div_inv in E2 as [Hq1 _].
    rewrite dec_max_raw in Hq0. split_and!; [|done|done].
    rewrite !dec_min_raw. unfold largest_borrow, price_upper.
    by rewrite Hq1, Hq0, Hq, E1.
  - apply dec_add_inv in E0 as [Hb _]. cbn [from_int dec_raw] in Hb.
    split_and!; [done|done|lia].
Qed.

(** C26: what a borrow amounts to.  When [calculate_borrow] succeeds, an explicit
    amount is received as asked for, and borrowed with the fee on top; a maximum
    borrow is the least of what its value, the remaining capacity of the reserve and
    its available liquidity admit, and the fee is deducted from it.  Either way what the
    borrower receives plus the fee is the borrowed amount in whole tokens, the host's
    part is at most the fee, and the risk-weighted upper bound value of the borrow, fee
    included, is at most [max_borrow_value].  (Of an explicit amount the capacity and
    the liquidity are checked by the handler.) *)
Theorem calculate_borrow_within_limits (r : Reserve) (n : Z) (maxv remaining : Decimal)
    (res : CalculateBorrowResult)
    (Hwf : reserve_config_wf (config r)) (Hv : validate_reserve_config (config r) = Ok tt)
    (Hd : 0 <= mint_decimals (liquidity r)) (Hp : 0 <= price_upper r)
    (Hm : 0 <= dec_raw maxv) (Hn : 0 <= n)
    (H : calculate_borrow r n maxv remaining = Ok res) :
  borrow_computed r n maxv remaining res /\
  receive_amount res + borrow_fee res = dec_raw (borrow_amount res) / WAD /\
  0 <= receive_amount res /\ 0 <= host_fee res <= borrow_fee res /\
  (forall v w bv, market_value_upper_bound r (borrow_amount res) = Ok v ->
     borrow_weight r = Ok w -> try_mul v w = Ok bv -> dec_raw bv <= dec_raw maxv) /\
  (n = u64_max -> dec_raw (borrow_amount res) <= dec_raw remaining /\
     dec_raw (borrow_amount res) <= WAD * available_amount (liquidity r)).
Proof.
  pose proof (proj1 (wf_added_borrow_weight_bps _ Hwf)) as Hbps.
  pose proof (proj1 (proj2 (proj2 (wf_fees _ Hwf)))) as Hh.
  apply validated_sound, valid_host_fee in Hv.
  apply calculate_borrow_computed in H as Hc.
  destruct (calculate_borrow_split _ _ _ _ _ Hh Hn H) as (Hsplit & Hr & _).
  assert (Hfees : 0 <= host_fee res <= borrow_fee res).
  { destruct (decide (n = u64_max)) as [He|He];
      [apply (computed_maximum _ _ _ _ _ Hc) in He as (_ & Hf & _)
      |apply (computed_explicit _ _ _ _ _ Hc) in He as (_ & Hf & _)];
      by eapply calculate_fees_host_le, Hf. }
  split_and!; [done|done|done|lia|lia| |].
  - intros v w bv. by apply (calculate_borrow_value_le r n maxv remaining res).
  - intros (-> & _)%(computed_maximum _ _ _ _ _ Hc). lia.
Qed.

Lemma calculate_borrow_within_limits_witness :
  exists res most,
    calculate_borrow test_reserve 1000000 (from_int 5) (from_int 9000000) = Ok res /\
    borrow_computed test_reserve 1000000 (from_int 5) (from_int 9000000) res /\
    calculate_borrow test_reserve u64_max (from_int 5) (from_int 400000) = Ok most /\
    dec_raw (borrow_amount most) <= WAD * 400000.
Proof.
  destruct (calculate_borrow test_reserve 1000000 (from_int 5) (from_int 9000000))
    as [res| |] eqn:H; [|vm_compute in H; discriminate..].
  destruct (calculate_borrow test_reserve u64_max (from_int 5) (from_int 400000))
    as [most| |] eqn:Hmost; [|vm_compute in Hmost; discriminate..].
  exists res, most. split; [done|]. split.
  - apply (calculate_borrow_within_limits test_reserve 1000000 (from_int 5)
      (from_int 9000000) res test_config_wf eq_refl); [by vm_compute..|exact H].
  - split; [done|].
    refine (proj1 (proj2 (proj2 (proj2 (proj2 (proj2 (calculate_borrow_within_limits
      test_reserve u64_max (from_int 5) (from_int 400000) most test_config_wf eq_refl
      _ _ _ _ Hmost)))))  eq_refl)); by vm_compute.
Defined.

(** A repayment settles what it can and no more.  [calculate_repay] settles
    the smaller of the offer and the debt (the whole debt for [u64::MAX]), and
    the tokens it asks for are the settled amount rounded up: they cover it, by
    less than one token too much, and never exceed the offer. *)
Theorem calculate_repay_settles (r : Reserve) (n : Z) (debt : Decimal)
    (res : CalculateRepayResult)
    (Hn : is_u64 n) (Hd : 0 <= dec_raw debt) (H : calculate_repay r n debt = Ok res) :
  dec_raw (repay_settle_amount res)
    = (if n =? u64_max then dec_raw debt else Z.min (WAD * n) (dec_raw debt)) /\
  dec_raw (repay_settle_amount res) <= WAD * repay_repay_amount res
    < dec_raw (repay_settle_amount res) + WAD /\
  0 <= repay_repay_amount res <= n.
Proof.
  unfold calculate_repay in H. minv H. cbn [repay_settle_amount repay_repay_amount].
  set (s := if n =? u64_max then debt else dec_min (from_int n) debt) in *.
  assert (Hs : dec_raw s = if n =? u64_max then dec_raw debt else Z.min (WAD * n) (dec_raw debt)).
  { unfold s. case_match; [done|]. by rewrite dec_min_raw. }
  apply dec_ceil_inv in E as [-> Hlt].
  pose proof (div_mul_le_l (WAD - 1 + dec_raw s) WAD WAD_pos) as H1.
  pose proof (div_mul_gt (WAD - 1 + dec_raw s) WAD WAD_pos) as H2.
  unfold in_uint in Hn.
  assert (0 <= dec_raw s) by (rewrite Hs; case_match; unfold WAD in *; lia).
  assert (0 <= (WAD - 1 + dec_raw s) / WAD) by (apply div_nonneg; unfold WAD in *; lia).
  split; [done|]. split; [lia|]. split; [done|].
  destruct (Z.eqb_spec n u64_max) as [->|Hne]; [unfold u64_max in *; lia|].
  apply Z.lt_succ_r, Z.div_lt_upper_bound; unfold WAD in *; lia.
Qed.

Lemma calculate_repay_settles_witness :
  exists res, calculate_repay test_reserve 10 (mkDecimal (5 * WAD + 1)) = Ok res /\
    0 <= repay_repay_amount res <= 10.
Proof.
  eexists. split; [vm_compute; reflexivity|].
  refine (proj2 (proj2 (calculate_repay_settles test_reserve 10 (mkDecimal (5 * WAD + 1)) _
    _ _ _))); by vm_compute.
Defined.

(** ** Liquidation bonus *)

Definition bonus_cap : Z := MAX_BONUS_PCT * PERCENT_SCALER.

(** Thresholds as a refresh computes them. *)
Record thresholds_ok (o : Obligation) : Prop := {
  ok_unhealthy : 0 <= dec_raw (unhealthy_borrow_value o);
  ok_super_unhealthy :
    dec_raw (unhealthy_borrow_value o) <= dec_raw (super_unhealthy_borrow_value o);
}.

Lemma weight_total (excess width : Decimal) :
  0 <= dec_raw excess -> 0 < dec_raw width ->
  exists w, unwrap_or_else (try_div excess width) Decimal.one = Ok w /\ 0 <= dec_raw w.
Proof.
  intros He Hw. pose proof WAD_pos.
  destruct (decide (dec_raw excess * WAD < 2 ^ 192)) as [Hlt|Hge].
  - rewrite dec_div_ok by lia. cbn. eexists. split; [done|]. apply div_nonneg; nia.
  - unfold try_div, dec_try_div, checked_mul. rewrite fit_None by lia. cbn.
    eexists. split; [done|]. by vm_compute.
Qed.

Lemma calculate_bonus_ok (r : Reserve) (o : Obligation) :
  reserve_config_wf (config r) -> valid_config (config r) -> thresholds_ok o ->
  dec_raw (unhealthy_borrow_value o) <= dec_raw (borrowed_value o) ->
  exists b, calculate_bonus r o = Ok b /\
    liquidation_bonus (config r) * PERCENT_SCALER
      + WAD * protocol_liquidation_fee (config r) / 1000 <= dec_raw b <= bonus_cap.
Proof.
  intros Hwf Hv [Hu Hsu] Hb. pose proof Hwf as []. pose proof Hv as [[] ?]. unfold in_uint in *.
  unfold bonus_cap, MAX_BONUS_PCT, calculate_bonus in *.
  assert (Hfee : WAD * protocol_liquidation_fee (config r) / 1000
    = protocol_liquidation_fee (config r) * 1000000000000000).
  { unfold WAD. replace (1000000000000000000 * protocol_liquidation_fee (config r))
      with (protocol_liquidation_fee (config r) * 1000000000000000 * 1000) by lia.
    by rewrite Z.div_mul. }
  unfold dec_lt, dec_eqb, percent.
  destruct (Z.ltb_spec (dec_raw (borrowed_value o)) (dec_raw (unhealthy_borrow_value o))); [lia|].
  rewrite from_deca_bps_eq. mred.
  destruct (Z.eqb_spec (dec_raw (unhealthy_borrow_value o)) (dec_raw (super_unhealthy_borrow_value o))).
  - rewrite dec_add_ok by (cbn; rewrite Hfee; unfold PERCENT_SCALER in *; lia). mred.
    eexists. split; [done|]. rewrite dec_min_raw. cbn [Decimal.from_percent dec_raw].
    rewrite Hfee. unfold PERCENT_SCALER, MAX_BONUS_PCT in *. lia.
  - rewrite dec_sub_ok by lia. mred. rewrite dec_sub_ok by lia. mred.
    destruct (weight_total
      (mkDecimal (dec_raw (borrowed_value o) - dec_raw (unhealthy_borrow_value o)))
      (mkDecimal (dec_raw (super_unhealthy_borrow_value o) - dec_raw (unhealthy_borrow_value o))))
      as (w & Hw & Hw0); [cbn; lia|cbn; lia|].
    rewrite Hw. mred.
    rewrite dec_sub_ok by (cbn; unfold PERCENT_SCALER in *; lia). mred.
    cbn [Decimal.from_percent dec_raw].
    set (range := max_liquidation_bonus (config r) * PERCENT_SCALER -
      liquidation_bonus (config r) * PERCENT_SCALER).
    assert (Hrange : 0 <= range <= WAD) by (unfold range, PERCENT_SCALER, WAD in *; lia).
    pose proof (dec_min_raw w Decimal.one) as Hmin. cbn [Decimal.one dec_raw] in Hmin.
    assert (Hmw : 0 <= dec_raw (dec_min w Decimal.one) <= WAD) by (unfold WAD in *; lia).
    pose proof (mul_le_bound _ _ _ _ Hmw Hrange).
    rewrite dec_mul_ok by (cbn [dec_raw]; unfold WAD in *; lia). mred. cbn [dec_raw].
    pose proof (interpolation_bounds _ range (liquidation_bonus (config r) * PERCENT_SCALER)
      Hmw (proj1 Hrange)).
    set (x := dec_raw (dec_min w Decimal.one) * range / WAD) in *.
    assert (0 <= liquidation_bonus (config r) * PERCENT_SCALER <= WAD)
      by (unfold PERCENT_SCALER, WAD; lia).
    rewrite dec_add_ok by (cbn [Decimal.from_percent dec_raw]; unfold WAD in *; lia). mred. cbn [Decimal.from_percent dec_raw].
    rewrite dec_add_ok by (cbn [Decimal.from_percent dec_raw]; rewrite Hfee; unfold WAD in *; lia). mred.
    eexists. split; [done|]. rewrite dec_min_raw. cbn [Decimal.from_percent dec_raw].
    rewrite Hfee. unfold PERCENT_SCALER, MAX_BONUS_PCT in *. lia.
Qed.

(** The liquidation bonus always exists for an unhealthy obligation, and is
    refused with [ObligationHealthy] for a healthy one.  Under a validated
    configuration, and thresholds in order, it is at least the configured base
    bonus plus the protocol fee, and at most 25 percent; no division by a tiny
    difference of thresholds makes it fail. *)
Theorem calculate_bonus_total (r : Reserve) (o : Obligation)
    (Hwf : reserve_config_wf (config r)) (Hv : validate_reserve_config (config r) = Ok tt)
    (Ht : thresholds_ok o) :
  if dec_lt (borrowed_value o) (unhealthy_borrow_value o)
  then calculate_bonus r o = fail ObligationHealthy
  else exists b, calculate_bonus r o = Ok b /\
    liquidation_bonus (config r) * PERCENT_SCALER
      + WAD * protocol_liquidation_fee (config r) / 1000 <= dec_raw b <= bonus_cap.
Proof.
  destruct (dec_lt _ _) eqn:Hh.
  - unfold calculate_bonus. by rewrite Hh.
  - unfold dec_lt in Hh. apply calculate_bonus_ok; [done|by apply validate_sound|done|lia].
Qed.

(** An obligation whose debt is just past its liquidation threshold. *)
Definition unhealthy_obligation : Obligation :=
  mkObligation 1 (LastUpdate.new 7) 10 77
    [mkObligationCollateral 20 1000000 (from_int 100)]
    [mkObligationLiquidity 21 Decimal.one (from_int 60000000) (from_int 60)]
    (from_int 100) (from_int 60) (from_int 60) (from_int 50) (from_int 55)
    (mkDecimal (WAD * 55 + 1)) false.

Lemma calculate_bonus_total_witness :
  exists b, calculate_bonus test_reserve unhealthy_obligation = Ok b /\
    5 * PERCENT_SCALER + WAD * 30 / 1000 <= dec_raw b <= bonus_cap.
Proof.
  exact (calculate_bonus_total test_reserve unhealthy_obligation test_config_wf eq_refl
    (Build_thresholds_ok unhealthy_obligation ltac:(by vm_compute) ltac:(by vm_compute))).
Defined.
