(* ===== verification/ReserveLiquidation.v ===== *)
(** Liquidations: what a liquidator repays and seizes. *)

From S2P Require Import Prelude Errors Common Rate Decimal RatePow Codec LastUpdate.
From S2P Require Import ObligationCollateral ObligationLiquidity Obligation.
From S2P Require Import RateLimiter ReserveConfig ReserveConfigSpec.
From S2P Require Import ReserveLiquidity ReserveCollateral Reserve ReserveRates ReserveCalc.

(** A debt and its collateral with the signs that machine words have, and a
    collateral that is worth something only if there is some. *)
Record liquidation_input_ok (o : Obligation) (l : ObligationLiquidity)
    (c : ObligationCollateral) : Prop := {
  ok_thresholds : thresholds_ok o;
  ok_borrowed_value : 0 <= dec_raw (borrowed_value o);
  ok_debt : 0 <= dec_raw (ObligationLiquidity.borrowed_amount_wads l);
  ok_debt_value : 0 <= dec_raw (ObligationLiquidity.market_value l);
  ok_deposited : 0 <= deposited_amount c;
  ok_collateral_value : 0 <= dec_raw (ObligationCollateral.market_value c);
  ok_worthless : deposited_amount c = 0 -> dec_raw (ObligationCollateral.market_value c) = 0;
}.

(** The signs alone, which is all that the bounds on the amounts need. *)
Record liquidation_amounts_ok (o : Obligation) (l : ObligationLiquidity)
    (c : ObligationCollateral) : Prop := {
  am_borrowed_value : 0 <= dec_raw (borrowed_value o);
  am_debt : 0 <= dec_raw (ObligationLiquidity.borrowed_amount_wads l);
  am_debt_value : 0 <= dec_raw (ObligationLiquidity.market_value l);
  am_deposited : 0 <= deposited_amount c;
  am_collateral_value : 0 <= dec_raw (ObligationCollateral.market_value c);
}.

Lemma input_amounts_ok o l c : liquidation_input_ok o l c -> liquidation_amounts_ok o l c.
Proof. by intros []. Qed.

(** The most that one call may liquidate, in quote currency: 20 percent of the
    obligation's debt, the debt in this reserve, and the absolute cap. *)
Definition liquidation_limit (o : Obligation) (l : ObligationLiquidity) : Z :=
  Z.min (Z.min (dec_raw (borrowed_value o) * (LIQUIDATION_CLOSE_FACTOR * PERCENT_SCALER) / WAD)
               (dec_raw (ObligationLiquidity.market_value l)))
        (WAD * MAX_LIQUIDATABLE_VALUE_AT_ONCE).

Definition ceil_wad (x : Z) : Z := (WAD - 1 + x) / WAD.

(** The bonus is capped when it is computed, whatever the configuration. *)
Lemma calculate_bonus_range r o b :
  reserve_config_wf (config r) -> calculate_bonus r o = Ok b -> 0 <= dec_raw b <= bonus_cap.
Proof.
  intros Hwf H.
  pose proof (proj1 (wf_liquidation_bonus _ Hwf)).
  pose proof (proj1 (wf_protocol_liquidation_fee _ Hwf)).
  pose proof (div_nonneg (WAD * protocol_liquidation_fee (config r)) 1000
    ltac:(unfold WAD; lia) ltac:(lia)).
  unfold calculate_bonus in H. rewrite from_deca_bps_eq in H. cbn [obind] in H. minv H.
  unfold bonus_cap, PERCENT_SCALER in *. pose proof WAD_pos.
  destruct (dec_eqb _ _); minv H; rewrite dec_min_raw.
  - apply dec_add_inv in E as [-> _]. cbn [Decimal.from_percent dec_raw].
    unfold PERCENT_SCALER, MAX_BONUS_PCT in *. lia.
  - apply dec_sub_inv in E as [Hx Hxle], E0 as [Hy Hyle], E2 as [Hz Hzle].
    apply dec_mul_inv in E3 as [Hm _]. apply dec_add_inv in E4 as [Ha _], E5 as [-> _].
    rewrite Ha, Hm, dec_min_raw, Hz. cbn [Decimal.from_percent Decimal.one dec_raw] in *.
    assert (0 <= dec_raw v1).
    { apply unwrap_or_else_Ok_inv in E1 as [[-> [_ Hnz]]%dec_div_inv|[_ ->]]; [|done].
      apply div_nonneg; nia. }
    match goal with |- context [Z.min (dec_raw v1) WAD * ?x / WAD] =>
      assert (0 <= Z.min (dec_raw v1) WAD * x / WAD)
        by (apply div_nonneg; [apply Z.mul_nonneg_nonneg; lia|done]) end.
    unfold PERCENT_SCALER, MAX_BONUS_PCT in *. lia.
Qed.

Lemma bonus_rate_range r o b br :
  reserve_config_wf (config r) ->
  calculate_bonus r o = Ok b -> try_add b Decimal.one = Ok br ->
  WAD <= dec_raw br <= WAD + bonus_cap.
Proof.
  intros Hwf Hb%(calculate_bonus_range _ _ _ Hwf) [-> _]%dec_add_inv.
  cbn [Decimal.one dec_raw]. lia.
Qed.

Lemma max_liquidation_amount_inv o l a :
  0 <= dec_raw (borrowed_value o) ->
  0 <= dec_raw (ObligationLiquidity.borrowed_amount_wads l) ->
  0 <= dec_raw (ObligationLiquidity.market_value l) ->
  max_liquidation_amount o l = Ok a ->
  0 < dec_raw (ObligationLiquidity.market_value l) /\
  dec_raw a = dec_raw (ObligationLiquidity.borrowed_amount_wads l) *
    (liquidation_limit o l * WAD / dec_raw (ObligationLiquidity.market_value l)) / WAD /\
  0 <= liquidation_limit o l <= dec_raw (ObligationLiquidity.market_value l) /\
  0 <= dec_raw a <= dec_raw (ObligationLiquidity.borrowed_amount_wads l) /\
  dec_raw a * dec_raw (ObligationLiquidity.market_value l)
    <= dec_raw (ObligationLiquidity.borrowed_amount_wads l) * liquidation_limit o l.
Proof.
  intros Hbv Hb Hv H. unfold max_liquidation_amount in H. minv H.
  apply dec_mul_rate_inv in E as [Hc _]. apply dec_div_inv in E0 as (Hp & _ & Hnz).
  apply dec_mul_inv in H as [-> _].
  assert (Hlim : dec_raw (dec_min (dec_min v (ObligationLiquidity.market_value l))
    (from_int MAX_LIQUIDATABLE_VALUE_AT_ONCE)) = liquidation_limit o l).
  { rewrite !dec_min_raw, Hc. reflexivity. }
  rewrite Hlim in Hp.
  assert (0 <= liquidation_limit o l <= dec_raw (ObligationLiquidity.market_value l)).
  { unfold liquidation_limit, LIQUIDATION_CLOSE_FACTOR, MAX_LIQUIDATABLE_VALUE_AT_ONCE.
    assert (0 <= dec_raw (borrowed_value o) * (20 * PERCENT_SCALER) / WAD)
      by (apply div_nonneg; [unfold PERCENT_SCALER; lia|done]).
    unfold WAD in *. lia. }
  rewrite Hp. split; [lia|]. split; [done|]. split; [done|].
  pose proof (fraction_bounds (liquidation_limit o l)
    (dec_raw (ObligationLiquidity.market_value l)) ltac:(lia) ltac:(lia)) as Hf.
  split; [|apply scaled_div_le; (lia || apply WAD_pos)].
  split; [apply div_nonneg; [nia|done]|]. apply mul_div_le_self; [done|lia|done].
Qed.

Section partial.
Context (r : Reserve) (n : Z) (o : Obligation) (l : ObligationLiquidity)
  (c : ObligationCollateral) (res : CalculateLiquidationResult).
Context (Hwf : reserve_config_wf (config r)) (Hin : liquidation_amounts_ok o l c)
  (Hn : 0 <= n)
  (H : calculate_liquidation r n o l c = Ok res).
#[local] Abbreviation debt := (dec_raw (ObligationLiquidity.borrowed_amount_wads l)).
#[local] Abbreviation debt_value := (dec_raw (ObligationLiquidity.market_value l)).
#[local] Abbreviation coll_value := (dec_raw (ObligationCollateral.market_value c)).

(** The three ways a liquidation of [amount], worth [value] with its bonus,
    is settled against the collateral. *)
Lemma settle_cases (amount value : Decimal) (settle : Decimal) repay w :
  0 <= dec_raw amount -> 0 <= dec_raw value ->
  match dec_cmp value (ObligationCollateral.market_value c) with
  | Gt => exists pct, try_div (ObligationCollateral.market_value c) value = Ok pct /\
            try_mul amount pct = Ok settle /\ try_ceil_u64 settle = Ok repay /\
            w = deposited_amount c
  | Eq => settle = amount /\ try_ceil_u64 amount = Ok repay /\ w = deposited_amount c
  | Lt => settle = amount /\ try_ceil_u64 amount = Ok repay /\
            exists pct d, try_div value (ObligationCollateral.market_value c) = Ok pct /\
            try_mul (from_int (deposited_amount c)) pct = Ok d /\ try_floor_u64 d = Ok w
  end ->
  0 <= dec_raw settle <= dec_raw amount /\ repay = ceil_wad (dec_raw settle) /\
  0 <= w <= deposited_amount c /\ w * coll_value <= deposited_amount c * dec_raw value.
Proof.
  intros Ha Hval Hm. destruct Hin as [_ _ _ Hdep Hcv]. pose proof WAD_pos.
  unfold dec_cmp in Hm.
  destruct (Z.compare_spec (dec_raw value) coll_value) as [Heq|Hlt|Hgt].
  - destruct Hm as (-> & Hr & ->). apply dec_ceil_inv in Hr as [-> _].
    rewrite Heq. split_and!; try done; lia.
  - destruct Hm as (-> & Hr & pct & d & Hp & Hd & Hw).
    apply dec_ceil_inv in Hr as [-> _]. apply dec_div_inv in Hp as (Hp & _ & Hnz).
    apply dec_mul_inv in Hd as [Hd _]. apply dec_floor_inv in Hw as [-> _].
    cbn [from_int dec_raw] in Hd.
    pose proof (fraction_bounds (dec_raw value) coll_value ltac:(lia) ltac:(lia)) as Hf.
    rewrite <- Hp in Hf.
    assert (Hdw : dec_raw d = deposited_amount c * dec_raw pct).
    { rewrite Hd, (Z.mul_comm WAD), <- Z.mul_assoc, (Z.mul_comm WAD), Z.mul_assoc.
      by rewrite Z.div_mul. }
    rewrite Hdw.
    split; [lia|]. split; [done|]. split.
    + split; [apply div_nonneg; [nia|done]|]. apply mul_div_le_self; lia.
    + rewrite Hp. apply scaled_div_le; lia.
  - destruct Hm as (pct & Hp & Hs & Hr & ->).
    apply dec_div_inv in Hp as (Hp & _ & Hnz). apply dec_mul_inv in Hs as [Hs _].
    apply dec_ceil_inv in Hr as [-> _].
    pose proof (fraction_bounds coll_value (dec_raw value) ltac:(lia) ltac:(lia)) as Hf.
    rewrite <- Hp in Hf. split; [|split_and!; try done; try lia; nia].
    rewrite Hs. split; [apply div_nonneg; [nia|done]|]. apply mul_div_le_self; lia.
Qed.

Definition offer : Z := if n =? u64_max then debt else Z.min (WAD * n) debt.

Lemma partial_liquidation (Hbig : WAD < debt_value) :
  exists amount value,
    0 <= amount <= offer /\ amount * debt_value <= debt * liquidation_limit o l /\
    0 <= value /\ value * WAD <= liquidation_limit o l * dec_raw (bonus_rate res) /\
    0 <= dec_raw (settle_amount res) <= amount /\
    repay_amount res = ceil_wad (dec_raw (settle_amount res)) /\
    0 <= withdraw_amount res <= deposited_amount c /\
    withdraw_amount res * coll_value <= deposited_amount c * value /\
    WAD <= dec_raw (bonus_rate res) <= WAD + bonus_cap.
Proof.
  pose proof Hin as [Hbv Hb Hlv Hdep Hcv]. pose proof WAD_pos as HW.
  unfold calculate_liquidation in H. minv H. rename v into b, v0 into br.
  pose proof (bonus_rate_range r o b br Hwf E E0) as Hbr.
  unfold dec_le in H. cbn [Decimal.one dec_raw] in H.
  destruct (Z.leb_spec debt_value WAD); [lia|]. minv H.
  apply max_liquidation_amount_inv in E1 as (_ & Hmax & Hlim & Hmb & Hmv); [|done..].
  set (maxa := if n =? u64_max then ObligationLiquidity.borrowed_amount_wads l
    else dec_min (from_int n) (ObligationLiquidity.borrowed_amount_wads l)) in *.
  assert (Hoffer : dec_raw maxa = offer).
  { unfold maxa, offer. destruct (n =? u64_max); [reflexivity|]. rewrite dec_min_raw. reflexivity. }
  assert (0 <= offer <= debt) by (unfold offer; destruct (n =? u64_max); unfold WAD in *; lia).
  pose proof (dec_min_raw v maxa) as Hamt. rewrite Hoffer in Hamt.
  set (amt := dec_min v maxa) in *.
  apply dec_div_inv in E2 as (Hpct & _ & Hd0). apply dec_mul_inv in E3 as [Hv1 _].
  apply dec_mul_inv in E4 as [Hv2 _].
  assert (Ha : 0 <= dec_raw amt <= debt) by lia.
  pose proof (fraction_bounds (dec_raw amt) debt Ha ltac:(lia)) as Hf.
  rewrite <- Hpct in Hf.
  assert (0 <= dec_raw v1) by (rewrite Hv1; apply div_nonneg; nia).
  assert (0 <= dec_raw v2) by (rewrite Hv2; apply div_nonneg; nia).
  assert (Hlimit : dec_raw v1 <= liquidation_limit o l).
  { assert (dec_raw v0 <= liquidation_limit o l * WAD / debt_value).
    { rewrite Hpct. apply Z.div_le_upper_bound; [lia|].
      pose proof (div_mul_le_l (debt * (liquidation_limit o l * WAD / debt_value)) WAD HW).
      rewrite <- Hmax in *. nia. }
    rewrite Hv1. apply Z.div_le_upper_bound; [done|].
    pose proof (div_mul_le_l (liquidation_limit o l * WAD) debt_value ltac:(lia)). nia. }
  assert (Hval : dec_raw v2 * WAD <= liquidation_limit o l * dec_raw br).
  { rewrite Hv2. pose proof (div_mul_le_l (dec_raw v1 * dec_raw br) WAD HW). nia. }
  exists (dec_raw amt), (dec_raw v2).
  assert (Hamtv : dec_raw amt * debt_value <= debt * liquidation_limit o l) by nia.
  assert (Hcases : bonus_rate res = br /\
    (0 <= dec_raw (settle_amount res) <= dec_raw amt /\
     repay_amount res = ceil_wad (dec_raw (settle_amount res)) /\
     0 <= withdraw_amount res <= deposited_amount c /\
     withdraw_amount res * coll_value <= deposited_amount c * dec_raw v2)).
  { destruct (dec_cmp v2 (ObligationCollateral.market_value c)) eqn:Hcmp; minv H;
      (split; [done|]); cbn [settle_amount repay_amount withdraw_amount];
      (eapply (settle_cases amt v2); [lia|lia|]); rewrite Hcmp; eauto 10. }
  destruct Hcases as (-> & Hs & Hr & Hw & Hwv). split_and!; lia.
Qed.
End partial.

(** C25: a partial liquidation (of a debt worth more than one) is bounded on both
    sides.  The liquidator settles at most the debt and at most the offer; pays
    the settled amount rounded up; the settled part of the debt is worth at most
    20 percent of the obligation's debt, and 500,000; the seized collateral is
    at most what was deposited, worth at most the bonus rate times that limit;
    and the bonus rate lies between 1 and 1.25. *)
Theorem partial_liquidation_bounded (r : Reserve) (n : Z) (o : Obligation)
    (l : ObligationLiquidity) (c : ObligationCollateral) (res : CalculateLiquidationResult)
    (Hwf : reserve_config_wf (config r)) (Hv : validate_reserve_config (config r) = Ok tt)
    (Hin : liquidation_input_ok o l c) (Hn : 0 <= n)
    (Hbig : WAD < dec_raw (ObligationLiquidity.market_value l))
    (H : calculate_liquidation r n o l c = Ok res) :
  let debt := dec_raw (ObligationLiquidity.borrowed_amount_wads l) in
  let settle := dec_raw (settle_amount res) in
  0 <= settle <= (if n =? u64_max then debt else Z.min (WAD * n) debt) /\
  repay_amount res = (WAD - 1 + settle) / WAD /\
  settle * dec_raw (ObligationLiquidity.market_value l) <= debt * liquidation_limit o l /\
  0 <= withdraw_amount res <= deposited_amount c /\
  withdraw_amount res * dec_raw (ObligationCollateral.market_value c) * WAD
    <= deposited_amount c * (liquidation_limit o l * dec_raw (bonus_rate res)) /\
  WAD <= dec_raw (bonus_rate res) <= WAD + bonus_cap.
Proof.
  apply validate_sound in Hv. cbn zeta.
  destruct (partial_liquidation r n o l c res Hwf (input_amounts_ok _ _ _ Hin) Hn H Hbig)
    as (amount & value & Ha & Hav & Hval & Hvl & Hs & Hr & Hw & Hwv & Hbr).
  unfold offer in Ha. destruct Hin. split_and!; try lia; try done.
  - nia.
  - assert (withdraw_amount res * dec_raw (ObligationCollateral.market_value c) * WAD
      <= deposited_amount c * value * WAD) by (apply Z.mul_le_mono_nonneg_r; [done|lia]).
    assert (deposited_amount c * (value * WAD)
      <= deposited_amount c * (liquidation_limit o l * dec_raw (bonus_rate res)))
      by (apply Z.mul_le_mono_nonneg_l; lia). lia.
Qed.

Definition test_debt : ObligationLiquidity :=
  mkObligationLiquidity 21 Decimal.one (from_int 60000000) (from_int 60).
Definition test_collateral : ObligationCollateral :=
  mkObligationCollateral 20 1000000 (from_int 100).

Lemma test_liquidation_ok :
  liquidation_input_ok unhealthy_obligation test_debt test_collateral.
Proof. split; [split|..]; vm_compute; congruence. Qed.

Lemma partial_liquidation_bounded_witness :
  exists res, calculate_liquidation test_reserve u64_max unhealthy_obligation test_debt
    test_collateral = Ok res /\
    0 <= dec_raw (settle_amount res) <= dec_raw (from_int 60000000).
Proof.
  destruct (calculate_liquidation test_reserve u64_max unhealthy_obligation test_debt
    test_collateral) as [res| |] eqn:H; [|vm_compute in H; discriminate..].
  exists res. split; [reflexivity|].
  exact (proj1 (partial_liquidation_bounded test_reserve u64_max unhealthy_obligation test_debt
    test_collateral res test_config_wf eq_refl test_liquidation_ok
    ltac:(by vm_compute) ltac:(by vm_compute) H)).
Defined.

(** A debt worth at most one is closed out whatever the liquidator offers:
    the result does not depend on [amount_to_liquidate], so the repayment can
    exceed the offer.  The settled amount is within the debt (and all of it when
    the collateral covers the debt with its bonus), the payment is its ceiling,
    and the seizure, raised to one token if it rounds to none, is still within
    the deposit. *)
Theorem dust_liquidation_ignores_offer (r : Reserve) (n : Z) (o : Obligation)
    (l : ObligationLiquidity) (c : ObligationCollateral)
    (Hin : liquidation_input_ok o l c) (Hwf : reserve_config_wf (config r))
    (Hv : validate_reserve_config (config r) = Ok tt)
    (Hdust : dec_raw (ObligationLiquidity.market_value l) <= WAD) :
  (forall m, calculate_liquidation r m o l c = calculate_liquidation r n o l c) /\
  forall res, calculate_liquidation r n o l c = Ok res ->
    0 <= dec_raw (settle_amount res)
      <= dec_raw (ObligationLiquidity.borrowed_amount_wads l) /\
    repay_amount res = (WAD - 1 + dec_raw (settle_amount res)) / WAD /\
    0 <= withdraw_amount res <= deposited_amount c /\
    (dec_raw (ObligationLiquidity.market_value l) * dec_raw (bonus_rate res) / WAD
       <= dec_raw (ObligationCollateral.market_value c) ->
     settle_amount res = ObligationLiquidity.borrowed_amount_wads l).
Proof.
  apply validate_sound in Hv. unfold calculate_liquidation.
  assert (Hle : dec_le (ObligationLiquidity.market_value l) Decimal.one = true).
  { unfold dec_le. cbn [Decimal.one dec_raw]. lia. }
  rewrite Hle. split; [done|]. intros res H. minv H.
  pose proof (bonus_rate_range r o v v0 Hwf E E0) as Hbr.
  pose proof Hin as [_ _ Hb Hlv Hdep Hcv Hworth].
  pose proof WAD_pos as HW. apply dec_mul_inv in E1 as [Hval _].
  assert (0 <= dec_raw v1) by (rewrite Hval; apply div_nonneg; nia).
  pose proof (settle_cases o l c (input_amounts_ok _ _ _ Hin) (ObligationLiquidity.borrowed_amount_wads l) v1) as Hcases.
  unfold dec_cmp in *.
  destruct (Z.compare_spec (dec_raw v1) (dec_raw (ObligationCollateral.market_value c)))
    as [Heq|Hlt|Hgt]; minv H; cbn [settle_amount repay_amount withdraw_amount bonus_rate].
  - apply dec_ceil_inv in E1 as [-> _]. split_and!; (lia || done).
  - pose proof E2 as [Hrep _]%dec_ceil_inv.
    assert (deposited_amount c <> 0) by (intros Hz; specialize (Hworth Hz); lia).
    destruct (Hcases (ObligationLiquidity.borrowed_amount_wads l) v3 v5) as (Hs & _ & Hw & _);
      [lia|lia|eauto 10|].
    split_and!; (lia || done).
  - destruct (Hcases v3 v4 (deposited_amount c)) as (Hs & Hr & _); [lia|lia|eauto 10|].
    split_and!; try (lia || done).
Qed.

Definition dust_debt : ObligationLiquidity :=
  mkObligationLiquidity 21 Decimal.one (from_int 900000) (mkDecimal (9 * WAD / 10)).

Lemma dust_ok : liquidation_input_ok unhealthy_obligation dust_debt test_collateral.
Proof. split; [split|..]; vm_compute; congruence. Qed.

Lemma dust_liquidation_ignores_offer_witness :
  exists res, calculate_liquidation test_reserve 1 unhealthy_obligation dust_debt
    test_collateral = Ok res /\ repay_amount res = 900000 /\
    settle_amount res = from_int 900000.
Proof.
  eexists. split; [vm_compute; reflexivity|]. split; [reflexivity|].
  refine (proj2 (proj2 (proj2 (proj2 (dust_liquidation_ignores_offer test_reserve 1
    unhealthy_obligation dust_debt test_collateral dust_ok test_config_wf eq_refl _) _ _))) _);
    vm_compute; congruence.
Defined.

(** ** The bounds of any liquidation *)

Lemma dust_liquidation (r : Reserve) (n : Z) (o : Obligation) (l : ObligationLiquidity)
    (c : ObligationCollateral) (res : CalculateLiquidationResult) :
  reserve_config_wf (config r) -> liquidation_amounts_ok o l c ->
  dec_raw (ObligationLiquidity.market_value l) <= WAD ->
  calculate_liquidation r n o l c = Ok res ->
  0 <= dec_raw (settle_amount res) <= dec_raw (ObligationLiquidity.borrowed_amount_wads l) /\
  repay_amount res = ceil_wad (dec_raw (settle_amount res)) /\ 0 <= withdraw_amount res /\
  WAD <= dec_raw (bonus_rate res) <= WAD + bonus_cap /\
  (withdraw_amount res = 1 \/
   withdraw_amount res * dec_raw (ObligationCollateral.market_value c)
     <= deposited_amount c *
        (dec_raw (ObligationLiquidity.market_value l) * dec_raw (bonus_rate res) / WAD)).
Proof.
  intros Hwf Hin Hdust H. unfold calculate_liquidation in H. minv H.
  pose proof (bonus_rate_range r o v v0 Hwf E E0) as Hbr.
  pose proof Hin as [_ Hb Hlv Hdep Hcv]. pose proof WAD_pos as HW.
  unfold dec_le in H. cbn [Decimal.one dec_raw] in H.
  destruct (Z.leb_spec (dec_raw (ObligationLiquidity.market_value l)) WAD); [|lia]. minv H.
  apply dec_mul_inv in E1 as [Hval _].
  assert (0 <= dec_raw v1) by (rewrite Hval; apply div_nonneg; nia).
  pose proof (settle_cases o l c Hin (ObligationLiquidity.borrowed_amount_wads l) v1) as Hcases.
  destruct (dec_cmp v1 (ObligationCollateral.market_value c)) eqn:Hc; minv H;
    cbn [settle_amount repay_amount withdraw_amount bonus_rate].
  - destruct (Hcases (ObligationLiquidity.borrowed_amount_wads l) v2 (deposited_amount c))
      as (Hs & Hr & Hw & Hwv); [done|done|by split_and!|]. rewrite <- Hval. auto 10 with lia.
  - destruct (Hcases (ObligationLiquidity.borrowed_amount_wads l) v3 v5)
      as (Hs & Hr & Hw & Hwv); [done|done|eauto 10|]. rewrite <- Hval.
    split_and!; try (done || lia).
  - destruct (Hcases v3 v4 (deposited_amount c)) as (Hs & Hr & Hw & Hwv); [done|done|eauto 10|].
    rewrite <- Hval. auto 10 with lia.
Qed.

(** What bounds a liquidation: of a debt worth more than one, the offer and the close
    factor; of the rest, which are closed out, the debt alone, and the collateral's worth
    but for a single token. *)
Record liquidation_bounds (n : Z) (o : Obligation) (l : ObligationLiquidity)
    (c : ObligationCollateral) (res : CalculateLiquidationResult) : Prop := {
  lb_bonus : WAD <= dec_raw (bonus_rate res) <= WAD + bonus_cap;
  lb_settle :
    0 <= dec_raw (settle_amount res) <= dec_raw (ObligationLiquidity.borrowed_amount_wads l);
  lb_repay : repay_amount res = ceil_wad (dec_raw (settle_amount res));
  lb_withdraw : 0 <= withdraw_amount res;
  lb_partial : WAD < dec_raw (ObligationLiquidity.market_value l) ->
    dec_raw (settle_amount res) <= offer n l /\
    dec_raw (settle_amount res) * dec_raw (ObligationLiquidity.market_value l)
      <= dec_raw (ObligationLiquidity.borrowed_amount_wads l) * liquidation_limit o l /\
    withdraw_amount res * dec_raw (ObligationCollateral.market_value c) * WAD
      <= deposited_amount c * (liquidation_limit o l * dec_raw (bonus_rate res));
  lb_dust : dec_raw (ObligationLiquidity.market_value l) <= WAD ->
    withdraw_amount res = 1 \/
    withdraw_amount res * dec_raw (ObligationCollateral.market_value c)
      <= deposited_amount c *
         (dec_raw (ObligationLiquidity.market_value l) * dec_raw (bonus_rate res) / WAD);
}.

Lemma calculate_liquidation_bounds (r : Reserve) (n : Z) (o : Obligation)
    (l : ObligationLiquidity) (c : ObligationCollateral) (res : CalculateLiquidationResult) :
  reserve_config_wf (config r) -> liquidation_amounts_ok o l c -> 0 <= n ->
  calculate_liquidation r n o l c = Ok res -> liquidation_bounds n o l c res.
Proof.
  intros Hwf Hin Hn H. pose proof Hin as [_ Hb Hlv Hdep Hcv].
  destruct (Z.le_gt_cases (dec_raw (ObligationLiquidity.market_value l)) WAD) as [Hle|Hgt].
  - destruct (dust_liquidation r n o l c res Hwf Hin Hle H) as (? & ? & ? & ? & ?).
    split; try done. lia.
  - destruct (partial_liquidation r n o l c res Hwf Hin Hn H Hgt)
      as (amount & value & Ha & Hav & Hval & Hvl & Hs & Hr & Hw & Hwv & Hbr).
    assert (offer n l <= dec_raw (ObligationLiquidity.borrowed_amount_wads l))
      by (unfold offer; case_match; lia).
    split; try (done || lia). intros _. split; [lia|]. split; [nia|].
    transitivity (deposited_amount c * value * WAD); [|nia].
    by apply Z.mul_le_mono_nonneg_r.
Qed.

(** The protocol's cut of a liquidation always exists and is at least one
    token, and at most the fee rate (5 percent) of the seized amount rounded up,
    so it never exceeds the seized amount: paying it out cannot underflow. *)
Theorem protocol_fee_bounded (r : Reserve) (n : Z) (bonus : Decimal)
    (Hwf : reserve_config_wf (config r)) (Hv : validate_reserve_config (config r) = Ok tt)
    (Hn : is_u64 n) (Hpos : 0 < n) (Hb : WAD <= dec_raw bonus) :
  exists fee, calculate_protocol_liquidation_fee r n bonus = Ok fee /\
    1 <= fee <= n /\ fee <= Z.max 1 (ceil_wad (WAD * n / 20)).
Proof.
  apply validated_sound, valid_protocol_fee in Hv.
  pose proof (proj1 (wf_protocol_liquidation_fee _ Hwf)) as Hf.
  unfold calculate_protocol_liquidation_fee, MAX_PROTOCOL_LIQUIDATION_FEE_DECA_BPS in *.
  unfold in_uint in Hn. pose proof WAD_pos as HW.
  assert (HW60 : WAD < 2 ^ 60) by reflexivity.
  rewrite dec_div_ok by (cbn [from_int dec_raw]; nia). mred. cbn [from_int dec_raw].
  assert (Hx : 0 <= WAD * n * WAD / dec_raw bonus <= WAD * n).
  { split; [apply div_nonneg; nia|]. apply Z.div_le_upper_bound; nia. }
  set (x := WAD * n * WAD / dec_raw bonus) in *.
  rewrite from_deca_bps_eq. mred.
  assert (Hfee : 0 <= WAD * protocol_liquidation_fee (config r) / 1000 <= WAD / 20).
  { split; [apply div_nonneg; lia|]. change (WAD / 20) with (WAD * 50 / 1000).
    apply Z.div_le_mono; [lia|]. apply Z.mul_le_mono_nonneg_l; lia. }
  set (f := WAD * protocol_liquidation_fee (config r) / 1000) in *.
  assert (Hxf : 0 <= x * f <= WAD * n * (WAD / 20)) by (apply mul_le_bound; lia).
  rewrite dec_mul_ok by (cbn [dec_raw]; change (WAD / 20) with 50000000000000000 in *; nia).
  mred. cbn [dec_raw].
  assert (Hy : 0 <= x * f / WAD <= WAD * n / 20).
  { split; [apply div_nonneg; lia|]. apply Z.div_le_upper_bound; [done|].
    change (WAD / 20) with 50000000000000000 in *. unfold WAD in *.
    replace (1000000000000000000 * n / 20) with (50000000000000000 * n); [lia|].
    replace (1000000000000000000 * n) with (50000000000000000 * n * 20) by lia.
    by rewrite Z.div_mul. }
  assert (Hc1 : (WAD - 1 + x * f / WAD) / WAD <= ceil_wad (WAD * n / 20))
    by (apply Z.div_le_mono; lia).
  assert (Hc2 : ceil_wad (WAD * n / 20) <= n).
  { unfold ceil_wad. apply Z.lt_succ_r, Z.div_lt_upper_bound; [done|].
    assert (WAD * n / 20 <= WAD * n) by (apply div_le_self; nia). lia. }
  rewrite dec_ceil_ok by (cbn [dec_raw]; lia). mred. cbn [dec_raw].
  eexists. split; [done|]. lia.
Qed.

Lemma protocol_fee_bounded_witness :
  exists fee, calculate_protocol_liquidation_fee test_reserve 1000
    (mkDecimal (WAD + WAD / 10)) = Ok fee /\ 1 <= fee <= 1000.
Proof.
  destruct (protocol_fee_bounded test_reserve 1000 (mkDecimal (WAD + WAD / 10)) test_config_wf
    eq_refl ltac:(by vm_compute) ltac:(lia) ltac:(by vm_compute)) as (fee & Hf & Hr & _).
  exists fee. split; [exact Hf | exact Hr].
Defined.

(** Collecting fees is exact and never fails once computed.  Redeeming the
    amount [calculate_redeem_fees] returns succeeds, takes it from the available
    liquidity and from the accumulated fees alike, leaves the depositors' supply
    untouched, and stops only when less than one token of fees or no liquidity
    is left. *)
Theorem redeem_fees_exact (r : Reserve) (n : Z)
    (Ha : 0 <= available_amount (liquidity r))
    (Hf : 0 <= dec_raw (accumulated_protocol_fees_wads (liquidity r)))
    (H : calculate_redeem_fees r = Ok n) :
  exists l, redeem_fees (liquidity r) n = Ok l /\ 0 <= n /\
    raw_supply l = raw_supply (liquidity r) /\
    available_amount l = available_amount (liquidity r) - n /\
    dec_raw (accumulated_protocol_fees_wads l)
      = dec_raw (accumulated_protocol_fees_wads (liquidity r)) - WAD * n /\
    (0 <= dec_raw (accumulated_protocol_fees_wads l) < WAD \/ available_amount l = 0).
Proof.
  unfold calculate_redeem_fees in H. minv H.
  apply dec_floor_inv in E as [-> _]. pose proof WAD_pos as HW.
  set (f := dec_raw (accumulated_protocol_fees_wads (liquidity r))) in *.
  pose proof (div_mul_le_l f WAD HW). pose proof (div_mul_gt f WAD HW).
  pose proof (div_nonneg f WAD Hf HW).
  set (m := Z.min (available_amount (liquidity r)) (f / WAD)).
  assert (m <= available_amount (liquidity r) /\ m <= f / WAD) as [Hm1 Hm2] by lia.
  unfold redeem_fees. rewrite checked_sub_Some by done. mred.
  rewrite dec_sub_ok by (cbn [from_int dec_raw]; fold f; nia). mred.
  eexists. split; [done|]. unfold raw_supply.
  cbn [set_debt set_amounts available_amount ReserveLiquidity.borrowed_amount_wads
    accumulated_protocol_fees_wads from_int dec_raw]. fold f.
  split_and!; try lia.
Qed.

Lemma redeem_fees_exact_witness :
  exists l, calculate_redeem_fees test_reserve = Ok 0 /\
    redeem_fees (liquidity test_reserve) 0 = Ok l /\
    raw_supply l = raw_supply (liquidity test_reserve).
Proof.
  assert (H : calculate_redeem_fees test_reserve = Ok 0) by (vm_compute; reflexivity).
  destruct (redeem_fees_exact test_reserve 0 ltac:(by vm_compute) ltac:(by vm_compute) H)
    as (l & Hl & _ & Hs & _).
  exists l. split; [exact H|]. split; [exact Hl | exact Hs].
Defined.
