(* ===== verification/ObligationWithdraw.v ===== *)
(** state/obligation.rs: the largest withdrawal that keeps the borrower's
    headroom, [Obligation::max_withdraw_amount]. *)

From S2P Require Import Prelude Errors Common Rate Decimal RatePow Codec LastUpdate.
From S2P Require Import ObligationCollateral ObligationLiquidity Obligation.
From S2P Require Import RateLimiter ReserveConfig ReserveConfigSpec.
From S2P Require Import ReserveLiquidity ReserveCollateral Reserve ReserveRates ReserveExchange.
From S2P Require Import ReserveCalc.

Definition max_withdraw_amount (self : Obligation) (collateral : ObligationCollateral)
    (withdraw_reserve : Reserve) : result Z :=
  if (length (borrows self) =? 0)%nat then Ok (deposited_amount collateral)
  else if dec_le (allowed_borrow_value self) (borrowed_value_upper_bound self) then Ok 0
  else
    let loan_to_value_ratio := Reserve.loan_to_value_ratio withdraw_reserve in
    if rate_eqb loan_to_value_ratio Rate.zero then Ok (deposited_amount collateral)
    else
      let? room := try_sub (allowed_borrow_value self) (borrowed_value_upper_bound self) in
      let? max_withdraw_value := try_div room loan_to_value_ratio in
      let price := dec_min (market_price (liquidity withdraw_reserve))
                           (smoothed_market_price (liquidity withdraw_reserve)) in
      let? decimals := math (checked_pow 64 10 (mint_decimals (liquidity withdraw_reserve))) in
      let? v := try_mul max_withdraw_value decimals in
      let? max_withdraw_liquidity_amount := try_div v price in
      let? rate := collateral_exchange_rate withdraw_reserve in
      let? c := decimal_liquidity_to_collateral rate max_withdraw_liquidity_amount in
      let? n := try_floor_u64 c in
      Ok (Z.min n (deposited_amount collateral)).

Definition price_lower (r : Reserve) : Z :=
  Z.min (dec_raw (market_price (liquidity r))) (dec_raw (smoothed_market_price (liquidity r))).

(** [a * w * w <= l * q], [l * p <= m * d * w], [m * t <= x * w]: the amount
    [a], priced and weighted, fits in the room [x]. *)
Lemma chain_of_floors (a w l q p m d t x : Z) :
  0 < w -> 0 <= q -> 0 <= p -> 0 <= d -> 0 <= t ->
  a * w * w <= l * q -> l * p <= m * d * w -> m * t <= x * w ->
  a * p * t <= q * d * x.
Proof.
  intros Hw Hq Hp Hd Ht H1 H2 H3.
  apply (Z.mul_le_mono_pos_r _ _ (w * w)); [nia|].
  assert (a * w * w * (p * t) <= l * q * (p * t)) by (apply Z.mul_le_mono_nonneg_r; [nia|done]).
  assert (l * p * (q * t) <= m * d * w * (q * t)) by (apply Z.mul_le_mono_nonneg_r; [nia|done]).
  assert (m * t * (d * w * q) <= x * w * (d * w * q))
    by (apply Z.mul_le_mono_nonneg_r; [nia|done]).
  lia.
Qed.

(** The bounds of [max_withdraw_amount]; [max_withdraw_amount_safe] states them. *)
Lemma max_withdraw_bounds (o : Obligation) (c : ObligationCollateral) (r : Reserve)
    (n : Z) (Hc : 0 <= deposited_amount c) (Hd : 0 <= mint_decimals (liquidity r))
    (Hltv : 0 <= ReserveConfig.loan_to_value_ratio (config r))
    (Hp : 0 <= price_lower r) (Hok : 0 <= ctokens r)
    (H : max_withdraw_amount o c r = Ok n) :
  0 <= n <= deposited_amount c /\
  (borrows o = [] -> n = deposited_amount c) /\
  (borrows o <> [] -> ReserveConfig.loan_to_value_ratio (config r) <> 0 ->
     let room := dec_raw (allowed_borrow_value o) - dec_raw (borrowed_value_upper_bound o) in
     (room <= 0 -> n = 0) /\
     forall e, collateral_exchange_rate r = Ok e -> 0 < room ->
       n * price_lower r * (ReserveConfig.loan_to_value_ratio (config r) * PERCENT_SCALER)
         <= rate_raw (exchange_rate_inner e) * 10 ^ mint_decimals (liquidity r) * room).
Proof.
  unfold max_withdraw_amount in H.
  destruct (Nat.eqb_spec (length (borrows o)) 0) as [Hl|Hl].
  { apply nil_length_inv in Hl. minv H. split; [lia|]. split; [done|]. by intros []. }
  assert (Hb : borrows o <> []) by (intros Hb; by rewrite Hb in Hl).
  unfold dec_le, rate_eqb in H.
  destruct (Z.leb_spec (dec_raw (allowed_borrow_value o)) (dec_raw (borrowed_value_upper_bound o))).
  { minv H. split; [lia|]. split; [done|]. cbn zeta. intros _ _. split; [done|]. intros; lia. }
  cbn [Reserve.loan_to_value_ratio Rate.zero rate_raw] in H.
  destruct (Z.eqb_spec (rate_raw (Reserve.loan_to_value_ratio r)) 0) as [Hz|Hz].
  { minv H. split; [lia|]. split; [done|]. intros _ Hl0. exfalso. apply Hl0.
    unfold Reserve.loan_to_value_ratio in Hz. cbn in Hz. unfold PERCENT_SCALER in Hz. lia. }
  minv H. apply dec_sub_inv in E as [Hroom _]. apply dec_div_rate_inv in E0 as (Hval & _ & _).
  apply math_Ok_inv, checked_pow_Some_inv in E1 as [-> _].
  apply dec_mul_u64_inv in E2 as [Hm _]. apply dec_div_inv in E3 as (Hliq & _ & Hnz).
  apply dec_mul_rate_inv in E5 as [Hcol _]. apply dec_floor_inv in E6 as [-> _].
  rewrite dec_min_raw in *. fold (price_lower r) in *.
  cbn [Reserve.loan_to_value_ratio Rate.from_percent rate_raw] in *.
  set (ltv := ReserveConfig.loan_to_value_ratio (config r) * PERCENT_SCALER) in *.
  change (rate_raw (Reserve.loan_to_value_ratio r)) with ltv in *.
  assert (0 <= ltv) by (unfold ltv, PERCENT_SCALER; lia).
  pose proof WAD_pos as HW.
  assert (Hpow : 0 < 10 ^ mint_decimals (liquidity r)) by (apply Z.pow_pos_nonneg; lia).
  apply collateral_exchange_rate_inv in E4 as Hrate. cbn zeta in Hrate.
  assert (Hq : 0 <= rate_raw (exchange_rate_inner v4)).
  { destruct Hrate as [Hs [[_ ->]|(_ & _ & ->)]]; [lia|].
    apply Z_div_nonneg_nonneg; unfold WAD in *; lia. }
  assert (Hvp : 0 <= dec_raw v0) by (rewrite Hval, Hroom; apply div_nonneg; nia).
  assert (Hlp : 0 <= dec_raw v3) by (rewrite Hliq, Hm; apply div_nonneg; nia).
  assert (Hcp : 0 <= dec_raw v5) by (rewrite Hcol; apply div_nonneg; nia).
  pose proof (div_nonneg (dec_raw v5) WAD Hcp HW).
  split; [lia|]. split; [done|]. intros _ _. cbn zeta. rewrite <- Hroom.
  split; [lia|]. intros e He _. rewrite E4 in He. injection He as <-.
  pose proof (div_mul_le_l (dec_raw v5) WAD HW).
  pose proof (div_mul_le_l (dec_raw v3 * rate_raw (exchange_rate_inner v4)) WAD HW) as Hf2.
  rewrite <- Hcol in Hf2.
  pose proof (div_mul_le_l (dec_raw v2 * WAD) (price_lower r) ltac:(lia)) as Hf3.
  rewrite <- Hliq, Hm in Hf3.
  pose proof (div_mul_le_l (dec_raw v * WAD) ltv ltac:(lia)) as Hf4. rewrite <- Hval in Hf4.
  apply (chain_of_floors _ WAD (dec_raw v3) _ _ (dec_raw v0)); try lia; nia.
Qed.

(** C31: the largest withdrawal never exceeds the deposit, is the whole deposit when
    nothing is borrowed or the collateral counts for nothing, is zero without
    headroom, and otherwise leaves the obligation within its limit: the
    collateral withdrawn, converted to liquidity, priced at the lower price and
    weighted by the loan-to-value ratio, is worth at most the headroom
    [allowed_borrow_value - borrowed_value_upper_bound]. *)
Theorem max_withdraw_amount_safe (o : Obligation) (c : ObligationCollateral) (r : Reserve)
    (n : Z) (Hc : 0 <= deposited_amount c) (Hd : 0 <= mint_decimals (liquidity r))
    (Hltv : 0 <= ReserveConfig.loan_to_value_ratio (config r))
    (Hp : 0 <= price_lower r) (Hok : 0 <= ctokens r)
    (H : max_withdraw_amount o c r = Ok n) :
  0 <= n <= deposited_amount c /\
  (borrows o = [] -> n = deposited_amount c) /\
  (borrows o <> [] -> ReserveConfig.loan_to_value_ratio (config r) <> 0 ->
     let room := dec_raw (allowed_borrow_value o) - dec_raw (borrowed_value_upper_bound o) in
     (room <= 0 -> n = 0) /\
     forall e, collateral_exchange_rate r = Ok e -> 0 < room ->
       n * price_lower r * (ReserveConfig.loan_to_value_ratio (config r) * PERCENT_SCALER)
         <= rate_raw (exchange_rate_inner e) * 10 ^ mint_decimals (liquidity r) * room).
Proof. by apply max_withdraw_bounds. Qed.

Definition healthy_obligation : Obligation :=
  mkObligation 1 (LastUpdate.new 7) 10 77
    [mkObligationCollateral 20 1000000 (from_int 100)]
    [mkObligationLiquidity 21 Decimal.one (from_int 30000000) (from_int 30)]
    (from_int 100) (from_int 30) (from_int 30) (from_int 50) (from_int 55)
    (from_int 60) false.

Lemma max_withdraw_amount_safe_witness :
  max_withdraw_amount healthy_obligation (mkObligationCollateral 20 90000000 (from_int 90))
    test_reserve = Ok 40000000 /\ 0 <= 40000000 <= 90000000.
Proof.
  assert (H : max_withdraw_amount healthy_obligation
    (mkObligationCollateral 20 90000000 (from_int 90)) test_reserve = Ok 40000000)
    by (vm_compute; reflexivity).
  split; [exact H|].
  refine (proj1 (max_withdraw_amount_safe healthy_obligation
    (mkObligationCollateral 20 90000000 (from_int 90)) test_reserve 40000000 _ _ _ _ _ H));
    by vm_compute.
Defined.
