(* ===== verification/LendingMarket.v ===== *)
(** state/lending_market.rs and state/lending_market_metadata.rs, and that the packed
    form of a lending market reads back. *)

From S2P Require Import Prelude Errors Common Rate Decimal Codec RateLimiter.
From S2P Require Import RateLimiterSpec.

(** Lending market state. *)
Record LendingMarket : Type := mkLendingMarket {
  version : Z;
  bump_seed : Z;
  owner : Pubkey;
  quote_currency : bytes;
  token_program_id : Pubkey;
  oracle_program_id : Pubkey;
  switchboard_oracle_program_id : Pubkey;
  rate_limiter : RateLimiter;
  whitelisted_liquidator : option Pubkey;
  risk_authority : Pubkey;
}.

(** Initialize a lending market. *)
Record InitLendingMarketParams : Type := mkInitLendingMarketParams {
  init_bump_seed : Z;
  init_owner : Pubkey;
  init_quote_currency : bytes;
  init_token_program_id : Pubkey;
  init_oracle_program_id : Pubkey;
  init_switchboard_oracle_program_id : Pubkey;
}.

Definition init (params : InitLendingMarketParams) : LendingMarket :=
  mkLendingMarket PROGRAM_VERSION (init_bump_seed params) (init_owner params)
    (init_quote_currency params) (init_token_program_id params)
    (init_oracle_program_id params) (init_switchboard_oracle_program_id params)
    RateLimiter.default None (init_owner params).

Definition is_initialized (self : LendingMarket) : bool :=
  negb (version self =? UNINITIALIZED_VERSION).

Definition set_rate_limiter (self : LendingMarket) (r : RateLimiter) : LendingMarket :=
  mkLendingMarket (version self) (bump_seed self) (owner self) (quote_currency self)
    (token_program_id self) (oracle_program_id self) (switchboard_oracle_program_id self)
    r (whitelisted_liquidator self) (risk_authority self).

(** ** Packed layout *)

Definition LENDING_MARKET_LEN : nat := 290.
Definition lending_market_widths : list nat :=
  [1; 1; 32; 32; 32; 32; 32; 56; 32; 32; 8]%nat.

Definition pack_into_slice (self : LendingMarket) (output : bytes) : result bytes :=
  if (length output <? LENDING_MARKET_LEN)%nat then Panic
  else
    let old := field_at lending_market_widths in
    let? rate_limiter := RateLimiter.pack_into_slice (rate_limiter self) (old 7%nat output) in
    Ok (concat
          [to_le_bytes 1 (version self);
           to_le_bytes 1 (bump_seed self);
           pubkey_to_bytes (owner self);
           quote_currency self;
           pubkey_to_bytes (token_program_id self);
           pubkey_to_bytes (oracle_program_id self);
           pubkey_to_bytes (switchboard_oracle_program_id self);
           rate_limiter;
           match whitelisted_liquidator self with
           | Some pubkey => pubkey_to_bytes pubkey
           | None => zero_bytes 32
           end;
           pubkey_to_bytes (risk_authority self);
           old 10%nat output]
        ++ drop LENDING_MARKET_LEN output).

Definition unpack_from_slice (input : bytes) : result LendingMarket :=
  if (length input <? LENDING_MARKET_LEN)%nat then Panic
  else
    match array_refs lending_market_widths (take LENDING_MARKET_LEN input) with
    | [version; bump_seed; owner; quote_currency; token_program_id; oracle_program_id;
       switchboard_oracle_program_id; rate_limiter; whitelisted_liquidator; risk_authority;
       _padding] =>
        let version := from_le_bytes version in
        reject_if PROGRAM_VERSION <? version with InvalidAccountData then
        let owner_pubkey := pubkey_from_bytes owner in
        let? rate_limiter := RateLimiter.unpack_from_slice rate_limiter in
        Ok (mkLendingMarket version (from_le_bytes bump_seed) owner_pubkey quote_currency
              (pubkey_from_bytes token_program_id)
              (pubkey_from_bytes oracle_program_id)
              (pubkey_from_bytes switchboard_oracle_program_id)
              rate_limiter
              (if bool_decide (whitelisted_liquidator = zero_bytes 32) then None
               else Some (pubkey_from_bytes whitelisted_liquidator))
              (if bool_decide (risk_authority = zero_bytes 32) then owner_pubkey
               else pubkey_from_bytes risk_authority))
    | _ => Panic
    end.

(** ** Market metadata *)

Definition MARKET_NAME_SIZE : nat := 50.
Definition MARKET_DESCRIPTION_SIZE : nat := 300.
Definition MARKET_IMAGE_URL_SIZE : nat := 250.
Definition PADDING_SIZE : nat := 100.

Record LendingMarketMetadata : Type := mkLendingMarketMetadata {
  metadata_bump_seed : Z;
  market_name : bytes;
  market_description : bytes;
  market_image_url : bytes;
  lookup_tables : list Pubkey;
  metadata_padding : bytes;
}.

(** [size_of::<LendingMarketMetadata>()]: the fields in order, without padding
    between them, since every field is a byte array. *)
Definition lending_market_metadata_widths : list nat :=
  [1; MARKET_NAME_SIZE; MARKET_DESCRIPTION_SIZE; MARKET_IMAGE_URL_SIZE; 4 * 32;
   PADDING_SIZE]%nat.

(** Reads the bytes that follow the instruction tag; a length other than the
    size of the structure is an error, an empty slice panics. *)
Definition new_from_bytes (data : bytes) : result LendingMarketMetadata :=
  match data with
  | [] => Panic
  | _ :: rest =>
      reject_if negb (length rest =? total_width lending_market_metadata_widths)%nat
        with lending_error InstructionUnpackError then
      match array_refs lending_market_metadata_widths rest with
      | [bump_seed; name; description; url; tables; padding] =>
          Ok (mkLendingMarketMetadata (from_le_bytes bump_seed) name description url
                (pubkey_from_bytes <$> array_refs [32; 32; 32; 32]%nat tables) padding)
      | _ => Panic
      end
  end.

(** ** Round trip *)

(** Field widths, and the two values the encoding cannot tell from absence. *)
Record lending_market_wf (m : LendingMarket) : Prop := {
  wf_version : 0 <= version m <= PROGRAM_VERSION;
  wf_bump_seed : is_u8 (bump_seed m);
  wf_owner : is_u256 (owner m);
  wf_quote_currency : length (quote_currency m) = 32%nat;
  wf_token_program : is_u256 (token_program_id m);
  wf_oracle_program : is_u256 (oracle_program_id m);
  wf_switchboard_program : is_u256 (switchboard_oracle_program_id m);
  wf_rate_limiter : rate_limiter_wf (rate_limiter m);
  wf_liquidator : forall k, whitelisted_liquidator m = Some k -> is_u256 k /\ k <> 0;
  wf_risk_authority : is_u256 (risk_authority m);
}.

Lemma pubkey_zero_bytes k :
  is_u256 k -> pubkey_to_bytes k = zero_bytes 32 <-> k = 0.
Proof.
  intros Hk. change (zero_bytes 32) with (pubkey_to_bytes 0). split; [|by intros ->].
  apply pubkey_to_bytes_inj; [done|]. by vm_compute.
Qed.

Lemma rate_limiter_packed r dst :
  rate_limiter_wf r -> length dst = RATE_LIMITER_LEN ->
  exists bs, RateLimiter.pack_into_slice r dst = Ok bs /\ length bs = RATE_LIMITER_LEN /\
    RateLimiter.unpack_from_slice bs = Ok r.
Proof.
  intros Hwf Hl. destruct (pack_into_slice_ok r dst Hwf ltac:(lia)) as (fs & Hp & Hw & Hu).
  exists (concat fs ++ drop RATE_LIMITER_LEN dst). split; [done|]. split; [|apply Hu].
  rewrite length_app, length_concat_fields, Hw, length_drop, Hl. reflexivity.
Qed.

(** What a risk authority reads back as. *)
Definition effective_risk_authority (m : LendingMarket) : Pubkey :=
  if risk_authority m =? 0 then owner m else risk_authority m.

(** A lending market reads back as it was packed, from any buffer that is long
    enough, and the bytes past its 290 are left alone; only a zero risk authority
    reads back differently, as the owner. *)
Theorem lending_market_roundtrip (m : LendingMarket) (dst : bytes)
    (Hwf : lending_market_wf m) (Hl : (LENDING_MARKET_LEN <= length dst)%nat) :
  exists bs, pack_into_slice m dst = Ok bs /\ length bs = length dst /\
    drop LENDING_MARKET_LEN bs = drop LENDING_MARKET_LEN dst /\
    unpack_from_slice bs =
      Ok (mkLendingMarket (version m) (bump_seed m) (owner m) (quote_currency m)
            (token_program_id m) (oracle_program_id m) (switchboard_oracle_program_id m)
            (rate_limiter m) (whitelisted_liquidator m) (effective_risk_authority m)).
Proof.
  pose proof (wf_quote_currency m Hwf) as Hq.
  destruct Hwf. unfold pack_into_slice.
  destruct (Nat.ltb_spec (length dst) LENDING_MARKET_LEN); [lia|].
  assert (Hold : forall i w, lending_market_widths !! i = Some w ->
    length (field_at lending_market_widths i dst) = w).
  { intros i w Hi. apply length_field_at; [|done]. exact Hl. }
  destruct (rate_limiter_packed (rate_limiter m) (field_at lending_market_widths 7 dst))
    as (rl & Hrl & Hrlen & Hrun); [done|by apply Hold|].
  rewrite Hrl. mred. eexists. split; [done|].
  set (fields := [_; _; _; _; _; _; _; _; _; _; _]).
  assert (Hw : length <$> fields = lending_market_widths).
  { unfold fields. cbn [fmap list_fmap]. rewrite (Hold 10%nat 8%nat) by done. rewrite Hrlen, Hq.
    destruct (whitelisted_liquidator m); autorewrite with lengths; done. }
  split; [by apply (length_packed lending_market_widths)|].
  split; [by rewrite drop_app_length' by (by rewrite length_concat_fields, Hw)|].
  unfold unpack_from_slice. rewrite array_refs_packed by done.
  rewrite (length_packed lending_market_widths) by done.
  destruct (Nat.ltb_spec (length dst) LENDING_MARKET_LEN); [lia|].
  unfold fields. rewrite !from_to_le_bytes by (first [done | unfold PROGRAM_VERSION, in_uint in *; simpl; lia]).
  destruct (Z.ltb_spec PROGRAM_VERSION (version m)); [lia|].
  rewrite Hrun. mred. rewrite !pubkey_from_to_bytes by done. f_equal. f_equal.
  - destruct (whitelisted_liquidator m) as [k|]; [|done].
    destruct (wf_liquidator0 k eq_refl) as [Hk Hk0].
    rewrite bool_decide_eq_false_2 by (by rewrite pubkey_zero_bytes).
    by rewrite pubkey_from_to_bytes.
  - unfold effective_risk_authority. destruct (Z.eqb_spec (risk_authority m) 0) as [Hz|Hz].
    + by rewrite bool_decide_eq_true_2 by (by rewrite pubkey_zero_bytes).
    + by rewrite bool_decide_eq_false_2 by (by rewrite pubkey_zero_bytes).
Qed.

Definition test_market : LendingMarket :=
  mkLendingMarket 1 255 10 (zero_bytes 32) 11 12 13 RateLimiter.default (Some 14) 0.

Lemma test_market_wf : lending_market_wf test_market.
Proof.
  split; lazymatch goal with
         | |- forall _, _ => intros k [= <-]; by vm_compute
         | |- _ => by vm_compute
         end.
Qed.

Lemma lending_market_roundtrip_witness :
  exists bs, pack_into_slice test_market (zero_bytes 300) = Ok bs /\ length bs = 300%nat.
Proof.
  destruct (lending_market_roundtrip test_market (zero_bytes 300) test_market_wf
    ltac:(vm_compute; lia)) as (bs & Hp & Hlen & _).
  exists bs. split; [exact Hp | exact Hlen].
Defined.
