(* ===== verification/ReserveCodec.v ===== *)
(** state/reserve.rs: the packed layout of a reserve, and its round trip. *)

From S2P Require Import Prelude Errors Common Rate Decimal Codec LastUpdate.
From S2P Require Import RateLimiter RateLimiterSpec LendingMarket.
From S2P Require Import ReserveConfig ReserveConfigSpec ReserveLiquidity ReserveCollateral.
From S2P Require Import ObligationCollateral ObligationLiquidity Obligation.
From S2P Require Import ReserveLiquidity ReserveCollateral Reserve ReserveRates.

Definition RESERVE_LEN : nat := 619.
Definition reserve_widths : list nat :=
  [1; 8; 1; 32; 32; 1; 32; 32; 32; 8; 16; 16; 16; 32; 8; 32; 1; 1; 1; 1; 1; 1; 1; 8; 8; 1; 8;
   8; 32; 1; 1; 16; 56; 8; 16; 1; 1; 8; 1; 1; 138]%nat.

Definition pack_into_slice (self : Reserve) (output : bytes) : result bytes :=
  if (length output <? RESERVE_LEN)%nat then Panic
  else
    let old := field_at reserve_widths in
    let u8 := to_le_bytes 1 in
    let u64 := to_le_bytes 8 in
    let l := liquidity self in
    let c := config self in
    let? borrowed_amount := pack_decimal (borrowed_amount_wads l) in
    let? borrow_rate := pack_decimal (cumulative_borrow_rate_wads l) in
    let? protocol_fees := pack_decimal (accumulated_protocol_fees_wads l) in
    let? market_price := pack_decimal (market_price l) in
    let? smoothed_market_price := pack_decimal (smoothed_market_price l) in
    let? rate_limiter := RateLimiter.pack_into_slice (rate_limiter self) (old 32%nat output) in
    Ok (concat
          [u8 (version self);
           u64 (slot (last_update self));
           pack_bool (stale (last_update self));
           pubkey_to_bytes (lending_market self);
           pubkey_to_bytes (ReserveLiquidity.mint_pubkey l);
           u8 (mint_decimals l);
           pubkey_to_bytes (ReserveLiquidity.supply_pubkey l);
           pubkey_to_bytes (pyth_oracle_pubkey l);
           pubkey_to_bytes (switchboard_oracle_pubkey l);
           u64 (available_amount l);
           borrowed_amount;
           borrow_rate;
           market_price;
           pubkey_to_bytes (ReserveCollateral.mint_pubkey (collateral self));
           u64 (mint_total_supply (collateral self));
           pubkey_to_bytes (ReserveCollateral.supply_pubkey (collateral self));
           u8 (optimal_utilization_rate c);
           u8 (ReserveConfig.loan_to_value_ratio c);
           u8 (liquidation_bonus c);
           u8 (liquidation_threshold c);
           u8 (min_borrow_rate c);
           u8 (optimal_borrow_rate c);
           u8 (max_borrow_rate c);
           u64 (borrow_fee_wad (fees c));
           u64 (flash_loan_fee_wad (fees c));
           u8 (host_fee_percentage (fees c));
           u64 (deposit_limit c);
           u64 (borrow_limit c);
           pubkey_to_bytes (fee_receiver c);
           u8 (protocol_liquidation_fee c);
           u8 (protocol_take_rate c);
           protocol_fees;
           rate_limiter;
           u64 (added_borrow_weight_bps c);
           smoothed_market_price;
           u8 (reserve_type_to_u8 (reserve_type c));
           u8 (max_utilization_rate c);
           u64 (super_max_borrow_rate c);
           u8 (max_liquidation_bonus c);
           u8 (max_liquidation_threshold c);
           old 40%nat output]
        ++ drop RESERVE_LEN output).

Definition unpack_from_slice (input : bytes) : result Reserve :=
  if (length input <? RESERVE_LEN)%nat then Panic
  else
    match array_refs reserve_widths (take RESERVE_LEN input) with
    | [version; last_update_slot; last_update_stale; lending_market; liquidity_mint_pubkey;
       liquidity_mint_decimals; liquidity_supply_pubkey; liquidity_pyth_oracle_pubkey;
       liquidity_switchboard_oracle_pubkey; liquidity_available_amount;
       liquidity_borrowed_amount_wads; liquidity_cumulative_borrow_rate_wads;
       liquidity_market_price; collateral_mint_pubkey; collateral_mint_total_supply;
       collateral_supply_pubkey; config_optimal_utilization_rate; config_loan_to_value_ratio;
       config_liquidation_bonus; config_liquidation_threshold; config_min_borrow_rate;
       config_optimal_borrow_rate; config_max_borrow_rate; config_fees_borrow_fee_wad;
       config_fees_flash_loan_fee_wad; config_fees_host_fee_percentage; config_deposit_limit;
       config_borrow_limit; config_fee_receiver; config_protocol_liquidation_fee;
       config_protocol_take_rate; liquidity_accumulated_protocol_fees_wads; rate_limiter;
       config_added_borrow_weight_bps; liquidity_smoothed_market_price; config_asset_type;
       config_max_utilization_rate; config_super_max_borrow_rate;
       config_max_liquidation_bonus; config_max_liquidation_threshold; _padding] =>
        let version := from_le_bytes version in
        reject_if PROGRAM_VERSION <? version with InvalidAccountData then
        let optimal_utilization_rate := from_le_bytes config_optimal_utilization_rate in
        let max_borrow_rate := from_le_bytes config_max_borrow_rate in
        let liquidation_bonus := from_le_bytes config_liquidation_bonus in
        let max_liquidation_bonus :=
          Z.max liquidation_bonus (from_le_bytes config_max_liquidation_bonus) in
        let liquidation_threshold := from_le_bytes config_liquidation_threshold in
        let max_liquidation_threshold :=
          Z.max liquidation_threshold (from_le_bytes config_max_liquidation_threshold) in
        let? stale := unpack_bool last_update_stale in
        let? reserve_type :=
          unwrap_option (reserve_type_from_u8 (from_le_bytes config_asset_type)) in
        let? rate_limiter := RateLimiter.unpack_from_slice rate_limiter in
        Ok (mkReserve version
              (mkLastUpdate (from_le_bytes last_update_slot) stale)
              (pubkey_from_bytes lending_market)
              (mkReserveLiquidity
                 (pubkey_from_bytes liquidity_mint_pubkey)
                 (from_le_bytes liquidity_mint_decimals)
                 (pubkey_from_bytes liquidity_supply_pubkey)
                 (pubkey_from_bytes liquidity_pyth_oracle_pubkey)
                 (pubkey_from_bytes liquidity_switchboard_oracle_pubkey)
                 (from_le_bytes liquidity_available_amount)
                 (unpack_decimal liquidity_borrowed_amount_wads)
                 (unpack_decimal liquidity_cumulative_borrow_rate_wads)
                 (unpack_decimal liquidity_accumulated_protocol_fees_wads)
                 (unpack_decimal liquidity_market_price)
                 (unpack_decimal liquidity_smoothed_market_price))
              (mkReserveCollateral
                 (pubkey_from_bytes collateral_mint_pubkey)
                 (from_le_bytes collateral_mint_total_supply)
                 (pubkey_from_bytes collateral_supply_pubkey))
              (mkReserveConfig
                 optimal_utilization_rate
                 (Z.max optimal_utilization_rate (from_le_bytes config_max_utilization_rate))
                 (from_le_bytes config_loan_to_value_ratio)
                 liquidation_bonus
                 max_liquidation_bonus
                 liquidation_threshold
                 max_liquidation_threshold
                 (from_le_bytes config_min_borrow_rate)
                 (from_le_bytes config_optimal_borrow_rate)
                 max_borrow_rate
                 (Z.max max_borrow_rate (from_le_bytes config_super_max_borrow_rate))
                 (mkReserveFees
                    (from_le_bytes config_fees_borrow_fee_wad)
                    (from_le_bytes config_fees_flash_loan_fee_wad)
                    (from_le_bytes config_fees_host_fee_percentage))
                 (from_le_bytes config_deposit_limit)
                 (from_le_bytes config_borrow_limit)
                 (pubkey_from_bytes config_fee_receiver)
                 (Z.min (from_le_bytes config_protocol_liquidation_fee)
                    MAX_PROTOCOL_LIQUIDATION_FEE_DECA_BPS)
                 (from_le_bytes config_protocol_take_rate)
                 (from_le_bytes config_added_borrow_weight_bps)
                 reserve_type)
              rate_limiter)
    | _ => Panic
    end.

(** ** Round trip *)

(** The values a reserve account can hold. *)
Record reserve_wf (r : Reserve) : Prop := {
  wf_version : 0 <= version r <= PROGRAM_VERSION;
  wf_slot : is_u64 (slot (last_update r));
  wf_lending_market : is_u256 (lending_market r);
  wf_mint : is_u256 (ReserveLiquidity.mint_pubkey (liquidity r));
  wf_decimals : is_u8 (mint_decimals (liquidity r));
  wf_supply : is_u256 (ReserveLiquidity.supply_pubkey (liquidity r));
  wf_pyth : is_u256 (pyth_oracle_pubkey (liquidity r));
  wf_switchboard : is_u256 (switchboard_oracle_pubkey (liquidity r));
  wf_available : is_u64 (available_amount (liquidity r));
  wf_borrowed : dec_u128 (borrowed_amount_wads (liquidity r));
  wf_borrow_rate : dec_u128 (cumulative_borrow_rate_wads (liquidity r));
  wf_protocol_fees : dec_u128 (accumulated_protocol_fees_wads (liquidity r));
  wf_price : dec_u128 (market_price (liquidity r));
  wf_smoothed_price : dec_u128 (smoothed_market_price (liquidity r));
  wf_collateral_mint : is_u256 (ReserveCollateral.mint_pubkey (collateral r));
  wf_collateral_total : is_u64 (mint_total_supply (collateral r));
  wf_collateral_supply : is_u256 (ReserveCollateral.supply_pubkey (collateral r));
  wf_config : reserve_config_wf (config r);
  wf_limiter : rate_limiter_wf (rate_limiter r);
}.

Lemma reserve_type_roundtrip t :
  reserve_type_from_u8 (from_le_bytes (to_le_bytes 1 (reserve_type_to_u8 t))) = Some t.
Proof. by destruct t. Qed.

(** The normalization that reading applies to a configuration. *)
Definition normalize_config (c : ReserveConfig) : ReserveConfig :=
  mkReserveConfig (optimal_utilization_rate c)
    (Z.max (optimal_utilization_rate c) (max_utilization_rate c))
    (ReserveConfig.loan_to_value_ratio c) (liquidation_bonus c)
    (Z.max (liquidation_bonus c) (max_liquidation_bonus c)) (liquidation_threshold c)
    (Z.max (liquidation_threshold c) (max_liquidation_threshold c))
    (min_borrow_rate c) (optimal_borrow_rate c) (max_borrow_rate c)
    (Z.max (max_borrow_rate c) (super_max_borrow_rate c))
    (fees c) (deposit_limit c) (borrow_limit c) (fee_receiver c)
    (Z.min (protocol_liquidation_fee c) MAX_PROTOCOL_LIQUIDATION_FEE_DECA_BPS)
    (protocol_take_rate c) (added_borrow_weight_bps c) (reserve_type c).

Lemma normalize_valid c : sound_config c -> normalize_config c = c.
Proof.
  intros []. unfold normalize_config, MAX_PROTOCOL_LIQUIDATION_FEE_DECA_BPS in *.
  destruct c. cbn in *. f_equal; lia.
Qed.

Lemma reserve_unpack_pack (r : Reserve) (dst : bytes) :
  reserve_wf r -> (RESERVE_LEN <= length dst)%nat ->
  exists bs, pack_into_slice r dst = Ok bs /\ length bs = length dst /\
    drop RESERVE_LEN bs = drop RESERVE_LEN dst /\
    unpack_from_slice bs = Ok (set_config r (normalize_config (config r))).
Proof.
  intros Hwf Hl. pose proof (wf_config r Hwf) as Hcfg.
  pose proof (wf_fees _ Hcfg) as (Hfee1 & Hfee2 & Hfee3).
  destruct Hwf, Hcfg. unfold pack_into_slice.
  destruct (Nat.ltb_spec (length dst) RESERVE_LEN); [lia|].
  assert (Hold : forall i w, reserve_widths !! i = Some w ->
    length (field_at reserve_widths i dst) = w).
  { intros i w Hi. apply length_field_at; [exact Hl|done]. }
  destruct (rate_limiter_packed (rate_limiter r) (field_at reserve_widths 32 dst))
    as (rl & Hrl & Hrlen & Hrun); [done|by apply Hold|].
  rewrite !pack_decimal_ok by done. mred. rewrite Hrl. mred. eexists. split; [done|].
  set (fields := [_; _; _; _; _; _; _; _; _; _; _; _; _; _; _; _; _; _; _; _; _; _; _; _; _; _; _;
    _; _; _; _; _; _; _; _; _; _; _; _; _; _]).
  assert (Hw : length <$> fields = reserve_widths).
  { unfold fields. cbn [fmap list_fmap]. rewrite (Hold 40%nat 138%nat) by done.
    rewrite Hrlen. autorewrite with lengths. reflexivity. }
  split; [by apply (length_packed reserve_widths)|].
  split; [by rewrite drop_app_length' by (by rewrite length_concat_fields, Hw)|].
  unfold unpack_from_slice. rewrite array_refs_packed by done.
  rewrite (length_packed reserve_widths) by done.
  destruct (Nat.ltb_spec (length dst) RESERVE_LEN); [lia|].
  unfold fields. rewrite reserve_type_roundtrip.
  rewrite !from_to_le_bytes
    by (first [done | unfold PROGRAM_VERSION, in_uint in *; simpl; lia]).
  destruct (Z.ltb_spec PROGRAM_VERSION (version r)); [lia|].
  rewrite unpack_pack_bool. mred. rewrite Hrun. mred.
  rewrite !pubkey_from_to_bytes, !unpack_pack_decimal by done.
  unfold set_config, normalize_config.
  destruct r as [? [] ? [] [] [? ? ? ? ? ? ? ? ? ? ? [] ? ? ? ? ? ? ?] ?]. reflexivity.
Qed.

(** C34: a reserve with a validated configuration reads back exactly as it was
    packed, from any buffer that is long enough, and the bytes past its 619 are
    left alone. *)
Theorem reserve_roundtrip (r : Reserve) (dst : bytes)
    (Hwf : reserve_wf r) (Hv : validate_reserve_config (config r) = Ok tt)
    (Hl : (RESERVE_LEN <= length dst)%nat) :
  exists bs, pack_into_slice r dst = Ok bs /\ length bs = length dst /\
    drop RESERVE_LEN bs = drop RESERVE_LEN dst /\ unpack_from_slice bs = Ok r.
Proof.
  apply validated_sound in Hv.
  destruct (reserve_unpack_pack r dst Hwf Hl) as (bs & Hp & Hlen & Hd & Hu).
  exists bs. split_and!; try done. rewrite Hu, normalize_valid by done. by destruct r.
Qed.

Lemma test_reserve_wf : reserve_wf test_reserve.
Proof.
  split; lazymatch goal with
         | |- reserve_config_wf _ => exact test_config_wf
         | |- _ => by vm_compute
         end.
Qed.

Lemma reserve_roundtrip_witness :
  exists bs, pack_into_slice test_reserve (zero_bytes 619) = Ok bs /\
    unpack_from_slice bs = Ok test_reserve.
Proof.
  destruct (reserve_roundtrip test_reserve (zero_bytes 619) test_reserve_wf eq_refl
    ltac:(vm_compute; lia)) as (bs & Hp & _ & _ & Hu).
  exists bs. split; [exact Hp | exact Hu].
Defined.

(** ** What reading guarantees *)

Lemma unpack_from_slice_inv input r :
  unpack_from_slice input = Ok r ->
  version r <= PROGRAM_VERSION /\
  optimal_utilization_rate (config r) <= max_utilization_rate (config r) /\
  liquidation_bonus (config r) <= max_liquidation_bonus (config r) /\
  liquidation_threshold (config r) <= max_liquidation_threshold (config r) /\
  max_borrow_rate (config r) <= super_max_borrow_rate (config r) /\
  protocol_liquidation_fee (config r) <= MAX_PROTOCOL_LIQUIDATION_FEE_DECA_BPS.
Proof.
  unfold unpack_from_slice. destruct (_ <? _)%nat; [discriminate|].
  cbn [array_refs reserve_widths]. intros H. minv H.
  cbn [version config optimal_utilization_rate max_utilization_rate liquidation_bonus
    max_liquidation_bonus liquidation_threshold max_liquidation_threshold max_borrow_rate
    super_max_borrow_rate protocol_liquidation_fee].
  lia.
Qed.

(** Whatever bytes a reserve account holds, a reserve that can be read has a
    supported version and the orderings the interest and liquidation
    calculations rely on (each [max_*] field is at least its base), with the
    protocol liquidation fee capped; the fields written by older versions of the
    program, which left them zero, are repaired on reading. *)
Theorem unpacked_reserve_ordered (input : bytes) (r : Reserve)
    (H : unpack_from_slice input = Ok r) :
  version r <= PROGRAM_VERSION /\
  optimal_utilization_rate (config r) <= max_utilization_rate (config r) /\
  liquidation_bonus (config r) <= max_liquidation_bonus (config r) /\
  liquidation_threshold (config r) <= max_liquidation_threshold (config r) /\
  max_borrow_rate (config r) <= super_max_borrow_rate (config r) /\
  protocol_liquidation_fee (config r) <= MAX_PROTOCOL_LIQUIDATION_FEE_DECA_BPS.
Proof. by apply (unpack_from_slice_inv input). Qed.

Lemma unpacked_reserve_ordered_witness :
  exists r, unpack_from_slice (zero_bytes 619) = Ok r /\
    max_borrow_rate (config r) <= super_max_borrow_rate (config r).
Proof.
  eexists. split; [vm_compute; reflexivity|].
  refine (proj1 (proj2 (proj2 (proj2 (proj2 (unpacked_reserve_ordered (zero_bytes 619) _ _)))))).
  vm_compute. reflexivity.
Defined.
