(* ===== verification/ObligationCodec.v ===== *)
(** state/obligation.rs: the packed layout of an obligation, and its round trip.

    Positions are written one after the other into the tail of the account, 88
    bytes a deposit and 112 a borrow; an entry past the end panics. *)

From S2P Require Import Prelude Errors Common Rate Decimal Codec LastUpdate.
From S2P Require Import ObligationCollateral ObligationLiquidity Obligation.

Definition OBLIGATION_COLLATERAL_LEN : nat := 88.
Definition OBLIGATION_LIQUIDITY_LEN : nat := 112.
Definition OBLIGATION_LEN : nat := 1300.
(** The bytes for positions: room for one deposit and nine borrows. *)
Definition DATA_FLAT_LEN : nat :=
  (OBLIGATION_COLLATERAL_LEN + OBLIGATION_LIQUIDITY_LEN * (MAX_OBLIGATION_RESERVES - 1))%nat.

Definition obligation_widths : list nat :=
  [1; 8; 1; 32; 32; 16; 16; 16; 16; 16; 1; 16; 31; 1; 1; DATA_FLAT_LEN]%nat.
Definition deposit_widths : list nat := [32; 8; 16; 32]%nat.
Definition borrow_widths : list nat := [32; 16; 16; 16; 32]%nat.

(** Writing the first fields of the [len]-byte entry at [offset]. *)
Definition write_entry (len : nat) (data : bytes) (offset : nat) (entry : bytes)
    : result bytes :=
  if (length data <? offset + len)%nat then Panic
  else Ok (take offset data ++ entry ++ drop (offset + length entry) data).

Definition read_entry (len : nat) (data : bytes) (offset : nat) : result bytes :=
  if (length data <? offset + len)%nat then Panic else Ok (take len (drop offset data)).

Definition collateral_bytes (c : ObligationCollateral) : result bytes :=
  let? market_value := pack_decimal (ObligationCollateral.market_value c) in
  Ok (concat [pubkey_to_bytes (deposit_reserve c); to_le_bytes 8 (deposited_amount c);
              market_value]).

Definition liquidity_bytes (l : ObligationLiquidity) : result bytes :=
  let? cumulative_borrow_rate := pack_decimal (cumulative_borrow_rate_wads l) in
  let? borrowed_amount := pack_decimal (borrowed_amount_wads l) in
  let? market_value := pack_decimal (ObligationLiquidity.market_value l) in
  Ok (concat [pubkey_to_bytes (borrow_reserve l); cumulative_borrow_rate; borrowed_amount;
              market_value]).

(** The loops over the positions. *)
Fixpoint pack_entries {A : Type} (len : nat) (encode : A -> result bytes) (entries : list A)
    (offset : nat) (data : bytes) : result (nat * bytes) :=
  match entries with
  | [] => Ok (offset, data)
  | x :: entries =>
      let? entry := encode x in
      let? data := write_entry len data offset entry in
      pack_entries len encode entries (offset + len) data
  end.

Fixpoint unpack_entries {A : Type} (len : nat) (decode : bytes -> result A) (n : nat)
    (offset : nat) (data : bytes) : result (nat * list A) :=
  match n with
  | O => Ok (offset, [])
  | S n =>
      let? entry := read_entry len data offset in
      let? x := decode entry in
      let? ' (end_offset, xs) := unpack_entries len decode n (offset + len) data in
      Ok (end_offset, x :: xs)
  end.

Definition unpack_collateral (entry : bytes) : result ObligationCollateral :=
  match array_refs deposit_widths entry with
  | [deposit_reserve; deposited_amount; market_value; _padding_deposit] =>
      Ok (mkObligationCollateral (pubkey_from_bytes deposit_reserve)
            (from_le_bytes deposited_amount) (unpack_decimal market_value))
  | _ => Panic
  end.

Definition unpack_liquidity (entry : bytes) : result ObligationLiquidity :=
  match array_refs borrow_widths entry with
  | [borrow_reserve; cumulative_borrow_rate; borrowed_amount; market_value; _padding_borrow] =>
      Ok (mkObligationLiquidity (pubkey_from_bytes borrow_reserve)
            (unpack_decimal cumulative_borrow_rate) (unpack_decimal borrowed_amount)
            (unpack_decimal market_value))
  | _ => Panic
  end.

Definition pack_into_slice (self : Obligation) (dst : bytes) : result bytes :=
  if (length dst <? OBLIGATION_LEN)%nat then Panic
  else
    let old := field_at obligation_widths in
    let? deposited_value := pack_decimal (deposited_value self) in
    let? borrowed_value := pack_decimal (borrowed_value self) in
    let? borrowed_value_upper_bound := pack_decimal (borrowed_value_upper_bound self) in
    let? allowed_borrow_value := pack_decimal (allowed_borrow_value self) in
    let? unhealthy_borrow_value := pack_decimal (unhealthy_borrow_value self) in
    let? super_unhealthy_borrow_value := pack_decimal (super_unhealthy_borrow_value self) in
    let? deposits_len := unwrap_option (fit 8 (Z.of_nat (length (deposits self)))) in
    let? borrows_len := unwrap_option (fit 8 (Z.of_nat (length (borrows self)))) in
    let data_flat := old 15%nat dst in
    let? ' (offset, data_flat) :=
      pack_entries OBLIGATION_COLLATERAL_LEN collateral_bytes (deposits self) 0 data_flat in
    let? ' (_, data_flat) :=
      pack_entries OBLIGATION_LIQUIDITY_LEN liquidity_bytes (borrows self) offset data_flat in
    Ok (concat
          [to_le_bytes 1 (version self);
           to_le_bytes 8 (slot (last_update self));
           pack_bool (stale (last_update self));
           pubkey_to_bytes (lending_market self);
           pubkey_to_bytes (owner self);
           deposited_value;
           borrowed_value;
           allowed_borrow_value;
           unhealthy_borrow_value;
           borrowed_value_upper_bound;
           pack_bool (borrowing_isolated_asset self);
           super_unhealthy_borrow_value;
           old 12%nat dst;
           to_le_bytes 1 deposits_len;
           to_le_bytes 1 borrows_len;
           data_flat]
        ++ drop OBLIGATION_LEN dst).

Definition unpack_from_slice (src : bytes) : result Obligation :=
  if (length src <? OBLIGATION_LEN)%nat then Panic
  else
    match array_refs obligation_widths (take OBLIGATION_LEN src) with
    | [version; last_update_slot; last_update_stale; lending_market; owner; deposited_value;
       borrowed_value; allowed_borrow_value; unhealthy_borrow_value;
       borrowed_value_upper_bound; borrowing_isolated_asset; super_unhealthy_borrow_value;
       _padding; deposits_len; borrows_len; data_flat] =>
        let version := from_le_bytes version in
        reject_if PROGRAM_VERSION <? version with InvalidAccountData then
        let deposits_len := Z.to_nat (from_le_bytes deposits_len) in
        let borrows_len := Z.to_nat (from_le_bytes borrows_len) in
        let? ' (offset, deposits) :=
          unpack_entries OBLIGATION_COLLATERAL_LEN unpack_collateral deposits_len 0 data_flat in
        let? ' (_, borrows) :=
          unpack_entries OBLIGATION_LIQUIDITY_LEN unpack_liquidity borrows_len offset data_flat in
        let? stale := unpack_bool last_update_stale in
        let? isolated := unpack_bool borrowing_isolated_asset in
        Ok (mkObligation version (mkLastUpdate (from_le_bytes last_update_slot) stale)
              (pubkey_from_bytes lending_market) (pubkey_from_bytes owner)
              deposits borrows
              (unpack_decimal deposited_value)
              (unpack_decimal borrowed_value)
              (unpack_decimal borrowed_value_upper_bound)
              (unpack_decimal allowed_borrow_value)
              (unpack_decimal unhealthy_borrow_value)
              (unpack_decimal super_unhealthy_borrow_value)
              isolated)
    | _ => Panic
    end.

(** ** Entries *)

Section entries.
Context {A : Type} (len size : nat) (encode : A -> result bytes)
  (decode : bytes -> result A) (wf : A -> Prop).
Context (Hsize : (size <= len)%nat)
  (Hencode : forall x, wf x -> exists bs, encode x = Ok bs /\ length bs = size /\
    forall pad, decode (bs ++ pad) = Ok x).

Lemma write_entry_ok data offset entry :
  length entry = size -> (offset + len <= length data)%nat ->
  exists data', write_entry len data offset entry = Ok data' /\
    length data' = length data /\ take offset data' = take offset data /\
    take size (drop offset data') = entry.
Proof.
  intros He Hl. unfold write_entry.
  destruct (Nat.ltb_spec (length data) (offset + len)); [lia|].
  eexists. split; [done|]. rewrite !length_app, length_take, length_drop.
  assert (Ht : length (take offset data) = offset) by (rewrite length_take; lia).
  split; [lia|]. split.
  - by rewrite take_app_length'.
  - rewrite drop_app_length' by done. by rewrite take_app_length'.
Qed.

(** [data] holds the encodings of [xs] from [offset] on. *)
Definition holds (xs : list A) (offset : nat) (data : bytes) : Prop :=
  forall i x, xs !! i = Some x -> exists bs, encode x = Ok bs /\ length bs = size /\
    (forall pad, decode (bs ++ pad) = Ok x) /\
    take size (drop (offset + i * len) data) = bs.

Lemma take_drop_agree (n off k : nat) (d d' : bytes) :
  (off + n <= k)%nat -> take k d = take k d' -> take n (drop off d) = take n (drop off d').
Proof.
  intros Hk Heq.
  assert (Hx : forall e : bytes, take n (drop off e) = take n (drop off (take k e))).
  { intros e. rewrite <- (take_drop k e) at 1.
    destruct (Nat.le_gt_cases k (length e)).
    - rewrite drop_app_le by (rewrite length_take; lia). rewrite take_app_le; [done|].
      rewrite length_drop, length_take. lia.
    - rewrite (drop_ge e k) by lia. by rewrite app_nil_r. }
  by rewrite Hx, Heq, <- Hx.
Qed.

Lemma holds_agree xs offset k d d' :
  (offset + length xs * len <= k)%nat -> take k d = take k d' ->
  holds xs offset d -> holds xs offset d'.
Proof.
  intros Hk Heq Hh i x Hx. destruct (Hh i x Hx) as (bs & He & Hl & Hd & Ht).
  exists bs. split_and!; try done. rewrite <- Ht. symmetry.
  apply (take_drop_agree _ _ k); [|done].
  apply lookup_lt_Some in Hx. nia.
Qed.

Lemma pack_entries_ok xs : forall offset data,
  Forall wf xs -> (offset + length xs * len <= length data)%nat ->
  exists data', pack_entries len encode xs offset data
      = Ok ((offset + length xs * len)%nat, data') /\
    length data' = length data /\ take offset data' = take offset data /\
    holds xs offset data'.
Proof.
  induction xs as [|x xs IH]; intros offset data Hwf Hl; simpl in *.
  { exists data. split_and!; try done. by rewrite Nat.add_0_r. }
  apply list.Forall_cons in Hwf as [Hx Hxs].
  destruct (Hencode x Hx) as (bs & He & Hb & Hd). rewrite He. mred.
  destruct (write_entry_ok data offset bs Hb ltac:(lia)) as (d1 & Hw & Hl1 & Ht1 & Hr1).
  rewrite Hw. mred.
  destruct (IH (offset + len)%nat d1 Hxs ltac:(lia)) as (d2 & Hp & Hl2 & Ht2 & Hh).
  rewrite Hp. exists d2. split; [f_equal; f_equal; lia|]. split; [lia|].
  assert (Hoff : take offset d2 = take offset d1).
  { assert (forall e : bytes, take offset e = take offset (take (offset + len) e)) as Hx2
      by (intros e; rewrite take_take; f_equal; lia).
    by rewrite (Hx2 d2), Ht2, <- (Hx2 d1). }
  split; [by rewrite Hoff|].
  intros [|i] y Hy; simpl in Hy.
  - injection Hy as <-. exists bs. split_and!; try done.
    rewrite <- Hr1, Nat.add_0_r. apply (take_drop_agree _ _ (offset + len)); [lia|done].
  - destruct (Hh i y Hy) as (bs' & ? & ? & ? & Ht'). exists bs'. split_and!; try done.
    by replace (offset + S i * len)%nat with (offset + len + i * len)%nat by lia.
Qed.

Lemma unpack_entries_ok xs : forall offset data,
  (offset + length xs * len <= length data)%nat -> holds xs offset data ->
  unpack_entries len decode (length xs) offset data
    = Ok ((offset + length xs * len)%nat, xs).
Proof.
  induction xs as [|x xs IH]; intros offset data Hl Hh; simpl in *.
  { by rewrite Nat.add_0_r. }
  unfold read_entry. destruct (Nat.ltb_spec (length data) (offset + len)); [lia|]. mred.
  destruct (Hh 0%nat x eq_refl) as (bs & _ & Hb & Hd & Ht).
  rewrite Nat.add_0_r in Ht.
  assert (Hsplit : take len (drop offset data) = bs ++ take (len - size) (drop size (drop offset data))).
  { rewrite <- Ht. rewrite <- (take_drop size (take len (drop offset data))).
    rewrite take_take, skipn_firstn_comm. f_equal. f_equal. lia. }
  rewrite Hsplit, Hd. mred.
  rewrite IH; [mred; f_equal; f_equal; lia|lia|].
  intros i y Hy. destruct (Hh (S i) y Hy) as (bs' & ? & ? & ? & Ht').
  exists bs'. split_and!; try done.
  by replace (offset + len + i * len)%nat with (offset + S i * len)%nat by lia.
Qed.
End entries.

Lemma array_refs_padded (fs : list bytes) ws w rest :
  length <$> fs = ws -> array_refs (ws ++ [w]) (concat fs ++ rest) = fs ++ [take w rest].
Proof.
  intros <-. induction fs as [|f fs IH]; csimpl; [done|].
  rewrite <- app_assoc, take_app_length, drop_app_length. f_equal. apply IH.
Qed.

Lemma collateral_entry c :
  collateral_wf c -> exists bs, collateral_bytes c = Ok bs /\ length bs = 56%nat /\
    forall pad, unpack_collateral (bs ++ pad) = Ok c.
Proof.
  intros (Hk & Hn & Hv). unfold collateral_bytes. rewrite pack_decimal_ok by done. mred.
  eexists. split; [done|].
  split; [rewrite length_concat_fields; cbn [fmap list_fmap]; by autorewrite with lengths|].
  intros pad. unfold unpack_collateral.
  change deposit_widths with ([32; 8; 16] ++ [32])%nat.
  rewrite array_refs_padded by (cbn [fmap list_fmap]; by autorewrite with lengths).
  cbn [app]. rewrite pubkey_from_to_bytes, from_to_le_bytes, unpack_pack_decimal by done.
  by destruct c.
Qed.

Lemma liquidity_entry l :
  liquidity_wf l -> exists bs, liquidity_bytes l = Ok bs /\ length bs = 80%nat /\
    forall pad, unpack_liquidity (bs ++ pad) = Ok l.
Proof.
  intros (Hk & Hr & Hb & Hv). unfold liquidity_bytes. rewrite !pack_decimal_ok by done. mred.
  eexists. split; [done|].
  split; [rewrite length_concat_fields; cbn [fmap list_fmap]; by autorewrite with lengths|].
  intros pad. unfold unpack_liquidity. change borrow_widths with ([32; 16; 16; 16] ++ [32])%nat.
  rewrite array_refs_padded by (cbn [fmap list_fmap]; by autorewrite with lengths).
  cbn [app]. rewrite pubkey_from_to_bytes, !unpack_pack_decimal by done. by destruct l.
Qed.

(** ** Round trip *)

(** The bytes the positions of an obligation take. *)
Definition positions_len (o : Obligation) : nat :=
  (length (deposits o) * OBLIGATION_COLLATERAL_LEN
   + length (borrows o) * OBLIGATION_LIQUIDITY_LEN)%nat.

(** The values an obligation account can hold. *)
Record obligation_wf (o : Obligation) : Prop := {
  wf_ob_version : 0 <= version o <= PROGRAM_VERSION;
  wf_ob_slot : is_u64 (slot (last_update o));
  wf_ob_market : is_u256 (lending_market o);
  wf_ob_owner : is_u256 (owner o);
  wf_ob_deposits : Forall collateral_wf (deposits o);
  wf_ob_borrows : Forall liquidity_wf (borrows o);
  wf_ob_deposits_len : (length (deposits o) < 256)%nat;
  wf_ob_borrows_len : (length (borrows o) < 256)%nat;
  wf_ob_deposited : dec_u128 (deposited_value o);
  wf_ob_borrowed : dec_u128 (borrowed_value o);
  wf_ob_upper : dec_u128 (borrowed_value_upper_bound o);
  wf_ob_allowed : dec_u128 (allowed_borrow_value o);
  wf_ob_unhealthy : dec_u128 (unhealthy_borrow_value o);
  wf_ob_super_unhealthy : dec_u128 (super_unhealthy_borrow_value o);
}.

Lemma unwrap_fit_len {A : Type} (l : list A) :
  (length l < 256)%nat ->
  unwrap_option (E:=ProgramError) (fit 8 (Z.of_nat (length l))) = Ok (Z.of_nat (length l)).
Proof. intros. by rewrite fit_Some by lia. Qed.

Lemma len_roundtrip {A : Type} (l : list A) :
  (length l < 256)%nat ->
  Z.to_nat (from_le_bytes (to_le_bytes 1 (Z.of_nat (length l)))) = length l.
Proof.
  intros.
  rewrite from_to_le_bytes by (unfold in_uint; simpl; lia). lia.
Qed.

Lemma collateral_size : (56 <= OBLIGATION_COLLATERAL_LEN)%nat.
Proof. unfold OBLIGATION_COLLATERAL_LEN. lia. Qed.

Lemma liquidity_size : (80 <= OBLIGATION_LIQUIDITY_LEN)%nat.
Proof. unfold OBLIGATION_LIQUIDITY_LEN. lia. Qed.

(** Writing both lists of positions, and reading them back. *)
Lemma positions_written (o : Obligation) (data : bytes) :
  obligation_wf o -> (positions_len o <= length data)%nat ->
  exists d1 d2 off,
    pack_entries OBLIGATION_COLLATERAL_LEN collateral_bytes (deposits o) 0 data
      = Ok (length (deposits o) * OBLIGATION_COLLATERAL_LEN, d1)%nat /\
    pack_entries OBLIGATION_LIQUIDITY_LEN liquidity_bytes (borrows o)
      (length (deposits o) * OBLIGATION_COLLATERAL_LEN) d1 = Ok (off, d2) /\
    length d2 = length data /\
    unpack_entries OBLIGATION_COLLATERAL_LEN unpack_collateral (length (deposits o)) 0 d2
      = Ok (length (deposits o) * OBLIGATION_COLLATERAL_LEN, deposits o)%nat /\
    unpack_entries OBLIGATION_LIQUIDITY_LEN unpack_liquidity (length (borrows o))
      (length (deposits o) * OBLIGATION_COLLATERAL_LEN) d2 = Ok (off, borrows o).
Proof.
  intros Hwf Hl. unfold positions_len in Hl.
  destruct (pack_entries_ok OBLIGATION_COLLATERAL_LEN 56 collateral_bytes unpack_collateral
    collateral_wf collateral_size collateral_entry (deposits o) 0 data (wf_ob_deposits o Hwf)
    ltac:(lia)) as (d1 & Hp1 & Hl1 & _ & Hh1).
  destruct (pack_entries_ok OBLIGATION_LIQUIDITY_LEN 80 liquidity_bytes unpack_liquidity
    liquidity_wf liquidity_size liquidity_entry (borrows o)
    (length (deposits o) * OBLIGATION_COLLATERAL_LEN) d1 (wf_ob_borrows o Hwf)
    ltac:(lia)) as (d2 & Hp2 & Hl2 & Ht2 & Hh2).
  exists d1, d2, (length (deposits o) * OBLIGATION_COLLATERAL_LEN
    + length (borrows o) * OBLIGATION_LIQUIDITY_LEN)%nat.
  split_and!; try done; [lia| |].
  - rewrite (unpack_entries_ok OBLIGATION_COLLATERAL_LEN 56 collateral_bytes); [done|..].
    + unfold OBLIGATION_COLLATERAL_LEN. lia.
    + lia.
    + eapply holds_agree; [apply collateral_size| |symmetry; exact Ht2|exact Hh1]. lia.
  - rewrite (unpack_entries_ok OBLIGATION_LIQUIDITY_LEN 80 liquidity_bytes); [done|..].
    + unfold OBLIGATION_LIQUIDITY_LEN. lia.
    + lia.
    + exact Hh2.
Qed.

Lemma obligation_unpack_pack (o : Obligation) (dst : bytes) :
  obligation_wf o -> (OBLIGATION_LEN <= length dst)%nat ->
  (positions_len o <= DATA_FLAT_LEN)%nat ->
  exists bs, pack_into_slice o dst = Ok bs /\ length bs = length dst /\
    drop OBLIGATION_LEN bs = drop OBLIGATION_LEN dst /\ unpack_from_slice bs = Ok o.
Proof.
  intros Hwf Hl Hfit.
  assert (Hold : forall i w, obligation_widths !! i = Some w ->
    length (field_at obligation_widths i dst) = w).
  { intros i w Hi. apply length_field_at; [exact Hl|done]. }
  destruct (positions_written o (field_at obligation_widths 15 dst) Hwf)
    as (d1 & d2 & off & Hp1 & Hp2 & Hl2 & Hu1 & Hu2); [by rewrite (Hold _ DATA_FLAT_LEN)|].
  rewrite (Hold 15%nat DATA_FLAT_LEN) in Hl2 by done.
  destruct Hwf. unfold pack_into_slice.
  destruct (Nat.ltb_spec (length dst) OBLIGATION_LEN); [lia|].
  rewrite !pack_decimal_ok by done. mred. rewrite !unwrap_fit_len by lia. mred.
  rewrite Hp1. mred. rewrite Hp2. mred. eexists. split; [done|].
  set (fields := [_; _; _; _; _; _; _; _; _; _; _; _; _; _; _; _]).
  assert (Hw : length <$> fields = obligation_widths).
  { unfold fields. cbn [fmap list_fmap]. rewrite (Hold 12%nat 31%nat), Hl2 by done.
    autorewrite with lengths. reflexivity. }
  split; [by apply (length_packed obligation_widths)|].
  split; [by rewrite drop_app_length' by (by rewrite length_concat_fields, Hw)|].
  unfold unpack_from_slice. rewrite array_refs_packed by done.
  rewrite (length_packed obligation_widths) by done.
  destruct (Nat.ltb_spec (length dst) OBLIGATION_LEN); [lia|].
  unfold fields. rewrite !len_roundtrip by lia.
  rewrite !from_to_le_bytes
    by (first [done | unfold PROGRAM_VERSION, in_uint in *; simpl; lia]).
  destruct (Z.ltb_spec PROGRAM_VERSION (version o)); [lia|].
  rewrite Hu1. mred. rewrite Hu2. mred. rewrite !unpack_pack_bool. mred.
  rewrite !pubkey_from_to_bytes, !unpack_pack_decimal by done.
  by destruct o as [? []].
Qed.

(** C35: an obligation reads back exactly as it was packed when its positions fit in
    the 1096 bytes the layout has for them, whatever the buffer held. *)
Theorem obligation_roundtrip (o : Obligation) (dst : bytes)
    (Hwf : obligation_wf o) (Hl : (OBLIGATION_LEN <= length dst)%nat)
    (Hfit : (positions_len o <= DATA_FLAT_LEN)%nat) :
  exists bs, pack_into_slice o dst = Ok bs /\ length bs = length dst /\
    drop OBLIGATION_LEN bs = drop OBLIGATION_LEN dst /\ unpack_from_slice bs = Ok o.
Proof. by apply obligation_unpack_pack. Qed.

Definition packable_obligation : Obligation :=
  mkObligation 1 (LastUpdate.new 7) 10 77
    [mkObligationCollateral 20 1000000 (from_int 100)]
    [mkObligationLiquidity 21 Decimal.one (from_int 30000000) (from_int 30)]
    (from_int 100) (from_int 30) (from_int 30) (from_int 50) (from_int 55)
    (from_int 60) false.

Lemma packable_wf : obligation_wf packable_obligation.
Proof.
  split; lazymatch goal with
         | |- Forall _ _ => repeat constructor; vm_compute; congruence
         | |- (_ < _)%nat => vm_compute; lia
         | |- _ => by vm_compute
         end.
Qed.

Lemma obligation_roundtrip_witness :
  exists bs, pack_into_slice packable_obligation (zero_bytes 1300) = Ok bs /\
    unpack_from_slice bs = Ok packable_obligation.
Proof.
  destruct (obligation_roundtrip packable_obligation (zero_bytes 1300) packable_wf
    ltac:(vm_compute; lia) ltac:(vm_compute; lia)) as (bs & Hp & _ & _ & Hu).
  exists bs. split; [exact Hp | exact Hu].
Defined.

(** Packing entries past the end of the data panics. *)
Lemma pack_entries_overflow {A : Type} (len : nat) (encode : A -> result bytes)
    (wf : A -> Prop) (size : nat) (xs : list A) :
  (0 < len)%nat -> (size <= len)%nat ->
  (forall x, wf x -> exists bs, encode x = Ok bs /\ length bs = size) ->
  forall offset data, Forall wf xs -> (offset <= length data)%nat ->
  (length data < offset + length xs * len)%nat ->
  pack_entries len encode xs offset data = Panic.
Proof.
  intros Hpos Hsize Henc. induction xs as [|x xs IH]; intros offset data Hwf Ho Hl; simpl in *.
  { lia. }
  apply list.Forall_cons in Hwf as [Hx Hxs]. destruct (Henc x Hx) as (bs & He & Hb).
  rewrite He. mred. unfold write_entry.
  destruct (Nat.ltb_spec (length data) (offset + len)); [done|]. mred.
  assert (Hlen : length (take offset data ++ bs ++ drop (offset + length bs) data) = length data).
  { rewrite !length_app, length_take, length_drop. lia. }
  apply IH; [done|rewrite Hlen; lia|rewrite Hlen; lia].
Qed.

Lemma oversized_panics (o : Obligation) (dst : bytes) :
  obligation_wf o -> (DATA_FLAT_LEN < positions_len o)%nat -> pack_into_slice o dst = Panic.
Proof.
  intros Hwf Hover.
  unfold pack_into_slice.
  destruct (Nat.ltb_spec (length dst) OBLIGATION_LEN) as [|Hl]; [done|].
  assert (Hold : length (field_at obligation_widths 15 dst) = DATA_FLAT_LEN).
  { apply length_field_at; [exact Hl|done]. }
  pose proof Hwf as [].
  rewrite !pack_decimal_ok by done. mred. rewrite !unwrap_fit_len by lia. mred.
  unfold positions_len in Hover. set (data := field_at obligation_widths 15 dst) in *.
  destruct (Nat.le_gt_cases (length (deposits o) * OBLIGATION_COLLATERAL_LEN) DATA_FLAT_LEN)
    as [Hd|Hd].
  - destruct (pack_entries_ok OBLIGATION_COLLATERAL_LEN 56 collateral_bytes unpack_collateral
      collateral_wf collateral_size collateral_entry (deposits o) 0 data (wf_ob_deposits o Hwf)
      ltac:(lia)) as (d1 & Hp1 & Hl1 & _ & _).
    rewrite Hp1. mred.
    rewrite (pack_entries_overflow _ _ liquidity_wf 80); [done|unfold OBLIGATION_LIQUIDITY_LEN; lia..|
      | |lia|lia].
    + intros x Hx. destruct (liquidity_entry x Hx) as (bs & ? & ? & _). eauto.
    + exact (wf_ob_borrows o Hwf).
  - rewrite (pack_entries_overflow _ _ collateral_wf 56);
      [done|unfold OBLIGATION_COLLATERAL_LEN; lia..| | |lia|lia].
    + intros x Hx. destruct (collateral_entry x Hx) as (bs & ? & ? & _). eauto.
    + exact (wf_ob_deposits o Hwf).
Qed.

(** Ten borrows do not fit.  The layout reserves the bytes of one deposit and
    nine borrows, while the position limit alone allows ten borrows: packing an
    obligation whose positions exceed the space panics, so such an obligation
    can never be stored. *)
Theorem oversized_obligation_panics (o : Obligation) (dst : bytes)
    (Hwf : obligation_wf o) (Hover : (DATA_FLAT_LEN < positions_len o)%nat) :
  pack_into_slice o dst = Panic.
Proof. by apply oversized_panics. Qed.

Definition ten_borrows : Obligation :=
  set_borrows packable_obligation
    (replicate 10 (mkObligationLiquidity 21 Decimal.one (from_int 3) (from_int 3))).

Lemma ten_borrows_wf : obligation_wf (set_deposits ten_borrows []).
Proof.
  split; lazymatch goal with
         | |- Forall _ _ => repeat constructor; vm_compute; congruence
         | |- (_ < _)%nat => vm_compute; lia
         | |- _ => by vm_compute
         end.
Qed.

Lemma oversized_obligation_panics_witness :
  pack_into_slice (set_deposits ten_borrows []) (zero_bytes 1300) = Panic.
Proof.
  exact (oversized_obligation_panics (set_deposits ten_borrows []) (zero_bytes 1300)
    ten_borrows_wf ltac:(vm_compute; lia)).
Defined.
