(* ===== verification/Nonneg.v ===== *)
(** Ranges: what reading an account guarantees (every integer fits the width of its
    field, whatever the bytes), and that no amount is negative (the arithmetic of
    decimals and of rates, and the calculations on reserves, keep what the unsigned types
    of the source promise). *)

From S2P Require Import Prelude Errors Common Rate Decimal RatePow Codec LastUpdate.
From S2P Require Import RateLimiter RateLimiterSpec ReserveConfig ReserveConfigSpec.
From S2P Require Import ObligationCollateral ObligationLiquidity Obligation ObligationCodec.
From S2P Require Import ReserveLiquidity ReserveCollateral Reserve ReserveRates.
From S2P Require Import ReserveExchange ReserveCalc ReserveLiquidation ReserveCodec.

Lemma le_bytes_width n bs :
  length bs = n -> in_uint (8 * Z.of_nat n) (from_le_bytes bs).
Proof. intros <-. apply from_le_bytes_range. Qed.

Lemma in_uint_max w a b : in_uint w a -> in_uint w b -> in_uint w (Z.max a b).
Proof. unfold in_uint. lia. Qed.

Lemma in_uint_min w a b : in_uint w a -> in_uint w b -> in_uint w (Z.min a b).
Proof. unfold in_uint. lia. Qed.

Create HintDb widths discriminated.
#[export] Hint Resolve in_uint_max in_uint_min pubkey_from_bytes_range unpack_decimal_u128
  : widths.
#[export] Hint Extern 1 (in_uint _ (from_le_bytes ?l)) =>
  (match goal with H : length l = ?n |- _ => exact (le_bytes_width n l H) end) : widths.

(** The fields of a slice as variables, each with its width. *)
Lemma fields_of_slice widths n (src : bytes) :
  total_width widths = n -> (n <= length src)%nat ->
  length <$> array_refs widths (take n src) = widths.
Proof.
  intros <- Hl. apply array_refs_widths. rewrite length_take. lia.
Qed.

Ltac split_fields H :=
  lazymatch type of H with
  | match ?fs with _ => _ end = _ =>
      lazymatch type of fs with
      | list _ => destruct fs; cbn [fmap list_fmap] in *; try discriminate; split_fields H
      | _ => idtac
      end
  | _ => idtac
  end.

Lemma limiter_unpack_wf src r :
  RateLimiter.unpack_from_slice src = Ok r -> rate_limiter_wf r.
Proof.
  unfold RateLimiter.unpack_from_slice.
  destruct (Nat.ltb_spec (length src) RATE_LIMITER_LEN); [discriminate|].
  pose proof (fields_of_slice rate_limiter_widths RATE_LIMITER_LEN src eq_refl ltac:(lia)) as Hw.
  set (fs := array_refs _ _) in *. clearbody fs. intros Hr. split_fields Hr.
  injection Hr as <-. injection Hw as ?????.
  split; [split; cbn; auto with widths|]. cbn. split_and!; auto with widths.
Qed.

Lemma reserve_unpack_wf src r :
  ReserveCodec.unpack_from_slice src = Ok r -> reserve_wf r.
Proof.
  unfold ReserveCodec.unpack_from_slice.
  destruct (Nat.ltb_spec (length src) RESERVE_LEN); [discriminate|].
  pose proof (fields_of_slice reserve_widths RESERVE_LEN src eq_refl ltac:(lia)) as Hw.
  set (fs := array_refs _ _) in *. clearbody fs. intros Hr. split_fields Hr.
  injection Hw. clear Hw. intros. minv Hr.
  assert (Hver : in_uint 8 (from_le_bytes l)) by auto with widths.
  apply limiter_unpack_wf in E1.
  assert (H50 : in_uint 8 MAX_PROTOCOL_LIQUIDATION_FEE_DECA_BPS) by done.
  split; cbn; auto with widths;
    [unfold in_uint in Hver; lia|].
  split; cbn; auto with widths; [|unfold reserve_fees_wf; cbn; split_and!; auto with widths].
  apply in_uint_max; [apply (in_uint_mono 8); [done|]|]; auto with widths.
Qed.

Lemma collateral_unpack_wf entry c :
  length entry = OBLIGATION_COLLATERAL_LEN -> unpack_collateral entry = Ok c ->
  collateral_wf c.
Proof.
  intros Hl. pose proof (array_refs_widths deposit_widths entry) as Hw.
  rewrite Hl in Hw. specialize (Hw ltac:(reflexivity)). unfold unpack_collateral.
  set (fs := array_refs _ _) in *. clearbody fs. intros Hr. split_fields Hr.
  injection Hr as <-. injection Hw as ????. unfold collateral_wf. cbn.
  split_and!; auto with widths.
Qed.

Lemma liquidity_unpack_wf entry l :
  length entry = OBLIGATION_LIQUIDITY_LEN -> unpack_liquidity entry = Ok l ->
  ObligationLiquidity.liquidity_wf l.
Proof.
  intros Hl. pose proof (array_refs_widths borrow_widths entry) as Hw.
  rewrite Hl in Hw. specialize (Hw ltac:(reflexivity)). unfold unpack_liquidity.
  set (fs := array_refs _ _) in *. clearbody fs. intros Hr. split_fields Hr.
  injection Hr as <-. injection Hw as ?????. unfold ObligationLiquidity.liquidity_wf. cbn.
  split_and!; auto with widths.
Qed.

Lemma unpack_entries_wf {A : Type} len (decode : bytes -> result A) (wf : A -> Prop) data
    (Hdecode : forall e x, length e = len -> decode e = Ok x -> wf x) n : forall offset o xs,
  unpack_entries len decode n offset data = Ok (o, xs) -> Forall wf xs.
Proof.
  induction n as [|n IH]; intros offset o xs H; simpl in H.
  - injection H as _ <-. constructor.
  - minv H. apply list.Forall_cons. split; [|by eapply IH].
    eapply Hdecode; [|exact E0]. unfold read_entry in E.
    destruct (Nat.ltb_spec (length data) (offset + len)); [discriminate|].
    injection E as <-. rewrite length_take, length_drop. lia.
Qed.

(** All of [obligation_wf] but the bound on the number of positions, which the
    layout enforces by another limit. *)
Record obligation_ranges (o : Obligation) : Prop := {
  rng_slot : is_u64 (slot (Obligation.last_update o));
  rng_market : is_u256 (Obligation.lending_market o);
  rng_owner : is_u256 (owner o);
  rng_deposits : Forall collateral_wf (deposits o);
  rng_borrows : Forall ObligationLiquidity.liquidity_wf (borrows o);
  rng_deposited : dec_u128 (deposited_value o);
  rng_borrowed : dec_u128 (borrowed_value o);
  rng_upper : dec_u128 (borrowed_value_upper_bound o);
  rng_allowed : dec_u128 (allowed_borrow_value o);
  rng_unhealthy : dec_u128 (unhealthy_borrow_value o);
  rng_super_unhealthy : dec_u128 (super_unhealthy_borrow_value o);
}.

Lemma obligation_unpack_wf src o :
  ObligationCodec.unpack_from_slice src = Ok o -> obligation_ranges o.
Proof.
  unfold ObligationCodec.unpack_from_slice.
  destruct (Nat.ltb_spec (length src) OBLIGATION_LEN); [discriminate|].
  pose proof (fields_of_slice obligation_widths OBLIGATION_LEN src eq_refl ltac:(lia)) as Hw.
  set (fs := array_refs _ _) in *. clearbody fs. intros Hr. split_fields Hr.
  injection Hw. clear Hw. intros. minv Hr.
  split; cbn; auto with widths.
  - by eapply unpack_entries_wf, E; apply collateral_unpack_wf.
  - by eapply unpack_entries_wf, E0; apply liquidity_unpack_wf.
Qed.

Definition dec_nonneg (d : Decimal) : Prop := 0 <= dec_raw d.
Definition rate_nn (r : Rate) : Prop := 0 <= rate_raw r.

Section decimals.
Implicit Types a b c : Decimal.

Lemma add_nonneg a b c : try_add a b = Ok c -> dec_nonneg a -> dec_nonneg b -> dec_nonneg c.
Proof. unfold dec_nonneg. intros [-> _]%dec_add_inv. lia. Qed.

Lemma sub_nonneg a b c : try_sub a b = Ok c -> dec_nonneg c.
Proof. unfold dec_nonneg. intros [-> ?]%dec_sub_inv. lia. Qed.

Lemma mul_nonneg a b c : try_mul a b = Ok c -> dec_nonneg a -> dec_nonneg b -> dec_nonneg c.
Proof.
  unfold dec_nonneg. intros [-> _]%dec_mul_inv ??. apply div_nonneg; [nia|done].
Qed.

Lemma mul_rate_nonneg a (r : Rate) c :
  try_mul a r = Ok c -> dec_nonneg a -> rate_nn r -> dec_nonneg c.
Proof.
  unfold dec_nonneg, rate_nn. intros [-> _]%dec_mul_rate_inv ??. apply div_nonneg; [nia|done].
Qed.

Lemma mul_u64_nonneg a (n : Z) c : try_mul a n = Ok c -> dec_nonneg a -> 0 <= n -> dec_nonneg c.
Proof. unfold dec_nonneg. intros [-> _]%dec_mul_u64_inv ??. nia. Qed.

Lemma div_dec_nonneg a b c : try_div a b = Ok c -> dec_nonneg a -> dec_nonneg b -> dec_nonneg c.
Proof.
  unfold dec_nonneg. intros (-> & _ & ?)%dec_div_inv ??.
  apply div_nonneg; [unfold WAD; lia|lia].
Qed.

Lemma min_nonneg a b : dec_nonneg a -> dec_nonneg b -> dec_nonneg (dec_min a b).
Proof. unfold dec_nonneg. rewrite dec_min_raw. lia. Qed.

Lemma max_nonneg a b : dec_nonneg a -> dec_nonneg b -> dec_nonneg (dec_max a b).
Proof. unfold dec_nonneg. rewrite dec_max_raw. lia. Qed.

Lemma from_int_nonneg n : 0 <= n -> dec_nonneg (from_int n).
Proof. unfold dec_nonneg. cbn. unfold WAD. lia. Qed.

Lemma from_percent_nonneg n : 0 <= n -> dec_nonneg (Decimal.from_percent n).
Proof. unfold dec_nonneg. cbn. unfold PERCENT_SCALER. lia. Qed.

Lemma rate_from_percent_nonneg n : 0 <= n -> rate_nn (Rate.from_percent n).
Proof. unfold rate_nn. cbn. unfold PERCENT_SCALER. lia. Qed.

Lemma deca_bps_nonneg n d : from_deca_bps n = Ok d -> 0 <= n -> dec_nonneg d.
Proof.
  rewrite from_deca_bps_eq. intros [= <-] ?. unfold dec_nonneg. cbn.
  apply div_nonneg; [unfold WAD; lia|done].
Qed.

Lemma floor_nonneg a n : try_floor_u64 a = Ok n -> dec_nonneg a -> 0 <= n.
Proof. intros [-> _]%dec_floor_inv ?. by apply div_nonneg. Qed.

Lemma ceil_nonneg a n : try_ceil_u64 a = Ok n -> dec_nonneg a -> 0 <= n.
Proof.
  unfold dec_nonneg. intros [-> _]%dec_ceil_inv ?. apply div_nonneg; [unfold WAD; lia|done].
Qed.

Lemma zero_nonneg : dec_nonneg Decimal.zero.
Proof. done. Qed.

Lemma one_nonneg : dec_nonneg Decimal.one.
Proof. done. Qed.
End decimals.

Section rates.
Implicit Types a b c : Rate.

Lemma rate_add_nonneg a b c : try_add a b = Ok c -> rate_nn a -> rate_nn b -> rate_nn c.
Proof. unfold rate_nn. intros [-> _]%rate_add_inv. lia. Qed.

Lemma rate_sub_nonneg a b c : try_sub a b = Ok c -> rate_nn c.
Proof. unfold rate_nn. intros [-> ?]%rate_sub_inv. lia. Qed.

Lemma rate_mul_nonneg a b c : try_mul a b = Ok c -> rate_nn a -> rate_nn b -> rate_nn c.
Proof. unfold rate_nn. intros [-> _]%rate_mul_inv ??. apply div_nonneg; [nia|done]. Qed.

Lemma rate_div_nonneg a b c : try_div a b = Ok c -> rate_nn a -> rate_nn b -> rate_nn c.
Proof.
  unfold rate_nn. intros (-> & _ & ?)%rate_div_inv ??.
  apply div_nonneg; [unfold WAD; lia|lia].
Qed.

Lemma from_rate_nonneg a : rate_nn a -> dec_nonneg (from_rate a).
Proof. done. Qed.

Lemma rate_try_from_nonneg d a : rate_try_from d = Ok a -> dec_nonneg d -> rate_nn a.
Proof. unfold rate_nn. by intros [-> _]%rate_try_from_inv. Qed.

Lemma from_percent_u64_nonneg n : 0 <= n -> rate_nn (Rate.from_percent_u64 n).
Proof. unfold rate_nn. cbn. unfold PERCENT_SCALER. lia. Qed.

Lemma rate_zero_nonneg : rate_nn Rate.zero.
Proof. done. Qed.

Lemma rate_one_nonneg : rate_nn Rate.one.
Proof. done. Qed.
End rates.

Create HintDb nonneg discriminated.
#[export] Hint Resolve add_nonneg sub_nonneg mul_nonneg mul_rate_nonneg mul_u64_nonneg
  div_dec_nonneg min_nonneg max_nonneg from_int_nonneg from_percent_nonneg
  rate_from_percent_nonneg deca_bps_nonneg floor_nonneg ceil_nonneg zero_nonneg one_nonneg
  rate_add_nonneg rate_sub_nonneg rate_mul_nonneg rate_div_nonneg from_rate_nonneg
  rate_try_from_nonneg from_percent_u64_nonneg rate_zero_nonneg rate_one_nonneg : nonneg.

Ltac nonneg := eauto 12 with nonneg.

(** ** Reserves *)

Section reserves.
Context (r : Reserve) (Hwf : reserve_wf r).

Lemma price_nonneg : dec_nonneg (market_price (liquidity r)).
Proof. apply (wf_price _ Hwf). Qed.

Lemma smoothed_price_nonneg : dec_nonneg (smoothed_market_price (liquidity r)).
Proof. apply (wf_smoothed_price _ Hwf). Qed.

Lemma available_nonneg : 0 <= available_amount (liquidity r).
Proof. apply (wf_available _ Hwf). Qed.

Lemma debt_nonneg : dec_nonneg (borrowed_amount_wads (liquidity r)).
Proof. apply (wf_borrowed _ Hwf). Qed.

Lemma factor_nonneg f : decimals_factor r = Ok f -> dec_nonneg f.
Proof.
  unfold decimals_factor. intros H. minv H.
  apply math_Ok_inv, checked_pow_Some_inv in E as [-> _].
  apply from_int_nonneg, Z.pow_nonneg. lia.
Qed.

Lemma borrow_weight_nonneg w : borrow_weight r = Ok w -> dec_nonneg w.
Proof.
  unfold dec_nonneg. intros ->%borrow_weight_inv.
  pose proof (wf_added_borrow_weight_bps _ (wf_config _ Hwf)) as [? _].
  assert (0 <= WAD * added_borrow_weight_bps (config r) / 10000)
    by (apply div_nonneg; [unfold WAD; lia|done]). unfold WAD in *. lia.
Qed.

#[local] Hint Resolve price_nonneg smoothed_price_nonneg available_nonneg debt_nonneg
  factor_nonneg borrow_weight_nonneg : nonneg.

Lemma market_value_nonneg a v : market_value r a = Ok v -> dec_nonneg a -> dec_nonneg v.
Proof. unfold market_value. intros H ?. minv H. nonneg. Qed.

Lemma upper_value_nonneg a v :
  market_value_upper_bound r a = Ok v -> dec_nonneg a -> dec_nonneg v.
Proof. unfold market_value_upper_bound. intros H ?. minv H. nonneg. Qed.

Lemma lower_value_nonneg a v :
  market_value_lower_bound r a = Ok v -> dec_nonneg a -> dec_nonneg v.
Proof. unfold market_value_lower_bound. intros H ?. minv H. nonneg. Qed.

Lemma collateral_liquidity_nonneg e a v :
  collateral_exchange_rate r = Ok e -> decimal_collateral_to_liquidity e a = Ok v ->
  dec_nonneg a -> dec_nonneg v.
Proof.
  intros He H Ha. apply rate_nonneg in He; [|apply (wf_collateral_total _ Hwf)].
  unfold decimal_collateral_to_liquidity in H. apply dec_div_rate_inv in H as (Hv & _ & Hne).
  unfold dec_nonneg in *. rewrite Hv. apply div_nonneg; [unfold WAD; lia|lia].
Qed.

(** What is borrowed is an amount. *)
Lemma calculate_borrow_nonneg n maxv rem b :
  0 <= n -> dec_nonneg maxv -> dec_nonneg rem ->
  calculate_borrow r n maxv rem = Ok b -> dec_nonneg (borrow_amount b).
Proof.
  intros Hn Hmax Hrem H. unfold calculate_borrow in H. minv H.
  apply math_Ok_inv, checked_pow_Some_inv in E as [-> _].
  assert (0 <= 10 ^ mint_decimals (liquidity r)) by (apply Z.pow_nonneg; lia).
  destruct (n =? u64_max).
  - minv H. cbn. nonneg.
  - minv H. cbn. unfold calculate_borrow_fees in E.
    pose proof (wf_fees _ (wf_config _ Hwf)) as (_ & _ & Hp).
    assert (0 <= borrow_fee).
    { apply calculate_fees_inv in E as Hc; [|apply Hp].
      destruct Hc as [(_ & -> & _)|(_ & d & Hd & -> & _)]; [done|].
      unfold round_wad. unfold minimum_fee in Hd. apply div_nonneg; [|done].
      case_match; unfold HALF_WAD, WAD in *; lia. }
    nonneg.
Qed.

End reserves.

(** ** Liquidations *)

Lemma calculate_bonus_nonneg r o b :
  reserve_wf r -> calculate_bonus r o = Ok b -> dec_nonneg b.
Proof.
  intros Hwf H. pose proof (wf_config _ Hwf) as Hc.
  pose proof (proj1 (wf_liquidation_bonus _ Hc)).
  pose proof (proj1 (wf_protocol_liquidation_fee _ Hc)).
  unfold calculate_bonus in H. minv H.
  assert (dec_nonneg (Decimal.from_percent MAX_BONUS_PCT)) by done.
  destruct (dec_eqb _ _); minv H; [nonneg|].
  assert (dec_nonneg v2)
    by (apply unwrap_or_else_Ok_inv in E2 as [E2|[_ ->]]; nonneg).
  nonneg.
Qed.

(** The settled amount of a liquidation is covered by what is repaid. *)
Record liquidation_amounts (l : CalculateLiquidationResult) : Prop := {
  la_settle : dec_nonneg (settle_amount l);
  la_repay : repay_amount l = (WAD - 1 + dec_raw (settle_amount l)) / WAD;
  la_withdraw : 0 <= withdraw_amount l;
}.

Lemma ceil_amounts s n w b :
  try_ceil_u64 s = Ok n -> dec_nonneg s -> 0 <= w ->
  liquidation_amounts (mkCalculateLiquidationResult s n w b).
Proof. intros [-> _]%dec_ceil_inv Hs Hw. by split. Qed.

Lemma calculate_liquidation_amounts r n o l c res :
  reserve_wf r -> 0 <= n -> dec_nonneg (borrowed_value o) ->
  dec_nonneg (ObligationLiquidity.borrowed_amount_wads l) ->
  dec_nonneg (ObligationLiquidity.market_value l) ->
  0 <= deposited_amount c -> dec_nonneg (ObligationCollateral.market_value c) ->
  calculate_liquidation r n o l c = Ok res -> liquidation_amounts res.
Proof.
  intros Hwf Hn Ho Hl Hlv Hc Hcv H. unfold calculate_liquidation in H. minv H.
  apply calculate_bonus_nonneg in E; [|done].
  assert (dec_nonneg v0) by nonneg.
  assert (Hmax : dec_nonneg (if n =? u64_max then ObligationLiquidity.borrowed_amount_wads l
    else dec_min (from_int n) (ObligationLiquidity.borrowed_amount_wads l)))
    by (destruct (n =? u64_max); [exact Hl|nonneg]).
  destruct (dec_le _ _).
  - minv H. destruct (dec_cmp _ _); minv H; eapply ceil_amounts; eauto; try (nonneg || lia).
  - minv H. apply max_liquidation_amount_inv in E1 as (_ & _ & _ & [Ha _] & _); [|done..].
    destruct (dec_cmp _ _); minv H; eapply ceil_amounts; eauto; nonneg.
Qed.

(** ** Interest *)

Section interest.
Context (r : Reserve) (Hc : reserve_config_wf (Reserve.config r)).

Lemma utilization_nonneg l u :
  0 <= available_amount l -> dec_nonneg (borrowed_amount_wads l) ->
  utilization_rate l = Ok u -> rate_nn u.
Proof.
  unfold utilization_rate. intros Ha Hb H. minv H. destruct (_ || _); [by minv H|]. minv H.
  nonneg.
Qed.

#[local] Hint Extern 5 (0 <= _ - _) => lia : nonneg.

(** Whatever the points of the curve, every step of it is unsigned. *)
Lemma current_borrow_rate_nonneg u :
  0 <= available_amount (liquidity r) -> dec_nonneg (borrowed_amount_wads (liquidity r)) ->
  current_borrow_rate r = Ok u -> rate_nn u.
Proof.
  unfold current_borrow_rate. intros Ha Hb H. minv H.
  apply utilization_nonneg in E; [|done..].
  pose proof (proj1 (wf_optimal_utilization_rate _ Hc)).
  pose proof (proj1 (wf_max_utilization_rate _ Hc)).
  pose proof (proj1 (wf_min_borrow_rate _ Hc)).
  pose proof (proj1 (wf_optimal_borrow_rate _ Hc)).
  pose proof (proj1 (wf_max_borrow_rate _ Hc)).
  pose proof (proj1 (wf_super_max_borrow_rate _ Hc)).
  destruct (rate_le _ _); [destruct (rate_eqb _ _)|destruct (rate_le _ _)]; minv H;
    try apply math_Ok_inv, checked_sub_Some_inv in E0 as [-> ?];
    try apply math_Ok_inv, checked_sub_Some_inv in E1 as [-> ?].
  all: nonneg.
Qed.
End interest.

Lemma compound_nonneg (l l' : ReserveLiquidity) rate n take :
  rate_nn rate -> rate_nn take ->
  dec_nonneg (borrowed_amount_wads l) -> dec_nonneg (cumulative_borrow_rate_wads l) ->
  dec_nonneg (accumulated_protocol_fees_wads l) ->
  compound_interest l rate n take = Ok l' ->
  exists b c f, l' = set_debt l b c f /\ dec_nonneg b /\ dec_nonneg c /\ dec_nonneg f.
Proof.
  intros Hr Ht Hb Hcu Hf H. unfold compound_interest in H. minv H.
  apply rate_div_u64_inv in E as [Hv _]. apply rate_add_inv in E0 as [Hv0 _].
  cbn [Rate.one rate_raw] in Hv0.
  assert (rate_nn v) by (unfold rate_nn in *; rewrite Hv; by apply div_nonneg).
  unfold rate_nn in *. apply try_pow_growth in E1; [|lia].
  assert (rate_nn v1) by (unfold rate_nn, WAD in *; lia).
  do 3 eexists. split; [done|]. split_and!; nonneg.
Qed.
