(* ===== verification/Instruction.v ===== *)
(** instruction.rs: the instructions of the program and their wire format, which loses
    nothing in either direction. *)

From Stdlib Require Import Init.Byte.
From S2P Require Import Prelude Errors Common Rate Decimal Codec.
From S2P Require Import RateLimiter ReserveConfig ReserveConfigSpec LendingMarket.

(** Instructions supported by the lending program. *)
Inductive LendingInstruction : Type :=
  | InitLendingMarket (owner : Pubkey) (quote_currency : bytes)
  | SetLendingMarketOwnerAndConfig (new_owner : Pubkey) (rate_limiter_config : RateLimiterConfig)
      (whitelisted_liquidator : option Pubkey) (risk_authority : Pubkey)
  | InitReserve (liquidity_amount : Z) (config : ReserveConfig)
  | RefreshReserve
  | DepositReserveLiquidity (liquidity_amount : Z)
  | RedeemReserveCollateral (collateral_amount : Z)
  | InitObligation
  | RefreshObligation
  | DepositObligationCollateral (collateral_amount : Z)
  | WithdrawObligationCollateral (collateral_amount : Z)
  | BorrowObligationLiquidity (liquidity_amount : Z)
  | RepayObligationLiquidity (liquidity_amount : Z)
  | LiquidateObligation (liquidity_amount : Z)
  | FlashLoan (amount : Z)
  | DepositReserveLiquidityAndObligationCollateral (liquidity_amount : Z)
  | WithdrawObligationCollateralAndRedeemReserveCollateral (collateral_amount : Z)
  | UpdateReserveConfig (config : ReserveConfig) (rate_limiter_config : RateLimiterConfig)
  | LiquidateObligationAndRedeemReserveCollateral (liquidity_amount : Z)
  | RedeemFees
  | FlashBorrowReserveLiquidity (liquidity_amount : Z)
  | FlashRepayReserveLiquidity (liquidity_amount : Z) (borrow_instruction_index : Z)
  | ForgiveDebt (liquidity_amount : Z)
  | UpdateMarketMetadata.

(** ** Readers: a value and the bytes that follow it *)

Definition unpack_fixed (n : nat) (input : bytes) : result (bytes * bytes) :=
  reject_if (length input <? n)%nat with lending_error InstructionUnpackError then
  Ok (take n input, drop n input).

Definition unpack_u64 (input : bytes) : result (Z * bytes) :=
  let? ' (b, rest) := unpack_fixed 8 input in Ok (from_le_bytes b, rest).

Definition unpack_u8 (input : bytes) : result (Z * bytes) :=
  let? ' (b, rest) := unpack_fixed 1 input in Ok (from_le_bytes b, rest).

Definition unpack_bytes32 (input : bytes) : result (bytes * bytes) := unpack_fixed 32 input.

Definition unpack_pubkey (input : bytes) : result (Pubkey * bytes) :=
  let? ' (key, rest) := unpack_fixed PUBKEY_BYTES input in Ok (pubkey_from_bytes key, rest).

(** The configuration fields that instructions 2 and 16 share: everything but
    the asset type, which is only decoded once all bytes have been read. *)
Definition unpack_config_fields (rest : bytes)
    : result ((ReserveType -> ReserveConfig) * Z * bytes) :=
  let? ' (optimal_utilization_rate, rest) := unpack_u8 rest in
  let? ' (max_utilization_rate, rest) := unpack_u8 rest in
  let? ' (loan_to_value_ratio, rest) := unpack_u8 rest in
  let? ' (liquidation_bonus, rest) := unpack_u8 rest in
  let? ' (liquidation_threshold, rest) := unpack_u8 rest in
  let? ' (min_borrow_rate, rest) := unpack_u8 rest in
  let? ' (optimal_borrow_rate, rest) := unpack_u8 rest in
  let? ' (max_borrow_rate, rest) := unpack_u8 rest in
  let? ' (super_max_borrow_rate, rest) := unpack_u64 rest in
  let? ' (borrow_fee_wad, rest) := unpack_u64 rest in
  let? ' (flash_loan_fee_wad, rest) := unpack_u64 rest in
  let? ' (host_fee_percentage, rest) := unpack_u8 rest in
  let? ' (deposit_limit, rest) := unpack_u64 rest in
  let? ' (borrow_limit, rest) := unpack_u64 rest in
  let? ' (fee_receiver, rest) := unpack_pubkey rest in
  let? ' (protocol_liquidation_fee, rest) := unpack_u8 rest in
  let? ' (protocol_take_rate, rest) := unpack_u8 rest in
  let? ' (added_borrow_weight_bps, rest) := unpack_u64 rest in
  let? ' (asset_type, rest) := unpack_u8 rest in
  let? ' (max_liquidation_bonus, rest) := unpack_u8 rest in
  let? ' (max_liquidation_threshold, rest) := unpack_u8 rest in
  Ok (mkReserveConfig optimal_utilization_rate max_utilization_rate loan_to_value_ratio
        liquidation_bonus max_liquidation_bonus liquidation_threshold
        max_liquidation_threshold min_borrow_rate optimal_borrow_rate max_borrow_rate
        super_max_borrow_rate
        (mkReserveFees borrow_fee_wad flash_loan_fee_wad host_fee_percentage)
        deposit_limit borrow_limit fee_receiver protocol_liquidation_fee protocol_take_rate
        added_borrow_weight_bps,
      asset_type, rest).

(** Instruction 1. *)
Definition unpack_set_lending_market_owner (rest : bytes) : result LendingInstruction :=
  let? ' (new_owner, rest) := unpack_pubkey rest in
  let? ' (window_duration, rest) := unpack_u64 rest in
  let? ' (max_outflow, rest) := unpack_u64 rest in
  let? ' (whitelisted_liquidator, rest) :=
    (let? ' (tag, rest) := unpack_u8 rest in
     match tag with
     | 0 => Ok (None, rest)
     | 1 => let? ' (pubkey, rest) := unpack_pubkey rest in Ok (Some pubkey, rest)
     | _ => fail InstructionUnpackError
     end) in
  let? ' (risk_authority, _rest) := unpack_pubkey rest in
  Ok (SetLendingMarketOwnerAndConfig new_owner
        (mkRateLimiterConfig window_duration max_outflow) whitelisted_liquidator
        risk_authority).

(** Instruction 2. *)
Definition unpack_init_reserve (rest : bytes) : result LendingInstruction :=
  let? ' (liquidity_amount, rest) := unpack_u64 rest in
  let? ' (config, asset_type, _rest) := unpack_config_fields rest in
  let? reserve_type := unwrap_option (reserve_type_from_u8 asset_type) in
  Ok (InitReserve liquidity_amount (config reserve_type)).

(** Instruction 16. *)
Definition unpack_update_reserve_config (rest : bytes) : result LendingInstruction :=
  let? ' (config, asset_type, rest) := unpack_config_fields rest in
  let? ' (window_duration, rest) := unpack_u64 rest in
  let? ' (max_outflow, _rest) := unpack_u64 rest in
  let? reserve_type := unwrap_option (reserve_type_from_u8 asset_type) in
  Ok (UpdateReserveConfig (config reserve_type)
        (mkRateLimiterConfig window_duration max_outflow)).

(** An instruction that carries one [u64]. *)
Definition unpack_amount (instruction : Z -> LendingInstruction) (rest : bytes)
    : result LendingInstruction :=
  let? ' (amount, _rest) := unpack_u64 rest in Ok (instruction amount).

(** Unpacks a byte buffer into an instruction. *)
Definition unpack (input : bytes) : result LendingInstruction :=
  match input with
  | [] => fail InstructionUnpackError
  | tag :: rest =>
      match from_le_bytes [tag] with
      | 0 =>
          let? ' (owner, rest) := unpack_pubkey rest in
          let? ' (quote_currency, _rest) := unpack_bytes32 rest in
          Ok (InitLendingMarket owner quote_currency)
      | 1 => unpack_set_lending_market_owner rest
      | 2 => unpack_init_reserve rest
      | 3 => Ok RefreshReserve
      | 4 => unpack_amount DepositReserveLiquidity rest
      | 5 => unpack_amount RedeemReserveCollateral rest
      | 6 => Ok InitObligation
      | 7 => Ok RefreshObligation
      | 8 => unpack_amount DepositObligationCollateral rest
      | 9 => unpack_amount WithdrawObligationCollateral rest
      | 10 => unpack_amount BorrowObligationLiquidity rest
      | 11 => unpack_amount RepayObligationLiquidity rest
      | 12 => unpack_amount LiquidateObligation rest
      | 13 => unpack_amount FlashLoan rest
      | 14 => unpack_amount DepositReserveLiquidityAndObligationCollateral rest
      | 15 => unpack_amount WithdrawObligationCollateralAndRedeemReserveCollateral rest
      | 16 => unpack_update_reserve_config rest
      | 17 => unpack_amount LiquidateObligationAndRedeemReserveCollateral rest
      | 18 => Ok RedeemFees
      | 19 => unpack_amount FlashBorrowReserveLiquidity rest
      | 20 =>
          let? ' (liquidity_amount, rest) := unpack_u64 rest in
          let? ' (borrow_instruction_index, _rest) := unpack_u8 rest in
          Ok (FlashRepayReserveLiquidity liquidity_amount borrow_instruction_index)
      | 21 => unpack_amount ForgiveDebt rest
      | 22 => Ok UpdateMarketMetadata
      | _ => fail InstructionUnpackError
      end
  end.

(** ** Writers *)

Definition pack_config (c : ReserveConfig) : bytes :=
  to_le_bytes 1 (optimal_utilization_rate c) ++
  to_le_bytes 1 (max_utilization_rate c) ++
  to_le_bytes 1 (loan_to_value_ratio c) ++
  to_le_bytes 1 (liquidation_bonus c) ++
  to_le_bytes 1 (liquidation_threshold c) ++
  to_le_bytes 1 (min_borrow_rate c) ++
  to_le_bytes 1 (optimal_borrow_rate c) ++
  to_le_bytes 1 (max_borrow_rate c) ++
  to_le_bytes 8 (super_max_borrow_rate c) ++
  to_le_bytes 8 (borrow_fee_wad (fees c)) ++
  to_le_bytes 8 (flash_loan_fee_wad (fees c)) ++
  to_le_bytes 1 (host_fee_percentage (fees c)) ++
  to_le_bytes 8 (deposit_limit c) ++
  to_le_bytes 8 (borrow_limit c) ++
  pubkey_to_bytes (fee_receiver c) ++
  to_le_bytes 1 (protocol_liquidation_fee c) ++
  to_le_bytes 1 (protocol_take_rate c) ++
  to_le_bytes 8 (added_borrow_weight_bps c) ++
  to_le_bytes 1 (reserve_type_to_u8 (reserve_type c)) ++
  to_le_bytes 1 (max_liquidation_bonus c) ++
  to_le_bytes 1 (max_liquidation_threshold c).

Definition pack_tag (tag : Z) : bytes := to_le_bytes 1 tag.

Definition pack_init_lending_market (owner : Pubkey) (quote_currency : bytes) : bytes :=
  pack_tag 0 ++ pubkey_to_bytes owner ++ quote_currency.

Definition pack_set_lending_market_owner (new_owner : Pubkey) (config : RateLimiterConfig)
    (whitelisted_liquidator : option Pubkey) (risk_authority : Pubkey) : bytes :=
  pack_tag 1 ++ pubkey_to_bytes new_owner ++ to_le_bytes 8 (window_duration config) ++
  to_le_bytes 8 (max_outflow config) ++
  match whitelisted_liquidator with
  | Some liquidator => to_le_bytes 1 1 ++ pubkey_to_bytes liquidator
  | None => to_le_bytes 1 0
  end ++
  pubkey_to_bytes risk_authority.

Definition pack_init_reserve (liquidity_amount : Z) (config : ReserveConfig) : bytes :=
  pack_tag 2 ++ to_le_bytes 8 liquidity_amount ++ pack_config config.

Definition pack_update_reserve_config (config : ReserveConfig) (limiter : RateLimiterConfig)
    : bytes :=
  pack_tag 16 ++ pack_config config ++ to_le_bytes 8 (window_duration limiter) ++
  to_le_bytes 8 (max_outflow limiter).

(** Packs an instruction into a byte buffer. *)
Definition pack (i : LendingInstruction) : bytes :=
  let amount tag n := pack_tag tag ++ to_le_bytes 8 n in
  match i with
  | InitLendingMarket owner quote_currency => pack_init_lending_market owner quote_currency
  | SetLendingMarketOwnerAndConfig new_owner config liquidator risk_authority =>
      pack_set_lending_market_owner new_owner config liquidator risk_authority
  | InitReserve n config => pack_init_reserve n config
  | RefreshReserve => pack_tag 3
  | DepositReserveLiquidity n => amount 4 n
  | RedeemReserveCollateral n => amount 5 n
  | InitObligation => pack_tag 6
  | RefreshObligation => pack_tag 7
  | DepositObligationCollateral n => amount 8 n
  | WithdrawObligationCollateral n => amount 9 n
  | BorrowObligationLiquidity n => amount 10 n
  | RepayObligationLiquidity n => amount 11 n
  | LiquidateObligation n => amount 12 n
  | FlashLoan n => amount 13 n
  | DepositReserveLiquidityAndObligationCollateral n => amount 14 n
  | WithdrawObligationCollateralAndRedeemReserveCollateral n => amount 15 n
  | UpdateReserveConfig config limiter => pack_update_reserve_config config limiter
  | LiquidateObligationAndRedeemReserveCollateral n => amount 17 n
  | RedeemFees => pack_tag 18
  | FlashBorrowReserveLiquidity n => amount 19 n
  | FlashRepayReserveLiquidity n index => pack_tag 20 ++ to_le_bytes 8 n ++ to_le_bytes 1 index
  | ForgiveDebt n => amount 21 n
  | UpdateMarketMetadata => []
  end.

(** ** Round trip *)

(** Fields of the widths the wire format has; market metadata is written by its
    own builder, and [pack] leaves it out. *)
Definition instruction_wf (i : LendingInstruction) : Prop :=
  match i with
  | InitLendingMarket owner quote_currency => is_u256 owner /\ length quote_currency = 32%nat
  | SetLendingMarketOwnerAndConfig new_owner config liquidator risk_authority =>
      is_u256 new_owner /\ rate_limiter_config_wf config /\
      (forall k, liquidator = Some k -> is_u256 k) /\ is_u256 risk_authority
  | InitReserve n config => is_u64 n /\ reserve_config_wf config
  | UpdateReserveConfig config limiter =>
      reserve_config_wf config /\ rate_limiter_config_wf limiter
  | FlashRepayReserveLiquidity n index => is_u64 n /\ is_u8 index
  | DepositReserveLiquidity n | RedeemReserveCollateral n | DepositObligationCollateral n
  | WithdrawObligationCollateral n | BorrowObligationLiquidity n | RepayObligationLiquidity n
  | LiquidateObligation n | FlashLoan n | DepositReserveLiquidityAndObligationCollateral n
  | WithdrawObligationCollateralAndRedeemReserveCollateral n
  | LiquidateObligationAndRedeemReserveCollateral n | FlashBorrowReserveLiquidity n
  | ForgiveDebt n => is_u64 n
  | RefreshReserve | InitObligation | RefreshObligation | RedeemFees => True
  | UpdateMarketMetadata => False
  end.

Section readers.
Implicit Types rest : bytes.

Lemma unpack_fixed_app n b rest :
  length b = n -> unpack_fixed n (b ++ rest) = Ok (b, rest).
Proof.
  intros Hl. unfold unpack_fixed. rewrite length_app.
  destruct (Nat.ltb_spec (length b + length rest) n); [lia|].
  by rewrite take_app_length', drop_app_length' by done.
Qed.

Lemma unpack_u64_app n rest : is_u64 n -> unpack_u64 (to_le_bytes 8 n ++ rest) = Ok (n, rest).
Proof.
  intros. unfold unpack_u64. rewrite unpack_fixed_app by apply length_to_le_bytes.
  mred. by rewrite from_to_le_bytes.
Qed.

Lemma unpack_u8_app n rest : is_u8 n -> unpack_u8 (to_le_bytes 1 n ++ rest) = Ok (n, rest).
Proof.
  intros. unfold unpack_u8. rewrite unpack_fixed_app by apply length_to_le_bytes.
  mred. by rewrite from_to_le_bytes.
Qed.

Lemma unpack_pubkey_app k rest :
  is_u256 k -> unpack_pubkey (pubkey_to_bytes k ++ rest) = Ok (k, rest).
Proof.
  intros. unfold unpack_pubkey. rewrite unpack_fixed_app by apply length_pubkey_to_bytes.
  mred. by rewrite pubkey_from_to_bytes.
Qed.

Lemma reserve_type_u8 t : is_u8 (reserve_type_to_u8 t).
Proof. by destruct t; vm_compute. Qed.

Lemma unpack_config_app c rest :
  reserve_config_wf c ->
  exists mk, unpack_config_fields (pack_config c ++ rest)
    = Ok (mk, reserve_type_to_u8 (reserve_type c), rest) /\ mk (reserve_type c) = c.
Proof.
  intros [? ? ? ? ? ? ? ? ? ? ? (? & ? & ?)]. pose proof (reserve_type_u8 (reserve_type c)).
  unfold unpack_config_fields, pack_config. rewrite <- !app_assoc.
  repeat (first [rewrite unpack_u8_app by done | rewrite unpack_u64_app by done
                | rewrite unpack_pubkey_app by done]; cbn [obind]).
  eexists. split; [reflexivity|]. by destruct c as [? ? ? ? ? ? ? ? ? ? ? []].
Qed.
End readers.

Lemma unpack_amount_app (f : Z -> LendingInstruction) n rest :
  is_u64 n -> unpack_amount f (to_le_bytes 8 n ++ rest) = Ok (f n).
Proof. intros. unfold unpack_amount. by rewrite unpack_u64_app. Qed.

Lemma unpack_set_owner_app k c liq ra rest :
  instruction_wf (SetLendingMarketOwnerAndConfig k c liq ra) ->
  unpack (pack (SetLendingMarketOwnerAndConfig k c liq ra) ++ rest)
    = Ok (SetLendingMarketOwnerAndConfig k c liq ra).
Proof.
  intros (Hk & (Hd & Hm) & Hl & Hra). cbn [pack]. unfold pack_set_lending_market_owner.
  rewrite <- !app_assoc.
  change (unpack (pack_tag 1 ++ ?t)) with (unpack_set_lending_market_owner t).
  unfold unpack_set_lending_market_owner.
  rewrite unpack_pubkey_app by done. cbn [obind]. rewrite unpack_u64_app by done. cbn [obind].
  rewrite unpack_u64_app by done. cbn [obind]. destruct c, liq as [liq|].
  - rewrite <- app_assoc, unpack_u8_app by (by vm_compute). cbn [obind].
    rewrite unpack_pubkey_app by (by apply Hl). cbn [obind].
    by rewrite unpack_pubkey_app.
  - rewrite unpack_u8_app by (by vm_compute). cbn [obind]. by rewrite unpack_pubkey_app.
Qed.

Lemma unpack_configs_app i rest :
  instruction_wf i ->
  match i with InitReserve _ _ | UpdateReserveConfig _ _ => True | _ => False end ->
  unpack (pack i ++ rest) = Ok i.
Proof.
  intros Hwf Hi. destruct i; try done; cbn [pack].
  - destruct Hwf as [Hn Hc]. unfold pack_init_reserve. rewrite <- !app_assoc.
    change (unpack (pack_tag 2 ++ ?t)) with (unpack_init_reserve t).
    unfold unpack_init_reserve. rewrite unpack_u64_app by done. cbn [obind].
    destruct (unpack_config_app config rest Hc) as (mk & -> & Hmk). cbn [obind].
    replace (reserve_type_from_u8 _) with (Some (reserve_type config))
      by (by destruct (reserve_type config)).
    mred. by rewrite Hmk.
  - destruct Hwf as [Hc [Hd Hm]]. unfold pack_update_reserve_config. rewrite <- !app_assoc.
    change (unpack (pack_tag 16 ++ ?t)) with (unpack_update_reserve_config t).
    unfold unpack_update_reserve_config.
    destruct (unpack_config_app config (to_le_bytes 8 (window_duration rate_limiter_config) ++
      to_le_bytes 8 (max_outflow rate_limiter_config) ++ rest) Hc) as (mk & -> & Hmk).
    cbn [obind]. rewrite !unpack_u64_app by done. cbn [obind].
    rewrite unpack_u64_app by done. cbn [obind].
    replace (reserve_type_from_u8 _) with (Some (reserve_type config))
      by (by destruct (reserve_type config)).
    mred. rewrite Hmk. by destruct rate_limiter_config.
Qed.

Lemma unpack_init_market_app k q rest :
  instruction_wf (InitLendingMarket k q) ->
  unpack (pack (InitLendingMarket k q) ++ rest) = Ok (InitLendingMarket k q).
Proof.
  intros [Ho Hq]. cbn [pack]. unfold pack_init_lending_market. rewrite <- !app_assoc.
  change (unpack (pack_tag 0 ++ ?t)) with
    (let? ' (owner, rest) := unpack_pubkey t in
     let? ' (quote_currency, _rest) := unpack_bytes32 rest in
     Ok (InitLendingMarket owner quote_currency)).
  rewrite unpack_pubkey_app by done. cbn [obind]. unfold unpack_bytes32.
  by rewrite unpack_fixed_app.
Qed.

Lemma unpack_flash_repay_app n index rest :
  instruction_wf (FlashRepayReserveLiquidity n index) ->
  unpack (pack (FlashRepayReserveLiquidity n index) ++ rest)
    = Ok (FlashRepayReserveLiquidity n index).
Proof.
  intros [Hn Hi]. cbn [pack]. rewrite <- !app_assoc.
  change (unpack (pack_tag 20 ++ ?t)) with
    (let? ' (liquidity_amount, rest) := unpack_u64 t in
     let? ' (borrow_instruction_index, _rest) := unpack_u8 rest in
     Ok (FlashRepayReserveLiquidity liquidity_amount borrow_instruction_index)).
  rewrite unpack_u64_app by done. cbn [obind]. by rewrite unpack_u8_app.
Qed.

Lemma unpack_pack_app i rest : instruction_wf i -> unpack (pack i ++ rest) = Ok i.
Proof.
  intros Hwf. destruct i;
    lazymatch goal with
    | |- context [InitLendingMarket] => by apply unpack_init_market_app
    | |- context [SetLendingMarketOwnerAndConfig] => by apply unpack_set_owner_app
    | |- context [InitReserve] => by apply unpack_configs_app
    | |- context [UpdateReserveConfig] => by apply unpack_configs_app
    | |- context [FlashRepayReserveLiquidity] => by apply unpack_flash_repay_app
    | |- context [pack UpdateMarketMetadata] => destruct Hwf
    | |- context [pack (?f ?n)] => exact (unpack_amount_app f n rest Hwf)
    | |- _ => reflexivity
    end.
Qed.

(** Every instruction but the market metadata update reads back from the bytes
    [pack] writes for it, whatever follows them. *)
Theorem instruction_roundtrip (i : LendingInstruction) (rest : bytes)
    (Hwf : instruction_wf i) :
  unpack (pack i ++ rest) = Ok i.
Proof. by apply unpack_pack_app. Qed.

Lemma instruction_roundtrip_witness :
  unpack (pack (InitReserve 5 test_config) ++ [Byte.x01]) = Ok (InitReserve 5 test_config).
Proof.
  assert (Hwf : instruction_wf (InitReserve 5 test_config)).
  { split; [by vm_compute | exact test_config_wf]. }
  exact (instruction_roundtrip (InitReserve 5 test_config) [Byte.x01] Hwf).
Defined.

(** An asset type byte other than 0 and 1 panics.  Both instructions that carry
    a reserve configuration unwrap the decoded asset type instead of returning
    [InstructionUnpackError] as for every other malformed field: stated for
    [InitReserve], whatever the other fields are. *)
Theorem bad_asset_type_panics (n asset_type : Z) (mk : ReserveType -> ReserveConfig)
    (fields rest : bytes) (Hn : is_u64 n)
    (Hf : unpack_config_fields fields = Ok (mk, asset_type, rest))
    (Hb : asset_type <> 0 /\ asset_type <> 1) :
  unpack (pack_tag 2 ++ to_le_bytes 8 n ++ fields) = Panic.
Proof.
  change (unpack (pack_tag 2 ++ ?t)) with (unpack_init_reserve t).
  unfold unpack_init_reserve. rewrite unpack_u64_app by done. cbn [obind].
  rewrite Hf. cbn [obind]. unfold reserve_type_from_u8.
  destruct Hb as [H0 H1]. destruct asset_type as [|[]|]; done.
Qed.

Lemma bad_asset_type_panics_witness :
  unpack (pack_tag 2 ++ to_le_bytes 8 5 ++ replicate 97 Byte.x02) = Panic.
Proof.
  eapply (bad_asset_type_panics 5 2 _ (replicate 97 Byte.x02)).
  - by vm_compute.
  - vm_compute. reflexivity.
  - done.
Defined.

(** ** Reading loses nothing

    Whatever is decoded has the widths of the wire format, and encodes to the very bytes
    it was read from. *)

Section readers.
Implicit Types b rest : bytes.

Lemma unpack_fixed_inv n b f rest :
  unpack_fixed n b = Ok (f, rest) -> b = f ++ rest /\ length f = n.
Proof.
  unfold unpack_fixed. destruct (Nat.ltb_spec (length b) n); [discriminate|].
  intros [= <- <-]. split; [by rewrite take_drop|]. rewrite length_take. lia.
Qed.

Lemma unpack_u64_inv b n rest :
  unpack_u64 b = Ok (n, rest) -> b = to_le_bytes 8 n ++ rest /\ is_u64 n.
Proof.
  unfold unpack_u64. intros H. minv H. subst. apply unpack_fixed_inv in E as [-> Hl].
  rewrite to_from_le_bytes by done. split; [done|].
  pose proof (from_le_bytes_range b0) as Hr. by rewrite Hl in Hr.
Qed.

Lemma unpack_u8_inv b n rest :
  unpack_u8 b = Ok (n, rest) -> b = to_le_bytes 1 n ++ rest /\ is_u8 n.
Proof.
  unfold unpack_u8. intros H. minv H. subst. apply unpack_fixed_inv in E as [-> Hl].
  rewrite to_from_le_bytes by done. split; [done|].
  pose proof (from_le_bytes_range b0) as Hr. by rewrite Hl in Hr.
Qed.

Lemma unpack_pubkey_inv b k rest :
  unpack_pubkey b = Ok (k, rest) -> b = pubkey_to_bytes k ++ rest /\ is_u256 k.
Proof.
  unfold unpack_pubkey. intros H. minv H. subst. apply unpack_fixed_inv in E as [-> Hl].
  rewrite pubkey_to_from_bytes by done. split; [done|by apply pubkey_from_bytes_range].
Qed.

Lemma reserve_type_u8_inv n t :
  unwrap_option (E:=ProgramError) (reserve_type_from_u8 n) = Ok t -> reserve_type_to_u8 t = n.
Proof.
  intros H%unwrap_option_Ok_inv. unfold reserve_type_from_u8 in H.
  destruct n as [|[]|]; try discriminate; by injection H as <-.
Qed.
End readers.

(** Every read in the context becomes the bytes that were read. *)
Ltac reads :=
  repeat match goal with
  | E : unpack_u8 _ = Ok _ |- _ => apply unpack_u8_inv in E as [-> ?]
  | E : unpack_u64 _ = Ok _ |- _ => apply unpack_u64_inv in E as [-> ?]
  | E : unpack_pubkey _ = Ok _ |- _ => apply unpack_pubkey_inv in E as [-> ?]
  | E : unwrap_option (reserve_type_from_u8 _) = Ok _ |- _ =>
      apply reserve_type_u8_inv in E
  end.

Section configs.
Implicit Types b rest : bytes.

Lemma unpack_config_inv b mk a rest t :
  unpack_config_fields b = Ok (mk, a, rest) -> reserve_type_to_u8 t = a ->
  b = pack_config (mk t) ++ rest /\ reserve_config_wf (mk t).
Proof.
  unfold unpack_config_fields. intros H Ht. minv H. subst. reads.
  split; [unfold pack_config; cbn; by rewrite <- !app_assoc|]. split; by cbn.
Qed.

Lemma unpack_set_owner_inv b i :
  unpack_set_lending_market_owner b = Ok i ->
  exists rest, pack_tag 1 ++ b = pack i ++ rest /\ instruction_wf i.
Proof.
  unfold unpack_set_lending_market_owner. intros H. minv H. subst.
  apply obind_Ok_inv in E2 as ([tag rest'] & E2 & E4).
  destruct tag as [|[]|]; try discriminate; minv E4; subst; reads; eexists; cbn [pack];
    unfold pack_set_lending_market_owner; rewrite <- !app_assoc;
    (split; [reflexivity|]); split_and!; cbn; try done.
  by intros k [= <-].
Qed.

Lemma unpack_init_reserve_inv b i :
  unpack_init_reserve b = Ok i ->
  exists rest, pack_tag 2 ++ b = pack i ++ rest /\ instruction_wf i.
Proof.
  unfold unpack_init_reserve. intros H. minv H. subst. reads.
  destruct (unpack_config_inv _ _ _ _ _ E0 E1) as [-> Hwf].
  eexists. cbn [pack]. unfold pack_init_reserve. rewrite <- !app_assoc.
  split; [reflexivity|by split].
Qed.

Lemma unpack_update_config_inv b i :
  unpack_update_reserve_config b = Ok i ->
  exists rest, pack_tag 16 ++ b = pack i ++ rest /\ instruction_wf i.
Proof.
  unfold unpack_update_reserve_config. intros H. minv H. subst. reads.
  destruct (unpack_config_inv _ _ _ _ _ E E2) as [-> Hwf].
  eexists. cbn [pack]. unfold pack_update_reserve_config. rewrite <- !app_assoc.
  split; [reflexivity|]. split; [done|]. by split.
Qed.

Lemma unpack_amount_inv (f : Z -> LendingInstruction) b i :
  unpack_amount f b = Ok i -> exists n rest, b = to_le_bytes 8 n ++ rest /\ is_u64 n /\ i = f n.
Proof. unfold unpack_amount. intros H. minv H. reads. eauto. Qed.
End configs.

(** Reading and writing are inverse: [unpack] succeeds exactly on the encodings of
    instructions, and what follows them. *)
Lemma unpack_inv (input : bytes) (i : LendingInstruction) :
  unpack input = Ok i -> i <> UpdateMarketMetadata ->
  exists rest, input = pack i ++ rest /\ instruction_wf i.
Proof.
  intros H Hi. destruct input as [|tag rest]; [discriminate|]. cbn [unpack] in H.
  assert (Htag : [tag] = pack_tag (from_le_bytes [tag]))
    by (unfold pack_tag; by rewrite to_from_le_bytes).
  change (tag :: rest) with ([tag] ++ rest). rewrite Htag. revert H.
  generalize (from_le_bytes [tag]). clear Htag. intros t H.
  destruct t as [|t|]; [|do 5 try destruct t as [t|t|]|]; try discriminate;
    lazymatch type of H with
    | unpack_amount _ _ = _ =>
        apply unpack_amount_inv in H as (n & rest' & -> & Hn & ->);
        exists rest'; split; [cbn [pack]; by rewrite <- app_assoc|done]
    | unpack_set_lending_market_owner _ = _ => by apply unpack_set_owner_inv
    | unpack_init_reserve _ = _ => by apply unpack_init_reserve_inv
    | unpack_update_reserve_config _ = _ => by apply unpack_update_config_inv
    | Ok UpdateMarketMetadata = _ => congruence
    | Ok _ = _ => injection H as <-; by exists rest
    | _ => minv H
    end.
  - unfold unpack_bytes32 in E0. apply unpack_fixed_inv in E0 as [-> Hq]. reads.
    exists _rest. cbn [pack]. unfold pack_init_lending_market. by rewrite <- !app_assoc.
  - reads. exists _rest. cbn [pack]. by rewrite <- !app_assoc.
Qed.

(** C36: the wire format is exact.  An instruction other than the market metadata
    update is decoded from a byte string exactly when the string is the encoding of
    that instruction, possibly followed by more bytes, and its fields have the widths
    of the format: nothing else decodes to it, and no instruction is lost. *)
Theorem wire_format_exact (input : bytes) (i : LendingInstruction) :
  i <> UpdateMarketMetadata ->
  unpack input = Ok i <-> exists rest, input = pack i ++ rest /\ instruction_wf i.
Proof.
  intros Hi. split; [intros H; by apply unpack_inv|].
  intros (rest & -> & Hwf). by apply unpack_pack_app.
Qed.

Lemma wire_format_exact_witness :
  unpack (to_le_bytes 1 10 ++ to_le_bytes 8 7 ++ [Byte.x05]) = Ok (BorrowObligationLiquidity 7)
  /\ exists rest,
    to_le_bytes 1 10 ++ to_le_bytes 8 7 ++ [Byte.x05] = pack (BorrowObligationLiquidity 7) ++ rest
    /\ instruction_wf (BorrowObligationLiquidity 7).
Proof.
  assert (H : unpack (to_le_bytes 1 10 ++ to_le_bytes 8 7 ++ [Byte.x05])
    = Ok (BorrowObligationLiquidity 7)) by (vm_compute; reflexivity).
  split; [exact H|].
  exact (proj1 (wire_format_exact _ (BorrowObligationLiquidity 7) ltac:(discriminate)) H).
Defined.
