(* ===== verification/Runtime.v ===== *)
(** The on-chain environment of the processor: accounts, sysvars, and the
    interfaces of the third-party crates that program/src/processor.rs calls.

    Handlers pass the [World] explicitly: the accounts of the transaction by key
    (two [AccountInfo]s with the same key share one data cell, as they do on
    chain), the clock and the stack height.  What solana_program, spl_token,
    pyth_sdk_solana and switchboard do is not in the repository: it is the
    class [Runtime], and what the program relies on is [RuntimeLaws]. *)

From Stdlib Require Import Floats.SpecFloat.
From stdpp Require Import gmap.
From S2P Require Import Prelude Errors Common Rate Decimal Codec.

(** ** Accounts *)

Record Account : Type := mkAccount {
  owner : Pubkey;
  lamports : Z;
  data : bytes;
}.

(** What an instruction is given of an account; the rest is in the [World]. *)
Record AccountInfo : Type := mkAccountInfo {
  key : Pubkey;
  is_signer : bool;
}.

(** The field of the clock sysvar that the program reads. *)
Record Clock : Type := mkClock { clock_slot : Z }.

(** A top-level instruction of the transaction, as the instructions sysvar
    shows it. *)
Record TxInstruction : Type := mkTxInstruction {
  ix_program_id : Pubkey;
  ix_accounts : list Pubkey;
  ix_data : bytes;
}.

Abbreviation Accounts := (gmap Pubkey Account).

Record World : Type := mkWorld {
  accounts : Accounts;
  clock : Clock;
  stack_height : Z;
}.

(** An account that does not exist is empty and owned by the system program. *)
Definition empty_account : Account := mkAccount 0 0 [].

Definition get (w : World) (info : AccountInfo) : Account :=
  default empty_account (accounts w !! key info).
Definition data_of (w : World) (info : AccountInfo) : bytes := data (get w info).
Definition owner_of (w : World) (info : AccountInfo) : Pubkey := owner (get w info).
Definition lamports_of (w : World) (info : AccountInfo) : Z := lamports (get w info).

Definition set_accounts (w : World) (m : Accounts) : World :=
  mkWorld m (clock w) (stack_height w).

(** [info.data.borrow_mut()] assigned [d]. *)
Definition set_data (w : World) (info : AccountInfo) (d : bytes) : World :=
  set_accounts w
    (<[key info := mkAccount (owner_of w info) (lamports_of w info) d]> (accounts w)).

(** [Clock::get()], and its slot. *)
Definition current_slot (w : World) : Z := clock_slot (clock w).

(** ** Iterating over the accounts of an instruction *)

Definition next_account_info (iter : list AccountInfo)
    : result (AccountInfo * list AccountInfo) :=
  match iter with
  | info :: iter => Ok (info, iter)
  | [] => Err NotEnoughAccountKeys
  end.

Definition with_next {A : Type} (iter : list AccountInfo)
    (k : AccountInfo -> list AccountInfo -> result A) : result A :=
  let? ' (info, iter) := next_account_info iter in k info iter.

(** [next x of iter in k] is [let x = next_account_info(iter)?; k]. *)
Notation "'next' x 'of' iter 'in' k" :=
  (with_next iter (fun x iter => k))
    (at level 10, x name, iter name, k at level 200,
     format "'[v' 'next'  x  'of'  iter  'in' '/' k ']'") : outcome_scope.

(** ** The [Pack] trait of solana_program *)

Class PackTrait (T : Type) : Type := {
  LEN : nat;
  pack_into_slice : T -> bytes -> result bytes;
  unpack_from_slice : bytes -> result T;
  is_initialized : T -> bool;
}.

(** ** Instructions the program invokes *)

Inductive CpiInstruction : Type :=
  | TokenInitializeAccount (account mint owner : Pubkey)
  | TokenInitializeMint (mint mint_authority : Pubkey) (decimals : Z)
  | TokenTransfer (source destination authority : Pubkey) (amount : Z)
  | TokenMintTo (mint destination authority : Pubkey) (amount : Z)
  | TokenBurn (source mint authority : Pubkey) (amount : Z)
  | SystemCreateAccount (from to : Pubkey) (lamports space : Z) (owner : Pubkey).

(** A price as pyth reports it: [price] is an [i64], [conf] a [u64], [expo] an [i32]. *)
Record PythPrice : Type := mkPythPrice {
  pyth_price : Z;
  pyth_conf : Z;
  pyth_expo : Z;
}.

(** A switchboard v2 result: [mantissa] is an [i128], [scale] a [u32]. *)
Record SwitchboardDecimal : Type := mkSwitchboardDecimal {
  sb_mantissa : Z;
  sb_scale : Z;
}.

(** ** Third-party code *)

Class Runtime : Type := {
  (* solana_program *)
  clock_ID : Pubkey;
  TRANSACTION_LEVEL_STACK_HEIGHT : Z;
  (** [T::unpack], [T::unpack_unchecked] and [T::pack]. *)
  pack_unpack : forall T, PackTrait T -> bytes -> result T;
  pack_unpack_unchecked : forall T, PackTrait T -> bytes -> result T;
  pack_pack : forall T, PackTrait T -> T -> bytes -> result bytes;
  create_program_address : list bytes -> Pubkey -> result Pubkey;
  find_program_address : list bytes -> Pubkey -> Pubkey * Z;
  Rent : Type;
  rent_from_account_info : Pubkey -> Account -> result Rent;
  rent_get : result Rent;
  rent_is_exempt : Rent -> Z -> nat -> bool;
  rent_minimum_balance : Rent -> nat -> Z;
  load_current_index_checked : Pubkey -> Account -> result Z;
  load_instruction_at_checked : Z -> Pubkey -> Account -> result TxInstruction;
  (** [invoke_signed]: the program called, the instruction, the accounts passed
      and the seeds of the program addresses that sign. *)
  invoke_signed : Pubkey -> CpiInstruction -> list AccountInfo -> list (list bytes) ->
    Accounts -> result Accounts;
  system_program_id : Pubkey;
  (* spl_token *)
  (** the check every instruction builder of spl_token begins with *)
  check_program_account : Pubkey -> result unit;
  (** [Mint::unpack], of which only the decimals are used *)
  mint_unpack_decimals : bytes -> result Z;
  (* pyth_sdk_solana *)
  PriceAccount : Type;
  load_price_account : bytes -> option PriceAccount;
  get_price_no_older_than : PriceAccount -> Clock -> Z -> option PythPrice;
  (** [to_price_feed(key).get_ema_price_unchecked()] *)
  get_ema_price_unchecked : PriceAccount -> Pubkey -> PythPrice;
  ProductAccount : Type;
  load_product_account : bytes -> result ProductAccount;
  px_acc : ProductAccount -> Pubkey;
  (** the attributes of a product, in order; keys and values as bytes *)
  product_iter : ProductAccount -> list (bytes * bytes);
  (* switchboard_program *)
  TYPE_AGGREGATOR : Z;
  (** [get_aggregator] then [get_aggregator_result]: the slot in which the round
      was opened, and the price as a 64-bit float *)
  AggregatorState : Type;
  get_aggregator : Pubkey -> Account -> result AggregatorState;
  RoundResult : Type;
  get_aggregator_result : AggregatorState -> result RoundResult;
  round_open_slot : RoundResult -> option Z;
  round_result : RoundResult -> option spec_float;
  (* switchboard_v2 *)
  AggregatorAccountData : Type;
  aggregator_new_from_bytes : bytes -> result AggregatorAccountData;
  latest_round_open_slot : AggregatorAccountData -> Z;
  aggregator_get_result : AggregatorAccountData -> result SwitchboardDecimal;
}.

Section account_data.
Context `{Runtime} {T : Type} `{P : PackTrait T}.

(** [T::unpack(&info.data.borrow())]. *)
Definition unpack_account (w : World) (info : AccountInfo) : result T :=
  pack_unpack T P (data_of w info).

(** [T::unpack_unchecked(&info.data.borrow())]. *)
Definition unpack_account_unchecked (w : World) (info : AccountInfo) : result T :=
  pack_unpack_unchecked T P (data_of w info).

(** [T::pack(v, &mut info.data.borrow_mut())]. *)
Definition pack_account (v : T) (info : AccountInfo) (w : World) : result World :=
  let? d := pack_pack T P v (data_of w info) in
  Ok (set_data w info d).
End account_data.

Arguments unpack_account {_} T {_} w info.
Arguments unpack_account_unchecked {_} T {_} w info.

(** [invoke] and [invoke_signed] on the world. *)
Definition invoke_in `{Runtime} (program : Pubkey) (ix : CpiInstruction)
    (infos : list AccountInfo) (signers_seeds : list (list bytes)) (w : World)
    : result World :=
  let? m := invoke_signed program ix infos signers_seeds (accounts w) in
  Ok (set_accounts w m).

(** ** What the program relies on

    For a program that is executing under the address [program_id]. *)
Class RuntimeLaws (R : Runtime) (program_id : Pubkey) : Prop := {
  (** [Pack::unpack] demands the exact length and an initialized value. *)
  pack_unpack_spec : forall T (P : PackTrait T) src v,
    pack_unpack T P src = Ok v <->
    length src = LEN /\ unpack_from_slice src = Ok v /\ is_initialized v = true;
  pack_unpack_unchecked_spec : forall T (P : PackTrait T) src v,
    pack_unpack_unchecked T P src = Ok v <->
    length src = LEN /\ unpack_from_slice src = Ok v;
  (** [Pack::pack] demands the exact length. *)
  pack_pack_spec : forall T (P : PackTrait T) v dst dst',
    pack_pack T P v dst = Ok dst' <->
    length dst = LEN /\ pack_into_slice v dst = Ok dst';
  (** The token program is another program than the caller. *)
  token_program_foreign : forall k, check_program_account k = Ok tt -> k <> program_id;
  (** It is not the system program, which owns the accounts that do not exist. *)
  program_not_system : program_id <> owner empty_account;
  system_program_foreign : system_program_id <> program_id;
  (** Only its owner changes the data of an account, and a program that is
      waiting for its callee is not entered again. *)
  cpi_frame : forall program ix infos seeds (m m' : Accounts) (k : Pubkey) a,
    program <> program_id ->
    invoke_signed program ix infos seeds m = Ok m' ->
    m !! k = Some a -> owner a = program_id ->
    exists a', m' !! k = Some a' /\ owner a' = program_id /\ data a' = data a;
  (** The decimals of a mint are a byte. *)
  mint_decimals_u8 : forall d n, mint_unpack_decimals d = Ok n -> is_u8 n;
}.

(** ** Token accounts

    What the program relies on of spl_token when it holds tokens: the token accounts,
    the amount in one, and who may move it, its owner or a delegate. *)
Class TokenProgram : Type := {
  is_token : Account -> Prop;
  tokens : Account -> Z;
  spends : Account -> Pubkey -> Prop;
}.

(** What an instruction adds to the amount in account [k]. *)
Definition token_change (ix : CpiInstruction) (k : Pubkey) : Z :=
  match ix with
  | TokenTransfer s d _ n => (if d =? k then n else 0) - (if s =? k then n else 0)
  | TokenMintTo _ d _ n => if d =? k then n else 0
  | TokenBurn s _ _ n => - (if s =? k then n else 0)
  | _ => 0
  end.

(** The account that an instruction takes tokens from, and the authority. *)
Definition token_draw (ix : CpiInstruction) : option (Pubkey * Pubkey) :=
  match ix with
  | TokenTransfer s _ a _ | TokenBurn s _ a _ => Some (s, a)
  | _ => None
  end.

(** Key [k] signs a call of the program: it signed the instruction, or is derived
    from the seeds. *)
Definition signs `{Runtime} (program_id : Pubkey) (k : Pubkey) (infos : list AccountInfo)
    (seeds : list (list bytes)) : Prop :=
  (exists i, In i infos /\ key i = k /\ is_signer i = true) \/
  (exists s, In s seeds /\ create_program_address s program_id = Ok k).

Class TokenLaws (R : Runtime) (T : TokenProgram) (program_id : Pubkey) : Prop := {
  token_account_len : forall a, is_token a -> length (data a) = 165%nat;
  tokens_nonneg : forall a, is_token a -> 0 <= tokens a;
  (** A call moves the amount it names and gives nobody new a right to spend. *)
  token_moved : forall program ix infos seeds (m m' : Accounts) (k : Pubkey) a,
    check_program_account program = Ok tt ->
    invoke_signed program ix infos seeds m = Ok m' ->
    m !! k = Some a -> is_token a ->
    exists a', m' !! k = Some a' /\ is_token a' /\ tokens a' = tokens a + token_change ix k /\
      forall b, spends a' b -> spends a b;
  (** The authority may spend from the account, and signs. *)
  token_drawn : forall program ix infos seeds (m m' : Accounts) (k b : Pubkey) a,
    check_program_account program = Ok tt ->
    invoke_signed program ix infos seeds m = Ok m' ->
    token_draw ix = Some (k, b) -> m !! k = Some a -> is_token a ->
    spends a b /\ signs program_id b infos seeds;
  (** An account is initialized once, and is then its owner's. *)
  token_opened : forall program k mint o infos seeds (m m' : Accounts),
    check_program_account program = Ok tt ->
    invoke_signed program (TokenInitializeAccount k mint o) infos seeds m = Ok m' ->
    (forall a, m !! k = Some a -> ~ is_token a) /\
    exists a', m' !! k = Some a' /\ is_token a' /\ forall b, spends a' b -> b = o;
  (** The system program creates accounts where there are none. *)
  system_keeps_tokens : forall from to n space o infos seeds (m m' : Accounts) (k : Pubkey) a,
    invoke_signed system_program_id (SystemCreateAccount from to n space o) infos seeds m
      = Ok m' ->
    m !! k = Some a -> is_token a -> m' !! k = Some a;
  (** An account that another program hands over is blank. *)
  handed_over_blank : forall program ix infos seeds (m m' : Accounts) (k : Pubkey) a',
    program <> program_id ->
    invoke_signed program ix infos seeds m = Ok m' ->
    m' !! k = Some a' -> owner a' = program_id ->
    (exists a, m !! k = Some a /\ owner a = program_id) \/
    data a' = zero_bytes (length (data a'));
}.

(** The instructions sysvar [ixs] of a transaction: an index past its end is
    [InvalidArgument], and a transaction has fewer than 2^16 instructions. *)
Definition instructions_sysvar `{Runtime} (k : Pubkey) (a : Account)
    (ixs : list TxInstruction) : Prop :=
  Z.of_nat (length ixs) < 2 ^ 16 /\
  forall i, 0 <= i -> load_instruction_at_checked i k a =
    match ixs !! Z.to_nat i with
    | Some ix => Ok ix
    | None => Err InvalidArgument
    end.
