(* ===== verification/Oracles.v ===== *)
(** sdk/src/oracles.rs and the price functions of program/src/processor.rs:
    reading a price from Pyth, or from Switchboard when Pyth has none.

    Decoding an oracle account is third-party code; the checks on what comes out
    of it, and the conversion to [Decimal], are the program's. *)

From Stdlib Require Import Floats.SpecFloat Strings.String Strings.Ascii.
From S2P Require Import Prelude Errors Common Rate Decimal Codec Runtime.

(** ** Addresses *)

Definition base58_alphabet : string :=
  "123456789ABCDEFGHJKLMNPQRSTUVWXYZabcdefghijkmnopqrstuvwxyz".

(** [declare_id!] of a base-58 address. *)
Fixpoint base58 (acc : Z) (s : string) : Z :=
  match s with
  | EmptyString => acc
  | String c s =>
      match String.index 0 (String c EmptyString) base58_alphabet with
      | Some i => base58 (acc * 58 + Z.of_nat i) s
      | None => base58 acc s
      end
  end.

Definition declare_id (s : string) : Pubkey := base58 0 s.

(** Canonical null pubkey. *)
Definition NULL_PUBKEY : Pubkey :=
  foldl (fun acc b => acc * 256 + b) 0
    [11; 193; 238; 216; 208; 116; 241; 195; 55; 212; 76; 22; 75; 202; 40; 216; 76; 206; 27; 169;
     138; 64; 177; 28; 19; 90; 156; 0; 0; 0; 0; 0].

Definition switchboard_v2_mainnet_id : Pubkey :=
  declare_id "SW1TCH7qEPTdLsDHRgPuMQjbQxKdH2aBStViMFnt64f".
Definition switchboard_v2_devnet_id : Pubkey :=
  declare_id "2TfB33aLaneQb5TNVwyDz3jSZXS6jdW2ARw1Dgf84XCG".

Example null_pubkey_prints :
  declare_id "nu11111111111111111111111111111111111111111" = NULL_PUBKEY.
Proof. vm_compute. reflexivity. Qed.

(** ** Pyth *)

Definition PYTH_CONFIDENCE_RATIO : Z := 10.
Definition STALE_AFTER_SLOTS_ELAPSED : Z := 240.

(** [i64] to [u64]. *)
Definition try_into_u64 (x : Z) : result Z :=
  reject_if x <? 0 with lending_error InvalidOracleConfig then Ok x.

(** [i32::checked_abs]. *)
Definition checked_abs_i32 (x : Z) : option Z :=
  if x =? - 2 ^ 31 then None else Some (Z.abs x).

Definition pyth_price_to_decimal (p : PythPrice) : result Decimal :=
  let? price := try_into_u64 (pyth_price p) in
  if 0 <=? pyth_expo p then
    let? zeros := math (checked_pow 64 10 (pyth_expo p)) in
    try_mul (from_int price) zeros
  else
    let? exponent := math (checked_abs_i32 (pyth_expo p)) in
    let? decimals := math (checked_pow 64 10 exponent) in
    try_div (from_int price) decimals.

Section prices.
Context `{Runtime}.

(** The spot and the smoothed price of a Pyth account. *)
Definition get_pyth_price (w : World) (pyth_price_info : AccountInfo)
    : result (Decimal * Decimal) :=
  reject_if key pyth_price_info =? NULL_PUBKEY with lending_error NullOracleConfig then
  let? price_account :=
    ok_or (load_price_account (data_of w pyth_price_info))
      (lending_error InvalidOracleConfig) in
  let? p :=
    ok_or (get_price_no_older_than price_account (clock w) STALE_AFTER_SLOTS_ELAPSED)
      (lending_error InvalidOracleConfig) in
  let? price := try_into_u64 (pyth_price p) in
  reject_if price <? saturating_mul 64 (pyth_conf p) PYTH_CONFIDENCE_RATIO
    with lending_error InvalidOracleConfig then
  let market_price := pyth_price_to_decimal p in
  let? ema_price :=
    pyth_price_to_decimal (get_ema_price_unchecked price_account (key pyth_price_info)) in
  let? market_price := market_price in
  Ok (market_price, ema_price).

(** ** Switchboard *)

(** [x as u128] of a 64-bit float: truncation, saturating; a NaN is zero. *)
Definition f64_as_u128 (x : spec_float) : Z :=
  match x with
  | S754_zero _ | S754_nan => 0
  | S754_infinity s => if s then 0 else 2 ^ 128 - 1
  | S754_finite s m e => if s then 0 else Z.min (2 ^ 128 - 1) (Z.shiftl (Z.pos m) e)
  end.

(** [n as f64] *)
Definition f64_of_u64 (n : Z) : spec_float := binary_normalize 53 1024 n 0 false.

Definition get_switchboard_price_v2 (w : World) (switchboard_feed_info : AccountInfo)
    : result Decimal :=
  let? feed := aggregator_new_from_bytes (data_of w switchboard_feed_info) in
  let? slots_elapsed :=
    math (checked_sub (current_slot w) (latest_round_open_slot feed)) in
  reject_if STALE_AFTER_SLOTS_ELAPSED <=? slots_elapsed
    with lending_error InvalidOracleConfig then
  let? price_switchboard_desc := aggregator_get_result feed in
  reject_if sb_mantissa price_switchboard_desc <? 0
    with lending_error InvalidOracleConfig then
  let price := from_int (sb_mantissa price_switchboard_desc) in
  let? exp := unwrap_option (checked_pow 128 10 (sb_scale price_switchboard_desc)) in
  try_div price (from_int exp).

Definition get_switchboard_price (w : World) (switchboard_feed_info : AccountInfo)
    : result Decimal :=
  reject_if key switchboard_feed_info =? NULL_PUBKEY with lending_error NullOracleConfig then
  if (owner_of w switchboard_feed_info =? switchboard_v2_mainnet_id)
     || (owner_of w switchboard_feed_info =? switchboard_v2_devnet_id)
  then get_switchboard_price_v2 w switchboard_feed_info
  else
    let? tag := unwrap_option (data_of w switchboard_feed_info !! 0%nat) in
    reject_if negb (from_le_bytes [tag] =? TYPE_AGGREGATOR)
      with lending_error InvalidAccountInput then
    let? aggregator :=
      get_aggregator (key switchboard_feed_info) (get w switchboard_feed_info) in
    let? round := get_aggregator_result aggregator in
    let? open_slot := unwrap_option (round_open_slot round) in
    let? slots_elapsed := math (checked_sub (current_slot w) open_slot) in
    reject_if STALE_AFTER_SLOTS_ELAPSED <=? slots_elapsed
      with lending_error InvalidOracleConfig then
    let price_float := default (S754_zero false) (round_result round) in
    let price_quotient := 10 ^ 9 in
    let price := f64_as_u128 (SFmul 53 1024 (f64_of_u64 price_quotient) price_float) in
    try_div (from_int price) price_quotient.

(** Pyth first, and Switchboard if that fails and a feed was given; only Pyth has
    a smoothed price. *)
Definition get_price (w : World) (switchboard_feed_info : option AccountInfo)
    (pyth_price_account_info : AccountInfo) : result (Decimal * option Decimal) :=
  match get_pyth_price w pyth_price_account_info with
  | Ok (price, smoothed) => Ok (price, Some smoothed)
  | Panic => Panic
  | Err _ =>
      match switchboard_feed_info with
      | Some info =>
          let? price := get_switchboard_price w info in Ok (price, None)
      | None => fail InvalidOracleConfig
      end
  end.
End prices.
