(* ===== verification/ProcessorHelpers.v ===== *)
(** program/src/processor.rs: the helper functions the instruction handlers
    share, and the account types the program stores. *)

From Stdlib Require Import Strings.String.
From S2P Require Import Prelude Errors Common Rate Decimal Codec Runtime Oracles.
From S2P Require Import RateLimiter LendingMarket ReserveConfig ReserveLiquidity.
From S2P Require Import ReserveCollateral Reserve ReserveCodec.
From S2P Require Import ObligationCollateral ObligationLiquidity Obligation ObligationCodec.
From S2P Require Import Runtime.

(** ** The account types *)

#[export] Instance lending_market_pack : PackTrait LendingMarket := {
  LEN := LENDING_MARKET_LEN;
  pack_into_slice := LendingMarket.pack_into_slice;
  unpack_from_slice := LendingMarket.unpack_from_slice;
  is_initialized := LendingMarket.is_initialized;
}.

#[export] Instance reserve_pack : PackTrait Reserve := {
  LEN := RESERVE_LEN;
  pack_into_slice := ReserveCodec.pack_into_slice;
  unpack_from_slice := ReserveCodec.unpack_from_slice;
  is_initialized := Reserve.is_initialized;
}.

#[export] Instance obligation_pack : PackTrait Obligation := {
  LEN := OBLIGATION_LEN;
  pack_into_slice := ObligationCodec.pack_into_slice;
  unpack_from_slice := ObligationCodec.unpack_from_slice;
  is_initialized := Obligation.is_initialized;
}.

(** solend market owner *)
Definition solend_market_owner_id : Pubkey :=
  declare_id "5pHk2TmnqQzRF9L6egy5FfiyBgS7G9cMZ5RFaJAvghzw".

(** [result.map_err(|_| e)]. *)
Definition map_err {A : Type} (m : result A) (e : ProgramError) : result A :=
  match m with
  | Err _ => Err e
  | m => m
  end.

Section helpers.
Context `{Runtime}.

(** ** Accounts *)

Definition assert_rent_exempt (rent : Rent) (w : World) (account_info : AccountInfo)
    : result unit :=
  reject_if negb (rent_is_exempt rent (lamports_of w account_info)
                    (length (data_of w account_info)))
    with lending_error NotRentExempt then
  Ok tt.

Definition assert_uninitialized (T : Type) `{PackTrait T} (w : World)
    (account_info : AccountInfo) : result T :=
  let? account := unpack_account_unchecked T w account_info in
  reject_if is_initialized account with lending_error AlreadyInitialized then
  Ok account.

(** Unpacks a spl_token [Mint]; only its decimals are used. *)
Definition unpack_mint (data : bytes) : result Z :=
  map_err (mint_unpack_decimals data) (lending_error InvalidTokenMint).

(** [Rent::from_account_info]. *)
Definition rent_from_info (w : World) (info : AccountInfo) : result Rent :=
  rent_from_account_info (key info) (get w info).

(** The accounts iterator after an optional clock sysvar. *)
Definition skip_clock (iter : list AccountInfo) : list AccountInfo :=
  match iter with
  | info :: rest => if key info =? clock_ID then rest else iter
  | [] => []
  end.

(** The seeds that sign for the authority of a lending market. *)
Definition authority_seeds (lending_market_info : AccountInfo)
    (lending_market : LendingMarket) : list bytes :=
  [pubkey_to_bytes (key lending_market_info); to_le_bytes 1 (bump_seed lending_market)].

(** The check of the market authority that most handlers contain. *)
Definition check_authority (program_id : Pubkey) (lending_market_info : AccountInfo)
    (lending_market : LendingMarket) (lending_market_authority_info : AccountInfo)
    : result unit :=
  let? lending_market_authority_pubkey :=
    create_program_address (authority_seeds lending_market_info lending_market) program_id in
  reject_if negb (lending_market_authority_pubkey =? key lending_market_authority_info)
    with lending_error InvalidMarketAuthority then
  Ok tt.

(** ** Token program calls *)

Definition spl_token_init_account (account mint owner rent token_program : AccountInfo)
    (w : World) : result World :=
  check_program_account (key token_program);;?
  map_err
    (invoke_in (key token_program)
       (TokenInitializeAccount (key account) (key mint) (key owner))
       [account; mint; owner; rent; token_program] [] w)
    (lending_error TokenInitializeAccountFailed).

Definition spl_token_init_mint (mint rent : AccountInfo) (authority : Pubkey) (decimals : Z)
    (token_program : AccountInfo) (w : World) : result World :=
  check_program_account (key token_program);;?
  map_err
    (invoke_in (key token_program) (TokenInitializeMint (key mint) authority decimals)
       [mint; rent; token_program] [] w)
    (lending_error TokenInitializeMintFailed).

(** Invoke signed unless signers seeds are empty. *)
Definition invoke_optionally_signed (program : Pubkey) (instruction : CpiInstruction)
    (account_infos : list AccountInfo) (authority_signer_seeds : list bytes) (w : World)
    : result World :=
  match authority_signer_seeds with
  | [] => invoke_in program instruction account_infos [] w
  | seeds => invoke_in program instruction account_infos [seeds] w
  end.

Definition spl_token_transfer (source destination : AccountInfo) (amount : Z)
    (authority : AccountInfo) (authority_signer_seeds : list bytes)
    (token_program : AccountInfo) (w : World) : result World :=
  check_program_account (key token_program);;?
  map_err
    (invoke_optionally_signed (key token_program)
       (TokenTransfer (key source) (key destination) (key authority) amount)
       [source; destination; authority; token_program] authority_signer_seeds w)
    (lending_error TokenTransferFailed).

Definition spl_token_mint_to (mint destination : AccountInfo) (amount : Z)
    (authority : AccountInfo) (authority_signer_seeds : list bytes)
    (token_program : AccountInfo) (w : World) : result World :=
  check_program_account (key token_program);;?
  map_err
    (invoke_optionally_signed (key token_program)
       (TokenMintTo (key mint) (key destination) (key authority) amount)
       [mint; destination; authority; token_program] authority_signer_seeds w)
    (lending_error TokenMintToFailed).

Definition spl_token_burn (mint source : AccountInfo) (amount : Z)
    (authority : AccountInfo) (authority_signer_seeds : list bytes)
    (token_program : AccountInfo) (w : World) : result World :=
  check_program_account (key token_program);;?
  map_err
    (invoke_optionally_signed (key token_program)
       (TokenBurn (key source) (key mint) (key authority) amount)
       [source; mint; authority; token_program] authority_signer_seeds w)
    (lending_error TokenBurnFailed).

(** ** Oracle accounts *)

(** The first [quote_currency] attribute, padded to 32 bytes; a longer one panics. *)
Definition get_pyth_product_quote_currency (pyth_product : ProductAccount) : result bytes :=
  match find (fun kv => bool_decide (kv.1 = list_byte_of_string "quote_currency"))
             (product_iter pyth_product) with
  | Some (_, val) =>
      if (32 <? length val)%nat then Panic
      else Ok (val ++ zero_bytes (32 - length val))
  | None => fail InvalidOracleConfig
  end.

Definition validate_pyth_keys (w : World) (lending_market : LendingMarket)
    (pyth_product_info pyth_price_info : AccountInfo) : result unit :=
  if key pyth_price_info =? NULL_PUBKEY then Ok tt
  else
    reject_if negb (oracle_program_id lending_market =? owner_of w pyth_product_info)
      with lending_error InvalidOracleConfig then
    reject_if negb (oracle_program_id lending_market =? owner_of w pyth_price_info)
      with lending_error InvalidOracleConfig then
    let? pyth_product := load_product_account (data_of w pyth_product_info) in
    reject_if negb (px_acc pyth_product =? key pyth_price_info)
      with lending_error InvalidOracleConfig then
    let? quote_currency := get_pyth_product_quote_currency pyth_product in
    reject_if negb (bool_decide (LendingMarket.quote_currency lending_market = quote_currency))
      with lending_error InvalidOracleConfig then
    Ok tt.

Definition validate_switchboard_keys (w : World) (lending_market : LendingMarket)
    (switchboard_feed_info : AccountInfo) : result unit :=
  if key switchboard_feed_info =? NULL_PUBKEY then Ok tt
  else
    let feed_owner := owner_of w switchboard_feed_info in
    reject_if negb (feed_owner =? switchboard_oracle_program_id lending_market)
              && negb (feed_owner =? switchboard_v2_mainnet_id)
              && negb (feed_owner =? switchboard_v2_devnet_id)
      with lending_error InvalidOracleConfig then
    Ok tt.

(** ** Introspection of the transaction *)

Definition load_current_index (w : World) (sysvar_info : AccountInfo) : result Z :=
  load_current_index_checked (key sysvar_info) (get w sysvar_info).

Definition load_instruction_at (i : Z) (w : World) (sysvar_info : AccountInfo)
    : result TxInstruction :=
  load_instruction_at_checked i (key sysvar_info) (get w sysvar_info).

Definition is_cpi_call (program_id : Pubkey) (current_index : Z) (w : World)
    (sysvar_info : AccountInfo) : result bool :=
  let? current_ixn := load_instruction_at current_index w sysvar_info in
  if negb (program_id =? ix_program_id current_ixn) then Ok true
  else if TRANSACTION_LEVEL_STACK_HEIGHT <? stack_height w then Ok true
  else Ok false.
End helpers.
