(* ===== verification/ProcessMarket.v ===== *)
(** program/src/processor.rs: the handlers of the lending market account. *)

From Stdlib Require Import Strings.String.
From S2P Require Import Prelude Errors Common Rate Decimal Codec RateLimiter.
From S2P Require Import LendingMarket Runtime Oracles ProcessorHelpers.

Section market.
Context `{Runtime}.

Definition process_init_lending_market (program_id : Pubkey) (owner : Pubkey)
    (quote_currency : bytes) (accounts : list AccountInfo) (w : World) : result World :=
  next lending_market_info of accounts in
  next rent_info of accounts in
  let? rent := rent_from_info w rent_info in
  next token_program_id of accounts in
  next oracle_program_id of accounts in
  next switchboard_oracle_program_id of accounts in
  assert_rent_exempt rent w lending_market_info;;?
  assert_uninitialized LendingMarket w lending_market_info;;?
  reject_if negb (owner_of w lending_market_info =? program_id)
    with lending_error InvalidAccountOwner then
  let lending_market :=
    LendingMarket.init
      (mkInitLendingMarketParams
         (snd (find_program_address [pubkey_to_bytes (key lending_market_info)] program_id))
         owner quote_currency (key token_program_id) (key oracle_program_id)
         (key switchboard_oracle_program_id)) in
  pack_account lending_market lending_market_info w.

Definition process_set_lending_market_owner_and_config (program_id : Pubkey)
    (new_owner : Pubkey) (rate_limiter_config : RateLimiterConfig)
    (new_whitelisted_liquidator : option Pubkey) (new_risk_authority : Pubkey)
    (accounts : list AccountInfo) (w : World) : result World :=
  next lending_market_info of accounts in
  next lending_market_owner_info of accounts in
  let? lending_market := unpack_account LendingMarket w lending_market_info in
  reject_if negb (owner_of w lending_market_info =? program_id)
    with lending_error InvalidAccountOwner then
  reject_if negb (LendingMarket.owner lending_market =? key lending_market_owner_info)
    with lending_error InvalidMarketOwner then
  reject_if negb (is_signer lending_market_owner_info)
    with lending_error InvalidSigner then
  let rate_limiter :=
    if bool_decide (rate_limiter_config = RateLimiter.config (rate_limiter lending_market))
    then rate_limiter lending_market
    else RateLimiter.new rate_limiter_config (current_slot w) in
  pack_account
    (mkLendingMarket (version lending_market) (bump_seed lending_market) new_owner
       (LendingMarket.quote_currency lending_market)
       (LendingMarket.token_program_id lending_market)
       (LendingMarket.oracle_program_id lending_market)
       (LendingMarket.switchboard_oracle_program_id lending_market)
       rate_limiter new_whitelisted_liquidator new_risk_authority)
    lending_market_info w.

(** [bytes_of(metadata)]. *)
Definition metadata_bytes (metadata : LendingMarketMetadata) : bytes :=
  to_le_bytes 1 (metadata_bump_seed metadata) ++
  market_name metadata ++
  market_description metadata ++
  market_image_url metadata ++
  concat (pubkey_to_bytes <$> lookup_tables metadata) ++
  metadata_padding metadata.

Definition size_of_metadata : nat := total_width lending_market_metadata_widths.

Definition process_update_market_metadata (program_id : Pubkey)
    (metadata : LendingMarketMetadata) (accounts : list AccountInfo) (w : World)
    : result World :=
  next lending_market_info of accounts in
  next lending_market_owner_info of accounts in
  next metadata_info of accounts in
  let? lending_market := unpack_account LendingMarket w lending_market_info in
  reject_if negb (owner_of w lending_market_info =? program_id)
    with lending_error InvalidAccountOwner then
  reject_if negb (LendingMarket.owner lending_market =? key lending_market_owner_info)
    with lending_error InvalidMarketOwner then
  reject_if negb (is_signer lending_market_owner_info)
    with lending_error InvalidSigner then
  let metadata_seeds :=
    [pubkey_to_bytes (key lending_market_info); list_byte_of_string "MetaData"] in
  let '(metadata_key, bump_seed) := find_program_address metadata_seeds program_id in
  reject_if negb (metadata_key =? key metadata_info)
    with lending_error InvalidAccountInput then
  reject_if negb (bump_seed =? metadata_bump_seed metadata)
    with lending_error InvalidAmount then
  let? w :=
    if (length (data_of w metadata_info) =? 0)%nat then
      let? rent := rent_get in
      invoke_in system_program_id
        (SystemCreateAccount (key lending_market_owner_info) (key metadata_info)
           (rent_minimum_balance rent size_of_metadata) (Z.of_nat size_of_metadata) program_id)
        [lending_market_owner_info; metadata_info]
        [metadata_seeds ++ [to_le_bytes 1 bump_seed]] w
    else Ok w in
  reject_if negb (owner_of w metadata_info =? program_id)
    with lending_error InvalidAccountOwner then
  (* copy_from_slice panics on a length mismatch *)
  if (length (data_of w metadata_info) =? length (metadata_bytes metadata))%nat
  then Ok (set_data w metadata_info (metadata_bytes metadata))
  else Panic.
End market.
