(* ===== verification/ProcessReserve.v ===== *)
(** program/src/processor.rs: the handlers that create and refresh a reserve
    (the others are in ProcessDeposit and ProcessConfig). *)

From S2P Require Import Prelude Errors Common Rate Decimal Codec LastUpdate.
From S2P Require Import RateLimiter LendingMarket ReserveConfig ReserveLiquidity.
From S2P Require Import ReserveCollateral Reserve Runtime Oracles ProcessorHelpers.

(** Assignments to parts of a reserve. *)
Definition mark_reserve_stale (r : Reserve) : Reserve :=
  set_last_update r (mark_stale (last_update r)).

Definition set_reserve_prices (r : Reserve) (price : Decimal) (smoothed : Decimal) : Reserve :=
  set_liquidity r (set_prices (liquidity r) price smoothed).

Section reserve.
Context `{Runtime}.

(** [let mut reserve = Reserve::unpack(..)?; reserve.last_update.mark_stale();
    Reserve::pack(..)?], the last statements of several handlers. *)
Definition mark_stale_in_account (reserve_info : AccountInfo) (w : World) : result World :=
  let? reserve := unpack_account Reserve w reserve_info in
  pack_account (mark_reserve_stale reserve) reserve_info w.

(** ** Refresh *)

(** Lite version of refresh_reserve for when the oracle price doesn't need to be
    updated. *)
Definition _refresh_reserve_interest (program_id : Pubkey) (reserve_info : AccountInfo)
    (w : World) : result World :=
  let? reserve := unpack_account Reserve w reserve_info in
  reject_if negb (owner_of w reserve_info =? program_id)
    with lending_error InvalidAccountOwner then
  let? reserve := accrue_interest reserve (current_slot w) in
  let reserve :=
    set_last_update reserve (update_slot (last_update reserve) (current_slot w)) in
  pack_account reserve reserve_info w.

Definition _refresh_reserve (program_id : Pubkey) (reserve_info pyth_price_info : AccountInfo)
    (switchboard_feed_info : option AccountInfo) (w : World) : result World :=
  let? reserve := unpack_account Reserve w reserve_info in
  reject_if negb (owner_of w reserve_info =? program_id)
    with lending_error InvalidAccountOwner then
  reject_if negb (pyth_oracle_pubkey (liquidity reserve) =? key pyth_price_info)
    with lending_error InvalidAccountInput then
  reject_if match switchboard_feed_info with
            | Some info => negb (switchboard_oracle_pubkey (liquidity reserve) =? key info)
            | None => false
            end
    with lending_error InvalidOracleConfig then
  let? ' (market_price, smoothed_market_price) :=
    get_price w switchboard_feed_info pyth_price_info in
  let smoothed :=
    match smoothed_market_price with
    | Some p => p
    | None => ReserveLiquidity.smoothed_market_price (liquidity reserve)
    end in
  (* without a Pyth oracle the smoothed price is the market price *)
  let smoothed :=
    if pyth_oracle_pubkey (liquidity reserve) =? NULL_PUBKEY then market_price else smoothed in
  let? w := pack_account (set_reserve_prices reserve market_price smoothed) reserve_info w in
  _refresh_reserve_interest program_id reserve_info w.

Definition process_refresh_reserve (program_id : Pubkey) (accounts : list AccountInfo)
    (w : World) : result World :=
  next reserve_info of accounts in
  next pyth_price_info of accounts in
  let? ' (switchboard_feed_info, accounts) :=
    match accounts with
    | info :: rest =>
        if key info =? clock_ID then Ok (None, accounts) else Ok (Some info, rest)
    | [] => Ok (None, accounts)
    end in
  (* a clock account that follows is skipped; nothing else is read *)
  let accounts := skip_clock accounts in
  _refresh_reserve program_id reserve_info pyth_price_info switchboard_feed_info w.

(** ** Initialization *)

Definition process_init_reserve (program_id : Pubkey) (liquidity_amount : Z)
    (config : ReserveConfig) (accounts : list AccountInfo) (w : World) : result World :=
  reject_if liquidity_amount =? 0 with lending_error InvalidAmount then
  validate_reserve_config config;;?
  next source_liquidity_info of accounts in
  next destination_collateral_info of accounts in
  next reserve_info of accounts in
  next reserve_liquidity_mint_info of accounts in
  next reserve_liquidity_supply_info of accounts in
  next reserve_liquidity_fee_receiver_info of accounts in
  next reserve_collateral_mint_info of accounts in
  next reserve_collateral_supply_info of accounts in
  next pyth_product_info of accounts in
  next pyth_price_info of accounts in
  next switchboard_feed_info of accounts in
  next lending_market_info of accounts in
  next lending_market_authority_info of accounts in
  next lending_market_owner_info of accounts in
  next user_transfer_authority_info of accounts in
  let accounts := skip_clock accounts in
  next rent_info of accounts in
  let? rent := rent_from_info w rent_info in
  next token_program of accounts in
  assert_rent_exempt rent w reserve_info;;?
  let? reserve := assert_uninitialized Reserve w reserve_info in
  reject_if negb (owner_of w reserve_info =? program_id)
    with lending_error InvalidAccountOwner then
  reject_if key reserve_liquidity_supply_info =? key source_liquidity_info
    with lending_error InvalidAccountInput then
  let? lending_market := unpack_account LendingMarket w lending_market_info in
  reject_if negb (owner_of w lending_market_info =? program_id)
    with lending_error InvalidAccountOwner then
  reject_if negb (token_program_id lending_market =? key token_program)
    with lending_error InvalidTokenProgram then
  reject_if negb (LendingMarket.owner lending_market =? key lending_market_owner_info)
    with lending_error InvalidMarketOwner then
  reject_if negb (is_signer lending_market_owner_info)
    with lending_error InvalidSigner then
  reject_if (key switchboard_feed_info =? NULL_PUBKEY)
            && ((key pyth_price_info =? NULL_PUBKEY) || (key pyth_product_info =? NULL_PUBKEY))
    with lending_error InvalidOracleConfig then
  validate_pyth_keys w lending_market pyth_product_info pyth_price_info;;?
  validate_switchboard_keys w lending_market switchboard_feed_info;;?
  let? ' (market_price, smoothed_market_price) :=
    get_price w (Some switchboard_feed_info) pyth_price_info in
  check_authority program_id lending_market_info lending_market
    lending_market_authority_info;;?
  let? mint_decimals := unpack_mint (data_of w reserve_liquidity_mint_info) in
  reject_if negb (owner_of w reserve_liquidity_mint_info =? key token_program)
    with lending_error InvalidTokenOwner then
  let reserve :=
    Reserve.init reserve
      (mkInitReserveParams (current_slot w) (key lending_market_info)
         (ReserveLiquidity.new
            (mkNewReserveLiquidityParams (key reserve_liquidity_mint_info) mint_decimals
               (key reserve_liquidity_supply_info) (key pyth_price_info)
               (key switchboard_feed_info) market_price
               match smoothed_market_price with
               | Some p => p
               | None => market_price
               end))
         (ReserveCollateral.new
            (mkNewReserveCollateralParams (key reserve_collateral_mint_info)
               (key reserve_collateral_supply_info)))
         config rate_limiter_config_default) in
  let? ' (reserve, collateral_amount) := deposit_liquidity reserve liquidity_amount in
  let? w := pack_account reserve reserve_info w in
  let? w :=
    spl_token_init_account reserve_liquidity_supply_info reserve_liquidity_mint_info
      lending_market_authority_info rent_info token_program w in
  let? w :=
    spl_token_init_account reserve_liquidity_fee_receiver_info reserve_liquidity_mint_info
      lending_market_authority_info rent_info token_program w in
  let? w :=
    spl_token_init_mint reserve_collateral_mint_info rent_info
      (key lending_market_authority_info) mint_decimals token_program w in
  let? w :=
    spl_token_init_account reserve_collateral_supply_info reserve_collateral_mint_info
      lending_market_authority_info rent_info token_program w in
  let? w :=
    spl_token_init_account destination_collateral_info reserve_collateral_mint_info
      user_transfer_authority_info rent_info token_program w in
  let? w :=
    spl_token_transfer source_liquidity_info reserve_liquidity_supply_info liquidity_amount
      user_transfer_authority_info [] token_program w in
  spl_token_mint_to reserve_collateral_mint_info destination_collateral_info
    collateral_amount lending_market_authority_info
    (authority_seeds lending_market_info lending_market) token_program w.
End reserve.
