(* ===== verification/ProcessDeposit.v ===== *)
(** program/src/processor.rs: deposits of liquidity into a reserve and
    redemptions of its collateral tokens. *)

From S2P Require Import Prelude Errors Common Rate Decimal Codec LastUpdate.
From S2P Require Import RateLimiter LendingMarket ReserveConfig ReserveLiquidity.
From S2P Require Import ReserveCollateral Reserve Runtime ProcessorHelpers ProcessReserve.

Section deposit.
Context `{Runtime}.

Definition _deposit_reserve_liquidity (program_id : Pubkey) (liquidity_amount : Z)
    (source_liquidity_info destination_collateral_info reserve_info
     reserve_liquidity_supply_info reserve_collateral_mint_info lending_market_info
     lending_market_authority_info user_transfer_authority_info
     token_program : AccountInfo) (w : World) : result (World * Z) :=
  let? lending_market := unpack_account LendingMarket w lending_market_info in
  reject_if negb (owner_of w lending_market_info =? program_id)
    with lending_error InvalidAccountOwner then
  reject_if negb (token_program_id lending_market =? key token_program)
    with lending_error InvalidTokenProgram then
  let? reserve := unpack_account Reserve w reserve_info in
  reject_if negb (owner_of w reserve_info =? program_id)
    with lending_error InvalidAccountOwner then
  reject_if negb (Reserve.lending_market reserve =? key lending_market_info)
    with lending_error InvalidAccountInput then
  reject_if negb (ReserveLiquidity.supply_pubkey (liquidity reserve)
                  =? key reserve_liquidity_supply_info)
    with lending_error InvalidAccountInput then
  reject_if negb (ReserveCollateral.mint_pubkey (collateral reserve)
                  =? key reserve_collateral_mint_info)
    with lending_error InvalidAccountInput then
  reject_if ReserveLiquidity.supply_pubkey (liquidity reserve) =? key source_liquidity_info
    with lending_error InvalidAccountInput then
  reject_if ReserveCollateral.supply_pubkey (collateral reserve)
            =? key destination_collateral_info
    with lending_error InvalidAccountInput then
  let? stale := is_stale (last_update reserve) (current_slot w) in
  reject_if stale with lending_error ReserveStale then
  check_authority program_id lending_market_info lending_market
    lending_market_authority_info;;?
  let? total_supply := total_supply (liquidity reserve) in
  let? total := try_add (from_int liquidity_amount) total_supply in
  let? total := try_floor_u64 total in
  reject_if deposit_limit (config reserve) <? total with lending_error InvalidAmount then
  let? ' (reserve, collateral_amount) := deposit_liquidity reserve liquidity_amount in
  let? w := pack_account (mark_reserve_stale reserve) reserve_info w in
  let? w :=
    spl_token_transfer source_liquidity_info reserve_liquidity_supply_info liquidity_amount
      user_transfer_authority_info [] token_program w in
  let? w :=
    spl_token_mint_to reserve_collateral_mint_info destination_collateral_info
      collateral_amount lending_market_authority_info
      (authority_seeds lending_market_info lending_market) token_program w in
  Ok (w, collateral_amount).

Definition process_deposit_reserve_liquidity (program_id : Pubkey) (liquidity_amount : Z)
    (accounts : list AccountInfo) (w : World) : result World :=
  reject_if liquidity_amount =? 0 with lending_error InvalidAmount then
  next source_liquidity_info of accounts in
  next destination_collateral_info of accounts in
  next reserve_info of accounts in
  next reserve_liquidity_supply_info of accounts in
  next reserve_collateral_mint_info of accounts in
  next lending_market_info of accounts in
  next lending_market_authority_info of accounts in
  next user_transfer_authority_info of accounts in
  let accounts := skip_clock accounts in
  next token_program of accounts in
  let? w := _refresh_reserve_interest program_id reserve_info w in
  let? ' (w, _) :=
    _deposit_reserve_liquidity program_id liquidity_amount source_liquidity_info
      destination_collateral_info reserve_info reserve_liquidity_supply_info
      reserve_collateral_mint_info lending_market_info lending_market_authority_info
      user_transfer_authority_info token_program w in
  Ok w.

Definition _redeem_reserve_collateral (program_id : Pubkey) (collateral_amount : Z)
    (source_collateral_info destination_liquidity_info reserve_info
     reserve_collateral_mint_info reserve_liquidity_supply_info lending_market_info
     lending_market_authority_info user_transfer_authority_info
     token_program : AccountInfo) (check_rate_limits : bool) (w : World)
    : result (World * Z) :=
  let? lending_market := unpack_account LendingMarket w lending_market_info in
  reject_if negb (owner_of w lending_market_info =? program_id)
    with lending_error InvalidAccountOwner then
  reject_if negb (token_program_id lending_market =? key token_program)
    with lending_error InvalidTokenProgram then
  let? reserve := unpack_account Reserve w reserve_info in
  reject_if negb (owner_of w reserve_info =? program_id)
    with lending_error InvalidAccountOwner then
  reject_if negb (Reserve.lending_market reserve =? key lending_market_info)
    with lending_error InvalidAccountInput then
  reject_if negb (ReserveCollateral.mint_pubkey (collateral reserve)
                  =? key reserve_collateral_mint_info)
    with lending_error InvalidAccountInput then
  reject_if ReserveCollateral.supply_pubkey (collateral reserve) =? key source_collateral_info
    with lending_error InvalidAccountInput then
  reject_if negb (ReserveLiquidity.supply_pubkey (liquidity reserve)
                  =? key reserve_liquidity_supply_info)
    with lending_error InvalidAccountInput then
  reject_if ReserveLiquidity.supply_pubkey (liquidity reserve)
            =? key destination_liquidity_info
    with lending_error InvalidAccountInput then
  let? stale := is_stale (last_update reserve) (current_slot w) in
  reject_if stale with lending_error ReserveStale then
  check_authority program_id lending_market_info lending_market
    lending_market_authority_info;;?
  let? ' (reserve, liquidity_amount) := redeem_collateral reserve collateral_amount in
  let? ' (lending_market', reserve) :=
    if check_rate_limits then
      let? value := market_value_upper_bound reserve (from_int liquidity_amount) in
      let? market_limiter :=
        RateLimiter.update (LendingMarket.rate_limiter lending_market) (current_slot w) value in
      let? reserve_limiter :=
        RateLimiter.update (Reserve.rate_limiter reserve) (current_slot w)
          (from_int liquidity_amount) in
      Ok (LendingMarket.set_rate_limiter lending_market market_limiter,
          Reserve.set_rate_limiter reserve reserve_limiter)
    else Ok (lending_market, reserve) in
  let? w := pack_account (mark_reserve_stale reserve) reserve_info w in
  let? w := pack_account lending_market' lending_market_info w in
  let? w :=
    spl_token_burn reserve_collateral_mint_info source_collateral_info collateral_amount
      user_transfer_authority_info [] token_program w in
  let? w :=
    spl_token_transfer reserve_liquidity_supply_info destination_liquidity_info
      liquidity_amount lending_market_authority_info
      (authority_seeds lending_market_info lending_market) token_program w in
  Ok (w, liquidity_amount).

Definition process_redeem_reserve_collateral (program_id : Pubkey) (collateral_amount : Z)
    (accounts : list AccountInfo) (w : World) : result World :=
  reject_if collateral_amount =? 0 with lending_error InvalidAmount then
  next source_collateral_info of accounts in
  next destination_liquidity_info of accounts in
  next reserve_info of accounts in
  next reserve_collateral_mint_info of accounts in
  next reserve_liquidity_supply_info of accounts in
  next lending_market_info of accounts in
  next lending_market_authority_info of accounts in
  next user_transfer_authority_info of accounts in
  let accounts := skip_clock accounts in
  next token_program of accounts in
  let? ' (w, _) :=
    _redeem_reserve_collateral program_id collateral_amount source_collateral_info
      destination_liquidity_info reserve_info reserve_collateral_mint_info
      reserve_liquidity_supply_info lending_market_info lending_market_authority_info
      user_transfer_authority_info token_program true w in
  mark_stale_in_account reserve_info w.
End deposit.
