(* ===== verification/ProcessConfig.v ===== *)
(** program/src/processor.rs: who may change a reserve's configuration, and the
    collection of protocol fees. *)

From S2P Require Import Prelude Errors Common Rate Decimal Codec LastUpdate.
From S2P Require Import RateLimiter LendingMarket ReserveConfig ReserveLiquidity.
From S2P Require Import ReserveCollateral Reserve Runtime Oracles ProcessorHelpers.
From S2P Require Import ProcessReserve.

(** Assignments to single fields of a configuration. *)
Definition set_limits (c : ReserveConfig) (deposit_limit borrow_limit : Z) : ReserveConfig :=
  mkReserveConfig (optimal_utilization_rate c) (max_utilization_rate c)
    (ReserveConfig.loan_to_value_ratio c) (liquidation_bonus c) (max_liquidation_bonus c)
    (liquidation_threshold c) (max_liquidation_threshold c) (min_borrow_rate c)
    (optimal_borrow_rate c) (max_borrow_rate c) (super_max_borrow_rate c) (fees c)
    deposit_limit borrow_limit (fee_receiver c) (protocol_liquidation_fee c)
    (protocol_take_rate c) (added_borrow_weight_bps c) (reserve_type c).

(** The fee fields of [c], the rest of [old]. *)
Definition set_fee_fields (old c : ReserveConfig) : ReserveConfig :=
  mkReserveConfig (optimal_utilization_rate old) (max_utilization_rate old)
    (ReserveConfig.loan_to_value_ratio old) (liquidation_bonus old)
    (max_liquidation_bonus old) (liquidation_threshold old) (max_liquidation_threshold old)
    (min_borrow_rate old) (optimal_borrow_rate old) (max_borrow_rate old)
    (super_max_borrow_rate old) (fees c) (deposit_limit old) (borrow_limit old)
    (fee_receiver c) (protocol_liquidation_fee c) (protocol_take_rate c)
    (added_borrow_weight_bps old) (reserve_type old).

Section config.
Context `{Runtime}.

(** The part of the handler a lending market owner reaches. *)
Definition update_as_owner (reserve : Reserve) (lending_market : LendingMarket)
    (config : ReserveConfig) (rate_limiter_config : RateLimiterConfig)
    (pyth_product_info pyth_price_info switchboard_feed_info : AccountInfo) (w : World)
    : result Reserve :=
  let reserve :=
    if bool_decide (rate_limiter_config = RateLimiter.config (Reserve.rate_limiter reserve))
    then reserve
    else Reserve.set_rate_limiter reserve
           (RateLimiter.new rate_limiter_config (current_slot w)) in
  let pyth := pyth_oracle_pubkey (liquidity reserve) in
  let switchboard := switchboard_oracle_pubkey (liquidity reserve) in
  let? pyth :=
    if negb (key pyth_price_info =? pyth) then
      validate_pyth_keys w lending_market pyth_product_info pyth_price_info;;?
      Ok (key pyth_price_info)
    else Ok pyth in
  let? switchboard :=
    if negb (key switchboard_feed_info =? switchboard) then
      validate_switchboard_keys w lending_market switchboard_feed_info;;?
      Ok (key switchboard_feed_info)
    else Ok switchboard in
  reject_if (switchboard =? NULL_PUBKEY) && (pyth =? NULL_PUBKEY)
    with lending_error InvalidOracleConfig then
  Ok (Reserve.set_config
        (set_liquidity reserve (set_oracles (liquidity reserve) pyth switchboard)) config).

(** The part the risk authority reaches: only towards less risk. *)
Definition update_as_risk_authority (reserve : Reserve) (config : ReserveConfig)
    (rate_limiter_config : RateLimiterConfig) (w : World) : Reserve :=
  let reserve :=
    if (0 <? window_duration rate_limiter_config) && (max_outflow rate_limiter_config =? 0)
    then Reserve.set_rate_limiter reserve
           (RateLimiter.new rate_limiter_config (current_slot w))
    else reserve in
  let old := Reserve.config reserve in
  let new_borrow_limit :=
    if borrow_limit config <? borrow_limit old then borrow_limit config else borrow_limit old in
  let new_deposit_limit :=
    if deposit_limit config <? deposit_limit old then deposit_limit config
    else deposit_limit old in
  Reserve.set_config reserve (set_limits old new_deposit_limit new_borrow_limit).

Definition process_update_reserve_config (program_id : Pubkey) (config : ReserveConfig)
    (rate_limiter_config : RateLimiterConfig) (accounts : list AccountInfo) (w : World)
    : result World :=
  validate_reserve_config config;;?
  next reserve_info of accounts in
  next lending_market_info of accounts in
  next lending_market_authority_info of accounts in
  next signer_info of accounts in
  next pyth_product_info of accounts in
  next pyth_price_info of accounts in
  next switchboard_feed_info of accounts in
  let? reserve := unpack_account Reserve w reserve_info in
  reject_if negb (owner_of w reserve_info =? program_id)
    with lending_error InvalidAccountOwner then
  reject_if negb (Reserve.lending_market reserve =? key lending_market_info)
    with lending_error InvalidAccountInput then
  let? lending_market := unpack_account LendingMarket w lending_market_info in
  reject_if negb (owner_of w lending_market_info =? program_id)
    with lending_error InvalidAccountOwner then
  (* if it's a permissionless market *)
  let permissionless := negb (solend_market_owner_id =? key signer_info) in
  let old := Reserve.config reserve in
  reject_if permissionless
            && negb (protocol_liquidation_fee old =? protocol_liquidation_fee config)
    with lending_error InvalidConfig then
  reject_if permissionless && negb (protocol_take_rate old =? protocol_take_rate config)
    with lending_error InvalidConfig then
  reject_if permissionless && negb (fee_receiver old =? fee_receiver config)
    with lending_error InvalidConfig then
  reject_if permissionless && negb (bool_decide (fees old = fees config))
    with lending_error InvalidConfig then
  check_authority program_id lending_market_info lending_market
    lending_market_authority_info;;?
  reject_if negb (is_signer signer_info) with lending_error InvalidSigner then
  let? reserve :=
    if key signer_info =? LendingMarket.owner lending_market then
      update_as_owner reserve lending_market config rate_limiter_config pyth_product_info
        pyth_price_info switchboard_feed_info w
    else if key signer_info =? risk_authority lending_market then
      Ok (update_as_risk_authority reserve config rate_limiter_config w)
    else if key signer_info =? solend_market_owner_id then
      Ok (Reserve.set_config reserve (set_fee_fields (Reserve.config reserve) config))
    else fail InvalidSigner in
  pack_account (mark_reserve_stale reserve) reserve_info w.

Definition process_redeem_fees (program_id : Pubkey) (accounts : list AccountInfo)
    (w : World) : result World :=
  next reserve_info of accounts in
  next reserve_liquidity_fee_receiver_info of accounts in
  next reserve_supply_liquidity_info of accounts in
  next lending_market_info of accounts in
  next lending_market_authority_info of accounts in
  next token_program of accounts in
  let? reserve := unpack_account Reserve w reserve_info in
  reject_if negb (owner_of w reserve_info =? program_id)
    with lending_error InvalidAccountOwner then
  reject_if negb (fee_receiver (config reserve) =? key reserve_liquidity_fee_receiver_info)
    with lending_error InvalidAccountInput then
  reject_if negb (ReserveLiquidity.supply_pubkey (liquidity reserve)
                  =? key reserve_supply_liquidity_info)
    with lending_error InvalidAccountInput then
  reject_if negb (Reserve.lending_market reserve =? key lending_market_info)
    with lending_error InvalidAccountInput then
  let? stale := is_stale (last_update reserve) (current_slot w) in
  reject_if stale with lending_error ReserveStale then
  let? lending_market := unpack_account LendingMarket w lending_market_info in
  reject_if negb (owner_of w lending_market_info =? program_id)
    with lending_error InvalidAccountOwner then
  reject_if negb (token_program_id lending_market =? key token_program)
    with lending_error InvalidTokenProgram then
  check_authority program_id lending_market_info lending_market
    lending_market_authority_info;;?
  let? withdraw_amount := calculate_redeem_fees reserve in
  reject_if withdraw_amount =? 0
    with lending_error InsufficientProtocolFeesToRedeem then
  let? l := redeem_fees (liquidity reserve) withdraw_amount in
  let? w :=
    pack_account (mark_reserve_stale (set_liquidity reserve l)) reserve_info w in
  spl_token_transfer reserve_supply_liquidity_info reserve_liquidity_fee_receiver_info
    withdraw_amount lending_market_authority_info
    (authority_seeds lending_market_info lending_market) token_program w.
End config.
