(* ===== verification/ReserveTyped.v ===== *)
(** The machine widths of a reserve's fields, and that every operation keeps them:
    what Rust's types say of the amounts, the decimals and the configuration. *)

From stdpp Require Import relations.
From S2P Require Import Prelude Errors Common Rate Decimal RatePow Codec LastUpdate RateLimiter.
From S2P Require Import ReserveConfig ReserveConfigSpec ReserveLiquidity ReserveCollateral.
From S2P Require Import Reserve ReserveRates ReserveExchange ProcessConfig.

Record reserve_typed (r : Reserve) : Prop := {
  ty_slot : is_u64 (slot (last_update r));
  ty_liquidity : liquidity_wf (liquidity r);
  ty_ctokens : is_u64 (mint_total_supply (collateral r));
  ty_config : reserve_config_wf (config r);
  ty_valid : sound_config (config r);
}.

(** Each operation that changes a reserve, on arguments of its types. *)
Inductive reserve_op : Reserve -> Reserve -> Prop :=
  | op_deposit_liquidity r n r' minted :
      is_u64 n -> deposit_liquidity r n = Ok (r', minted) -> reserve_op r r'
  | op_redeem_collateral r n r' paid :
      is_u64 n -> redeem_collateral r n = Ok (r', paid) -> reserve_op r r'
  | op_accrue_interest r s r' :
      Reserve.accrue_interest r s = Ok r' -> reserve_op r r'
  | op_liquidity r f l :
      liquidity_op f -> f (liquidity r) = Ok l -> reserve_op r (set_liquidity r l)
  | op_update_slot r s :
      is_u64 s -> reserve_op r (set_last_update r (update_slot (last_update r) s))
  | op_mark_stale r : reserve_op r (set_last_update r (mark_stale (last_update r)))
  (* by the market's owner: a configuration that validates, the oracles, the rate limiter *)
  | op_set_config r c :
      reserve_config_wf c -> validate_reserve_config c = Ok tt -> reserve_op r (set_config r c)
  | op_set_oracles r p s : reserve_op r (set_liquidity r (set_oracles (liquidity r) p s))
  | op_set_rate_limiter r l : reserve_op r (set_rate_limiter r l)
  (* by the risk authority: the limits *)
  | op_set_limits r d b :
      is_u64 d -> is_u64 b -> reserve_op r (set_config r (set_limits (config r) d b))
  (* by the owner of the program's markets: the fee fields of a configuration that
     validates *)
  | op_set_fee_fields r c :
      reserve_config_wf c -> validate_reserve_config c = Ok tt ->
      reserve_op r (set_config r (set_fee_fields (config r) c))
with liquidity_op : (ReserveLiquidity -> result ReserveLiquidity) -> Prop :=
  | op_deposit n : is_u64 n -> liquidity_op (fun l => ReserveLiquidity.deposit l n)
  | op_withdraw n : is_u64 n -> liquidity_op (fun l => ReserveLiquidity.withdraw l n)
  | op_borrow d : dec_wf d -> liquidity_op (fun l => ReserveLiquidity.borrow l d)
  | op_repay n d :
      is_u64 n -> dec_wf d -> liquidity_op (fun l => ReserveLiquidity.repay l n d)
  | op_forgive d : dec_wf d -> liquidity_op (fun l => ReserveLiquidity.forgive_debt l d)
  | op_redeem_fees n : is_u64 n -> liquidity_op (fun l => ReserveLiquidity.redeem_fees l n)
  | op_set_prices p s :
      dec_wf p -> dec_wf s -> liquidity_op (fun l => Ok (set_prices l p s)).

Lemma div_wad_nonneg a : 0 <= a -> 0 <= a / WAD.
Proof. intros. by apply div_nonneg. Qed.

Lemma div_wad_le a : 0 <= a -> a / WAD <= a.
Proof. intros. apply Z.div_le_upper_bound; pose proof WAD_pos; nia. Qed.

Lemma liquidity_op_typed f l l' :
  liquidity_op f -> liquidity_wf l -> f l = Ok l' -> liquidity_wf l'.
Proof.
  intros Hop [Hd Ha Hb Hc Hf Hp Hs] H. pose proof WAD_pos.
  unfold dec_wf, in_uint in *. destruct Hop; unfold dec_wf, in_uint in *.
  - apply liq_deposit_inv in H as [-> ?]. split; unfold dec_wf, in_uint; cbn; lia.
  - apply liq_withdraw_inv in H as [-> ?]. split; unfold dec_wf, in_uint; cbn; lia.
  - unfold ReserveLiquidity.borrow in H. minv H. apply dec_floor_inv in E as [-> _].
    apply math_Ok_inv, checked_sub_Some_inv in E0 as [-> ?]. apply dec_add_inv in E1 as [Hv ?].
    pose proof (div_wad_nonneg (dec_raw d)).
    split; unfold dec_wf, in_uint; cbn; lia.
  - unfold ReserveLiquidity.repay in H. minv H.
    apply math_Ok_inv, checked_add_Some_inv in E as [-> ?]. apply dec_sub_inv in E0 as [Hv ?].
    rewrite dec_min_raw in *. split; unfold dec_wf, in_uint; cbn; lia.
  - apply liq_forgive_inv in H as [-> ?]. split; unfold dec_wf, in_uint; cbn; lia.
  - unfold ReserveLiquidity.redeem_fees in H. minv H.
    apply math_Ok_inv, checked_sub_Some_inv in E as [-> ?]. apply dec_sub_inv in E0 as [Hv ?].
    cbn [from_int dec_raw] in *. split; unfold dec_wf, in_uint; cbn; nia.
  - injection H as <-. split; unfold dec_wf, in_uint; cbn; lia.
Qed.

Lemma compound_interest_typed l rate n take l' :
  0 <= rate_raw rate -> 0 <= rate_raw take <= WAD -> liquidity_wf l ->
  compound_interest l rate n take = Ok l' -> liquidity_wf l'.
Proof.
  intros Hr Ht [Hd Ha Hb Hc Hf Hp Hs] H. pose proof WAD_pos. unfold dec_wf, in_uint in *.
  pose proof (compound_interest_inv _ _ _ _ _ Hr Ht (proj1 Hb) (proj1 Hc) H)
    as (debt & fees & Hdebt & Hfees & Hbor & Hacc & Hcum & Hav).
  unfold compound_interest in H. minv H.
  apply dec_mul_rate_inv in E2 as [Hcum' Hlt]. apply dec_add_inv in E6 as [Hf' ?].
  apply dec_add_inv in E7 as [Hb' ?]. cbn in *.
  pose proof (div_wad_le (dec_raw (cumulative_borrow_rate_wads l) * rate_raw v1)).
  split; unfold dec_wf, in_uint; cbn; try lia.
  split; [lia|]. rewrite Hcum'. apply Z.div_lt_upper_bound; lia.
Qed.

Lemma deposit_liquidity_typed r n r' minted :
  is_u64 n -> reserve_typed r -> deposit_liquidity r n = Ok (r', minted) -> reserve_typed r'.
Proof.
  intros Hn [Hs Hl Hc Hw Hv] H. unfold deposit_liquidity in H. minv H. subst.
  apply rate_nonneg in E; [|apply Hc]. apply liquidity_to_collateral_inv in E0 as ->.
  apply mint_inv in E2 as [-> ?].
  split; cbn; try done.
  - exact (liquidity_op_typed _ _ _ (op_deposit n Hn) Hl E1).
  - unfold in_uint, ctokens in *. split; [|done].
    apply Z.add_nonneg_nonneg; [lia|]. repeat apply div_nonneg; try done.
    pose proof WAD_pos. nia.
Qed.

Lemma redeem_collateral_typed r n r' paid :
  is_u64 n -> reserve_typed r -> redeem_collateral r n = Ok (r', paid) -> reserve_typed r'.
Proof.
  intros Hn [Hs Hl Hc Hw Hv] H. unfold redeem_collateral in H. minv H. subst.
  apply rate_nonneg in E; [|apply Hc]. apply collateral_to_liquidity_inv in E0 as [-> ?].
  apply burn_inv in E1 as [-> ?].
  split; cbn; try done.
  - refine (liquidity_op_typed _ _ _ (op_withdraw _ _) Hl E2).
    apply liq_withdraw_inv in E2 as [_ Hle]. pose proof (wf_available_amount _ Hl) as Ha.
    unfold in_uint in *. split; [|lia]. pose proof WAD_pos.
    repeat apply div_nonneg; nia.
  - unfold in_uint, ctokens in *. lia.
Qed.

Lemma accrue_interest_typed r s r' :
  reserve_typed r -> Reserve.accrue_interest r s = Ok r' -> reserve_typed r'.
Proof.
  intros Ht H. unfold Reserve.accrue_interest in H. minv H.
  destruct (0 <? v); [|by minv H]. minv H. destruct Ht as [Hs Hl Hc Hw Hv].
  pose proof (proj1 (wf_available_amount _ Hl)) as Ha.
  pose proof (proj1 (wf_borrowed_amount _ Hl)) as Hb.
  apply (current_borrow_rate_range r Hw Hv _ Ha Hb) in E0.
  pose proof (curve_points _ Hw Hv).
  split; cbn; try done.
  refine (compound_interest_typed _ _ _ _ _ _ (take_rate_bounds _ Hw Hv) Hl E1). lia.
Qed.

(** Neither the limits nor the fee fields of a sound configuration make another unsound;
    they can take it over the cap on the bonus, which [sound_config] leaves out. *)
Lemma limits_typed c d b :
  reserve_config_wf c -> is_u64 d -> is_u64 b -> reserve_config_wf (set_limits c d b).
Proof. intros [] ? ?. by split. Qed.

Lemma limits_sound c d b : sound_config c -> sound_config (set_limits c d b).
Proof. intros []. by split. Qed.

Lemma fee_fields_typed old c :
  reserve_config_wf old -> reserve_config_wf c -> reserve_config_wf (set_fee_fields old c).
Proof. intros [] []. by split. Qed.

Lemma fee_fields_sound old c :
  sound_config old -> sound_config c -> sound_config (set_fee_fields old c).
Proof. intros [] []. by split. Qed.

Lemma reserve_op_typed r r' : reserve_op r r' -> reserve_typed r -> reserve_typed r'.
Proof.
  intros [] Ht.
  - by eapply deposit_liquidity_typed.
  - by eapply redeem_collateral_typed.
  - by eapply accrue_interest_typed.
  - destruct Ht as [Hs Hl Hc Hw Hv]. split; cbn; try done. by eapply liquidity_op_typed.
  - by destruct Ht.
  - by destruct Ht.
  - destruct Ht as [Hs Hl Hc Hw Hv]. split; cbn; try done. by apply validated_sound.
  - destruct Ht as [Hs [] Hc Hw Hv]. by split.
  - by destruct Ht.
  - destruct Ht as [Hs Hl Hc Hw Hv]. split; cbn; try done;
      [by apply limits_typed|by apply limits_sound].
  - destruct Ht as [Hs Hl Hc Hw Hv]. split; cbn; try done;
      [by apply fee_fields_typed|by apply fee_fields_sound; [|apply validated_sound]].
Qed.

(** C23: a reserve's fields keep their types.  From a reserve whose slot and token
    amounts are 64-bit integers, whose debt, fees, prices and cumulative rate are
    192-bit decimals and whose configuration is of its widths and sound, any
    sequence of operations that succeed, on arguments of their types, leads to such
    a reserve: no amount goes below zero, and none wraps around.  The operations include
    the three updates of a configuration.  A sound configuration meets every constraint
    of validation but the cap on the maximal bonus and the protocol's fee together, which
    an update of the fees can exceed. *)
Theorem reserve_operations_typed (r r' : Reserve)
    (Ht : reserve_typed r) (H : rtc reserve_op r r') : reserve_typed r'.
Proof. induction H as [|r r1 r' Hop _ IH]; [done|]. apply IH. by eapply reserve_op_typed. Qed.

Lemma test_reserve_typed : reserve_typed test_reserve.
Proof.
  split; [by vm_compute|split; by vm_compute|by vm_compute|apply test_config_wf|].
  apply test_config_valid.
Qed.

(** A deposit, its redemption, and an update of the fees. *)
Definition after_fees : Reserve :=
  set_config after_redeem (set_fee_fields (config after_redeem) (config test_reserve)).

Lemma reserve_operations_typed_witness :
  rtc reserve_op test_reserve after_fees /\ reserve_typed after_fees.
Proof.
  assert (Hn : is_u64 1000) by (vm_compute; split; [discriminate|reflexivity]).
  assert (Hd : deposit_liquidity test_reserve 1000 = Ok (after_deposit, 1000))
    by (vm_compute; reflexivity).
  assert (Hr : redeem_collateral after_deposit 1000 = Ok (after_redeem, 1000))
    by (vm_compute; reflexivity).
  assert (H : rtc reserve_op test_reserve after_fees).
  { apply (rtc_l _ _ after_deposit); [exact (op_deposit_liquidity _ 1000 _ _ Hn Hd)|].
    apply (rtc_l _ _ after_redeem); [exact (op_redeem_collateral _ 1000 _ _ Hn Hr)|].
    apply rtc_once. exact (op_set_fee_fields after_redeem _ test_config_wf eq_refl). }
  split; [exact H|].
  exact (reserve_operations_typed test_reserve after_fees test_reserve_typed H).
Defined.
