(* ===== verification/ProcessObligation.v ===== *)
(** program/src/processor.rs: the handlers that create an obligation and bring it
    up to date. *)

From S2P Require Import Prelude Errors Common Rate Decimal Codec LastUpdate.
From S2P Require Import RateLimiter LendingMarket ReserveConfig.
From S2P Require Import ObligationCollateral ObligationLiquidity Obligation.
From S2P Require Import ReserveLiquidity ReserveCollateral Reserve.
From S2P Require Import Runtime ProcessorHelpers.

Section init.
Context `{Runtime}.

Definition process_init_obligation (program_id : Pubkey) (accounts : list AccountInfo)
    (w : World) : result World :=
  next obligation_info of accounts in
  next lending_market_info of accounts in
  next obligation_owner_info of accounts in
  let accounts := skip_clock accounts in
  next rent_info of accounts in
  let? rent := rent_from_info w rent_info in
  next token_program of accounts in
  assert_rent_exempt rent w obligation_info;;?
  let? obligation := assert_uninitialized Obligation w obligation_info in
  reject_if negb (owner_of w obligation_info =? program_id)
    with lending_error InvalidAccountOwner then
  let? lending_market := unpack_account LendingMarket w lending_market_info in
  reject_if negb (owner_of w lending_market_info =? program_id)
    with lending_error InvalidAccountOwner then
  reject_if negb (token_program_id lending_market =? key token_program)
    with lending_error InvalidTokenProgram then
  reject_if negb (is_signer obligation_owner_info) with lending_error InvalidSigner then
  let obligation :=
    Obligation.init obligation
      (mkInitObligationParams (current_slot w) (key lending_market_info)
         (key obligation_owner_info) [] []) in
  pack_account obligation obligation_info w.
End init.

(** ** Refresh *)

(** The sums over the deposits. *)
Record DepositTotals : Type := mkDepositTotals {
  sum_deposited : Decimal;
  sum_allowed : Decimal;
  sum_unhealthy : Decimal;
  sum_super_unhealthy : Decimal;
}.

(** The borrow with the largest weight, ties going to the larger key, and its
    index. *)
Definition MaxBorrowWeight : Type := option ((Z * Pubkey) * nat).

(** The sums over the borrows. *)
Record BorrowTotals : Type := mkBorrowTotals {
  sum_borrowed : Decimal;
  sum_borrowed_upper : Decimal;
  any_isolated : bool;
  max_borrow_weight : MaxBorrowWeight;
}.

Definition weight_gt (a b : Z * Pubkey) : bool :=
  (b.1 <? a.1) || ((a.1 =? b.1) && (b.2 <? a.2)).

Definition max_weight_step (max : MaxBorrowWeight) (borrowed : Decimal) (a : Z * Pubkey)
    (index : nat) : MaxBorrowWeight :=
  match max with
  | None => if dec_lt Decimal.zero borrowed then Some (a, index) else None
  | Some (b, _) =>
      if dec_lt Decimal.zero borrowed && weight_gt a b then Some (a, index) else max
  end.

(** The values of one deposit, by its reserve. *)
Definition refresh_deposit (deposit_reserve : Reserve) (collateral : ObligationCollateral)
    (t : DepositTotals) : result (ObligationCollateral * DepositTotals) :=
  let c := config deposit_reserve in
  let? rate := collateral_exchange_rate deposit_reserve in
  let? liquidity_amount :=
    decimal_collateral_to_liquidity rate (from_int (deposited_amount collateral)) in
  let? market_value := market_value deposit_reserve liquidity_amount in
  let? market_value_lower_bound := market_value_lower_bound deposit_reserve liquidity_amount in
  let? deposited := try_add (sum_deposited t) market_value in
  let? v := try_mul market_value_lower_bound
              (Rate.from_percent (ReserveConfig.loan_to_value_ratio c)) in
  let? allowed := try_add (sum_allowed t) v in
  let? v := try_mul market_value (Rate.from_percent (liquidation_threshold c)) in
  let? unhealthy := try_add (sum_unhealthy t) v in
  let? v := try_mul market_value (Rate.from_percent (max_liquidation_threshold c)) in
  let? super_unhealthy := try_add (sum_super_unhealthy t) v in
  Ok (ObligationCollateral.set_market_value collateral market_value,
      mkDepositTotals deposited allowed unhealthy super_unhealthy).

(** One borrow: interest, weight and values, by its reserve. *)
Definition refresh_borrow (borrow_reserve_key : Pubkey) (borrow_reserve : Reserve)
    (index : nat) (liquidity : ObligationLiquidity) (t : BorrowTotals)
    : result (ObligationLiquidity * BorrowTotals) :=
  let isolated :=
    any_isolated t || bool_decide (reserve_type (config borrow_reserve) = Isolated) in
  let? liquidity :=
    ObligationLiquidity.accrue_interest liquidity
      (ReserveLiquidity.cumulative_borrow_rate_wads (Reserve.liquidity borrow_reserve)) in
  let borrowed := ObligationLiquidity.borrowed_amount_wads liquidity in
  let max :=
    max_weight_step (max_borrow_weight t) borrowed
      (added_borrow_weight_bps (config borrow_reserve), borrow_reserve_key) index in
  let? market_value := market_value borrow_reserve borrowed in
  let? market_value_upper_bound := market_value_upper_bound borrow_reserve borrowed in
  let? weight := borrow_weight borrow_reserve in
  let? v := try_mul market_value weight in
  let? sum := try_add (sum_borrowed t) v in
  let? v := try_mul market_value_upper_bound weight in
  let? upper := try_add (sum_borrowed_upper t) v in
  Ok (ObligationLiquidity.set_market_value liquidity market_value,
      mkBorrowTotals sum upper isolated max).

Section refresh.
Context `{Runtime} (program_id : Pubkey) (w : World).

(** A reserve passed to the refresh: owned by the program, the expected one, and
    refreshed in this slot. *)
Definition load_fresh_reserve (info : AccountInfo) (expected : Pubkey) : result Reserve :=
  reject_if negb (owner_of w info =? program_id) with lending_error InvalidAccountOwner then
  reject_if negb (expected =? key info) with lending_error InvalidAccountInput then
  let? reserve := unpack_account Reserve w info in
  let? stale := is_stale (last_update reserve) (current_slot w) in
  reject_if stale with lending_error ReserveStale then
  Ok reserve.

Fixpoint refresh_deposits (accounts : list AccountInfo) (ds : list ObligationCollateral)
    (t : DepositTotals) : result (list AccountInfo * list ObligationCollateral * DepositTotals) :=
  match ds with
  | [] => Ok (accounts, [], t)
  | d :: ds =>
      next info of accounts in
      let? reserve := load_fresh_reserve info (deposit_reserve d) in
      let? ' (d, t) := refresh_deposit reserve d t in
      let? ' (accounts, ds, t) := refresh_deposits accounts ds t in
      Ok (accounts, d :: ds, t)
  end.

Fixpoint refresh_borrows (accounts : list AccountInfo) (index : nat)
    (bs : list ObligationLiquidity) (t : BorrowTotals)
    : result (list AccountInfo * list ObligationLiquidity * BorrowTotals) :=
  match bs with
  | [] => Ok (accounts, [], t)
  | b :: bs =>
      next info of accounts in
      let? reserve := load_fresh_reserve info (borrow_reserve b) in
      let? ' (b, t) := refresh_borrow (key info) reserve index b t in
      let? ' (accounts, bs, t) := refresh_borrows accounts (S index) bs t in
      Ok (accounts, b :: bs, t)
  end.
End refresh.

(** [Vec::swap(0, i)]. *)
Definition swap_to_front {A : Type} (i : nat) (l : list A) : result (list A) :=
  let? a := unwrap_option (l !! 0%nat) in
  let? b := unwrap_option (l !! i) in
  Ok (<[i := a]> (<[0%nat := b]> l)).

Definition global_unhealthy_borrow_value : Decimal := from_int 70000000.
Definition global_allowed_borrow_value : Decimal := from_int 65000000.

(** The refreshed obligation from its revalued positions. *)
Definition refreshed_obligation (o : Obligation) (slot : Z)
    (ds : list ObligationCollateral) (td : DepositTotals)
    (bs : list ObligationLiquidity) (tb : BorrowTotals) : result Obligation :=
  let? bs :=
    match max_borrow_weight tb with
    | Some (_, i) => swap_to_front i bs
    | None => Ok bs
    end in
  Ok (mkObligation (Obligation.version o) (update_slot (Obligation.last_update o) slot)
        (Obligation.lending_market o) (Obligation.owner o)
        (List.filter (fun c => 0 <? deposited_amount c) ds)
        (List.filter
           (fun l => dec_lt Decimal.zero (ObligationLiquidity.borrowed_amount_wads l)) bs)
        (sum_deposited td) (sum_borrowed tb) (sum_borrowed_upper tb)
        (dec_min (sum_allowed td) global_allowed_borrow_value)
        (dec_min (sum_unhealthy td) global_unhealthy_borrow_value)
        (dec_min (sum_super_unhealthy td) global_unhealthy_borrow_value)
        (any_isolated tb)).

Definition process_refresh_obligation `{Runtime} (program_id : Pubkey)
    (accounts : list AccountInfo) (w : World) : result World :=
  next obligation_info of accounts in
  let accounts := skip_clock accounts in
  let? obligation := unpack_account Obligation w obligation_info in
  reject_if negb (owner_of w obligation_info =? program_id)
    with lending_error InvalidAccountOwner then
  let? ' (accounts, ds, td) :=
    refresh_deposits program_id w accounts (deposits obligation)
      (mkDepositTotals Decimal.zero Decimal.zero Decimal.zero Decimal.zero) in
  let? ' (accounts, bs, tb) :=
    refresh_borrows program_id w accounts 0 (borrows obligation)
      (mkBorrowTotals Decimal.zero Decimal.zero false None) in
  reject_if negb (length accounts =? 0)%nat with lending_error InvalidAccountInput then
  let? obligation := refreshed_obligation obligation (current_slot w) ds td bs tb in
  pack_account obligation obligation_info w.
