(* ===== verification/ProcessCollateral.v ===== *)
(** program/src/processor.rs: moving collateral into and out of an obligation. *)

From S2P Require Import Prelude Errors Common Rate Decimal Codec LastUpdate.
From S2P Require Import RateLimiter LendingMarket.
From S2P Require Import ObligationCollateral ObligationLiquidity Obligation ObligationWithdraw.
From S2P Require Import ReserveLiquidity ReserveCollateral Reserve.
From S2P Require Import Runtime ProcessorHelpers ProcessReserve ProcessDeposit.

Definition mark_obligation_stale (o : Obligation) : Obligation :=
  Obligation.set_last_update o (mark_stale (Obligation.last_update o)).

(** [obligation.find_or_add_collateral_to_deposits(k)?.deposit(n)?]. *)
Definition deposit_to_obligation (o : Obligation) (k : Pubkey) (n : Z) : result Obligation :=
  let? ' (o, i) := find_or_add_collateral_to_deposits o k in
  let? c := unwrap_option (deposits o !! i) in
  let? c := ObligationCollateral.deposit c n in
  Ok (set_deposits o (<[i := c]> (deposits o))).

Section collateral.
Context `{Runtime}.

Definition _deposit_obligation_collateral (program_id : Pubkey) (collateral_amount : Z)
    (source_collateral_info destination_collateral_info deposit_reserve_info obligation_info
     lending_market_info obligation_owner_info user_transfer_authority_info
     token_program : AccountInfo) (w : World) : result World :=
  let? lending_market := unpack_account LendingMarket w lending_market_info in
  reject_if negb (owner_of w lending_market_info =? program_id)
    with lending_error InvalidAccountOwner then
  reject_if negb (token_program_id lending_market =? key token_program)
    with lending_error InvalidTokenProgram then
  let? deposit_reserve := unpack_account Reserve w deposit_reserve_info in
  reject_if negb (owner_of w deposit_reserve_info =? program_id)
    with lending_error InvalidAccountOwner then
  reject_if negb (Reserve.lending_market deposit_reserve =? key lending_market_info)
    with lending_error InvalidAccountInput then
  reject_if ReserveCollateral.supply_pubkey (collateral deposit_reserve)
            =? key source_collateral_info
    with lending_error InvalidAccountInput then
  reject_if negb (ReserveCollateral.supply_pubkey (collateral deposit_reserve)
                  =? key destination_collateral_info)
    with lending_error InvalidAccountInput then
  let? stale := is_stale (Reserve.last_update deposit_reserve) (current_slot w) in
  reject_if stale with lending_error ReserveStale then
  let? obligation := unpack_account Obligation w obligation_info in
  reject_if negb (owner_of w obligation_info =? program_id)
    with lending_error InvalidAccountOwner then
  reject_if negb (Obligation.lending_market obligation =? key lending_market_info)
    with lending_error InvalidAccountInput then
  reject_if negb (Obligation.owner obligation =? key obligation_owner_info)
    with lending_error InvalidObligationOwner then
  reject_if negb (is_signer obligation_owner_info) with lending_error InvalidSigner then
  let? obligation :=
    deposit_to_obligation obligation (key deposit_reserve_info) collateral_amount in
  let? w := pack_account (mark_obligation_stale obligation) obligation_info w in
  spl_token_transfer source_collateral_info destination_collateral_info collateral_amount
    user_transfer_authority_info [] token_program w.

Definition process_deposit_obligation_collateral (program_id : Pubkey)
    (collateral_amount : Z) (accounts : list AccountInfo) (w : World) : result World :=
  reject_if collateral_amount =? 0 with lending_error InvalidAmount then
  next source_collateral_info of accounts in
  next destination_collateral_info of accounts in
  next deposit_reserve_info of accounts in
  next obligation_info of accounts in
  next lending_market_info of accounts in
  next obligation_owner_info of accounts in
  next user_transfer_authority_info of accounts in
  let accounts := skip_clock accounts in
  next token_program of accounts in
  let? w := _refresh_reserve_interest program_id deposit_reserve_info w in
  let? w :=
    _deposit_obligation_collateral program_id collateral_amount source_collateral_info
      destination_collateral_info deposit_reserve_info obligation_info lending_market_info
      obligation_owner_info user_transfer_authority_info token_program w in
  mark_stale_in_account deposit_reserve_info w.

Definition process_deposit_reserve_liquidity_and_obligation_collateral (program_id : Pubkey)
    (liquidity_amount : Z) (accounts : list AccountInfo) (w : World) : result World :=
  reject_if liquidity_amount =? 0 with lending_error InvalidAmount then
  next source_liquidity_info of accounts in
  next user_collateral_info of accounts in
  next reserve_info of accounts in
  next reserve_liquidity_supply_info of accounts in
  next reserve_collateral_mint_info of accounts in
  next lending_market_info of accounts in
  next lending_market_authority_info of accounts in
  next destination_collateral_info of accounts in
  next obligation_info of accounts in
  next obligation_owner_info of accounts in
  next pyth_price_info of accounts in
  next switchboard_feed_info of accounts in
  next user_transfer_authority_info of accounts in
  let accounts := skip_clock accounts in
  next token_program of accounts in
  let? w := _refresh_reserve_interest program_id reserve_info w in
  let? ' (w, collateral_amount) :=
    _deposit_reserve_liquidity program_id liquidity_amount source_liquidity_info
      user_collateral_info reserve_info reserve_liquidity_supply_info
      reserve_collateral_mint_info lending_market_info lending_market_authority_info
      user_transfer_authority_info token_program w in
  let? w := _refresh_reserve_interest program_id reserve_info w in
  let? w :=
    _deposit_obligation_collateral program_id collateral_amount user_collateral_info
      destination_collateral_info reserve_info obligation_info lending_market_info
      obligation_owner_info user_transfer_authority_info token_program w in
  mark_stale_in_account reserve_info w.

(** The collateral that the rate limiters of the market and of the reserve still
    let out; neither limiter is charged. *)
Definition max_outflow_collateral (lending_market : LendingMarket)
    (withdraw_reserve : Reserve) (obligation : Obligation) (slot : Z) : result Z :=
  let? ' (_, max_outflow_usd) :=
    remaining_outflow (LendingMarket.rate_limiter lending_market) slot in
  let? double := try_mul (deposited_value obligation) 2 in
  let? max_lending_market_outflow_liquidity_amount :=
    usd_to_liquidity_amount_lower_bound withdraw_reserve (dec_min max_outflow_usd double) in
  let? ' (_, max_reserve_outflow_liquidity_amount) :=
    remaining_outflow (Reserve.rate_limiter withdraw_reserve) slot in
  let max_outflow_liquidity_amount :=
    dec_min max_lending_market_outflow_liquidity_amount
      max_reserve_outflow_liquidity_amount in
  let? rate := collateral_exchange_rate withdraw_reserve in
  let? d := decimal_liquidity_to_collateral rate max_outflow_liquidity_amount in
  try_floor_u64 d.

Definition _withdraw_obligation_collateral (program_id : Pubkey) (collateral_amount : Z)
    (source_collateral_info destination_collateral_info withdraw_reserve_info
     obligation_info lending_market_info lending_market_authority_info obligation_owner_info
     token_program : AccountInfo) (account_for_rate_limiter : bool) (w : World)
    : result (World * Z) :=
  let? lending_market := unpack_account LendingMarket w lending_market_info in
  reject_if negb (owner_of w lending_market_info =? program_id)
    with lending_error InvalidAccountOwner then
  reject_if negb (token_program_id lending_market =? key token_program)
    with lending_error InvalidTokenProgram then
  let? withdraw_reserve := unpack_account Reserve w withdraw_reserve_info in
  reject_if negb (owner_of w withdraw_reserve_info =? program_id)
    with lending_error InvalidAccountOwner then
  reject_if negb (Reserve.lending_market withdraw_reserve =? key lending_market_info)
    with lending_error InvalidAccountInput then
  reject_if negb (ReserveCollateral.supply_pubkey (collateral withdraw_reserve)
                  =? key source_collateral_info)
    with lending_error InvalidAccountInput then
  reject_if ReserveCollateral.supply_pubkey (collateral withdraw_reserve)
            =? key destination_collateral_info
    with lending_error InvalidAccountInput then
  let? stale := is_stale (Reserve.last_update withdraw_reserve) (current_slot w) in
  reject_if stale with lending_error ReserveStale then
  let? obligation := unpack_account Obligation w obligation_info in
  reject_if negb (owner_of w obligation_info =? program_id)
    with lending_error InvalidAccountOwner then
  reject_if negb (Obligation.lending_market obligation =? key lending_market_info)
    with lending_error InvalidAccountInput then
  reject_if negb (Obligation.owner obligation =? key obligation_owner_info)
    with lending_error InvalidObligationOwner then
  reject_if negb (is_signer obligation_owner_info) with lending_error InvalidSigner then
  let? stale := is_stale (Obligation.last_update obligation) (current_slot w) in
  reject_if stale with lending_error ObligationStale then
  let? ' (collateral, collateral_index) :=
    find_collateral_in_deposits obligation (key withdraw_reserve_info) in
  reject_if deposited_amount collateral =? 0
    with lending_error ObligationCollateralEmpty then
  check_authority program_id lending_market_info lending_market
    lending_market_authority_info;;?
  let? max_outflow_collateral_amount :=
    if account_for_rate_limiter
    then max_outflow_collateral lending_market withdraw_reserve obligation (current_slot w)
    else Ok u64_max in
  let? max_withdraw_amount := max_withdraw_amount obligation collateral withdraw_reserve in
  let withdraw_amount :=
    Z.min collateral_amount (Z.min max_withdraw_amount max_outflow_collateral_amount) in
  reject_if withdraw_amount =? 0 with lending_error WithdrawTooLarge then
  let? obligation := Obligation.withdraw obligation withdraw_amount collateral_index in
  let? w := pack_account (mark_obligation_stale obligation) obligation_info w in
  let? w :=
    spl_token_transfer source_collateral_info destination_collateral_info withdraw_amount
      lending_market_authority_info (authority_seeds lending_market_info lending_market)
      token_program w in
  Ok (w, withdraw_amount).

Definition process_withdraw_obligation_collateral (program_id : Pubkey)
    (collateral_amount : Z) (accounts : list AccountInfo) (w : World) : result World :=
  reject_if collateral_amount =? 0 with lending_error InvalidAmount then
  next source_collateral_info of accounts in
  next destination_collateral_info of accounts in
  next withdraw_reserve_info of accounts in
  next obligation_info of accounts in
  next lending_market_info of accounts in
  next lending_market_authority_info of accounts in
  next obligation_owner_info of accounts in
  let accounts := skip_clock accounts in
  next token_program of accounts in
  let? ' (w, _) :=
    _withdraw_obligation_collateral program_id collateral_amount source_collateral_info
      destination_collateral_info withdraw_reserve_info obligation_info lending_market_info
      lending_market_authority_info obligation_owner_info token_program false w in
  Ok w.

Definition process_withdraw_obligation_collateral_and_redeem_reserve_liquidity
    (program_id : Pubkey) (collateral_amount : Z) (accounts : list AccountInfo) (w : World)
    : result World :=
  next reserve_collateral_info of accounts in
  next user_collateral_info of accounts in
  next reserve_info of accounts in
  next obligation_info of accounts in
  next lending_market_info of accounts in
  next lending_market_authority_info of accounts in
  next user_liquidity_info of accounts in
  next reserve_collateral_mint_info of accounts in
  next reserve_liquidity_supply_info of accounts in
  next obligation_owner_info of accounts in
  next user_transfer_authority_info of accounts in
  let accounts := skip_clock accounts in
  next token_program of accounts in
  let? ' (w, liquidity_amount) :=
    _withdraw_obligation_collateral program_id collateral_amount reserve_collateral_info
      user_collateral_info reserve_info obligation_info lending_market_info
      lending_market_authority_info obligation_owner_info token_program true w in
  let? ' (w, _) :=
    _redeem_reserve_collateral program_id liquidity_amount user_collateral_info
      user_liquidity_info reserve_info reserve_collateral_mint_info
      reserve_liquidity_supply_info lending_market_info lending_market_authority_info
      user_transfer_authority_info token_program true w in
  Ok w.
End collateral.
