(* ===== verification/ProcessBorrow.v ===== *)
(** program/src/processor.rs: borrowing against an obligation, and repaying. *)

From S2P Require Import Prelude Errors Common Rate Decimal Codec LastUpdate.
From S2P Require Import RateLimiter LendingMarket ReserveConfig.
From S2P Require Import ObligationCollateral ObligationLiquidity Obligation.
From S2P Require Import ReserveLiquidity ReserveCollateral Reserve.
From S2P Require Import Runtime ProcessorHelpers ProcessReserve ProcessCollateral.

(** [obligation.find_or_add_liquidity_to_borrows(k, rate)?.borrow(d)?]. *)
Definition borrow_in_obligation (o : Obligation) (k : Pubkey) (rate d : Decimal)
    : result Obligation :=
  let? ' (o, i) := find_or_add_liquidity_to_borrows o k rate in
  let? l := unwrap_option (borrows o !! i) in
  let? l := ObligationLiquidity.borrow l d in
  Ok (set_borrows o (<[i := l]> (borrows o))).

(** The isolated-tier rules: [Err] if the borrow would break them. *)
Definition check_isolated_tier (borrow_reserve : Reserve) (borrow_reserve_key : Pubkey)
    (obligation : Obligation) : result unit :=
  match reserve_type (config borrow_reserve) with
  | Isolated =>
      match borrows obligation with
      | [] => Ok tt
      | [b] =>
          reject_if negb (ObligationLiquidity.borrow_reserve b =? borrow_reserve_key)
            with lending_error IsolatedTierAssetViolation then
          Ok tt
      | _ => fail IsolatedTierAssetViolation
      end
  | Regular =>
      reject_if borrowing_isolated_asset obligation
        with lending_error IsolatedTierAssetViolation then
      Ok tt
  end.

(** The tokens that the rate limiters still let out, with the limiters brought
    up to the slot. *)
Definition max_outflow_tokens (lending_market : LendingMarket) (borrow_reserve : Reserve)
    (remaining_borrow_value : Decimal) (slot : Z)
    : result (RateLimiter * RateLimiter * Decimal) :=
  let? ' (market_limiter, max_outflow_usd) :=
    remaining_outflow (LendingMarket.rate_limiter lending_market) slot in
  let? ' (reserve_limiter, max_outflow_tokens) :=
    remaining_outflow (Reserve.rate_limiter borrow_reserve) slot in
  let? t :=
    usd_to_liquidity_amount_lower_bound borrow_reserve
      (dec_min max_outflow_usd remaining_borrow_value) in
  Ok (market_limiter, reserve_limiter, dec_min t max_outflow_tokens).

Section borrow.
Context `{Runtime}.

(** The transfers of a borrow: the host's fee if a host account was passed, the
    rest of the fee, and the amount received. *)
Definition borrow_transfers (source_liquidity_info destination_liquidity_info
    fee_receiver_info authority_info token_program : AccountInfo) (seeds : list bytes)
    (host : list AccountInfo) (borrow_fee host_fee receive_amount : Z) (w : World)
    : result World :=
  let? ' (w, owner_fee) :=
    match next_account_info host with
    | Ok (host_fee_receiver_info, _) =>
        if 0 <? host_fee then
          let? owner_fee := math (checked_sub borrow_fee host_fee) in
          let? w :=
            spl_token_transfer source_liquidity_info host_fee_receiver_info host_fee
              authority_info seeds token_program w in
          Ok (w, owner_fee)
        else Ok (w, borrow_fee)
    | _ => Ok (w, borrow_fee)
    end in
  let? w :=
    if 0 <? owner_fee then
      spl_token_transfer source_liquidity_info fee_receiver_info owner_fee authority_info
        seeds token_program w
    else Ok w in
  spl_token_transfer source_liquidity_info destination_liquidity_info receive_amount
    authority_info seeds token_program w.

(** [process_borrow_obligation_liquidity] once its accounts are read; [host] are
    the accounts that remain. *)
Definition _borrow_obligation_liquidity (program_id : Pubkey) (liquidity_amount : Z)
    (source_liquidity_info destination_liquidity_info borrow_reserve_info
     borrow_reserve_liquidity_fee_receiver_info obligation_info lending_market_info
     lending_market_authority_info obligation_owner_info token_program : AccountInfo)
    (host : list AccountInfo) (w : World) : result World :=
  let? lending_market := unpack_account LendingMarket w lending_market_info in
  reject_if negb (owner_of w lending_market_info =? program_id)
    with lending_error InvalidAccountOwner then
  reject_if negb (token_program_id lending_market =? key token_program)
    with lending_error InvalidTokenProgram then
  let? borrow_reserve := unpack_account Reserve w borrow_reserve_info in
  reject_if negb (owner_of w borrow_reserve_info =? program_id)
    with lending_error InvalidAccountOwner then
  reject_if negb (Reserve.lending_market borrow_reserve =? key lending_market_info)
    with lending_error InvalidAccountInput then
  reject_if negb (ReserveLiquidity.supply_pubkey (liquidity borrow_reserve)
                  =? key source_liquidity_info)
    with lending_error InvalidAccountInput then
  reject_if ReserveLiquidity.supply_pubkey (liquidity borrow_reserve)
            =? key destination_liquidity_info
    with lending_error InvalidAccountInput then
  reject_if negb (fee_receiver (config borrow_reserve)
                  =? key borrow_reserve_liquidity_fee_receiver_info)
    with lending_error InvalidAccountInput then
  let? stale := is_stale (Reserve.last_update borrow_reserve) (current_slot w) in
  reject_if stale with lending_error ReserveStale then
  let? above_limit :=
    if negb (liquidity_amount =? u64_max) then
      let? total := try_add (from_int liquidity_amount)
                      (borrowed_amount_wads (liquidity borrow_reserve)) in
      let? total := try_floor_u64 total in
      Ok (borrow_limit (config borrow_reserve) <? total)
    else Ok false in
  reject_if above_limit with lending_error InvalidAmount then
  let? obligation := unpack_account Obligation w obligation_info in
  reject_if negb (owner_of w obligation_info =? program_id)
    with lending_error InvalidAccountOwner then
  reject_if negb (Obligation.lending_market obligation =? key lending_market_info)
    with lending_error InvalidAccountInput then
  reject_if negb (Obligation.owner obligation =? key obligation_owner_info)
    with lending_error InvalidObligationOwner then
  reject_if negb (is_signer obligation_owner_info) with lending_error InvalidSigner then
  let? stale := is_stale (Obligation.last_update obligation) (current_slot w) in
  reject_if stale with lending_error ObligationStale then
  reject_if (length (deposits obligation) =? 0)%nat
    with lending_error ObligationDepositsEmpty then
  reject_if dec_eqb (deposited_value obligation) Decimal.zero
    with lending_error ObligationDepositsZero then
  check_authority program_id lending_market_info lending_market
    lending_market_authority_info;;?
  check_isolated_tier borrow_reserve (key borrow_reserve_info) obligation;;?
  let? remaining_borrow_value :=
    unwrap_or_else (remaining_borrow_value obligation) Decimal.zero in
  reject_if dec_eqb remaining_borrow_value Decimal.zero
    with lending_error BorrowTooLarge then
  let? remaining_reserve_capacity :=
    unwrap_or_else
      (try_sub (from_int (borrow_limit (config borrow_reserve)))
         (borrowed_amount_wads (liquidity borrow_reserve)))
      Decimal.zero in
  let? ' (market_limiter, reserve_limiter, max_outflow_liquidity_amount) :=
    max_outflow_tokens lending_market borrow_reserve remaining_borrow_value
      (current_slot w) in
  let? b :=
    calculate_borrow borrow_reserve liquidity_amount remaining_borrow_value
      (dec_min remaining_reserve_capacity max_outflow_liquidity_amount) in
  reject_if receive_amount b =? 0 with lending_error BorrowTooSmall then
  let rate := cumulative_borrow_rate_wads (liquidity borrow_reserve) in
  (* check outflow rate limits *)
  let? value := market_value_upper_bound borrow_reserve (borrow_amount b) in
  let? market_limiter := RateLimiter.update market_limiter (current_slot w) value in
  let? reserve_limiter :=
    RateLimiter.update reserve_limiter (current_slot w) (borrow_amount b) in
  let? w :=
    pack_account (LendingMarket.set_rate_limiter lending_market market_limiter)
      lending_market_info w in
  let? l := ReserveLiquidity.borrow (liquidity borrow_reserve) (borrow_amount b) in
  let? w :=
    pack_account
      (mark_reserve_stale
         (set_liquidity (Reserve.set_rate_limiter borrow_reserve reserve_limiter) l))
      borrow_reserve_info w in
  let? obligation :=
    borrow_in_obligation obligation (key borrow_reserve_info) rate (borrow_amount b) in
  let? w := pack_account (mark_obligation_stale obligation) obligation_info w in
  borrow_transfers source_liquidity_info destination_liquidity_info
    borrow_reserve_liquidity_fee_receiver_info lending_market_authority_info token_program
    (authority_seeds lending_market_info lending_market) host (borrow_fee b) (host_fee b)
    (receive_amount b) w.

Definition process_borrow_obligation_liquidity (program_id : Pubkey) (liquidity_amount : Z)
    (accounts : list AccountInfo) (w : World) : result World :=
  reject_if liquidity_amount =? 0 with lending_error InvalidAmount then
  next source_liquidity_info of accounts in
  next destination_liquidity_info of accounts in
  next borrow_reserve_info of accounts in
  next borrow_reserve_liquidity_fee_receiver_info of accounts in
  next obligation_info of accounts in
  next lending_market_info of accounts in
  next lending_market_authority_info of accounts in
  next obligation_owner_info of accounts in
  let accounts := skip_clock accounts in
  next token_program of accounts in
  _borrow_obligation_liquidity program_id liquidity_amount source_liquidity_info
    destination_liquidity_info borrow_reserve_info
    borrow_reserve_liquidity_fee_receiver_info obligation_info lending_market_info
    lending_market_authority_info obligation_owner_info token_program accounts w.

Definition process_repay_obligation_liquidity (program_id : Pubkey) (liquidity_amount : Z)
    (accounts : list AccountInfo) (w : World) : result World :=
  reject_if liquidity_amount =? 0 with lending_error InvalidAmount then
  next source_liquidity_info of accounts in
  next destination_liquidity_info of accounts in
  next repay_reserve_info of accounts in
  next obligation_info of accounts in
  next lending_market_info of accounts in
  next user_transfer_authority_info of accounts in
  let accounts := skip_clock accounts in
  next token_program of accounts in
  let? lending_market := unpack_account LendingMarket w lending_market_info in
  reject_if negb (owner_of w lending_market_info =? program_id)
    with lending_error InvalidAccountOwner then
  reject_if negb (token_program_id lending_market =? key token_program)
    with lending_error InvalidTokenProgram then
  let? w := _refresh_reserve_interest program_id repay_reserve_info w in
  let? repay_reserve := unpack_account Reserve w repay_reserve_info in
  reject_if negb (owner_of w repay_reserve_info =? program_id)
    with lending_error InvalidAccountOwner then
  reject_if negb (Reserve.lending_market repay_reserve =? key lending_market_info)
    with lending_error InvalidAccountInput then
  reject_if ReserveLiquidity.supply_pubkey (liquidity repay_reserve)
            =? key source_liquidity_info
    with lending_error InvalidAccountInput then
  reject_if negb (ReserveLiquidity.supply_pubkey (liquidity repay_reserve)
                  =? key destination_liquidity_info)
    with lending_error InvalidAccountInput then
  let? stale := is_stale (Reserve.last_update repay_reserve) (current_slot w) in
  reject_if stale with lending_error ReserveStale then
  let? obligation := unpack_account Obligation w obligation_info in
  reject_if negb (owner_of w obligation_info =? program_id)
    with lending_error InvalidAccountOwner then
  reject_if negb (Obligation.lending_market obligation =? key lending_market_info)
    with lending_error InvalidAccountInput then
  let? ' (liquidity', liquidity_index) :=
    find_liquidity_in_borrows obligation (key repay_reserve_info) in
  reject_if dec_eqb (ObligationLiquidity.borrowed_amount_wads liquidity') Decimal.zero
    with lending_error ObligationLiquidityEmpty then
  (* refreshing specific borrow instead of checking obligation stale *)
  let? liquidity' :=
    ObligationLiquidity.accrue_interest liquidity'
      (cumulative_borrow_rate_wads (liquidity repay_reserve)) in
  let obligation :=
    set_borrows obligation (<[liquidity_index := liquidity']> (borrows obligation)) in
  let? r :=
    calculate_repay repay_reserve liquidity_amount
      (ObligationLiquidity.borrowed_amount_wads liquidity') in
  reject_if repay_repay_amount r =? 0 with lending_error RepayTooSmall then
  let? l :=
    ReserveLiquidity.repay (liquidity repay_reserve) (repay_repay_amount r)
      (repay_settle_amount r) in
  let? w :=
    pack_account (mark_reserve_stale (set_liquidity repay_reserve l)) repay_reserve_info w in
  let? obligation := Obligation.repay obligation (repay_settle_amount r) liquidity_index in
  let? w := pack_account (mark_obligation_stale obligation) obligation_info w in
  spl_token_transfer source_liquidity_info destination_liquidity_info (repay_repay_amount r)
    user_transfer_authority_info [] token_program w.
End borrow.
