(* ===== verification/ProcessLiquidation.v ===== *)
(** program/src/processor.rs: liquidations, and the forgiveness of bad debt. *)

From S2P Require Import Prelude Errors Common Rate Decimal Codec LastUpdate.
From S2P Require Import RateLimiter LendingMarket ReserveConfig.
From S2P Require Import ObligationCollateral ObligationLiquidity Obligation.
From S2P Require Import ReserveLiquidity ReserveCollateral Reserve.
From S2P Require Import Runtime ProcessorHelpers ProcessReserve ProcessDeposit.
From S2P Require Import ProcessCollateral.

Section liquidation.
Context `{Runtime}.

Definition _liquidate_obligation (program_id : Pubkey) (liquidity_amount : Z)
    (source_liquidity_info destination_collateral_info repay_reserve_info
     repay_reserve_liquidity_supply_info withdraw_reserve_info
     withdraw_reserve_collateral_supply_info obligation_info lending_market_info
     lending_market_authority_info user_transfer_authority_info
     token_program : AccountInfo) (w : World) : result (World * (Z * Decimal)) :=
  let? lending_market := unpack_account LendingMarket w lending_market_info in
  reject_if negb (owner_of w lending_market_info =? program_id)
    with lending_error InvalidAccountOwner then
  reject_if negb (token_program_id lending_market =? key token_program)
    with lending_error InvalidTokenProgram then
  let? repay_reserve := unpack_account Reserve w repay_reserve_info in
  reject_if negb (owner_of w repay_reserve_info =? program_id)
    with lending_error InvalidAccountOwner then
  reject_if negb (Reserve.lending_market repay_reserve =? key lending_market_info)
    with lending_error InvalidAccountInput then
  reject_if negb (ReserveLiquidity.supply_pubkey (liquidity repay_reserve)
                  =? key repay_reserve_liquidity_supply_info)
    with lending_error InvalidAccountInput then
  reject_if ReserveLiquidity.supply_pubkey (liquidity repay_reserve)
            =? key source_liquidity_info
    with lending_error InvalidAccountInput then
  reject_if ReserveCollateral.supply_pubkey (collateral repay_reserve)
            =? key destination_collateral_info
    with lending_error InvalidAccountInput then
  let? stale := is_stale (Reserve.last_update repay_reserve) (current_slot w) in
  reject_if stale with lending_error ReserveStale then
  let? withdraw_reserve := unpack_account Reserve w withdraw_reserve_info in
  reject_if negb (owner_of w withdraw_reserve_info =? program_id)
    with lending_error InvalidAccountOwner then
  reject_if negb (Reserve.lending_market withdraw_reserve =? key lending_market_info)
    with lending_error InvalidAccountInput then
  reject_if negb (ReserveCollateral.supply_pubkey (collateral withdraw_reserve)
                  =? key withdraw_reserve_collateral_supply_info)
    with lending_error InvalidAccountInput then
  reject_if ReserveLiquidity.supply_pubkey (liquidity withdraw_reserve)
            =? key source_liquidity_info
    with lending_error InvalidAccountInput then
  reject_if ReserveCollateral.supply_pubkey (collateral withdraw_reserve)
            =? key destination_collateral_info
    with lending_error InvalidAccountInput then
  let? stale := is_stale (Reserve.last_update withdraw_reserve) (current_slot w) in
  reject_if stale with lending_error ReserveStale then
  let? obligation := unpack_account Obligation w obligation_info in
  reject_if negb (owner_of w obligation_info =? program_id)
    with lending_error InvalidAccountOwner then
  reject_if negb (Obligation.lending_market obligation =? key lending_market_info)
    with lending_error InvalidAccountInput then
  let? stale := is_stale (Obligation.last_update obligation) (current_slot w) in
  reject_if stale with lending_error ObligationStale then
  reject_if dec_eqb (deposited_value obligation) Decimal.zero
    with lending_error ObligationDepositsZero then
  reject_if dec_eqb (borrowed_value obligation) Decimal.zero
    with lending_error ObligationBorrowsZero then
  reject_if dec_lt (borrowed_value obligation) (unhealthy_borrow_value obligation)
    with lending_error ObligationHealthy then
  reject_if match whitelisted_liquidator lending_market with
            | Some liquidator => negb (liquidator =? key user_transfer_authority_info)
            | None => false
            end
    with lending_error NotWhitelistedLiquidator then
  let? ' (liquidity', liquidity_index) :=
    find_liquidity_in_borrows obligation (key repay_reserve_info) in
  reject_if dec_eqb (ObligationLiquidity.market_value liquidity') Decimal.zero
    with lending_error ObligationLiquidityEmpty then
  reject_if negb (liquidity_index =? 0)%nat with lending_error InvalidAccountInput then
  let? ' (collateral', collateral_index) :=
    find_collateral_in_deposits obligation (key withdraw_reserve_info) in
  reject_if dec_eqb (ObligationCollateral.market_value collateral') Decimal.zero
    with lending_error ObligationCollateralEmpty then
  check_authority program_id lending_market_info lending_market
    lending_market_authority_info;;?
  let? l :=
    calculate_liquidation withdraw_reserve liquidity_amount obligation liquidity'
      collateral' in
  reject_if repay_amount l =? 0 with lending_error LiquidationTooSmall then
  reject_if withdraw_amount l =? 0 with lending_error LiquidationTooSmall then
  let? repaid :=
    ReserveLiquidity.repay (liquidity repay_reserve) (repay_amount l) (settle_amount l) in
  let? w :=
    pack_account (mark_reserve_stale (set_liquidity repay_reserve repaid))
      repay_reserve_info w in
  let? obligation := Obligation.repay obligation (settle_amount l) liquidity_index in
  let? obligation := Obligation.withdraw obligation (withdraw_amount l) collateral_index in
  let? w := pack_account (mark_obligation_stale obligation) obligation_info w in
  let? w :=
    spl_token_transfer source_liquidity_info repay_reserve_liquidity_supply_info
      (repay_amount l) user_transfer_authority_info [] token_program w in
  let? w :=
    spl_token_transfer withdraw_reserve_collateral_supply_info destination_collateral_info
      (withdraw_amount l) lending_market_authority_info
      (authority_seeds lending_market_info lending_market) token_program w in
  Ok (w, (withdraw_amount l, bonus_rate l)).

(** The part of the handler that follows the liquidation: redeem as much of the
    seized collateral as the reserve has liquidity for, and pay the protocol fee. *)
Definition redeem_liquidated (program_id : Pubkey) (withdrawn_collateral_amount : Z)
    (bonus_rate : Decimal)
    (destination_collateral_info destination_liquidity_info withdraw_reserve_info
     withdraw_reserve_collateral_mint_info withdraw_reserve_liquidity_supply_info
     withdraw_reserve_liquidity_fee_receiver_info lending_market_info
     lending_market_authority_info user_transfer_authority_info
     token_program : AccountInfo) (w : World) : result World :=
  let? w := _refresh_reserve_interest program_id withdraw_reserve_info w in
  let? withdraw_reserve := unpack_account Reserve w withdraw_reserve_info in
  let? rate := collateral_exchange_rate withdraw_reserve in
  let? max_redeemable_collateral :=
    liquidity_to_collateral rate (available_amount (liquidity withdraw_reserve)) in
  let withdraw_collateral_amount :=
    Z.min withdrawn_collateral_amount max_redeemable_collateral in
  if negb (withdraw_collateral_amount =? 0) then
    let? ' (w, withdraw_liquidity_amount) :=
      _redeem_reserve_collateral program_id withdraw_collateral_amount
        destination_collateral_info destination_liquidity_info withdraw_reserve_info
        withdraw_reserve_collateral_mint_info withdraw_reserve_liquidity_supply_info
        lending_market_info lending_market_authority_info user_transfer_authority_info
        token_program false w in
    let? withdraw_reserve := unpack_account Reserve w withdraw_reserve_info in
    reject_if negb (fee_receiver (config withdraw_reserve)
                    =? key withdraw_reserve_liquidity_fee_receiver_info)
      with lending_error InvalidAccountInput then
    let? protocol_fee :=
      calculate_protocol_liquidation_fee withdraw_reserve withdraw_liquidity_amount
        bonus_rate in
    spl_token_transfer destination_liquidity_info
      withdraw_reserve_liquidity_fee_receiver_info protocol_fee
      user_transfer_authority_info [] token_program w
  else Ok w.

Definition process_liquidate_obligation_and_redeem_reserve_collateral
    (program_id : Pubkey) (liquidity_amount : Z) (accounts : list AccountInfo) (w : World)
    : result World :=
  reject_if liquidity_amount =? 0 with lending_error InvalidAmount then
  next source_liquidity_info of accounts in
  next destination_collateral_info of accounts in
  next destination_liquidity_info of accounts in
  next repay_reserve_info of accounts in
  next repay_reserve_liquidity_supply_info of accounts in
  next withdraw_reserve_info of accounts in
  next withdraw_reserve_collateral_mint_info of accounts in
  next withdraw_reserve_collateral_supply_info of accounts in
  next withdraw_reserve_liquidity_supply_info of accounts in
  next withdraw_reserve_liquidity_fee_receiver_info of accounts in
  next obligation_info of accounts in
  next lending_market_info of accounts in
  next lending_market_authority_info of accounts in
  next user_transfer_authority_info of accounts in
  next token_program of accounts in
  let? ' (w, (withdrawn_collateral_amount, bonus_rate)) :=
    _liquidate_obligation program_id liquidity_amount source_liquidity_info
      destination_collateral_info repay_reserve_info repay_reserve_liquidity_supply_info
      withdraw_reserve_info withdraw_reserve_collateral_supply_info obligation_info
      lending_market_info lending_market_authority_info user_transfer_authority_info
      token_program w in
  redeem_liquidated program_id withdrawn_collateral_amount bonus_rate
    destination_collateral_info destination_liquidity_info withdraw_reserve_info
    withdraw_reserve_collateral_mint_info withdraw_reserve_liquidity_supply_info
    withdraw_reserve_liquidity_fee_receiver_info lending_market_info
    lending_market_authority_info user_transfer_authority_info token_program w.

(** ** Bad debt *)

Definition MIN_CTOKEN_RATIO_PERCENT : Z := 1.

Definition process_forgive_debt (program_id : Pubkey) (liquidity_amount : Z)
    (accounts : list AccountInfo) (w : World) : result World :=
  next obligation_info of accounts in
  next reserve_info of accounts in
  next lending_market_info of accounts in
  next lending_market_owner_info of accounts in
  let? lending_market := unpack_account LendingMarket w lending_market_info in
  reject_if negb (owner_of w lending_market_info =? program_id)
    with lending_error InvalidAccountOwner then
  reject_if negb (LendingMarket.owner lending_market =? key lending_market_owner_info)
    with lending_error InvalidMarketOwner then
  reject_if negb (is_signer lending_market_owner_info) with lending_error InvalidSigner then
  let? reserve := unpack_account Reserve w reserve_info in
  reject_if negb (owner_of w reserve_info =? program_id)
    with lending_error InvalidAccountOwner then
  reject_if negb (Reserve.lending_market reserve =? key lending_market_info)
    with lending_error InvalidAccountInput then
  let? stale := is_stale (Reserve.last_update reserve) (current_slot w) in
  reject_if stale with lending_error ReserveStale then
  let? obligation := unpack_account Obligation w obligation_info in
  reject_if negb (owner_of w obligation_info =? program_id)
    with lending_error InvalidAccountOwner then
  reject_if negb (Obligation.lending_market obligation =? key lending_market_info)
    with lending_error InvalidAccountInput then
  let? stale := is_stale (Obligation.last_update obligation) (current_slot w) in
  reject_if stale with lending_error ObligationStale then
  reject_if negb (length (deposits obligation) =? 0)%nat
    with lending_error InvalidAccountInput then
  let? total_supply := total_supply (liquidity reserve) in
  let? floor :=
    try_mul (from_int (mint_total_supply (collateral reserve)))
      (Decimal.from_percent MIN_CTOKEN_RATIO_PERCENT) in
  let? max_forgive_amount := try_sub total_supply floor in
  let? ' (liquidity', liquidity_index) :=
    find_liquidity_in_borrows obligation (key reserve_info) in
  let forgive_amount :=
    dec_min (from_int liquidity_amount)
      (dec_min (ObligationLiquidity.borrowed_amount_wads liquidity') max_forgive_amount) in
  let? l := forgive_debt (liquidity reserve) forgive_amount in
  let? w :=
    pack_account (mark_reserve_stale (set_liquidity reserve l)) reserve_info w in
  let? obligation := Obligation.repay obligation forgive_amount liquidity_index in
  pack_account (mark_obligation_stale obligation) obligation_info w.
End liquidation.
