(* ===== verification/ProcessFlash.v ===== *)
(** program/src/processor.rs: flash loans, a borrow and a repayment that check each
    other through the instructions of their transaction. *)

From S2P Require Import Prelude Errors Common Rate Decimal Codec LastUpdate.
From S2P Require Import RateLimiter LendingMarket ReserveConfig.
From S2P Require Import ReserveLiquidity ReserveCollateral Reserve Instruction.
From S2P Require Import Runtime ProcessorHelpers ProcessReserve.

Section flash.
Context `{Runtime}.

(** The loop that looks for the repayment among the instructions after
    [current_index]: [i] is the index before the increment.  The fuel bounds the
    iterations; running out of it is a panic. *)
Fixpoint find_flash_repay (fuel : nat) (program_id : Pubkey) (liquidity_amount : Z)
    (reserve_key : Pubkey) (current_index : Z) (sysvar_info : AccountInfo) (w : World)
    (i : Z) (found_repay_ix : bool) : result bool :=
  match fuel with
  | O => Panic
  | S fuel =>
      let i := i + 1 in
      let continue :=
        find_flash_repay fuel program_id liquidity_amount reserve_key current_index
          sysvar_info w i in
      match load_instruction_at i w sysvar_info with
      | Err InvalidArgument => Ok found_repay_ix
      | Err e => Err e
      | Panic => Panic
      | Ok ixn =>
          if negb (ix_program_id ixn =? program_id) then continue found_repay_ix
          else
            let? unpacked := Instruction.unpack (ix_data ixn) in
            match unpacked with
            | FlashRepayReserveLiquidity repay_liquidity_amount borrow_instruction_index =>
                reject_if found_repay_ix with lending_error MultipleFlashBorrows then
                let? reserve := unwrap_option (ix_accounts ixn !! 4%nat) in
                reject_if negb (reserve =? reserve_key)
                  with lending_error InvalidFlashRepay then
                reject_if negb (repay_liquidity_amount =? liquidity_amount)
                  with lending_error InvalidFlashRepay then
                reject_if negb (borrow_instruction_index =? current_index)
                  with lending_error InvalidFlashRepay then
                continue true
            | FlashBorrowReserveLiquidity _ => fail MultipleFlashBorrows
            | _ => continue found_repay_ix
            end
      end
  end.

(** A transaction has fewer than 2^16 instructions. *)
Definition flash_fuel : nat := Z.to_nat (2 ^ 16).

Definition _flash_borrow_reserve_liquidity (program_id : Pubkey) (liquidity_amount : Z)
    (source_liquidity_info destination_liquidity_info reserve_info lending_market_info
     lending_market_authority_info sysvar_info token_program : AccountInfo) (w : World)
    : result World :=
  let? lending_market := unpack_account LendingMarket w lending_market_info in
  reject_if negb (owner_of w lending_market_info =? program_id)
    with lending_error InvalidAccountOwner then
  reject_if negb (token_program_id lending_market =? key token_program)
    with lending_error InvalidTokenProgram then
  let? reserve := unpack_account Reserve w reserve_info in
  reject_if negb (owner_of w reserve_info =? program_id)
    with lending_error InvalidAccountOwner then
  reject_if negb (Reserve.lending_market reserve =? key lending_market_info)
    with lending_error InvalidAccountInput then
  reject_if negb (ReserveLiquidity.supply_pubkey (liquidity reserve)
                  =? key source_liquidity_info)
    with lending_error InvalidAccountInput then
  reject_if ReserveLiquidity.supply_pubkey (liquidity reserve)
            =? key destination_liquidity_info
    with lending_error InvalidAccountInput then
  check_authority program_id lending_market_info lending_market
    lending_market_authority_info;;?
  reject_if flash_loan_fee_wad (fees (config reserve)) =? u64_max
    with lending_error FlashLoansDisabled then
  let? current_index := load_current_index w sysvar_info in
  let? cpi := is_cpi_call program_id current_index w sysvar_info in
  reject_if cpi with lending_error FlashBorrowCpi then
  let? found_repay_ix :=
    find_flash_repay flash_fuel program_id liquidity_amount (key reserve_info)
      current_index sysvar_info w current_index false in
  reject_if negb found_repay_ix with lending_error NoFlashRepayFound then
  let? l := ReserveLiquidity.borrow (liquidity reserve) (from_int liquidity_amount) in
  let? w :=
    pack_account (mark_reserve_stale (set_liquidity reserve l)) reserve_info w in
  spl_token_transfer source_liquidity_info destination_liquidity_info liquidity_amount
    lending_market_authority_info (authority_seeds lending_market_info lending_market)
    token_program w.

Definition process_flash_borrow_reserve_liquidity (program_id : Pubkey)
    (liquidity_amount : Z) (accounts : list AccountInfo) (w : World) : result World :=
  next source_liquidity_info of accounts in
  next destination_liquidity_info of accounts in
  next reserve_info of accounts in
  next lending_market_info of accounts in
  next lending_market_authority_info of accounts in
  next sysvar_info of accounts in
  next token_program of accounts in
  let? w := _refresh_reserve_interest program_id reserve_info w in
  _flash_borrow_reserve_liquidity program_id liquidity_amount source_liquidity_info
    destination_liquidity_info reserve_info lending_market_info
    lending_market_authority_info sysvar_info token_program w.

(** The checks of a repayment on the borrow instruction it names. *)
Definition check_flash_borrow (program_id : Pubkey) (liquidity_amount : Z)
    (borrow_instruction_index : Z) (reserve_key : Pubkey) (sysvar_info : AccountInfo)
    (w : World) : result unit :=
  let? current_index := load_current_index w sysvar_info in
  let? cpi := is_cpi_call program_id current_index w sysvar_info in
  reject_if cpi with lending_error FlashRepayCpi then
  reject_if current_index <? borrow_instruction_index
    with lending_error InvalidFlashRepay then
  let? ixn := load_instruction_at borrow_instruction_index w sysvar_info in
  reject_if negb (ix_program_id ixn =? program_id)
    with lending_error InvalidFlashRepay then
  let? unpacked := Instruction.unpack (ix_data ixn) in
  match unpacked with
  | FlashBorrowReserveLiquidity borrow_liquidity_amount =>
      let? reserve := unwrap_option (ix_accounts ixn !! 2%nat) in
      reject_if negb (reserve =? reserve_key) with lending_error InvalidFlashRepay then
      reject_if negb (liquidity_amount =? borrow_liquidity_amount)
        with lending_error InvalidFlashRepay then
      Ok tt
  | _ => fail InvalidFlashRepay
  end.

Definition _flash_repay_reserve_liquidity (program_id : Pubkey) (liquidity_amount : Z)
    (borrow_instruction_index : Z)
    (source_liquidity_info destination_liquidity_info reserve_liquidity_fee_receiver_info
     host_fee_receiver_info reserve_info lending_market_info user_transfer_authority_info
     sysvar_info token_program : AccountInfo) (w : World) : result World :=
  let? lending_market := unpack_account LendingMarket w lending_market_info in
  reject_if negb (owner_of w lending_market_info =? program_id)
    with lending_error InvalidAccountOwner then
  reject_if negb (token_program_id lending_market =? key token_program)
    with lending_error InvalidTokenProgram then
  let? reserve := unpack_account Reserve w reserve_info in
  reject_if negb (owner_of w reserve_info =? program_id)
    with lending_error InvalidAccountOwner then
  reject_if negb (Reserve.lending_market reserve =? key lending_market_info)
    with lending_error InvalidAccountInput then
  reject_if negb (ReserveLiquidity.supply_pubkey (liquidity reserve)
                  =? key destination_liquidity_info)
    with lending_error InvalidAccountInput then
  reject_if ReserveLiquidity.supply_pubkey (liquidity reserve) =? key source_liquidity_info
    with lending_error InvalidAccountInput then
  reject_if negb (fee_receiver (config reserve) =? key reserve_liquidity_fee_receiver_info)
    with lending_error InvalidAccountInput then
  let? ' (origination_fee, host_fee) :=
    calculate_flash_loan_fees (fees (config reserve)) (from_int liquidity_amount) in
  check_flash_borrow program_id liquidity_amount borrow_instruction_index
    (key reserve_info) sysvar_info w;;?
  let? l :=
    ReserveLiquidity.repay (liquidity reserve) liquidity_amount
      (from_int liquidity_amount) in
  let? w :=
    pack_account (mark_reserve_stale (set_liquidity reserve l)) reserve_info w in
  let? w :=
    spl_token_transfer source_liquidity_info destination_liquidity_info liquidity_amount
      user_transfer_authority_info [] token_program w in
  let? w :=
    if 0 <? host_fee then
      spl_token_transfer source_liquidity_info host_fee_receiver_info host_fee
        user_transfer_authority_info [] token_program w
    else Ok w in
  if 0 <? origination_fee then
    spl_token_transfer source_liquidity_info reserve_liquidity_fee_receiver_info
      origination_fee user_transfer_authority_info [] token_program w
  else Ok w.

Definition process_flash_repay_reserve_liquidity (program_id : Pubkey)
    (liquidity_amount : Z) (borrow_instruction_index : Z) (accounts : list AccountInfo)
    (w : World) : result World :=
  next source_liquidity_info of accounts in
  next destination_liquidity_info of accounts in
  next reserve_liquidity_fee_receiver_info of accounts in
  next host_fee_receiver_info of accounts in
  next reserve_info of accounts in
  next lending_market_info of accounts in
  next user_transfer_authority_info of accounts in
  next sysvar_info of accounts in
  next token_program of accounts in
  _flash_repay_reserve_liquidity program_id liquidity_amount borrow_instruction_index
    source_liquidity_info destination_liquidity_info reserve_liquidity_fee_receiver_info
    host_fee_receiver_info reserve_info lending_market_info user_transfer_authority_info
    sysvar_info token_program w.
End flash.
