(* ===== verification/Processor.v ===== *)
(** program/src/processor.rs: the dispatch of an instruction to its handler; the
    entrypoint of the program (program/src/entrypoint.rs), and the program that replaces
    a deployment that must not run any more (brick/src/entrypoint.rs). *)

From S2P Require Import Prelude Errors Common Rate Decimal Codec.
From S2P Require Import RateLimiter LendingMarket ReserveConfig Instruction.
From S2P Require Import Runtime ProcessMarket ProcessReserve ProcessDeposit ProcessConfig.
From S2P Require Import ProcessObligation ProcessCollateral ProcessBorrow ProcessLiquidation.
From S2P Require Import ProcessFlash.

(** Processes an instruction. *)
Definition process_instruction `{Runtime} (program_id : Pubkey)
    (accounts : list AccountInfo) (input : bytes) (w : World) : result World :=
  let? instruction := Instruction.unpack input in
  match instruction with
  | InitLendingMarket owner quote_currency =>
      process_init_lending_market program_id owner quote_currency accounts w
  | SetLendingMarketOwnerAndConfig new_owner rate_limiter_config whitelisted_liquidator
      risk_authority =>
      process_set_lending_market_owner_and_config program_id new_owner rate_limiter_config
        whitelisted_liquidator risk_authority accounts w
  | InitReserve liquidity_amount config =>
      process_init_reserve program_id liquidity_amount config accounts w
  | RefreshReserve => process_refresh_reserve program_id accounts w
  | DepositReserveLiquidity liquidity_amount =>
      process_deposit_reserve_liquidity program_id liquidity_amount accounts w
  | RedeemReserveCollateral collateral_amount =>
      process_redeem_reserve_collateral program_id collateral_amount accounts w
  | InitObligation => process_init_obligation program_id accounts w
  | RefreshObligation => process_refresh_obligation program_id accounts w
  | DepositObligationCollateral collateral_amount =>
      process_deposit_obligation_collateral program_id collateral_amount accounts w
  | WithdrawObligationCollateral collateral_amount =>
      process_withdraw_obligation_collateral program_id collateral_amount accounts w
  | BorrowObligationLiquidity liquidity_amount =>
      process_borrow_obligation_liquidity program_id liquidity_amount accounts w
  | RepayObligationLiquidity liquidity_amount =>
      process_repay_obligation_liquidity program_id liquidity_amount accounts w
  | LiquidateObligation _ => fail DeprecatedInstruction
  | FlashLoan _ => fail DeprecatedInstruction
  | DepositReserveLiquidityAndObligationCollateral liquidity_amount =>
      process_deposit_reserve_liquidity_and_obligation_collateral program_id
        liquidity_amount accounts w
  | WithdrawObligationCollateralAndRedeemReserveCollateral collateral_amount =>
      process_withdraw_obligation_collateral_and_redeem_reserve_liquidity program_id
        collateral_amount accounts w
  | UpdateReserveConfig config rate_limiter_config =>
      process_update_reserve_config program_id config rate_limiter_config accounts w
  | LiquidateObligationAndRedeemReserveCollateral liquidity_amount =>
      process_liquidate_obligation_and_redeem_reserve_collateral program_id
        liquidity_amount accounts w
  | RedeemFees => process_redeem_fees program_id accounts w
  | FlashBorrowReserveLiquidity liquidity_amount =>
      process_flash_borrow_reserve_liquidity program_id liquidity_amount accounts w
  | FlashRepayReserveLiquidity liquidity_amount borrow_instruction_index =>
      process_flash_repay_reserve_liquidity program_id liquidity_amount
        borrow_instruction_index accounts w
  | ForgiveDebt liquidity_amount =>
      process_forgive_debt program_id liquidity_amount accounts w
  | UpdateMarketMetadata =>
      let? metadata := new_from_bytes input in
      process_update_market_metadata program_id metadata accounts w
  end.

(** The entrypoint logs an error before it returns it. *)
Definition entrypoint `{Runtime} (program_id : Pubkey) (accounts : list AccountInfo)
    (instruction_data : bytes) (w : World) : result World :=
  match process_instruction program_id accounts instruction_data w with
  | Err error => Err error
  | r => r
  end.

Definition brick_process_instruction (_program_id : Pubkey) (_accounts : list AccountInfo)
    (_instruction_data : bytes) (w : World) : result World :=
  Err InvalidArgument.

Lemma entrypoint_processes `{Runtime} program_id accs d w :
  entrypoint program_id accs d w = process_instruction program_id accs d w.
Proof. unfold entrypoint. by destruct (process_instruction _ _ _ _). Qed.
