(* ===== verification/AccountSpec.v ===== *)
(** Reasoning about the accounts of a handler: what a successful read, write or
    token call says about the world before and after it. *)

From stdpp Require Import gmap.
From S2P Require Import Prelude Errors Common Rate Decimal Codec LastUpdate.
From S2P Require Import RateLimiter LendingMarket ReserveConfig ReserveLiquidity.
From S2P Require Import ReserveCollateral Reserve ReserveCodec.
From S2P Require Import ObligationCollateral ObligationLiquidity Obligation ObligationCodec.
From S2P Require Import Runtime ProcessorHelpers.

Lemma map_err_Ok_inv {A : Type} (m : result A) e a : map_err m e = Ok a -> m = Ok a.
Proof. by destruct m. Qed.

Lemma with_next_inv {A : Type} iter (k : AccountInfo -> list AccountInfo -> result A) a :
  with_next iter k = Ok a -> exists info rest, iter = info :: rest /\ k info rest = Ok a.
Proof. destruct iter as [|info rest]; [discriminate|]. cbn. eauto. Qed.

(** Take a handler apart: the accounts it reads, then its steps. *)
Ltac open_handler H :=
  cbv zeta in H;
  repeat first
    [ apply with_next_inv in H as (? & ? & ? & H); cbv zeta in H
    | progress minv H; cbv zeta in H ].

(** An equality guard that did not fire. *)
Lemma negb_eqb_false a b : negb (a =? b) = false -> a = b.
Proof. lia. Qed.

Lemma get_set_data_eq w info d i :
  key i = key info ->
  get (set_data w info d) i = mkAccount (owner_of w info) (lamports_of w info) d.
Proof. intros Hk. unfold get, set_data. cbn. by rewrite Hk, lookup_insert_eq. Qed.

Lemma get_set_data_ne w info d i :
  key i <> key info -> get (set_data w info d) i = get w i.
Proof. intros Hk. unfold get, set_data. cbn. by rewrite lookup_insert_ne by congruence. Qed.

Section laws.
Context {R : Runtime} {program_id : Pubkey} {L : RuntimeLaws R program_id}.

(** Account [info] of the program holds the encoding of [v]. *)
Definition holds `{PackTrait T} (w : World) (info : AccountInfo) (v : T) : Prop :=
  unpack_account T w info = Ok v /\ owner_of w info = program_id.

(** Its bytes in [w'] are [v] written over its bytes in [w]. *)
Definition saved `{PackTrait T} (v : T) (info : AccountInfo) (w w' : World) : Prop :=
  pack_into_slice v (data_of w info) = Ok (data_of w' info) /\
  owner_of w' info = program_id.

(** The accounts of the program with none of the given keys hold the same bytes. *)
Definition keeps_but (ks : list Pubkey) (w w' : World) : Prop :=
  forall info, owner_of w info = program_id -> key info ∉ ks ->
    data_of w' info = data_of w info /\ owner_of w' info = program_id.

Section generic.
Context {T : Type} {P : PackTrait T}.

Lemma unpack_account_inv w info (v : T) :
  unpack_account T w info = Ok v ->
  length (data_of w info) = LEN /\ unpack_from_slice (data_of w info) = Ok v /\
  is_initialized v = true.
Proof. apply (pack_unpack_spec (program_id:=program_id)). Qed.

Lemma pack_account_inv (v : T) info w w' :
  pack_account v info w = Ok w' ->
  length (data_of w info) = LEN /\
  pack_into_slice v (data_of w info) = Ok (data_of w' info) /\
  (forall i, owner_of w' i = owner_of w i) /\
  (forall i, key i <> key info -> get w' i = get w i) /\
  clock w' = clock w /\ stack_height w' = stack_height w.
Proof.
  unfold pack_account. intros H. minv H.
  apply (pack_pack_spec (program_id:=program_id)) in E as [Hl Hp].
  assert (Hd : data_of (set_data w info v0) info = v0)
    by (unfold data_of; by rewrite get_set_data_eq).
  rewrite Hd. split_and!; try done; intros i.
  - unfold owner_of. destruct (decide (key i = key info)) as [He|Hne].
    + rewrite get_set_data_eq by done. unfold owner_of, get. cbn. by rewrite He.
    + by rewrite get_set_data_ne.
  - apply get_set_data_ne.
Qed.

(** A successful [pack] saves, and touches nothing else. *)
Lemma pack_account_saves (v : T) info w w' :
  owner_of w info = program_id -> pack_account v info w = Ok w' ->
  saved v info w w' /\ keeps_but [key info] w w'.
Proof.
  intros Ho H. apply pack_account_inv in H as (_ & Hp & How & Hget & _).
  split; [split; [done|by rewrite How]|].
  intros i Hi Hk. rewrite How. split; [|done]. unfold data_of. rewrite Hget; [done|].
  intros He. apply Hk. rewrite He. apply list_elem_of_singleton. done.
Qed.

Lemma saved_keeps (v : T) info ks w w1 w2 :
  saved v info w w1 -> keeps_but ks w1 w2 -> key info ∉ ks -> saved v info w w2.
Proof. intros [Hp Ho] Hk Hn. destruct (Hk info Ho Hn) as [Hd Ho2]. split; [by rewrite Hd|done]. Qed.

Lemma keeps_saved (v : T) info ks w w1 w2 :
  owner_of w info = program_id -> keeps_but ks w w1 -> key info ∉ ks ->
  saved v info w1 w2 -> saved v info w w2.
Proof. intros Ho Hk Hn [Hp Ho2]. destruct (Hk info Ho Hn) as [Hd _]. by rewrite Hd in Hp. Qed.

Lemma keeps_holds (v : T) info ks w w1 :
  keeps_but ks w w1 -> key info ∉ ks -> holds w info v -> holds w1 info v.
Proof.
  intros Hk Hn [Hu Ho]. destruct (Hk info Ho Hn) as [Hd Ho1]. split; [|done].
  unfold unpack_account. by rewrite Hd.
Qed.
End generic.

Lemma keeps_refl ks w : keeps_but ks w w.
Proof. by intros i Hi _. Qed.

Lemma keeps_trans ks1 ks2 w w1 w2 :
  keeps_but ks1 w w1 -> keeps_but ks2 w1 w2 -> keeps_but (ks1 ++ ks2) w w2.
Proof.
  intros H1 H2 i Hi Hk. rewrite elem_of_app in Hk.
  destruct (H1 i Hi) as [Hd Ho]; [tauto|]. rewrite <- Hd. apply H2; tauto.
Qed.

(** Accounts of types with different lengths are different accounts. *)
Lemma holds_distinct `{P1 : PackTrait T1, P2 : PackTrait T2} w i1 i2 (v1 : T1) (v2 : T2) :
  unpack_account T1 w i1 = Ok v1 -> unpack_account T2 w i2 = Ok v2 ->
  LEN (PackTrait:=P1) <> LEN (PackTrait:=P2) -> key i1 <> key i2.
Proof.
  intros H1 H2 Hn He. apply unpack_account_inv in H1 as [Hl1 _].
  apply unpack_account_inv in H2 as [Hl2 _]. apply Hn. rewrite <- Hl1, <- Hl2.
  unfold data_of, get. by rewrite He.
Qed.

(** ** Token calls *)

Lemma invoke_keeps program ix infos seeds w w' :
  program <> program_id -> invoke_in program ix infos seeds w = Ok w' -> keeps_but [] w w'.
Proof.
  unfold invoke_in. intros Hp H. minv H. intros i Hi _. unfold data_of, owner_of, get in *.
  cbn. destruct (accounts w !! key i) as [a|] eqn:Ha.
  - cbn in Hi. destruct (cpi_frame program ix infos seeds _ _ _ _ Hp E Ha Hi)
      as (a' & Ha' & Ho & Hd).
    by rewrite Ha'.
  - destruct (program_not_system (eq_sym Hi)).
Qed.

Lemma optionally_signed_keeps program ix infos seeds w w' :
  program <> program_id -> invoke_optionally_signed program ix infos seeds w = Ok w' ->
  keeps_but [] w w'.
Proof. unfold invoke_optionally_signed. destruct seeds; apply invoke_keeps. Qed.

(** ** Writes to several accounts, then token calls *)

Lemma owner_keeps ks w w1 info :
  owner_of w info = program_id -> keeps_but ks w w1 -> key info ∉ ks ->
  owner_of w1 info = program_id.
Proof. intros Ho Hk Hn. by destruct (Hk info Ho Hn). Qed.

Lemma one_write `{P1 : PackTrait T1} i1 (v1 : T1) w w1 w' :
  owner_of w i1 = program_id -> pack_account v1 i1 w = Ok w1 -> keeps_but [] w1 w' ->
  saved v1 i1 w w' /\ keeps_but [key i1] w w'.
Proof.
  intros Ho H1 Hk. destruct (pack_account_saves _ _ _ _ Ho H1) as [Hs Hk1]. split.
  - by eapply saved_keeps; [exact Hs|exact Hk|apply not_elem_of_nil].
  - by apply (keeps_trans [_] [] w w1).
Qed.

Lemma two_writes `{P1 : PackTrait T1, P2 : PackTrait T2} i1 i2 (v1 : T1) (v2 : T2) w w1 w2 w' :
  key i1 <> key i2 -> owner_of w i1 = program_id -> owner_of w i2 = program_id ->
  pack_account v1 i1 w = Ok w1 -> pack_account v2 i2 w1 = Ok w2 -> keeps_but [] w2 w' ->
  saved v1 i1 w w' /\ saved v2 i2 w w' /\ keeps_but [key i1; key i2] w w'.
Proof.
  intros Hne Ho1 Ho2 H1 H2 Hk. destruct (pack_account_saves _ _ _ _ Ho1 H1) as [Hs1 Hk1].
  assert (Hn2 : key i2 ∉ [key i1]) by (rewrite list_elem_of_singleton; congruence).
  pose proof (owner_keeps _ _ _ _ Ho2 Hk1 Hn2) as Ho2'.
  destruct (one_write i2 v2 w1 w2 w' Ho2' H2 Hk) as [Hs2 Hk2]. split_and!.
  - eapply saved_keeps; [exact Hs1|exact Hk2|]. by rewrite list_elem_of_singleton.
  - by eapply keeps_saved.
  - by apply (keeps_trans [_] [_] w w1).
Qed.

Lemma three_writes `{P1 : PackTrait T1, P2 : PackTrait T2, P3 : PackTrait T3} i1 i2 i3 (v1 : T1) (v2 : T2) (v3 : T3) w w1 w2 w3 w' :
  key i1 <> key i2 -> key i1 <> key i3 -> key i2 <> key i3 ->
  owner_of w i1 = program_id -> owner_of w i2 = program_id -> owner_of w i3 = program_id ->
  pack_account v1 i1 w = Ok w1 -> pack_account v2 i2 w1 = Ok w2 ->
  pack_account v3 i3 w2 = Ok w3 -> keeps_but [] w3 w' ->
  saved v1 i1 w w' /\ saved v2 i2 w w' /\ saved v3 i3 w w' /\
  keeps_but [key i1; key i2; key i3] w w'.
Proof.
  intros H12 H13 H23 Ho1 Ho2 Ho3 Hp1 Hp2 Hp3 Hk.
  destruct (two_writes i1 i2 v1 v2 w w1 w2 w2 H12 Ho1 Ho2 Hp1 Hp2 (keeps_refl _ _))
    as (Hs1 & Hs2 & Hk12).
  assert (Hn3 : key i3 ∉ [key i1; key i2]).
  { rewrite elem_of_cons, list_elem_of_singleton. naive_solver. }
  pose proof (owner_keeps _ _ _ _ Ho3 Hk12 Hn3) as Ho3'.
  destruct (one_write i3 v3 w2 w3 w' Ho3' Hp3 Hk) as [Hs3 Hk3]. split_and!.
  - eapply saved_keeps; [exact Hs1|exact Hk3|]. by rewrite list_elem_of_singleton.
  - eapply saved_keeps; [exact Hs2|exact Hk3|]. by rewrite list_elem_of_singleton.
  - by eapply keeps_saved.
  - by apply (keeps_trans [_; _] [_] w w2).
Qed.
Ltac token_call H :=
  minv H; apply map_err_Ok_inv in H;
  eapply optionally_signed_keeps; [|exact H]; apply token_program_foreign;
  lazymatch goal with
  | E : check_program_account _ = Ok ?u |- _ => by destruct u
  end.

Lemma transfer_keeps s d n a seeds t w w' :
  spl_token_transfer s d n a seeds t w = Ok w' -> keeps_but [] w w'.
Proof. unfold spl_token_transfer. intros H. token_call H. Qed.

Lemma mint_to_keeps m d n a seeds t w w' :
  spl_token_mint_to m d n a seeds t w = Ok w' -> keeps_but [] w w'.
Proof. unfold spl_token_mint_to. intros H. token_call H. Qed.

Lemma burn_keeps m s n a seeds t w w' :
  spl_token_burn m s n a seeds t w = Ok w' -> keeps_but [] w w'.
Proof. unfold spl_token_burn. intros H. token_call H. Qed.
End laws.

(** ** Freshness *)

Definition fresh (u : LastUpdate) (w : World) : Prop :=
  stale u = false /\ slot u = current_slot w.

Lemma not_stale_fresh u w b :
  is_stale u (current_slot w) = Ok b -> b = false -> fresh u w.
Proof. intros H ->. by apply is_stale_false in H. Qed.
