(* ===== verification/ExampleRuntime.v ===== *)
(** A concrete environment in which the handlers run: a token program whose
    accounts hold a 64-bit balance, and the other third-party functions as
    constants or as their documentation has them.  It satisfies [RuntimeLaws],
    and the witnesses of the handlers' theorems evaluate in it. *)

From Stdlib Require Import Init.Byte Floats.SpecFloat.
From stdpp Require Import gmap.
From S2P Require Import Prelude Errors Common Rate Decimal Codec LastUpdate.
From S2P Require Import RateLimiter LendingMarket ReserveConfig ReserveConfigSpec.
From S2P Require Import ObligationCollateral ObligationLiquidity Obligation ObligationCodec.
From S2P Require Import ReserveLiquidity ReserveCollateral Reserve ReserveRates ReserveCodec.
From S2P Require Import Runtime ProcessorHelpers.

(** ** The token program *)

Definition example_program : Pubkey := 1.
Definition example_token_program : Pubkey := 3.
Definition example_authority : Pubkey := 77.

(** A token account: its balance, its owner, and the fields that do not matter here; an
    account without an owner is anyone's who signs.  Shorter ones are not initialized. *)
Definition token_data (n o : Z) : bytes :=
  to_le_bytes 8 n ++ to_le_bytes 32 o ++ zero_bytes 125.
Definition token_amount (a : Account) : Z := from_le_bytes (take 8 (data a)).
Definition token_owner (a : Account) : Pubkey := from_le_bytes (take 32 (drop 8 (data a))).
Definition token_sized (a : Account) : bool := (length (data a) =? 165)%nat.

(** Only the accounts of [program] may be written. *)
Definition write_data (program k : Pubkey) (f : Account -> result bytes) (m : Accounts)
    : result Accounts :=
  match m !! k with
  | Some a =>
      if owner a =? program then
        let? d := f a in Ok (<[k := mkAccount (owner a) (lamports a) d]> m)
      else Err InvalidAccountData
  | None => Err InvalidAccountData
  end.

Definition signed_by (k : Pubkey) (infos : list AccountInfo) (seeds : list (list bytes)) : bool :=
  (negb (length seeds =? 0)%nat && (k =? example_authority))
  || existsb (fun i => (key i =? k) && is_signer i) infos.

Definition initialize (d : bytes) (a : Account) : result bytes :=
  if token_sized a then Err (OtherProgramError 6) else Ok d.

Definition add_balance (n : Z) (a : Account) : result bytes :=
  let b := token_amount a + n in
  reject_if negb (token_sized a) with InvalidAccountData then
  reject_if (b <? 0) || (2 ^ 64 <=? b) with InvalidArgument then
  Ok (to_le_bytes 8 b ++ drop 8 (data a)).

(** Tokens leave an account on the signature of its owner. *)
Definition take_balance (a : Pubkey) (n : Z) (acct : Account) : result bytes :=
  reject_if negb ((token_owner acct =? 0) || (token_owner acct =? a))
    with OtherProgramError 4 then
  add_balance (- n) acct.

Definition example_invoke (program : Pubkey) (ix : CpiInstruction) (infos : list AccountInfo)
    (seeds : list (list bytes)) (m : Accounts) : result Accounts :=
  match ix with
  | TokenInitializeAccount k _ o =>
      reject_if (o <=? 0) || (2 ^ 256 <=? o) with InvalidArgument then
      write_data program k (initialize (token_data 0 o)) m
  | TokenInitializeMint k _ _ => write_data program k (initialize (zero_bytes 8)) m
  | TokenTransfer s d a n =>
      reject_if negb (signed_by a infos seeds) with InvalidArgument then
      let? m := write_data program s (take_balance a n) m in
      write_data program d (add_balance n) m
  | TokenMintTo _ d a n =>
      reject_if negb (signed_by a infos seeds) with InvalidArgument then
      write_data program d (add_balance n) m
  | TokenBurn s _ a n =>
      reject_if negb (signed_by a infos seeds) with InvalidArgument then
      write_data program s (take_balance a n) m
  | SystemCreateAccount _ _ _ _ _ => Err InvalidArgument
  end.

(** ** The environment of a transaction [ixs] that is executing instruction [cur] *)

#[export] Instance example_runtime (ixs : list TxInstruction) (cur : Z) : Runtime := {
  clock_ID := 6;
  TRANSACTION_LEVEL_STACK_HEIGHT := 1;
  pack_unpack T P src :=
    reject_if negb (length src =? LEN)%nat with InvalidAccountData then
    let? v := unpack_from_slice src in
    reject_if negb (is_initialized v) with OtherProgramError 0 then Ok v;
  pack_unpack_unchecked T P src :=
    reject_if negb (length src =? LEN)%nat with InvalidAccountData then
    unpack_from_slice src;
  pack_pack T P v dst :=
    reject_if negb (length dst =? LEN)%nat with InvalidAccountData then
    pack_into_slice v dst;
  create_program_address _ _ := Ok example_authority;
  find_program_address _ _ := (example_authority, 255);
  Rent := unit;
  rent_from_account_info _ _ := Ok tt;
  rent_get := Ok tt;
  rent_is_exempt _ _ _ := true;
  rent_minimum_balance _ n := Z.of_nat n;
  load_current_index_checked _ _ := Ok cur;
  load_instruction_at_checked i _ _ :=
    match ixs !! Z.to_nat i with
    | Some ix => Ok ix
    | None => Err InvalidArgument
    end;
  invoke_signed := example_invoke;
  system_program_id := 0;
  check_program_account k :=
    reject_if negb (k =? example_token_program) with OtherProgramError 1 then Ok tt;
  mint_unpack_decimals _ := Ok 6;
  PriceAccount := PythPrice;
  load_price_account _ := Some (mkPythPrice 1 0 0);
  get_price_no_older_than p _ _ := Some p;
  get_ema_price_unchecked p _ := p;
  ProductAccount := Pubkey;
  load_product_account _ := Ok 5;
  px_acc p := p;
  product_iter _ := [];
  TYPE_AGGREGATOR := 1;
  AggregatorState := unit;
  get_aggregator _ _ := Ok tt;
  RoundResult := unit;
  get_aggregator_result _ := Ok tt;
  round_open_slot _ := None;
  round_result _ := None;
  AggregatorAccountData := unit;
  aggregator_new_from_bytes _ := Ok tt;
  latest_round_open_slot _ := 0;
  aggregator_get_result _ := Ok (mkSwitchboardDecimal 1 0);
}.

(** ** It satisfies the laws *)

Definition frames (m m' : Accounts) : Prop :=
  forall (k : Pubkey) a, m !! k = Some a -> owner a = example_program ->
    exists a', m' !! k = Some a' /\ owner a' = example_program /\ data a' = data a.

Lemma frames_trans m m1 m2 : frames m m1 -> frames m1 m2 -> frames m m2.
Proof.
  intros H1 H2 k a Hk Ho. destruct (H1 k a Hk Ho) as (a1 & Hk1 & Ho1 & <-). by apply (H2 k).
Qed.

Lemma write_data_inv program k f m m' :
  write_data program k f m = Ok m' ->
  exists a d, m !! k = Some a /\ owner a = program /\ f a = Ok d /\
    m' = <[k := mkAccount (owner a) (lamports a) d]> m.
Proof.
  unfold write_data. destruct (m !! k) as [a|]; [|discriminate].
  destruct (Z.eqb_spec (owner a) program); [|discriminate]. intros H. minv H. by exists a, v.
Qed.

Lemma write_data_frames program k f m m' :
  program <> example_program -> write_data program k f m = Ok m' -> frames m m'.
Proof.
  intros Hp (b & d & Hb & Ho & _ & ->)%write_data_inv k' a Hk Hoa.
  exists a. split; [|done]. rewrite lookup_insert_ne; [done|]. intros ->. congruence.
Qed.

#[export] Instance example_laws ixs cur :
  RuntimeLaws (example_runtime ixs cur) example_program.
Proof.
  split.
  - intros T P src v. cbn. destruct (Nat.eqb_spec (length src) LEN); cbn.
    + split; [intros H; minv H; by destruct (is_initialized v0)|].
      intros (_ & -> & Hi). cbn. by rewrite Hi.
    + split; [discriminate|by intros [? _]].
  - intros T P src v. cbn. destruct (Nat.eqb_spec (length src) LEN); cbn; naive_solver.
  - intros T P v dst dst'. cbn. destruct (Nat.eqb_spec (length dst) LEN); cbn; naive_solver.
  - intros k. cbn. destruct (Z.eqb_spec k example_token_program) as [->|]; [done|discriminate].
  - done.
  - done.
  - intros program ix infos seeds m m' k a Hp H. revert k a. fold (frames m m').
    destruct ix; cbn in H; minv H;
      eauto using write_data_frames, frames_trans.
  - by intros d n [= <-].
Qed.

(** ** The token program is one *)

#[export] Instance example_tokens : TokenProgram := {|
  is_token a := owner a = example_token_program /\ length (data a) = 165%nat;
  tokens a := token_amount a;
  spends a b := token_owner a = 0 \/ token_owner a = b;
|}.

(** What a call leaves of a token account, when [n] is added to it. *)
Definition token_kept (n : Z) (a a' : Account) : Prop :=
  is_token a' /\ tokens a' = tokens a + n /\ token_owner a' = token_owner a.

Lemma amount_written o l b d :
  0 <= b < 2 ^ 64 -> token_amount (mkAccount o l (to_le_bytes 8 b ++ d)) = b.
Proof.
  intros Hb. unfold token_amount. cbn [data].
  rewrite take_app_length' by by rewrite length_to_le_bytes. by apply from_to_le_bytes.
Qed.

Lemma owner_kept o l b (a : Account) :
  token_owner (mkAccount o l (to_le_bytes 8 b ++ drop 8 (data a))) = token_owner a.
Proof.
  unfold token_owner. cbn [data]. by rewrite drop_app_length' by by rewrite length_to_le_bytes.
Qed.

Lemma add_balance_kept n a d :
  is_token a -> add_balance n a = Ok d ->
  token_kept n a (mkAccount (owner a) (lamports a) d).
Proof.
  unfold add_balance. cbv zeta. intros [Ho Hl] H.
  destruct (negb (token_sized a)); [discriminate|].
  destruct (_ || _) eqn:G in H; [discriminate|]. injection H as <-.
  assert (Hd : length (drop 8 (data a)) = 157%nat) by (rewrite length_drop; lia).
  split; [split; [done|]|split].
  - change (length (to_le_bytes 8 (token_amount a + n) ++ drop 8 (data a)) = 165%nat). by rewrite length_app, length_to_le_bytes, Hd.
  - apply (amount_written _ _ (token_amount a + n)). lia.
  - apply owner_kept.
Qed.

Lemma take_balance_kept b n a d :
  is_token a -> take_balance b n a = Ok d ->
  token_kept (- n) a (mkAccount (owner a) (lamports a) d) /\ spends a b.
Proof.
  unfold take_balance. intros Ha H. minv H. split; [by apply add_balance_kept|].
  cbn. lia.
Qed.

Lemma initialize_inv d0 a d : initialize d0 a = Ok d -> ~ is_token a /\ d = d0.
Proof.
  unfold initialize, token_sized. destruct (Nat.eqb_spec (length (data a)) 165); [discriminate|].
  intros [= <-]. by split; [intros [_ ?]|].
Qed.

(** A write to one account, as another or the same is seen. *)
Lemma write_kept program k0 f m m' (k : Pubkey) a n :
  write_data program k0 f m = Ok m' -> m !! k = Some a -> is_token a ->
  (forall d, f a = Ok d -> token_kept n a (mkAccount (owner a) (lamports a) d)) ->
  exists a', m' !! k = Some a' /\ token_kept (if k0 =? k then n else 0) a a'.
Proof.
  intros (b & d & Hb & Ho & Hf & ->)%write_data_inv Hk Ha Hkept.
  destruct (Z.eqb_spec k0 k) as [->|Hne].
  - assert (b = a) as -> by congruence. eexists. rewrite lookup_insert_eq. by split; [|apply Hkept].
  - exists a. rewrite lookup_insert_ne by done. split; [done|].
    split; [done|]. split; [lia|done].
Qed.

Lemma write_opened program k0 f m m' :
  write_data program k0 f m = Ok m' ->
  exists a d, m !! k0 = Some a /\ f a = Ok d /\
    m' !! k0 = Some (mkAccount program (lamports a) d).
Proof.
  intros (a & d & Ha & <- & Hf & ->)%write_data_inv. exists a, d.
  by rewrite lookup_insert_eq.
Qed.

Lemma write_owner program k0 f m m' (k : Pubkey) a' :
  write_data program k0 f m = Ok m' -> m' !! k = Some a' ->
  exists a, m !! k = Some a /\ owner a = owner a'.
Proof.
  intros (b & d & Hb & _ & _ & ->)%write_data_inv Hk.
  destruct (decide (k0 = k)) as [<-|Hne].
  - rewrite lookup_insert_eq in Hk. injection Hk as <-. by exists b.
  - rewrite lookup_insert_ne in Hk by done. by exists a'.
Qed.

Lemma token_kept_trans n1 n2 a a1 a2 :
  token_kept n1 a a1 -> token_kept n2 a1 a2 -> token_kept (n1 + n2) a a2.
Proof. intros (_ & H1 & H2) (? & H3 & H4). split; [done|]. split; [lia|congruence]. Qed.

Lemma kept_eq n n' a a' : token_kept n a a' -> n = n' -> token_kept n' a a'.
Proof. by intros ? <-. Qed.

(** Initializing leaves the other accounts. *)
Lemma initialize_kept program k0 d0 m m' (k : Pubkey) a :
  write_data program k0 (initialize d0) m = Ok m' -> m !! k = Some a -> is_token a ->
  exists a', m' !! k = Some a' /\ token_kept 0 a a'.
Proof.
  intros H Hk Ha. destruct (write_kept _ _ _ _ _ _ _ 0 H Hk Ha) as (a' & Hk' & Hkept).
  - by intros d [Hn _]%initialize_inv.
  - exists a'. split; [done|]. by destruct (_ =? _).
Qed.

Lemma example_moved program ix infos seeds m m' (k : Pubkey) a :
  example_invoke program ix infos seeds m = Ok m' -> m !! k = Some a -> is_token a ->
  exists a', m' !! k = Some a' /\ token_kept (token_change ix k) a a'.
Proof.
  intros H Hk Ha. destruct ix; cbn in H; minv H.
  - by eapply initialize_kept.
  - by eapply initialize_kept.
  - eapply write_kept with (n := - amount) in E as (a1 & Hk1 & H1); [|done..|].
    2: { intros d Hd. by eapply take_balance_kept. }
    eapply write_kept with (n := amount) in H as (a2 & Hk2 & H2); [|done|apply H1|].
    2: { intros d Hd. by apply add_balance_kept; [apply H1|]. }
    exists a2. split; [done|]. pose proof (token_kept_trans _ _ _ _ _ H1 H2) as Hs. cbn [token_change].
    eapply kept_eq; [exact Hs|]. destruct (source =? k), (destination =? k); lia.
  - eapply write_kept with (n := amount) in H as (a2 & Hk2 & H2); [|done|done|].
    2: { intros d Hd. by apply add_balance_kept. }
    by exists a2.
  - eapply write_kept with (n := - amount) in H as (a1 & Hk1 & H1); [|done..|].
    2: { intros d Hd. by eapply take_balance_kept. }
    exists a1. split; [done|]. cbn [token_change]. eapply kept_eq; [exact H1|].
    by destruct (source =? k).
Qed.

Lemma signed_signs ixs cur k infos seeds :
  signed_by k infos seeds = true ->
  signs (H := example_runtime ixs cur) example_program k infos seeds.
Proof.
  unfold signed_by, signs. intros [[Hs ->%Z.eqb_eq]%andb_true_iff|H]%orb_true_iff.
  - right. destruct seeds as [|s ss]; [done|]. exists s. split; [by left|done].
  - left. apply existsb_exists in H as (i & Hi & [<-%Z.eqb_eq ?]%andb_true_iff). by exists i.
Qed.

#[export] Instance example_token_laws ixs cur :
  TokenLaws (example_runtime ixs cur) example_tokens example_program.
Proof.
  split.
  - by intros a [_ ?].
  - intros a _. cbn. apply from_le_bytes_range.
  - intros program ix infos seeds m m' k a _ H Hk Ha.
    destruct (example_moved _ _ _ _ _ _ _ _ H Hk Ha) as (a' & Hk' & H1 & H2 & H3).
    exists a'. split_and!; try done. intros b. cbn. by rewrite H3.
  - intros program ix infos seeds m m' k b a _ H Hd Hk Ha. destruct ix; cbn in Hd; try done;
      injection Hd as -> ->; cbn in H; minv H;
      (split; [|by apply signed_signs, negb_false_iff]).
    + apply write_opened in E as (a1 & d & Ha1 & Hf & _). assert (a1 = a) as -> by congruence.
      by eapply take_balance_kept.
    + apply write_opened in H as (a1 & d & Ha1 & Hf & _). assert (a1 = a) as -> by congruence.
      by eapply take_balance_kept.
  - intros program k mint o infos seeds m m' Hp H. cbn in H. minv H.
    apply write_opened in H as (a1 & d & Ha1 & [Hn ->]%initialize_inv & Hk). split.
    + intros a Ha. congruence.
    + cbn in Hp. destruct (Z.eqb_spec program example_token_program) as [->|]; [|discriminate].
      eexists. split; [exact Hk|]. split; [by split|].
      intros b. cbn [spends example_tokens]. unfold token_owner, token_data. cbn [data].
      rewrite drop_app_length', take_app_length' by by rewrite length_to_le_bytes.
      rewrite from_to_le_bytes by (unfold in_uint; cbn -[Z.pow]; lia). lia.
  - discriminate.
  - intros program ix infos seeds m m' k a' Hp H Hk Ho. left. rewrite <- Ho.
    destruct ix; cbn in H; minv H; eauto using write_owner.
    destruct (write_owner _ _ _ _ _ _ _ H Hk) as (a1 & Hk1 & <-). by eapply write_owner.
Qed.

(** ** A world *)

Definition example_market : LendingMarket :=
  mkLendingMarket 1 255 50 (zero_bytes 32) example_token_program 4 4
    RateLimiter.default None 51.

(** A reserve and an obligation refreshed in slot 7. *)
Definition example_reserve : Reserve :=
  Reserve.set_last_update test_reserve (mkLastUpdate 7 false).

Definition example_obligation : Obligation :=
  mkObligation 1 (mkLastUpdate 7 false) 10 78
    [mkObligationCollateral 20 1000000 (from_int 100)] []
    (from_int 100) Decimal.zero Decimal.zero (from_int 50) (from_int 55) (from_int 60) false.

Definition packed (r : result bytes) : bytes :=
  match r with Ok b => b | _ => [] end.

Definition program_account (d : bytes) : Account := mkAccount example_program 1 d.
Definition owned_tokens (o n : Z) : Account :=
  mkAccount example_token_program 1 (token_data n o).
Definition token_account (n : Z) : Account := owned_tokens 0 n.

Definition market_bytes (m : LendingMarket) : bytes :=
  packed (LendingMarket.pack_into_slice m (zero_bytes 290)).
Definition reserve_bytes (r : Reserve) : bytes :=
  packed (ReserveCodec.pack_into_slice r (zero_bytes 619)).
Definition obligation_bytes (o : Obligation) : bytes :=
  packed (ObligationCodec.pack_into_slice o (zero_bytes 1300)).

(** Slot 7, top level: the market at 10, a reserve at 20, an obligation at 30. *)
Definition world_of (m : LendingMarket) (r : Reserve) (o : Obligation)
    (tokens : list (Pubkey * Z)) : World :=
  mkWorld
    (list_to_map
       ([(10, program_account (market_bytes m));
         (20, program_account (reserve_bytes r));
         (30, program_account (obligation_bytes o))]
        ++ map (fun kn => (kn.1, token_account kn.2)) tokens))
    (mkClock 7) 1.

Definition account (k : Pubkey) : AccountInfo := mkAccountInfo k false.
Definition signer (k : Pubkey) : AccountInfo := mkAccountInfo k true.
