(* ===== verification/Identity.v ===== *)
(** What never changes in an account: the market, mints and supply accounts of a
    reserve, the market and owner of an obligation, the addresses a lending market
    was created with.  Read off the bytes, so that it can be followed through any
    number of writes. *)

From S2P Require Import Prelude Errors Common Rate Decimal Codec LastUpdate.
From S2P Require Import RateLimiter LendingMarket ReserveConfig.
From S2P Require Import ObligationCollateral ObligationLiquidity Obligation ObligationCodec.
From S2P Require Import ReserveLiquidity ReserveCollateral Reserve ReserveCodec Nonneg.
From S2P Require Import Runtime ProcessorHelpers.

Inductive Identity : Type :=
  | MarketIdentity (version bump_seed : Z) (quote_currency : bytes)
      (token_program oracle_program switchboard_program : Pubkey)
  | ReserveIdentity (version : Z) (market liquidity_mint : Pubkey) (decimals : Z)
      (liquidity_supply collateral_mint collateral_supply : Pubkey)
  | ObligationIdentity (version : Z) (market owner : Pubkey).

(** The identity of an initialized account, by its length and first fields. *)
Definition identity (d : bytes) : option Identity :=
  let version := from_le_bytes (take 1 d) in
  let pubkey widths i := pubkey_from_bytes (field_at widths i d) in
  if version =? UNINITIALIZED_VERSION then None
  else if (length d =? LENDING_MARKET_LEN)%nat then
    let w := lending_market_widths in
    Some (MarketIdentity version (from_le_bytes (field_at w 1 d)) (field_at w 3 d)
            (pubkey w 4%nat) (pubkey w 5%nat) (pubkey w 6%nat))
  else if (length d =? RESERVE_LEN)%nat then
    let w := reserve_widths in
    Some (ReserveIdentity version (pubkey w 3%nat) (pubkey w 4%nat)
            (from_le_bytes (field_at w 5 d)) (pubkey w 6%nat) (pubkey w 13%nat)
            (pubkey w 15%nat))
  else if (length d =? OBLIGATION_LEN)%nat then
    let w := obligation_widths in
    Some (ObligationIdentity version (pubkey w 3%nat) (pubkey w 4%nat))
  else None.

(** The owner of a lending market, which its owner may hand over. *)
Definition market_owner (d : bytes) : option Pubkey :=
  if (length d =? LENDING_MARKET_LEN)%nat
  then Some (pubkey_from_bytes (field_at lending_market_widths 2 d))
  else None.

(** Every part fits its field. *)
Definition identity_ok (i : Identity) : Prop :=
  match i with
  | MarketIdentity v b q t o s =>
      0 < v < 2 ^ 8 /\ is_u8 b /\ length q = 32%nat /\ is_u256 t /\ is_u256 o /\ is_u256 s
  | ReserveIdentity v m lm d ls cm cs =>
      0 < v < 2 ^ 8 /\ is_u256 m /\ is_u256 lm /\ is_u8 d /\ is_u256 ls /\ is_u256 cm /\
      is_u256 cs
  | ObligationIdentity v m o => 0 < v < 2 ^ 8 /\ is_u256 m /\ is_u256 o
  end.

(** An account type whose values have an identity that its packed form shows. *)
Class Identified (T : Type) `{PackTrait T} : Type := {
  identity_of : T -> Identity;
  market_owner_of : T -> option Pubkey;
  unpack_identity : forall d v, length d = LEN -> unpack_from_slice d = Ok v ->
    is_initialized v = true ->
    identity d = Some (identity_of v) /\ identity_ok (identity_of v) /\
    market_owner d = market_owner_of v /\
    (forall k, market_owner_of v = Some k -> is_u256 k);
  unpack_no_identity : forall d v, length d = LEN -> unpack_from_slice d = Ok v ->
    is_initialized v = false -> identity d = None;
  pack_identity : forall d d' v, length d = LEN -> pack_into_slice v d = Ok d' ->
    identity_ok (identity_of v) ->
    length d' = length d /\ identity d' = Some (identity_of v) /\
    ((forall k, market_owner_of v = Some k -> is_u256 k) ->
     market_owner d' = market_owner_of v);
}.

(** ** Packed fields *)

(** [minv], but the packed bytes stay as they are written. *)
Lemma Ok_inj {E A : Type} (a b : A) : Ok (E:=E) a = Ok b -> b = a.
Proof. congruence. Qed.

Ltac pinv H :=
  repeat lazymatch type of H with Ok _ = Ok _ => fail | _ => minv_step H end;
  apply Ok_inj in H as ->.

Lemma packed_fields widths n fs d :
  total_width widths = n -> length d = n -> length <$> fs = widths ->
  length (concat fs ++ drop n d) = length d /\
  forall i, field_at widths i (concat fs ++ drop n d) = nth i fs [].
Proof.
  intros Hn Hd Hw. split.
  - rewrite length_app, length_concat_fields, Hw, length_drop. lia.
  - intros i. unfold field_at. by rewrite (array_refs_fields _ _ _ Hw).
Qed.

Lemma first_field w widths (d : bytes) : take w d = field_at (w :: widths) 0 d.
Proof. done. Qed.

Lemma limiter_packed_length r dst bs :
  length dst = RATE_LIMITER_LEN -> RateLimiter.pack_into_slice r dst = Ok bs ->
  length bs = RATE_LIMITER_LEN.
Proof.
  unfold RateLimiter.pack_into_slice. intros Hl H.
  destruct (length dst <? RATE_LIMITER_LEN)%nat; [discriminate|]. pinv H.
  apply length_pack_decimal in E, E0.
  rewrite length_app, length_concat_fields, length_drop, Hl. cbn [fmap list_fmap].
  by rewrite !length_to_le_bytes, E, E0.
Qed.

Lemma pack_entries_length {A : Type} len (encode : A -> result bytes) xs : forall offset d o d',
  pack_entries len encode xs offset d = Ok (o, d') ->
  (forall x bs, encode x = Ok bs -> (length bs <= len)%nat) -> length d' = length d.
Proof.
  induction xs as [|x xs IH]; intros offset d o d' H He; cbn in H.
  - by minv H.
  - minv H. rewrite (IH _ _ _ _ H He). unfold write_entry in E0.
    destruct (Nat.ltb_spec (length d) (offset + len)); [discriminate|].
    injection E0 as <-. apply He in E. rewrite !length_app, length_take, length_drop. lia.
Qed.

Ltac field_lengths :=
  cbn [fmap list_fmap];
  repeat match goal with
  | E : pack_decimal _ = Ok _ |- _ => apply length_pack_decimal in E
  end;
  rewrite ?length_to_le_bytes, ?length_pubkey_to_bytes, ?length_pack_bool;
  repeat match goal with E : length ?v = _ |- context [length ?v] => rewrite E end.

(** ** The three account types *)

Lemma market_packed m d d' :
  length d = LENDING_MARKET_LEN -> length (quote_currency m) = 32%nat ->
  LendingMarket.pack_into_slice m d = Ok d' ->
  exists fs, d' = concat fs ++ drop LENDING_MARKET_LEN d /\
    length <$> fs = lending_market_widths /\
    take 7 fs = [to_le_bytes 1 (LendingMarket.version m); to_le_bytes 1 (bump_seed m);
      pubkey_to_bytes (LendingMarket.owner m); quote_currency m;
      pubkey_to_bytes (token_program_id m); pubkey_to_bytes (oracle_program_id m);
      pubkey_to_bytes (switchboard_oracle_program_id m)].
Proof.
  unfold LendingMarket.pack_into_slice. intros Hl Hq H.
  destruct (Nat.ltb_spec (length d) LENDING_MARKET_LEN); [discriminate|]. pinv H.
  apply limiter_packed_length in E; [|by rewrite (length_field_at _ _ _ 56) by (done || rewrite Hl; done)].
  eexists. split; [reflexivity|]. split; [|reflexivity].
  assert (Hold : length (field_at lending_market_widths 10 d) = 8%nat)
    by (apply length_field_at; [by rewrite Hl|done]).
  destruct (whitelisted_liquidator m); field_lengths; by rewrite ?length_zero_bytes.
Qed.

Lemma reserve_packed r d d' :
  length d = RESERVE_LEN -> ReserveCodec.pack_into_slice r d = Ok d' ->
  exists fs, d' = concat fs ++ drop RESERVE_LEN d /\
    length <$> fs = reserve_widths /\
    nth 0 fs [] = to_le_bytes 1 (Reserve.version r) /\
    nth 3 fs [] = pubkey_to_bytes (Reserve.lending_market r) /\
    nth 4 fs [] = pubkey_to_bytes (ReserveLiquidity.mint_pubkey (liquidity r)) /\
    nth 5 fs [] = to_le_bytes 1 (mint_decimals (liquidity r)) /\
    nth 6 fs [] = pubkey_to_bytes (ReserveLiquidity.supply_pubkey (liquidity r)) /\
    nth 13 fs [] = pubkey_to_bytes (ReserveCollateral.mint_pubkey (collateral r)) /\
    nth 15 fs [] = pubkey_to_bytes (ReserveCollateral.supply_pubkey (collateral r)).
Proof.
  unfold ReserveCodec.pack_into_slice. intros Hl H.
  destruct (Nat.ltb_spec (length d) RESERVE_LEN); [discriminate|]. pinv H.
  assert (Hold : length (field_at reserve_widths 40 d) = 138%nat)
    by (apply length_field_at; [by rewrite Hl|done]).
  apply limiter_packed_length in E4;
    [|by rewrite (length_field_at _ _ _ 56) by (done || rewrite Hl; done)].
  eexists. split; [reflexivity|]. split; [|split_and!; reflexivity].
  field_lengths. done.
Qed.

Lemma entry_length (fs : list bytes) n :
  (total_width (length <$> fs) <= n)%nat -> (length (concat fs) <= n)%nat.
Proof. by rewrite length_concat_fields. Qed.

Lemma obligation_packed o d d' :
  length d = OBLIGATION_LEN -> ObligationCodec.pack_into_slice o d = Ok d' ->
  exists fs, d' = concat fs ++ drop OBLIGATION_LEN d /\
    length <$> fs = obligation_widths /\
    nth 0 fs [] = to_le_bytes 1 (Obligation.version o) /\
    nth 3 fs [] = pubkey_to_bytes (Obligation.lending_market o) /\
    nth 4 fs [] = pubkey_to_bytes (Obligation.owner o).
Proof.
  unfold ObligationCodec.pack_into_slice. intros Hl H.
  destruct (Nat.ltb_spec (length d) OBLIGATION_LEN); [discriminate|]. pinv H.
  assert (Hold : length (field_at obligation_widths 12 d) = 31%nat)
    by (apply length_field_at; [by rewrite Hl|done]).
  assert (Hdata : length (field_at obligation_widths 15 d) = DATA_FLAT_LEN)
    by (apply length_field_at; [by rewrite Hl|done]).
  apply pack_entries_length in E7.
  2:{ intros x bs Hx. unfold collateral_bytes in Hx. pinv Hx. apply entry_length.
      field_lengths. by apply Nat.leb_le. }
  apply pack_entries_length in E8.
  2:{ intros x bs Hx. unfold liquidity_bytes in Hx. pinv Hx. apply entry_length.
      field_lengths. by apply Nat.leb_le. }
  eexists. split; [reflexivity|]. split; [|split_and!; reflexivity].
  by field_lengths.
Qed.

Lemma version_initialized v : negb (v =? UNINITIALIZED_VERSION) = true -> v <> 0.
Proof. unfold UNINITIALIZED_VERSION. lia. Qed.

(** The first byte of an account is its version. *)
Lemma version_of widths n fs (d : bytes) :
  total_width (1%nat :: widths) = n -> length d = n -> length <$> fs = 1%nat :: widths ->
  take 1 (concat fs ++ drop n d) = nth 0 fs [].
Proof.
  intros Hn Hd Hw. rewrite (first_field 1 widths).
  by apply (packed_fields _ _ _ _ Hn Hd Hw).
Qed.

Definition market_identity (m : LendingMarket) : Identity :=
  MarketIdentity (LendingMarket.version m) (bump_seed m) (quote_currency m)
    (token_program_id m) (oracle_program_id m) (switchboard_oracle_program_id m).
Definition reserve_identity (r : Reserve) : Identity :=
  ReserveIdentity (Reserve.version r) (Reserve.lending_market r)
    (ReserveLiquidity.mint_pubkey (liquidity r)) (mint_decimals (liquidity r))
    (ReserveLiquidity.supply_pubkey (liquidity r))
    (ReserveCollateral.mint_pubkey (collateral r))
    (ReserveCollateral.supply_pubkey (collateral r)).
Definition obligation_identity (o : Obligation) : Identity :=
  ObligationIdentity (Obligation.version o) (Obligation.lending_market o)
    (Obligation.owner o).

(** A reading of the fields by their positions. *)
Lemma market_fields d m :
  length d = LENDING_MARKET_LEN -> LendingMarket.unpack_from_slice d = Ok m ->
  let f i := field_at lending_market_widths i d in
  market_identity m = MarketIdentity (from_le_bytes (take 1 d)) (from_le_bytes (f 1%nat))
    (f 3%nat) (pubkey_from_bytes (f 4%nat)) (pubkey_from_bytes (f 5%nat))
    (pubkey_from_bytes (f 6%nat)) /\
  LendingMarket.owner m = pubkey_from_bytes (f 2%nat) /\
  identity_ok (MarketIdentity 1 (bump_seed m) (quote_currency m) (token_program_id m)
    (oracle_program_id m) (switchboard_oracle_program_id m)) /\
  is_u256 (LendingMarket.owner m) /\ in_uint 8 (LendingMarket.version m).
Proof.
  intros Hl H f. unfold LendingMarket.unpack_from_slice in H.
  rewrite take_ge in H by (by rewrite Hl).
  destruct (Nat.ltb_spec (length d) LENDING_MARKET_LEN); [discriminate|].
  pose proof (array_refs_widths lending_market_widths d ltac:(by rewrite Hl)) as Hw.
  change (take 1 d) with (f 0%nat). subst f. unfold field_at.
  set (fs := array_refs _ _) in *. clearbody fs. split_fields H.
  injection Hw. clear Hw. intros. pinv H. cbn. split_and!; auto with widths; lia.
Qed.

Lemma reserve_fields d r :
  length d = RESERVE_LEN -> ReserveCodec.unpack_from_slice d = Ok r ->
  let f i := field_at reserve_widths i d in
  reserve_identity r = ReserveIdentity (from_le_bytes (take 1 d))
    (pubkey_from_bytes (f 3%nat)) (pubkey_from_bytes (f 4%nat)) (from_le_bytes (f 5%nat))
    (pubkey_from_bytes (f 6%nat)) (pubkey_from_bytes (f 13%nat))
    (pubkey_from_bytes (f 15%nat)) /\
  in_uint 8 (Reserve.version r).
Proof.
  intros Hl H f. unfold ReserveCodec.unpack_from_slice in H.
  rewrite take_ge in H by (by rewrite Hl).
  destruct (Nat.ltb_spec (length d) RESERVE_LEN); [discriminate|].
  pose proof (array_refs_widths reserve_widths d ltac:(by rewrite Hl)) as Hw.
  change (take 1 d) with (f 0%nat). subst f. unfold field_at.
  set (fs := array_refs _ _) in *. clearbody fs. split_fields H.
  injection Hw. clear Hw. intros. pinv H. cbn. split; auto with widths.
Qed.

Lemma obligation_fields d o :
  length d = OBLIGATION_LEN -> ObligationCodec.unpack_from_slice d = Ok o ->
  let f i := field_at obligation_widths i d in
  obligation_identity o = ObligationIdentity (from_le_bytes (take 1 d))
    (pubkey_from_bytes (f 3%nat)) (pubkey_from_bytes (f 4%nat)) /\
  in_uint 8 (Obligation.version o).
Proof.
  intros Hl H f. unfold ObligationCodec.unpack_from_slice in H.
  rewrite take_ge in H by (by rewrite Hl).
  destruct (Nat.ltb_spec (length d) OBLIGATION_LEN); [discriminate|].
  pose proof (array_refs_widths obligation_widths d ltac:(by rewrite Hl)) as Hw.
  change (take 1 d) with (f 0%nat). subst f. unfold field_at.
  set (fs := array_refs _ _) in *. clearbody fs. split_fields H.
  injection Hw. clear Hw. intros. pinv H. cbn. split; auto with widths.
Qed.

(** ** The instances *)

Lemma market_unpack_identity d m :
  length d = LENDING_MARKET_LEN -> LendingMarket.unpack_from_slice d = Ok m ->
  LendingMarket.is_initialized m = true ->
  identity d = Some (market_identity m) /\ identity_ok (market_identity m) /\
  market_owner d = Some (LendingMarket.owner m) /\
  (forall k, Some (LendingMarket.owner m) = Some k -> is_u256 k).
Proof.
  intros Hl H Hi. apply version_initialized in Hi.
  destruct (market_fields d m Hl H) as (Hid & Ho & Hok & Hou & Hv).
  assert (Hver : LendingMarket.version m = from_le_bytes (take 1 d))
    by (unfold market_identity in Hid; congruence).
  unfold identity, market_owner. rewrite Hl, Hid, Ho, <- Hver in *.
  destruct (Z.eqb_spec (LendingMarket.version m) UNINITIALIZED_VERSION); [done|].
  split_and!; [done| |done|intros k; congruence].
  rewrite <- Hid. split; [unfold in_uint in Hv; lia|apply Hok].
Qed.

Lemma uninitialized_identity d :
  from_le_bytes (take 1 d) = UNINITIALIZED_VERSION -> identity d = None.
Proof. intros Hv. unfold identity. by rewrite Hv. Qed.

Lemma market_pack_identity d d' m :
  length d = LENDING_MARKET_LEN -> LendingMarket.pack_into_slice m d = Ok d' ->
  identity_ok (market_identity m) ->
  length d' = length d /\ identity d' = Some (market_identity m) /\
  ((forall k, Some (LendingMarket.owner m) = Some k -> is_u256 k) ->
   market_owner d' = Some (LendingMarket.owner m)).
Proof.
  intros Hl H (Hv & Hb & Hq & Ht & Ho & Hs).
  destruct (market_packed m d d' Hl Hq H) as (fs & -> & Hw & Hfs).
  destruct (packed_fields lending_market_widths LENDING_MARKET_LEN fs d eq_refl Hl Hw) as [Hlen Hf].
  assert (Hn : forall i, (i < 7)%nat -> nth i fs [] = nth i (take 7 fs) []).
  { intros i Hi. rewrite <- (take_drop 7 fs) at 1. apply app_nth1. rewrite length_take.
    apply (f_equal length) in Hw. rewrite length_fmap in Hw. cbn in Hw. lia. }
  unfold identity, market_owner. rewrite Hlen, Hl. split; [done|].
  change (take 1 ?e) with (field_at lending_market_widths 0 e).
  rewrite !Hf, !Hn by lia. rewrite Hfs. cbn [nth]. split.
  - rewrite !from_to_le_bytes, !pubkey_from_to_bytes by (done || (unfold in_uint; cbn; lia)).
    destruct (Z.eqb_spec (LendingMarket.version m) UNINITIALIZED_VERSION);
      [unfold UNINITIALIZED_VERSION in *; lia|done].
  - intros Hk. cbn. by rewrite pubkey_from_to_bytes by (by apply Hk).
Qed.

Lemma reserve_unpack_identity d r :
  length d = RESERVE_LEN -> ReserveCodec.unpack_from_slice d = Ok r ->
  Reserve.is_initialized r = true ->
  identity d = Some (reserve_identity r) /\ identity_ok (reserve_identity r) /\
  market_owner d = None /\ (forall k : Pubkey, None = Some k -> is_u256 k).
Proof.
  intros Hl H Hi. apply version_initialized in Hi.
  destruct (reserve_fields d r Hl H) as (Hid & Hv).
  pose proof (reserve_unpack_wf d r H) as Hwf.
  assert (Hver : Reserve.version r = from_le_bytes (take 1 d))
    by (unfold reserve_identity in Hid; congruence).
  unfold identity, market_owner. rewrite Hl, <- Hver.
  destruct (Z.eqb_spec (Reserve.version r) UNINITIALIZED_VERSION); [done|].
  split_and!; [by rewrite Hver, Hid| |done|done].
  destruct Hwf. cbn. split_and!; try done; unfold in_uint in Hv; lia.
Qed.

Lemma reserve_pack_identity d d' r :
  length d = RESERVE_LEN -> ReserveCodec.pack_into_slice r d = Ok d' ->
  identity_ok (reserve_identity r) ->
  length d' = length d /\ identity d' = Some (reserve_identity r) /\
  ((forall k : Pubkey, None = Some k -> is_u256 k) -> market_owner d' = None).
Proof.
  intros Hl H (Hv & Hm & Hlm & Hd & Hls & Hcm & Hcs).
  destruct (reserve_packed r d d' Hl H)
    as (fs & -> & Hw & H0 & H3 & H4 & H5 & H6 & H13 & H15).
  destruct (packed_fields reserve_widths RESERVE_LEN fs d eq_refl Hl Hw) as [Hlen Hf].
  unfold identity, market_owner. rewrite Hlen, Hl. split_and!; [done| |done].
  change (take 1 ?e) with (field_at reserve_widths 0 e).
  rewrite !Hf, H0, H3, H4, H5, H6, H13, H15.
  rewrite !from_to_le_bytes, !pubkey_from_to_bytes by (done || (unfold in_uint; cbn; lia)).
  destruct (Z.eqb_spec (Reserve.version r) UNINITIALIZED_VERSION);
    [unfold UNINITIALIZED_VERSION in *; lia|done].
Qed.

Lemma obligation_unpack_identity d o :
  length d = OBLIGATION_LEN -> ObligationCodec.unpack_from_slice d = Ok o ->
  Obligation.is_initialized o = true ->
  identity d = Some (obligation_identity o) /\ identity_ok (obligation_identity o) /\
  market_owner d = None /\ (forall k : Pubkey, None = Some k -> is_u256 k).
Proof.
  intros Hl H Hi. apply version_initialized in Hi.
  destruct (obligation_fields d o Hl H) as (Hid & Hv).
  pose proof (obligation_unpack_wf d o H) as Hwf.
  assert (Hver : Obligation.version o = from_le_bytes (take 1 d))
    by (unfold obligation_identity in Hid; congruence).
  unfold identity, market_owner. rewrite Hl, <- Hver.
  destruct (Z.eqb_spec (Obligation.version o) UNINITIALIZED_VERSION); [done|].
  split_and!; [by rewrite Hver, Hid| |done|done].
  destruct Hwf. cbn. split_and!; try done; unfold in_uint in Hv; lia.
Qed.

Lemma obligation_pack_identity d d' o :
  length d = OBLIGATION_LEN -> ObligationCodec.pack_into_slice o d = Ok d' ->
  identity_ok (obligation_identity o) ->
  length d' = length d /\ identity d' = Some (obligation_identity o) /\
  ((forall k : Pubkey, None = Some k -> is_u256 k) -> market_owner d' = None).
Proof.
  intros Hl H (Hv & Hm & Ho).
  destruct (obligation_packed o d d' Hl H) as (fs & -> & Hw & H0 & H3 & H4).
  destruct (packed_fields obligation_widths OBLIGATION_LEN fs d eq_refl Hl Hw) as [Hlen Hf].
  unfold identity, market_owner. rewrite Hlen, Hl. split_and!; [done| |done].
  change (take 1 ?e) with (field_at obligation_widths 0 e). rewrite !Hf, H0, H3, H4.
  rewrite !from_to_le_bytes, !pubkey_from_to_bytes by (done || (unfold in_uint; cbn; lia)).
  destruct (Z.eqb_spec (Obligation.version o) UNINITIALIZED_VERSION);
    [unfold UNINITIALIZED_VERSION in *; lia|done].
Qed.

Lemma uninitialized_version v : negb (v =? UNINITIALIZED_VERSION) = false -> v = 0.
Proof. unfold UNINITIALIZED_VERSION. lia. Qed.

#[export] Program Instance market_identified : Identified LendingMarket := {
  identity_of := market_identity;
  market_owner_of m := Some (LendingMarket.owner m);
  unpack_identity := market_unpack_identity;
  pack_identity := market_pack_identity;
}.
Next Obligation.
  intros d m Hl H Hi%uninitialized_version. apply uninitialized_identity.
  destruct (market_fields d m Hl H) as (Hid & _). unfold market_identity, UNINITIALIZED_VERSION in *.
  congruence.
Qed.

#[export] Program Instance reserve_identified : Identified Reserve := {
  identity_of := reserve_identity;
  market_owner_of _ := None;
  unpack_identity := reserve_unpack_identity;
  pack_identity := reserve_pack_identity;
}.
Next Obligation.
  intros d r Hl H Hi%uninitialized_version. apply uninitialized_identity.
  destruct (reserve_fields d r Hl H) as (Hid & _). unfold reserve_identity in Hid. unfold UNINITIALIZED_VERSION. congruence.
Qed.

#[export] Program Instance obligation_identified : Identified Obligation := {
  identity_of := obligation_identity;
  market_owner_of _ := None;
  unpack_identity := obligation_unpack_identity;
  pack_identity := obligation_pack_identity;
}.
Next Obligation.
  intros d o Hl H Hi%uninitialized_version. apply uninitialized_identity.
  destruct (obligation_fields d o Hl H) as (Hid & _). unfold obligation_identity in Hid.
  unfold UNINITIALIZED_VERSION. congruence.
Qed.
