(* ===== verification/Evolution.v ===== *)
(** How the accounts of the program evolve: every handler keeps the identity of
    every initialized account, and only its owner hands over a market. *)

From S2P Require Import Prelude Errors Common Rate Decimal Codec LastUpdate.
From S2P Require Import RateLimiter LendingMarket ReserveConfig.
From S2P Require Import ObligationCollateral ObligationLiquidity Obligation ObligationCodec.
From S2P Require Import ObligationSpec ReserveLiquidity ReserveCollateral Reserve ReserveCodec.
From S2P Require Import Runtime ProcessorHelpers ProcessMarket ProcessReserve ProcessDeposit.
From S2P Require Import ProcessConfig ProcessObligation ProcessCollateral ProcessBorrow.
From S2P Require Import ProcessLiquidation ProcessFlash AccountSpec Identity.

(** One of the accounts passed is [k] and signed. *)
Definition signed (accs : list AccountInfo) (k : Pubkey) : Prop :=
  exists s, s ∈ accs /\ key s = k /\ is_signer s = true.

(** The data of one account before and after. *)
Definition frozen (accs : list AccountInfo) (d d' : bytes) : Prop :=
  forall i, identity d = Some i ->
    identity d' = Some i /\
    (forall k, market_owner d = Some k -> market_owner d' = Some k \/ signed accs k).

Lemma frozen_refl accs d : frozen accs d d.
Proof. intros i Hi. auto. Qed.

Lemma frozen_trans accs d1 d2 d3 : frozen accs d1 d2 -> frozen accs d2 d3 -> frozen accs d1 d3.
Proof.
  intros H1 H2 i Hi. destruct (H1 i Hi) as [Hi2 Ho2]. destruct (H2 i Hi2) as [Hi3 Ho3].
  split; [done|]. intros k Hk. destruct (Ho2 k Hk) as [Hk2|]; [by apply Ho3|by right].
Qed.

(** ** The operations keep identities *)

Definition liquidity_identity (l : ReserveLiquidity) : Pubkey * Z * Pubkey :=
  (ReserveLiquidity.mint_pubkey l, mint_decimals l, ReserveLiquidity.supply_pubkey l).

Section operations.
Implicit Types (l : ReserveLiquidity) (r : Reserve) (o : Obligation).

Lemma borrow_identity l d l' :
  ReserveLiquidity.borrow l d = Ok l' -> liquidity_identity l' = liquidity_identity l.
Proof. unfold ReserveLiquidity.borrow. intros H. minv H. done. Qed.

Lemma repay_identity l n d l' :
  ReserveLiquidity.repay l n d = Ok l' -> liquidity_identity l' = liquidity_identity l.
Proof. unfold ReserveLiquidity.repay. intros H. minv H. done. Qed.

Lemma forgive_identity l d l' :
  forgive_debt l d = Ok l' -> liquidity_identity l' = liquidity_identity l.
Proof. unfold forgive_debt. intros H. minv H. done. Qed.

Lemma redeem_fees_identity l n l' :
  redeem_fees l n = Ok l' -> liquidity_identity l' = liquidity_identity l.
Proof. unfold redeem_fees. intros H. minv H. done. Qed.

Lemma accrue_identity r slot r' :
  accrue_interest r slot = Ok r' -> reserve_identity r' = reserve_identity r.
Proof.
  unfold accrue_interest. intros H. minv H. destruct (0 <? v); minv H; [|done].
  unfold compound_interest in E1. minv E1. done.
Qed.

Lemma deposit_identity r n r' c :
  deposit_liquidity r n = Ok (r', c) -> reserve_identity r' = reserve_identity r.
Proof.
  unfold deposit_liquidity, ReserveLiquidity.deposit, ReserveCollateral.mint.
  intros H. minv H. minv E1. minv E2. done.
Qed.

Lemma redeem_identity r n r' c :
  redeem_collateral r n = Ok (r', c) -> reserve_identity r' = reserve_identity r.
Proof.
  unfold redeem_collateral, ReserveLiquidity.withdraw, ReserveCollateral.burn.
  intros H. minv H. minv E1. minv E2. done.
Qed.

Lemma deposit_to_identity o k n o' :
  deposit_to_obligation o k n = Ok o' -> obligation_identity o' = obligation_identity o.
Proof.
  unfold deposit_to_obligation. intros H. minv H.
  by destruct (add_collateral_inv _ _ _ _ E) as [[-> _]|(_ & _ & -> & _)].
Qed.

Lemma borrow_in_identity o k rate d o' :
  borrow_in_obligation o k rate d = Ok o' -> obligation_identity o' = obligation_identity o.
Proof.
  unfold borrow_in_obligation. intros H. minv H.
  by destruct (add_liquidity_inv _ _ _ _ _ E) as [[-> _]|(_ & _ & -> & _)].
Qed.

Lemma ob_repay_identity o d i o' :
  Obligation.repay o d i = Ok o' -> obligation_identity o' = obligation_identity o.
Proof. intros (l & _ & _ & ->)%ob_repay_inv. done. Qed.

Lemma ob_withdraw_identity o n i o' :
  Obligation.withdraw o n i = Ok o' -> obligation_identity o' = obligation_identity o.
Proof. intros (c & _ & _ & ->)%ob_withdraw_inv. done. Qed.

Lemma repay_withdraw_identity o d i o1 n j o2 :
  Obligation.repay o d i = Ok o1 -> Obligation.withdraw o1 n j = Ok o2 ->
  obligation_identity o2 = obligation_identity o.
Proof. intros <-%ob_repay_identity <-%ob_withdraw_identity. done. Qed.

Lemma accrue_repay_identity o bs d i o' :
  Obligation.repay (set_borrows o bs) d i = Ok o' ->
  obligation_identity o' = obligation_identity o.
Proof. by intros ->%ob_repay_identity. Qed.

Lemma refreshed_identity o slot ds td bs tb o' :
  refreshed_obligation o slot ds td bs tb = Ok o' ->
  obligation_identity o' = obligation_identity o.
Proof. unfold refreshed_obligation. intros H. minv H. done. Qed.

Lemma update_as_owner_identity `{Runtime} r m c rl a b d w r' :
  update_as_owner r m c rl a b d w = Ok r' -> reserve_identity r' = reserve_identity r.
Proof. unfold update_as_owner. intros H1. minv H1. by destruct (bool_decide _). Qed.

Lemma set_liquidity_identity r l :
  liquidity_identity l = liquidity_identity (liquidity r) ->
  reserve_identity (set_liquidity r l) = reserve_identity r.
Proof. unfold liquidity_identity, reserve_identity. cbn. congruence. Qed.

Lemma set_limited_liquidity_identity r rl l :
  liquidity_identity l = liquidity_identity (liquidity r) ->
  reserve_identity (set_liquidity (Reserve.set_rate_limiter r rl) l) = reserve_identity r.
Proof. apply (set_liquidity_identity (Reserve.set_rate_limiter r rl)). Qed.

Lemma stale_reserve_identity r : reserve_identity (mark_reserve_stale r) = reserve_identity r.
Proof. done. Qed.

Lemma updated_reserve_identity r u :
  reserve_identity (Reserve.set_last_update r u) = reserve_identity r.
Proof. done. Qed.

Lemma limited_reserve_identity r rl :
  reserve_identity (Reserve.set_rate_limiter r rl) = reserve_identity r.
Proof. done. Qed.

Lemma configured_reserve_identity r c :
  reserve_identity (Reserve.set_config r c) = reserve_identity r.
Proof. done. Qed.

Lemma priced_reserve_identity r p q :
  reserve_identity (set_reserve_prices r p q) = reserve_identity r.
Proof. done. Qed.

Lemma limited_market_identity m rl :
  market_identity (LendingMarket.set_rate_limiter m rl) = market_identity m.
Proof. done. Qed.

Lemma accrued_obligation_identity o bs :
  obligation_identity (set_borrows o bs) = obligation_identity o.
Proof. done. Qed.

Lemma stale_obligation_identity o :
  obligation_identity (mark_obligation_stale o) = obligation_identity o.
Proof. done. Qed.
End operations.

Create HintDb identities discriminated.
Create Rewrite HintDb identity.
#[export] Hint Resolve set_liquidity_identity set_limited_liquidity_identity borrow_identity repay_identity forgive_identity
  redeem_fees_identity accrue_identity deposit_identity redeem_identity deposit_to_identity
  borrow_in_identity ob_repay_identity ob_withdraw_identity refreshed_identity
  repay_withdraw_identity accrue_repay_identity
  update_as_owner_identity eq_refl : identities.
#[export] Hint Rewrite stale_reserve_identity updated_reserve_identity limited_reserve_identity
  configured_reserve_identity priced_reserve_identity limited_market_identity
  stale_obligation_identity : identity.

(** A changed value has the identity of the value that was read. *)
Ltac same_identity :=
  cbn [identity_of market_identified reserve_identified obligation_identified];
  autorewrite with identity; solve [eauto with identities].

Section evolution.
Context {R : Runtime} {program_id : Pubkey} {L : RuntimeLaws R program_id}.
Context (accs : list AccountInfo).

Definition evolves (w w' : World) : Prop :=
  forall info, owner_of w info = program_id ->
    owner_of w' info = program_id /\ frozen accs (data_of w info) (data_of w' info).

Lemma evolves_refl w : evolves w w.
Proof. intros info Ho. split; [done|apply frozen_refl]. Qed.

Lemma evolves_trans w1 w2 w3 : evolves w1 w2 -> evolves w2 w3 -> evolves w1 w3.
Proof.
  intros H1 H2 info Ho. destruct (H1 info Ho) as [Ho2 Hf2].
  destruct (H2 info Ho2) as [Ho3 Hf3]. split; [done|by eapply frozen_trans].
Qed.

Lemma keeps_evolves w w' : keeps_but (program_id:=program_id) [] w w' -> evolves w w'.
Proof.
  intros H info Ho. destruct (H info Ho) as [Hd Ho']; [apply not_elem_of_nil|].
  split; [done|]. rewrite Hd. apply frozen_refl.
Qed.

Section write.
Context {T : Type} {P : PackTrait T} {I : Identified T}.

(** A value that was read in [w0] is written back, changed, in [w1]. *)
Lemma write_evolves info (v v' : T) w0 w1 w2 :
  unpack_account T w0 info = Ok v -> evolves w0 w1 -> pack_account v' info w1 = Ok w2 ->
  identity_of v' = identity_of v ->
  (market_owner_of v' = market_owner_of v \/
   exists k, market_owner_of v = Some k /\ signed accs k) ->
  evolves w0 w2.
Proof.
  intros Hu He Hp Hid How i Hi.
  apply (unpack_account_inv (program_id:=program_id)) in Hu as (Hl & Hu & Hinit).
  destruct (unpack_identity _ _ Hl Hu Hinit) as (Hd & Hok & Hmo & Hrange).
  apply (pack_account_inv (program_id:=program_id)) in Hp as (Hl1 & Hp & Hown & Hget & _).
  destruct (He i Hi) as [Ho1 Hf]. rewrite Hown. split; [done|].
  destruct (decide (key i = key info)) as [Hk|Hk].
  - intros j Hj. unfold data_of, get in *. rewrite Hk in *.
    assert (j = identity_of v) as -> by congruence.
    rewrite <- Hid in Hok. destruct (pack_identity _ _ _ Hl1 Hp Hok) as (_ & Hd2 & Hm2).
    split; [by rewrite Hd2, Hid|]. intros k Hmk.
    destruct How as [How|(k' & Hk' & Hs)]; [left|right; congruence].
    rewrite Hm2; [congruence|]. intros k' Hk'. apply Hrange. congruence.
  - unfold data_of. rewrite (Hget i Hk). exact Hf.
Qed.

(** An account that was not initialized in [w0] is. *)
Lemma create_evolves info (v v' : T) w0 w1 w2 :
  assert_uninitialized T w0 info = Ok v -> evolves w0 w1 ->
  pack_account v' info w1 = Ok w2 -> evolves w0 w2.
Proof.
  unfold assert_uninitialized. intros Hu He Hp i Hi. minv Hu.
  apply (pack_unpack_unchecked_spec (program_id:=program_id)) in E as [Hl E].
  apply (pack_account_inv (program_id:=program_id)) in Hp as (Hl1 & Hp & Hown & Hget & _).
  destruct (He i Hi) as [Ho1 Hf]. rewrite Hown. split; [done|].
  destruct (decide (key i = key info)) as [Hk|Hk].
  - intros j Hj. pose proof (unpack_no_identity _ _ Hl E G) as Hn.
    unfold data_of, get in *. rewrite Hk in Hj. congruence.
  - unfold data_of. rewrite (Hget i Hk). exact Hf.
Qed.
End write.

(** ** The handlers *)

Implicit Types w : World.

Lemma transfer_evolves s d n a seeds t w w' :
  spl_token_transfer s d n a seeds t w = Ok w' -> evolves w w'.
Proof. intros H. by eapply keeps_evolves, transfer_keeps. Qed.

Lemma mint_to_evolves m d n a seeds t w w' :
  spl_token_mint_to m d n a seeds t w = Ok w' -> evolves w w'.
Proof. intros H. by eapply keeps_evolves, mint_to_keeps. Qed.

Lemma burn_evolves m s n a seeds t w w' :
  spl_token_burn m s n a seeds t w = Ok w' -> evolves w w'.
Proof. intros H. by eapply keeps_evolves, burn_keeps. Qed.

Lemma init_account_evolves a m o r t w w' :
  spl_token_init_account a m o r t w = Ok w' -> evolves w w'.
Proof.
  unfold spl_token_init_account. intros H. minv H. apply map_err_Ok_inv in H.
  eapply keeps_evolves, invoke_keeps; [|exact H]. apply token_program_foreign. by destruct v.
Qed.

Lemma init_mint_evolves m r a n t w w' :
  spl_token_init_mint m r a n t w = Ok w' -> evolves w w'.
Proof.
  unfold spl_token_init_mint. intros H. minv H. apply map_err_Ok_inv in H.
  eapply keeps_evolves, invoke_keeps; [|exact H]. apply token_program_foreign. by destruct v.
Qed.
End evolution.

Create HintDb evolution discriminated.
#[export] Hint Resolve transfer_evolves mint_to_evolves burn_evolves init_account_evolves
  init_mint_evolves : evolution.

(** From the last world to the first: the write of a value that was read, a
    token call or a handler already known to keep identities. *)
Ltac evolve :=
  lazymatch goal with
  | |- evolves _ ?w ?w => apply evolves_refl
  | H : pack_account _ ?i _ = Ok ?w2, U : unpack_account _ ?w0 ?i = Ok _
    |- evolves _ _ ?w2 =>
      apply (evolves_trans _ _ w0);
      [evolve|eapply (write_evolves _ _ _ _ _ _ _ U);
              [|exact H|same_identity|left; reflexivity]; evolve]
  | H : pack_account _ ?i _ = Ok ?w2, U : assert_uninitialized _ ?w0 ?i = Ok _
    |- evolves _ _ ?w2 =>
      apply (evolves_trans _ _ w0);
      [evolve|eapply (create_evolves _ _ _ _ _ _ _ U); [|exact H]; evolve]
  | H : _ = Ok ?w2 |- evolves _ _ ?w2 => evolve_by H
  | H : _ = Ok (?w2, _) |- evolves _ _ ?w2 => evolve_by H
  end
with evolve_by H :=
  eapply evolves_trans; cycle 1; [solve [eauto 2 with evolution]|evolve].

Section handlers.
Context {R : Runtime} {program_id : Pubkey} {L : RuntimeLaws R program_id}.
Context (accs : list AccountInfo).
Implicit Types w : World.

Abbreviation evolves := (evolves (program_id:=program_id) accs).

Lemma refresh_interest_evolves i w w' :
  _refresh_reserve_interest program_id i w = Ok w' -> evolves w w'.
Proof.
  unfold _refresh_reserve_interest. intros H. minv H.
  evolve.
Qed.

Lemma mark_stale_evolves i w w' : mark_stale_in_account i w = Ok w' -> evolves w w'.
Proof. unfold mark_stale_in_account. intros H. minv H. evolve. Qed.

#[local] Hint Resolve refresh_interest_evolves mark_stale_evolves : evolution.

Lemma refresh_reserve_evolves i p o w w' :
  _refresh_reserve program_id i p o w = Ok w' -> evolves w w'.
Proof. unfold _refresh_reserve. intros H. minv H. evolve. Qed.

Lemma deposit_liquidity_evolves n a1 a2 a3 a4 a5 a6 a7 a8 a9 w w' c :
  _deposit_reserve_liquidity program_id n a1 a2 a3 a4 a5 a6 a7 a8 a9 w = Ok (w', c) ->
  evolves w w'.
Proof. unfold _deposit_reserve_liquidity. intros H. minv H. evolve. Qed.

Lemma redeem_collateral_evolves n a1 a2 a3 a4 a5 a6 a7 a8 a9 b w w' c :
  _redeem_reserve_collateral program_id n a1 a2 a3 a4 a5 a6 a7 a8 a9 b w = Ok (w', c) ->
  evolves w w'.
Proof.
  unfold _redeem_reserve_collateral. intros H. minv H. destruct b; minv E4; evolve.
Qed.

Lemma deposit_collateral_evolves n a1 a2 a3 a4 a5 a6 a7 a8 w w' :
  _deposit_obligation_collateral program_id n a1 a2 a3 a4 a5 a6 a7 a8 w = Ok w' ->
  evolves w w'.
Proof. unfold _deposit_obligation_collateral. intros H. minv H. evolve. Qed.

Lemma withdraw_collateral_evolves n a1 a2 a3 a4 a5 a6 a7 a8 b w w' c :
  _withdraw_obligation_collateral program_id n a1 a2 a3 a4 a5 a6 a7 a8 b w = Ok (w', c) ->
  evolves w w'.
Proof. unfold _withdraw_obligation_collateral. intros H. minv H. evolve. Qed.

Lemma borrow_transfers_evolves s d f a t seeds host bf hf n w w' :
  borrow_transfers s d f a t seeds host bf hf n w = Ok w' -> evolves w w'.
Proof.
  unfold borrow_transfers. intros H. minv H.
  destruct (next_account_info host) as [[h l]|e|]; [destruct (0 <? hf)|..]; minv E;
    subst; destruct (0 <? _); minv E0; subst; evolve.
Qed.
#[local] Hint Resolve borrow_transfers_evolves : evolution.

Lemma borrow_liquidity_evolves n a1 a2 a3 a4 a5 a6 a7 a8 a9 h w w' :
  _borrow_obligation_liquidity program_id n a1 a2 a3 a4 a5 a6 a7 a8 a9 h w = Ok w' ->
  evolves w w'.
Proof. unfold _borrow_obligation_liquidity. intros H. minv H. evolve. Qed.

Lemma liquidate_evolves n a1 a2 a3 a4 a5 a6 a7 a8 a9 a10 a11 w w' c :
  _liquidate_obligation program_id n a1 a2 a3 a4 a5 a6 a7 a8 a9 a10 a11 w = Ok (w', c) ->
  evolves w w'.
Proof.
  unfold _liquidate_obligation. intros H. minv H. evolve.
Qed.

#[local] Hint Resolve redeem_collateral_evolves : evolution.

Lemma redeem_liquidated_evolves n b a1 a2 a3 a4 a5 a6 a7 a8 a9 a10 w w' :
  redeem_liquidated program_id n b a1 a2 a3 a4 a5 a6 a7 a8 a9 a10 w = Ok w' -> evolves w w'.
Proof.
  unfold redeem_liquidated. intros H. minv H. destruct (negb _); minv H; evolve.
Qed.

Lemma flash_borrow_evolves n a1 a2 a3 a4 a5 a6 a7 w w' :
  _flash_borrow_reserve_liquidity program_id n a1 a2 a3 a4 a5 a6 a7 w = Ok w' -> evolves w w'.
Proof. unfold _flash_borrow_reserve_liquidity. intros H. minv H. evolve. Qed.

Lemma flash_repay_evolves n i a1 a2 a3 a4 a5 a6 a7 a8 a9 w w' :
  _flash_repay_reserve_liquidity program_id n i a1 a2 a3 a4 a5 a6 a7 a8 a9 w = Ok w' ->
  evolves w w'.
Proof.
  unfold _flash_repay_reserve_liquidity. intros H. minv H.
  destruct (0 <? host_fee); minv E6; destruct (0 <? origination_fee); minv H; evolve.
Qed.
End handlers.

(** ** The instructions *)

Section instructions.
Context {R : Runtime} {program_id : Pubkey} {L : RuntimeLaws R program_id}.
Implicit Types (w : World) (accs : list AccountInfo).

Abbreviation evolves := (evolves (program_id:=program_id)).

#[local] Hint Resolve refresh_interest_evolves mark_stale_evolves refresh_reserve_evolves
  deposit_liquidity_evolves redeem_collateral_evolves deposit_collateral_evolves
  withdraw_collateral_evolves borrow_liquidity_evolves liquidate_evolves
  redeem_liquidated_evolves flash_borrow_evolves flash_repay_evolves : evolution.

Lemma init_market_evolves o q accs w w' :
  process_init_lending_market program_id o q accs w = Ok w' -> evolves accs w w'.
Proof. unfold process_init_lending_market. intros H. open_handler H. evolve. Qed.

Lemma set_market_owner_evolves o rl wl ra accs w w' :
  process_set_lending_market_owner_and_config program_id o rl wl ra accs w = Ok w' ->
  evolves accs w w'.
Proof.
  unfold process_set_lending_market_owner_and_config. intros H. open_handler H.
  eapply (write_evolves _ _ _ _ _ _ _ E); [apply evolves_refl|exact H|done|right].
  eexists. split; [reflexivity|]. exists x1. subst.
  apply negb_eqb_false in G0. apply negb_false_iff in G1. split_and!; [rewrite !elem_of_cons; auto|done..].
Qed.

(** A metadata account has the length of no account with an identity. *)
Lemma metadata_no_identity d : length d = size_of_metadata -> identity d = None.
Proof. intros Hl. unfold identity. rewrite Hl. by destruct (_ =? _). Qed.

Lemma update_metadata_evolves m accs w w' :
  length (metadata_bytes m) = size_of_metadata ->
  process_update_market_metadata program_id m accs w = Ok w' -> evolves accs w w'.
Proof.
  unfold process_update_market_metadata. intros Hm H. open_handler H.
  apply (evolves_trans _ _ v0).
  { destruct (length (data_of w x3) =? 0)%nat; minv E0; [|apply evolves_refl].
    eapply keeps_evolves, invoke_keeps; [apply system_program_foreign|exact E0]. }
  destruct (Nat.eqb_spec (length (data_of v0 x3)) (length (metadata_bytes m)));
    [|discriminate]. injection H as <-.
  intros i Hi. unfold owner_of, data_of. destruct (decide (key i = key x3)) as [Hk|Hk].
  - rewrite get_set_data_eq by done. unfold owner_of, data_of, get in *. rewrite Hk in *.
    split; [done|]. intros j Hj. rewrite metadata_no_identity in Hj; congruence.
  - rewrite get_set_data_ne by done. split; [done|apply frozen_refl].
Qed.

Lemma init_reserve_evolves n c accs w w' :
  process_init_reserve program_id n c accs w = Ok w' -> evolves accs w w'.
Proof. unfold process_init_reserve. intros H. open_handler H. evolve. Qed.

Lemma init_obligation_evolves accs w w' :
  process_init_obligation program_id accs w = Ok w' -> evolves accs w w'.
Proof. unfold process_init_obligation. intros H. open_handler H. evolve. Qed.

Lemma refresh_obligation_evolves accs w w' :
  process_refresh_obligation program_id accs w = Ok w' -> evolves accs w w'.
Proof. unfold process_refresh_obligation. intros H. open_handler H. evolve. Qed.

Lemma repay_evolves n accs w w' :
  process_repay_obligation_liquidity program_id n accs w = Ok w' -> evolves accs w w'.
Proof. unfold process_repay_obligation_liquidity. intros H. open_handler H. evolve. Qed.

Lemma update_config_evolves c rl accs w w' :
  process_update_reserve_config program_id c rl accs w = Ok w' -> evolves accs w w'.
Proof.
  unfold process_update_reserve_config. intros H. open_handler H.
  assert (Hid : reserve_identity v3 = reserve_identity v0).
  { destruct (key x5 =? LendingMarket.owner v1); [by eapply update_as_owner_identity|].
    destruct (key x5 =? risk_authority v1); minv E3.
    - unfold update_as_risk_authority. rewrite configured_reserve_identity.
      case_match; reflexivity.
    - destruct (key x5 =? solend_market_owner_id); [by minv E3|discriminate]. }
  evolve.
Qed.

Lemma redeem_fees_evolves accs w w' :
  process_redeem_fees program_id accs w = Ok w' -> evolves accs w w'.
Proof. unfold process_redeem_fees. intros H. open_handler H. evolve. Qed.

Lemma forgive_debt_evolves n accs w w' :
  process_forgive_debt program_id n accs w = Ok w' -> evolves accs w w'.
Proof. unfold process_forgive_debt. intros H. open_handler H. evolve. Qed.

Lemma refresh_reserve_instruction_evolves accs w w' :
  process_refresh_reserve program_id accs w = Ok w' -> evolves accs w w'.
Proof. unfold process_refresh_reserve. intros H. open_handler H. evolve. Qed.

Lemma deposit_instruction_evolves n accs w w' :
  process_deposit_reserve_liquidity program_id n accs w = Ok w' -> evolves accs w w'.
Proof. unfold process_deposit_reserve_liquidity. intros H. open_handler H. evolve. Qed.

Lemma redeem_instruction_evolves n accs w w' :
  process_redeem_reserve_collateral program_id n accs w = Ok w' -> evolves accs w w'.
Proof. unfold process_redeem_reserve_collateral. intros H. open_handler H. evolve. Qed.

Lemma deposit_collateral_instruction_evolves n accs w w' :
  process_deposit_obligation_collateral program_id n accs w = Ok w' -> evolves accs w w'.
Proof. unfold process_deposit_obligation_collateral. intros H. open_handler H. evolve. Qed.

Lemma withdraw_instruction_evolves n accs w w' :
  process_withdraw_obligation_collateral program_id n accs w = Ok w' -> evolves accs w w'.
Proof. unfold process_withdraw_obligation_collateral. intros H. open_handler H. evolve. Qed.

Lemma borrow_instruction_evolves n accs w w' :
  process_borrow_obligation_liquidity program_id n accs w = Ok w' -> evolves accs w w'.
Proof. unfold process_borrow_obligation_liquidity. intros H. open_handler H. evolve. Qed.

Lemma deposit_and_pledge_evolves n accs w w' :
  process_deposit_reserve_liquidity_and_obligation_collateral program_id n accs w = Ok w' ->
  evolves accs w w'.
Proof.
  unfold process_deposit_reserve_liquidity_and_obligation_collateral. intros H.
  open_handler H. evolve.
Qed.

Lemma withdraw_and_redeem_evolves n accs w w' :
  process_withdraw_obligation_collateral_and_redeem_reserve_liquidity program_id n accs w
    = Ok w' -> evolves accs w w'.
Proof.
  unfold process_withdraw_obligation_collateral_and_redeem_reserve_liquidity. intros H.
  open_handler H. evolve.
Qed.

Lemma liquidate_and_redeem_evolves n accs w w' :
  process_liquidate_obligation_and_redeem_reserve_collateral program_id n accs w = Ok w' ->
  evolves accs w w'.
Proof.
  unfold process_liquidate_obligation_and_redeem_reserve_collateral. intros H.
  open_handler H. evolve.
Qed.

Lemma flash_borrow_instruction_evolves n accs w w' :
  process_flash_borrow_reserve_liquidity program_id n accs w = Ok w' -> evolves accs w w'.
Proof. unfold process_flash_borrow_reserve_liquidity. intros H. open_handler H. evolve. Qed.

Lemma flash_repay_instruction_evolves n i accs w w' :
  process_flash_repay_reserve_liquidity program_id n i accs w = Ok w' -> evolves accs w w'.
Proof. unfold process_flash_repay_reserve_liquidity. intros H. open_handler H. evolve. Qed.
End instructions.

#[export] Hint Resolve init_market_evolves set_market_owner_evolves init_reserve_evolves
  refresh_reserve_instruction_evolves deposit_instruction_evolves redeem_instruction_evolves
  init_obligation_evolves refresh_obligation_evolves deposit_collateral_instruction_evolves
  withdraw_instruction_evolves borrow_instruction_evolves repay_evolves
  deposit_and_pledge_evolves withdraw_and_redeem_evolves update_config_evolves
  liquidate_and_redeem_evolves redeem_fees_evolves flash_borrow_instruction_evolves
  flash_repay_instruction_evolves forgive_debt_evolves update_metadata_evolves : evolution.
