(* ===== verification/BorrowSpec.v ===== *)
(** What a successful borrow guarantees. *)

From S2P Require Import Prelude Errors Common Rate Decimal Codec Nonneg.
From S2P Require Import LastUpdate.
From S2P Require Import RateLimiter LendingMarket ReserveConfig ReserveConfigSpec.
From S2P Require Import ObligationCollateral ObligationLiquidity Obligation ObligationSpec.
From S2P Require Import ReserveLiquidity ReserveCollateral Reserve ReserveCodec ReserveRates.
From S2P Require Import ReserveCalc.
From S2P Require Import Runtime ProcessorHelpers ProcessReserve ProcessConfig ProcessCollateral.
From S2P Require Import ProcessBorrow.
From S2P Require Import AccountSpec ExampleRuntime.

(** ** The parts *)

Lemma remaining_borrow_value_inv o d :
  unwrap_or_else (remaining_borrow_value o) Decimal.zero = Ok d ->
  dec_eqb d Decimal.zero = false ->
  dec_raw d = dec_raw (allowed_borrow_value o) - dec_raw (borrowed_value_upper_bound o) /\
  0 < dec_raw d.
Proof.
  unfold remaining_borrow_value, dec_eqb. cbn [Decimal.zero dec_raw]. intros H Hz.
  apply unwrap_or_else_Ok_inv in H as [H|[_ ->]]; [|discriminate].
  apply dec_sub_inv in H as [Hv Hle]. lia.
Qed.

Lemma check_isolated_tier_inv r k o u :
  check_isolated_tier r k o = Ok u ->
  (reserve_type (config r) = Isolated -> Forall (fun b => borrow_reserve b = k) (borrows o)) /\
  (reserve_type (config r) = Regular -> borrowing_isolated_asset o = false).
Proof.
  unfold check_isolated_tier. intros H. destruct (reserve_type (config r)).
  - minv H. done.
  - split; [intros _|done]. destruct (borrows o) as [|b [|b' bs]]; [done| |discriminate].
    minv H. apply negb_eqb_false in G. by repeat constructor.
Qed.

Lemma borrow_in_obligation_inv o k r d o' :
  borrow_in_obligation o k r d = Ok o' ->
  total_debt o' = total_debt o + dec_raw d /\ deposits o' = deposits o /\
  (positions_ok o -> positions_ok o').
Proof.
  unfold borrow_in_obligation. intros H. minv H. apply unwrap_option_Ok_inv in E0 as Hl.
  assert (Hpos : positions_ok o -> positions_ok (set_borrows o0 (<[i := v0]> (borrows o0)))).
  { intros Ho. eapply positions_step; [|by eapply step_borrow].
    eapply positions_step; [exact Ho|by eapply step_add_liquidity]. }
  assert (Hins : total_debt (set_borrows o0 (<[i := v0]> (borrows o0)))
    = total_debt o0 + dec_raw d).
  { rewrite !total_debt_sum. cbn [set_borrows set_positions borrows].
    rewrite (sum_by_insert _ _ _ _ v0 Hl). apply ol_borrow_inv in E1 as ->.
    unfold debt_of. cbn. lia. }
  rewrite Hins. apply add_liquidity_inv in E as [[-> _]|(_ & _ & -> & _)]; [done|].
  split_and!; [|done|exact Hpos]. rewrite !total_debt_sum.
  cbn [set_borrows set_positions borrows]. rewrite sum_by_snoc. unfold debt_of at 2. cbn. lia.
Qed.

Lemma remaining_capacity_inv (limit : Z) (debt c : Decimal) :
  unwrap_or_else (try_sub (from_int limit) debt) Decimal.zero = Ok c ->
  dec_raw c = Z.max 0 (WAD * limit - dec_raw debt).
Proof.
  intros [H|[He ->]]%unwrap_or_else_Ok_inv.
  - apply dec_sub_inv in H as [-> ?]. cbn [from_int dec_raw] in *. lia.
  - destruct (Z.le_gt_cases (dec_raw debt) (WAD * limit)); [|cbn; lia].
    rewrite dec_sub_ok in He by done. by destruct He.
Qed.

(** A maximum borrow of which something is received fits in the remaining capacity. *)
Lemma maximum_borrow_fits r maxv cap out b :
  0 <= host_fee_percentage (fees (config r)) ->
  dec_raw cap = Z.max 0 (WAD * borrow_limit (config r)
                         - dec_raw (borrowed_amount_wads (liquidity r))) ->
  calculate_borrow r u64_max maxv (dec_min cap out) = Ok b -> receive_amount b <> 0 ->
  dec_raw (borrowed_amount_wads (liquidity r)) + dec_raw (borrow_amount b)
    <= WAD * borrow_limit (config r).
Proof.
  intros Hh Hcap H Hr. apply calculate_borrow_computed in H as Hc.
  apply calculate_borrow_split in H as (Hs & ? & ? & _); [|done|done].
  destruct (computed_maximum _ _ _ _ _ Hc eq_refl) as [Hb _].
  rewrite dec_min_raw in Hb. pose proof (div_mul_le_l (dec_raw (borrow_amount b)) WAD WAD_pos).
  unfold WAD in *. lia.
Qed.

Lemma computed_split r n maxv rem b :
  0 <= host_fee_percentage (fees (config r)) -> borrow_computed r n maxv rem b ->
  receive_amount b + borrow_fee b = dec_raw (borrow_amount b) / WAD /\ 0 <= borrow_fee b.
Proof.
  intros Hh Hc. destruct (decide (n = u64_max)) as [He|He].
  - apply (computed_maximum _ _ _ _ _ Hc) in He as (_ & Hf & Hr).
    apply calculate_fees_nonneg in Hf as [? _]; [|done]. lia.
  - apply (computed_explicit _ _ _ _ _ Hc) in He as (-> & Hf & Hb).
    apply calculate_fees_nonneg in Hf as [? _]; [|done].
    by rewrite Hb, Z.mul_comm, Z.div_mul.
Qed.

Lemma three_packs_get `{P1 : PackTrait T1, P2 : PackTrait T2, P3 : PackTrait T3}
    {R : Runtime} {program_id} {L : RuntimeLaws R program_id}
    i1 i2 i3 (v1 : T1) (v2 : T2) (v3 : T3) w w1 w2 w3 :
  pack_account v1 i1 w = Ok w1 -> pack_account v2 i2 w1 = Ok w2 ->
  pack_account v3 i3 w2 = Ok w3 ->
  forall i, key i ∉ [key i1; key i2; key i3] -> get w3 i = get w i.
Proof.
  intros (_ & _ & _ & H1 & _)%(pack_account_inv (program_id:=program_id))
    (_ & _ & _ & H2 & _)%(pack_account_inv (program_id:=program_id))
    (_ & _ & _ & H3 & _)%(pack_account_inv (program_id:=program_id)) i Hi.
  rewrite !not_elem_of_cons in Hi. destruct Hi as (? & ? & ? & _).
  by rewrite H3, H2, H1.
Qed.

(** ** The contract of a borrow *)

Section borrow.
Context {R : Runtime} {program_id : Pubkey} {L : RuntimeLaws R program_id}.

Abbreviation holds := (holds (program_id:=program_id)).
Abbreviation saved := (saved (program_id:=program_id)).
Abbreviation keeps_but := (keeps_but (program_id:=program_id)).

Lemma borrow_transfers_keeps s d f a t seeds host bf hf n w w' :
  borrow_transfers s d f a t seeds host bf hf n w = Ok w' -> keeps_but [] w w'.
Proof.
  unfold borrow_transfers. intros H. minv H.
  apply (transfer_keeps (program_id:=program_id)) in H.
  assert (H0 : keeps_but [] w w0).
  { destruct (next_account_info host) as [[h hs]| |]; [|by minv E; apply keeps_refl..].
    destruct (0 <? hf); minv E; [by eapply transfer_keeps|apply keeps_refl]. }
  assert (H1 : keeps_but [] w0 v).
  { destruct (0 <? owner_fee); [by eapply transfer_keeps|].
    minv E0. apply keeps_refl. }
  apply (keeps_trans [] [] w w0 w' H0). by apply (keeps_trans [] [] w0 v).
Qed.

(** From the accounts it reads to the accounts it leaves: [b] is what was
    calculated, [ml] and [rl] the rate limiters brought up to the slot, [ml'] and
    [rl'] the same after the borrow was charged to them. *)
Record borrow_contract (n : Z) (src dst fee mkt res obl auth own : AccountInfo)
    (rest : list AccountInfo) (w w' : World)
    (market : LendingMarket) (reserve : Reserve) (obligation : Obligation)
    (b : CalculateBorrowResult) (ml ml' rl rl' : RateLimiter) (obligation' : Obligation)
    : Prop := {
  bc_market : holds w mkt market;
  bc_reserve : holds w res reserve;
  bc_obligation : holds w obl obligation;
  (* one market, whose obligation's owner signed *)
  bc_reserve_market : Reserve.lending_market reserve = key mkt;
  bc_obligation_market : Obligation.lending_market obligation = key mkt;
  bc_owner : Obligation.owner obligation = key own /\ is_signer own = true;
  (* valued in this slot *)
  bc_fresh : fresh (Reserve.last_update reserve) w /\ fresh (Obligation.last_update obligation) w;
  (* the risk limits *)
  bc_collateral : deposits obligation <> [];
  bc_isolated :
    (reserve_type (config reserve) = Isolated ->
     Forall (fun l => borrow_reserve l = key res) (borrows obligation)) /\
    (reserve_type (config reserve) = Regular -> borrowing_isolated_asset obligation = false);
  bc_health : forall v weight value,
    market_value_upper_bound reserve (borrow_amount b) = Ok v ->
    borrow_weight reserve = Ok weight -> try_mul v weight = Ok value ->
    dec_raw (borrowed_value_upper_bound obligation) + dec_raw value
      <= dec_raw (allowed_borrow_value obligation);
  (* the amount: as asked for, or the most that the value, the limits and the liquidity
     admit, and the fee *)
  bc_amount : exists room capacity outflow,
    unwrap_or_else (remaining_borrow_value obligation) Decimal.zero = Ok room /\
    dec_raw capacity = Z.max 0 (WAD * borrow_limit (config reserve)
                                - dec_raw (borrowed_amount_wads (liquidity reserve))) /\
    max_outflow_tokens market reserve room (current_slot w) = Ok (ml, rl, outflow) /\
    borrow_computed reserve n room (dec_min capacity outflow) b;
  bc_split : receive_amount b + borrow_fee b = dec_raw (borrow_amount b) / WAD /\
    0 <= borrow_fee b;
  (* the reserve's limit: of an explicit amount, before its fee; of the maximum, of all
     that is lent *)
  bc_borrow_limit : n <> u64_max ->
    (WAD * n + dec_raw (borrowed_amount_wads (liquidity reserve))) / WAD
      <= borrow_limit (config reserve);
  bc_maximum_limit : n = u64_max ->
    dec_raw (borrowed_amount_wads (liquidity reserve)) + dec_raw (borrow_amount b)
      <= WAD * borrow_limit (config reserve);
  bc_liquidity : dec_raw (borrow_amount b) / WAD <= available_amount (liquidity reserve);
  bc_nonzero : receive_amount b <> 0;
  (* the rate limits: both limiters accepted the outflow *)
  bc_limiters :
    (exists q, remaining_outflow (LendingMarket.rate_limiter market) (current_slot w)
               = Ok (ml, q)) /\
    (exists q, remaining_outflow (Reserve.rate_limiter reserve) (current_slot w)
               = Ok (rl, q)) /\
    (exists v, market_value_upper_bound reserve (borrow_amount b) = Ok v /\
       RateLimiter.update ml (current_slot w) v = Ok ml') /\
    RateLimiter.update rl (current_slot w) (borrow_amount b) = Ok rl';
  (* the effects *)
  bc_market' : saved (LendingMarket.set_rate_limiter market ml') mkt w w';
  bc_reserve' :
    saved (mark_reserve_stale (set_liquidity (Reserve.set_rate_limiter reserve rl')
             (set_amounts (liquidity reserve)
                (available_amount (liquidity reserve) - dec_raw (borrow_amount b) / WAD)
                (mkDecimal (dec_raw (borrowed_amount_wads (liquidity reserve))
                            + dec_raw (borrow_amount b))))))
      res w w';
  bc_obligation' : saved (mark_obligation_stale obligation') obl w w';
  bc_debt : total_debt obligation' = total_debt obligation + dec_raw (borrow_amount b);
  bc_deposits : deposits obligation' = deposits obligation;
  bc_positions : positions_ok obligation -> positions_ok obligation';
  (* the payments, out of the reserve's supply: the fee in its two parts and the rest to
     the borrower *)
  bc_supply : ReserveLiquidity.supply_pubkey (liquidity reserve) = key src /\
    key src <> key dst /\ fee_receiver (config reserve) = key fee;
  bc_paid : exists token_program host w1,
    skip_clock rest = token_program :: host /\
    token_program_id market = key token_program /\
    (forall i, key i ∉ [key mkt; key res; key obl] -> get w1 i = get w i) /\
    borrow_transfers src dst fee auth token_program (authority_seeds mkt market) host
      (borrow_fee b) (host_fee b) (receive_amount b) w1 = Ok w';
  (* and nothing else *)
  bc_frame : keeps_but [key mkt; key res; key obl] w w';
}.

(** C1: a borrow is safe.  When [process_borrow_obligation_liquidity] succeeds, the
    obligation's owner signed; the reserve and the obligation belong to the market
    given and were valued in the current slot; the isolated-tier rules hold.  An explicit
    amount is what the borrower receives, with the fee borrowed on top of it; the maximum
    is the least of what the obligation's remaining borrow value, the reserve's remaining
    capacity, the outflow limits and the liquidity admit, with the fee taken out of it.
    Either way the weighted upper-bound value of the whole loan fits between the
    obligation's debt and its allowed borrow value, the liquidity covers the loan and both
    rate limiters are charged for it.  The debt of the reserve stays within its borrow
    limit for a maximum borrow; for an explicit amount the amount is counted and its fee
    is not ([borrow_fee_exceeds_limit]).  The reserve's and the obligation's debt grow by
    exactly the amount borrowed and both are left stale; what is received and the fee are
    paid from the reserve's supply; and no other account of the program changes. *)
Theorem borrow_is_safe (n : Z)
    (src dst res fee obl mkt auth own : AccountInfo) (rest : list AccountInfo)
    (w w' : World)
    (H : process_borrow_obligation_liquidity program_id n
           (src :: dst :: res :: fee :: obl :: mkt :: auth :: own :: rest) w = Ok w') :
  n <> 0 /\
  exists market reserve obligation b ml ml' rl rl' obligation',
    borrow_contract n src dst fee mkt res obl auth own rest w w' market reserve obligation
      b ml ml' rl rl' obligation'.
Proof.
  unfold process_borrow_obligation_liquidity in H.
  destruct (Z.eqb_spec n 0) as [|Hn0]; [discriminate|]. split; [done|].
  cbn [with_next next_account_info obind] in H. apply with_next_inv in H as (tok & host & Hrest & H).
  unfold _borrow_obligation_liquidity in H. minv H.
  repeat match goal with G : negb (_ =? _) = false |- _ => apply negb_eqb_false in G end.
  apply (not_stale_fresh _ _ _ E1) in G6. apply (not_stale_fresh _ _ _ E4) in G12.
  pose proof (holds_distinct (program_id:=program_id) _ _ _ _ _ E E0 ltac:(done)) as Hne1.
  pose proof (holds_distinct (program_id:=program_id) _ _ _ _ _ E E3 ltac:(done)) as Hne2.
  pose proof (holds_distinct (program_id:=program_id) _ _ _ _ _ E0 E3 ltac:(done)) as Hne3.
  pose proof (three_packs_get (program_id:=program_id) _ _ _ _ _ _ _ _ _ _ E14 E16 E18)
    as Hget.
  pose proof H as Hpaid. apply borrow_transfers_keeps in H.
  destruct (three_writes mkt res obl _ _ _ w _ _ _ w' Hne1 Hne2 Hne3 G G1 G8 E14 E16 E18 H)
    as (Hs1 & Hs2 & Hs3 & Hk).
  destruct (remaining_borrow_value_inv _ _ E7 G15) as [Hroom Hpos].
  apply check_isolated_tier_inv in E6. apply borrow_in_obligation_inv in E17 as (Hdebt & Hdep & Hok).
  apply liq_borrow_inv in E15 as [-> Hliq].
  pose proof E9 as Hout. unfold max_outflow_tokens in E9. minv E9.
  apply unpack_account_inv in E0 as Hu; destruct Hu as (_ & Hu & _).
  pose proof (reserve_unpack_wf _ _ Hu) as Hwf.
  pose proof (proj1 (proj2 (proj2 (wf_fees _ (wf_config _ Hwf))))) as Hh.
  apply remaining_capacity_inv in E8. apply calculate_borrow_computed in E10 as Hcomp.
  exists v, v0, v3, v9, market_limiter0, v11, reserve_limiter0, v12, v16.
  split; try done.
  - split; [done|]. by destruct (is_signer own).
  - intros Hd. by rewrite Hd in G13.
  - intros x y z Hx Hy Hz. rewrite <- (Z.sub_add (dec_raw (borrowed_value_upper_bound v3))
      (dec_raw (allowed_borrow_value v3))), <- Hroom, Z.add_comm.
    apply Z.add_le_mono_r.
    pose proof (wf_price _ Hwf) as [Hp1 _]. pose proof (wf_smoothed_price _ Hwf) as [Hp2 _].
    eapply calculate_borrow_value_le; [..|exact E10|exact Hx|exact Hy|exact Hz].
    + apply (wf_added_borrow_weight_bps _ (wf_config _ Hwf)).
    + apply (wf_decimals _ Hwf).
    + unfold price_upper. lia.
    + lia.
  - exists v7, v8. eexists. by split_and!.
  - by eapply computed_split.
  - intros Hn%Z.eqb_neq. rewrite Hn in E2. cbn [negb] in E2. minv E2.
    apply dec_add_inv in E9 as [Hadd _]. apply dec_floor_inv in E20 as [-> _].
    cbn [from_int dec_raw] in Hadd. rewrite <- Hadd. lia.
  - intros ->. eapply maximum_borrow_fits; [exact Hh|exact E8|exact E10|lia].
  - lia.
  - split_and!; eauto.
  - split_and!; [done|lia|done].
  - by exists tok, host, v17.
Qed.
End borrow.

(** 20 tokens at a price of 1, against an allowed borrow value of 50. *)
Definition borrow_world : World :=
  Eval vm_compute in
    world_of example_market example_reserve example_obligation
      [(2, 5000000); (60, 0); (7, 0)].
Definition borrow_accounts : list AccountInfo :=
  map account [2; 60; 20; 7; 30; 10; 77] ++ [signer 78; account 3].

Lemma borrow_is_safe_witness :
  exists w' market reserve obligation b ml ml' rl rl' obligation',
    process_borrow_obligation_liquidity (H := example_runtime [] 0) example_program 1000000
      borrow_accounts borrow_world = Ok w' /\
    borrow_contract (R := example_runtime [] 0) (program_id := example_program) 1000000
      (account 2) (account 60) (account 7) (account 10) (account 20) (account 30)
      (account 77) (signer 78) [account 3] borrow_world w' market reserve obligation b
      ml ml' rl rl' obligation'.
Proof.
  assert (Hok : is_ok (process_borrow_obligation_liquidity (H := example_runtime [] 0)
    example_program 1000000 borrow_accounts borrow_world) = true)
    by (vm_compute; reflexivity).
  apply is_ok_true in Hok as [w' H]. exists w'.
  destruct (borrow_is_safe (R := example_runtime [] 0) (program_id := example_program)
    1000000 _ _ _ _ _ _ _ _ _ borrow_world w' H)
    as (_ & market & reserve & obligation & b & ml & ml' & rl & rl' & o & Hc).
  exists market, reserve, obligation, b, ml, ml', rl, rl', o. split; [exact H|exact Hc].
Defined.

(** ** The borrow limit does not count the fee

    The limit is compared with the amount asked for, and the origination fee is
    added to the debt afterwards: the reserve below may lend 96 tokens, is owed 95
    of them, lends one more and ends above its limit. *)

Definition limited_reserve : Reserve :=
  Reserve.set_config example_reserve
    (set_limits (config example_reserve) u64_max 96000000).
Definition limited_world : World :=
  Eval vm_compute in
    world_of example_market limited_reserve example_obligation
      [(2, 5000000); (60, 0); (7, 0)].

(** What the reserve at 20 owes and may owe, in tokens. *)
Definition debt_and_limit (w : World) : result (Z * Z) :=
  let? r := ReserveCodec.unpack_from_slice (data_of w (account 20)) in
  Ok (dec_raw (borrowed_amount_wads (liquidity r)) / WAD, borrow_limit (config r)).

Example borrow_fee_exceeds_limit :
  exists w',
    process_borrow_obligation_liquidity (H := example_runtime [] 0) example_program 1000000
      borrow_accounts limited_world = Ok w' /\
    debt_and_limit limited_world = Ok (95000000, 96000000) /\
    debt_and_limit w' = Ok (96000002, 96000000).
Proof.
  assert (Hok : (let? w' := process_borrow_obligation_liquidity (H := example_runtime [] 0)
    example_program 1000000 borrow_accounts limited_world in debt_and_limit w')
    = Ok (96000002, 96000000)) by (vm_compute; reflexivity).
  apply obind_Ok_inv in Hok as (w' & H & Hd). exists w'. by split_and!.
Qed.
