(* ===== verification/ConfigSpec.v ===== *)
(** Who can change what of a reserve's configuration. *)

From S2P Require Import Prelude Errors Common Rate Decimal Codec LastUpdate.
From S2P Require Import RateLimiter LendingMarket ReserveConfig ReserveConfigSpec.
From S2P Require Import ReserveLiquidity ReserveCollateral Reserve ReserveRates.
From S2P Require Import Runtime Oracles ProcessorHelpers ProcessReserve ProcessConfig.
From S2P Require Import AccountSpec ExampleRuntime.

#[local] Opaque NULL_PUBKEY solend_market_owner_id.

(** The fields only the Solend market owner may change. *)
Definition same_fees (c c' : ReserveConfig) : Prop :=
  fees c' = fees c /\ fee_receiver c' = fee_receiver c /\
  protocol_liquidation_fee c' = protocol_liquidation_fee c /\
  protocol_take_rate c' = protocol_take_rate c.

(** What the accounting of a reserve consists of: no configuration change touches it. *)
Definition same_accounting (r r' : Reserve) : Prop :=
  collateral r' = collateral r /\ Reserve.lending_market r' = Reserve.lending_market r /\
  liquidity r' = set_oracles (liquidity r) (pyth_oracle_pubkey (liquidity r'))
                   (switchboard_oracle_pubkey (liquidity r')).

(** The three roles, and what each leaves behind. *)
Inductive config_update (signer : Pubkey) (market : LendingMarket) (config : ReserveConfig)
    (r r' : Reserve) : Prop :=
  | update_by_owner :
      signer = LendingMarket.owner market ->
      Reserve.config r' = config ->
      (pyth_oracle_pubkey (liquidity r') <> NULL_PUBKEY \/
       switchboard_oracle_pubkey (liquidity r') <> NULL_PUBKEY) ->
      config_update signer market config r r'
  | update_by_risk_authority :
      signer = risk_authority market ->
      liquidity r' = liquidity r ->
      Reserve.config r' =
        set_limits (Reserve.config r)
          (Z.min (deposit_limit config) (deposit_limit (Reserve.config r)))
          (Z.min (borrow_limit config) (borrow_limit (Reserve.config r))) ->
      (Reserve.rate_limiter r' = Reserve.rate_limiter r \/
       max_outflow (RateLimiter.config (Reserve.rate_limiter r')) = 0 /\
       0 < window_duration (RateLimiter.config (Reserve.rate_limiter r'))) ->
      config_update signer market config r r'
  | update_by_solend :
      signer = solend_market_owner_id ->
      liquidity r' = liquidity r -> Reserve.rate_limiter r' = Reserve.rate_limiter r ->
      Reserve.config r' = set_fee_fields (Reserve.config r) config ->
      config_update signer market config r r'.

Lemma set_oracles_same l :
  set_oracles l (pyth_oracle_pubkey l) (switchboard_oracle_pubkey l) = l.
Proof. by destruct l. Qed.

Section config.
Context {R : Runtime} {program_id : Pubkey} {L : RuntimeLaws R program_id}.

Abbreviation holds := (holds (program_id:=program_id)).
Abbreviation saved := (saved (program_id:=program_id)).
Abbreviation keeps_but := (keeps_but (program_id:=program_id)).

Lemma update_as_owner_inv r m c rlc p q s w r' :
  update_as_owner r m c rlc p q s w = Ok r' ->
  Reserve.config r' = c /\ same_accounting r r' /\
  (pyth_oracle_pubkey (liquidity r') <> NULL_PUBKEY \/
   switchboard_oracle_pubkey (liquidity r') <> NULL_PUBKEY).
Proof.
  unfold update_as_owner. intros H. minv H. cbn -[NULL_PUBKEY] in *. split; [done|]. split.
  - by case_bool_decide.
  - destruct (Z.eqb_spec v0 NULL_PUBKEY); cbn -[NULL_PUBKEY] in G; [left; lia|by right].
Qed.

Lemma update_as_risk_authority_inv r m c rlc w r' :
  update_as_risk_authority r c rlc w = r' ->
  same_accounting r r' /\ config_update (risk_authority m) m c r r'.
Proof.
  intros <-. split.
  - unfold update_as_risk_authority, same_accounting. case_match; cbn;
      by rewrite set_oracles_same.
  - apply update_by_risk_authority; unfold update_as_risk_authority; [done|by case_match| |].
    + replace (Reserve.config (if _ && _ then _ else _)) with (Reserve.config r)
        by (by case_match).
      cbn. f_equal; case_match; lia.
    + destruct (_ && _) eqn:Hg; [right|by left]. cbn. lia.
Qed.

(** C15: a reserve's configuration changes only as its signer's role allows.  A
    successful [process_update_reserve_config] was signed by the market's owner,
    by its risk authority, or by the Solend market owner, with a configuration
    that validates; the risk authority can only lower the deposit and borrow
    limits and shut the outflow limiter; fees, their receiver, the protocol
    liquidation fee and the take rate change for nobody but the Solend market
    owner; the reserve's amounts and collateral never change; and the reserve is
    left stale. *)
Theorem update_config_authorized (config : ReserveConfig) (rlc : RateLimiterConfig)
    (res mkt auth sig : AccountInfo) (rest : list AccountInfo) (w w' : World)
    (H : process_update_reserve_config program_id config rlc
           (res :: mkt :: auth :: sig :: rest) w = Ok w') :
  exists reserve market reserve',
    holds w res reserve /\ holds w mkt market /\
    Reserve.lending_market reserve = key mkt /\ is_signer sig = true /\
    validate_reserve_config config = Ok tt /\
    config_update (key sig) market config reserve reserve' /\
    same_accounting reserve reserve' /\
    (key sig <> solend_market_owner_id ->
       same_fees (Reserve.config reserve) (Reserve.config reserve')) /\
    saved (mark_reserve_stale reserve') res w w' /\ keeps_but [key res] w w'.
Proof.
  unfold process_update_reserve_config in H. minv H.
  cbn [with_next next_account_info obind] in H.
  apply with_next_inv in H as (prod & r1 & -> & H).
  apply with_next_inv in H as (price & r2 & -> & H).
  apply with_next_inv in H as (feed & r3 & -> & H). minv H.
  repeat match goal with G : negb (_ =? _) = false |- _ => apply negb_eqb_false in G end.
  destruct (pack_account_saves (program_id:=program_id) _ _ _ _ G H) as [Hs Hk].
  assert (Hfees : key sig <> solend_market_owner_id -> same_fees (Reserve.config v0) config).
  { intros Hne. replace (negb (solend_market_owner_id =? key sig)) with true in * by lia.
    cbn in *. case_bool_decide; [|discriminate]. split_and!; [done|lia..]. }
  set (k := key sig) in *. clearbody k.
  assert (Hcase : config_update k v1 config v0 v3 /\ same_accounting v0 v3 /\
    (k <> solend_market_owner_id ->
       same_fees (Reserve.config v0) (Reserve.config v3))).
  { destruct (Z.eqb_spec k (LendingMarket.owner v1)) as [Ho|_].
    { apply update_as_owner_inv in E3 as (Hc & Ha & Hn).
      split_and!; [by apply update_by_owner|done..|by rewrite Hc]. }
    destruct (Z.eqb_spec k (risk_authority v1)) as [Hr|_].
    { minv E3. destruct (update_as_risk_authority_inv v0 v1 config rlc w _ eq_refl)
        as [Ha Hu]. rewrite Hr at 1. split; [exact Hu|]. split; [exact Ha|]. intros _.
      unfold update_as_risk_authority, same_fees. case_match; cbn; auto. }
    destruct (Z.eqb_spec k solend_market_owner_id) as [Hs2|]; [|discriminate].
    minv E3. split; [by apply update_by_solend|]. split; [|by intros []].
    unfold same_accounting. cbn. rewrite set_oracles_same. auto. }
  destruct Hcase as (Hu & Ha & Hf). exists v0, v1, v3.
  split_and!; auto; [by split|by split|by destruct (is_signer sig)|by destruct v].
Qed.
End config.

(** The risk authority lowers the limits. *)
Definition config_world : World :=
  Eval vm_compute in world_of example_market example_reserve example_obligation [].

Lemma update_config_authorized_witness :
  exists w' reserve market reserve',
    process_update_reserve_config (H := example_runtime [] 0) example_program
      (set_limits test_config 5 6) (mkRateLimiterConfig 1 u64_max)
      [account 20; account 10; account 77; signer 51; account 0; account 3; account 4]
      config_world = Ok w' /\
    config_update 51 market (set_limits test_config 5 6) reserve reserve'.
Proof.
  assert (Hok : is_ok (process_update_reserve_config (H := example_runtime [] 0)
    example_program (set_limits test_config 5 6) (mkRateLimiterConfig 1 u64_max)
      [account 20; account 10; account 77; signer 51; account 0; account 3; account 4]
      config_world) = true) by (vm_compute; reflexivity).
  apply is_ok_true in Hok as [w' H]. exists w'.
  destruct (update_config_authorized (R := example_runtime [] 0)
    (program_id := example_program) _ _ _ _ _ _ _ _ w' H)
    as (reserve & market & reserve' & _ & _ & _ & _ & _ & Hu & _).
  exists reserve, market, reserve'. split; [exact H|exact Hu].
Defined.
