(* ===== verification/FlashSpec.v ===== *)
(** Flash loans: the repayment loop as a structural recursion, and what a
    successful flash borrow guarantees. *)

From S2P Require Import Prelude Errors Common Rate Decimal Codec Nonneg.
From S2P Require Import LastUpdate.
From S2P Require Import RateLimiter LendingMarket ReserveConfig.
From S2P Require Import ReserveLiquidity ReserveCollateral Reserve ReserveCodec Instruction.
From S2P Require Import Runtime ProcessorHelpers ProcessReserve ProcessFlash.
From S2P Require Import AccountSpec ExampleRuntime.

(** ** The loop *)

Section scan.
Context (program_id : Pubkey) (n : Z) (reserve_key : Pubkey) (cur : Z).

(** The same search over the list of the remaining instructions. *)
Fixpoint scan_repays (ixs : list TxInstruction) (found : bool) : result bool :=
  match ixs with
  | [] => Ok found
  | ixn :: ixs =>
      if negb (ix_program_id ixn =? program_id) then scan_repays ixs found
      else
        let? unpacked := Instruction.unpack (ix_data ixn) in
        match unpacked with
        | FlashRepayReserveLiquidity amount borrow_index =>
            reject_if found with lending_error MultipleFlashBorrows then
            let? reserve := unwrap_option (ix_accounts ixn !! 4%nat) in
            reject_if negb (reserve =? reserve_key) with lending_error InvalidFlashRepay then
            reject_if negb (amount =? n) with lending_error InvalidFlashRepay then
            reject_if negb (borrow_index =? cur) with lending_error InvalidFlashRepay then
            scan_repays ixs true
        | FlashBorrowReserveLiquidity _ => fail MultipleFlashBorrows
        | _ => scan_repays ixs found
        end
  end.

(** Neither a flash borrow nor a flash repayment of this program. *)
Definition not_flash (ixn : TxInstruction) : Prop :=
  ix_program_id ixn <> program_id \/
  exists u, Instruction.unpack (ix_data ixn) = Ok u /\
    (forall a, u <> FlashBorrowReserveLiquidity a) /\
    (forall a i, u <> FlashRepayReserveLiquidity a i).

(** The repayment of a loan of [n] from this reserve, borrowed by instruction
    [cur]. *)
Definition repays (ixn : TxInstruction) : Prop :=
  ix_program_id ixn = program_id /\
  Instruction.unpack (ix_data ixn) = Ok (FlashRepayReserveLiquidity n cur) /\
  ix_accounts ixn !! 4%nat = Some reserve_key.

Lemma scan_found ixs b : scan_repays ixs true = Ok b -> b = true /\ Forall not_flash ixs.
Proof.
  induction ixs as [|ixn ixs IH]; simpl; intros H; [by injection H as <-|].
  destruct (Z.eqb_spec (ix_program_id ixn) program_id) as [Hp|Hp]; cbn [negb] in H.
  - minv H. destruct v eqn:Hv; try discriminate; minv H;
      apply IH in H as [-> Hall]; (split; [done|]); constructor; try done;
      right; eexists; (split; [exact E|]); by split.
  - apply IH in H as [-> Hall]. split; [done|]. constructor; [by left|done].
Qed.

Lemma scan_true ixs :
  scan_repays ixs false = Ok true ->
  exists before ixn after, ixs = before ++ ixn :: after /\ repays ixn /\
    Forall not_flash before /\ Forall not_flash after.
Proof.
  induction ixs as [|ixn ixs IH]; simpl; intros H; [discriminate|].
  assert (Hskip : scan_repays ixs false = Ok true -> not_flash ixn ->
    exists before ixn' after, ixn :: ixs = before ++ ixn' :: after /\ repays ixn' /\
      Forall not_flash before /\ Forall not_flash after).
  { intros Hs Hn. destruct (IH Hs) as (b & i & a & -> & Hi & Hb & Ha).
    exists (ixn :: b), i, a. by split_and!; [|..|constructor|]. }
  destruct (Z.eqb_spec (ix_program_id ixn) program_id) as [Hp|Hp]; cbn [negb] in H;
    [|by apply Hskip; [|left]].
  minv H. destruct v eqn:Hv; try discriminate;
    try (apply Hskip; [exact H|]; right; eexists; (split; [exact E|]); by split).
  minv H. apply unwrap_option_Ok_inv in E0.
  repeat match goal with G : negb (_ =? _) = false |- _ => apply negb_eqb_false in G end.
  subst. apply scan_found in H as [_ Hall]. by exists [], ixn, ixs.
Qed.
End scan.

Section loop.
Context `{Runtime} (program_id : Pubkey) (n : Z) (reserve_key : Pubkey) (cur : Z).
Context (sysvar : AccountInfo) (w : World) (ixs : list TxInstruction).
Context (Hsysvar : instructions_sysvar (key sysvar) (get w sysvar) ixs).

(** With fuel for the instructions that remain, the loop is the recursion. *)
Lemma find_flash_repay_scan fuel : forall i found,
  0 <= i -> Z.of_nat (length ixs) - i <= Z.of_nat fuel -> (0 < fuel)%nat ->
  find_flash_repay fuel program_id n reserve_key cur sysvar w i found =
  scan_repays program_id n reserve_key cur (drop (Z.to_nat (i + 1)) ixs) found.
Proof.
  induction fuel as [|fuel IH]; intros i found Hi Hf Hpos; [lia|]. cbn [find_flash_repay].
  unfold load_instruction_at. rewrite (proj2 Hsysvar) by lia.
  destruct (ixs !! Z.to_nat (i + 1)) as [ixn|] eqn:Hx.
  2: { by rewrite drop_ge by (by apply lookup_ge_None in Hx). }
  apply lookup_lt_Some in Hx as Hlt. rewrite (drop_S _ _ _ Hx). cbn [scan_repays].
  replace (S (Z.to_nat (i + 1))) with (Z.to_nat (i + 1 + 1)) by lia.
  assert (Hrec : forall found,
    find_flash_repay fuel program_id n reserve_key cur sysvar w (i + 1) found =
    scan_repays program_id n reserve_key cur (drop (Z.to_nat (i + 1 + 1)) ixs) found)
    by (intros; apply IH; lia).
  destruct (negb _); [apply Hrec|].
  destruct (Instruction.unpack (ix_data ixn)) as [u| |]; [cbn [obind]|done..].
  destruct u; try done; try apply Hrec.
  destruct found; [done|]. destruct (ix_accounts ixn !! 4%nat); [|done]. mred.
  repeat (case_match; [done|]). apply Hrec.
Qed.

Lemma flash_fuel_enough found :
  0 <= cur ->
  find_flash_repay flash_fuel program_id n reserve_key cur sysvar w cur found =
  scan_repays program_id n reserve_key cur (drop (Z.to_nat (cur + 1)) ixs) found.
Proof.
  intros Hcur. destruct Hsysvar as [Hlen _].
  assert (Z.of_nat flash_fuel = 2 ^ 16) by (unfold flash_fuel; by rewrite Z2Nat.id).
  apply find_flash_repay_scan; lia.
Qed.
End loop.

(** ** Refreshing a reserve's interest *)

Section refresh.
Context {R : Runtime} {program_id : Pubkey} {L : RuntimeLaws R program_id}.

Abbreviation holds := (holds (program_id:=program_id)).
Abbreviation saved := (saved (program_id:=program_id)).
Abbreviation keeps_but := (keeps_but (program_id:=program_id)).

(** What [_refresh_reserve_interest] writes. *)
Definition refreshed (r r' : Reserve) (slot : Z) : Prop :=
  exists a, accrue_interest r slot = Ok a /\
    r' = set_last_update a (update_slot (last_update a) slot).

Lemma refresh_interest_inv info w w' :
  _refresh_reserve_interest program_id info w = Ok w' ->
  (exists r r', holds w info r /\ refreshed r r' (current_slot w) /\ saved r' info w w') /\
  keeps_but [key info] w w' /\ owner_of w' info = program_id /\
  (forall i, key i <> key info -> get w' i = get w i) /\
  clock w' = clock w /\ stack_height w' = stack_height w.
Proof.
  unfold _refresh_reserve_interest. intros H. minv H. apply negb_eqb_false in G.
  destruct (pack_account_saves (program_id:=program_id) _ _ _ _ G H) as [Hs Hk].
  destruct (pack_account_inv (program_id:=program_id) _ _ _ _ H)
    as (_ & _ & How & Hget & Hc & Hst).
  split_and!; try done; [|by rewrite How].
  exists v. eexists. split; [by split|]. split; [|exact Hs]. by exists v0.
Qed.

(** ** The contract of a flash borrow *)

Record flash_contract (n cur : Z) (res sysvar : AccountInfo) (ixs : list TxInstruction)
    (w w1 w' : World) (reserve : Reserve) : Prop := {
  (* called at the top level of the transaction, by the program's own instruction *)
  fc_top_level : stack_height w <= TRANSACTION_LEVEL_STACK_HEIGHT;
  fc_current : exists ixn, ixs !! Z.to_nat cur = Some ixn /\ ix_program_id ixn = program_id;
  (* exactly one later instruction repays the loan, and no other is a flash loan *)
  fc_repaid : exists before ixn after,
    drop (Z.to_nat (cur + 1)) ixs = before ++ ixn :: after /\
    repays program_id n (key res) cur ixn /\
    Forall (not_flash program_id) before /\ Forall (not_flash program_id) after;
  (* the reserve, its interest brought up to the slot in [w1], lends [n] *)
  fc_refreshed : _refresh_reserve_interest program_id res w = Ok w1;
  fc_reserve : holds w1 res reserve;
  fc_enabled : flash_loan_fee_wad (fees (config reserve)) <> u64_max;
  fc_liquidity : n <= available_amount (liquidity reserve);
  fc_reserve' :
    saved (mark_reserve_stale (set_liquidity reserve
             (set_amounts (liquidity reserve) (available_amount (liquidity reserve) - n)
                (mkDecimal (dec_raw (borrowed_amount_wads (liquidity reserve)) + WAD * n)))))
      res w1 w';
  fc_frame : keeps_but [key res] w w';
}.

(** C10: a flash loan is repaid in its transaction.  When
    [process_flash_borrow_reserve_liquidity] succeeds, it runs as a top-level
    instruction of the program, flash loans are enabled, and exactly one later
    instruction of the transaction is a flash repayment, of the same amount, to
    the same reserve and naming this very borrow; every other later instruction
    of the program is neither a flash borrow nor a flash repayment.  And whether it
    succeeds or not, the search goes through all the later instructions of the
    transaction: with the fuel it is given, the loop equals a recursion over the list of
    them, wherever the sysvar is as in [w]. *)
Theorem flash_borrow_is_repaid (n cur : Z)
    (src dst res mkt auth sysvar tok : AccountInfo) (rest : list AccountInfo)
    (ixs : list TxInstruction) (w w' : World)
    (Hsysvar : instructions_sysvar (key sysvar) (get w sysvar) ixs)
    (Hforeign : owner_of w sysvar <> program_id)
    (Hcur : load_current_index w sysvar = Ok cur) (Hpos : 0 <= cur) :
  (forall w1 found, get w1 sysvar = get w sysvar ->
     find_flash_repay flash_fuel program_id n (key res) cur sysvar w1 cur found
     = scan_repays program_id n (key res) cur (drop (Z.to_nat (cur + 1)) ixs) found) /\
  (process_flash_borrow_reserve_liquidity program_id n
     (src :: dst :: res :: mkt :: auth :: sysvar :: tok :: rest) w = Ok w' ->
   exists w1 reserve, flash_contract n cur res sysvar ixs w w1 w' reserve).
Proof.
  split.
  { intros w1 found Hget. apply flash_fuel_enough; [by rewrite Hget|done]. }
  intros H.
  unfold process_flash_borrow_reserve_liquidity in H.
  cbn [with_next next_account_info obind] in H. minv H. rename v into w1.
  apply refresh_interest_inv in E as Hr. destruct Hr as (Hr & Hk1 & Ho & Hget & Hclk & Hst).
  assert (Hne : key sysvar <> key res).
  { intros He. apply Hforeign. destruct Hr as (r & _ & [_ Hor] & _).
    rewrite <- Hor. unfold owner_of, get. by rewrite He. }
  unfold _flash_borrow_reserve_liquidity in H. minv H.
  unfold load_current_index in E3. rewrite Hget in E3 by done.
  unfold load_current_index in Hcur. rewrite Hcur in E3. injection E3 as <-.
  assert (Hsv1 : instructions_sysvar (key sysvar) (get w1 sysvar) ixs) by (by rewrite Hget).
  rewrite (flash_fuel_enough program_id n (key res) cur sysvar w1 ixs Hsv1 false Hpos) in E5.
  destruct v4; [|discriminate].
  unfold is_cpi_call, load_instruction_at in E4. rewrite (proj2 Hsv1 cur Hpos) in E4.
  destruct (ixs !! Z.to_nat cur) as [ixn|] eqn:Hixn; [|discriminate]. cbn [obind] in E4.
  destruct (negb (program_id =? ix_program_id ixn)) eqn:Hpid;
    [injection E4 as <-; discriminate|].
  destruct (Z.ltb_spec TRANSACTION_LEVEL_STACK_HEIGHT (stack_height w1));
    [injection E4 as <-; discriminate|].
  apply liq_borrow_inv in E6 as [-> Hliq]. cbn [from_int dec_raw] in *.
  rewrite (Z.mul_comm WAD n), Z.div_mul in * by done. rewrite (Z.mul_comm n WAD) in *.
  apply (transfer_keeps (program_id:=program_id)) in H.
  apply negb_eqb_false in G1.
  destruct (one_write res _ w1 _ w' G1 E7 H) as [Hs Hk].
  exists w1, v0. split; try done.
  - by rewrite <- Hst.
  - exists ixn. split; [done|lia].
  - by apply scan_true.
  - lia.
  - intros i Hi Hn. destruct (Hk1 i Hi Hn) as [Hd Ho1]. destruct (Hk i Ho1 Hn) as [Hd2 Ho2].
    by rewrite Hd2.
Qed.
End refresh.

(** ** A flash loan of one token *)

Definition flash_accounts : list AccountInfo := map account [2; 60; 20; 10; 77; 8; 3].
Definition flash_transaction : list TxInstruction :=
  Eval vm_compute in
    [mkTxInstruction example_program (key <$> flash_accounts)
       (Instruction.pack (FlashBorrowReserveLiquidity 1000000));
     mkTxInstruction 99 [] [];
     mkTxInstruction example_program [60; 2; 7; 61; 20; 10; 62; 8; 3]
       (Instruction.pack (FlashRepayReserveLiquidity 1000000 0))].
Definition flash_world : World :=
  Eval vm_compute in
    world_of example_market example_reserve example_obligation
      [(2, 5000000); (60, 0); (7, 0)].

Lemma flash_borrow_is_repaid_witness :
  exists w' w1 reserve,
    process_flash_borrow_reserve_liquidity (H := example_runtime flash_transaction 0)
      example_program 1000000 flash_accounts flash_world = Ok w' /\
    flash_contract (R := example_runtime flash_transaction 0)
      (program_id := example_program) 1000000 0 (account 20) (account 8) flash_transaction
      flash_world w1 w' reserve /\
    find_flash_repay (H := example_runtime flash_transaction 0) flash_fuel example_program
      1000000 20 0 (account 8) flash_world 0 false
      = scan_repays example_program 1000000 20 0 (drop 1 flash_transaction) false.
Proof.
  assert (Hok : is_ok (process_flash_borrow_reserve_liquidity
    (H := example_runtime flash_transaction 0) example_program 1000000 flash_accounts
    flash_world) = true) by (vm_compute; reflexivity).
  apply is_ok_true in Hok as [w' H]. exists w'.
  assert (Hs : instructions_sysvar (H := example_runtime flash_transaction 0) 8
    (get flash_world (account 8)) flash_transaction) by (split; [done|by intros i _]).
  destruct (flash_borrow_is_repaid (R := example_runtime flash_transaction 0)
    (program_id := example_program) 1000000 0 (account 2) (account 60) (account 20)
    (account 10) (account 77) (account 8) (account 3) [] flash_transaction flash_world w'
    Hs ltac:(vm_compute; discriminate) eq_refl ltac:(lia)) as [Hscan Hcontract].
  destruct (Hcontract H) as (w1 & reserve & Hc).
  exists w1, reserve. split; [exact H|]. split; [exact Hc|exact (Hscan flash_world false eq_refl)].
Defined.
