(* ===== verification/RefreshSpec.v ===== *)
(** What refreshing an obligation computes. *)

From S2P Require Import Prelude Errors Common Rate Decimal Codec Nonneg.
From S2P Require Import LastUpdate.
From S2P Require Import RateLimiter LendingMarket ReserveConfig.
From S2P Require Import ObligationCollateral ObligationLiquidity Obligation ObligationSpec.
From S2P Require Import ReserveLiquidity ReserveCollateral Reserve ReserveCodec.
From S2P Require Import Runtime ProcessorHelpers ProcessObligation.
From S2P Require Import AccountSpec ExampleRuntime.

(** ** The values of one position *)

Record DepositValue : Type := mkDepositValue {
  dv_market : Decimal;
  dv_allowed : Decimal;
  dv_unhealthy : Decimal;
  dv_super_unhealthy : Decimal;
}.

(** The worth of a deposit, and what it lets its owner borrow: the market value
    of the liquidity it redeems for, weighted by the ratios of its reserve; the
    allowed value at the lower of the two prices. *)
Definition deposit_value (r : Reserve) (c : ObligationCollateral) : result DepositValue :=
  let? rate := collateral_exchange_rate r in
  let? amount := decimal_collateral_to_liquidity rate (from_int (deposited_amount c)) in
  let? mv := market_value r amount in
  let? lower := market_value_lower_bound r amount in
  let? allowed :=
    try_mul lower (Rate.from_percent (ReserveConfig.loan_to_value_ratio (config r))) in
  let? unhealthy := try_mul mv (Rate.from_percent (liquidation_threshold (config r))) in
  let? super :=
    try_mul mv (Rate.from_percent (max_liquidation_threshold (config r))) in
  Ok (mkDepositValue mv allowed unhealthy super).

Record BorrowValue : Type := mkBorrowValue {
  bv_liquidity : ObligationLiquidity;
  bv_weighted : Decimal;
  bv_weighted_upper : Decimal;
}.

(** A borrow with its interest accrued and its market value, and its values
    weighted by the risk of its reserve. *)
Definition borrow_value (r : Reserve) (l : ObligationLiquidity) : result BorrowValue :=
  let? l :=
    ObligationLiquidity.accrue_interest l
      (ReserveLiquidity.cumulative_borrow_rate_wads (liquidity r)) in
  let amount := ObligationLiquidity.borrowed_amount_wads l in
  let? mv := market_value r amount in
  let? upper := market_value_upper_bound r amount in
  let? weight := borrow_weight r in
  let? weighted := try_mul mv weight in
  let? weighted_upper := try_mul upper weight in
  Ok (mkBorrowValue (ObligationLiquidity.set_market_value l mv) weighted weighted_upper).

Definition raw_by {A : Type} (f : A -> Decimal) : list A -> Z := sum_by (fun x => dec_raw (f x)).

(** ** The loops are sums *)

Lemma refresh_deposit_value r c t c' t' :
  refresh_deposit r c t = Ok (c', t') ->
  exists v, deposit_value r c = Ok v /\
    c' = ObligationCollateral.set_market_value c (dv_market v) /\
    dec_raw (sum_deposited t') = dec_raw (sum_deposited t) + dec_raw (dv_market v) /\
    dec_raw (sum_allowed t') = dec_raw (sum_allowed t) + dec_raw (dv_allowed v) /\
    dec_raw (sum_unhealthy t') = dec_raw (sum_unhealthy t) + dec_raw (dv_unhealthy v) /\
    dec_raw (sum_super_unhealthy t')
      = dec_raw (sum_super_unhealthy t) + dec_raw (dv_super_unhealthy v).
Proof.
  unfold refresh_deposit, deposit_value. intros H. minv H.
  rewrite E. cbn [obind]. rewrite E0. cbn [obind]. rewrite E1. cbn [obind]. rewrite E2.
  cbn [obind]. rewrite E4. cbn [obind]. rewrite E6. cbn [obind]. rewrite E8. cbn [obind].
  eexists. split; [done|].
  apply dec_add_inv in E3 as [? _], E5 as [? _], E7 as [? _], E9 as [? _]. done.
Qed.

Lemma refresh_borrow_value k r i l t l' t' :
  refresh_borrow k r i l t = Ok (l', t') ->
  exists v, borrow_value r l = Ok v /\ l' = bv_liquidity v /\
    dec_raw (sum_borrowed t') = dec_raw (sum_borrowed t) + dec_raw (bv_weighted v) /\
    dec_raw (sum_borrowed_upper t')
      = dec_raw (sum_borrowed_upper t) + dec_raw (bv_weighted_upper v) /\
    any_isolated t' = any_isolated t || bool_decide (reserve_type (config r) = Isolated) /\
    max_borrow_weight t' =
      max_weight_step (max_borrow_weight t)
        (ObligationLiquidity.borrowed_amount_wads l')
        (added_borrow_weight_bps (config r), k) i /\
    borrow_reserve l' = borrow_reserve l.
Proof.
  unfold refresh_borrow, borrow_value. intros H. minv H.
  rewrite E. cbn [obind]. rewrite E0. cbn [obind]. rewrite E1. cbn [obind]. rewrite E2.
  cbn [obind]. rewrite E3. cbn [obind]. rewrite E5. cbn [obind].
  eexists. split; [done|]. apply accrue_interest_key in E.
  apply dec_add_inv in E4 as [? _], E6 as [? _]. done.
Qed.

(** ** The borrow with the largest weight *)

(** A borrow with its reserve: amount, and weight with the key to break ties. *)
Definition entry : Type := (Reserve * BorrowValue)%type.
Definition entry_liquidity (e : entry) : ObligationLiquidity := bv_liquidity e.2.
Definition entry_amount (e : entry) : Decimal :=
  ObligationLiquidity.borrowed_amount_wads (entry_liquidity e).
Definition entry_weight (e : entry) : Z * Pubkey :=
  (added_borrow_weight_bps (config e.1), borrow_reserve (entry_liquidity e)).
Definition entry_live (e : entry) : bool := dec_lt Decimal.zero (entry_amount e).

Fixpoint max_over (idx : nat) (es : list entry) (m : MaxBorrowWeight) : MaxBorrowWeight :=
  match es with
  | [] => m
  | e :: es => max_over (S idx) es (max_weight_step m (entry_amount e) (entry_weight e) idx)
  end.

Definition heaviest (es : list entry) (m : MaxBorrowWeight) : Prop :=
  match m with
  | None => Forall (fun e => entry_live e = false) es
  | Some (wk, i) =>
      (exists e, es !! i = Some e /\ entry_live e = true /\ entry_weight e = wk) /\
      Forall (fun e => entry_live e = true -> weight_gt (entry_weight e) wk = false) es
  end.

Lemma weight_gt_irrefl a : weight_gt a a = false.
Proof. unfold weight_gt. lia. Qed.

Lemma weight_gt_trans a b c :
  weight_gt a b = false -> weight_gt c b = true -> weight_gt a c = false.
Proof. unfold weight_gt. lia. Qed.

Lemma heaviest_step es m e :
  heaviest es m ->
  heaviest (es ++ [e]) (max_weight_step m (entry_amount e) (entry_weight e) (length es)).
Proof.
  unfold heaviest, max_weight_step. fold (entry_live e). intros H.
  assert (Hlast : (es ++ [e]) !! length es = Some e) by (by apply list_lookup_middle).
  destruct m as [[wk i]|].
  - destruct H as [(e0 & He0 & Hl0 & Hw0) Hall].
    destruct (entry_live e && weight_gt (entry_weight e) wk) eqn:Hg.
    + apply andb_true_iff in Hg as [Hl Hg]. split; [by exists e|].
      apply list.Forall_app. split; [|by repeat constructor; rewrite weight_gt_irrefl].
      eapply list.Forall_impl; [exact Hall|]. intros x Hx Hlx. simpl in Hx.
      eapply weight_gt_trans; [by apply Hx|done].
    + split; [exists e0; split; [by apply lookup_app_l_Some|done]|].
      apply list.Forall_app. split; [done|]. repeat constructor. intros Hl.
      by rewrite Hl in Hg.
  - destruct (entry_live e) eqn:Hl.
    + split; [by exists e|]. apply list.Forall_app. split.
      * eapply list.Forall_impl; [exact H|]. intros x Hx Hlx. simpl in Hx. congruence.
      * repeat constructor. by rewrite weight_gt_irrefl.
    + apply list.Forall_app. split; [done|]. by repeat constructor.
Qed.

Lemma max_over_heaviest es : forall before m,
  heaviest before m -> heaviest (before ++ es) (max_over (length before) es m).
Proof.
  induction es as [|e es IH]; intros before m H; simpl; [by rewrite app_nil_r|].
  apply (heaviest_step _ _ e) in H. apply IH in H.
  rewrite <- app_assoc, length_app in H. simpl in H. by rewrite Nat.add_1_r in H.
Qed.

(** ** The loops *)

Section loops.
Context {R : Runtime} {program_id : Pubkey} {L : RuntimeLaws R program_id} (w : World).

Abbreviation holds := (holds (program_id:=program_id)).

(** Account [info] is the reserve [r], expected at [k] and refreshed in this slot. *)
Definition loaded (info : AccountInfo) (k : Pubkey) (r : Reserve) : Prop :=
  holds w info r /\ key info = k /\ fresh (Reserve.last_update r) w.

Lemma load_fresh_reserve_inv info k r :
  load_fresh_reserve program_id w info k = Ok r -> loaded info k r.
Proof.
  unfold load_fresh_reserve. intros H. minv H.
  repeat match goal with G : negb (_ =? _) = false |- _ => apply negb_eqb_false in G end.
  split; [by split|]. split; [done|]. by eapply not_stale_fresh.
Qed.

Definition deposit_loaded (info : AccountInfo) (d : ObligationCollateral) (v : DepositValue)
    : Prop :=
  exists r, loaded info (deposit_reserve d) r /\ deposit_value r d = Ok v.
Definition borrow_loaded (info : AccountInfo) (b : ObligationLiquidity) (e : entry) : Prop :=
  loaded info (borrow_reserve b) e.1 /\ borrow_value e.1 b = Ok e.2 /\
  borrow_reserve (entry_liquidity e) = borrow_reserve b.

Definition revalue (d : ObligationCollateral) (v : DepositValue) : ObligationCollateral :=
  ObligationCollateral.set_market_value d (dv_market v).

Lemma refresh_deposits_sums ds : forall accounts t rest ds' t',
  refresh_deposits program_id w accounts ds t = Ok (rest, ds', t') ->
  exists infos vs, accounts = infos ++ rest /\ Forall3 deposit_loaded infos ds vs /\
    ds' = zip_with revalue ds vs /\
    dec_raw (sum_deposited t') = dec_raw (sum_deposited t) + raw_by dv_market vs /\
    dec_raw (sum_allowed t') = dec_raw (sum_allowed t) + raw_by dv_allowed vs /\
    dec_raw (sum_unhealthy t') = dec_raw (sum_unhealthy t) + raw_by dv_unhealthy vs /\
    dec_raw (sum_super_unhealthy t')
      = dec_raw (sum_super_unhealthy t) + raw_by dv_super_unhealthy vs.
Proof.
  induction ds as [|d ds IH]; intros accounts t rest ds' t' H; cbn [refresh_deposits] in H.
  - minv H. subst. exists [], []. unfold raw_by. simpl. split_and!; try done; [constructor|lia..].
  - apply with_next_inv in H as (info & accs & -> & H). minv H. subst.
    apply load_fresh_reserve_inv in E.
    apply refresh_deposit_value in E0 as (x & Hv & -> & H1 & H2 & H3 & H4).
    apply IH in E1 as (infos & vs & -> & Hall & -> & H1' & H2' & H3' & H4').
    exists (info :: infos), (x :: vs). unfold raw_by in *. simpl.
    split_and!; try done; [by constructor; [eexists|]|lia..].
Qed.

Lemma refresh_borrows_sums bs : forall accounts i t rest bs' t',
  refresh_borrows program_id w accounts i bs t = Ok (rest, bs', t') ->
  exists infos es, accounts = infos ++ rest /\ Forall3 borrow_loaded infos bs es /\
    bs' = entry_liquidity <$> es /\
    dec_raw (sum_borrowed t') = dec_raw (sum_borrowed t) + raw_by (fun e => bv_weighted e.2) es /\
    dec_raw (sum_borrowed_upper t')
      = dec_raw (sum_borrowed_upper t) + raw_by (fun e => bv_weighted_upper e.2) es /\
    any_isolated t' =
      any_isolated t || existsb (fun e => bool_decide (reserve_type (config e.1) = Isolated)) es /\
    max_borrow_weight t' = max_over i es (max_borrow_weight t).
Proof.
  induction bs as [|b bs IH]; intros accounts i t rest bs' t' H; cbn [refresh_borrows] in H.
  - minv H. subst. exists [], []. unfold raw_by. simpl.
    split_and!; try done; [constructor|lia..|by rewrite orb_false_r].
  - apply with_next_inv in H as (info & accs & -> & H). minv H. subst.
    apply load_fresh_reserve_inv in E as Hr. destruct Hr as (Hr1 & Hk & Hf).
    apply refresh_borrow_value in E0 as (x & Hv & -> & H1 & H2 & H3 & H4 & Hkey).
    apply IH in E1 as (infos & es & -> & Hall & -> & H1' & H2' & H3' & H4').
    exists (info :: infos), ((v, x) :: es). unfold raw_by in *. simpl.
    split_and!; try done; [constructor; [by split|done]|lia..| |].
    + by rewrite H3', H3, orb_assoc.
    + rewrite H4', H4. unfold entry_amount, entry_weight, entry_liquidity. simpl.
      by rewrite Hkey, <- Hk.
Qed.
End loops.

(** ** Moving the heaviest borrow to the front *)

Lemma swap_to_front_perm {A : Type} i (l l' : list A) :
  swap_to_front i l = Ok l' -> l' ≡ₚ l /\ exists x, l !! i = Some x /\ l' !! 0%nat = Some x.
Proof.
  unfold swap_to_front. intros H. minv H.
  apply unwrap_option_Ok_inv in E. apply unwrap_option_Ok_inv in E0.
  split; [by apply Permutation_insert_swap|]. exists v0. split; [done|].
  destruct l as [|a l]; [done|]. simpl in E. injection E as ->.
  destruct i as [|i]; simpl in *; congruence.
Qed.

Section filters.
Context {A B : Type} (f : A -> B) (p : A -> bool).

Lemma elem_of_fmap_filter l y : y ∈ f <$> List.filter p l -> y ∈ f <$> l.
Proof.
  intros (x & -> & Hx)%list_elem_of_fmap. apply list_elem_of_fmap. exists x. split; [done|].
  apply list_elem_of_In. apply list_elem_of_In, filter_In in Hx. tauto.
Qed.

Lemma NoDup_fmap_filter l : NoDup (f <$> l) -> NoDup (f <$> List.filter p l).
Proof.
  induction l as [|x l IH]; simpl; [done|]. intros [Hx Hl]%list.NoDup_cons.
  destruct (p x); simpl; [|by apply IH]. apply list.NoDup_cons. split; [|by apply IH].
  intros Hin. by apply Hx, elem_of_fmap_filter.
Qed.

Lemma length_filter_le l : (length (List.filter p l) <= length l)%nat.
Proof. induction l as [|x l IH]; simpl; [lia|]. destruct (p x); simpl; lia. Qed.

Lemma filter_head l x : l !! 0%nat = Some x -> p x = true ->
  List.filter p l !! 0%nat = Some x.
Proof. destruct l as [|y l]; simpl; [done|]. intros [= ->] ->. done. Qed.

Lemma filter_perm l l' : l ≡ₚ l' -> List.filter p l ≡ₚ List.filter p l'.
Proof.
  induction 1; simpl; [done|..]; repeat case_match; try done.
  - by constructor.
  - constructor.
  - by etrans.
Qed.
End filters.

(** ** The contract of a refresh *)

Section refresh.
Context {R : Runtime} {program_id : Pubkey} {L : RuntimeLaws R program_id}.

Abbreviation holds := (holds (program_id:=program_id)).
Abbreviation saved := (saved (program_id:=program_id)).
Abbreviation keeps_but := (keeps_but (program_id:=program_id)).

Definition live_deposit (c : ObligationCollateral) : bool := 0 <? deposited_amount c.
Definition live_borrow (l : ObligationLiquidity) : bool :=
  dec_lt Decimal.zero (ObligationLiquidity.borrowed_amount_wads l).

Record refreshed_positions (o o' : Obligation) (slot : Z) (vs : list DepositValue)
    (es : list entry) : Prop := {
  rp_identity : Obligation.owner o' = Obligation.owner o /\
    Obligation.lending_market o' = Obligation.lending_market o /\
    Obligation.version o' = Obligation.version o;
  rp_fresh : Obligation.last_update o' = mkLastUpdate slot false;
  rp_deposited : dec_raw (deposited_value o') = raw_by dv_market vs;
  rp_borrowed : dec_raw (borrowed_value o') = raw_by (fun e => bv_weighted e.2) es;
  rp_upper :
    dec_raw (borrowed_value_upper_bound o') = raw_by (fun e => bv_weighted_upper e.2) es;
  rp_allowed :
    dec_raw (allowed_borrow_value o') = Z.min (raw_by dv_allowed vs) (WAD * 65000000);
  rp_unhealthy :
    dec_raw (unhealthy_borrow_value o') = Z.min (raw_by dv_unhealthy vs) (WAD * 70000000);
  rp_super_unhealthy :
    dec_raw (super_unhealthy_borrow_value o')
      = Z.min (raw_by dv_super_unhealthy vs) (WAD * 70000000);
  rp_isolated : borrowing_isolated_asset o' =
    existsb (fun e => bool_decide (reserve_type (config e.1) = Isolated)) es;
  (* emptied positions go, the others keep their reserves *)
  rp_deposits : deposits o' = List.filter live_deposit (zip_with revalue (deposits o) vs);
  rp_borrows : borrows o' ≡ₚ List.filter live_borrow (entry_liquidity <$> es);
  rp_positions : positions_ok o -> positions_ok o';
  (* the first borrow is one of the largest weight *)
  rp_heaviest : forall h, borrows o' !! 0%nat = Some h ->
    exists e, e ∈ es /\ entry_liquidity e = h /\
      Forall (fun e' => entry_live e' = true ->
                weight_gt (entry_weight e') (entry_weight e) = false) es;
}.

Lemma refreshed_obligation_borrows o slot ds td bs tb o' es :
  refreshed_obligation o slot ds td bs tb = Ok o' ->
  bs = entry_liquidity <$> es -> max_borrow_weight tb = max_over 0 es None ->
  borrows o' ≡ₚ List.filter live_borrow bs /\
  (forall h, borrows o' !! 0%nat = Some h ->
    exists e, e ∈ es /\ entry_liquidity e = h /\
      Forall (fun e' => entry_live e' = true ->
                weight_gt (entry_weight e') (entry_weight e) = false) es).
Proof.
  unfold refreshed_obligation. intros H -> Hmax. minv H. cbn [borrows].
  fold live_borrow. pose proof (max_over_heaviest es [] None) as Hh.
  specialize (Hh ltac:(by constructor)). cbn [length app] in Hh. rewrite <- Hmax in Hh.
  destruct (max_borrow_weight tb) as [[wk i]|].
  - apply swap_to_front_perm in E as (Hp & x & Hx & H0). split; [by apply filter_perm|].
    destruct Hh as [(e & He & Hl & Hw) Hall].
    rewrite list_lookup_fmap, He in Hx. injection Hx as <-.
    intros h Hh. rewrite (filter_head live_borrow v (entry_liquidity e)) in Hh by done.
    injection Hh as <-. exists e. split_and!; [by eapply list_elem_of_lookup_2|done|].
    by rewrite Hw.
  - minv E. split; [done|]. intros h Hin%list_elem_of_lookup_2.
    apply list_elem_of_In, filter_In in Hin as [Hin Hlive].
    apply list_elem_of_In, list_elem_of_fmap in Hin as (e & -> & He).
    simpl in Hh. pose proof (proj1 (list.Forall_forall _ _) Hh e He) as Hd. simpl in Hd.
    change (entry_live e = true) in Hlive. congruence.
Qed.

Lemma zip_revalue_keys {R0 : Type} (P : R0 -> ObligationCollateral -> DepositValue -> Prop)
    infos ds vs :
  Forall3 P infos ds vs -> deposit_reserve <$> zip_with revalue ds vs = deposit_reserve <$> ds.
Proof. induction 1; simpl; [done|]. f_equal. done. Qed.

Lemma entry_keys w infos bs es :
  Forall3 (borrow_loaded (program_id:=program_id) w) infos bs es ->
  borrow_reserve <$> (entry_liquidity <$> es) = borrow_reserve <$> bs.
Proof. induction 1 as [|????? ? (_ & _ & Hk)]; simpl; [done|]. by f_equal. Qed.

Lemma filtered_positions o o' ds bs :
  deposit_reserve <$> ds = deposit_keys o -> borrow_reserve <$> bs = borrow_keys o ->
  deposits o' = List.filter live_deposit ds -> borrows o' ≡ₚ List.filter live_borrow bs ->
  positions_ok o -> positions_ok o'.
Proof.
  intros Hdk Hbk Hd Hb [Hnd Hnb Hlen].
  apply (f_equal length) in Hdk as Hdl. apply (f_equal length) in Hbk as Hbl.
  unfold deposit_keys, borrow_keys in *. rewrite !length_fmap in Hdl. rewrite !length_fmap in Hbl. split.
  - unfold deposit_keys. rewrite Hd. apply NoDup_fmap_filter. by rewrite Hdk.
  - unfold borrow_keys. rewrite Hb. apply NoDup_fmap_filter. by rewrite Hbk.
  - rewrite Hd, Hb. pose proof (length_filter_le live_deposit ds).
    pose proof (length_filter_le live_borrow bs). lia.
Qed.

Lemma refresh_obligation_holds (obl : AccountInfo) (rest : list AccountInfo) (w w' : World)
    (H : process_refresh_obligation program_id (obl :: rest) w = Ok w') :
  exists o o' dinfos binfos vs es,
    skip_clock rest = dinfos ++ binfos /\ holds w obl o /\
    Forall3 (deposit_loaded (program_id:=program_id) w) dinfos (deposits o) vs /\
    Forall3 (borrow_loaded (program_id:=program_id) w) binfos (borrows o) es /\
    refreshed_positions o o' (current_slot w) vs es /\
    saved o' obl w w' /\ keeps_but [key obl] w w'.
Proof.
  unfold process_refresh_obligation in H. cbn [with_next next_account_info obind] in H.
  minv H. apply negb_eqb_false in G.
  apply refresh_deposits_sums in E0 as (dinfos & vs & Hd & Hds & -> & H1 & H2 & H3 & H4).
  apply refresh_borrows_sums in E1 as (binfos & es & -> & Hes & -> & H5 & H6 & H7 & H8).
  match type of G0 with negb (length ?l =? 0)%nat = _ =>
    destruct (Nat.eqb_spec (length l) 0) as [Hl|]; [|discriminate] end.
  apply nil_length_inv in Hl as ->. rewrite app_nil_r in Hd.
  destruct (pack_account_saves (program_id:=program_id) _ _ _ _ G H) as [Hs Hk].
  destruct (refreshed_obligation_borrows _ _ _ _ _ _ _ es E2 eq_refl H8) as [Hb Hmax].
  exists v, v0, dinfos, binfos, vs, es. split_and!; try done.
  cbn [sum_deposited sum_allowed sum_unhealthy sum_super_unhealthy sum_borrowed
    sum_borrowed_upper any_isolated Decimal.zero dec_raw] in *.
  unfold refreshed_obligation in E2. minv E2.
  split; try done; try (cbn; rewrite ?dec_min_raw; cbn; lia).
  apply (filtered_positions _ _ (zip_with revalue (deposits v) vs) (entry_liquidity <$> es)).
  - by eapply zip_revalue_keys.
  - by eapply entry_keys.
  - done.
  - exact Hb.
Qed.

(** C3: refreshing an obligation computes its values from its reserves.  When
    [process_refresh_obligation] succeeds, the accounts passed are exactly the
    reserves of its deposits and borrows in order, all refreshed in this slot;
    the obligation's deposited, borrowed, allowed and unhealthy values become the
    sums over its positions (the latter two capped), interest is accrued on its
    borrows, emptied positions are dropped, and the borrow that is left at the
    front has the largest borrow weight of all; the position invariant is kept,
    and no other account changes. *)
Theorem refresh_obligation_exact (obl : AccountInfo) (rest : list AccountInfo) (w w' : World)
    (H : process_refresh_obligation program_id (obl :: rest) w = Ok w') :
  exists o o' dinfos binfos vs es,
    skip_clock rest = dinfos ++ binfos /\ holds w obl o /\
    Forall3 (deposit_loaded (program_id:=program_id) w) dinfos (deposits o) vs /\
    Forall3 (borrow_loaded (program_id:=program_id) w) binfos (borrows o) es /\
    refreshed_positions o o' (current_slot w) vs es /\
    saved o' obl w w' /\ keeps_but [key obl] w w'.
Proof. by apply refresh_obligation_holds. Qed.
End refresh.

(** One deposit and one borrow, both of the reserve at 20. *)
Definition refresh_example : Obligation :=
  mkObligation 1 (mkLastUpdate 6 true) 10 78
    [mkObligationCollateral 20 90000000 (from_int 90)]
    [mkObligationLiquidity 20 Decimal.one (from_int 60000000) (from_int 60)]
    Decimal.zero Decimal.zero Decimal.zero Decimal.zero Decimal.zero Decimal.zero false.
Definition refresh_world : World :=
  Eval vm_compute in world_of example_market example_reserve refresh_example [].

Lemma refresh_obligation_exact_witness :
  exists w' o o' vs es,
    process_refresh_obligation (H := example_runtime [] 0) example_program
      [account 30; account 20; account 20] refresh_world = Ok w' /\
    refreshed_positions o o' 7 vs es.
Proof.
  assert (Hok : is_ok (process_refresh_obligation (H := example_runtime [] 0)
    example_program [account 30; account 20; account 20] refresh_world) = true)
    by (vm_compute; reflexivity).
  apply is_ok_true in Hok as [w' H]. exists w'.
  destruct (refresh_obligation_exact (R := example_runtime [] 0)
    (program_id := example_program) (account 30) [account 20; account 20] refresh_world w' H)
    as (o & o' & _ & _ & vs & es & _ & _ & _ & _ & Hp & _).
  exists o, o', vs, es. split; [exact H|exact Hp].
Defined.
