(* ===== verification/Frames.v ===== *)
(** Which accounts a handler writes to: every account of the program whose key is
    not listed holds the same bytes afterwards, on every successful path. *)

From S2P Require Import Prelude Errors Common Rate Decimal Codec LastUpdate.
From S2P Require Import RateLimiter LendingMarket ReserveConfig.
From S2P Require Import ReserveLiquidity ReserveCollateral Reserve Obligation.
From S2P Require Import Runtime ProcessorHelpers ProcessMarket ProcessReserve ProcessDeposit.
From S2P Require Import ProcessConfig ProcessObligation ProcessCollateral ProcessBorrow.
From S2P Require Import ProcessLiquidation ProcessFlash AccountSpec.

Section frames.
Context {R : Runtime} {program_id : Pubkey} {L : RuntimeLaws R program_id}.
Implicit Types (w : World) (ks : list Pubkey).

Abbreviation keeps_but := (keeps_but (program_id:=program_id)).

Lemma keeps_weaken ks ks' w w' : ks ⊆ ks' -> keeps_but ks w w' -> keeps_but ks' w w'.
Proof. intros Hs H i Ho Hk. apply H; [done|]. intros Hin. by apply Hk, Hs. Qed.

Lemma keeps_seq ks w w1 w2 : keeps_but ks w w1 -> keeps_but ks w1 w2 -> keeps_but ks w w2.
Proof.
  intros H1 H2. eapply keeps_weaken; [|by eapply keeps_trans].
  intros k. rewrite elem_of_app. tauto.
Qed.

Lemma keeps_none ks w w' : keeps_but [] w w' -> keeps_but ks w w'.
Proof. apply keeps_weaken. intros k []%not_elem_of_nil. Qed.

Lemma pack_keeps `{P : PackTrait T} (v : T) info ks w w' :
  pack_account v info w = Ok w' -> key info ∈ ks -> keeps_but ks w w'.
Proof.
  intros H Hin. apply (pack_account_inv (program_id:=program_id)) in H
    as (_ & _ & How & Hget & _).
  intros i Hi Hk. rewrite How. split; [|done]. unfold data_of. rewrite Hget; congruence.
Qed.

Lemma init_account_keeps ks a m o r t w w' :
  spl_token_init_account a m o r t w = Ok w' -> keeps_but ks w w'.
Proof.
  unfold spl_token_init_account. intros H. minv H. apply map_err_Ok_inv in H.
  eapply keeps_none, invoke_keeps; [|exact H]. apply token_program_foreign. by destruct v.
Qed.

Lemma init_mint_keeps ks m r a n t w w' :
  spl_token_init_mint m r a n t w = Ok w' -> keeps_but ks w w'.
Proof.
  unfold spl_token_init_mint. intros H. minv H. apply map_err_Ok_inv in H.
  eapply keeps_none, invoke_keeps; [|exact H]. apply token_program_foreign. by destruct v.
Qed.
End frames.

(** A key in a list that names it. *)
Ltac in_keys :=
  cbn [key];
  repeat first [assumption | apply list_elem_of_here | apply list_elem_of_further].

Create HintDb frames discriminated.
#[export] Hint Resolve init_account_keeps init_mint_keeps : frames.
#[export] Hint Extern 1 (_ ∈ _) => in_keys : frames.

(** From the last world to the first: a write to a listed account, a token call
    or a handler whose frame is known. *)
Ltac frame :=
  lazymatch goal with
  | |- keeps_but _ ?w ?w => apply keeps_refl
  | H : @pack_account _ _ ?P _ ?i _ = Ok ?w2 |- keeps_but _ _ ?w2 =>
      eapply keeps_seq; [|eapply (pack_keeps (P:=P)); [exact H|in_keys]]; frame
  | H : spl_token_transfer _ _ _ _ _ _ _ = Ok ?w2 |- keeps_but _ _ ?w2 =>
      eapply keeps_seq; [|eapply keeps_none, transfer_keeps; exact H]; frame
  | H : spl_token_mint_to _ _ _ _ _ _ _ = Ok ?w2 |- keeps_but _ _ ?w2 =>
      eapply keeps_seq; [|eapply keeps_none, mint_to_keeps; exact H]; frame
  | H : spl_token_burn _ _ _ _ _ _ _ = Ok ?w2 |- keeps_but _ _ ?w2 =>
      eapply keeps_seq; [|eapply keeps_none, burn_keeps; exact H]; frame
  | H : _ = Ok ?w2 |- keeps_but _ _ ?w2 => frame_by
  | H : _ = Ok (?w2, _) |- keeps_but _ _ ?w2 => frame_by
  end
with frame_by :=
  eapply keeps_seq; cycle 1; [solve [eauto 3 with frames]|frame].

Section handlers.
Context {R : Runtime} {program_id : Pubkey} {L : RuntimeLaws R program_id}.
Implicit Types (w : World) (ks : list Pubkey).

Abbreviation keeps_but := (keeps_but (program_id:=program_id)).

Lemma refresh_interest_keeps i ks w w' :
  _refresh_reserve_interest program_id i w = Ok w' -> key i ∈ ks -> keeps_but ks w w'.
Proof. unfold _refresh_reserve_interest. intros H Hi. minv H. frame. Qed.

Lemma mark_stale_keeps i ks w w' :
  mark_stale_in_account i w = Ok w' -> key i ∈ ks -> keeps_but ks w w'.
Proof. unfold mark_stale_in_account. intros H Hi. minv H. frame. Qed.

#[local] Hint Resolve refresh_interest_keeps mark_stale_keeps : frames.

Lemma refresh_reserve_keeps i p o ks w w' :
  _refresh_reserve program_id i p o w = Ok w' -> key i ∈ ks -> keeps_but ks w w'.
Proof. unfold _refresh_reserve. intros H Hi. minv H. frame. Qed.

Lemma deposit_liquidity_keeps n a1 a2 res a4 a5 a6 a7 a8 a9 ks w w' c :
  _deposit_reserve_liquidity program_id n a1 a2 res a4 a5 a6 a7 a8 a9 w = Ok (w', c) ->
  key res ∈ ks -> keeps_but ks w w'.
Proof. unfold _deposit_reserve_liquidity. intros H Hi. minv H. frame. Qed.

Lemma redeem_collateral_keeps n a1 a2 res a4 a5 mkt a7 a8 a9 b ks w w' c :
  _redeem_reserve_collateral program_id n a1 a2 res a4 a5 mkt a7 a8 a9 b w = Ok (w', c) ->
  key res ∈ ks -> key mkt ∈ ks -> keeps_but ks w w'.
Proof. unfold _redeem_reserve_collateral. intros H Hi Hj. minv H. frame. Qed.

Lemma deposit_collateral_keeps n a1 a2 a3 ob a5 a6 a7 a8 ks w w' :
  _deposit_obligation_collateral program_id n a1 a2 a3 ob a5 a6 a7 a8 w = Ok w' ->
  key ob ∈ ks -> keeps_but ks w w'.
Proof. unfold _deposit_obligation_collateral. intros H Hi. minv H. frame. Qed.

Lemma withdraw_collateral_keeps n a1 a2 a3 ob a5 a6 a7 a8 b ks w w' c :
  _withdraw_obligation_collateral program_id n a1 a2 a3 ob a5 a6 a7 a8 b w = Ok (w', c) ->
  key ob ∈ ks -> keeps_but ks w w'.
Proof. unfold _withdraw_obligation_collateral. intros H Hi. minv H. frame. Qed.

Lemma borrow_transfers_frame s d f a t seeds host bf hf n ks w w' :
  borrow_transfers s d f a t seeds host bf hf n w = Ok w' -> keeps_but ks w w'.
Proof.
  unfold borrow_transfers. intros H. minv H.
  destruct (next_account_info host) as [[h l]|e|]; [destruct (0 <? hf)|..]; minv E;
    subst; destruct (0 <? _); minv E0; subst; frame.
Qed.

#[local] Hint Resolve borrow_transfers_frame redeem_collateral_keeps : frames.

Lemma borrow_liquidity_keeps n a1 a2 res a4 ob mkt a7 a8 a9 h ks w w' :
  _borrow_obligation_liquidity program_id n a1 a2 res a4 ob mkt a7 a8 a9 h w = Ok w' ->
  key res ∈ ks -> key ob ∈ ks -> key mkt ∈ ks -> keeps_but ks w w'.
Proof. unfold _borrow_obligation_liquidity. intros H Hr Ho Hm. minv H. frame. Qed.

Lemma liquidate_keeps n a1 a2 res a4 a5 a6 ob a8 a9 a10 a11 ks w w' c :
  _liquidate_obligation program_id n a1 a2 res a4 a5 a6 ob a8 a9 a10 a11 w = Ok (w', c) ->
  key res ∈ ks -> key ob ∈ ks -> keeps_but ks w w'.
Proof. unfold _liquidate_obligation. intros H Hr Ho. minv H. frame. Qed.

Lemma redeem_liquidated_keeps n b a1 a2 res a4 a5 a6 mkt a8 a9 a10 ks w w' :
  redeem_liquidated program_id n b a1 a2 res a4 a5 a6 mkt a8 a9 a10 w = Ok w' ->
  key res ∈ ks -> key mkt ∈ ks -> keeps_but ks w w'.
Proof.
  unfold redeem_liquidated. intros H Hr Hm. minv H. destruct (negb _); minv H; frame.
Qed.

Lemma flash_borrow_keeps n a1 a2 res a4 a5 a6 a7 ks w w' :
  _flash_borrow_reserve_liquidity program_id n a1 a2 res a4 a5 a6 a7 w = Ok w' ->
  key res ∈ ks -> keeps_but ks w w'.
Proof. unfold _flash_borrow_reserve_liquidity. intros H Hr. minv H. frame. Qed.

Lemma flash_repay_keeps n i a1 a2 a3 a4 res a6 a7 a8 a9 ks w w' :
  _flash_repay_reserve_liquidity program_id n i a1 a2 a3 a4 res a6 a7 a8 a9 w = Ok w' ->
  key res ∈ ks -> keeps_but ks w w'.
Proof.
  unfold _flash_repay_reserve_liquidity. intros H Hr. minv H.
  destruct (0 <? host_fee); minv E6; destruct (0 <? origination_fee); minv H; frame.
Qed.
End handlers.

#[export] Hint Resolve refresh_interest_keeps mark_stale_keeps refresh_reserve_keeps
  deposit_liquidity_keeps redeem_collateral_keeps deposit_collateral_keeps
  withdraw_collateral_keeps borrow_liquidity_keeps liquidate_keeps
  redeem_liquidated_keeps flash_borrow_keeps flash_repay_keeps : frames.

(** ** The handlers that read their accounts themselves *)

Section instructions.
Context {R : Runtime} {program_id : Pubkey} {L : RuntimeLaws R program_id}.
Implicit Types (w : World) (ks : list Pubkey).

Abbreviation keeps_but := (keeps_but (program_id:=program_id)).

Lemma set_data_keeps info d ks w : key info ∈ ks -> keeps_but ks w (set_data w info d).
Proof.
  intros Hin i Hi Hk. unfold data_of, owner_of. rewrite get_set_data_ne by congruence. done.
Qed.

Ltac handler_frame H := open_handler H; simplify_eq; frame.

Lemma init_market_keeps o q mkt rest ks w w' :
  process_init_lending_market program_id o q (mkt :: rest) w = Ok w' ->
  key mkt ∈ ks -> keeps_but ks w w'.
Proof. unfold process_init_lending_market. intros H Hi. handler_frame H. Qed.

Lemma set_market_owner_keeps o rl wl ra mkt rest ks w w' :
  process_set_lending_market_owner_and_config program_id o rl wl ra (mkt :: rest) w = Ok w' ->
  key mkt ∈ ks -> keeps_but ks w w'.
Proof. unfold process_set_lending_market_owner_and_config. intros H Hi. handler_frame H. Qed.

Lemma update_metadata_keeps m a1 a2 meta rest ks w w' :
  process_update_market_metadata program_id m (a1 :: a2 :: meta :: rest) w = Ok w' ->
  key meta ∈ ks -> keeps_but ks w w'.
Proof.
  unfold process_update_market_metadata. intros H Hi. open_handler H. simplify_eq.
  destruct (length (data_of v0 _) =? _)%nat; [|discriminate]. injection H as <-.
  eapply keeps_seq; [|by apply set_data_keeps].
  destruct (length (data_of w _) =? 0)%nat; minv E0; [|apply keeps_refl].
  eapply keeps_none, invoke_keeps; [apply system_program_foreign|exact E0].
Qed.

Lemma init_reserve_keeps n c a1 a2 res rest ks w w' :
  process_init_reserve program_id n c (a1 :: a2 :: res :: rest) w = Ok w' ->
  key res ∈ ks -> keeps_but ks w w'.
Proof. unfold process_init_reserve. intros H Hi. handler_frame H. Qed.

Lemma init_obligation_keeps ob rest ks w w' :
  process_init_obligation program_id (ob :: rest) w = Ok w' ->
  key ob ∈ ks -> keeps_but ks w w'.
Proof. unfold process_init_obligation. intros H Hi. handler_frame H. Qed.

Lemma refresh_obligation_keeps ob rest ks w w' :
  process_refresh_obligation program_id (ob :: rest) w = Ok w' ->
  key ob ∈ ks -> keeps_but ks w w'.
Proof. unfold process_refresh_obligation. intros H Hi. handler_frame H. Qed.

Lemma repay_keeps n a1 a2 res ob rest ks w w' :
  process_repay_obligation_liquidity program_id n (a1 :: a2 :: res :: ob :: rest) w = Ok w' ->
  key res ∈ ks -> key ob ∈ ks -> keeps_but ks w w'.
Proof. unfold process_repay_obligation_liquidity. intros H Hi Ho. handler_frame H. Qed.

Lemma update_config_keeps c rl res rest ks w w' :
  process_update_reserve_config program_id c rl (res :: rest) w = Ok w' ->
  key res ∈ ks -> keeps_but ks w w'.
Proof. unfold process_update_reserve_config. intros H Hi. handler_frame H. Qed.

Lemma redeem_fees_keeps res rest ks w w' :
  process_redeem_fees program_id (res :: rest) w = Ok w' ->
  key res ∈ ks -> keeps_but ks w w'.
Proof. unfold process_redeem_fees. intros H Hi. handler_frame H. Qed.

Lemma forgive_debt_keeps n ob res rest ks w w' :
  process_forgive_debt program_id n (ob :: res :: rest) w = Ok w' ->
  key ob ∈ ks -> key res ∈ ks -> keeps_but ks w w'.
Proof. unfold process_forgive_debt. intros H Hi Hr. handler_frame H. Qed.
End instructions.

#[export] Hint Resolve init_market_keeps set_market_owner_keeps update_metadata_keeps
  init_reserve_keeps init_obligation_keeps refresh_obligation_keeps repay_keeps
  update_config_keeps redeem_fees_keeps forgive_debt_keeps : frames.
