(* ===== verification/Tracking.v ===== *)
(** Following the accounts of one type through the handlers: every write to an
    account of that type is a move of the value that was read there, so that what
    the moves preserve, any number of instructions preserve. *)

From stdpp Require Import relations.
From S2P Require Import Prelude Errors Common Rate Decimal Codec LastUpdate.
From S2P Require Import RateLimiter LendingMarket ReserveConfig.
From S2P Require Import ObligationCollateral ObligationLiquidity Obligation ObligationCodec.
From S2P Require Import ReserveLiquidity ReserveCollateral Reserve ReserveCodec.
From S2P Require Import Runtime ProcessorHelpers ProcessMarket Nonneg AccountSpec Identity.
From S2P Require Import Frames.

Section tracking.
Context {R : Runtime} {program_id : Pubkey} {L : RuntimeLaws R program_id}.

Abbreviation keeps_but := (keeps_but (program_id:=program_id)).

Section type.
Context {T : Type} {P : PackTrait T} (moves : T -> T -> Prop) (opens : T -> Prop).

(** One write to the data of an account: a move of the initialized value it held,
    the first value of an account that was not initialized, or a write to an
    account that is too long or too short for a [T]. *)
Inductive write (d d' : bytes) : Prop :=
  | write_moves v v' :
      length d = LEN -> unpack_from_slice d = Ok v -> is_initialized v = true ->
      moves v v' -> pack_into_slice v' d = Ok d' -> write d d'
  | write_opens v v' :
      length d = LEN -> unpack_from_slice d = Ok v -> is_initialized v = false ->
      opens v' -> pack_into_slice v' d = Ok d' -> write d d'
  | write_other : length d <> LEN -> length d' = length d -> write d d'.

(** Whatever happens to the accounts of the program is a sequence of writes. *)
Definition writes (w w' : World) : Prop :=
  forall info, owner_of w info = program_id ->
    owner_of w' info = program_id /\ rtc write (data_of w info) (data_of w' info).

(** The same of a part of an instruction, which sees one clock. *)
Definition tracks (w w' : World) : Prop := clock w' = clock w /\ writes w w'.

Lemma writes_trans w1 w2 w3 : writes w1 w2 -> writes w2 w3 -> writes w1 w3.
Proof.
  intros H1 H2 info Ho. destruct (H1 info Ho) as [Ho2 Hw2].
  destruct (H2 info Ho2) as [Ho3 Hw3]. split; [done|]. by etrans.
Qed.

Lemma keeps_writes w w' : keeps_but [] w w' -> writes w w'.
Proof.
  intros H info Ho. destruct (H info Ho (not_elem_of_nil _)) as [Hd Ho'].
  split; [done|]. by rewrite Hd.
Qed.

Lemma tracks_refl w : tracks w w.
Proof. split; [done|]. by intros info Ho. Qed.

Lemma tracks_trans w1 w2 w3 : tracks w1 w2 -> tracks w2 w3 -> tracks w1 w3.
Proof.
  intros [Hc1 H1] [Hc2 H2]. split; [congruence|by eapply writes_trans].
Qed.

(** A write to one account of the program. *)
Lemma one_write_tracks {T2 : Type} {P2 : PackTrait T2} (v : T2) info w1 w2 :
  pack_account v info w1 = Ok w2 ->
  (owner_of w1 info = program_id -> write (data_of w1 info) (data_of w2 info)) ->
  tracks w1 w2.
Proof.
  intros Hp Hw.
  apply (pack_account_inv (program_id:=program_id)) in Hp as (_ & _ & Hown & Hget & Hc & _).
  split; [done|]. intros i Ho. split; [by rewrite Hown|]. destruct (decide (key i = key info)) as [Hk|Hk].
  - apply rtc_once. unfold data_of, owner_of, get in *. rewrite Hk in *. by apply Hw.
  - unfold data_of. by rewrite (Hget i Hk).
Qed.

(** The value was read in [w0], and its account was left alone until [w1]. *)
Lemma moved_tracks info (v v' : T) w0 w1 w2 :
  unpack_account T w0 info = Ok v -> data_of w1 info = data_of w0 info ->
  pack_account v' info w1 = Ok w2 -> moves v v' -> tracks w1 w2.
Proof.
  intros Hu Hd Hp Hm. eapply one_write_tracks; [exact Hp|]. intros _.
  apply (unpack_account_inv (program_id:=program_id)) in Hu as (Hl & Hu & Hi).
  apply (pack_account_inv (program_id:=program_id)) in Hp as (_ & Hp & _).
  rewrite <- Hd in Hl, Hu. by eapply write_moves.
Qed.

(** The same, from the contract of a handler. *)
Lemma saved_tracks info (v v' : T) w w' :
  holds (program_id:=program_id) w info v -> saved (program_id:=program_id) v' info w w' ->
  keeps_but [key info] w w' -> clock w' = clock w -> moves v v' -> tracks w w'.
Proof.
  intros [Hu Ho] [Hp Ho'] Hk Hc Hm. split; [done|]. intros i Hi.
  destruct (decide (key i = key info)) as [He|He].
  - assert (Hd : forall w0, data_of w0 i = data_of w0 info)
      by (intros w0; unfold data_of, get; by rewrite He).
    assert (Hown : owner_of w' i = owner_of w' info) by (unfold owner_of, get; by rewrite He).
    rewrite Hown, !Hd. split; [done|]. apply rtc_once.
    apply (unpack_account_inv (program_id:=program_id)) in Hu as (Hl & Hu & Hin).
    by eapply write_moves.
  - destruct (Hk i Hi) as [Hd Ho2]; [by rewrite list_elem_of_singleton|].
    split; [done|]. by rewrite Hd.
Qed.

Lemma opened_tracks info (v v' : T) w0 w1 w2 :
  assert_uninitialized T w0 info = Ok v -> data_of w1 info = data_of w0 info ->
  pack_account v' info w1 = Ok w2 -> opens v' -> tracks w1 w2.
Proof.
  unfold assert_uninitialized. intros Hu Hd Hp Hm. minv Hu.
  apply (pack_unpack_unchecked_spec (program_id:=program_id)) in E as [Hl E].
  eapply one_write_tracks; [exact Hp|]. intros _.
  apply (pack_account_inv (program_id:=program_id)) in Hp as (_ & Hp & _).
  fold (data_of w0 info) in Hl, E. rewrite <- Hd in Hl, E. by eapply write_opens.
Qed.

(** A value of another type, whose packed form keeps its length. *)
Lemma other_tracks {T2 : Type} {P2 : PackTrait T2} (v : T2) info w1 w2 :
  pack_account v info w1 = Ok w2 -> LEN (PackTrait:=P2) <> LEN (PackTrait:=P) ->
  (forall d d', length d = LEN (PackTrait:=P2) -> pack_into_slice v d = Ok d' ->
     length d' = length d) ->
  tracks w1 w2.
Proof.
  intros Hp Hne Hlen. eapply one_write_tracks; [exact Hp|]. intros _.
  apply (pack_account_inv (program_id:=program_id)) in Hp as (Hl & Hp & _).
  apply write_other; [congruence|by eapply Hlen].
Qed.

(** ** What the moves preserve *)

(** The value of an initialized account satisfies [Q]. *)
Definition always (Q : T -> Prop) (d : bytes) : Prop :=
  forall v, length d = LEN -> unpack_from_slice d = Ok v -> is_initialized v = true -> Q v.

(** What a move or an opening writes is read back. *)
Definition reads_back : Prop :=
  (forall d d' v v', length d = LEN -> unpack_from_slice d = Ok v ->
     is_initialized v = true -> moves v v' -> pack_into_slice v' d = Ok d' ->
     length d' = LEN /\ unpack_from_slice d' = Ok v' /\ is_initialized v' = true) /\
  (forall d d' v', length d = LEN -> opens v' -> pack_into_slice v' d = Ok d' ->
     length d' = LEN /\ unpack_from_slice d' = Ok v').

Lemma write_always (Q : T -> Prop) d d' :
  reads_back -> (forall v v', Q v -> moves v v' -> Q v') -> (forall v, opens v -> Q v) ->
  write d d' -> always Q d -> always Q d'.
Proof.
  intros [Hm Ho] HQ HQo Hw Hd v2 Hl2 Hu2 _. destruct Hw.
  - destruct (Hm _ _ _ _ H H0 H1 H2 H3) as (_ & Hu & _).
    assert (v2 = v') as -> by congruence. eapply HQ; [|exact H2]. by apply Hd.
  - destruct (Ho _ _ _ H H2 H3) as (_ & Hu).
    assert (v2 = v') as -> by congruence. by apply HQo.
  - congruence.
Qed.

Lemma writes_always (Q : T -> Prop) d d' :
  reads_back -> (forall v v', Q v -> moves v v' -> Q v') -> (forall v, opens v -> Q v) ->
  rtc write d d' -> always Q d -> always Q d'.
Proof. intros Hr HQ HQo. induction 1; [done|]. intros. eauto using write_always. Qed.

(** The value that an account holds moves to the one that it holds later. *)
Lemma writes_moves d d' v :
  reads_back -> rtc write d d' ->
  length d = LEN -> unpack_from_slice d = Ok v -> is_initialized v = true ->
  exists v', length d' = LEN /\ unpack_from_slice d' = Ok v' /\ is_initialized v' = true /\
    rtc moves v v'.
Proof.
  intros Hr Hw. revert v. induction Hw as [d|d1 d2 d3 Hw _ IH]; intros v Hl Hu Hi.
  - exists v. by split_and!.
  - destruct Hw as [u u' Hl1 Hu1 Hi1 Hm Hp|u u' Hl1 Hu1 Hi1 Hm Hp|Hn _].
    + assert (u = v) as -> by congruence.
      destruct (proj1 Hr _ _ _ _ Hl1 Hu1 Hi1 Hm Hp) as (Hl2 & Hu2 & Hi2).
      destruct (IH u' Hl2 Hu2 Hi2) as (v' & Hl3 & Hu3 & Hi3 & Hms).
      exists v'. split_and!; try done. by eapply rtc_l.
    + assert (u = v) as -> by congruence. congruence.
    + done.
Qed.

Lemma writes_holds w w' info (v : T) :
  reads_back -> writes w w' -> holds (program_id:=program_id) w info v ->
  exists v', holds (program_id:=program_id) w' info v' /\ rtc moves v v'.
Proof.
  intros Hr Ht [Hu Ho]. destruct (Ht info Ho) as [Ho' Hw].
  apply (unpack_account_inv (program_id:=program_id)) in Hu as (Hl & Hu & Hi).
  destruct (writes_moves _ _ _ Hr Hw Hl Hu Hi) as (v' & Hl' & Hu' & Hi' & Hm).
  exists v'. split; [|done]. split; [|done]. by apply (pack_unpack_spec (program_id:=program_id)).
Qed.
End type.

(** ** Token calls *)

Lemma invoke_clock p ix infos seeds w w' :
  invoke_in p ix infos seeds w = Ok w' -> clock w' = clock w.
Proof. unfold invoke_in. intros H. by minv H. Qed.

Lemma optionally_signed_clock p ix infos seeds w w' :
  invoke_optionally_signed p ix infos seeds w = Ok w' -> clock w' = clock w.
Proof. unfold invoke_optionally_signed. destruct seeds; apply invoke_clock. Qed.

Section token_calls.
Context {T : Type} {P : PackTrait T} (moves : T -> T -> Prop) (opens : T -> Prop).

Lemma transfer_tracks s d n a seeds t w w' :
  spl_token_transfer s d n a seeds t w = Ok w' -> tracks moves opens w w'.
Proof.
  intros H. split; [|by eapply keeps_writes, transfer_keeps].
  unfold spl_token_transfer in H. minv H. by eapply optionally_signed_clock, map_err_Ok_inv.
Qed.

Lemma mint_to_tracks m d n a seeds t w w' :
  spl_token_mint_to m d n a seeds t w = Ok w' -> tracks moves opens w w'.
Proof.
  intros H. split; [|by eapply keeps_writes, mint_to_keeps].
  unfold spl_token_mint_to in H. minv H. by eapply optionally_signed_clock, map_err_Ok_inv.
Qed.

Lemma burn_tracks m s n a seeds t w w' :
  spl_token_burn m s n a seeds t w = Ok w' -> tracks moves opens w w'.
Proof.
  intros H. split; [|by eapply keeps_writes, burn_keeps].
  unfold spl_token_burn in H. minv H. by eapply optionally_signed_clock, map_err_Ok_inv.
Qed.

Lemma init_account_tracks a m o r t w w' :
  spl_token_init_account a m o r t w = Ok w' -> tracks moves opens w w'.
Proof.
  intros H. split; [|by eapply keeps_writes, init_account_keeps].
  unfold spl_token_init_account in H. minv H. by eapply invoke_clock, map_err_Ok_inv.
Qed.

Lemma init_mint_tracks m r a n t w w' :
  spl_token_init_mint m r a n t w = Ok w' -> tracks moves opens w w'.
Proof.
  intros H. split; [|by eapply keeps_writes, init_mint_keeps].
  unfold spl_token_init_mint in H. minv H. by eapply invoke_clock, map_err_Ok_inv.
Qed.
End token_calls.

(** ** Market metadata *)

Lemma metadata_tracks {T : Type} {P : PackTrait T} (moves : T -> T -> Prop) (opens : T -> Prop)
    m accs w w' :
  LEN (PackTrait:=P) <> size_of_metadata -> length (metadata_bytes m) = size_of_metadata ->
  process_update_market_metadata program_id m accs w = Ok w' -> tracks moves opens w w'.
Proof.
  unfold process_update_market_metadata. intros Hne Hm H. open_handler H.
  apply (tracks_trans _ _ _ v0).
  { destruct (length (data_of w x3) =? 0)%nat; minv E0; [|apply tracks_refl].
    split; [by eapply invoke_clock|].
    eapply keeps_writes, invoke_keeps; [apply system_program_foreign|exact E0]. }
  destruct (Nat.eqb_spec (length (data_of v0 x3)) (length (metadata_bytes m)))
    as [Hl|]; [|discriminate]. injection H as <-.
  split; [done|]. intros i Hi. unfold owner_of, data_of.
  destruct (decide (key i = key x3)) as [Hk|Hk].
  - rewrite get_set_data_eq by done. unfold owner_of, data_of, get in *. rewrite Hk in *.
    split; [done|]. apply rtc_once, write_other; cbn; congruence.
  - by rewrite get_set_data_ne.
Qed.

(** ** Accounts that are left alone *)

(** A write to an account of one type leaves an account of another length alone. *)
Lemma pack_other_data {T2 : Type} {P2 : PackTrait T2} (v : T2) i j d w1 w2 :
  pack_account v i w1 = Ok w2 -> data_of w1 j = d -> length d <> LEN (PackTrait:=P2) ->
  data_of w2 j = d.
Proof.
  intros Hp <- Hne. apply (pack_account_inv (program_id:=program_id)) in Hp
    as (Hl & _ & _ & Hget & _).
  unfold data_of in *. rewrite Hget; [done|]. intros Hk. apply Hne.
  rewrite <- Hl. unfold get. by rewrite Hk.
Qed.

Lemma unpacked_length {T2 : Type} {P2 : PackTrait T2} (v : T2) w i n :
  unpack_account T2 w i = Ok v -> LEN (PackTrait:=P2) <> n -> length (data_of w i) <> n.
Proof. by intros [-> _]%(unpack_account_inv (program_id:=program_id)). Qed.

Lemma uninitialized_inv {T2 : Type} {P2 : PackTrait T2} (v : T2) w i :
  assert_uninitialized T2 w i = Ok v ->
  length (data_of w i) = LEN (PackTrait:=P2) /\ unpack_from_slice (data_of w i) = Ok v /\
  is_initialized v = false.
Proof.
  unfold assert_uninitialized. intros H. minv H.
  by apply (pack_unpack_unchecked_spec (program_id:=program_id)) in E as [Hl Hu].
Qed.

Lemma read_reserve_wf w i r : unpack_account Reserve w i = Ok r -> reserve_wf r.
Proof.
  intros (_ & Hu & _)%(unpack_account_inv (program_id:=program_id)).
  by eapply reserve_unpack_wf.
Qed.

Lemma read_obligation_ranges w i o :
  unpack_account Obligation w i = Ok o -> obligation_ranges o.
Proof.
  intros (_ & Hu & _)%(unpack_account_inv (program_id:=program_id)).
  by eapply obligation_unpack_wf.
Qed.

(** ** Lengths *)

Lemma reserve_write_length (r : Reserve) d d' :
  length d = LEN (PackTrait:=reserve_pack) -> pack_into_slice r d = Ok d' ->
  length d' = length d.
Proof.
  intros Hl H. destruct (reserve_packed r d d' Hl H) as (fs & -> & Hw & _).
  by apply (packed_fields reserve_widths).
Qed.

Lemma obligation_write_length (o : Obligation) d d' :
  length d = LEN (PackTrait:=obligation_pack) -> pack_into_slice o d = Ok d' ->
  length d' = length d.
Proof.
  intros Hl H. destruct (obligation_packed o d d' Hl H) as (fs & -> & Hw & _).
  by apply (packed_fields obligation_widths).
Qed.

Lemma market_write_length (m : LendingMarket) d d' :
  length (quote_currency m) = 32%nat ->
  length d = LEN (PackTrait:=lending_market_pack) -> pack_into_slice m d = Ok d' ->
  length d' = length d.
Proof.
  intros Hq Hl H. destruct (market_packed m d d' Hl Hq H) as (fs & -> & Hw & _).
  by apply (packed_fields lending_market_widths).
Qed.

Lemma unpacked_quote_length w info m :
  unpack_account LendingMarket w info = Ok m -> length (quote_currency m) = 32%nat.
Proof.
  intros (Hl & Hu & _)%(unpack_account_inv (program_id:=program_id)).
  destruct (market_fields _ _ Hl Hu) as (_ & _ & Hok & _). apply Hok.
Qed.
End tracking.

Create HintDb tracking discriminated.
#[export] Hint Resolve transfer_tracks mint_to_tracks burn_tracks init_account_tracks
  init_mint_tracks : tracking.

(** The writes to accounts of other types. *)
Ltac track_other H :=
  lazymatch type of H with
  | @pack_account _ ?T2 ?P2 _ _ _ = _ =>
      eapply (other_tracks _ _ (T2:=T2) (P2:=P2)); [exact H|vm_compute; discriminate|];
      lazymatch T2 with
      | Reserve => apply reserve_write_length
      | Obligation => apply obligation_write_length
      | _ => intros ??; apply market_write_length; cbn; eauto using unpacked_quote_length
      end
  end.

(** The account was read before writes to accounts of other types. *)
Ltac left_alone :=
  lazymatch goal with
  | |- data_of ?w ?j = data_of ?w ?j => reflexivity
  | H : @pack_account _ _ ?P2 _ _ ?w1 = Ok ?w2 |- data_of ?w2 ?j = data_of ?w0 ?j =>
      eapply (pack_other_data (P2:=P2)); [exact H|left_alone|];
      lazymatch goal with
      | U : unpack_account _ w0 j = Ok _ |- _ =>
          apply (unpacked_length _ _ _ _ U); vm_compute; discriminate
      end
  end.

(** From the last world to the first; what is left are the moves. *)
Ltac track :=
  lazymatch goal with
  | |- tracks _ _ ?w ?w => apply tracks_refl
  | H : tracks _ _ ?w1 ?w2 |- tracks _ _ ?w0 ?w2 =>
      eapply (tracks_trans _ _ w0 w1 w2); [track|exact H]
  | H : pack_account _ ?i ?w1 = Ok ?w2 |- tracks _ _ ?w0 ?w2 =>
      eapply (tracks_trans _ _ w0 w1 w2); [track|first [track_other H | track_move H]]
  | H : _ = Ok ?w2 |- tracks _ _ _ ?w2 => track_by H
  | H : _ = Ok (?w2, _) |- tracks _ _ _ ?w2 => track_by H
  end
with track_by H :=
  eapply tracks_trans; cycle 1; [solve [eauto 3 with tracking]|track]
with track_move H :=
  lazymatch type of H with
  | pack_account _ ?i ?w1 = Ok _ =>
      lazymatch goal with
      | U : unpack_account _ w1 i = Ok _ |- _ =>
          eapply (moved_tracks _ _ _ _ _ _ _ _ U eq_refl H)
      | U : unpack_account _ _ i = Ok _ |- _ =>
          eapply (moved_tracks _ _ _ _ _ _ _ _ U); [left_alone|exact H|]
      | U : assert_uninitialized _ w1 i = Ok _ |- _ =>
          eapply (opened_tracks _ _ _ _ _ _ _ _ U eq_refl H)
      end
  end.
