(* ===== verification/ObligationMoves.v ===== *)
(** The abstract machine of an obligation: the moves that instructions make on it,
    with who must have signed for them, and what every move preserves. *)

From stdpp Require Import relations.
From S2P Require Import Prelude Errors Common Rate Decimal Codec LastUpdate.
From S2P Require Import ReserveConfig.
From S2P Require Import ReserveLiquidity ReserveCollateral Reserve ReserveCodec.
From S2P Require Import ObligationCollateral ObligationLiquidity Obligation ObligationCodec.
From S2P Require Import Nonneg ObligationSpec RefreshSpec.
From S2P Require Import Runtime ProcessorHelpers ProcessObligation ProcessCollateral.
From S2P Require Import ProcessBorrow AccountSpec Identity Evolution Tracking.

(** ** What is packed is read back *)

Record deposit_sized (c : ObligationCollateral) : Prop := {
  dsz_reserve : is_u256 (deposit_reserve c);
  dsz_amount : is_u64 (deposited_amount c);
  dsz_value : dec_nonneg (ObligationCollateral.market_value c);
}.

Record borrow_sized (l : ObligationLiquidity) : Prop := {
  bsz_reserve : is_u256 (borrow_reserve l);
  bsz_rate : dec_nonneg (cumulative_borrow_rate_wads l);
  bsz_amount : dec_nonneg (borrowed_amount_wads l);
  bsz_value : dec_nonneg (ObligationLiquidity.market_value l);
}.

Definition obligation_values (o : Obligation) : list Decimal :=
  [deposited_value o; borrowed_value o; borrowed_value_upper_bound o;
   allowed_borrow_value o; unhealthy_borrow_value o; super_unhealthy_borrow_value o].

(** The integers fit their fields, and nothing is negative; that the decimals fit
    theirs is checked when they are packed. *)
Record obligation_sized (o : Obligation) : Prop := {
  osz_version : 0 <= version o <= PROGRAM_VERSION;
  osz_slot : is_u64 (slot (Obligation.last_update o));
  osz_market : is_u256 (Obligation.lending_market o);
  osz_owner : is_u256 (Obligation.owner o);
  osz_deposits : Forall deposit_sized (deposits o);
  osz_borrows : Forall borrow_sized (borrows o);
  osz_values : Forall dec_nonneg (obligation_values o);
}.

Section packed.
Implicit Types (o : Obligation) (d : bytes).

Lemma pack_entries_encode {A : Type} len (encode : A -> result bytes) xs : forall off d r,
  pack_entries len encode xs off d = Ok r -> Forall (fun x => exists bs, encode x = Ok bs) xs.
Proof.
  induction xs as [|x xs IH]; intros off d r H; cbn in H; [constructor|].
  minv H. constructor; [by eexists|by eapply IH].
Qed.

Lemma packed_u128 (v : Decimal) bs : dec_nonneg v -> pack_decimal v = Ok bs -> dec_u128 v.
Proof. intros Hn [_ Hlt]%pack_decimal_inv. by split. Qed.

Lemma packed_collateral_wf c bs :
  deposit_sized c -> collateral_bytes c = Ok bs -> collateral_wf c.
Proof.
  unfold collateral_bytes. intros [] H. minv H. split_and!; try done. by eapply packed_u128.
Qed.

Lemma packed_liquidity_wf l bs :
  borrow_sized l -> liquidity_bytes l = Ok bs -> ObligationLiquidity.liquidity_wf l.
Proof.
  unfold liquidity_bytes. intros [] H. minv H. split_and!; eauto using packed_u128.
Qed.

Lemma fit_len_inv {A : Type} (l : list A) n :
  unwrap_option (E:=ProgramError) (fit 8 (Z.of_nat (length l))) = Ok n -> (length l < 256)%nat.
Proof. intros [_ H]%unwrap_option_Ok_inv%fit_Some_inv. lia. Qed.

Lemma packed_obligation_wf o d d' :
  obligation_sized o -> ObligationCodec.pack_into_slice o d = Ok d' -> obligation_wf o.
Proof.
  unfold ObligationCodec.pack_into_slice. destruct (_ <? _)%nat; [discriminate|].
  intros [Hv Hs Hm Ho Hds Hbs Hvs] H.
  repeat apply list.Forall_cons in Hvs as [? Hvs]. minv H.
  apply fit_len_inv in E5. apply fit_len_inv in E6.
  apply pack_entries_encode in E7. apply pack_entries_encode in E8.
  split; try done; eauto using packed_u128.
  - apply list.Forall_forall. intros c Hc.
    rewrite list.Forall_forall in Hds, E7. destruct (E7 c Hc). eauto using packed_collateral_wf.
  - apply list.Forall_forall. intros l Hl.
    rewrite list.Forall_forall in Hbs, E8. destruct (E8 l Hl). eauto using packed_liquidity_wf.
Qed.

Lemma packed_obligation_reads o d d' :
  obligation_sized o -> length d = OBLIGATION_LEN ->
  ObligationCodec.pack_into_slice o d = Ok d' ->
  length d' = OBLIGATION_LEN /\ ObligationCodec.unpack_from_slice d' = Ok o.
Proof.
  intros Hsz Hl Hp. pose proof (packed_obligation_wf _ _ _ Hsz Hp) as Hwf.
  destruct (Nat.le_gt_cases (positions_len o) DATA_FLAT_LEN) as [Hfit|Hover].
  - destruct (obligation_unpack_pack o d Hwf ltac:(lia) Hfit) as (bs & Hp2 & Hl2 & _ & Hu).
    assert (bs = d') as -> by congruence. by rewrite Hl2.
  - rewrite (oversized_panics o d Hwf Hover) in Hp. discriminate.
Qed.

Lemma unpacked_obligation_sized d o :
  length d = OBLIGATION_LEN -> ObligationCodec.unpack_from_slice d = Ok o -> obligation_sized o.
Proof.
  intros Hl Hu. pose proof (obligation_unpack_wf _ _ Hu) as [].
  assert (0 <= version o <= PROGRAM_VERSION).
  { destruct (obligation_fields _ _ Hl Hu) as [_ Hv]. split; [apply Hv|].
    unfold ObligationCodec.unpack_from_slice in Hu. cbn [array_refs obligation_widths] in Hu.
    destruct (_ <? _)%nat; [discriminate|]. minv Hu. cbn in *. lia. }
  split; try done.
  - eapply list.Forall_impl; [exact rng_deposits|]. intros c (? & ? & ? & _). by split.
  - eapply list.Forall_impl; [exact rng_borrows|]. intros l (? & (? & _) & (? & _) & (? & _)).
    by split.
  - repeat constructor; [apply rng_deposited|apply rng_borrowed|apply rng_upper
      |apply rng_allowed|apply rng_unhealthy|apply rng_super_unhealthy].
Qed.
End packed.

(** ** The moves *)

(** Interest: a debt grows by no more than its reserve's cumulative rate. *)
Record accrued (l l' : ObligationLiquidity) : Prop := {
  acc_reserve : borrow_reserve l' = borrow_reserve l;
  acc_rate :
    dec_raw (cumulative_borrow_rate_wads l) <= dec_raw (cumulative_borrow_rate_wads l');
  acc_amount :
    dec_raw (borrowed_amount_wads l') * dec_raw (cumulative_borrow_rate_wads l)
      <= dec_raw (borrowed_amount_wads l) * dec_raw (cumulative_borrow_rate_wads l');
}.

(** A deposit with another market value. *)
Definition revalued (c c' : ObligationCollateral) : Prop :=
  deposit_reserve c' = deposit_reserve c /\ deposited_amount c' = deposited_amount c /\
  dec_nonneg (ObligationCollateral.market_value c').

(** A refresh: new values, interest on every borrow, the empty positions dropped. *)
Record refreshed (o o' : Obligation) : Prop := {
  ref_identity : obligation_identity o' = obligation_identity o;
  ref_slot : is_u64 (slot (Obligation.last_update o'));
  ref_values : Forall dec_nonneg (obligation_values o');
  ref_deposits : exists ds, Forall2 revalued (deposits o) ds /\
    deposits o' = List.filter live_deposit ds;
  ref_borrows : exists bs, Forall2 accrued (borrows o) bs /\ Forall borrow_sized bs /\
    borrows o' ≡ₚ List.filter live_borrow bs;
}.

(** What an instruction with the accounts [accs] may do to an obligation;
    [liquidates] tells whether it may seize collateral. *)
Inductive obligation_move (accs : list AccountInfo) (liquidates : bool)
    : Obligation -> Obligation -> Prop :=
  | move_pledge o k n o' :
      is_u256 k -> 0 <= n -> signed accs (Obligation.owner o) ->
      deposit_to_obligation o k n = Ok o' ->
      obligation_move accs liquidates o (mark_obligation_stale o')
  | move_withdraw o n i o' :
      0 <= n -> signed accs (Obligation.owner o) ->
      Obligation.withdraw o n i = Ok o' ->
      obligation_move accs liquidates o (mark_obligation_stale o')
  | move_borrow o k rate d o' :
      is_u256 k -> dec_nonneg rate -> dec_nonneg d -> signed accs (Obligation.owner o) ->
      borrow_in_obligation o k rate d = Ok o' ->
      obligation_move accs liquidates o (mark_obligation_stale o')
  | move_repay o i l rate l' s o' :
      borrows o !! i = Some l -> dec_nonneg rate -> dec_nonneg s ->
      ObligationLiquidity.accrue_interest l rate = Ok l' ->
      Obligation.repay (set_borrows o (<[i := l']> (borrows o))) s i = Ok o' ->
      obligation_move accs liquidates o (mark_obligation_stale o')
  | move_forgive o s i o' :
      dec_nonneg s -> deposits o = [] -> Obligation.repay o s i = Ok o' ->
      obligation_move accs liquidates o (mark_obligation_stale o')
  | move_liquidate o s i n j o1 o' :
      liquidates = true -> dec_nonneg s -> 0 <= n ->
      dec_raw (unhealthy_borrow_value o) <= dec_raw (borrowed_value o) ->
      Obligation.repay o s i = Ok o1 -> Obligation.withdraw o1 n j = Ok o' ->
      obligation_move accs liquidates o (mark_obligation_stale o')
  | move_refresh o o' : refreshed o o' -> obligation_move accs liquidates o o'.

(** An obligation that is opened: no positions. *)
Definition obligation_opens (o : Obligation) : Prop :=
  obligation_sized o /\ deposits o = [] /\ borrows o = [].

(** ** The moves keep an obligation's integers in range *)

Section sized.
Implicit Types (o : Obligation) (c : ObligationCollateral) (l : ObligationLiquidity).

Lemma sized_positions o ds bs :
  obligation_sized o -> Forall deposit_sized ds -> Forall borrow_sized bs ->
  obligation_sized (set_positions o ds bs).
Proof. intros [] Hd Hb. by split. Qed.

Lemma sized_stale o : obligation_sized o -> obligation_sized (mark_obligation_stale o).
Proof. intros []. by split. Qed.

Lemma Forall_delete {A : Type} (Q : A -> Prop) i (xs : list A) :
  Forall Q xs -> Forall Q (delete i xs).
Proof.
  intros H. rewrite delete_take_drop. apply list.Forall_app.
  split; [by apply list.Forall_take|by apply list.Forall_drop].
Qed.

Lemma pledge_sized o k n o' :
  obligation_sized o -> is_u256 k -> 0 <= n -> deposit_to_obligation o k n = Ok o' ->
  obligation_sized o'.
Proof.
  unfold deposit_to_obligation. intros Hsz Hk Hn H. minv H.
  apply unwrap_option_Ok_inv in E0. apply oc_deposit_inv in E1 as [-> Hlt].
  assert (Hds : Forall deposit_sized (deposits o0)).
  { apply add_collateral_inv in E as [[-> _]|(_ & _ & -> & _)]; [apply Hsz|].
    apply list.Forall_app. split; [apply Hsz|]. apply list.Forall_singleton. by split. }
  assert (Hc : deposit_sized v) by (by eapply list.Forall_lookup_1).
  assert (Hsz0 : obligation_sized o0).
  { apply add_collateral_inv in E as [[-> _]|(_ & _ & -> & _)]; [done|].
    apply sized_positions; [done|exact Hds|apply Hsz]. }
  apply sized_positions; [done| |apply Hsz0]. apply list.Forall_insert; [done|].
  destruct Hc as [? [? _] ?]. split; cbn; try done. split; cbn; lia.
Qed.

Lemma withdraw_sized o n i o' :
  obligation_sized o -> 0 <= n -> Obligation.withdraw o n i = Ok o' -> obligation_sized o'.
Proof.
  intros Hsz Hn (c & Hc & Hle & ->)%ob_withdraw_inv.
  apply sized_positions; [done| |apply Hsz]. pose proof (osz_deposits _ Hsz) as Hds.
  case_match; [by apply Forall_delete|]. apply list.Forall_insert; [done|].
  apply (list.Forall_lookup_1 _ _ _ _ Hds) in Hc as [? [? ?] ?].
  split; cbn; try done. split; cbn; lia.
Qed.

Lemma repay_sized o s i o' :
  obligation_sized o -> dec_nonneg s -> Obligation.repay o s i = Ok o' -> obligation_sized o'.
Proof.
  intros Hsz Hs (l & Hl & Hle & ->)%ob_repay_inv.
  apply sized_positions; [done|apply Hsz|]. pose proof (osz_borrows _ Hsz) as Hbs.
  case_match; [by apply Forall_delete|]. apply list.Forall_insert; [done|].
  apply (list.Forall_lookup_1 _ _ _ _ Hbs) in Hl as []. split; cbn; try done.
  unfold dec_nonneg. cbn. lia.
Qed.

Lemma borrow_sized_move o k rate d o' :
  obligation_sized o -> is_u256 k -> dec_nonneg rate -> dec_nonneg d ->
  borrow_in_obligation o k rate d = Ok o' -> obligation_sized o'.
Proof.
  unfold borrow_in_obligation. intros Hsz Hk Hr Hd H. minv H.
  apply unwrap_option_Ok_inv in E0. apply ol_borrow_inv in E1 as ->.
  assert (Hbs : Forall borrow_sized (borrows o0)).
  { apply add_liquidity_inv in E as [[-> _]|(_ & _ & -> & _)]; [apply Hsz|].
    apply list.Forall_app. split; [apply Hsz|]. apply list.Forall_singleton. by split. }
  assert (Hc : borrow_sized v) by (by eapply list.Forall_lookup_1).
  assert (Hsz0 : obligation_sized o0).
  { apply add_liquidity_inv in E as [[-> _]|(_ & _ & -> & _)]; [done|].
    apply sized_positions; [done|apply Hsz|exact Hbs]. }
  apply sized_positions; [done|apply Hsz0|]. apply list.Forall_insert; [done|].
  destruct Hc. split; cbn; try done. unfold dec_nonneg in *. cbn. lia.
Qed.

Lemma accrue_accrued l rate l' :
  borrow_sized l -> dec_nonneg rate -> ObligationLiquidity.accrue_interest l rate = Ok l' ->
  accrued l l' /\ borrow_sized l'.
Proof.
  intros Hl Hr H. destruct Hl as [Hk Hc Ha Hv]. unfold dec_nonneg in *.
  pose proof (Z.le_lteq 0 (dec_raw (cumulative_borrow_rate_wads l))) as [[Hlt|Heq] _]; [done|..].
  - pose proof (ol_accrue_inv _ _ _ Ha Hlt H) as (H1 & H2 & H3 & H4 & H5 & H6). subst rate.
    split; [by split|]. split; unfold dec_nonneg; rewrite ?H3, ?H4; [done|done| |done].
    exact (Z.le_trans _ _ _ Ha H5).
  - unfold ObligationLiquidity.accrue_interest, dec_cmp in H.
    destruct (Z.compare_spec (dec_raw rate) (dec_raw (cumulative_borrow_rate_wads l)));
      [|discriminate|].
    + injection H as <-. by split; split.
    + minv H. apply dec_div_inv in E as (_ & _ & Hne). lia.
Qed.

Lemma refreshed_sized o o' : obligation_sized o -> refreshed o o' -> obligation_sized o'.
Proof.
  intros Hsz [Hid Hs Hv (ds & Hds & Hd) (bs & _ & Hbs & Hb)].
  destruct Hsz as [H1 H2 H3 H4 H5 H6 H7]. injection Hid as Hi1 Hi2 Hi3.
  split; rewrite ?Hi1, ?Hi2, ?Hi3; try done.
  - rewrite Hd. apply list.Forall_forall. intros c Hc.
    apply list_elem_of_In, filter_In in Hc as [Hc _]. apply list_elem_of_In in Hc.
    apply list_elem_of_lookup in Hc as [i Hi].
    destruct (Forall2_lookup_r _ _ _ _ _ Hds Hi) as (c0 & Hc0 & Hk & Ha & Hm).
    apply (list.Forall_lookup_1 _ _ _ _ H5) in Hc0 as []. split; rewrite ?Hk, ?Ha; done.
  - apply list.Forall_forall. intros l Hl. rewrite Hb in Hl.
    apply list_elem_of_In, filter_In in Hl as [Hl _]. apply list_elem_of_In in Hl.
    by apply (proj1 (list.Forall_forall _ _) Hbs).
Qed.

Lemma move_sized accs liq o o' :
  obligation_sized o -> obligation_move accs liq o o' -> obligation_sized o'.
Proof.
  intros Hsz Hm. destruct Hm;
    eauto using sized_stale, pledge_sized, withdraw_sized, borrow_sized_move, repay_sized,
      refreshed_sized.
  pose proof (list.Forall_lookup_1 _ _ _ _ (osz_borrows _ Hsz) H) as Hl.
  destruct (accrue_accrued _ _ _ Hl H0 H2) as [_ Hl'].
  eapply sized_stale, repay_sized; [|exact H1|exact H3].
  apply sized_positions; [done|apply Hsz|]. apply list.Forall_insert; [apply Hsz|done].
Qed.
End sized.

(** ** The moves keep the positions unique, and their number bounded *)

Lemma positions_stale o : positions_ok o -> positions_ok (mark_obligation_stale o).
Proof. intros []. by split. Qed.

Section positions.
Implicit Types o : Obligation.

Lemma pledge_positions o k n o' :
  positions_ok o -> deposit_to_obligation o k n = Ok o' -> positions_ok o'.
Proof.
  unfold deposit_to_obligation. intros Hok H. minv H. apply unwrap_option_Ok_inv in E0.
  eapply positions_step; [|by eapply step_deposit].
  eapply positions_step; [exact Hok|by eapply step_add_collateral].
Qed.

Lemma borrow_positions o k rate d o' :
  positions_ok o -> borrow_in_obligation o k rate d = Ok o' -> positions_ok o'.
Proof.
  unfold borrow_in_obligation. intros Hok H. minv H. apply unwrap_option_Ok_inv in E0.
  eapply positions_step; [|by eapply step_borrow].
  eapply positions_step; [exact Hok|by eapply step_add_liquidity].
Qed.

Lemma repay_positions o s i o' :
  positions_ok o -> Obligation.repay o s i = Ok o' -> positions_ok o'.
Proof. intros Hok H. eapply positions_step; [exact Hok|by eapply step_repay]. Qed.

Lemma withdraw_positions o n i o' :
  positions_ok o -> Obligation.withdraw o n i = Ok o' -> positions_ok o'.
Proof. intros Hok H. eapply positions_step; [exact Hok|by eapply step_withdraw]. Qed.

Lemma Forall2_keys {A B : Type} (Q : A -> A -> Prop) (f : A -> B) xs ys :
  (forall x y, Q x y -> f y = f x) -> Forall2 Q xs ys -> f <$> ys = f <$> xs.
Proof. intros Hf. induction 1; simpl; [done|]. f_equal; auto. Qed.

Lemma refreshed_positions_ok o o' : positions_ok o -> refreshed o o' -> positions_ok o'.
Proof.
  intros Hok [_ _ _ (ds & Hds & Hd) (bs & Hbs & _ & Hb)].
  eapply filtered_positions; [| |exact Hd|exact Hb|exact Hok].
  - eapply Forall2_keys; [|exact Hds]. intros c c' [Hk _]. exact Hk.
  - eapply Forall2_keys; [|exact Hbs]. intros l l' []. done.
Qed.

Lemma move_positions accs liq o o' :
  positions_ok o -> obligation_move accs liq o o' -> positions_ok o'.
Proof.
  intros Hok Hm. destruct Hm;
    eauto using positions_stale, pledge_positions, withdraw_positions, borrow_positions,
      repay_positions, refreshed_positions_ok.
  eapply positions_stale, repay_positions; [|exact H3].
  by eapply positions_step; [exact Hok|eapply step_accrue].
Qed.

Lemma opens_positions o : obligation_opens o -> positions_ok o.
Proof.
  intros (_ & Hd & Hb). split; unfold deposit_keys, borrow_keys; rewrite ?Hd, ?Hb;
    [apply NoDup_nil_2..|simpl; lia].
Qed.

(** ** The moves keep the owner, and are read back *)

Lemma move_identity accs liq o o' :
  obligation_move accs liq o o' -> obligation_identity o' = obligation_identity o.
Proof.
  destruct 1; rewrite ?stale_obligation_identity;
    eauto using deposit_to_identity, ob_withdraw_identity, borrow_in_identity,
      accrue_repay_identity, ob_repay_identity, repay_withdraw_identity, ref_identity.
Qed.

Lemma obligation_reads_back accs liq :
  reads_back (obligation_move accs liq) obligation_opens.
Proof.
  split.
  - intros d d' o o' Hl Hu Hi Hm Hp.
    pose proof (move_sized _ _ _ _ (unpacked_obligation_sized _ _ Hl Hu) Hm) as Hsz.
    destruct (packed_obligation_reads _ _ _ Hsz Hl Hp) as [Hl' Hu']. split_and!; try done.
    apply move_identity in Hm. injection Hm as Hv _ _. cbn in Hi |- *.
    unfold Obligation.is_initialized in *. by rewrite Hv.
  - intros d d' o Hl [Hsz _] Hp. by apply (packed_obligation_reads o d).
Qed.
End positions.

(** ** Custody: what the moves do without the owner's signature *)

(** The collateral of the reserve [k] that an obligation holds. *)
Definition deposited_in (o : Obligation) (k : Pubkey) : Z :=
  sum_by (fun c => if deposit_reserve c =? k then deposited_amount c else 0) (deposits o).

(** Every borrow was there before, and grew by no more than its interest. *)
Definition by_interest (o o' : Obligation) : Prop :=
  Forall (fun l' => exists l, l ∈ borrows o /\ accrued l l') (borrows o').

Section custody.
Implicit Types o : Obligation.

Lemma accrued_refl l : accrued l l.
Proof. split; [done|lia|lia]. Qed.

Lemma accrued_trans l1 l2 l3 :
  dec_nonneg (borrowed_amount_wads l1) -> dec_nonneg (cumulative_borrow_rate_wads l1) ->
  accrued l1 l2 -> accrued l2 l3 -> accrued l1 l3.
Proof.
  unfold dec_nonneg. intros Ha Hc [Hk1 Hc1 Ha1] [Hk2 Hc2 Ha2]. split; [congruence|lia|].
  set (a1 := dec_raw (borrowed_amount_wads l1)) in *.
  set (a2 := dec_raw (borrowed_amount_wads l2)) in *.
  set (a3 := dec_raw (borrowed_amount_wads l3)) in *.
  set (c1 := dec_raw (cumulative_borrow_rate_wads l1)) in *.
  set (c2 := dec_raw (cumulative_borrow_rate_wads l2)) in *.
  set (c3 := dec_raw (cumulative_borrow_rate_wads l3)) in *.
  destruct (decide (c2 = 0)) as [Hz|Hz].
  { replace c1 with 0 by lia. rewrite Z.mul_0_r. apply Z.mul_nonneg_nonneg; lia. }
  apply (Z.mul_le_mono_pos_r _ _ c2); [lia|].
  assert (a3 * c2 * c1 <= a2 * c3 * c1) by (apply Z.mul_le_mono_nonneg_r; lia).
  assert (a2 * c1 * c3 <= a1 * c2 * c3) by (apply Z.mul_le_mono_nonneg_r; lia).
  nia.
Qed.

Lemma by_interest_refl o : by_interest o o.
Proof.
  apply list.Forall_forall. intros l Hl. exists l. split; [done|apply accrued_refl].
Qed.

Lemma by_interest_trans o1 o2 o3 :
  obligation_sized o1 -> by_interest o1 o2 -> by_interest o2 o3 -> by_interest o1 o3.
Proof.
  unfold by_interest. intros Hsz H1 H2. eapply list.Forall_impl; [exact H2|].
  intros l3 (l2 & Hin2 & H23). rewrite list.Forall_forall in H1.
  destruct (H1 l2 Hin2) as (l1 & Hin1 & H12). exists l1. split; [done|].
  pose proof (proj1 (list.Forall_forall _ _) (osz_borrows _ Hsz) l1 Hin1) as [].
  by eapply accrued_trans.
Qed.

Lemma same_borrows_interest o o' : borrows o' = borrows o -> by_interest o o'.
Proof. intros Hb. unfold by_interest. rewrite Hb. apply by_interest_refl. Qed.

Lemma elem_of_delete {A : Type} (x : A) i (xs : list A) : x ∈ delete i xs -> x ∈ xs.
Proof.
  rewrite <- (take_drop i xs) at 2. rewrite delete_take_drop, !elem_of_app.
  intros [H|(j & Hj)%list_elem_of_lookup]; [by left|right].
  apply list_elem_of_lookup. exists (S j). rewrite lookup_drop in Hj |- *.
  by replace (i + S j)%nat with (S i + j)%nat by lia.
Qed.

Lemma elem_of_insert {A : Type} (x y : A) i (xs : list A) : x ∈ <[i := y]> xs -> x = y \/ x ∈ xs.
Proof.
  intros (j & Hj)%list_elem_of_lookup. apply list_lookup_insert_Some in Hj
    as [(_ & -> & _)|[_ Hj]]; [by left|right]. by eapply list_elem_of_lookup_2.
Qed.

Lemma repay_interest o s i o' :
  obligation_sized o -> dec_nonneg s -> Obligation.repay o s i = Ok o' -> by_interest o o'.
Proof.
  intros Hsz Hs (l & Hl & Hle & ->)%ob_repay_inv. apply list.Forall_forall.
  cbn [borrows set_borrows set_positions]. intros l' Hin.
  assert (Hold : l' ∈ borrows o -> exists l0, l0 ∈ borrows o /\ accrued l0 l')
    by (intros; exists l'; split; [done|apply accrued_refl]).
  case_match; [by apply elem_of_delete in Hin; apply Hold|].
  apply elem_of_insert in Hin as [->|Hin]; [|by apply Hold].
  exists l. split; [by eapply list_elem_of_lookup_2|].
  apply (list.Forall_lookup_1 _ _ _ _ (osz_borrows _ Hsz)) in Hl as [_ Hc _ _].
  unfold dec_nonneg in *. split; cbn; [done|lia|nia].
Qed.

Lemma accrue_in_place_interest o i l rate l' :
  obligation_sized o -> borrows o !! i = Some l -> dec_nonneg rate ->
  ObligationLiquidity.accrue_interest l rate = Ok l' ->
  by_interest o (set_borrows o (<[i := l']> (borrows o))).
Proof.
  intros Hsz Hl Hr H. apply list.Forall_forall.
  cbn [borrows set_borrows set_positions]. intros x Hx.
  apply elem_of_insert in Hx as [->|Hx]; [|by exists x; split; [|apply accrued_refl]].
  exists l. split; [by eapply list_elem_of_lookup_2|].
  pose proof (list.Forall_lookup_1 _ _ _ _ (osz_borrows _ Hsz) Hl) as Hb.
  by destruct (accrue_accrued _ _ _ Hb Hr H).
Qed.

Lemma refreshed_interest o o' : refreshed o o' -> by_interest o o'.
Proof.
  intros [_ _ _ _ (bs & Hbs & _ & Hb)]. apply list.Forall_forall. intros l' Hl.
  rewrite Hb in Hl. apply list_elem_of_In, filter_In in Hl as [Hl _].
  apply list_elem_of_In, list_elem_of_lookup in Hl as [i Hi].
  destruct (Forall2_lookup_r _ _ _ _ _ Hbs Hi) as (l & Hl & Ha).
  exists l. split; [by eapply list_elem_of_lookup_2|done].
Qed.
End custody.

Section collateral.
Implicit Types o : Obligation.

Lemma deposited_same o o' k : deposits o' = deposits o -> deposited_in o' k = deposited_in o k.
Proof. unfold deposited_in. by intros ->. Qed.

Lemma repay_deposits o s i o' : Obligation.repay o s i = Ok o' -> deposits o' = deposits o.
Proof. by intros (l & _ & _ & ->)%ob_repay_inv. Qed.

(** What was pledged is there, in its reserve. *)
Lemma pledge_deposited o k n o' j :
  deposit_to_obligation o k n = Ok o' ->
  deposited_in o' j = deposited_in o j + (if k =? j then n else 0).
Proof.
  unfold deposit_to_obligation. intros H. minv H. apply unwrap_option_Ok_inv in E0.
  apply oc_deposit_inv in E1 as [-> _]. unfold deposited_in.
  cbn [deposits set_deposits set_positions]. rewrite (sum_by_insert _ _ _ _ _ E0).
  cbn [deposit_reserve deposited_amount ObligationCollateral.set_deposited].
  apply add_collateral_inv in E as [[-> (c & Hc & Hk)]|(_ & _ & -> & ->)].
  - assert (c = v) as -> by congruence. rewrite Hk. case_match; lia.
  - cbn [deposits set_deposits set_positions] in E0 |- *. rewrite sum_by_snoc.
    rewrite lookup_app_r in E0 by lia. rewrite Nat.sub_diag in E0. injection E0 as <-.
    cbn [deposit_reserve deposited_amount ObligationCollateral.new]. case_match; lia.
Qed.

Lemma borrow_in_deposits o k rate d o' :
  borrow_in_obligation o k rate d = Ok o' -> deposits o' = deposits o.
Proof.
  unfold borrow_in_obligation. intros H. minv H.
  by apply add_liquidity_inv in E as [[-> _]|(_ & _ & -> & _)].
Qed.

Lemma live_deposits_sum ds k :
  Forall deposit_sized ds ->
  sum_by (fun c => if deposit_reserve c =? k then deposited_amount c else 0)
    (List.filter live_deposit ds)
  = sum_by (fun c => if deposit_reserve c =? k then deposited_amount c else 0) ds.
Proof.
  induction 1 as [|c ds [_ [Ha _] _] _ IH]; simpl; [done|].
  unfold live_deposit in *. destruct (Z.ltb_spec 0 (deposited_amount c)); simpl; rewrite IH;
    case_match; lia.
Qed.

Lemma revalued_sum ds ds' k :
  Forall2 revalued ds ds' ->
  sum_by (fun c => if deposit_reserve c =? k then deposited_amount c else 0) ds'
  = sum_by (fun c => if deposit_reserve c =? k then deposited_amount c else 0) ds.
Proof.
  induction 1 as [|c c' ds ds' (Hk & Ha & _) _ IH]; simpl; [done|]. by rewrite Hk, Ha, IH.
Qed.

Lemma refreshed_deposited o o' k :
  obligation_sized o -> refreshed o o' -> deposited_in o' k = deposited_in o k.
Proof.
  intros Hsz [_ _ _ (ds & Hds & Hd) _]. unfold deposited_in. rewrite Hd, live_deposits_sum.
  - by apply revalued_sum.
  - pose proof (osz_deposits _ Hsz) as Hs. apply list.Forall_lookup. intros i c' Hc'.
    destruct (Forall2_lookup_r _ _ _ _ _ Hds Hc') as (c & Hc & Hk & Ha & Hv).
    apply (list.Forall_lookup_1 _ _ _ _ Hs) in Hc as []. split; rewrite ?Hk, ?Ha; done.
Qed.

(** Without its owner's signature, and unless it is liquidated, an obligation loses
    no collateral, and owes no more than interest adds. *)
Lemma move_custody accs liq o o' :
  obligation_sized o -> obligation_move accs liq o o' ->
  signed accs (Obligation.owner o) \/
  ((liq = false -> forall k, deposited_in o k <= deposited_in o' k) /\ by_interest o o').
Proof.
  intros Hsz Hm. destruct Hm; [by left|by left|by left|right..].
  - pose proof (accrue_in_place_interest _ _ _ _ _ Hsz H H0 H2) as Hi.
    apply repay_deposits in H3 as Hd. split.
    + intros _ k. rewrite (deposited_same o (mark_obligation_stale o')); [done|exact Hd].
    + change (by_interest o o').
      eapply (by_interest_trans o (set_borrows o (<[i := l']> (borrows o)))); [done|exact Hi|].
      eapply repay_interest; [|exact H1|exact H3].
      destruct (accrue_accrued l rate l') as [_ Hl']; [|done..|].
      * by apply (list.Forall_lookup_1 _ _ _ _ (osz_borrows _ Hsz) H).
      * apply sized_positions; [done|apply Hsz|]. apply list.Forall_insert; [apply Hsz|done].
  - apply repay_deposits in H1 as Hd. split.
    + intros _ k. rewrite (deposited_same o (mark_obligation_stale o')); [done|exact Hd].
    + change (by_interest o o'). by eapply repay_interest.
  - split; [congruence|].
    change (by_interest o o').
    eapply by_interest_trans; [done|by eapply repay_interest|].
    apply same_borrows_interest. by apply ob_withdraw_total in H4 as [_ Hb].
  - split; [|by apply refreshed_interest]. intros _ k. by rewrite (refreshed_deposited o o').
Qed.

Lemma moves_custody accs liq o o' :
  obligation_sized o -> rtc (obligation_move accs liq) o o' ->
  signed accs (Obligation.owner o) \/
  ((liq = false -> forall k, deposited_in o k <= deposited_in o' k) /\ by_interest o o').
Proof.
  intros Hsz H. induction H as [o|o o1 o' Hm _ IH].
  { right. split; [done|apply by_interest_refl]. }
  destruct (move_custody _ _ _ _ Hsz Hm) as [Hs|[Hd Hi]]; [by left|].
  pose proof (move_identity _ _ _ _ Hm) as Hid.
  assert (Ho : Obligation.owner o1 = Obligation.owner o)
    by (unfold obligation_identity in Hid; congruence).
  destruct (IH (move_sized _ _ _ _ Hsz Hm)) as [Hs|[Hd' Hi']]; [left; by rewrite <- Ho|right].
  split; [|by eapply by_interest_trans]. intros Hliq k.
  etrans; [by apply Hd|by apply Hd'].
Qed.
End collateral.

(** ** What [process_refresh_obligation] does is the move of a refresh *)

Section refresh.
Context {R : Runtime} {program_id : Pubkey} {L : RuntimeLaws R program_id}.
Implicit Types w : World.

Lemma deposit_values_nonneg r d v :
  reserve_wf r -> deposit_sized d -> deposit_value r d = Ok v ->
  dec_nonneg (dv_market v) /\ dec_nonneg (dv_allowed v) /\ dec_nonneg (dv_unhealthy v) /\
  dec_nonneg (dv_super_unhealthy v).
Proof.
  intros Hwf [_ [Ha _] _] H. unfold deposit_value in H. minv H. cbn.
  pose proof (wf_config _ Hwf) as Hc.
  pose proof (proj1 (wf_loan_to_value_ratio _ Hc)).
  pose proof (proj1 (wf_liquidation_threshold _ Hc)).
  pose proof (proj1 (wf_max_liquidation_threshold _ Hc)).
  apply (collateral_liquidity_nonneg _ Hwf _ _ _ E) in E0; [|by apply from_int_nonneg].
  apply (market_value_nonneg _ Hwf) in E1; [|done].
  apply (lower_value_nonneg _ Hwf) in E2; [|done]. split_and!; nonneg.
Qed.

Lemma borrow_values_nonneg r l v :
  reserve_wf r -> borrow_sized l -> borrow_value r l = Ok v ->
  accrued l (bv_liquidity v) /\ borrow_sized (bv_liquidity v) /\
  dec_nonneg (bv_weighted v) /\ dec_nonneg (bv_weighted_upper v).
Proof.
  intros Hwf Hl H. unfold borrow_value in H. minv H. cbn.
  apply accrue_accrued in E as [[] []]; [|done|apply (wf_borrow_rate _ Hwf)].
  apply (market_value_nonneg _ Hwf) in E0; [|done].
  apply (upper_value_nonneg _ Hwf) in E1; [|done].
  apply (borrow_weight_nonneg _ Hwf) in E2. split_and!; [by split|by split|nonneg|nonneg].
Qed.

Lemma loaded_wf w info k r :
  loaded (program_id:=program_id) w info k r -> reserve_wf r.
Proof. intros ([Hu _] & _ & _). by eapply read_reserve_wf. Qed.

Lemma raw_by_nonneg {A : Type} (f : A -> Decimal) xs :
  Forall (fun x => dec_nonneg (f x)) xs -> 0 <= raw_by f xs.
Proof.
  unfold raw_by, dec_nonneg. induction 1 as [|x xs Hx _ IH]; simpl; lia.
Qed.

Lemma deposits_revalued w infos ds vs :
  Forall3 (deposit_loaded (program_id:=program_id) w) infos ds vs ->
  Forall deposit_sized ds ->
  Forall2 revalued ds (zip_with revalue ds vs) /\
  Forall (fun v => dec_nonneg (dv_market v) /\ dec_nonneg (dv_allowed v) /\
    dec_nonneg (dv_unhealthy v) /\ dec_nonneg (dv_super_unhealthy v)) vs.
Proof.
  induction 1 as [|info d v infos ds vs Hd _ IH]; simpl; [by split; constructor|].
  intros [Hsz Hds]%list.Forall_cons. destruct (IH Hds) as [Hr Hv].
  destruct Hd as (r & Hl & Hval).
  destruct (deposit_values_nonneg _ _ _ (loaded_wf _ _ _ _ Hl) Hsz Hval) as (H1 & H2).
  split; constructor; done.
Qed.

Lemma borrows_accrued w infos bs es :
  Forall3 (borrow_loaded (program_id:=program_id) w) infos bs es ->
  Forall borrow_sized bs ->
  Forall2 accrued bs (entry_liquidity <$> es) /\ Forall borrow_sized (entry_liquidity <$> es) /\
  Forall (fun e => dec_nonneg (bv_weighted e.2) /\ dec_nonneg (bv_weighted_upper e.2)) es.
Proof.
  induction 1 as [|info b e infos bs es Hb _ IH]; simpl; [by repeat constructor|].
  intros [Hsz Hbs]%list.Forall_cons. destruct (IH Hbs) as (Hr & Hs & Hv).
  destruct Hb as (Hl & Hval & _).
  destruct (borrow_values_nonneg _ _ _ (loaded_wf _ _ _ _ Hl) Hsz Hval) as (H1 & H2 & H3 & H4).
  split; [by constructor|]. split; by constructor.
Qed.

Lemma refreshed_positions_refreshed w dinfos binfos o o' vs es :
  Forall3 (deposit_loaded (program_id:=program_id) w) dinfos (deposits o) vs ->
  Forall3 (borrow_loaded (program_id:=program_id) w) binfos (borrows o) es ->
  obligation_sized o -> is_u64 (current_slot w) ->
  refreshed_positions o o' (current_slot w) vs es -> refreshed o o'.
Proof.
  intros Hds Hbs Hsz Hslot [(Ho & Hm & Hv) Hf].
  apply deposits_revalued in Hds as [Hrev Hvs]; [|apply Hsz].
  apply borrows_accrued in Hbs as (Hacc & Hbsz & Hes); [|apply Hsz].
  split.
  - unfold obligation_identity. congruence.
  - by rewrite Hf.
  - repeat apply list.Forall_cons_2; [..|constructor]; unfold dec_nonneg;
      rewrite ?rp_deposited, ?rp_borrowed, ?rp_upper, ?rp_allowed, ?rp_unhealthy,
        ?rp_super_unhealthy;
      repeat (apply Z.min_glb; [|done]); apply raw_by_nonneg;
      eapply list.Forall_impl; eauto; cbn; tauto.
  - by exists (zip_with revalue (deposits o) vs).
  - by exists (entry_liquidity <$> es).
Qed.

Lemma refresh_obligation_clock obl rest w w' :
  process_refresh_obligation program_id (obl :: rest) w = Ok w' -> clock w' = clock w.
Proof.
  unfold process_refresh_obligation. intros H. cbn [with_next next_account_info obind] in H.
  minv H. by apply (pack_account_inv (program_id:=program_id)) in H as (_ & _ & _ & _ & Hc & _).
Qed.

(** The slot in which an obligation was stamped is a 64-bit integer. *)
Lemma fresh_slot w obl o :
  unpack_account Obligation w obl = Ok o -> fresh (Obligation.last_update o) w ->
  is_u64 (current_slot w).
Proof.
  intros (Hl & Hu & _)%(unpack_account_inv (program_id:=program_id)) [_ <-].
  apply (osz_slot _ (unpacked_obligation_sized _ _ Hl Hu)).
Qed.

(** What an obligation reads as, right after a refresh, is what the refresh computed. *)
Lemma refresh_reads_back obl rest w w' o' :
  process_refresh_obligation program_id (obl :: rest) w = Ok w' ->
  unpack_account Obligation w' obl = Ok o' -> is_u64 (current_slot w) ->
  exists o dinfos binfos vs es,
    skip_clock rest = dinfos ++ binfos /\ holds (program_id:=program_id) w obl o /\
    Forall3 (deposit_loaded (program_id:=program_id) w) dinfos (deposits o) vs /\
    Forall3 (borrow_loaded (program_id:=program_id) w) binfos (borrows o) es /\
    refreshed_positions o o' (current_slot w) vs es /\
    keeps_but (program_id:=program_id) [key obl] w w'.
Proof.
  intros H Hu' Hslot.
  apply refresh_obligation_holds in H
    as (o & o1 & dinfos & binfos & vs & es & Hacc & Ho & Hds & Hbs & Hr & [Hp _] & Hk).
  exists o, dinfos, binfos, vs, es. split_and!; try done.
  destruct Ho as [Hu _]. apply (unpack_account_inv (program_id:=program_id)) in Hu as (Hl & Hu & _).
  pose proof (unpacked_obligation_sized _ _ Hl Hu) as Hsz.
  pose proof (refreshed_positions_refreshed _ _ _ _ _ _ _ Hds Hbs Hsz Hslot Hr) as Href.
  destruct (packed_obligation_reads o1 _ _ (refreshed_sized _ _ Hsz Href) Hl Hp) as [_ Hread].
  apply (unpack_account_inv (program_id:=program_id)) in Hu' as (_ & Hu' & _).
  cbn in Hread, Hu'. congruence.
Qed.
End refresh.
