(* ===== verification/LiquidationSpec.v ===== *)
(** What a successful liquidation and a forgiveness of debt guarantee. *)

From S2P Require Import Prelude Errors Common Rate Decimal Codec Nonneg.
From S2P Require Import LastUpdate.
From S2P Require Import RateLimiter LendingMarket ReserveConfig.
From S2P Require Import ObligationCollateral ObligationLiquidity Obligation ObligationSpec.
From S2P Require Import ReserveLiquidity ReserveCollateral Reserve ReserveCodec ReserveRates.
From S2P Require Import ReserveLiquidation.
From S2P Require Import Runtime ProcessorHelpers ProcessReserve ProcessObligation.
From S2P Require Import ProcessCollateral ProcessLiquidation.
From S2P Require Import AccountSpec ExampleRuntime RefreshSpec Tracking ObligationMoves.

Lemma find_liquidity_inv o k l i :
  find_liquidity_in_borrows o k = Ok (l, i) -> borrows o !! i = Some l /\ borrow_reserve l = k.
Proof.
  unfold find_liquidity_in_borrows, _find_liquidity_index_in_borrows. intros H. minv H.
  apply ok_or_Ok_inv, position_key_Some in E as (l' & Hl & <-).
  apply unwrap_option_Ok_inv in E0. rewrite Hl in E0. by injection E0 as <-.
Qed.

Lemma find_collateral_inv o k c i :
  find_collateral_in_deposits o k = Ok (c, i) ->
  deposits o !! i = Some c /\ deposit_reserve c = k.
Proof.
  unfold find_collateral_in_deposits, _find_collateral_index_in_deposits. intros H. minv H.
  apply ok_or_Ok_inv, position_key_Some in E as (c' & Hc & <-).
  apply unwrap_option_Ok_inv in E0. rewrite Hc in E0. by injection E0 as <-.
Qed.

Section liquidation.
Context {R : Runtime} {program_id : Pubkey} {L : RuntimeLaws R program_id}.

Abbreviation holds := (holds (program_id:=program_id)).
Abbreviation saved := (saved (program_id:=program_id)).
Abbreviation keeps_but := (keeps_but (program_id:=program_id)).

Lemma read_amounts_ok w i o j l k c :
  unpack_account Obligation w i = Ok o -> borrows o !! j = Some l -> deposits o !! k = Some c ->
  liquidation_amounts_ok o l c.
Proof.
  intros []%(read_obligation_ranges (program_id:=program_id)) Hl Hc.
  apply (list.Forall_lookup_1 _ _ _ _ rng_borrows) in Hl as (_ & _ & [? _] & [? _]).
  apply (list.Forall_lookup_1 _ _ _ _ rng_deposits) in Hc as (_ & [? _] & [? _]).
  by split; [apply rng_borrowed|..].
Qed.

Lemma withdrawn_within o s i o1 n j o2 c :
  Obligation.repay o s i = Ok o1 -> Obligation.withdraw o1 n j = Ok o2 ->
  deposits o !! j = Some c -> n <= deposited_amount c.
Proof.
  intros [_ Hd]%ob_repay_total (c' & Hc' & Hle & _)%ob_withdraw_inv Hc.
  rewrite Hd, Hc in Hc'. by injection Hc' as <-.
Qed.

(** Of the debts of the obligation in [w0], valued there with their interest, [debt] is
    one of the largest borrow weight, and those left in [o] are the ones not empty. *)
Definition heaviest_debt (w0 : World) (obl : AccountInfo) (o : Obligation)
    (debt : ObligationLiquidity) : Prop :=
  exists o0 binfos es e,
    holds w0 obl o0 /\
    Forall3 (borrow_loaded (program_id:=program_id) w0) binfos (borrows o0) es /\
    borrows o ≡ₚ List.filter live_borrow (entry_liquidity <$> es) /\
    e ∈ es /\ entry_liquidity e = debt /\
    Forall (fun e' => entry_live e' = true ->
              weight_gt (entry_weight e') (entry_weight e) = false) es.

Lemma refreshed_heaviest rest w0 w1 w obl o debt :
  process_refresh_obligation program_id (obl :: rest) w0 = Ok w1 ->
  data_of w obl = data_of w1 obl -> current_slot w = current_slot w1 ->
  unpack_account Obligation w obl = Ok o -> fresh (Obligation.last_update o) w ->
  borrows o !! 0%nat = Some debt -> heaviest_debt w0 obl o debt.
Proof.
  intros H Hd Hslot Hu Hf Hdebt.
  pose proof (refresh_obligation_clock (program_id:=program_id) _ _ _ _ H) as Hc.
  assert (Hu1 : unpack_account Obligation w1 obl = Ok o)
    by (unfold unpack_account in *; by rewrite <- Hd).
  assert (Hs : is_u64 (current_slot w0)).
  { apply (fresh_slot (program_id:=program_id) _ _ _ Hu) in Hf.
    unfold current_slot in *. by rewrite <- Hc, <- Hslot. }
  destruct (refresh_reads_back (program_id:=program_id) _ _ _ _ _ H Hu1 Hs)
    as (o0 & dinfos & binfos & vs & es & _ & Ho & _ & Hbs & Hr & _).
  destruct (rp_heaviest _ _ _ _ _ Hr _ Hdebt) as (e & He & Hl & Hall).
  exists o0, binfos, es, e. split_and!; try done. apply Hr.
Qed.

(** [rr] and [wr] are the reserves of the repaid debt and of the seized
    collateral, [debt] and [coll] the obligation's positions in them, [l] what
    was calculated. *)
Record liquidation_contract (n : Z) (res wres obl mkt liquidator : AccountInfo)
    (w w' : World) (market : LendingMarket) (rr wr : Reserve) (o o' : Obligation)
    (debt : ObligationLiquidity) (coll : ObligationCollateral)
    (l : CalculateLiquidationResult) : Prop := {
  lc_market : holds w mkt market;
  lc_repay_reserve : holds w res rr;
  lc_withdraw_reserve : holds w wres wr;
  lc_obligation : holds w obl o;
  lc_one_market : Reserve.lending_market rr = key mkt /\ Reserve.lending_market wr = key mkt /\
    Obligation.lending_market o = key mkt;
  lc_fresh : fresh (Reserve.last_update rr) w /\ fresh (Reserve.last_update wr) w /\
    fresh (Obligation.last_update o) w;
  (* only an unhealthy obligation, and only by the whitelisted liquidator if any *)
  lc_unhealthy : dec_raw (unhealthy_borrow_value o) <= dec_raw (borrowed_value o) /\
    dec_raw (borrowed_value o) <> 0;
  lc_whitelisted : forall k, whitelisted_liquidator market = Some k -> k = key liquidator;
  (* the first borrow is repaid *)
  lc_debt : borrows o !! 0%nat = Some debt /\ borrow_reserve debt = key res;
  (* which is one of the heaviest, if the obligation is as a refresh in this slot left it *)
  lc_heaviest : forall rest w0 w1,
    process_refresh_obligation program_id (obl :: rest) w0 = Ok w1 ->
    data_of w obl = data_of w1 obl -> current_slot w = current_slot w1 ->
    heaviest_debt w0 obl o debt;
  lc_coll : In coll (deposits o) /\ deposit_reserve coll = key wres;
  lc_calculated : calculate_liquidation wr n o debt coll = Ok l;
  lc_nonzero : repay_amount l <> 0 /\ withdraw_amount l <> 0;
  (* within the close factor, the offer, the debt and the deposit *)
  lc_bounds : liquidation_bounds n o debt coll l;
  lc_deposited : withdraw_amount l <= deposited_amount coll;
  (* the effects *)
  lc_reserve' :
    saved (mark_reserve_stale (set_liquidity rr
             (set_amounts (liquidity rr) (available_amount (liquidity rr) + repay_amount l)
                (mkDecimal (dec_raw (borrowed_amount_wads (liquidity rr))
                   - Z.min (dec_raw (settle_amount l))
                       (dec_raw (borrowed_amount_wads (liquidity rr))))))))
      res w w';
  lc_obligation' : saved (mark_obligation_stale o') obl w w';
  lc_debt' : total_debt o' = total_debt o - dec_raw (settle_amount l);
  lc_coll' : total_collateral o' = total_collateral o - withdraw_amount l;
  lc_positions : positions_ok o -> positions_ok o';
  lc_frame : keeps_but [key res; key obl] w w';
}.

(** C2: only unhealthy obligations are liquidated, and within bounds.  When
    [_liquidate_obligation] succeeds, the obligation and both reserves belong to the
    market given and were refreshed in the current slot, the obligation's debt has
    reached its unhealthy value, the liquidator is the whitelisted one if the market has
    one.  The debt repaid is the obligation's first borrow; if the obligation is as a
    refresh in this slot left it, no other of its debts has a larger borrow weight.  The
    settled debt is within the debt and paid for rounded up, the bonus rate lies between
    1 and 1.25, and what is seized was deposited.  Of a debt worth more than one, what is
    settled is also within the offer, and worth no more than 20 percent of all debts and
    500,000; what is seized is worth no more than that times the bonus rate.  A debt worth
    at most one may be closed out whatever the offer; what is seized is one token or worth
    no more than the debt times the bonus rate.  The obligation loses exactly
    the settled debt and the seized collateral, the reserve gains what is repaid; and
    no other account of the program changes. *)
Theorem liquidation_is_justified (n : Z)
    (src dst res rsup wres wsup obl mkt auth liquidator tok : AccountInfo) (w w' : World)
    (wd : Z) (bonus : Decimal) (Hn : 0 <= n)
    (H : _liquidate_obligation program_id n src dst res rsup wres wsup obl mkt auth
           liquidator tok w = Ok (w', (wd, bonus))) :
  exists market rr wr o o' debt coll l,
    liquidation_contract n res wres obl mkt liquidator w w' market rr wr o o' debt coll l /\
    wd = withdraw_amount l /\ bonus = bonus_rate l.
Proof.
  unfold _liquidate_obligation in H. minv H.
  repeat match goal with G : negb (_ =? _) = false |- _ => apply negb_eqb_false in G end.
  apply (not_stale_fresh _ _ _ E1) in G6. apply (not_stale_fresh _ _ _ E3) in G12.
  apply (not_stale_fresh _ _ _ E5) in G15.
  pose proof (holds_distinct (program_id:=program_id) _ _ _ _ _ E0 E4 ltac:(done)) as Hne.
  apply (transfer_keeps (program_id:=program_id)) in E15.
  apply (transfer_keeps (program_id:=program_id)) in E16.
  destruct (two_writes res obl _ _ w _ _ _ Hne G1 G13 E11 E14
    (keeps_trans [] [] _ _ _ E15 E16)) as (Hs1 & Hs2 & Hk).
  apply find_liquidity_inv in E6 as [Hdebt Hdk]. apply find_collateral_inv in E7 as [Hcoll Hck].
  destruct (Nat.eqb_spec liquidity_index 0) as [->|]; [|discriminate].
  apply liq_repay_inv in E10 as [-> _].
  assert (Hpos : positions_ok v4 -> positions_ok v11).
  { intros Ho. eapply positions_step; [|by eapply step_withdraw].
    eapply positions_step; [exact Ho|by eapply step_repay]. }
  pose proof (withdrawn_within _ _ _ _ _ _ _ _ E12 E13 Hcoll) as Hdep.
  apply ob_repay_total in E12 as [Hd1 Hd2]. apply ob_withdraw_total in E13 as [Hc1 Hc2].
  assert (Hbounds : liquidation_bounds n v4 liquidity' collateral' v7).
  { eapply calculate_liquidation_bounds; [apply (wf_config _ (read_reserve_wf _ _ _ E2))| |
      exact Hn|exact E9]. by eapply read_amounts_ok. }
  exists v, v0, v2, v4, v11, liquidity', collateral', v7. split; [|done]. split; try done.
  - unfold dec_lt, dec_eqb in *. cbn [Decimal.zero dec_raw] in *. lia.
  - intros k Hw. rewrite Hw in G19. by apply negb_eqb_false.
  - intros rest w0 w1 Hr Hd Hs. by eapply refreshed_heaviest.
  - split; [|done]. by apply list_elem_of_In, list_elem_of_lookup_2 with collateral_index.
  - lia.
  - unfold total_debt in *. by rewrite Hc2.
  - unfold total_collateral in *. by rewrite Hc1, Hd2.
Qed.

(** ** Forgiving bad debt *)

Record forgive_contract (n : Z) (obl res mkt own : AccountInfo) (w w' : World)
    (market : LendingMarket) (reserve : Reserve) (o o' : Obligation) (l' : ReserveLiquidity)
    (amount : Z) : Prop := {
  gc_market : holds w mkt market;
  gc_reserve : holds w res reserve;
  gc_obligation : holds w obl o;
  gc_one_market : Reserve.lending_market reserve = key mkt /\
    Obligation.lending_market o = key mkt;
  gc_owner : LendingMarket.owner market = key own /\ is_signer own = true;
  gc_fresh : fresh (Reserve.last_update reserve) w /\ fresh (Obligation.last_update o) w;
  gc_liquidated : deposits o = [];
  (* the same amount leaves the debt of the obligation and of the reserve *)
  gc_amount : amount <= WAD * n;
  gc_debt : total_debt o' = total_debt o - amount;
  gc_borrowed : dec_raw (borrowed_amount_wads l')
    = dec_raw (borrowed_amount_wads (liquidity reserve)) - amount;
  gc_available : available_amount l' = available_amount (liquidity reserve);
  (* a collateral token is still worth a hundredth of a liquidity token *)
  gc_ratio : WAD * mint_total_supply (collateral reserve) <= 100 * raw_supply l';
  gc_reserve' : saved (mark_reserve_stale (set_liquidity reserve l')) res w w';
  gc_obligation' : saved (mark_obligation_stale o') obl w w';
  gc_positions : positions_ok o -> positions_ok o';
  gc_frame : keeps_but [key res; key obl] w w';
}.

(** C17: bad debt is forgiven only by the market's owner, only for an obligation
    that has no collateral left, and never so much that the depositors' tokens
    lose their last hundredth: when [process_forgive_debt] succeeds, the debt of
    the obligation and of the reserve shrink by the same amount, at most the one
    asked for, and the reserve's supply is still worth at least one percent of
    its collateral tokens. *)
Theorem forgiveness_keeps_ratio (n : Z) (obl res mkt own : AccountInfo)
    (rest : list AccountInfo) (w w' : World)
    (H : process_forgive_debt program_id n (obl :: res :: mkt :: own :: rest) w = Ok w') :
  exists market reserve o o' l' amount,
    forgive_contract n obl res mkt own w w' market reserve o o' l' amount.
Proof.
  unfold process_forgive_debt in H. cbn [with_next next_account_info obind] in H. minv H.
  repeat match goal with G : negb (_ =? _) = false |- _ => apply negb_eqb_false in G end.
  apply (not_stale_fresh _ _ _ E1) in G4. apply (not_stale_fresh _ _ _ E3) in G7.
  pose proof (holds_distinct (program_id:=program_id) _ _ _ _ _ E0 E2 ltac:(done)) as Hne.
  destruct (two_writes res obl _ _ w _ _ _ Hne G2 G5 E9 H (keeps_refl _ _))
    as (Hs1 & Hs2 & Hk).
  assert (Hpos : positions_ok v2 -> positions_ok v9)
    by (intros Ho; eapply positions_step; [exact Ho|by eapply step_repay]).
  apply ob_repay_total in E10 as [Hd _].
  apply liq_forgive_inv in E8 as [-> Hle].
  apply total_supply_inv in E4 as [Hsup _]. apply dec_mul_inv in E5 as [Hfl _].
  apply dec_sub_inv in E6 as [Hmax _].
  set (a := dec_min _ _) in *.
  assert (Ha : dec_raw a <= WAD * n /\ dec_raw a <= dec_raw v6).
  { unfold a. rewrite !dec_min_raw. cbn [from_int dec_raw]. lia. }
  rewrite Hmax, Hsup, Hfl in Ha.
  replace (dec_raw (from_int (mint_total_supply (collateral v0)))
           * dec_raw (Decimal.from_percent MIN_CTOKEN_RATIO_PERCENT) / WAD)
    with (mint_total_supply (collateral v0) * PERCENT_SCALER) in Ha.
  2: { cbn [from_int Decimal.from_percent dec_raw]. unfold MIN_CTOKEN_RATIO_PERCENT.
       set (m := mint_total_supply _).
       replace (WAD * m * (1 * PERCENT_SCALER)) with (m * PERCENT_SCALER * WAD) by lia.
       by rewrite Z.div_mul. }
  destruct (Nat.eqb_spec (length (deposits v2)) 0) as [Hl|]; [|discriminate].
  apply nil_length_inv in Hl.
  exists v, v0, v2, v9,
    (set_amounts (liquidity v0) (available_amount (liquidity v0))
       (mkDecimal (dec_raw (borrowed_amount_wads (liquidity v0)) - dec_raw a))), (dec_raw a).
  split; try done.
  - split; [done|]. by destruct (is_signer own).
  - apply Ha.
  - unfold raw_supply in *. cbn [set_amounts available_amount borrowed_amount_wads
      accumulated_protocol_fees_wads dec_raw] in *. unfold WAD, PERCENT_SCALER in *. lia.
Qed.
End liquidation.

(** ** A liquidation, and the forgiveness of a debt *)

Definition unhealthy_example : Obligation :=
  mkObligation 1 (mkLastUpdate 7 false) 10 78
    [mkObligationCollateral 20 90000000 (from_int 90)]
    [mkObligationLiquidity 20 Decimal.one (from_int 60000000) (from_int 60)]
    (from_int 90) (from_int 60) (from_int 60) (from_int 45) (from_int 50) (from_int 80) false.
Definition liquidation_world : World :=
  Eval vm_compute in
    world_of example_market example_reserve unhealthy_example
      [(2, 5000000); (12, 90000000); (60, 50000000); (61, 0)].

(** The obligation is refreshed, and liquidated right after. *)
Definition refresh_and_liquidate (w : World) : result (World * (World * (Z * Decimal))) :=
  let? w1 :=
    process_refresh_obligation (H := example_runtime [] 0) example_program
      [account 30; account 20; account 20] w in
  let? r :=
    _liquidate_obligation (H := example_runtime [] 0) example_program 20000000
      (account 60) (account 61) (account 20) (account 2) (account 20) (account 12)
      (account 30) (account 10) (account 77) (signer 79) (account 3) w1 in
  Ok (w1, r).

Lemma refresh_and_liquidate_inv w w1 r :
  refresh_and_liquidate w = Ok (w1, r) ->
  process_refresh_obligation (H := example_runtime [] 0) example_program
    [account 30; account 20; account 20] w = Ok w1 /\
  _liquidate_obligation (H := example_runtime [] 0) example_program 20000000
    (account 60) (account 61) (account 20) (account 2) (account 20) (account 12)
    (account 30) (account 10) (account 77) (signer 79) (account 3) w1 = Ok r.
Proof.
  unfold refresh_and_liquidate.
  intros (w2 & Hr & (r2 & Hl & [= -> ->])%obind_Ok_inv)%obind_Ok_inv. done.
Qed.

Lemma liquidation_is_justified_witness :
  exists w1 w' wd bonus market rr wr o o' debt coll l,
    refresh_and_liquidate liquidation_world = Ok (w1, (w', (wd, bonus))) /\
    liquidation_contract (R := example_runtime [] 0) (program_id := example_program)
      20000000 (account 20) (account 20) (account 30) (account 10) (signer 79)
      w1 w' market rr wr o o' debt coll l /\
    heaviest_debt (R := example_runtime [] 0) (program_id := example_program)
      liquidation_world (account 30) o debt.
Proof.
  assert (Hok : is_ok (refresh_and_liquidate liquidation_world) = true)
    by (vm_compute; reflexivity).
  apply is_ok_true in Hok as [[w1 [w' [wd bonus]]] H]. exists w1, w', wd, bonus.
  destruct (refresh_and_liquidate_inv _ _ _ H) as [Hr Hl].
  destruct (liquidation_is_justified (R := example_runtime [] 0)
    (program_id := example_program) 20000000 _ _ _ _ _ _ _ _ _ _ _ w1 w'
    wd bonus ltac:(done) Hl) as (market & rr & wr & o & o' & debt & coll & l & Hc & _).
  exists market, rr, wr, o, o', debt, coll, l. split; [exact H|]. split; [exact Hc|].
  exact (lc_heaviest _ _ _ _ _ _ _ _ _ _ _ _ _ _ _ _ Hc _ _ _ Hr eq_refl eq_refl).
Defined.

Definition bad_debt_example : Obligation :=
  mkObligation 1 (mkLastUpdate 7 false) 10 78 []
    [mkObligationLiquidity 20 Decimal.one (from_int 60000000) (from_int 60)]
    Decimal.zero (from_int 60) (from_int 60) Decimal.zero Decimal.zero Decimal.zero false.
Definition forgive_world : World :=
  Eval vm_compute in world_of example_market example_reserve bad_debt_example [].

Lemma forgiveness_keeps_ratio_witness :
  exists w' market reserve o o' l' amount,
    process_forgive_debt (H := example_runtime [] 0) example_program 100000000
      [account 30; account 20; account 10; signer 50] forgive_world = Ok w' /\
    forgive_contract (R := example_runtime [] 0) (program_id := example_program) 100000000
      (account 30) (account 20) (account 10) (signer 50) forgive_world w' market reserve o
      o' l' amount.
Proof.
  assert (Hok : is_ok (process_forgive_debt (H := example_runtime [] 0) example_program
    100000000 [account 30; account 20; account 10; signer 50] forgive_world) = true)
    by (vm_compute; reflexivity).
  apply is_ok_true in Hok as [w' H]. exists w'.
  destruct (forgiveness_keeps_ratio (R := example_runtime [] 0)
    (program_id := example_program) 100000000 _ _ _ _ _ forgive_world w' H)
    as (market & reserve & o & o' & l' & amount & Hc).
  exists market, reserve, o, o', l', amount. split; [exact H|exact Hc].
Defined.
