(* ===== verification/WithdrawSpec.v ===== *)
(** What a successful withdrawal of collateral guarantees. *)

From S2P Require Import Prelude Errors Common Rate Decimal Codec Nonneg.
From S2P Require Import LastUpdate.
From S2P Require Import RateLimiter LendingMarket ReserveConfig.
From S2P Require Import ObligationCollateral ObligationLiquidity Obligation ObligationSpec.
From S2P Require Import ObligationWithdraw.
From S2P Require Import ReserveLiquidity ReserveCollateral Reserve ReserveCodec ReserveRates.
From S2P Require Import ReserveExchange.
From S2P Require Import Runtime ProcessorHelpers ProcessReserve ProcessCollateral.
From S2P Require Import AccountSpec ExampleRuntime LiquidationSpec.

(** ** The outflow that the rate limiters leave is an amount *)

Lemma remaining_outflow_nonneg r s r' q : remaining_outflow r s = Ok (r', q) -> 0 <= dec_raw q.
Proof.
  unfold remaining_outflow. intros H. case_match; [by minv H|]. minv H.
  case_match; minv H; [done|]. apply dec_sub_inv in E1 as [-> ?]. lia.
Qed.

Lemma usd_to_liquidity_nonneg r q a :
  reserve_wf r -> 0 <= dec_raw q -> usd_to_liquidity_amount_lower_bound r q = Ok a ->
  0 <= dec_raw a.
Proof.
  intros Hwf Hq H. unfold usd_to_liquidity_amount_lower_bound in H. minv H.
  unfold decimals_factor in E. minv E. apply math_Ok_inv, checked_pow_Some_inv in E1 as [-> _].
  apply dec_mul_inv in E0 as [Hv _]. apply dec_div_inv in H as (-> & _ & Hnz).
  rewrite dec_max_raw in *. cbn [from_int dec_raw] in Hv.
  pose proof (proj1 (wf_price _ Hwf)). pose proof (proj1 (wf_smoothed_price _ Hwf)).
  pose proof (Z.pow_nonneg 10 (mint_decimals (liquidity r)) ltac:(lia)).
  assert (0 <= dec_raw v0) by (rewrite Hv; apply div_nonneg; [unfold WAD; nia|done]).
  apply div_nonneg; [unfold WAD; nia|lia].
Qed.

Lemma exchange_rate_nonneg r e :
  reserve_wf r -> collateral_exchange_rate r = Ok e -> 0 <= rate_raw (exchange_rate_inner e).
Proof. intros Hwf. apply rate_nonneg, (wf_collateral_total _ Hwf). Qed.

Lemma max_outflow_collateral_nonneg m r o s n :
  reserve_wf r -> 0 <= dec_raw (deposited_value o) ->
  max_outflow_collateral m r o s = Ok n -> 0 <= n.
Proof.
  intros Hwf Ho H. unfold max_outflow_collateral in H. minv H.
  apply remaining_outflow_nonneg in E, E2. apply dec_mul_u64_inv in E0 as [Hv _].
  apply usd_to_liquidity_nonneg in E1; [|done|rewrite dec_min_raw; lia].
  apply exchange_rate_nonneg in E3; [|done].
  unfold decimal_liquidity_to_collateral in E4. apply dec_mul_rate_inv in E4 as [Hv2 _].
  apply dec_floor_inv in H as [-> _]. rewrite Hv2, dec_min_raw.
  apply div_nonneg; [|done]. apply div_nonneg; [nia|done].
Qed.

Lemma price_lower_nonneg r : reserve_wf r -> 0 <= price_lower r.
Proof.
  intros Hwf. pose proof (proj1 (wf_price _ Hwf)). pose proof (proj1 (wf_smoothed_price _ Hwf)).
  unfold price_lower. lia.
Qed.

(** The outflow that the limiters leave and the amount that the debt allows are not
    negative, and the latter is worth no more than the obligation's room. *)
Lemma withdraw_room (limited : bool) m r o c i s lim amount :
  reserve_wf r -> obligation_ranges o -> deposits o !! i = Some c ->
  (if limited then max_outflow_collateral m r o s else Ok u64_max) = Ok lim ->
  max_withdraw_amount o c r = Ok amount ->
  0 <= lim /\ 0 <= amount <= deposited_amount c /\
  (borrows o <> [] -> ReserveConfig.loan_to_value_ratio (config r) <> 0 ->
   let room := dec_raw (allowed_borrow_value o) - dec_raw (borrowed_value_upper_bound o) in
   (room <= 0 -> amount = 0) /\
   forall e, collateral_exchange_rate r = Ok e -> 0 < room ->
     amount * price_lower r * (ReserveConfig.loan_to_value_ratio (config r) * PERCENT_SCALER)
     <= rate_raw (exchange_rate_inner e) * 10 ^ mint_decimals (liquidity r) * room).
Proof.
  intros Hwf Hrng Hc Hlim Ha.
  pose proof (proj1 (list.Forall_forall _ _) (rng_deposits _ Hrng) c
    (list_elem_of_lookup_2 _ _ _ Hc)) as (_ & Hdep & _).
  destruct (max_withdraw_bounds o c r amount (proj1 Hdep) (proj1 (wf_decimals _ Hwf))
    (proj1 (wf_loan_to_value_ratio _ (wf_config _ Hwf))) (price_lower_nonneg _ Hwf)
    (proj1 (wf_collateral_total _ Hwf)) Ha) as (Hv6 & _ & Hroom).
  split; [|split; [exact Hv6|exact Hroom]].
  destruct limited; [|by minv Hlim].
  by apply max_outflow_collateral_nonneg in Hlim; [|done|apply (rng_deposited _ Hrng)].
Qed.

Section withdraw.
Context {R : Runtime} {program_id : Pubkey} {L : RuntimeLaws R program_id}.

Abbreviation holds := (holds (program_id:=program_id)).
Abbreviation saved := (saved (program_id:=program_id)).
Abbreviation keeps_but := (keeps_but (program_id:=program_id)).

Record withdraw_contract (asked n : Z) (res obl mkt own : AccountInfo) (w w' : World)
    (reserve : Reserve) (o o' : Obligation) (c : ObligationCollateral) : Prop := {
  wc_reserve : holds w res reserve;
  wc_obligation : holds w obl o;
  wc_one_market : Reserve.lending_market reserve = key mkt /\
    Obligation.lending_market o = key mkt;
  wc_owner : Obligation.owner o = key own /\ is_signer own = true;
  wc_fresh : fresh (Reserve.last_update reserve) w /\ fresh (Obligation.last_update o) w;
  wc_collateral : In c (deposits o) /\ deposit_reserve c = key res;
  (* no more than asked for, than deposited, or than the debt allows *)
  wc_amount : n <> 0 /\ n <= asked /\ n <= deposited_amount c;
  wc_healthy : borrows o <> [] ->
    ReserveConfig.loan_to_value_ratio (config reserve) <> 0 ->
    let room := dec_raw (allowed_borrow_value o) - dec_raw (borrowed_value_upper_bound o) in
    0 < room /\ forall e, collateral_exchange_rate reserve = Ok e ->
      n * price_lower reserve
        * (ReserveConfig.loan_to_value_ratio (config reserve) * PERCENT_SCALER)
      <= rate_raw (exchange_rate_inner e) * 10 ^ mint_decimals (liquidity reserve) * room;
  (* exactly that leaves the obligation *)
  wc_total : total_collateral o' = total_collateral o - n;
  wc_borrows : borrows o' = borrows o;
  wc_positions : positions_ok o -> positions_ok o';
  wc_obligation' : saved (mark_obligation_stale o') obl w w';
  wc_frame : keeps_but [key obl] w w';
}.

Lemma withdraw_contract_holds (asked n : Z)
    (src dst res obl mkt auth own tok : AccountInfo) (limited : bool) (w w' : World)
    (Hasked : is_u64 asked)
    (H : _withdraw_obligation_collateral program_id asked src dst res obl mkt auth own tok
           limited w = Ok (w', n)) :
  exists reserve o o' c, withdraw_contract asked n res obl mkt own w w' reserve o o' c.
Proof.
  unfold _withdraw_obligation_collateral in H. minv H.
  repeat match goal with G : negb (_ =? _) = false |- _ => apply negb_eqb_false in G end.
  apply (not_stale_fresh _ _ _ E1) in G5. apply (not_stale_fresh _ _ _ E3) in G10.
  apply (transfer_keeps (program_id:=program_id)) in E10.
  destruct (one_write obl _ w _ _ G6 E9 E10) as [Hs Hk].
  apply find_collateral_inv in E4 as [Hc Hck].
  assert (Hpos : positions_ok v2 -> positions_ok v7)
    by (intros Ho; eapply positions_step; [exact Ho|by eapply step_withdraw]).
  apply ob_withdraw_total in E8 as [Ht Hb].
  apply unpack_account_inv in E0 as Hu; destruct Hu as (_ & Hu & _).
  apply reserve_unpack_wf in Hu as Hwf.
  apply unpack_account_inv in E2 as Hu2; destruct Hu2 as (_ & Hu2 & _).
  apply obligation_unpack_wf in Hu2 as Hrng.
  destruct (withdraw_room _ _ _ _ _ _ _ _ _ Hwf Hrng Hc E6 E7) as (Hv5 & Hv6 & Hroom).
  exists v0, v2, v7, collateral. split; try done.
  - split; [done|]. by destruct (is_signer own).
  - split; [|done]. by apply list_elem_of_In, list_elem_of_lookup_2 with collateral_index.
  - lia.
  - intros Hbs Hltv. cbn zeta. destruct (Hroom Hbs Hltv) as [Hz Hval].
    assert (0 < dec_raw (allowed_borrow_value v2) - dec_raw (borrowed_value_upper_bound v2))
      as Hpos' by (destruct Hasked; lia).
    split; [done|]. intros e He. etrans; [|by apply Hval].
    apply Z.mul_le_mono_nonneg_r.
    { pose proof (proj1 (wf_loan_to_value_ratio _ (wf_config _ Hwf))).
      unfold PERCENT_SCALER. lia. }
    apply Z.mul_le_mono_nonneg_r; [by apply price_lower_nonneg|lia].
Qed.
(** C11: a withdrawal leaves the obligation within its limit.  When
    [_withdraw_obligation_collateral] succeeds, the obligation's owner signed, the
    reserve and the obligation are of the market given and were refreshed in this
    slot; the amount is at most what was asked for and what is deposited, and, if
    anything is borrowed, what leaves, at the lower price and the loan-to-value
    ratio, is worth at most the room between the obligation's debt and its
    allowed borrow value; exactly that amount leaves the obligation, and no other
    account of the program changes. *)
Theorem withdraw_is_safe (asked n : Z)
    (src dst res obl mkt auth own tok : AccountInfo) (limited : bool) (w w' : World)
    (Hasked : is_u64 asked)
    (H : _withdraw_obligation_collateral program_id asked src dst res obl mkt auth own tok
           limited w = Ok (w', n)) :
  exists reserve o o' c, withdraw_contract asked n res obl mkt own w w' reserve o o' c.
Proof. by eapply withdraw_contract_holds. Qed.
End withdraw.

(** The whole deposit is 100; with 30 borrowed of an allowed 50, 40 may leave. *)
Definition withdraw_example : Obligation :=
  mkObligation 1 (mkLastUpdate 7 false) 10 78
    [mkObligationCollateral 20 90000000 (from_int 90)]
    [mkObligationLiquidity 21 Decimal.one (from_int 30000000) (from_int 30)]
    (from_int 90) (from_int 30) (from_int 30) (from_int 50) (from_int 55) (from_int 60) false.
Definition withdraw_world : World :=
  Eval vm_compute in
    world_of example_market example_reserve withdraw_example [(12, 90000000); (60, 0)].

Lemma withdraw_is_safe_witness :
  exists w' n reserve o o' c,
    _withdraw_obligation_collateral (H := example_runtime [] 0) example_program u64_max
      (account 12) (account 60) (account 20) (account 30) (account 10) (account 77)
      (signer 78) (account 3) false withdraw_world = Ok (w', n) /\
    withdraw_contract (R := example_runtime [] 0) (program_id := example_program) u64_max n
      (account 20) (account 30) (account 10) (signer 78) withdraw_world w' reserve o o' c.
Proof.
  assert (Hok : is_ok (_withdraw_obligation_collateral (H := example_runtime [] 0)
    example_program u64_max (account 12) (account 60) (account 20) (account 30)
    (account 10) (account 77) (signer 78) (account 3) false withdraw_world) = true)
    by (vm_compute; reflexivity).
  apply is_ok_true in Hok as [[w' n] H]. exists w', n.
  assert (Hu : is_u64 u64_max) by (vm_compute; split; [discriminate|reflexivity]).
  destruct (withdraw_is_safe (R := example_runtime [] 0) (program_id := example_program)
    u64_max n _ _ _ _ _ _ _ _ _ withdraw_world w' Hu H) as (reserve & o & o' & c & Hc).
  exists reserve, o, o', c. split; [exact H|exact Hc].
Defined.
