(* ===== verification/HistorySpec.v ===== *)
(** What no history of instructions can change. *)

From Stdlib Require Import Init.Byte.
From stdpp Require Import relations.
From S2P Require Import Prelude Errors Common Rate Decimal Codec LastUpdate.
From S2P Require Import RateLimiter LendingMarket ReserveConfig.
From S2P Require Import ObligationCollateral ObligationLiquidity Obligation.
From S2P Require Import ReserveLiquidity ReserveCollateral Reserve Instruction.
From S2P Require Import Runtime ProcessorHelpers ProcessMarket Processor.
From S2P Require Import AccountSpec Identity Evolution ExampleRuntime BorrowSpec.

Lemma metadata_length d m :
  new_from_bytes d = Ok m -> length (metadata_bytes m) = size_of_metadata.
Proof.
  unfold new_from_bytes. destruct d as [|b rest]; [discriminate|].
  destruct (Nat.eqb_spec (length rest) (total_width lending_market_metadata_widths));
    [|discriminate]. cbn [negb].
  pose proof (array_refs_widths lending_market_metadata_widths rest ltac:(lia)) as Hw.
  set (fs := array_refs lending_market_metadata_widths rest) in *. clearbody fs.
  destruct fs as [|? [|? [|? [|? [|? [|? [|]]]]]]]; try discriminate. intros [= <-].
  injection Hw as Hl0 Hl1 Hl2 Hl3 Hl4 Hl5.
  unfold metadata_bytes. cbn [metadata_bump_seed market_name market_description
    market_image_url lookup_tables metadata_padding].
  cbn [array_refs fmap list_fmap concat].
  rewrite !length_app, !length_pubkey_to_bytes, length_to_le_bytes, Hl1, Hl2, Hl3, Hl5.
  reflexivity.
Qed.

Section history.
Context {R : Runtime} {program_id : Pubkey} {L : RuntimeLaws R program_id}.

Abbreviation evolves := (evolves (program_id:=program_id)).
Abbreviation holds := (holds (program_id:=program_id)).

Lemma process_instruction_evolves accs input w w' :
  process_instruction program_id accs input w = Ok w' -> evolves accs w w'.
Proof.
  unfold process_instruction. intros H. minv H.
  destruct v; try discriminate; [eauto with evolution..|].
  minv H. apply metadata_length in E0. eauto with evolution.
Qed.

(** A step of the chain: an instruction of the program that succeeds (one that
    fails is rolled back), or anything that leaves the accounts of the program
    alone, such as an instruction of another program or a new slot. *)
Inductive step (w w' : World) : Prop :=
  | step_instruction accs input :
      process_instruction program_id accs input w = Ok w' -> step w w'
  | step_other : keeps_but (program_id:=program_id) [] w w' -> step w w'.

Lemma step_keeps_identity w w' info i :
  step w w' -> owner_of w info = program_id -> identity (data_of w info) = Some i ->
  owner_of w' info = program_id /\ identity (data_of w' info) = Some i.
Proof.
  intros Hs Ho Hi.
  assert (exists accs, evolves accs w w') as [accs He].
  { destruct Hs as [accs input H|H]; [exists accs|exists []].
    - by eapply process_instruction_evolves.
    - by apply keeps_evolves. }
  destruct (He info Ho) as [Ho' Hf]. split; [done|]. by apply (Hf i Hi).
Qed.

Lemma history_keeps_identity w w' info i :
  rtc step w w' -> owner_of w info = program_id -> identity (data_of w info) = Some i ->
  owner_of w' info = program_id /\ identity (data_of w' info) = Some i.
Proof.
  intros Hs. induction Hs as [w|w1 w2 w3 Hs _ IH]; intros Ho Hi; [done|].
  destruct (step_keeps_identity _ _ _ _ Hs Ho Hi) as [Ho' Hi']. by apply IH.
Qed.

Lemma holds_identity `{I : Identified T} w info (v : T) :
  holds w info v ->
  identity (data_of w info) = Some (identity_of v) /\
  market_owner (data_of w info) = market_owner_of v.
Proof.
  intros [Hu _]. apply (unpack_account_inv (program_id:=program_id)) in Hu as (Hl & Hu & Hi).
  destruct (unpack_identity _ _ Hl Hu Hi) as (? & _ & ? & _). done.
Qed.

(** C4: nothing that happens on chain changes what an account is.  Whatever
    instructions succeed, interleaved with whatever other programs do, an
    initialized account of the program stays its own and is never initialized
    again; an obligation keeps its owner and its market; a reserve keeps its
    market, its mints, their decimals and its supply accounts; a market keeps its
    bump seed, its quote currency and the programs it trusts. *)
Theorem accounts_keep_identity (info : AccountInfo) (w w' : World)
    (Hrun : rtc step w w') (Hown : owner_of w info = program_id) :
  (forall o o', holds w info o -> holds w' info o' ->
     Obligation.owner o' = Obligation.owner o /\
     Obligation.lending_market o' = Obligation.lending_market o) /\
  (forall r r', holds w info r -> holds w' info r' ->
     Reserve.lending_market r' = Reserve.lending_market r /\
     ReserveLiquidity.mint_pubkey (liquidity r') = ReserveLiquidity.mint_pubkey (liquidity r) /\
     mint_decimals (liquidity r') = mint_decimals (liquidity r) /\
     ReserveLiquidity.supply_pubkey (liquidity r')
       = ReserveLiquidity.supply_pubkey (liquidity r) /\
     ReserveCollateral.mint_pubkey (collateral r')
       = ReserveCollateral.mint_pubkey (collateral r) /\
     ReserveCollateral.supply_pubkey (collateral r')
       = ReserveCollateral.supply_pubkey (collateral r)) /\
  (forall m m', holds w info m -> holds w' info m' ->
     bump_seed m' = bump_seed m /\ quote_currency m' = quote_currency m /\
     token_program_id m' = token_program_id m /\
     oracle_program_id m' = oracle_program_id m /\
     switchboard_oracle_program_id m' = switchboard_oracle_program_id m) /\
  (forall i, identity (data_of w info) = Some i ->
     owner_of w' info = program_id /\ identity (data_of w' info) = Some i).
Proof.
  assert (Hid : forall i, identity (data_of w info) = Some i ->
    owner_of w' info = program_id /\ identity (data_of w' info) = Some i)
    by (intros i; by apply history_keeps_identity).
  split_and!; [| | |exact Hid]; intros v v' Hv Hv';
    apply holds_identity in Hv as [Hv _]; apply holds_identity in Hv' as [Hv' _];
    destruct (Hid _ Hv) as [_ Heq]; rewrite Hv' in Heq.
  - injection Heq. intros. by split.
  - injection Heq. intros. by split_and!.
  - injection Heq. intros. by split_and!.
Qed.

(** C16: only its owner gives a market away.  If an instruction changes the owner
    of a lending market, whatever the instruction, the owner that it had is among
    the accounts passed and signed. *)
Theorem market_handover_is_signed (accs : list AccountInfo) (input : bytes)
    (info : AccountInfo) (w w' : World) (m m' : LendingMarket)
    (Hm : holds w info m) (Hm' : holds w' info m')
    (H : process_instruction program_id accs input w = Ok w') :
  LendingMarket.owner m' = LendingMarket.owner m \/ signed accs (LendingMarket.owner m).
Proof.
  apply process_instruction_evolves in H. destruct (H info (proj2 Hm)) as [_ Hf].
  apply holds_identity in Hm as [Hi Ho]. apply holds_identity in Hm' as [_ Ho'].
  destruct (Hf _ Hi) as [_ Hs]. rewrite Ho, Ho' in Hs.
  destruct (Hs _ eq_refl) as [[= Heq]|Hsig]; [by left|by right].
Qed.
End history.

(** ** Borrowing, and handing a market over *)

Lemma accounts_keep_identity_witness :
  exists w', process_instruction (H := example_runtime [] 0) example_program borrow_accounts
      (Instruction.pack (BorrowObligationLiquidity 1000000)) borrow_world = Ok w' /\
    owner_of w' (account 30) = example_program /\
    identity (data_of w' (account 30)) = Some (ObligationIdentity 1 10 78).
Proof.
  assert (Hok : is_ok (process_instruction (H := example_runtime [] 0) example_program
    borrow_accounts (Instruction.pack (BorrowObligationLiquidity 1000000)) borrow_world)
    = true) by (vm_compute; reflexivity).
  apply is_ok_true in Hok as [w' H]. exists w'. split; [exact H|].
  apply (accounts_keep_identity (R := example_runtime [] 0) (program_id := example_program)
    (account 30) borrow_world w' (rtc_once _ _ (step_instruction _ _ _ _ H)));
    vm_compute; reflexivity.
Defined.

Definition handover_input : bytes :=
  Eval vm_compute in
    Instruction.pack
      (SetLendingMarketOwnerAndConfig 52 (mkRateLimiterConfig 1 u64_max) None 53).
Definition handed_over : LendingMarket :=
  mkLendingMarket 1 255 52 (zero_bytes 32) example_token_program 4 4
    RateLimiter.default None 53.

Lemma market_handover_is_signed_witness :
  LendingMarket.owner handed_over = LendingMarket.owner example_market \/
  signed [account 10; signer 50] (LendingMarket.owner example_market).
Proof.
  assert (H : (let? w' := process_instruction (H := example_runtime [] 0) example_program
      [account 10; signer 50] handover_input borrow_world in
    unpack_account (H := example_runtime [] 0) LendingMarket w' (account 10)) = Ok handed_over)
    by (vm_compute; reflexivity).
  apply obind_Ok_inv in H as (w' & H & Hu).
  refine (market_handover_is_signed (R := example_runtime [] 0)
    (program_id := example_program) _ _ (account 10) borrow_world w' _ _ _ _ H).
  - split; [vm_compute|]; reflexivity.
  - split; [exact Hu|].
    by apply (process_instruction_evolves (R := example_runtime [] 0)
      (program_id := example_program) _ _ _ _ H (account 10)).
Defined.
