(* ===== verification/RepaySpec.v ===== *)
(** What a successful repayment guarantees. *)

From S2P Require Import Prelude Errors Common Rate Decimal Codec LastUpdate.
From S2P Require Import RateLimiter LendingMarket ReserveConfig.
From S2P Require Import ObligationCollateral ObligationLiquidity Obligation ObligationSpec.
From S2P Require Import ReserveLiquidity ReserveCollateral Reserve ReserveCodec ReserveExchange.
From S2P Require Import Runtime ProcessorHelpers ProcessReserve ProcessCollateral ProcessBorrow.
From S2P Require Import AccountSpec ExampleRuntime LiquidationSpec Frames.

Section repay.
Context {R : Runtime} {program_id : Pubkey} {L : RuntimeLaws R program_id}.

Abbreviation holds := (holds (program_id:=program_id)).
Abbreviation saved := (saved (program_id:=program_id)).
Abbreviation keeps_but := (keeps_but (program_id:=program_id)).

(** [debt] is the position repaid and [owed] the same with its interest up to the
    reserve's cumulative rate; [r] is what was calculated. *)
Record repay_contract (n : Z) (src dst res obl mkt : AccountInfo) (w w' : World)
    (reserve : Reserve) (o o' : Obligation) (i : nat) (debt owed : ObligationLiquidity)
    (r : CalculateRepayResult) : Prop := {
  rp_reserve : holds w res reserve;
  rp_obligation : holds w obl o;
  rp_one_market : Reserve.lending_market reserve = key mkt /\
    Obligation.lending_market o = key mkt;
  rp_fresh : fresh (Reserve.last_update reserve) w;
  (* the tokens go to the reserve's supply, and do not come from it *)
  rp_supply : ReserveLiquidity.supply_pubkey (liquidity reserve) = key dst /\
    ReserveLiquidity.supply_pubkey (liquidity reserve) <> key src;
  rp_debt : borrows o !! i = Some debt /\ borrow_reserve debt = key res /\
    dec_raw (ObligationLiquidity.borrowed_amount_wads debt) <> 0;
  rp_owed : ObligationLiquidity.accrue_interest debt
    (cumulative_borrow_rate_wads (liquidity reserve)) = Ok owed;
  (* everything is settled, or what is offered, if that is less; it is paid for in
     whole tokens, rounded up *)
  rp_settled : repay_settle_amount r =
    if n =? u64_max then ObligationLiquidity.borrowed_amount_wads owed
    else dec_min (from_int n) (ObligationLiquidity.borrowed_amount_wads owed);
  rp_paid : repay_repay_amount r = (WAD - 1 + dec_raw (repay_settle_amount r)) / WAD /\
    repay_repay_amount r <> 0 /\
    dec_raw (repay_settle_amount r) <= WAD * repay_repay_amount r;
  (* exactly that leaves the obligation, and comes to the reserve *)
  rp_total : total_debt o' =
    total_debt (set_borrows o (<[i := owed]> (borrows o))) - dec_raw (repay_settle_amount r);
  rp_deposits : deposits o' = deposits o;
  rp_positions : positions_ok o -> positions_ok o';
  rp_reserve' :
    saved (mark_reserve_stale (set_liquidity reserve
             (set_amounts (liquidity reserve)
                (available_amount (liquidity reserve) + repay_repay_amount r)
                (mkDecimal (dec_raw (borrowed_amount_wads (liquidity reserve))
                   - Z.min (dec_raw (repay_settle_amount r))
                       (dec_raw (borrowed_amount_wads (liquidity reserve))))))))
      res w w';
  rp_obligation' : saved (mark_obligation_stale o') obl w w';
  rp_frame : keeps_but [key res; key obl] w w';
}.

(** C12: a repayment settles what it is paid for.  When
    [process_repay_obligation_liquidity] succeeds, it first accrued the reserve's
    interest; then the obligation's debt to that reserve, with its own interest, was
    lowered by the whole of it or by the amount offered, whichever is less, for that
    amount in tokens rounded up, paid into the reserve's supply; the reserve's
    liquidity and debt change by the same amounts, whoever pays; and no other account
    of the program changes. *)
Theorem repayment_settles (n : Z) (src dst res obl mkt usr : AccountInfo)
    (rest : list AccountInfo) (w w' : World)
    (H : process_repay_obligation_liquidity program_id n
           (src :: dst :: res :: obl :: mkt :: usr :: rest) w = Ok w') :
  exists w1 reserve o o' i debt owed r,
    _refresh_reserve_interest program_id res w = Ok w1 /\
    repay_contract n src dst res obl mkt w1 w' reserve o o' i debt owed r /\
    keeps_but [key res; key obl] w w'.
Proof.
  assert (Hframe : keeps_but [key res; key obl] w w')
    by (eapply repay_keeps; [exact H|..]; rewrite !elem_of_cons; tauto).
  unfold process_repay_obligation_liquidity in H. minv H.
  cbn [with_next next_account_info obind] in H.
  apply with_next_inv in H as (tok & rest' & _ & H). minv H.
  repeat match goal with G : negb (_ =? _) = false |- _ => apply negb_eqb_false in G end.
  apply (not_stale_fresh _ _ _ E2) in G6.
  pose proof (holds_distinct (program_id:=program_id) _ _ _ _ _ E1 E3 ltac:(done)) as Hne.
  apply (transfer_keeps (program_id:=program_id)) in H.
  destruct (two_writes res obl _ _ v0 _ _ _ Hne G2 G7 E8 E10 H) as (Hs1 & Hs2 & Hk).
  apply find_liquidity_inv in E4 as [Hdebt Hdk]. apply liq_repay_inv in E7 as [-> _].
  apply calculate_repay_inv in E6 as [Hset Hpaid].
  assert (Hpos : positions_ok v3 -> positions_ok v8).
  { intros Ho. eapply positions_step; [|by eapply ObligationSpec.step_repay].
    eapply positions_step; [exact Ho|by eapply ObligationSpec.step_accrue]. }
  apply ob_repay_total in E9 as [Ht Hd].
  exists v0, v1, v3, v8, liquidity_index, liquidity', v4, v5. split; [exact E0|]. split.
  - split; try done; try lia.
    + unfold dec_eqb in *. cbn [Decimal.zero dec_raw] in *. split_and!; [done..|lia].
    + split; [exact Hpaid|]. split; [lia|]. rewrite Hpaid. apply ceil_covers.
  - exact Hframe.
Qed.
End repay.

(** A debt of 60 of which 20 are repaid by a third party. *)
Definition repay_example : Obligation :=
  mkObligation 1 (mkLastUpdate 6 true) 10 78
    [mkObligationCollateral 21 90000000 (from_int 90)]
    [mkObligationLiquidity 20 Decimal.one (from_int 60000000) (from_int 60)]
    Decimal.zero Decimal.zero Decimal.zero Decimal.zero Decimal.zero Decimal.zero false.
Definition repay_world : World :=
  Eval vm_compute in
    world_of example_market example_reserve repay_example [(2, 0); (60, 90000000)].

Lemma repayment_settles_witness :
  exists w' w1 reserve o o' i debt owed r,
    process_repay_obligation_liquidity (H := example_runtime [] 0) example_program 20000000
      [account 60; account 2; account 20; account 30; account 10; signer 62; account 3]
      repay_world = Ok w' /\
    repay_contract (R := example_runtime [] 0) (program_id := example_program) 20000000
      (account 60) (account 2) (account 20) (account 30) (account 10) w1 w' reserve o o' i
      debt owed r.
Proof.
  assert (Hok : is_ok (process_repay_obligation_liquidity (H := example_runtime [] 0)
    example_program 20000000
    [account 60; account 2; account 20; account 30; account 10; signer 62; account 3]
    repay_world) = true) by (vm_compute; reflexivity).
  apply is_ok_true in Hok as [w' H]. exists w'.
  destruct (repayment_settles (R := example_runtime [] 0) (program_id := example_program)
    20000000 _ _ _ _ _ _ _ repay_world w' H)
    as (w1 & reserve & o & o' & i & debt & owed & r & _ & Hc & _).
  exists w1, reserve, o, o', i, debt, owed, r. split; [exact H|exact Hc].
Defined.
