(* ===== verification/SupplySpec.v ===== *)
(** What a successful deposit of liquidity and a successful redemption of collateral
    tokens guarantee. *)

From S2P Require Import Prelude Errors Common Rate Decimal Codec Nonneg.
From S2P Require Import LastUpdate.
From S2P Require Import RateLimiter LendingMarket ReserveConfig.
From S2P Require Import ReserveLiquidity ReserveCollateral Reserve ReserveCodec ReserveExchange.
From S2P Require Import Runtime ProcessorHelpers ProcessReserve ProcessDeposit.
From S2P Require Import AccountSpec ExampleRuntime.

Section supply.
Context {R : Runtime} {program_id : Pubkey} {L : RuntimeLaws R program_id}.

Abbreviation holds := (holds (program_id:=program_id)).
Abbreviation saved := (saved (program_id:=program_id)).
Abbreviation keeps_but := (keeps_but (program_id:=program_id)).

(** What both say of the accounts: one market, the reserve refreshed in this slot,
    and the market's token program. *)
Record supply_accounts (res mkt tok : AccountInfo) (w : World) (market : LendingMarket)
    (reserve : Reserve) : Prop := {
  sa_market : holds w mkt market;
  sa_reserve : holds w res reserve;
  sa_one_market : Reserve.lending_market reserve = key mkt;
  sa_fresh : fresh (Reserve.last_update reserve) w;
  sa_token_program : token_program_id market = key tok;
}.

Record deposit_contract (n minted : Z) (src dst res sup mint : AccountInfo) (w w' : World)
    (reserve reserve' : Reserve) (e : CollateralExchangeRate) : Prop := {
  (* into the reserve's supply and not out of it; not to the pledged collateral *)
  dc_source : ReserveLiquidity.supply_pubkey (liquidity reserve) = key sup /\
    ReserveLiquidity.supply_pubkey (liquidity reserve) <> key src;
  dc_dest : ReserveCollateral.mint_pubkey (collateral reserve) = key mint /\
    ReserveCollateral.supply_pubkey (collateral reserve) <> key dst;
  dc_limit : (WAD * n + supply reserve) / WAD <= deposit_limit (config reserve);
  (* the tokens minted, at the exchange rate rounded down *)
  dc_rate : collateral_exchange_rate reserve = Ok e;
  dc_minted : minted = WAD * n * rate_raw (exchange_rate_inner e) / WAD / WAD;
  dc_supply : supply reserve' = supply reserve + WAD * n;
  dc_ctokens : ctokens reserve' = ctokens reserve + minted;
  (* no token loses value *)
  dc_price : 0 < ctokens reserve ->
    supply reserve * ctokens reserve' <= supply reserve' * ctokens reserve;
  dc_reserve' : saved (mark_reserve_stale reserve') res w w';
  dc_frame : keeps_but [key res] w w';
}.

Record redeem_contract (n paid : Z) (src dst res mint sup mkt : AccountInfo) (limited : bool)
    (w w' : World) (market market' : LendingMarket) (reserve reserve1 reserve' : Reserve)
    (e : CollateralExchangeRate) : Prop := {
  rc_source : ReserveCollateral.mint_pubkey (collateral reserve) = key mint /\
    ReserveCollateral.supply_pubkey (collateral reserve) <> key src;
  rc_dest : ReserveLiquidity.supply_pubkey (liquidity reserve) = key sup /\
    ReserveLiquidity.supply_pubkey (liquidity reserve) <> key dst;
  (* the liquidity paid, at the exchange rate rounded down *)
  rc_rate : collateral_exchange_rate reserve = Ok e /\ rate_raw (exchange_rate_inner e) <> 0;
  rc_paid : paid = WAD * n * WAD / rate_raw (exchange_rate_inner e) / WAD;
  rc_available : n <= ctokens reserve /\ paid <= available_amount (liquidity reserve);
  rc_supply : supply reserve1 = supply reserve - WAD * paid;
  rc_ctokens : ctokens reserve1 = ctokens reserve - n;
  (* the outflow is charged to both limiters, in dollars and in tokens *)
  rc_limited :
    if limited then
      exists value ml rl,
        market_value_upper_bound reserve1 (from_int paid) = Ok value /\
        RateLimiter.update (LendingMarket.rate_limiter market) (current_slot w) value = Ok ml /\
        RateLimiter.update (Reserve.rate_limiter reserve) (current_slot w) (from_int paid)
          = Ok rl /\
        market' = LendingMarket.set_rate_limiter market ml /\
        reserve' = Reserve.set_rate_limiter reserve1 rl
    else market' = market /\ reserve' = reserve1;
  rc_reserve' : saved (mark_reserve_stale reserve') res w w';
  rc_market' : saved market' mkt w w';
  rc_frame : keeps_but [key res; key mkt] w w';
}.

Lemma held_reserve_ok w res r e :
  holds w res r -> collateral_exchange_rate r = Ok e -> 0 < ctokens r -> reserve_ok r.
Proof.
  intros [Hu _] He Hc. apply (unpack_account_inv (program_id:=program_id)) in Hu as (_ & Hu & _).
  apply reserve_unpack_wf in Hu. apply collateral_exchange_rate_inv in He as [Hs _].
  split; [apply (wf_available _ Hu)|apply (wf_borrowed _ Hu)|exact Hs|exact Hc].
Qed.

(** C13: a deposit mints what it brings in.  When [_deposit_reserve_liquidity] succeeds,
    the reserve was refreshed in this slot and is of the market given; with the
    deposit its supply stays within the deposit limit; the depositor gets the
    collateral tokens that the amount is worth at the exchange rate, rounded down;
    the reserve's supply and its tokens grow by exactly these amounts, so that no
    token loses value; and no other account of the program changes. *)
Theorem deposit_mints_its_worth (n minted : Z)
    (src dst res sup mint mkt auth usr tok : AccountInfo) (w w' : World) (Hn : is_u64 n)
    (H : _deposit_reserve_liquidity program_id n src dst res sup mint mkt auth usr tok w
           = Ok (w', minted)) :
  exists market reserve reserve' e,
    supply_accounts res mkt tok w market reserve /\
    deposit_contract n minted src dst res sup mint w w' reserve reserve' e.
Proof.
  unfold _deposit_reserve_liquidity in H. minv H.
  repeat match goal with G : negb (_ =? _) = false |- _ => apply negb_eqb_false in G end.
  apply (not_stale_fresh _ _ _ E1) in G7.
  apply (transfer_keeps (program_id:=program_id)) in E8.
  apply (mint_to_keeps (program_id:=program_id)) in E9.
  destruct (one_write res _ w _ _ G1 E7 (keeps_trans [] [] _ _ _ E8 E9)) as [Hs Hk].
  apply total_supply_inv in E3 as [Hv3 _]. apply dec_add_inv in E4 as [Hv4 _].
  apply dec_floor_inv in E5 as [-> _]. cbn [from_int dec_raw] in Hv4.
  pose proof (deposit_liquidity_inv _ _ _ _ E6) as (e & He & Hm & Hsup & Hct & _).
  exists v, v0, reserve, e. split; [by split|]. split; try done.
  - split; [done|lia].
  - split; [done|lia].
  - unfold supply. rewrite Hv4, Hv3 in G8. lia.
  - intros Hc. assert (Hok : reserve_ok v0) by (by eapply held_reserve_ok).
    exact (proj1 (deposit_share_price _ _ _ _ Hok (proj1 Hn) E6)).
Qed.

(** C14: a redemption pays the worth of the tokens it burns.  When
    [_redeem_reserve_collateral] succeeds, the reserve was refreshed in this slot and
    is of the market given; the holder gets the liquidity that the tokens are worth
    at the exchange rate, rounded down, out of what is not lent; the reserve's supply
    and its tokens shrink by exactly these amounts; where outflow is limited, the
    limiters of the market and of the reserve admitted it and recorded it; and no
    other account of the program changes. *)
Theorem redemption_pays_its_worth (n paid : Z)
    (src dst res mint sup mkt auth usr tok : AccountInfo) (limited : bool) (w w' : World)
    (H : _redeem_reserve_collateral program_id n src dst res mint sup mkt auth usr tok limited w
           = Ok (w', paid)) :
  exists market market' reserve reserve1 reserve' e,
    supply_accounts res mkt tok w market reserve /\
    redeem_contract n paid src dst res mint sup mkt limited w w' market market' reserve
      reserve1 reserve' e.
Proof.
  unfold _redeem_reserve_collateral in H. minv H.
  repeat match goal with G : negb (_ =? _) = false |- _ => apply negb_eqb_false in G end.
  apply (not_stale_fresh _ _ _ E1) in G7.
  apply (burn_keeps (program_id:=program_id)) in E7.
  apply (transfer_keeps (program_id:=program_id)) in E8.
  pose proof (holds_distinct (program_id:=program_id) _ _ _ _ _ E0 E ltac:(done)) as Hne.
  destruct (two_writes res mkt _ _ w _ _ _ Hne G1 G E5 E6 (keeps_trans [] [] _ _ _ E7 E8))
    as (Hs1 & Hs2 & Hk).
  pose proof (redeem_collateral_inv _ _ _ _ E3) as (e & He & Hnz & Hp & Hsup & Hct & Hle & Hav).
  assert (Hrl : Reserve.rate_limiter reserve = Reserve.rate_limiter v0)
    by (unfold redeem_collateral in E3; minv E3; by subst).
  exists v, lending_market', v0, reserve, reserve0, e. split; [by split|]. split; try done.
  - split; [done|lia].
  - split; [done|lia].
  - rewrite <- Hrl. destruct limited; [|by minv E4]. minv E4. do 3 eexists. by split_and!.
Qed.
End supply.

(** ** A deposit of 10 and a redemption of 4, one token for one *)

Definition supply_world : World :=
  Eval vm_compute in
    world_of example_market example_reserve example_obligation
      [(2, 90000000); (11, 0); (60, 90000000); (61, 90000000)].

Lemma deposit_mints_its_worth_witness :
  exists w' minted reserve reserve' e,
    _deposit_reserve_liquidity (H := example_runtime [] 0) example_program 10000000 (account 60)
      (account 61) (account 20) (account 2) (account 11) (account 10) (account 77) (signer 62)
      (account 3) supply_world = Ok (w', minted) /\
    deposit_contract (program_id := example_program) 10000000 minted
      (account 60) (account 61) (account 20) (account 2) (account 11) supply_world w' reserve
      reserve' e.
Proof.
  assert (Hn : is_u64 10000000) by (vm_compute; split; [discriminate|reflexivity]).
  assert (Hok : is_ok (_deposit_reserve_liquidity (H := example_runtime [] 0) example_program
    10000000 (account 60) (account 61) (account 20) (account 2) (account 11) (account 10)
    (account 77) (signer 62) (account 3) supply_world) = true) by (vm_compute; reflexivity).
  apply is_ok_true in Hok as [[w' minted] H]. exists w', minted.
  destruct (deposit_mints_its_worth (R := example_runtime [] 0) (program_id := example_program)
    10000000 minted _ _ _ _ _ _ _ _ _ supply_world w' Hn H) as (_ & r & r' & e & _ & Hc).
  exists r, r', e. split; [exact H|exact Hc].
Defined.

Lemma redemption_pays_its_worth_witness :
  exists w' paid market market' reserve reserve1 reserve' e,
    _redeem_reserve_collateral (H := example_runtime [] 0) example_program 4000000 (account 60)
      (account 61) (account 20) (account 11) (account 2) (account 10) (account 77) (signer 62)
      (account 3) true supply_world = Ok (w', paid) /\
    redeem_contract (program_id := example_program) 4000000 paid
      (account 60) (account 61) (account 20) (account 11) (account 2) (account 10) true
      supply_world w' market market' reserve reserve1 reserve' e.
Proof.
  assert (Hok : is_ok (_redeem_reserve_collateral (H := example_runtime [] 0) example_program
    4000000 (account 60) (account 61) (account 20) (account 11) (account 2) (account 10)
    (account 77) (signer 62) (account 3) true supply_world) = true)
    by (vm_compute; reflexivity).
  apply is_ok_true in Hok as [[w' paid] H]. exists w', paid.
  destruct (redemption_pays_its_worth (R := example_runtime [] 0)
    (program_id := example_program) 4000000 paid _ _ _ _ _ _ _ _ _ true supply_world w' H)
    as (market & market' & r & r1 & r' & e & _ & Hc).
  exists market, market', r, r1, r', e. split; [exact H|exact Hc].
Defined.
