(* ===== verification/Builders.v ===== *)
(** instruction.rs: the builders of instructions that clients use. *)

From Stdlib Require Import Strings.String.
From S2P Require Import Prelude Errors Common Rate Decimal Codec.
From S2P Require Import RateLimiter ReserveConfig LendingMarket Instruction Runtime.
From S2P Require Import ProcessMarket.

(** [AccountMeta] and [Instruction] of solana_program. *)
Record AccountMeta : Type := mkAccountMeta {
  meta_pubkey : Pubkey;
  meta_is_signer : bool;
  meta_is_writable : bool;
}.

Record Instruction : Type := mkInstruction {
  instruction_program_id : Pubkey;
  instruction_accounts : list AccountMeta;
  instruction_data : bytes;
}.

Definition AccountMeta_new (pubkey : Pubkey) (is_signer : bool) : AccountMeta :=
  mkAccountMeta pubkey is_signer true.
Definition AccountMeta_new_readonly (pubkey : Pubkey) (is_signer : bool) : AccountMeta :=
  mkAccountMeta pubkey is_signer false.

(** The addresses of third-party programs and sysvars: [spl_token::id()],
    [sysvar::rent::id()] and [sysvar::instructions::id()]. *)
Class KnownIds : Type := {
  spl_token_id : Pubkey;
  rent_id : Pubkey;
  instructions_id : Pubkey;
}.

(** A vector to which an optional element was pushed. *)
Definition push_option {A B : Type} (f : A -> B) (o : option A) : list B :=
  match o with
  | Some a => [f a]
  | None => []
  end.

Section builders.
Context `{Runtime, KnownIds} (program_id : Pubkey).

(** The first component of [Pubkey::find_program_address(..)]. *)
Definition market_authority (lending_market_pubkey program_id : Pubkey) : Pubkey :=
  fst (find_program_address [pubkey_to_bytes lending_market_pubkey] program_id).

(** Creates an 'InitLendingMarket' instruction. *)
Definition init_lending_market (owner : Pubkey) (quote_currency : bytes)
    (lending_market_pubkey oracle_program_id switchboard_oracle_program_id : Pubkey)
    : Instruction :=
  mkInstruction program_id
    [AccountMeta_new lending_market_pubkey false;
     AccountMeta_new_readonly rent_id false;
     AccountMeta_new_readonly spl_token_id false;
     AccountMeta_new_readonly oracle_program_id false;
     AccountMeta_new_readonly switchboard_oracle_program_id false]
    (Instruction.pack (InitLendingMarket owner quote_currency)).

(** Creates a 'SetLendingMarketOwner' instruction. *)
Definition set_lending_market_owner_and_config
    (lending_market_pubkey lending_market_owner new_owner : Pubkey)
    (rate_limiter_config : RateLimiterConfig) (whitelisted_liquidator : option Pubkey)
    (risk_authority : Pubkey) : Instruction :=
  mkInstruction program_id
    [AccountMeta_new lending_market_pubkey false;
     AccountMeta_new_readonly lending_market_owner true]
    (Instruction.pack (SetLendingMarketOwnerAndConfig new_owner rate_limiter_config
       whitelisted_liquidator risk_authority)).

(** Creates an 'InitReserve' instruction. *)
Definition init_reserve (liquidity_amount : Z) (config : ReserveConfig)
    (source_liquidity_pubkey destination_collateral_pubkey reserve_pubkey
     reserve_liquidity_mint_pubkey reserve_liquidity_supply_pubkey
     reserve_collateral_mint_pubkey reserve_collateral_supply_pubkey pyth_product_pubkey
     pyth_price_pubkey switchboard_feed_pubkey lending_market_pubkey lending_market_owner_pubkey
     user_transfer_authority_pubkey : Pubkey) : Instruction :=
  let lending_market_authority_pubkey :=
    market_authority lending_market_pubkey program_id in
  mkInstruction program_id
    [AccountMeta_new source_liquidity_pubkey false;
     AccountMeta_new destination_collateral_pubkey false;
     AccountMeta_new reserve_pubkey false;
     AccountMeta_new_readonly reserve_liquidity_mint_pubkey false;
     AccountMeta_new reserve_liquidity_supply_pubkey false;
     AccountMeta_new (fee_receiver config) false;
     AccountMeta_new reserve_collateral_mint_pubkey false;
     AccountMeta_new reserve_collateral_supply_pubkey false;
     AccountMeta_new_readonly pyth_product_pubkey false;
     AccountMeta_new_readonly pyth_price_pubkey false;
     AccountMeta_new_readonly switchboard_feed_pubkey false;
     AccountMeta_new_readonly lending_market_pubkey false;
     AccountMeta_new_readonly lending_market_authority_pubkey false;
     AccountMeta_new_readonly lending_market_owner_pubkey true;
     AccountMeta_new_readonly user_transfer_authority_pubkey true;
     AccountMeta_new_readonly rent_id false;
     AccountMeta_new_readonly spl_token_id false]
    (Instruction.pack (InitReserve liquidity_amount config)).

(** Creates a `RefreshReserve` instruction. *)
Definition refresh_reserve
    (reserve_pubkey reserve_liquidity_pyth_oracle_pubkey
     reserve_liquidity_switchboard_oracle_pubkey : Pubkey) : Instruction :=
  mkInstruction program_id
    [AccountMeta_new reserve_pubkey false;
     AccountMeta_new_readonly reserve_liquidity_pyth_oracle_pubkey false;
     AccountMeta_new_readonly reserve_liquidity_switchboard_oracle_pubkey false]
    (Instruction.pack RefreshReserve).

(** Creates a 'DepositReserveLiquidity' instruction. *)
Definition deposit_reserve_liquidity (liquidity_amount : Z)
    (source_liquidity_pubkey destination_collateral_pubkey reserve_pubkey
     reserve_liquidity_supply_pubkey reserve_collateral_mint_pubkey lending_market_pubkey
     user_transfer_authority_pubkey : Pubkey) : Instruction :=
  let lending_market_authority_pubkey :=
    market_authority lending_market_pubkey program_id in
  mkInstruction program_id
    [AccountMeta_new source_liquidity_pubkey false;
     AccountMeta_new destination_collateral_pubkey false;
     AccountMeta_new reserve_pubkey false;
     AccountMeta_new reserve_liquidity_supply_pubkey false;
     AccountMeta_new reserve_collateral_mint_pubkey false;
     AccountMeta_new_readonly lending_market_pubkey false;
     AccountMeta_new_readonly lending_market_authority_pubkey false;
     AccountMeta_new_readonly user_transfer_authority_pubkey true;
     AccountMeta_new_readonly spl_token_id false]
    (Instruction.pack (DepositReserveLiquidity liquidity_amount)).

(** Creates a 'RedeemReserveCollateral' instruction. *)
Definition redeem_reserve_collateral (collateral_amount : Z)
    (source_collateral_pubkey destination_liquidity_pubkey reserve_pubkey
     reserve_collateral_mint_pubkey reserve_liquidity_supply_pubkey lending_market_pubkey
     user_transfer_authority_pubkey : Pubkey) : Instruction :=
  let lending_market_authority_pubkey :=
    market_authority lending_market_pubkey program_id in
  mkInstruction program_id
    [AccountMeta_new source_collateral_pubkey false;
     AccountMeta_new destination_liquidity_pubkey false;
     AccountMeta_new reserve_pubkey false;
     AccountMeta_new reserve_collateral_mint_pubkey false;
     AccountMeta_new reserve_liquidity_supply_pubkey false;
     AccountMeta_new lending_market_pubkey false;
     AccountMeta_new_readonly lending_market_authority_pubkey false;
     AccountMeta_new_readonly user_transfer_authority_pubkey true;
     AccountMeta_new_readonly spl_token_id false]
    (Instruction.pack (RedeemReserveCollateral collateral_amount)).

(** Creates an 'InitObligation' instruction. *)
Definition init_obligation
    (obligation_pubkey lending_market_pubkey obligation_owner_pubkey : Pubkey) : Instruction :=
  mkInstruction program_id
    [AccountMeta_new obligation_pubkey false;
     AccountMeta_new_readonly lending_market_pubkey false;
     AccountMeta_new_readonly obligation_owner_pubkey true;
     AccountMeta_new_readonly rent_id false;
     AccountMeta_new_readonly spl_token_id false]
    (Instruction.pack InitObligation).

(** Creates a 'RefreshObligation' instruction. *)
Definition refresh_obligation (obligation_pubkey : Pubkey) (reserve_pubkeys : list Pubkey)
    : Instruction :=
  mkInstruction program_id
    (AccountMeta_new obligation_pubkey false
     :: map (fun pubkey => AccountMeta_new_readonly pubkey false) reserve_pubkeys)
    (Instruction.pack RefreshObligation).

(** Creates a 'DepositObligationCollateral' instruction. *)
Definition deposit_obligation_collateral (collateral_amount : Z)
    (source_collateral_pubkey destination_collateral_pubkey deposit_reserve_pubkey
     obligation_pubkey lending_market_pubkey obligation_owner_pubkey
     user_transfer_authority_pubkey : Pubkey) : Instruction :=
  mkInstruction program_id
    [AccountMeta_new source_collateral_pubkey false;
     AccountMeta_new destination_collateral_pubkey false;
     AccountMeta_new deposit_reserve_pubkey false;
     AccountMeta_new obligation_pubkey false;
     AccountMeta_new_readonly lending_market_pubkey false;
     AccountMeta_new_readonly obligation_owner_pubkey true;
     AccountMeta_new_readonly user_transfer_authority_pubkey true;
     AccountMeta_new_readonly spl_token_id false]
    (Instruction.pack (DepositObligationCollateral collateral_amount)).

(** Creates a 'DepositReserveLiquidityAndObligationCollateral' instruction. *)
Definition deposit_reserve_liquidity_and_obligation_collateral (liquidity_amount : Z)
    (source_liquidity_pubkey user_collateral_pubkey reserve_pubkey
     reserve_liquidity_supply_pubkey reserve_collateral_mint_pubkey lending_market_pubkey
     destination_deposit_collateral_pubkey obligation_pubkey obligation_owner_pubkey
     reserve_liquidity_pyth_oracle_pubkey reserve_liquidity_switchboard_oracle_pubkey
     user_transfer_authority_pubkey : Pubkey) : Instruction :=
  let lending_market_authority_pubkey :=
    market_authority lending_market_pubkey program_id in
  mkInstruction program_id
    [AccountMeta_new source_liquidity_pubkey false;
     AccountMeta_new user_collateral_pubkey false;
     AccountMeta_new reserve_pubkey false;
     AccountMeta_new reserve_liquidity_supply_pubkey false;
     AccountMeta_new reserve_collateral_mint_pubkey false;
     AccountMeta_new_readonly lending_market_pubkey false;
     AccountMeta_new_readonly lending_market_authority_pubkey false;
     AccountMeta_new destination_deposit_collateral_pubkey false;
     AccountMeta_new obligation_pubkey false;
     AccountMeta_new obligation_owner_pubkey true;
     AccountMeta_new_readonly reserve_liquidity_pyth_oracle_pubkey false;
     AccountMeta_new_readonly reserve_liquidity_switchboard_oracle_pubkey false;
     AccountMeta_new_readonly user_transfer_authority_pubkey true;
     AccountMeta_new_readonly spl_token_id false]
    (Instruction.pack (DepositReserveLiquidityAndObligationCollateral liquidity_amount)).

(** Creates a 'WithdrawObligationCollateralAndRedeemReserveCollateral' instruction. *)
Definition withdraw_obligation_collateral_and_redeem_reserve_collateral (collateral_amount : Z)
    (source_collateral_pubkey destination_collateral_pubkey withdraw_reserve_pubkey
     obligation_pubkey lending_market_pubkey destination_liquidity_pubkey
     reserve_collateral_mint_pubkey reserve_liquidity_supply_pubkey obligation_owner_pubkey
     user_transfer_authority_pubkey : Pubkey) : Instruction :=
  let lending_market_authority_pubkey :=
    market_authority lending_market_pubkey program_id in
  mkInstruction program_id
    [AccountMeta_new source_collateral_pubkey false;
     AccountMeta_new destination_collateral_pubkey false;
     AccountMeta_new withdraw_reserve_pubkey false;
     AccountMeta_new obligation_pubkey false;
     AccountMeta_new lending_market_pubkey false;
     AccountMeta_new_readonly lending_market_authority_pubkey false;
     AccountMeta_new destination_liquidity_pubkey false;
     AccountMeta_new reserve_collateral_mint_pubkey false;
     AccountMeta_new reserve_liquidity_supply_pubkey false;
     AccountMeta_new_readonly obligation_owner_pubkey true;
     AccountMeta_new_readonly user_transfer_authority_pubkey true;
     AccountMeta_new_readonly spl_token_id false]
    (Instruction.pack (WithdrawObligationCollateralAndRedeemReserveCollateral
       collateral_amount)).

(** Creates a 'WithdrawObligationCollateral' instruction. *)
Definition withdraw_obligation_collateral (collateral_amount : Z)
    (source_collateral_pubkey destination_collateral_pubkey withdraw_reserve_pubkey
     obligation_pubkey lending_market_pubkey obligation_owner_pubkey : Pubkey) : Instruction :=
  let lending_market_authority_pubkey :=
    market_authority lending_market_pubkey program_id in
  mkInstruction program_id
    [AccountMeta_new source_collateral_pubkey false;
     AccountMeta_new destination_collateral_pubkey false;
     AccountMeta_new_readonly withdraw_reserve_pubkey false;
     AccountMeta_new obligation_pubkey false;
     AccountMeta_new_readonly lending_market_pubkey false;
     AccountMeta_new_readonly lending_market_authority_pubkey false;
     AccountMeta_new_readonly obligation_owner_pubkey true;
     AccountMeta_new_readonly spl_token_id false]
    (Instruction.pack (WithdrawObligationCollateral collateral_amount)).

(** Creates a 'BorrowObligationLiquidity' instruction. *)
Definition borrow_obligation_liquidity (liquidity_amount : Z)
    (source_liquidity_pubkey destination_liquidity_pubkey borrow_reserve_pubkey
     borrow_reserve_liquidity_fee_receiver_pubkey obligation_pubkey lending_market_pubkey
     obligation_owner_pubkey : Pubkey) (host_fee_receiver_pubkey : option Pubkey)
    : Instruction :=
  let lending_market_authority_pubkey :=
    market_authority lending_market_pubkey program_id in
  mkInstruction program_id
    ([AccountMeta_new source_liquidity_pubkey false;
      AccountMeta_new destination_liquidity_pubkey false;
      AccountMeta_new borrow_reserve_pubkey false;
      AccountMeta_new borrow_reserve_liquidity_fee_receiver_pubkey false;
      AccountMeta_new obligation_pubkey false;
      AccountMeta_new lending_market_pubkey false;
      AccountMeta_new_readonly lending_market_authority_pubkey false;
      AccountMeta_new_readonly obligation_owner_pubkey true;
      AccountMeta_new_readonly spl_token_id false]
     ++ push_option (fun pubkey => AccountMeta_new pubkey false) host_fee_receiver_pubkey)
    (Instruction.pack (BorrowObligationLiquidity liquidity_amount)).

(** Creates a `RepayObligationLiquidity` instruction. *)
Definition repay_obligation_liquidity (liquidity_amount : Z)
    (source_liquidity_pubkey destination_liquidity_pubkey repay_reserve_pubkey obligation_pubkey
     lending_market_pubkey user_transfer_authority_pubkey : Pubkey) : Instruction :=
  mkInstruction program_id
    [AccountMeta_new source_liquidity_pubkey false;
     AccountMeta_new destination_liquidity_pubkey false;
     AccountMeta_new repay_reserve_pubkey false;
     AccountMeta_new obligation_pubkey false;
     AccountMeta_new_readonly lending_market_pubkey false;
     AccountMeta_new_readonly user_transfer_authority_pubkey true;
     AccountMeta_new_readonly spl_token_id false]
    (Instruction.pack (RepayObligationLiquidity liquidity_amount)).

(** Creates a `LiquidateObligation` instruction (which the program refuses as
    deprecated). *)
Definition liquidate_obligation (liquidity_amount : Z)
    (source_liquidity_pubkey destination_collateral_pubkey repay_reserve_pubkey
     repay_reserve_liquidity_supply_pubkey withdraw_reserve_pubkey
     withdraw_reserve_collateral_supply_pubkey obligation_pubkey lending_market_pubkey
     user_transfer_authority_pubkey : Pubkey) : Instruction :=
  let lending_market_authority_pubkey :=
    market_authority lending_market_pubkey program_id in
  mkInstruction program_id
    [AccountMeta_new source_liquidity_pubkey false;
     AccountMeta_new destination_collateral_pubkey false;
     AccountMeta_new repay_reserve_pubkey false;
     AccountMeta_new repay_reserve_liquidity_supply_pubkey false;
     AccountMeta_new_readonly withdraw_reserve_pubkey false;
     AccountMeta_new withdraw_reserve_collateral_supply_pubkey false;
     AccountMeta_new obligation_pubkey false;
     AccountMeta_new_readonly lending_market_pubkey false;
     AccountMeta_new_readonly lending_market_authority_pubkey false;
     AccountMeta_new_readonly user_transfer_authority_pubkey true;
     AccountMeta_new_readonly spl_token_id false]
    (Instruction.pack (LiquidateObligation liquidity_amount)).

(** Creates an 'UpdateReserveConfig' instruction. *)
Definition update_reserve_config (config : ReserveConfig)
    (rate_limiter_config : RateLimiterConfig)
    (reserve_pubkey lending_market_pubkey lending_market_owner_pubkey pyth_product_pubkey
     pyth_price_pubkey switchboard_feed_pubkey : Pubkey) : Instruction :=
  let lending_market_authority_pubkey :=
    market_authority lending_market_pubkey program_id in
  mkInstruction program_id
    [AccountMeta_new reserve_pubkey false;
     AccountMeta_new_readonly lending_market_pubkey false;
     AccountMeta_new_readonly lending_market_authority_pubkey false;
     AccountMeta_new_readonly lending_market_owner_pubkey true;
     AccountMeta_new_readonly pyth_product_pubkey false;
     AccountMeta_new_readonly pyth_price_pubkey false;
     AccountMeta_new_readonly switchboard_feed_pubkey false]
    (Instruction.pack (UpdateReserveConfig config rate_limiter_config)).

(** Creates a `LiquidateObligationAndRedeemReserveCollateral` instruction. *)
Definition liquidate_obligation_and_redeem_reserve_collateral (liquidity_amount : Z)
    (source_liquidity_pubkey destination_collateral_pubkey destination_liquidity_pubkey
     repay_reserve_pubkey repay_reserve_liquidity_supply_pubkey withdraw_reserve_pubkey
     withdraw_reserve_collateral_mint_pubkey withdraw_reserve_collateral_supply_pubkey
     withdraw_reserve_liquidity_supply_pubkey withdraw_reserve_liquidity_fee_receiver_pubkey
     obligation_pubkey lending_market_pubkey user_transfer_authority_pubkey : Pubkey)
    : Instruction :=
  let lending_market_authority_pubkey :=
    market_authority lending_market_pubkey program_id in
  mkInstruction program_id
    [AccountMeta_new source_liquidity_pubkey false;
     AccountMeta_new destination_collateral_pubkey false;
     AccountMeta_new destination_liquidity_pubkey false;
     AccountMeta_new repay_reserve_pubkey false;
     AccountMeta_new repay_reserve_liquidity_supply_pubkey false;
     AccountMeta_new withdraw_reserve_pubkey false;
     AccountMeta_new withdraw_reserve_collateral_mint_pubkey false;
     AccountMeta_new withdraw_reserve_collateral_supply_pubkey false;
     AccountMeta_new withdraw_reserve_liquidity_supply_pubkey false;
     AccountMeta_new withdraw_reserve_liquidity_fee_receiver_pubkey false;
     AccountMeta_new obligation_pubkey false;
     AccountMeta_new lending_market_pubkey false;
     AccountMeta_new_readonly lending_market_authority_pubkey false;
     AccountMeta_new_readonly user_transfer_authority_pubkey true;
     AccountMeta_new_readonly spl_token_id false]
    (Instruction.pack (LiquidateObligationAndRedeemReserveCollateral liquidity_amount)).

(** Creates a `RedeemFees` instruction. *)
Definition redeem_fees
    (reserve_pubkey reserve_liquidity_fee_receiver_pubkey reserve_supply_liquidity_pubkey
     lending_market_pubkey : Pubkey) : Instruction :=
  let lending_market_authority_pubkey :=
    market_authority lending_market_pubkey program_id in
  mkInstruction program_id
    [AccountMeta_new reserve_pubkey false;
     AccountMeta_new reserve_liquidity_fee_receiver_pubkey false;
     AccountMeta_new reserve_supply_liquidity_pubkey false;
     AccountMeta_new_readonly lending_market_pubkey false;
     AccountMeta_new_readonly lending_market_authority_pubkey false;
     AccountMeta_new_readonly spl_token_id false]
    (Instruction.pack RedeemFees).

(** Creates a 'FlashBorrowReserveLiquidity' instruction. *)
Definition flash_borrow_reserve_liquidity (liquidity_amount : Z)
    (source_liquidity_pubkey destination_liquidity_pubkey reserve_pubkey lending_market_pubkey :
     Pubkey) : Instruction :=
  let lending_market_authority_pubkey :=
    market_authority lending_market_pubkey program_id in
  mkInstruction program_id
    [AccountMeta_new source_liquidity_pubkey false;
     AccountMeta_new destination_liquidity_pubkey false;
     AccountMeta_new reserve_pubkey false;
     AccountMeta_new_readonly lending_market_pubkey false;
     AccountMeta_new_readonly lending_market_authority_pubkey false;
     AccountMeta_new_readonly instructions_id false;
     AccountMeta_new_readonly spl_token_id false]
    (Instruction.pack (FlashBorrowReserveLiquidity liquidity_amount)).

(** Creates a 'FlashRepayReserveLiquidity' instruction. *)
Definition flash_repay_reserve_liquidity (liquidity_amount borrow_instruction_index : Z)
    (source_liquidity_pubkey destination_liquidity_pubkey reserve_liquidity_fee_receiver_pubkey
     host_fee_receiver_pubkey reserve_pubkey lending_market_pubkey
     user_transfer_authority_pubkey : Pubkey) : Instruction :=
  mkInstruction program_id
    [AccountMeta_new source_liquidity_pubkey false;
     AccountMeta_new destination_liquidity_pubkey false;
     AccountMeta_new reserve_liquidity_fee_receiver_pubkey false;
     AccountMeta_new host_fee_receiver_pubkey false;
     AccountMeta_new reserve_pubkey false;
     AccountMeta_new_readonly lending_market_pubkey false;
     AccountMeta_new_readonly user_transfer_authority_pubkey true;
     AccountMeta_new_readonly instructions_id false;
     AccountMeta_new_readonly spl_token_id false]
    (Instruction.pack (FlashRepayReserveLiquidity liquidity_amount borrow_instruction_index)).

(** Creates a `ForgiveDebt` instruction. *)
Definition forgive_debt (liquidity_amount : Z)
    (reserve_pubkey obligation_pubkey lending_market_pubkey lending_market_owner : Pubkey)
    : Instruction :=
  mkInstruction program_id
    [AccountMeta_new obligation_pubkey false;
     AccountMeta_new reserve_pubkey false;
     AccountMeta_new_readonly lending_market_pubkey false;
     AccountMeta_new_readonly lending_market_owner true]
    (Instruction.pack (ForgiveDebt liquidity_amount)).

(** [metadata.bump_seed = bump_seed]. *)
Definition set_bump_seed (m : LendingMarketMetadata) (bump_seed : Z) : LendingMarketMetadata :=
  mkLendingMarketMetadata bump_seed (market_name m) (market_description m)
    (market_image_url m) (lookup_tables m) (metadata_padding m).

(** Creates a `UpdateMarketMetadata` instruction. *)
Definition update_market_metadata (metadata : LendingMarketMetadata)
    (lending_market_pubkey lending_market_owner : Pubkey) : Instruction :=
  let '(lending_market_metadata_pubkey, bump_seed) :=
    find_program_address
      [pubkey_to_bytes lending_market_pubkey; list_byte_of_string "MetaData"] program_id in
  let metadata := set_bump_seed metadata bump_seed in
  mkInstruction program_id
    [AccountMeta_new_readonly lending_market_pubkey false;
     AccountMeta_new lending_market_owner true;
     AccountMeta_new lending_market_metadata_pubkey false;
     AccountMeta_new_readonly system_program_id false]
    (to_le_bytes 1 22 ++ metadata_bytes metadata).
End builders.

(** ** What the program sees of a built instruction *)

(** The accounts it is entered with. *)
Definition account_infos (ix : Instruction) : list AccountInfo :=
  map (fun m => mkAccountInfo (meta_pubkey m) (meta_is_signer m)) (instruction_accounts ix).

(** The accounts it may write to. *)
Definition writable_keys (ix : Instruction) : list Pubkey :=
  map meta_pubkey (List.filter meta_is_writable (instruction_accounts ix)).

(** What the instructions sysvar shows of it. *)
Definition tx_instruction (ix : Instruction) : TxInstruction :=
  mkTxInstruction (instruction_program_id ix) (map meta_pubkey (instruction_accounts ix))
    (instruction_data ix).
