(* ===== verification/BuilderSpec.v ===== *)
(** What an instruction made by a builder does when the program receives it, and
    which accounts it writes to. *)

From S2P Require Import Builders.
From Stdlib Require Import Init.Byte Strings.String.
From S2P Require Import Prelude Errors Common Rate Decimal Codec LastUpdate.
From S2P Require Import RateLimiter LendingMarket ReserveConfig.
From S2P Require Import ReserveLiquidity ReserveCollateral Reserve Obligation Instruction.
From S2P Require Import Runtime ProcessorHelpers ProcessMarket ProcessReserve ProcessDeposit.
From S2P Require Import ProcessConfig ProcessObligation ProcessCollateral ProcessBorrow.
From S2P Require Import ProcessLiquidation ProcessFlash Processor AccountSpec Frames.
From S2P Require Import FlashSpec ExampleRuntime BorrowSpec.

(** ** Market metadata on the wire *)

Record metadata_wf (m : LendingMarketMetadata) : Prop := {
  wf_name : length (market_name m) = MARKET_NAME_SIZE;
  wf_description : length (market_description m) = MARKET_DESCRIPTION_SIZE;
  wf_image_url : length (market_image_url m) = MARKET_IMAGE_URL_SIZE;
  wf_tables : exists a b c d, lookup_tables m = [a; b; c; d] /\
    is_u256 a /\ is_u256 b /\ is_u256 c /\ is_u256 d;
  wf_padding : length (metadata_padding m) = PADDING_SIZE;
}.

Lemma metadata_from_bytes tag m :
  metadata_wf m -> is_u8 (metadata_bump_seed m) ->
  new_from_bytes (tag :: metadata_bytes m) = Ok m.
Proof.
  intros [Hn Hd Hu (a & b & c & d & Ht & Ha & Hb & Hc & Hdd) Hp] Hs.
  destruct m as [s n de u t p]. cbn [metadata_bump_seed market_name market_description
    market_image_url lookup_tables metadata_padding] in *. subst t.
  set (tables := concat (pubkey_to_bytes <$> [a; b; c; d])).
  assert (Hm : metadata_bytes (mkLendingMarketMetadata s n de u [a; b; c; d] p)
    = concat [to_le_bytes 1 s; n; de; u; tables; p]) by (unfold metadata_bytes; cbn [concat];
      by rewrite app_nil_r).
  assert (Hw : length <$> [to_le_bytes 1 s; n; de; u; tables; p]
    = lending_market_metadata_widths).
  { unfold tables. cbn [fmap list_fmap concat]. rewrite !length_app, !length_pubkey_to_bytes.
    rewrite length_to_le_bytes, Hn, Hd, Hu, Hp. reflexivity. }
  unfold new_from_bytes. rewrite Hm. rewrite <- (app_nil_r (concat _)).
  rewrite (array_refs_fields _ _ [] Hw). rewrite app_nil_r.
  assert (Hl : length (concat [to_le_bytes 1 s; n; de; u; tables; p])
    = total_width lending_market_metadata_widths).
  { rewrite <- Hw. cbn [concat fmap list_fmap total_width]. rewrite !length_app.
    cbn [length]. lia. }
  rewrite Hl, Nat.eqb_refl. cbn [negb]. rewrite from_to_le_bytes by done.
  unfold tables. rewrite <- (app_nil_r (concat _)).
  rewrite (array_refs_fields [32; 32; 32; 32]%nat (pubkey_to_bytes <$> [a; b; c; d]) [])
    by (cbn [fmap list_fmap]; by rewrite !length_pubkey_to_bytes).
  cbn [fmap list_fmap]. by rewrite !pubkey_from_to_bytes by done.
Qed.

(** ** The meaning of a built instruction

    Each builder with the operation it stands for, on the accounts named by its
    arguments: for the handlers that separate reading their accounts from their
    work, the work; for the others, the handler on the accounts in the order it
    reads them. *)

Section meaning.
Context {R : Runtime} {K : KnownIds} (program_id : Pubkey).

Abbreviation authority market := (account (market_authority market program_id)).
Abbreviation token_program := (account spl_token_id).
Abbreviation rent_sysvar := (account rent_id).

Inductive means : Builders.Instruction -> (World -> result World) -> Prop :=
  | means_init_lending_market owner quote_currency market oracle switchboard :
      instruction_wf (InitLendingMarket owner quote_currency) ->
      means
        (Builders.init_lending_market program_id owner quote_currency market oracle switchboard)
        (process_init_lending_market program_id owner quote_currency
           [account market; rent_sysvar; token_program; account oracle; account switchboard])
  | means_set_lending_market_owner market owner new_owner limits liquidator risk :
      instruction_wf (SetLendingMarketOwnerAndConfig new_owner limits liquidator risk) ->
      means
        (Builders.set_lending_market_owner_and_config program_id market owner new_owner limits
           liquidator risk)
        (process_set_lending_market_owner_and_config program_id new_owner limits liquidator
           risk [account market; signer owner])
  | means_init_reserve n config source dest reserve mint supply coll_mint coll_supply
      pyth_product pyth_price feed market owner user :
      instruction_wf (InitReserve n config) ->
      means
        (Builders.init_reserve program_id n config source dest reserve mint supply coll_mint
           coll_supply pyth_product pyth_price feed market owner user)
        (process_init_reserve program_id n config
           [account source; account dest; account reserve; account mint; account supply;
            account (fee_receiver config); account coll_mint; account coll_supply;
            account pyth_product; account pyth_price; account feed; account market;
            authority market; signer owner; signer user; rent_sysvar; token_program])
  | means_refresh_reserve reserve pyth feed :
      feed <> clock_ID ->
      means (Builders.refresh_reserve program_id reserve pyth feed)
        (_refresh_reserve program_id (account reserve) (account pyth) (Some (account feed)))
  | means_deposit n source dest reserve supply coll_mint market user :
      is_u64 n -> n <> 0 ->
      means
        (Builders.deposit_reserve_liquidity program_id n source dest reserve supply coll_mint
           market user)
        (fun w =>
           let? w := _refresh_reserve_interest program_id (account reserve) w in
           let? ' (w, _) :=
             _deposit_reserve_liquidity program_id n (account source) (account dest)
               (account reserve) (account supply) (account coll_mint) (account market)
               (authority market) (signer user) token_program w in
           Ok w)
  | means_redeem n source dest reserve coll_mint supply market user :
      is_u64 n -> n <> 0 ->
      means
        (Builders.redeem_reserve_collateral program_id n source dest reserve coll_mint supply
           market user)
        (fun w =>
           let? ' (w, _) :=
             _redeem_reserve_collateral program_id n (account source) (account dest)
               (account reserve) (account coll_mint) (account supply) (account market)
               (authority market) (signer user) token_program true w in
           mark_stale_in_account (account reserve) w)
  | means_init_obligation obligation market owner :
      means (Builders.init_obligation program_id obligation market owner)
        (process_init_obligation program_id
           [account obligation; account market; signer owner; rent_sysvar; token_program])
  | means_refresh_obligation obligation reserves :
      means (Builders.refresh_obligation program_id obligation reserves)
        (process_refresh_obligation program_id (account obligation :: map account reserves))
  | means_deposit_collateral n source dest reserve obligation market owner user :
      is_u64 n -> n <> 0 ->
      means
        (Builders.deposit_obligation_collateral program_id n source dest reserve obligation
           market owner user)
        (fun w =>
           let? w := _refresh_reserve_interest program_id (account reserve) w in
           let? w :=
             _deposit_obligation_collateral program_id n (account source) (account dest)
               (account reserve) (account obligation) (account market) (signer owner)
               (signer user) token_program w in
           mark_stale_in_account (account reserve) w)
  | means_deposit_and_pledge n source user_coll reserve supply coll_mint market dest_coll
      obligation owner pyth feed user :
      is_u64 n -> n <> 0 ->
      means
        (Builders.deposit_reserve_liquidity_and_obligation_collateral program_id n source
           user_coll reserve supply coll_mint market dest_coll obligation owner pyth feed user)
        (fun w =>
           let? w := _refresh_reserve_interest program_id (account reserve) w in
           let? ' (w, collateral) :=
             _deposit_reserve_liquidity program_id n (account source) (account user_coll)
               (account reserve) (account supply) (account coll_mint) (account market)
               (authority market) (signer user) token_program w in
           let? w := _refresh_reserve_interest program_id (account reserve) w in
           let? w :=
             _deposit_obligation_collateral program_id collateral (account user_coll)
               (account dest_coll) (account reserve) (account obligation) (account market)
               (signer owner) (signer user) token_program w in
           mark_stale_in_account (account reserve) w)
  | means_withdraw_and_redeem n source dest_coll reserve obligation market dest_liquidity
      coll_mint supply owner user :
      is_u64 n ->
      means
        (Builders.withdraw_obligation_collateral_and_redeem_reserve_collateral program_id n
           source dest_coll reserve obligation market dest_liquidity coll_mint supply owner
           user)
        (fun w =>
           let? ' (w, withdrawn) :=
             _withdraw_obligation_collateral program_id n (account source)
               (account dest_coll) (account reserve) (account obligation) (account market)
               (authority market) (signer owner) token_program true w in
           let? ' (w, _) :=
             _redeem_reserve_collateral program_id withdrawn (account dest_coll)
               (account dest_liquidity) (account reserve) (account coll_mint)
               (account supply) (account market) (authority market) (signer user)
               token_program true w in
           Ok w)
  | means_withdraw n source dest reserve obligation market owner :
      is_u64 n -> n <> 0 ->
      means
        (Builders.withdraw_obligation_collateral program_id n source dest reserve obligation
           market owner)
        (fun w =>
           let? ' (w, _) :=
             _withdraw_obligation_collateral program_id n (account source) (account dest)
               (account reserve) (account obligation) (account market) (authority market)
               (signer owner) token_program false w in
           Ok w)
  | means_borrow n source dest reserve fees obligation market owner host :
      is_u64 n -> n <> 0 ->
      means
        (Builders.borrow_obligation_liquidity program_id n source dest reserve fees obligation
           market owner host)
        (_borrow_obligation_liquidity program_id n (account source) (account dest)
           (account reserve) (account fees) (account obligation) (account market)
           (authority market) (signer owner) token_program (push_option account host))
  | means_repay n source dest reserve obligation market user :
      is_u64 n ->
      means
        (Builders.repay_obligation_liquidity program_id n source dest reserve obligation
           market user)
        (process_repay_obligation_liquidity program_id n
           [account source; account dest; account reserve; account obligation;
            account market; signer user; token_program])
  | means_update_config config limits reserve market owner pyth_product pyth_price feed :
      instruction_wf (UpdateReserveConfig config limits) ->
      means
        (Builders.update_reserve_config program_id config limits reserve market owner
           pyth_product pyth_price feed)
        (process_update_reserve_config program_id config limits
           [account reserve; account market; authority market; signer owner;
            account pyth_product; account pyth_price; account feed])
  | means_liquidate_and_redeem n source dest_coll dest_liquidity repay_reserve repay_supply
      reserve coll_mint coll_supply supply fees obligation market user :
      is_u64 n -> n <> 0 ->
      means
        (Builders.liquidate_obligation_and_redeem_reserve_collateral program_id n source
           dest_coll dest_liquidity repay_reserve repay_supply reserve coll_mint coll_supply
           supply fees obligation market user)
        (fun w =>
           let? ' (w, (seized, bonus)) :=
             _liquidate_obligation program_id n (account source) (account dest_coll)
               (account repay_reserve) (account repay_supply) (account reserve)
               (account coll_supply) (account obligation) (account market)
               (authority market) (signer user) token_program w in
           redeem_liquidated program_id seized bonus (account dest_coll)
             (account dest_liquidity) (account reserve) (account coll_mint)
             (account supply) (account fees) (account market) (authority market)
             (signer user) token_program w)
  | means_redeem_fees reserve fees supply market :
      means (Builders.redeem_fees program_id reserve fees supply market)
        (process_redeem_fees program_id
           [account reserve; account fees; account supply; account market;
            authority market; token_program])
  | means_flash_borrow n source dest reserve market :
      is_u64 n ->
      means (Builders.flash_borrow_reserve_liquidity program_id n source dest reserve market)
        (fun w =>
           let? w := _refresh_reserve_interest program_id (account reserve) w in
           _flash_borrow_reserve_liquidity program_id n (account source) (account dest)
             (account reserve) (account market) (authority market)
             (account instructions_id) token_program w)
  | means_flash_repay n index source dest fees host reserve market user :
      is_u64 n -> is_u8 index ->
      means
        (Builders.flash_repay_reserve_liquidity program_id n index source dest fees host
           reserve market user)
        (_flash_repay_reserve_liquidity program_id n index (account source) (account dest)
           (account fees) (account host) (account reserve) (account market) (signer user)
           (account instructions_id) token_program)
  | means_forgive_debt n reserve obligation market owner :
      is_u64 n ->
      means (Builders.forgive_debt program_id n reserve obligation market owner)
        (process_forgive_debt program_id n
           [account obligation; account reserve; account market; signer owner])
  | means_update_metadata m market owner key bump :
      find_program_address [pubkey_to_bytes market; list_byte_of_string "MetaData"] program_id
        = (key, bump) ->
      metadata_wf m -> is_u8 bump ->
      means (Builders.update_market_metadata program_id m market owner)
        (process_update_market_metadata program_id (set_bump_seed m bump)
           [account market; signer owner; account key; account system_program_id])
  | means_liquidate n source dest_coll repay_reserve repay_supply reserve coll_supply
      obligation market user :
      is_u64 n ->
      means
        (Builders.liquidate_obligation program_id n source dest_coll repay_reserve
           repay_supply reserve coll_supply obligation market user)
        (fun _ => fail DeprecatedInstruction).

(** A known address that is not the clock's is not skipped. *)
Lemma skip_clock_cons info infos : key info <> clock_ID -> skip_clock (info :: infos) = info :: infos.
Proof. intros Hne. cbn. by destruct (Z.eqb_spec (key info) clock_ID). Qed.

Lemma unpack_packed i : instruction_wf i -> Instruction.unpack (Instruction.pack i) = Ok i.
Proof. intros Hwf. rewrite <- (app_nil_r (Instruction.pack i)). by apply unpack_pack_app. Qed.

Lemma nonzero_guard {A : Type} n e (k : result A) :
  n <> 0 -> (reject_if n =? 0 with e then k) = k.
Proof. intros Hn. by destruct (Z.eqb_spec n 0). Qed.

Context (Htoken : spl_token_id <> clock_ID).

Ltac read_clock :=
  rewrite skip_clock_cons by (cbn [key]; assumption).

(** A guard on the amount, then the accounts in order. *)
Ltac read_accounts :=
  rewrite ?nonzero_guard by assumption;
  repeat first [progress cbn [with_next next_account_info obind] | read_clock].

(** The fields of a built instruction. *)
Ltac open_built :=
  unfold account_infos, Builders.init_lending_market,
    Builders.set_lending_market_owner_and_config, Builders.init_reserve,
    Builders.refresh_reserve, Builders.deposit_reserve_liquidity,
    Builders.redeem_reserve_collateral, Builders.init_obligation,
    Builders.deposit_obligation_collateral,
    Builders.deposit_reserve_liquidity_and_obligation_collateral,
    Builders.withdraw_obligation_collateral_and_redeem_reserve_collateral,
    Builders.withdraw_obligation_collateral, Builders.borrow_obligation_liquidity,
    Builders.repay_obligation_liquidity, Builders.liquidate_obligation,
    Builders.update_reserve_config,
    Builders.liquidate_obligation_and_redeem_reserve_collateral, Builders.redeem_fees,
    Builders.flash_borrow_reserve_liquidity, Builders.flash_repay_reserve_liquidity,
    Builders.forgive_debt, Builders.refresh_obligation;
  cbn [instruction_data instruction_accounts map meta_pubkey meta_is_signer
       AccountMeta_new AccountMeta_new_readonly app].

Lemma metadata_runs m market owner k bump w :
  find_program_address [pubkey_to_bytes market; list_byte_of_string "MetaData"] program_id
    = (k, bump) ->
  metadata_wf m -> is_u8 bump ->
  let ix := Builders.update_market_metadata program_id m market owner in
  process_instruction program_id (account_infos ix) (instruction_data ix) w =
  process_update_market_metadata program_id (set_bump_seed m bump)
    [account market; signer owner; account k; account system_program_id] w.
Proof.
  intros Hf [] Hb. unfold Builders.update_market_metadata. rewrite Hf.
  unfold process_instruction, account_infos. cbn [instruction_data instruction_accounts map].
  change (Instruction.unpack (to_le_bytes 1 22 ++ ?t))
    with (Ok (E := ProgramError) UpdateMarketMetadata).
  cbn [obind]. change (to_le_bytes 1 22 ++ ?t) with (Byte.x16 :: t).
  rewrite metadata_from_bytes by done. reflexivity.
Qed.

Ltac open_handlers :=
  unfold process_refresh_reserve, process_deposit_reserve_liquidity,
    process_redeem_reserve_collateral, process_deposit_obligation_collateral,
    process_deposit_reserve_liquidity_and_obligation_collateral,
    process_withdraw_obligation_collateral_and_redeem_reserve_liquidity,
    process_withdraw_obligation_collateral, process_borrow_obligation_liquidity,
    process_liquidate_obligation_and_redeem_reserve_collateral,
    process_flash_borrow_reserve_liquidity, process_flash_repay_reserve_liquidity.

Lemma built_runs ix f w :
  means ix f ->
  process_instruction program_id (account_infos ix) (instruction_data ix) w = f w.
Proof.
  intros Hm; destruct Hm;
    try lazymatch goal with
        | |- context [Builders.update_market_metadata] => by apply metadata_runs
        end.
  all: unfold process_instruction; open_built;
    (rewrite unpack_packed by (first [assumption | exact I | split; assumption]));
    cbn [obind]; rewrite ?map_map.
  all: open_handlers; read_accounts.
  all: lazymatch goal with
       | host : option Pubkey |- _ => by destruct host
       | Hfeed : ?feed <> clock_ID |- _ = _refresh_reserve _ _ _ (Some (account ?feed)) _ =>
           cbn [key]; rewrite (proj2 (Z.eqb_neq _ _) Hfeed); reflexivity
       | |- _ => reflexivity
       end.
Qed.

(** Everything the meaning writes, the builder marked writable. *)
Lemma means_frame {L : RuntimeLaws R program_id} ix f w w' :
  means ix f -> f w = Ok w' -> keeps_but (program_id:=program_id) (writable_keys ix) w w'.
Proof.
  intros Hm H; destruct Hm;
    lazymatch goal with
    | Hf : find_program_address _ _ = _ |- _ =>
        unfold Builders.update_market_metadata; rewrite Hf
    | |- _ => idtac
    end;
    try discriminate; unfold writable_keys; open_built; try (minv H); frame.
Qed.

(** C18: the builders and the program agree.  An instruction made by a builder, when
    the program receives it, decodes to the operation the builder is named after,
    with the amounts and configuration it was given, and the handler reads every
    account in the role that the builder's argument names: what runs is the
    operation [means] lists for the builder.  (The token program, which follows
    the place of the optional clock account, is not the clock.) *)
Theorem built_instruction_means (ix : Builders.Instruction) (f : World -> result World)
    (w : World) (Hm : means ix f) :
  process_instruction program_id (account_infos ix) (instruction_data ix) w = f w.
Proof. by apply built_runs. Qed.

(** C22: a built instruction stays within the accounts it marks writable.  When it
    succeeds, every account of the program outside them holds the bytes it held, so
    the runtime's check that read-only accounts are unchanged never rejects it. *)
Theorem built_instruction_frame {L : RuntimeLaws R program_id} (ix : Builders.Instruction)
    (f : World -> result World) (w w' : World) (Hm : means ix f)
    (H : process_instruction program_id (account_infos ix) (instruction_data ix) w = Ok w') :
  keeps_but (program_id:=program_id) (writable_keys ix) w w'.
Proof. rewrite (built_runs ix f w Hm) in H. by eapply means_frame. Qed.
End meaning.

(** ** A flash loan assembled with the builders *)

Section flash_loan.
Context {R : Runtime} {K : KnownIds} (program_id : Pubkey).
Implicit Types (ixs : list TxInstruction) (w : World).

(** Other instructions leave the search as it is. *)
Lemma scan_skips n key cur before ixs found :
  Forall (not_flash program_id) before ->
  scan_repays program_id n key cur (before ++ ixs) found =
  scan_repays program_id n key cur ixs found.
Proof.
  induction 1 as [|ixn before Hn _ IH]; [done|]. cbn [app scan_repays].
  destruct (Z.eqb_spec (ix_program_id ixn) program_id) as [Hp|Hp]; [|done]. cbn [negb].
  destruct Hn as [Hn|(u & -> & Hb & Hr)]; [done|]. cbn [obind].
  destruct u; try done; [by destruct (Hb liquidity_amount)|].
  by destruct (Hr liquidity_amount borrow_instruction_index).
Qed.

(** The search finds the one repayment. *)
Lemma scan_finds n key cur before ixn after :
  Forall (not_flash program_id) before -> Forall (not_flash program_id) after ->
  repays program_id n key cur ixn ->
  scan_repays program_id n key cur (before ++ ixn :: after) false = Ok true.
Proof.
  intros Hb Ha (Hp & Hu & Hk). rewrite scan_skips by done. cbn [scan_repays].
  rewrite Hp, Z.eqb_refl, Hu. unfold Pubkey in *.
  cbn [negb obind]. rewrite Hk. mred. rewrite !Z.eqb_refl. cbn [negb].
  rewrite <- (app_nil_r after). by rewrite scan_skips.
Qed.

(** C27: a flash loan assembled with the builders goes through.  In a transaction
    whose instruction [i] is a built flash borrow, and in which one later
    instruction is a built flash repayment of the same amount to the same reserve
    naming index [i], and no other later instruction of the program is a flash
    loan, the search of the borrow finds the repayment, and the repayment accepts
    the borrow: neither check of the protocol refuses it. *)
Theorem built_flash_loan_accepted (n i : Z) (before middle after : list TxInstruction)
    (source dest reserve market repay_source repay_dest fees host user : Pubkey)
    (sysvar : AccountInfo) (w1 w2 : World)
    (txs := before
       ++ tx_instruction
            (Builders.flash_borrow_reserve_liquidity program_id n source dest reserve market)
       :: middle
       ++ tx_instruction
            (Builders.flash_repay_reserve_liquidity program_id n i repay_source repay_dest
               fees host reserve market user)
       :: after)
    (Hn : is_u64 n) (Hi : is_u8 i) (Hlen : Z.of_nat (length before) = i)
    (Hmiddle : Forall (not_flash program_id) middle)
    (Hafter : Forall (not_flash program_id) after)
    (Hsysvar1 : instructions_sysvar (key sysvar) (get w1 sysvar) txs)
    (Hsysvar2 : instructions_sysvar (key sysvar) (get w2 sysvar) txs)
    (Hcur : load_current_index w2 sysvar = Ok (i + 1 + Z.of_nat (length middle)))
    (Htop : stack_height w2 <= TRANSACTION_LEVEL_STACK_HEIGHT) :
  find_flash_repay flash_fuel program_id n reserve i sysvar w1 i false = Ok true /\
  check_flash_borrow program_id n i reserve sysvar w2 = Ok tt.
Proof.
  assert (Hborrow : txs !! Z.to_nat i = Some (tx_instruction
    (Builders.flash_borrow_reserve_liquidity program_id n source dest reserve market))).
  { unfold txs. rewrite <- Hlen, Nat2Z.id. by rewrite list_lookup_middle. }
  split.
  - rewrite (flash_fuel_enough _ _ _ _ _ _ _ Hsysvar1) by lia. unfold txs.
    replace (Z.to_nat (i + 1)) with (length before + 1)%nat by lia.
    rewrite <- drop_drop, drop_app_length. cbn [drop skipn].
    apply scan_finds; [done..|]. unfold repays. cbn [tx_instruction].
    split_and!; [done| |done]. cbn [ix_data].
    by apply unpack_packed.
  - unfold check_flash_borrow. rewrite Hcur. cbn [obind].
    unfold is_cpi_call, load_instruction_at.
    rewrite !(proj2 Hsysvar2) by lia. rewrite Hborrow.
    assert (Hrepay : txs !! Z.to_nat (i + 1 + Z.of_nat (length middle))
      = Some (tx_instruction (Builders.flash_repay_reserve_liquidity program_id n i
          repay_source repay_dest fees host reserve market user))).
    { unfold txs. rewrite app_comm_cons, app_assoc. apply list_lookup_middle.
      rewrite length_app. cbn [length]. lia. }
    rewrite Hrepay. cbn [obind tx_instruction ix_program_id ix_data ix_accounts
      Builders.flash_repay_reserve_liquidity Builders.flash_borrow_reserve_liquidity
      instruction_program_id instruction_data instruction_accounts].
    rewrite Z.eqb_refl. cbn [negb].
    destruct (Z.ltb_spec TRANSACTION_LEVEL_STACK_HEIGHT (stack_height w2)); [lia|].
    cbn [obind]. destruct (Z.ltb_spec (i + 1 + Z.of_nat (length middle)) i); [lia|].
    rewrite unpack_packed by done. cbn [obind map lookup list_lookup unwrap_option].
    mred. cbn [meta_pubkey AccountMeta_new]. by rewrite !Z.eqb_refl.
Qed.
End flash_loan.

(** ** A borrow, and a flash loan around an instruction of another program *)

#[export] Instance example_ids : KnownIds := {
  spl_token_id := example_token_program;
  rent_id := 9;
  instructions_id := 8;
}.

Definition built_borrow : Builders.Instruction :=
  Builders.borrow_obligation_liquidity (H := example_runtime [] 0) example_program 1000000
    2 60 20 7 30 10 78 None.

Definition built_borrow_means :=
  means_borrow (R := example_runtime [] 0) example_program 1000000 2 60 20 7 30 10 78 None
    ltac:(by vm_compute) ltac:(lia).

Lemma built_instruction_means_witness :
  is_ok (process_instruction (H := example_runtime [] 0) example_program
    (account_infos built_borrow) (instruction_data built_borrow) borrow_world) = true.
Proof.
  rewrite (built_instruction_means (R := example_runtime [] 0) (K := example_ids) example_program
    ltac:(vm_compute; discriminate) built_borrow _
    borrow_world built_borrow_means).
  vm_compute. reflexivity.
Defined.

Lemma built_instruction_frame_witness :
  exists w', process_instruction (H := example_runtime [] 0) example_program
      (account_infos built_borrow) (instruction_data built_borrow) borrow_world = Ok w' /\
    keeps_but (program_id := example_program) [2; 60; 20; 7; 30; 10] borrow_world w'.
Proof.
  assert (Hok : is_ok (process_instruction (H := example_runtime [] 0) example_program
    (account_infos built_borrow) (instruction_data built_borrow) borrow_world) = true)
    by (vm_compute; reflexivity).
  apply is_ok_true in Hok as [w' H]. exists w'. split; [exact H|].
  exact (built_instruction_frame (R := example_runtime [] 0) (K := example_ids) example_program
    ltac:(vm_compute; discriminate) built_borrow _
    borrow_world w' built_borrow_means H).
Defined.

Definition built_flash_loan : list TxInstruction :=
  Eval vm_compute in
    [tx_instruction (Builders.flash_borrow_reserve_liquidity (H := example_runtime [] 0)
       example_program 1000000 2 60 20 10);
     mkTxInstruction 99 [] [];
     tx_instruction (Builders.flash_repay_reserve_liquidity example_program
       1000000 0 60 2 7 61 20 10 62)].

Lemma built_flash_loan_accepted_witness :
  find_flash_repay (H := example_runtime built_flash_loan 2) flash_fuel example_program
    1000000 20 0 (account 8) flash_world 0 false = Ok true /\
  check_flash_borrow (H := example_runtime built_flash_loan 2) example_program 1000000 0 20
    (account 8) flash_world = Ok tt.
Proof.
  assert (Hs : instructions_sysvar (H := example_runtime built_flash_loan 2) 8
    (get flash_world (account 8)) built_flash_loan) by (split; [done|by intros i _]).
  apply (built_flash_loan_accepted (R := example_runtime built_flash_loan 2)
    example_program 1000000 0 [] [mkTxInstruction 99 [] []] [] 2 60 20 10 60 2 7 61 62
    (account 8) flash_world flash_world
    ltac:(by vm_compute) ltac:(by vm_compute) eq_refl
    ltac:(constructor; [left; vm_compute; discriminate|constructor])
    ltac:(constructor) Hs Hs eq_refl ltac:(vm_compute; discriminate)).
Defined.
