(* ===== verification/OracleSpec.v ===== *)
(** What a price that the program accepts is worth: from which account it was
    read, how recent and how certain it is, and its exact value. *)

From Stdlib Require Import Floats.SpecFloat.
From S2P Require Import Prelude Errors Common Rate Decimal Codec Runtime Oracles.
From S2P Require Import ExampleRuntime.

(** [mantissa * 10 ^ expo] in units of [1 / WAD], rounded down. *)
Definition scaled_price (mantissa expo : Z) : Z :=
  if 0 <=? expo then WAD * mantissa * 10 ^ expo else WAD * mantissa / 10 ^ (- expo).

Lemma scaled_price_nonneg m e : 0 <= m -> 0 <= scaled_price m e.
Proof.
  intros Hm. pose proof WAD_pos. unfold scaled_price.
  destruct (0 <=? e) eqn:He.
  - pose proof (Z.pow_nonneg 10 e). nia.
  - apply div_nonneg; [nia|]. apply Z.pow_pos_nonneg; lia.
Qed.

Lemma from_int_raw n : dec_raw (from_int n) = WAD * n.
Proof. reflexivity. Qed.

Lemma try_into_u64_inv x y : try_into_u64 x = Ok y -> y = x /\ 0 <= x.
Proof. unfold try_into_u64. intros H. minv H. lia. Qed.

Lemma pyth_price_to_decimal_inv p d :
  pyth_price_to_decimal p = Ok d ->
  0 <= pyth_price p /\ dec_raw d = scaled_price (pyth_price p) (pyth_expo p).
Proof.
  unfold pyth_price_to_decimal, scaled_price. intros H. minv H.
  apply try_into_u64_inv in E as [-> Hp]. split; [done|].
  destruct (0 <=? pyth_expo p) eqn:He; minv H.
  - apply math_Ok_inv, checked_pow_Some_inv in E as [-> _].
    apply dec_mul_u64_inv in H as [-> _]. by rewrite from_int_raw.
  - apply math_Ok_inv in E. unfold checked_abs_i32 in E.
    destruct (pyth_expo p =? _); [discriminate|]. injection E as <-.
    apply math_Ok_inv, checked_pow_Some_inv in E0 as [-> _].
    apply dec_div_u64_inv in H as [-> _]. rewrite from_int_raw.
    by rewrite Z.abs_neq by lia.
Qed.

(** The quotient of two whole numbers, rounded down. *)
Lemma div_from_int m n d :
  try_div (from_int m) (from_int n) = Ok d -> 0 <= m -> 0 < n ->
  dec_raw d = WAD * m / n.
Proof.
  intros H Hm Hn. apply dec_div_inv in H as (-> & _ & _). rewrite !from_int_raw.
  pose proof WAD_pos.
  rewrite (Z.mul_comm (WAD * m) WAD). by rewrite Z.div_mul_cancel_l by lia.
Qed.

Section prices.
Context `{Runtime} (w : World).

(** A slot within the last [STALE_AFTER_SLOTS_ELAPSED]. *)
Definition recent (opened : Z) : Prop :=
  opened <= current_slot w < opened + STALE_AFTER_SLOTS_ELAPSED.

Record pyth_quote (info : AccountInfo) (price ema : Decimal) : Prop := {
  pq_not_null : key info <> NULL_PUBKEY;
  pq_price : exists acc p,
    load_price_account (data_of w info) = Some acc /\
    (* not older than the bound, by the oracle's own check *)
    get_price_no_older_than acc (clock w) STALE_AFTER_SLOTS_ELAPSED = Some p /\
    (* certain up to a tenth *)
    0 <= pyth_price p /\
    (pyth_price p < u64_max -> PYTH_CONFIDENCE_RATIO * pyth_conf p <= pyth_price p) /\
    dec_raw price = scaled_price (pyth_price p) (pyth_expo p) /\
    (let e := get_ema_price_unchecked acc (key info) in
     0 <= pyth_price e /\ dec_raw ema = scaled_price (pyth_price e) (pyth_expo e));
}.

Lemma get_pyth_price_inv info price ema :
  get_pyth_price w info = Ok (price, ema) -> pyth_quote info price ema.
Proof.
  unfold get_pyth_price. intros H0. minv H0.
  apply ok_or_Ok_inv in E, E0. apply try_into_u64_inv in E1 as [-> Hp].
  apply pyth_price_to_decimal_inv in E2 as [He1 He2], E3 as [_ Hv].
  split; [lia|]. exists v, v0. split_and!; try done.
  intros Hlt. unfold saturating_mul in *. unfold PYTH_CONFIDENCE_RATIO, u64_max in *. lia.
Qed.

Inductive switchboard_quote (info : AccountInfo) (price : Decimal) : Prop :=
  | switchboard_v2 feed d :
      owner_of w info = switchboard_v2_mainnet_id \/
      owner_of w info = switchboard_v2_devnet_id ->
      aggregator_new_from_bytes (data_of w info) = Ok feed ->
      aggregator_get_result feed = Ok d ->
      recent (latest_round_open_slot feed) ->
      0 <= sb_mantissa d ->
      dec_raw price = WAD * sb_mantissa d / 10 ^ sb_scale d ->
      switchboard_quote info price
  | switchboard_v1 aggregator round opened :
      get_aggregator (key info) (get w info) = Ok aggregator ->
      get_aggregator_result aggregator = Ok round ->
      round_open_slot round = Some opened ->
      recent opened ->
      (* the float times 10^9, as an integer, over 10^9 *)
      dec_raw price =
        WAD * f64_as_u128 (SFmul 53 1024 (f64_of_u64 (10 ^ 9))
                             (default (S754_zero false) (round_result round))) / 10 ^ 9 ->
      switchboard_quote info price.

Lemma f64_as_u128_nonneg x : 0 <= f64_as_u128 x.
Proof.
  destruct x as [|[]| |[] m e]; cbn; try lia. apply Z.min_glb; [lia|].
  by apply Z.shiftl_nonneg.
Qed.

Lemma elapsed_recent opened v :
  math (checked_sub (current_slot w) opened) = Ok v ->
  (STALE_AFTER_SLOTS_ELAPSED <=? v) = false -> recent opened.
Proof.
  intros Hv Hs. apply math_Ok_inv, checked_sub_Some_inv in Hv as [-> ?].
  unfold recent. lia.
Qed.

Lemma get_switchboard_price_inv info price :
  get_switchboard_price w info = Ok price ->
  key info <> NULL_PUBKEY /\ switchboard_quote info price.
Proof.
  unfold get_switchboard_price. intros H0. minv H0. split; [lia|].
  destruct (_ || _) eqn:Ho.
  - unfold get_switchboard_price_v2 in H0. minv H0.
    apply unwrap_option_Ok_inv, checked_pow_Some_inv in E2 as [-> _].
    eapply switchboard_v2; [lia|exact E|exact E1|by eapply elapsed_recent|lia|].
    destruct (Z.le_gt_cases 0 (sb_scale v1)) as [Hs|Hs].
    + apply div_from_int in H0; [done|lia|]. by apply Z.pow_pos_nonneg.
    + rewrite Z.pow_neg_r in * by lia. apply dec_div_inv in H0 as (_ & _ & Hz). done.
  - minv H0. apply unwrap_option_Ok_inv in E, E2.
    eapply switchboard_v1; [exact E0|exact E1|exact E2|by eapply elapsed_recent|].
    apply dec_div_u64_inv in H0 as [-> _]. by rewrite from_int_raw.
Qed.

Lemma switchboard_nonneg info price : switchboard_quote info price -> 0 <= dec_raw price.
Proof.
  pose proof WAD_pos. intros [feed d _ _ _ _ Hm ->|agg rd op _ _ _ _ ->].
  - destruct (Z.le_gt_cases 0 (sb_scale d)).
    + apply div_nonneg; [nia|by apply Z.pow_pos_nonneg].
    + by rewrite Z.pow_neg_r, Z.div_0_r.
  - apply div_nonneg; [|lia].
    pose proof (f64_as_u128_nonneg (SFmul 53 1024 (f64_of_u64 (10 ^ 9))
      (default (S754_zero false) (round_result rd)))). nia.
Qed.

(** No price is negative. *)
Lemma pyth_price_nonneg info price ema :
  get_pyth_price w info = Ok (price, ema) -> 0 <= dec_raw price /\ 0 <= dec_raw ema.
Proof.
  intros [_ (acc & p & _ & _ & H1 & _ & -> & H3 & ->)]%get_pyth_price_inv.
  split; by apply scaled_price_nonneg.
Qed.

Lemma get_price_nonneg feed pyth price smoothed :
  get_price w feed pyth = Ok (price, smoothed) ->
  0 <= dec_raw price /\ forall s, smoothed = Some s -> 0 <= dec_raw s.
Proof.
  unfold get_price. intros Hp. destruct (get_pyth_price w pyth) as [[p s]|e|] eqn:Hq; [| |done].
  - minv Hp. subst. apply pyth_price_nonneg in Hq as [? ?]. split; [done|]. by intros ? [= <-].
  - destruct feed as [info|]; [|done]. minv Hp. subst.
    apply get_switchboard_price_inv in E as [_ Hsq]. split; [|done]. by eapply switchboard_nonneg.
Qed.

(** C21: a price the program accepts is a recent quote of an oracle.  When [get_price]
    succeeds, either the price is that of the Pyth account, which is not the null
    account, reported within the last 240 slots with a confidence interval of at most a
    tenth of it, and the smoothed price is Pyth's moving average; or Pyth failed, a
    Switchboard feed was passed that is not the null account, and the price is the
    result of a round opened within the last 240 slots, with no smoothed price; how
    confident that round is, is not checked.  The value is the oracle's mantissa and
    exponent rounded down to the last place (of a first-version Switchboard feed, its
    floating-point result cut off at nine decimals), and not negative. *)
Theorem get_price_sound (feed : option AccountInfo) (pyth : AccountInfo)
    (price : Decimal) (smoothed : option Decimal)
    (Hp : get_price w feed pyth = Ok (price, smoothed)) :
  0 <= dec_raw price /\
  ((exists ema, smoothed = Some ema /\ pyth_quote pyth price ema /\ 0 <= dec_raw ema) \/
   (smoothed = None /\ (exists e, get_pyth_price w pyth = Err e) /\
    exists info, feed = Some info /\ key info <> NULL_PUBKEY /\
      switchboard_quote info price)).
Proof.
  unfold get_price in Hp. destruct (get_pyth_price w pyth) as [[p s]|e|] eqn:Hq; [| |done].
  - minv Hp. subst. apply get_pyth_price_inv in Hq.
    destruct (pq_price _ _ _ Hq) as (acc & pp & _ & _ & H1 & _ & H2 & H3 & H4).
    split; [rewrite H2; by apply scaled_price_nonneg|]. left. eexists.
    split; [done|]. split; [done|]. rewrite H4. by apply scaled_price_nonneg.
  - destruct feed as [info|]; [|done]. minv Hp. subst.
    apply get_switchboard_price_inv in E as [Hk Hsq].
    split; [by eapply switchboard_nonneg|]. right. split; [done|].
    split; [by eexists|]. by exists info.
Qed.
End prices.

Lemma get_price_sound_witness :
  get_price (H := example_runtime [] 0) (mkWorld ∅ (mkClock 7) 1) None (account 5)
    = Ok (Decimal.one, Some Decimal.one) /\
  pyth_quote (H := example_runtime [] 0) (mkWorld ∅ (mkClock 7) 1) (account 5)
    Decimal.one Decimal.one.
Proof.
  assert (Hp : get_price (H := example_runtime [] 0) (mkWorld ∅ (mkClock 7) 1) None (account 5)
    = Ok (Decimal.one, Some Decimal.one)) by (vm_compute; reflexivity).
  split; [exact Hp|].
  destruct (get_price_sound (H := example_runtime [] 0) _ _ _ _ _ Hp)
    as [_ [(ema & He & Hq & _)|(He & _)]]; [|discriminate].
  injection He as <-. exact Hq.
Defined.
