(* ===== verification/Offchain.v ===== *)
(** sdk/src/offchain_utils.rs: what a client computes from a snapshot of the
    program's accounts, without sending a transaction.

    The functions return [Result<_, Box<dyn Error>>]: the program's errors boxed,
    or the message "No price".  An account is looked up in a [HashMap], here a
    [gmap]. *)

From stdpp Require Import gmap.
From S2P Require Import Prelude Errors Common Rate Decimal Codec LastUpdate.
From S2P Require Import RateLimiter LendingMarket ReserveConfig.
From S2P Require Import ObligationCollateral ObligationLiquidity Obligation ObligationCodec.
From S2P Require Import ReserveLiquidity ReserveCollateral Reserve ReserveCodec.
From S2P Require Import Runtime Oracles ProcessorHelpers.

Inductive OffchainError : Type :=
  | BoxedProgramError (e : ProgramError)
  | NoPrice.

(** [?] on a result of the program's code. *)
Definition boxed {A : Type} (m : result A) : outcome OffchainError A :=
  match m with
  | Ok a => Ok a
  | Err e => Err (BoxedProgramError e)
  | Panic => Panic
  end.

(** ** The snapshot *)

Record SolendAccounts : Type := mkSolendAccounts {
  lending_markets : gmap Pubkey LendingMarket;
  reserves : gmap Pubkey Reserve;
  obligations : gmap Pubkey Obligation;
}.

Section snapshot.
Context `{Runtime}.

(** [if let Ok(v) = T::unpack(&account.data) { k }]; a panic is not caught. *)
Definition if_unpacks {E A : Type} (T : Type) `{PackTrait T} (d : bytes) (k : T -> A)
    (otherwise : A) : outcome E A :=
  match pack_unpack T _ d with
  | Ok v => Ok (k v)
  | Err _ => Ok otherwise
  | Panic => Panic
  end.

(** One step of the fold over the accounts. *)
Definition add_account (acc : SolendAccounts) (pubkey : Pubkey) (account : Account)
    : outcome OffchainError SolendAccounts :=
  let d := data account in
  if (length d =? OBLIGATION_LEN)%nat then
    if_unpacks Obligation d
      (fun o =>
         if negb (length (borrows o) =? 0)%nat
         then mkSolendAccounts (lending_markets acc) (reserves acc)
                (<[pubkey := o]> (obligations acc))
         else acc) acc
  else if (length d =? RESERVE_LEN)%nat then
    if_unpacks Reserve d
      (fun r => mkSolendAccounts (lending_markets acc) (<[pubkey := r]> (reserves acc))
                  (obligations acc)) acc
  else if (length d =? LENDING_MARKET_LEN)%nat then
    if_unpacks LendingMarket d
      (fun l => mkSolendAccounts (<[pubkey := l]> (lending_markets acc)) (reserves acc)
                  (obligations acc)) acc
  else Ok acc.

Fixpoint add_accounts (acc : SolendAccounts) (accounts : list (Pubkey * Account))
    : outcome OffchainError SolendAccounts :=
  match accounts with
  | [] => Ok acc
  | (pubkey, account) :: accounts =>
      let? acc := add_account acc pubkey account in add_accounts acc accounts
  end.

(** [client] is the call [client.get_program_accounts]. *)
Definition get_solend_accounts_as_map (lending_program_id : Pubkey)
    (client : Pubkey -> outcome OffchainError (list (Pubkey * Account)))
    : outcome OffchainError SolendAccounts :=
  let? accounts := client lending_program_id in
  add_accounts (mkSolendAccounts ∅ ∅ ∅) accounts.
End snapshot.

(** ** Refreshing a reserve *)

(** [reserve.accrue_interest(slot)?; reserve.last_update = ..]. *)
Definition offchain_refresh_reserve_interest (reserve : Reserve) (slot : Z)
    : outcome OffchainError Reserve :=
  let? reserve := boxed (accrue_interest reserve slot) in
  Ok (set_last_update reserve (mkLastUpdate slot false)).

(** The price of a reserve: that of its Pyth oracle if the map has one, else that
    of its Switchboard oracle; a price under the null key is no price. *)
Definition offchain_price (prices : gmap Pubkey (option Decimal)) (reserve : Reserve)
    : option Decimal :=
  let pyth_oracle := pyth_oracle_pubkey (liquidity reserve) in
  let switchboard_oracle := switchboard_oracle_pubkey (liquidity reserve) in
  match prices !! pyth_oracle with
  | Some (Some price) => if negb (pyth_oracle =? NULL_PUBKEY) then Some price else None
  | _ =>
      match prices !! switchboard_oracle with
      | Some (Some price) => if negb (switchboard_oracle =? NULL_PUBKEY) then Some price else None
      | _ => None
      end
  end.

(** Only the market price is set; the smoothed price stays. *)
Definition set_market_price (r : Reserve) (price : Decimal) : Reserve :=
  set_liquidity r (set_prices (liquidity r) price (smoothed_market_price (liquidity r))).

Definition offchain_refresh_reserve (reserve : Reserve) (slot : Z)
    (prices : gmap Pubkey (option Decimal)) : outcome OffchainError Reserve :=
  match offchain_price prices reserve with
  | Some price => offchain_refresh_reserve_interest (set_market_price reserve price) slot
  | None => Err NoPrice
  end.

(** ** Refreshing an obligation *)

(** The sums over the deposits. *)
Record OffchainDeposits : Type := mkOffchainDeposits {
  off_deposited : Decimal;
  off_unhealthy : Decimal;
  off_super_unhealthy : Decimal;
}.

Definition offchain_deposit (deposit_reserve : Reserve) (collateral : ObligationCollateral)
    (t : OffchainDeposits) : result (ObligationCollateral * OffchainDeposits) :=
  let c := config deposit_reserve in
  let? rate := collateral_exchange_rate deposit_reserve in
  let? liquidity_amount :=
    decimal_collateral_to_liquidity rate (from_int (deposited_amount collateral)) in
  let? market_value := market_value deposit_reserve liquidity_amount in
  let? deposited := try_add (off_deposited t) market_value in
  let? v := try_mul market_value (Rate.from_percent (liquidation_threshold c)) in
  let? unhealthy := try_add (off_unhealthy t) v in
  let? v := try_mul market_value (Rate.from_percent (max_liquidation_threshold c)) in
  let? super_unhealthy := try_add (off_super_unhealthy t) v in
  Ok (ObligationCollateral.set_market_value collateral market_value,
      mkOffchainDeposits deposited unhealthy super_unhealthy).

(** The weight of a borrow, its key (the mint, where the program has the reserve)
    and its index; the function computes it and does not use it. *)
Definition OffchainMax : Type := option ((Z * Pubkey) * nat).

Definition offchain_max_step (max : OffchainMax) (borrowed : Decimal) (a : Z * Pubkey)
    (index : nat) : OffchainMax :=
  match max with
  | None => Some (a, index)
  | Some (b, _) =>
      if dec_lt Decimal.zero borrowed
         && ((b.1 <? a.1) || ((a.1 =? b.1) && (b.2 <? a.2)))
      then Some (a, index) else max
  end.

Definition offchain_borrow (borrow_reserve : Reserve) (index : nat)
    (liquidity : ObligationLiquidity) (borrowed_value : Decimal) (max : OffchainMax)
    : result (ObligationLiquidity * Decimal * OffchainMax) :=
  let? liquidity :=
    ObligationLiquidity.accrue_interest liquidity
      (ReserveLiquidity.cumulative_borrow_rate_wads (Reserve.liquidity borrow_reserve)) in
  let borrowed := ObligationLiquidity.borrowed_amount_wads liquidity in
  let? market_value := market_value borrow_reserve borrowed in
  let? weight := borrow_weight borrow_reserve in
  let? v := try_mul market_value weight in
  let? borrowed_value := try_add borrowed_value v in
  let max :=
    offchain_max_step max borrowed
      (added_borrow_weight_bps (config borrow_reserve),
       ReserveLiquidity.mint_pubkey (Reserve.liquidity borrow_reserve)) index in
  Ok (ObligationLiquidity.set_market_value liquidity market_value, borrowed_value, max).

Section obligation.
Context (reserves : gmap Pubkey Reserve).

(** A reserve that is missing is the error of code 35. *)
Fixpoint offchain_deposits (ds : list ObligationCollateral) (t : OffchainDeposits)
    : outcome OffchainError (list ObligationCollateral * OffchainDeposits) :=
  match ds with
  | [] => Ok ([], t)
  | d :: ds =>
      let? reserve :=
        match reserves !! deposit_reserve d with
        | Some reserve => Ok reserve
        | None => Err (BoxedProgramError (Custom 35))
        end in
      let? ' (d, t) := boxed (offchain_deposit reserve d t) in
      let? ' (ds, t) := offchain_deposits ds t in
      Ok (d :: ds, t)
  end.

(** A reserve that is missing is a panic. *)
Fixpoint offchain_borrows (index : nat) (bs : list ObligationLiquidity)
    (borrowed_value : Decimal) (max : OffchainMax)
    : outcome OffchainError (list ObligationLiquidity * Decimal) :=
  match bs with
  | [] => Ok ([], borrowed_value)
  | b :: bs =>
      let? reserve := unwrap_option (reserves !! borrow_reserve b) in
      let? ' (b, borrowed_value, max) :=
        boxed (offchain_borrow reserve index b borrowed_value max) in
      let? ' (bs, borrowed_value) := offchain_borrows (S index) bs borrowed_value max in
      Ok (b :: bs, borrowed_value)
  end.

(** Positions stay where they are, emptied ones too; the allowed value, the upper
    bound of the debt, the isolation flag and the slot are not touched. *)
Definition offchain_refresh_obligation (o : Obligation) : outcome OffchainError Obligation :=
  let? ' (ds, td) :=
    offchain_deposits (deposits o)
      (mkOffchainDeposits Decimal.zero Decimal.zero Decimal.zero) in
  let? ' (bs, borrowed_value) := offchain_borrows 0 (borrows o) Decimal.zero None in
  Ok (mkObligation (Obligation.version o) (Obligation.last_update o)
        (Obligation.lending_market o) (Obligation.owner o) ds bs
        (off_deposited td) borrowed_value (borrowed_value_upper_bound o)
        (allowed_borrow_value o) (off_unhealthy td) (off_super_unhealthy td)
        (borrowing_isolated_asset o)).
End obligation.
