(* ===== verification/OffchainSpec.v ===== *)
(** The off-chain computations agree with the program's. *)

From stdpp Require Import gmap.
From S2P Require Import Prelude Errors Common Rate Decimal Codec Nonneg.
From S2P Require Import LastUpdate.
From S2P Require Import RateLimiter LendingMarket ReserveConfig.
From S2P Require Import ObligationCollateral ObligationLiquidity Obligation ObligationCodec.
From S2P Require Import ReserveLiquidity ReserveCollateral Reserve ReserveRates ReserveCodec.
From S2P Require Import Runtime Oracles ProcessorHelpers ProcessReserve ProcessObligation.
From S2P Require Import AccountSpec RefreshSpec Identity FlashSpec OracleSpec ExampleRuntime.
From S2P Require Import Offchain.

(** The off-chain refresh leaves the smoothed price as it was: a reserve [ro] it
    computed agrees with the program's [r] if nothing else differs. *)
Definition agrees (ro r : Reserve) : Prop :=
  exists s, r = set_reserve_prices ro (market_price (liquidity ro)) s.

Lemma agrees_refl r : agrees r r.
Proof. exists (smoothed_market_price (liquidity r)). by destruct r as [? ? ? [] ? ? ?]. Qed.

(** ** One position *)

Definition same_deposits (t : DepositTotals) (u : OffchainDeposits) : Prop :=
  off_deposited u = sum_deposited t /\ off_unhealthy u = sum_unhealthy t /\
  off_super_unhealthy u = sum_super_unhealthy t.

Lemma offchain_deposit_agrees ro r d t d' t' u :
  agrees ro r -> same_deposits t u -> refresh_deposit r d t = Ok (d', t') ->
  exists u', offchain_deposit ro d u = Ok (d', u') /\ same_deposits t' u'.
Proof.
  intros [s ->] (H1 & H2 & H3) H. unfold refresh_deposit in H. minv H.
  change (collateral_exchange_rate (set_reserve_prices ro _ s))
    with (collateral_exchange_rate ro) in E.
  change (market_value (set_reserve_prices ro _ s) v0) with (market_value ro v0) in E1.
  change (config (set_reserve_prices ro _ s)) with (config ro) in *.
  unfold offchain_deposit. rewrite E. cbn [obind]. rewrite E0. cbn [obind].
  rewrite E1. cbn [obind]. rewrite H1, E3. cbn [obind]. rewrite E6. cbn [obind].
  rewrite H2, E7. cbn [obind]. rewrite E8. cbn [obind]. rewrite H3, E9. cbn [obind].
  eexists. split; [reflexivity|]. done.
Qed.

Lemma offchain_borrow_agrees ro r k i l t l' t' v max :
  agrees ro r -> v = sum_borrowed t -> refresh_borrow k r i l t = Ok (l', t') ->
  exists max', offchain_borrow ro i l v max = Ok (l', sum_borrowed t', max').
Proof.
  intros [s ->] -> H. unfold refresh_borrow in H. minv H.
  change (liquidity (set_reserve_prices ro _ s))
    with (set_prices (liquidity ro) (market_price (liquidity ro)) s) in E.
  change (market_value (set_reserve_prices ro _ s)) with (market_value ro) in E0.
  change (borrow_weight (set_reserve_prices ro _ s)) with (borrow_weight ro) in E2.
  unfold offchain_borrow.
  change (cumulative_borrow_rate_wads (set_prices (liquidity ro) _ s))
    with (cumulative_borrow_rate_wads (liquidity ro)) in E.
  rewrite E. cbn [obind]. rewrite E0. cbn [obind]. rewrite E2. cbn [obind].
  rewrite E3. cbn [obind]. rewrite E4. cbn [obind]. by eexists.
Qed.

(** Interest does not depend on prices, and does not change them. *)
Lemma accrue_prices r p s slot r' :
  accrue_interest (set_reserve_prices r p s) slot = Ok r' ->
  exists ra, accrue_interest (set_market_price r p) slot = Ok ra /\
    r' = set_reserve_prices ra p s /\ market_price (liquidity ra) = p.
Proof.
  unfold accrue_interest.
  change (Reserve.last_update (set_reserve_prices r p s)) with (Reserve.last_update r).
  change (Reserve.last_update (set_market_price r p)) with (Reserve.last_update r).
  change (current_borrow_rate (set_reserve_prices r p s)) with (current_borrow_rate r).
  change (current_borrow_rate (set_market_price r p)) with (current_borrow_rate r).
  change (config (set_reserve_prices r p s)) with (config r).
  change (config (set_market_price r p)) with (config r).
  intros H. minv H. rewrite E. cbn [obind]. destruct (0 <? v).
  - minv H. rewrite E0. cbn [obind]. unfold compound_interest in *. cbn in E1 |- *.
    minv E1. rewrite E2. cbn [obind]. rewrite E3. cbn [obind]. rewrite E4. cbn [obind].
    rewrite E5. cbn [obind]. rewrite E6. cbn [obind]. rewrite E7. cbn [obind].
    rewrite E8. cbn [obind]. rewrite E9. cbn [obind].
    eexists. split; [reflexivity|]. by destruct r as [? ? ? [] ? ? ?].
  - minv H. eexists. split; [reflexivity|]. by destruct r as [? ? ? [] ? ? ?].
Qed.

(** ** The loops *)

Section loops.
Context {R : Runtime} {program_id : Pubkey} {L : RuntimeLaws R program_id}.
Implicit Types w : World.

Abbreviation holds := (holds (program_id:=program_id)).
Abbreviation saved := (saved (program_id:=program_id)).

(** The client's reserves are those of the world, up to smoothed prices. *)
Definition covers (reserves : gmap Pubkey Reserve) (w : World) : Prop :=
  forall info r, holds w info r ->
    exists ro, reserves !! key info = Some ro /\ agrees ro r.

Lemma covers_loaded reserves w info k r :
  covers reserves w -> loaded (program_id:=program_id) w info k r ->
  exists ro, reserves !! k = Some ro /\ agrees ro r.
Proof. intros Hc (Hh & <- & _). by apply Hc. Qed.

Lemma offchain_deposits_agree reserves w ds : forall accounts t rest ds' t' u,
  covers reserves w -> same_deposits t u ->
  refresh_deposits program_id w accounts ds t = Ok (rest, ds', t') ->
  exists u', offchain_deposits reserves ds u = Ok (ds', u') /\ same_deposits t' u'.
Proof.
  induction ds as [|d ds IH]; intros accounts t rest ds' t' u Hc Hu H;
    cbn [refresh_deposits offchain_deposits] in *.
  - minv H. subst. by eexists.
  - apply with_next_inv in H as (info & accs & -> & H). minv H. subst.
    apply load_fresh_reserve_inv in E.
    destruct (covers_loaded _ _ _ _ _ Hc E) as (ro & -> & Ha). cbn [obind].
    destruct (offchain_deposit_agrees _ _ _ _ _ _ _ Ha Hu E0) as (u1 & -> & Hu1).
    cbn [boxed obind]. destruct (IH _ _ _ _ _ _ Hc Hu1 E1) as (u2 & -> & Hu2).
    cbn [obind]. by eexists.
Qed.

Lemma offchain_borrows_agree reserves w bs : forall accounts i t rest bs' t' v max,
  covers reserves w -> v = sum_borrowed t ->
  refresh_borrows program_id w accounts i bs t = Ok (rest, bs', t') ->
  offchain_borrows reserves i bs v max = Ok (bs', sum_borrowed t').
Proof.
  induction bs as [|b bs IH]; intros accounts i t rest bs' t' v max Hc Hv H;
    cbn [refresh_borrows offchain_borrows] in *.
  - minv H. by subst.
  - apply with_next_inv in H as (info & accs & -> & H). minv H. subst.
    apply load_fresh_reserve_inv in E.
    destruct (covers_loaded _ _ _ _ _ Hc E) as (ro & -> & Ha). cbn [unwrap_option obind].
    destruct (offchain_borrow_agrees _ _ _ _ _ _ _ _ _ max Ha eq_refl E0) as (max' & ->).
    cbn [boxed obind]. by rewrite (IH _ _ _ _ _ _ _ max' Hc eq_refl E1).
Qed.

(** ** Reading back what was written *)

Lemma dec_packed d bs : pack_decimal d = Ok bs -> 0 <= dec_raw d -> dec_u128 d.
Proof.
  unfold pack_decimal. intros H Hd. minv H.
  apply unwrap_Ok_inv, to_scaled_val_inv in E as [-> ?]. by split.
Qed.

(** A reserve that is read is normal: writing and reading it changes nothing. *)
Lemma unpacked_normal src r :
  ReserveCodec.unpack_from_slice src = Ok r -> normalize_config (config r) = config r.
Proof.
  intros H. apply unpack_from_slice_inv in H as (_ & ? & ? & ? & ? & ?).
  unfold normalize_config. destruct (config r). cbn in *. f_equal; lia.
Qed.

Lemma packed_prices r p s d d' :
  ReserveCodec.pack_into_slice (set_reserve_prices r p s) d = Ok d' ->
  0 <= dec_raw p -> 0 <= dec_raw s -> dec_u128 p /\ dec_u128 s.
Proof.
  unfold ReserveCodec.pack_into_slice. destruct (_ <? _)%nat; [discriminate|].
  intros H Hp Hs. minv H. cbn in *. split; by eapply dec_packed.
Qed.

(** A reserve that was read reads back with the prices written into it. *)
Lemma priced_reserve_reads_back info w w1 r p s :
  holds w info r -> 0 <= dec_raw p -> 0 <= dec_raw s ->
  pack_account (set_reserve_prices r p s) info w = Ok w1 ->
  holds w1 info (set_reserve_prices r p s).
Proof.
  intros [Hu Ho] Hp Hs H. apply (unpack_account_inv (program_id:=program_id)) in Hu
    as (Hl & Hu & Hi).
  apply (pack_account_inv (program_id:=program_id)) in H as (_ & Hpk & How & _).
  split; [|by rewrite How].
  destruct (packed_prices _ _ _ _ _ Hpk Hp Hs) as [Hp' Hs'].
  assert (Hwf : reserve_wf (set_reserve_prices r p s)).
  { apply reserve_unpack_wf in Hu. destruct Hu. by split. }
  destruct (reserve_unpack_pack _ (data_of w info) Hwf ltac:(cbn in Hl; lia))
    as (bs & Hb & Hbl & _ & Hbu).
  cbn [pack_into_slice reserve_pack] in Hpk. rewrite Hb in Hpk. injection Hpk as ->.
  apply (pack_unpack_spec (program_id:=program_id)). split_and!; [by rewrite Hbl| |exact Hi].
  cbn [unpack_from_slice reserve_pack]. rewrite Hbu. f_equal.
  change (config (set_reserve_prices r p s)) with (config r).
  rewrite (unpacked_normal _ _ Hu). by destruct r.
Qed.

(** ** The contracts *)

(** C29: the off-chain refresh of a reserve is the program's.  If the client's map
    of prices gives the reserve the price that the program reads from the oracle
    accounts, then whenever [_refresh_reserve] succeeds, so does
    [offchain_refresh_reserve] on the reserve as it was, and the two results differ
    at most in the smoothed price, which the client does not update. *)
Theorem offchain_reserve_agrees (res pyth : AccountInfo) (feed : option AccountInfo)
    (prices : gmap Pubkey (option Decimal)) (price : Decimal) (smoothed : option Decimal)
    (w w' : World)
    (Hprice : get_price w feed pyth = Ok (price, smoothed))
    (Hmap : forall r, holds w res r -> offchain_price prices r = Some price)
    (H : _refresh_reserve program_id res pyth feed w = Ok w') :
  exists r ro w1 r', holds w res r /\
    offchain_refresh_reserve r (current_slot w) prices = Ok ro /\
    agrees ro r' /\ saved r' res w1 w'.
Proof.
  unfold _refresh_reserve in H. rewrite Hprice in H. minv H. apply negb_eqb_false in G.
  symmetry in E0. injection E0 as -> ->.
  assert (Hh : holds w res v) by (by split).
  destruct (get_price_sound _ _ _ _ _ Hprice) as [Hp Hs].
  match type of E1 with pack_account (set_reserve_prices _ _ ?x) _ _ = _ => set (s := x) in E1 end.
  assert (Hs0 : 0 <= dec_raw s).
  { unfold s. destruct (_ =? NULL_PUBKEY); [done|].
    destruct Hs as [(ema & -> & _ & He)|(-> & _)]; [done|].
    destruct Hh as [Hu _]. apply (unpack_account_inv (program_id:=program_id)) in Hu
      as (_ & Hu & _).
    apply reserve_unpack_wf in Hu. by destruct (wf_smoothed_price _ Hu). }
  clearbody s.
  destruct (priced_reserve_reads_back _ _ _ _ _ _ Hh Hp Hs0 E1) as [Hu1 _].
  apply (pack_account_inv (program_id:=program_id)) in E1 as (_ & _ & _ & _ & Hclk & _).
  unfold _refresh_reserve_interest in H. rewrite Hu1 in H. minv H. apply negb_eqb_false in G2.
  apply (pack_account_saves (program_id:=program_id)) in H as [Hsave _]; [|done].
  injection E0 as <-.
  destruct (accrue_prices _ _ _ _ _ E1) as (ra & Hra & -> & Hmp).
  unfold current_slot in *. rewrite Hclk in Hra.
  exists v. eexists. exists v0. eexists. split; [done|]. split; [|split; [|exact Hsave]].
  - unfold offchain_refresh_reserve, offchain_refresh_reserve_interest.
    by rewrite (Hmap v Hh), Hra.
  - exists s. cbn. rewrite Hmp. by rewrite Hclk.
Qed.

(** What the off-chain refresh does not compute: it stays as it was fetched. *)
Record not_computed (o off : Obligation) : Prop := {
  nc_allowed : allowed_borrow_value off = allowed_borrow_value o;
  nc_upper : borrowed_value_upper_bound off = borrowed_value_upper_bound o;
  nc_isolated : borrowing_isolated_asset off = borrowing_isolated_asset o;
  nc_slot : Obligation.last_update off = Obligation.last_update o;
}.

(** C20: what the off-chain refresh of an obligation computes is what the program does.
    If the client has the reserves of the world, up to smoothed prices, then
    whenever [process_refresh_obligation] succeeds, so does
    [offchain_refresh_obligation] on the obligation as it was.  The deposited and
    the borrowed value are the same; the thresholds the program stores are those of
    the client, capped at 70 million; and the positions, with their interest and values,
    are the client's, up to the emptied ones, which the program drops, and the order of
    the borrows.  The allowed borrow value, the upper bound of the debt, the isolation
    flag and the slot are not computed off chain: they stay as fetched. *)
Theorem offchain_obligation_agrees (obl : AccountInfo) (infos : list AccountInfo)
    (reserves : gmap Pubkey Reserve) (w w' : World)
    (Hcover : covers reserves w)
    (H : process_refresh_obligation program_id (obl :: infos) w = Ok w') :
  exists o o' off, holds w obl o /\ saved o' obl w w' /\
    offchain_refresh_obligation reserves o = Ok off /\ not_computed o off /\
    deposited_value o' = deposited_value off /\ borrowed_value o' = borrowed_value off /\
    unhealthy_borrow_value o'
      = dec_min (unhealthy_borrow_value off) global_unhealthy_borrow_value /\
    super_unhealthy_borrow_value o'
      = dec_min (super_unhealthy_borrow_value off) global_unhealthy_borrow_value /\
    deposits o' = List.filter live_deposit (deposits off) /\
    borrows o' ≡ₚ List.filter live_borrow (borrows off).
Proof.
  unfold process_refresh_obligation in H. cbn [with_next next_account_info obind] in H.
  minv H. apply negb_eqb_false in G. subst.
  set (z := Decimal.zero) in *.
  assert (Hz : same_deposits (mkDepositTotals z z z z) (mkOffchainDeposits z z z)) by done.
  destruct (offchain_deposits_agree _ _ _ _ _ _ _ _ _ Hcover Hz E0)
    as (u & Hd & Hd1 & Hd2 & Hd3).
  assert (Hb : offchain_borrows reserves 0 (borrows v) z None = Ok (bs, sum_borrowed tb)).
  { by eapply offchain_borrows_agree; [exact Hcover| |exact E1]. }
  destruct (pack_account_saves (program_id:=program_id) _ _ _ _ G H) as [Hs _].
  apply refresh_borrows_sums in E1 as (binfos & es & _ & _ & Hes & _ & _ & _ & Hmax).
  destruct (refreshed_obligation_borrows _ _ _ _ _ _ _ es E2 Hes Hmax) as [Hp _].
  unfold refreshed_obligation in E2. minv E2.
  exists v. eexists. eexists. split; [done|]. split; [exact Hs|].
  unfold offchain_refresh_obligation. fold z. rewrite Hd. cbn [obind]. rewrite Hb. cbn [obind].
  split; [reflexivity|]. split; [done|]. cbn. rewrite Hd1, Hd2, Hd3. split_and!; try done.
Qed.
End loops.

(** ** The snapshot *)

Section snapshot.
Context {R : Runtime} {program_id : Pubkey} {L : RuntimeLaws R program_id}.
Implicit Types (acc : SolendAccounts) (k : Pubkey) (a : Account).

Abbreviation holds := (holds (program_id:=program_id)).

(** What one account contributes to each map. *)
Definition entry_of (T : Type) `{PackTrait T} (keep : T -> bool) (d : bytes) (o : option T)
    : Prop :=
  forall v, pack_unpack T _ d = Ok v -> o = (if keep v then Some v else None).

Definition has_borrows (o : Obligation) : bool := negb (length (borrows o) =? 0)%nat.

Record contributes (k : Pubkey) (a : Account) (acc : SolendAccounts) : Prop := {
  ct_market : entry_of LendingMarket (fun _ => true) (data a) (lending_markets acc !! k);
  ct_reserve : entry_of Reserve (fun _ => true) (data a) (reserves acc !! k);
  ct_obligation : entry_of Obligation has_borrows (data a) (obligations acc !! k);
}.

(** The maps agree at a key. *)
Definition same_at k acc acc' : Prop :=
  lending_markets acc' !! k = lending_markets acc !! k /\
  reserves acc' !! k = reserves acc !! k /\ obligations acc' !! k = obligations acc !! k.

Definition absent k acc : Prop :=
  lending_markets acc !! k = None /\ reserves acc !! k = None /\ obligations acc !! k = None.

Lemma unpack_length `{P : PackTrait T} d (v : T) : pack_unpack T P d = Ok v -> length d = LEN.
Proof. by intros (? & _ & _)%(pack_unpack_spec (program_id:=program_id)). Qed.

(** An account of another length is no [T]. *)
Lemma other_length `{P : PackTrait T} d n keep o :
  length d = n -> n <> LEN (PackTrait:=P) -> entry_of T keep d o.
Proof. intros Hd Hn v Hv%unpack_length. congruence. Qed.

Lemma if_unpacks_inv `{P : PackTrait T} {A : Type} d (f : T -> A) x (y : A) :
  if_unpacks (E:=OffchainError) T d f x = Ok y ->
  (exists v, pack_unpack T P d = Ok v /\ y = f v) \/
  (y = x /\ forall v, pack_unpack T P d <> Ok v).
Proof.
  unfold if_unpacks. destruct (pack_unpack T P d) as [v|e|] eqn:Hu; intros [= <-].
  - left. by exists v.
  - right. by split.
Qed.

(** The three maps after an account of a known length. *)
Ltac contribution Hl :=
  split;
  [ split; cbn [lending_markets reserves obligations];
    first
      [ apply (other_length _ _ _ _ Hl); by vm_compute
      | lazymatch goal with
        | Hu : pack_unpack _ _ _ = Ok _ |- _ =>
            let Hv := fresh in intros ? Hv; rewrite Hu in Hv; injection Hv as <-
        | Hu : forall v, pack_unpack _ _ _ <> Ok v |- _ =>
            let Hv := fresh in intros ? Hv; destruct (Hu _ Hv)
        end ]
  | intros j Hj; unfold same_at; split_and!; cbn [lending_markets reserves obligations];
    by rewrite ?lookup_insert_ne by congruence ].

Lemma add_account_contributes acc k a acc' :
  absent k acc -> add_account acc k a = Ok acc' ->
  contributes k a acc' /\ forall j, j <> k -> same_at j acc acc'.
Proof.
  intros (Hm & Hr & Ho). unfold add_account.
  destruct (Nat.eqb_spec (length (data a)) OBLIGATION_LEN) as [Hl|Hl1];
    [|destruct (Nat.eqb_spec (length (data a)) RESERVE_LEN) as [Hl|Hl2];
      [|destruct (Nat.eqb_spec (length (data a)) LENDING_MARKET_LEN) as [Hl|Hl3]]];
    [intros [(v & Hu & ->)|[-> Hu]]%if_unpacks_inv..|intros [= <-]].
  - fold (has_borrows v). destruct (has_borrows v) eqn:Hb; contribution Hl;
      rewrite Hb; [apply lookup_insert_eq|exact Ho].
  - contribution Hl.
  - contribution Hl. apply lookup_insert_eq.
  - contribution Hl.
  - contribution Hl. apply lookup_insert_eq.
  - contribution Hl.
  - split; [|by intros].
    split; intros v Hv%unpack_length; cbn in Hv; congruence.
Qed.

Lemma add_accounts_contribute l : forall acc acc',
  NoDup l.*1 -> (forall k a, (k, a) ∈ l -> absent k acc) -> add_accounts acc l = Ok acc' ->
  (forall k a, (k, a) ∈ l -> contributes k a acc') /\
  (forall k, k ∉ l.*1 -> same_at k acc acc').
Proof.
  induction l as [|[k a] l IH]; intros acc acc' Hnd Habs H; cbn [add_accounts] in H.
  - injection H as <-. split; [by intros ?? []%not_elem_of_nil|]. by intros.
  - minv H. apply list.NoDup_cons in Hnd as [Hk Hnd]. fold (fmap (M:=list) fst l) in *.
    destruct (add_account_contributes _ _ _ _ (Habs k a ltac:(apply list_elem_of_here)) E)
      as [Hc Hsame].
    destruct (IH v acc' Hnd) as [Hin Hout]; [|exact H|].
    { intros j b Hj. assert (Hne : j <> k).
      { intros ->. apply Hk. apply list_elem_of_fmap. by exists (k, b). }
      destruct (Hsame j Hne) as (H1 & H2 & H3).
      destruct (Habs j b) as (H4 & H5 & H6); [by apply list_elem_of_further|].
      split_and!; congruence. }
    split.
    + intros j b [[= -> ->]|Hj]%elem_of_cons; [|by apply Hin].
      destruct (Hout k Hk) as (H1 & H2 & H3). destruct Hc as [C1 C2 C3].
      split; [rewrite H1|rewrite H2|rewrite H3]; done.
    + intros j Hj. apply not_elem_of_cons in Hj as [Hne Hj].
      destruct (Hsame j Hne) as (H1 & H2 & H3). destruct (Hout j Hj) as (H4 & H5 & H6).
      split_and!; congruence.
Qed.

(** The client's snapshot is the chain.  If the RPC call returns the accounts
    that the program owns, each once, then the maps that
    [get_solend_accounts_as_map] builds hold every lending market and every reserve
    of the world as the program would read it, and exactly the obligations that have
    a borrow: these maps are such as the off-chain refresh needs. *)
Theorem snapshot_is_chain (client : Pubkey -> outcome OffchainError (list (Pubkey * Account)))
    (l : list (Pubkey * Account)) (w : World) (acc : SolendAccounts)
    (Hclient : client program_id = Ok l) (Hnd : NoDup l.*1)
    (Hall : forall k a, (k, a) ∈ l <-> accounts w !! k = Some a /\ owner a = program_id)
    (H : get_solend_accounts_as_map program_id client = Ok acc) :
  covers (program_id:=program_id) (reserves acc) w /\
  (forall info m, holds w info m -> lending_markets acc !! key info = Some m) /\
  (forall info o, holds w info o ->
     obligations acc !! key info = if has_borrows o then Some o else None).
Proof.
  unfold get_solend_accounts_as_map in H. rewrite Hclient in H. cbn [obind] in H.
  apply add_accounts_contribute in H as [Hin _]; [|done|by intros].
  assert (Hc : forall info, owner_of w info = program_id ->
    exists a, contributes (key info) a acc /\ data_of w info = data a).
  { intros info Ho. unfold owner_of, data_of, get in *.
    destruct (accounts w !! key info) as [a|] eqn:Ha; cbn in *.
    - exists a. split; [|done]. apply Hin, Hall. by split.
    - destruct (program_not_system (eq_sym Ho)). }
  split_and!; intros info v [Hu Ho]; destruct (Hc info Ho) as (a & [C1 C2 C3] & Hd);
    unfold unpack_account in Hu; rewrite Hd in Hu.
  - exists v. split; [by apply C2|apply agrees_refl].
  - by apply C1.
  - by apply C3.
Qed.
End snapshot.

(** ** One world, on chain and off *)

Definition stale_reserve : Reserve :=
  Reserve.set_last_update test_reserve (mkLastUpdate 3 true).
Definition stale_world : World :=
  Eval vm_compute in world_of example_market stale_reserve refresh_example [].
Definition oracle_account : AccountInfo :=
  account (pyth_oracle_pubkey (liquidity stale_reserve)).
Definition price_map : gmap Pubkey (option Decimal) :=
  {[ pyth_oracle_pubkey (liquidity stale_reserve) := Some Decimal.one ]}.

Lemma offchain_reserve_agrees_witness :
  exists w' r ro w1 r',
    _refresh_reserve (H := example_runtime [] 0) example_program (account 20) oracle_account
      None stale_world = Ok w' /\
    offchain_refresh_reserve r 7 price_map = Ok ro /\ agrees ro r' /\
    saved (program_id := example_program) r' (account 20) w1 w'.
Proof.
  assert (Hok : is_ok (_refresh_reserve (H := example_runtime [] 0) example_program
    (account 20) oracle_account None stale_world) = true) by (vm_compute; reflexivity).
  apply is_ok_true in Hok as [w' H]. exists w'.
  assert (Hp : get_price (H := example_runtime [] 0) stale_world None oracle_account
    = Ok (Decimal.one, Some Decimal.one)) by (vm_compute; reflexivity).
  assert (Hm : forall r,
    holds (R := example_runtime [] 0) (program_id := example_program) stale_world (account 20) r ->
    offchain_price price_map r = Some Decimal.one).
  { intros r [Hu _].
    assert (Hr : unpack_account (H := example_runtime [] 0) Reserve stale_world (account 20)
      = Ok stale_reserve) by (vm_compute; reflexivity).
    rewrite Hr in Hu. injection Hu as <-. vm_compute. reflexivity. }
  destruct (offchain_reserve_agrees (R := example_runtime [] 0)
    (program_id := example_program) (account 20) oracle_account None price_map Decimal.one
    (Some Decimal.one) stale_world w' Hp Hm H) as (r & ro & w1 & r' & _ & Ho & Ha & Hs).
  exists r, ro, w1, r'. split; [exact H|]. split; [exact Ho|]. split; [exact Ha|exact Hs].
Defined.

(** The accounts of [refresh_world] as the RPC node lists them. *)
Definition rpc_accounts : list (Pubkey * Account) :=
  Eval vm_compute in map_to_list (accounts refresh_world).
Definition rpc_client (program_id : Pubkey)
    : outcome OffchainError (list (Pubkey * Account)) := Ok rpc_accounts.

Lemma rpc_snapshot :
  exists acc, get_solend_accounts_as_map (H := example_runtime [] 0) example_program rpc_client
    = Ok acc.
Proof. apply is_ok_true. vm_compute. reflexivity. Qed.

Lemma rpc_accounts_all k a :
  (k, a) ∈ rpc_accounts <-> accounts refresh_world !! k = Some a /\ owner a = example_program.
Proof.
  change rpc_accounts with (map_to_list (accounts refresh_world)).
  rewrite elem_of_map_to_list. split; [|tauto]. intros Hk. split; [done|].
  assert (Hall : map_Forall (fun _ a => owner a = example_program) (accounts refresh_world))
    by (apply (bool_decide_unpack _); vm_compute; exact I).
  by apply (Hall k).
Qed.

Lemma snapshot_is_chain_witness :
  exists acc, get_solend_accounts_as_map (H := example_runtime [] 0) example_program rpc_client
      = Ok acc /\
    covers (R := example_runtime [] 0) (program_id := example_program) (reserves acc)
      refresh_world.
Proof.
  destruct rpc_snapshot as [acc H]. exists acc. split; [exact H|].
  apply (snapshot_is_chain (R := example_runtime [] 0) (program_id := example_program)
    rpc_client rpc_accounts refresh_world acc eq_refl
    ltac:(apply (bool_decide_unpack _); vm_compute; exact I) rpc_accounts_all H).
Defined.

Lemma refresh_world_covered :
  covers (R := example_runtime [] 0) (program_id := example_program)
    {[ 20 := example_reserve ]} refresh_world.
Proof.
  intros info r [Hu Ho].
  unfold unpack_account, owner_of, data_of, get in Hu, Ho.
  destruct (accounts refresh_world !! key info) as [a|] eqn:Ha; [|discriminate].
  cbn [default id] in Hu, Ho.
  pose proof (proj2 (rpc_accounts_all (key info) a) (conj Ha Ho)) as Hin.
  repeat (apply elem_of_cons in Hin as [[= Hk Hd]|Hin]); [..|by apply not_elem_of_nil in Hin];
    rewrite Hd in Hu;
    first [discriminate ltac:(vm_compute in Hu; exact Hu) | idtac].
  assert (Hr : Ok example_reserve = Ok (E := ProgramError) r)
    by (rewrite <- Hu; vm_compute; reflexivity).
  injection Hr as <-. exists example_reserve. rewrite Hk.
  split; [reflexivity|apply agrees_refl].
Qed.

Lemma offchain_obligation_agrees_witness :
  exists w' o' off,
    process_refresh_obligation (H := example_runtime [] 0) example_program
      [account 30; account 20; account 20] refresh_world = Ok w' /\
    offchain_refresh_obligation {[ 20 := example_reserve ]} refresh_example = Ok off /\
    deposited_value o' = deposited_value off /\ borrowed_value o' = borrowed_value off.
Proof.
  assert (Hok : is_ok (process_refresh_obligation (H := example_runtime [] 0)
    example_program [account 30; account 20; account 20] refresh_world) = true)
    by (vm_compute; reflexivity).
  apply is_ok_true in Hok as [w' H]. exists w'.
  destruct (offchain_obligation_agrees (R := example_runtime [] 0)
    (program_id := example_program) (account 30) [account 20; account 20]
    {[ 20 := example_reserve ]} refresh_world w' refresh_world_covered H)
    as (o & o' & off & [Hu _] & _ & Hoff & _ & Hd & Hb & _).
  assert (Ho : Ok refresh_example = Ok (E := ProgramError) o)
    by (rewrite <- Hu; vm_compute; reflexivity).
  injection Ho as <-. exists o', off. split; [exact H|]. split; [exact Hoff|].
  split; [exact Hd|exact Hb].
Defined.
