(* ===== verification/Client.v ===== *)
(** The environment of the command-line client: the RPC node, transactions and
    their signatures; and cli/src/lending_state.rs, what the client keeps of an
    obligation and its reserves.

    A command talks to the node and sends transactions.  What the node answers
    depends on the transactions sent before, so a command is a function of that
    list, which it extends; transactions that were sent stay sent when the command
    then fails.  The node, the signing of transactions and the instruction builders
    of other crates are the class [ClientEnv]. *)

From S2P Require Import Builders.
From Stdlib Require Import Floats.SpecFloat.
From S2P Require Import Prelude Errors Common Rate Decimal Codec.
From S2P Require Import RateLimiter LendingMarket ReserveConfig.
From S2P Require Import ObligationCollateral ObligationLiquidity Obligation.
From S2P Require Import ReserveLiquidity ReserveCollateral Reserve.
From S2P Require Import Runtime ProcessorHelpers.

Abbreviation SdkInstruction := Builders.Instruction.

(** [Message::new_with_blockhash(&instructions, Some(&payer), &blockhash)]. *)
Record Message : Type := mkMessage {
  message_instructions : list SdkInstruction;
  message_payer : Pubkey;
  message_blockhash : Z;
}.

(** A message and the keys that sign it. *)
Record Transaction : Type := mkTransaction {
  transaction_message : Message;
  transaction_signers : list Pubkey;
}.

(** The keys whose signatures a message needs: its payer's, and those its
    instructions mark. *)
Definition instruction_signers (ix : SdkInstruction) : list Pubkey :=
  map meta_pubkey (List.filter meta_is_signer (instruction_accounts ix)).
Definition required_signers (m : Message) : list Pubkey :=
  message_payer m :: concat (map instruction_signers (message_instructions m)).

Inductive CliError : Type :=
  | RpcError
  | CliProgramError (e : ProgramError)
  | InsufficientBalance
  | InvalidReserveConfig.

Class ClientEnv : Type := {
  (* solana_client: the answers of the node, after the transactions sent so far *)
  get_account : list Transaction -> Pubkey -> outcome CliError Account;
  get_multiple_accounts :
    list Transaction -> list Pubkey -> outcome CliError (list (option Account));
  (** [get_program_accounts_with_config] with a filter on the size of the data *)
  get_program_accounts_of_size :
    list Transaction -> Pubkey -> nat -> outcome CliError (list Pubkey);
  get_minimum_balance_for_rent_exemption : list Transaction -> nat -> outcome CliError Z;
  get_latest_blockhash : list Transaction -> outcome CliError Z;
  get_fee_for_message : list Transaction -> Message -> outcome CliError Z;
  get_balance : list Transaction -> Pubkey -> outcome CliError Z;
  simulate_transaction : list Transaction -> Transaction -> outcome CliError unit;
  send_and_confirm_transaction : list Transaction -> Transaction -> outcome CliError unit;
  (* solana_sdk *)
  (** [Transaction::new(keypairs, message, blockhash)] signs, or panics *)
  transaction_new : list Pubkey -> Message -> outcome CliError Transaction;
  create_account : Pubkey -> Pubkey -> Z -> Z -> Pubkey -> SdkInstruction;
  set_compute_unit_price : Z -> SdkInstruction;
  (* spl_token *)
  approve : Pubkey -> Pubkey -> Pubkey -> Pubkey -> Z -> outcome CliError SdkInstruction;
  revoke : Pubkey -> Pubkey -> Pubkey -> outcome CliError SdkInstruction;
  MINT_LEN : nat;
  TOKEN_LEN : nat;
  (** from display units, an [f64], and the decimals of the mint *)
  ui_amount_to_amount : spec_float -> Z -> Z;
  (** [Token::unpack_from_slice] and [Mint::unpack_from_slice]: the mint of a token
      account, the decimals of a mint *)
  token_unpack_mint : bytes -> outcome CliError Pubkey;
  mint_unpack_slice_decimals : bytes -> outcome CliError Z;
  (* spl_associated_token_account *)
  get_associated_token_address : Pubkey -> Pubkey -> Pubkey;
  create_associated_token_account : Pubkey -> Pubkey -> Pubkey -> SdkInstruction;
  (* the order in which a [HashSet] built from the keys lists them *)
  hash_set_keys : list Pubkey -> list Pubkey;
}.

(** What the client relies on: signing succeeds exactly when every required key,
    and no other, was given; the other crates' instructions ask for the
    signatures their documentation says; a set lists each of its elements once. *)
Class ClientLaws (C : ClientEnv) : Prop := {
  transaction_new_spec : forall ks m tx,
    transaction_new ks m = Ok tx <->
    tx = mkTransaction m ks /\ forall k, k ∈ required_signers m <-> k ∈ ks;
  transaction_new_no_error : forall ks m e, transaction_new ks m <> Err e;
  create_account_signers : forall from to lamports space owner,
    instruction_signers (create_account from to lamports space owner) = [from; to];
  compute_unit_price_signers : forall n, instruction_signers (set_compute_unit_price n) = [];
  approve_signers : forall source delegate owner program n ix,
    approve program source delegate owner n = Ok ix -> instruction_signers ix = [owner];
  revoke_signers : forall source owner program ix,
    revoke program source owner = Ok ix -> instruction_signers ix = [owner];
  create_ata_signers : forall payer wallet mint,
    instruction_signers (create_associated_token_account payer wallet mint) = [payer];
  hash_set_keys_spec : forall ks,
    NoDup (hash_set_keys ks) /\ forall k, k ∈ hash_set_keys ks <-> k ∈ ks;
}.

(** ** Commands *)

Definition cli (A : Type) : Type :=
  list Transaction -> list Transaction * outcome CliError A.

Definition cli_ret {A : Type} (a : A) : cli A := fun sent => (sent, Ok a).

Definition cli_bind {A B : Type} (m : cli A) (k : A -> cli B) : cli B := fun sent =>
  match m sent with
  | (sent, Ok a) => k a sent
  | (sent, Err e) => (sent, Err e)
  | (sent, Panic) => (sent, Panic)
  end.

Declare Scope cli_scope.
Delimit Scope cli_scope with cli.

Notation "'let!' x := m 'in' k" := (cli_bind m (fun x => k%cli))
  (at level 10, x name, m at level 200, k at level 200,
   format "'[v' 'let!'  x  :=  m  'in' '/' k ']'") : cli_scope.
Notation "m ;;! k" := (cli_bind m (fun _ => k%cli))
  (at level 100, k at level 200, right associativity) : cli_scope.
#[global] Open Scope cli_scope.

(** A question to the node. *)
Definition ask {A : Type} (f : list Transaction -> outcome CliError A) : cli A :=
  fun sent => (sent, f sent).

(** A computation that does not depend on the node. *)
Definition lift {A : Type} (m : outcome CliError A) : cli A := ask (fun _ => m).

(** [?] on a result of the program's code. *)
Definition program_result {A : Type} (m : result A) : outcome CliError A :=
  match m with
  | Ok a => Ok a
  | Err e => Err (CliProgramError e)
  | Panic => Panic
  end.

(** The transaction is on the list whether or not the node confirms it. *)
Definition submit `{ClientEnv} (tx : Transaction) : cli unit := fun sent =>
  (sent ++ [tx], send_and_confirm_transaction sent tx).

(** ** lending_state.rs *)

Record SolendState : Type := mkSolendState {
  lending_program_id : Pubkey;
  obligation_pubkey : Pubkey;
  obligation : Obligation;
  reserves : list (Pubkey * Reserve);
}.

(** The reserves of an obligation: of its deposits, then of its borrows. *)
Definition position_keys (o : Obligation) : list Pubkey :=
  map deposit_reserve (deposits o) ++ map borrow_reserve (borrows o).

(** [self.reserves.iter().find_map(..)]. *)
Fixpoint find_reserve (key : Pubkey) (reserves : list (Pubkey * Reserve)) : option Reserve :=
  match reserves with
  | [] => None
  | (p, reserve) :: reserves => if key =? p then Some reserve else find_reserve key reserves
  end.

Section state.
Context `{Runtime, KnownIds, ClientEnv}.

(** [Reserve::unpack(&account.unwrap().data).unwrap()] over the fetched accounts,
    zipped with their keys. *)
Fixpoint unpack_reserves (accounts : list (option Account)) (keys : list Pubkey)
    : outcome CliError (list (Pubkey * Reserve)) :=
  match accounts, keys with
  | account :: accounts, key :: keys =>
      let? account := unwrap_option account in
      let? reserve := unwrap (program_result (pack_unpack Reserve _ (data account))) in
      let? rest := unpack_reserves accounts keys in
      Ok ((key, reserve) :: rest)
  | _, _ => Ok []
  end.

(** The length check that follows is an assertion. *)
Definition assert_length (keys : list Pubkey) (reserves : list (Pubkey * Reserve))
    : outcome CliError unit :=
  if (length keys =? length reserves)%nat then Ok tt else Panic.

Definition SolendState_new (lending_program_id obligation_pubkey : Pubkey)
    : cli SolendState :=
  let! account := ask (fun sent => unwrap (get_account sent obligation_pubkey)) in
  let! obligation := lift (unwrap (program_result (pack_unpack Obligation _ (data account)))) in
  let reserve_pubkeys := hash_set_keys (position_keys obligation) in
  let! accounts := ask (fun sent => unwrap (get_multiple_accounts sent reserve_pubkeys)) in
  let! reserves := lift (unpack_reserves accounts reserve_pubkeys) in
  lift (assert_length reserve_pubkeys reserves);;!
  cli_ret (mkSolendState lending_program_id obligation_pubkey obligation reserves).

Definition find_reserve_by_key (self : SolendState) (pubkey : Pubkey) : option Reserve :=
  find_reserve pubkey (reserves self).

(** A refresh of each of the reserves. *)
Definition refresh_reserves (program_id : Pubkey) (reserves : list (Pubkey * Reserve))
    : list SdkInstruction :=
  map (fun '(pubkey, reserve) =>
         Builders.refresh_reserve program_id pubkey
           (pyth_oracle_pubkey (liquidity reserve))
           (switchboard_oracle_pubkey (liquidity reserve))) reserves.

Definition get_refresh_instructions (self : SolendState) : list SdkInstruction :=
  refresh_reserves (lending_program_id self) (reserves self) ++
  [Builders.refresh_obligation (lending_program_id self) (obligation_pubkey self)
     (position_keys (obligation self))].

(** Withdraw obligation ctokens to owner's ata. *)
Definition withdraw (self : SolendState) (withdraw_reserve_pubkey : Pubkey)
    (collateral_amount : Z) : outcome CliError (list SdkInstruction) :=
  let? withdraw_reserve :=
    unwrap_option (find_reserve withdraw_reserve_pubkey (reserves self)) in
  Ok (get_refresh_instructions self ++
      [Builders.withdraw_obligation_collateral (lending_program_id self) collateral_amount
         (ReserveCollateral.supply_pubkey (collateral withdraw_reserve))
         (get_associated_token_address (Obligation.owner (obligation self))
            (ReserveCollateral.mint_pubkey (collateral withdraw_reserve)))
         withdraw_reserve_pubkey (obligation_pubkey self)
         (Reserve.lending_market withdraw_reserve) (Obligation.owner (obligation self))]).
End state.
