(* ===== verification/Cli.v ===== *)
(** cli/src/main.rs: the commands of the command-line client.

    [Keypair::new()] and the keypair files of the arguments are public keys passed
    to the command; what is printed is left out. *)

From S2P Require Import Builders.
From Stdlib Require Import Strings.String.
From S2P Require Import Prelude Errors Common Rate Decimal Codec.
From S2P Require Import RateLimiter LendingMarket ReserveConfig.
From S2P Require Import ObligationCollateral ObligationLiquidity Obligation ObligationCodec.
From S2P Require Import ReserveLiquidity ReserveCollateral Reserve ReserveCodec.
From S2P Require Import Runtime Oracles ProcessorHelpers Client.

Record Config : Type := mkConfig {
  fee_payer : Pubkey;
  config_program_id : Pubkey;
  dry_run : bool;
}.

Section helpers.
Context `{ClientEnv}.

Definition check_fee_payer_balance (config : Config) (required_balance : Z) : cli unit :=
  let! balance := ask (fun sent => get_balance sent (fee_payer config)) in
  if balance <? required_balance then lift (Err InsufficientBalance) else cli_ret tt.

Definition send_transaction (config : Config) (transaction : Transaction) : cli unit :=
  if dry_run config then ask (fun sent => simulate_transaction sent transaction)
  else submit transaction.

(** [m.unwrap()]. *)
Definition cli_unwrap {A : Type} (m : cli A) : cli A := fun sent =>
  let '(sent, r) := m sent in (sent, unwrap r).

(** [Message::new_with_blockhash(..)], then [Transaction::new(..)]. *)
Definition new_transaction (config : Config) (signers : list Pubkey)
    (instructions : list SdkInstruction) (recent_blockhash : Z) : outcome CliError Transaction :=
  transaction_new signers (mkMessage instructions (fee_payer config) recent_blockhash).

Definition get_or_create_associated_token_address (config : Config) (mint : Pubkey)
    : cli Pubkey :=
  let ata := get_associated_token_address (fee_payer config) mint in
  let! missing :=
    ask (fun sent =>
           match get_account sent ata with
           | Ok _ => Ok false
           | Err _ => Ok true
           | Panic => Panic
           end) in
  (if missing then
     let! recent_blockhash := ask (fun sent => unwrap (get_latest_blockhash sent)) in
     let! transaction :=
       lift (new_transaction config [fee_payer config]
               [create_associated_token_account (fee_payer config) (fee_payer config) mint]
               recent_blockhash) in
     cli_unwrap (send_transaction config transaction)
   else cli_ret tt);;!
  cli_ret ata.

(** The tail of most commands: the block hash, the message, the transaction. *)
Definition sign_and_send (config : Config) (signers : list Pubkey)
    (instructions : list SdkInstruction) : cli unit :=
  let! recent_blockhash := ask get_latest_blockhash in
  let! transaction := lift (new_transaction config signers instructions recent_blockhash) in
  send_transaction config transaction.

(** The quote currency of an argument; [pubkey_from_str] is [Pubkey::from_str]. *)
Definition quote_currency_of (pubkey_from_str : bytes -> outcome CliError Pubkey)
    (argument : option bytes) : outcome CliError (option bytes) :=
  match argument with
  | None => Ok None
  | Some value =>
      let usd := list_byte_of_string "USD" in
      if bool_decide (value = usd) then Ok (Some (usd ++ zero_bytes 29))
      else if (length value <=? 32)%nat then
        Ok (Some (value ++ zero_bytes (32 - length value)))
      else
        let? pubkey := unwrap (pubkey_from_str value) in
        Ok (Some (pubkey_to_bytes pubkey))
  end.
End helpers.

Section commands.
Context `{Runtime, KnownIds, ClientEnv} (config : Config).

(** [lending_market_key] is the key of [Keypair::new()]. *)
Definition command_create_lending_market (lending_market_key lending_market_owner : Pubkey)
    (quote_currency : bytes) (oracle_program_id switchboard_oracle_program_id : Pubkey)
    : cli unit :=
  let! lending_market_balance :=
    ask (fun sent => get_minimum_balance_for_rent_exemption sent LENDING_MARKET_LEN) in
  let! recent_blockhash := ask get_latest_blockhash in
  let message :=
    mkMessage
      [create_account (fee_payer config) lending_market_key lending_market_balance
         (Z.of_nat LENDING_MARKET_LEN) (config_program_id config);
       Builders.init_lending_market (config_program_id config) lending_market_owner
         quote_currency lending_market_key oracle_program_id switchboard_oracle_program_id]
      (fee_payer config) recent_blockhash in
  let! fee := ask (fun sent => get_fee_for_message sent message) in
  check_fee_payer_balance config (wrapping_add 64 lending_market_balance fee);;!
  let! transaction :=
    lift (transaction_new [fee_payer config; lending_market_key] message) in
  send_transaction config transaction;;!
  let! account := ask (fun sent => get_account sent lending_market_key) in
  let! lending_market :=
    lift (program_result (LendingMarket.unpack_from_slice (data account))) in
  let! _authority :=
    lift (program_result
            (create_program_address
               [pubkey_to_bytes lending_market_key; to_le_bytes 1 (bump_seed lending_market)]
               (config_program_id config))) in
  cli_ret tt.

Definition command_redeem_collateral (redeem_reserve_pubkey : Pubkey) (collateral_amount : Z)
    : cli unit :=
  let! account := ask (fun sent => unwrap (get_account sent redeem_reserve_pubkey)) in
  let! redeem_reserve := lift (unwrap (program_result (pack_unpack Reserve _ (data account)))) in
  let! source_ata :=
    get_or_create_associated_token_address config
      (ReserveCollateral.mint_pubkey (collateral redeem_reserve)) in
  let! dest_ata :=
    get_or_create_associated_token_address config
      (ReserveLiquidity.mint_pubkey (liquidity redeem_reserve)) in
  sign_and_send config [fee_payer config]
    [Builders.redeem_reserve_collateral (config_program_id config) collateral_amount source_ata
       dest_ata redeem_reserve_pubkey
       (ReserveCollateral.mint_pubkey (collateral redeem_reserve))
       (ReserveLiquidity.supply_pubkey (liquidity redeem_reserve))
       (Reserve.lending_market redeem_reserve) (fee_payer config)].

Definition command_withdraw_collateral (obligation_pubkey withdraw_reserve_pubkey : Pubkey)
    (collateral_amount : Z) : cli unit :=
  let! solend_state := SolendState_new (config_program_id config) obligation_pubkey in
  let! withdraw_reserve :=
    lift (unwrap_option (find_reserve_by_key solend_state withdraw_reserve_pubkey)) in
  let! _ata :=
    get_or_create_associated_token_address config
      (ReserveCollateral.mint_pubkey (collateral withdraw_reserve)) in
  let! instructions :=
    lift (withdraw solend_state withdraw_reserve_pubkey collateral_amount) in
  sign_and_send config [fee_payer config] instructions.

Definition command_liquidate_obligation
    (obligation_pubkey repay_reserve_pubkey source_liquidity_pubkey
     withdraw_reserve_pubkey : Pubkey) (liquidity_amount : Z) : cli unit :=
  let! account := ask (fun sent => get_account sent obligation_pubkey) in
  let! obligation_state :=
    lift (program_result (pack_unpack Obligation _ (data account))) in
  let reserve_pubkeys := position_keys obligation_state in
  let! accounts := ask (fun sent => get_multiple_accounts sent reserve_pubkeys) in
  let! reserves := lift (unpack_reserves accounts reserve_pubkeys) in
  lift (assert_length reserve_pubkeys reserves);;!
  let! withdraw_reserve_state :=
    lift (unwrap_option (find_reserve withdraw_reserve_pubkey reserves)) in
  let! repay_reserve_state :=
    lift (unwrap_option (find_reserve repay_reserve_pubkey reserves)) in
  let collateral_mint := ReserveCollateral.mint_pubkey (collateral withdraw_reserve_state) in
  let liquidity_mint := ReserveLiquidity.mint_pubkey (liquidity withdraw_reserve_state) in
  let! _ata := get_or_create_associated_token_address config collateral_mint in
  let! _ata := get_or_create_associated_token_address config liquidity_mint in
  let destination_collateral_pubkey :=
    get_associated_token_address (fee_payer config) collateral_mint in
  let destination_liquidity_pubkey :=
    get_associated_token_address (fee_payer config) liquidity_mint in
  sign_and_send config [fee_payer config]
    ([set_compute_unit_price 30101] ++
     refresh_reserves (config_program_id config) reserves ++
     [Builders.refresh_obligation (config_program_id config) obligation_pubkey reserve_pubkeys;
      Builders.liquidate_obligation_and_redeem_reserve_collateral (config_program_id config)
        liquidity_amount source_liquidity_pubkey destination_collateral_pubkey
        destination_liquidity_pubkey repay_reserve_pubkey
        (ReserveLiquidity.supply_pubkey (liquidity repay_reserve_state))
        withdraw_reserve_pubkey collateral_mint
        (ReserveCollateral.supply_pubkey (collateral withdraw_reserve_state))
        (ReserveLiquidity.supply_pubkey (liquidity withdraw_reserve_state))
        (fee_receiver (Reserve.config withdraw_reserve_state))
        obligation_pubkey (Obligation.lending_market obligation_state) (fee_payer config)]).

(** The keys of [Keypair::new()]. *)
Record ReserveKeys : Type := mkReserveKeys {
  reserve_key : Pubkey;
  collateral_mint_key : Pubkey;
  collateral_supply_key : Pubkey;
  liquidity_supply_key : Pubkey;
  user_collateral_key : Pubkey;
  user_transfer_authority_key : Pubkey;
}.

(** The rent-exempt balances of a reserve, a mint and a token account. *)
Record RentBalances : Type := mkRentBalances {
  reserve_balance : Z;
  collateral_mint_balance : Z;
  token_account_balance : Z;
}.

Definition create_token_account (b : RentBalances) (key : Pubkey) : SdkInstruction :=
  create_account (fee_payer config) key (token_account_balance b) (Z.of_nat TOKEN_LEN)
    spl_token_id.

(** The accounts the program owns or mints to. *)
Definition add_reserve_message_1 (k : ReserveKeys) (b : RentBalances) : list SdkInstruction :=
  [create_account (fee_payer config) (reserve_key k) (reserve_balance b)
     (Z.of_nat RESERVE_LEN) (config_program_id config);
   create_account (fee_payer config) (collateral_mint_key k) (collateral_mint_balance b)
     (Z.of_nat MINT_LEN) spl_token_id;
   create_token_account b (collateral_supply_key k);
   create_token_account b (user_collateral_key k)].

Definition add_reserve_message_2 (k : ReserveKeys) (b : RentBalances)
    (liquidity_fee_receiver_key : Pubkey) : list SdkInstruction :=
  [create_token_account b (liquidity_supply_key k);
   create_token_account b liquidity_fee_receiver_key].

(** A temporary delegate pays the first deposit. *)
Definition add_reserve_message_3 (k : ReserveKeys) (liquidity_amount : Z)
    (reserve_config : ReserveConfig)
    (source_liquidity_pubkey source_liquidity_owner source_liquidity_mint
     lending_market_pubkey lending_market_owner pyth_product_pubkey pyth_price_pubkey
     switchboard_feed_pubkey : Pubkey) : outcome CliError (list SdkInstruction) :=
  let? approval :=
    unwrap (approve spl_token_id source_liquidity_pubkey (user_transfer_authority_key k)
              source_liquidity_owner liquidity_amount) in
  let? revocation :=
    unwrap (revoke spl_token_id source_liquidity_pubkey source_liquidity_owner) in
  Ok [approval;
      Builders.init_reserve (config_program_id config) liquidity_amount reserve_config
        source_liquidity_pubkey (user_collateral_key k) (reserve_key k) source_liquidity_mint
        (liquidity_supply_key k) (collateral_mint_key k) (collateral_supply_key k)
        pyth_product_pubkey pyth_price_pubkey switchboard_feed_pubkey lending_market_pubkey
        lending_market_owner (user_transfer_authority_key k);
      revocation].

(** [source_liquidity_mint] is the mint of the source token account. *)
Definition command_add_reserve (k : ReserveKeys) (liquidity_amount : Z)
    (reserve_config : ReserveConfig)
    (source_liquidity_pubkey source_liquidity_owner lending_market_pubkey
     lending_market_owner pyth_product_pubkey pyth_price_pubkey switchboard_feed_pubkey
     liquidity_fee_receiver_key source_liquidity_mint : Pubkey) : cli unit :=
  let! reserve_balance :=
    ask (fun sent => get_minimum_balance_for_rent_exemption sent RESERVE_LEN) in
  let! collateral_mint_balance :=
    ask (fun sent => get_minimum_balance_for_rent_exemption sent MINT_LEN) in
  let! token_account_balance :=
    ask (fun sent => get_minimum_balance_for_rent_exemption sent TOKEN_LEN) in
  let b := mkRentBalances reserve_balance collateral_mint_balance token_account_balance in
  let plus := wrapping_add 64 in
  let total_balance :=
    plus (plus (plus (plus (plus reserve_balance collateral_mint_balance)
      token_account_balance) token_account_balance) token_account_balance)
      token_account_balance in
  let! recent_blockhash := ask get_latest_blockhash in
  let message instructions := mkMessage instructions (fee_payer config) recent_blockhash in
  let message_1 := message (add_reserve_message_1 k b) in
  let message_2 := message (add_reserve_message_2 k b liquidity_fee_receiver_key) in
  let! instructions_3 :=
    lift (add_reserve_message_3 k liquidity_amount reserve_config source_liquidity_pubkey
            source_liquidity_owner source_liquidity_mint lending_market_pubkey
            lending_market_owner pyth_product_pubkey pyth_price_pubkey
            switchboard_feed_pubkey) in
  let message_3 := message instructions_3 in
  let! fee_1 := ask (fun sent => get_fee_for_message sent message_1) in
  let! fee_2 := ask (fun sent => get_fee_for_message sent message_2) in
  let! fee_3 := ask (fun sent => get_fee_for_message sent message_3) in
  check_fee_payer_balance config (plus (plus (plus total_balance fee_1) fee_2) fee_3);;!
  let! transaction_1 :=
    lift (transaction_new
            [fee_payer config; reserve_key k; collateral_mint_key k; collateral_supply_key k;
             user_collateral_key k] message_1) in
  send_transaction config transaction_1;;!
  let! transaction_2 :=
    lift (transaction_new
            [fee_payer config; liquidity_supply_key k; liquidity_fee_receiver_key] message_2) in
  send_transaction config transaction_2;;!
  let! transaction_3 :=
    lift (transaction_new
            [fee_payer config; source_liquidity_owner; lending_market_owner;
             user_transfer_authority_key k] message_3) in
  send_transaction config transaction_3.

(** An option of the command, else the current value. *)
Definition command_set_lending_market_owner_and_config
    (lending_market_pubkey lending_market_owner : Pubkey)
    (new_lending_market_owner : option Pubkey)
    (rate_limiter_window_duration rate_limiter_max_outflow : option Z)
    (whitelisted_liquidator_pubkey : option Pubkey) (risk_authority_pubkey : Pubkey)
    : cli unit :=
  let! lending_market_info := ask (fun sent => get_account sent lending_market_pubkey) in
  let! lending_market :=
    lift (program_result (LendingMarket.unpack_from_slice (data lending_market_info))) in
  let current := RateLimiter.config (LendingMarket.rate_limiter lending_market) in
  sign_and_send config [fee_payer config; lending_market_owner]
    [Builders.set_lending_market_owner_and_config (config_program_id config)
       lending_market_pubkey lending_market_owner
       (option.default (LendingMarket.owner lending_market) new_lending_market_owner)
       (mkRateLimiterConfig
          (option.default (window_duration current) rate_limiter_window_duration)
          (option.default (max_outflow current) rate_limiter_max_outflow))
       whitelisted_liquidator_pubkey risk_authority_pubkey].
End commands.

(** ** Updating a reserve *)

(** Reserve Fees with optional fields *)
Record PartialReserveFees : Type := mkPartialReserveFees {
  p_borrow_fee_wad : option Z;
  p_flash_loan_fee_wad : option Z;
  p_host_fee_percentage : option Z;
}.

(** Reserve config with optional fields *)
Record PartialReserveConfig : Type := mkPartialReserveConfig {
  p_optimal_utilization_rate : option Z;
  p_max_utilization_rate : option Z;
  p_loan_to_value_ratio : option Z;
  p_liquidation_bonus : option Z;
  p_max_liquidation_bonus : option Z;
  p_liquidation_threshold : option Z;
  p_max_liquidation_threshold : option Z;
  p_min_borrow_rate : option Z;
  p_optimal_borrow_rate : option Z;
  p_max_borrow_rate : option Z;
  p_super_max_borrow_rate : option Z;
  p_fees : PartialReserveFees;
  p_deposit_limit : option Z;
  p_borrow_limit : option Z;
  p_fee_receiver : option Pubkey;
  p_protocol_liquidation_fee : option Z;
  p_protocol_take_rate : option Z;
  p_rate_limiter_window_duration : option Z;
  p_rate_limiter_max_outflow : option Z;
  p_added_borrow_weight_bps : option Z;
  p_reserve_type : option ReserveType;
}.

Section update.
Context `{Runtime, KnownIds, ClientEnv} (config : Config).

(** [new.is_some() && old != new.unwrap()]: the condition of every field. *)
Definition differs {A : Type} `{EqDecision A} (new : option A) (old : A) : bool :=
  match new with
  | Some a => bool_decide (old <> a)
  | None => false
  end.

(** The field after its [if]. *)
Definition merge {A : Type} `{EqDecision A} (new : option A) (old : A) : A :=
  if differs new old then option.default old new else old.

(** A limit: the argument is compared with the limit in base units, and converted
    from display units when it is stored. *)
Definition merge_limit (decimals : Z) (new : option Z) (old : Z) : Z :=
  if differs new old
  then ui_amount_to_amount (f64_of_u64 (option.default old new)) decimals
  else old.

Definition merge_fees (p : PartialReserveFees) (f : ReserveFees) : ReserveFees :=
  mkReserveFees
    (merge (p_borrow_fee_wad p) (borrow_fee_wad f))
    (merge (p_flash_loan_fee_wad p) (flash_loan_fee_wad f))
    (merge (p_host_fee_percentage p) (host_fee_percentage f)).

Definition fees_differ (p : PartialReserveFees) (f : ReserveFees) : bool :=
  differs (p_borrow_fee_wad p) (borrow_fee_wad f)
  || differs (p_flash_loan_fee_wad p) (flash_loan_fee_wad f)
  || differs (p_host_fee_percentage p) (host_fee_percentage f).

Definition merge_config (decimals : Z) (p : PartialReserveConfig) (c : ReserveConfig)
    : ReserveConfig :=
  mkReserveConfig
    (merge (p_optimal_utilization_rate p) (optimal_utilization_rate c))
    (merge (p_max_utilization_rate p) (max_utilization_rate c))
    (merge (p_loan_to_value_ratio p) (ReserveConfig.loan_to_value_ratio c))
    (merge (p_liquidation_bonus p) (liquidation_bonus c))
    (merge (p_max_liquidation_bonus p) (max_liquidation_bonus c))
    (merge (p_liquidation_threshold p) (liquidation_threshold c))
    (merge (p_max_liquidation_threshold p) (max_liquidation_threshold c))
    (merge (p_min_borrow_rate p) (min_borrow_rate c))
    (merge (p_optimal_borrow_rate p) (optimal_borrow_rate c))
    (merge (p_max_borrow_rate p) (max_borrow_rate c))
    (merge (p_super_max_borrow_rate p) (super_max_borrow_rate c))
    (merge_fees (p_fees p) (fees c))
    (merge_limit decimals (p_deposit_limit p) (deposit_limit c))
    (merge_limit decimals (p_borrow_limit p) (borrow_limit c))
    (merge (p_fee_receiver p) (fee_receiver c))
    (merge (p_protocol_liquidation_fee p) (protocol_liquidation_fee c))
    (merge (p_protocol_take_rate p) (protocol_take_rate c))
    (merge (p_added_borrow_weight_bps p) (added_borrow_weight_bps c))
    (merge (p_reserve_type p) (reserve_type c)).

(** Some field of the configuration is to change. *)
Definition config_differs (p : PartialReserveConfig) (c : ReserveConfig) : bool :=
  differs (p_optimal_utilization_rate p) (optimal_utilization_rate c)
  || differs (p_max_utilization_rate p) (max_utilization_rate c)
  || differs (p_loan_to_value_ratio p) (ReserveConfig.loan_to_value_ratio c)
  || differs (p_liquidation_bonus p) (liquidation_bonus c)
  || differs (p_max_liquidation_bonus p) (max_liquidation_bonus c)
  || differs (p_liquidation_threshold p) (liquidation_threshold c)
  || differs (p_max_liquidation_threshold p) (max_liquidation_threshold c)
  || differs (p_min_borrow_rate p) (min_borrow_rate c)
  || differs (p_optimal_borrow_rate p) (optimal_borrow_rate c)
  || differs (p_max_borrow_rate p) (max_borrow_rate c)
  || differs (p_super_max_borrow_rate p) (super_max_borrow_rate c)
  || fees_differ (p_fees p) (fees c)
  || differs (p_deposit_limit p) (deposit_limit c)
  || differs (p_borrow_limit p) (borrow_limit c)
  || differs (p_fee_receiver p) (fee_receiver c)
  || differs (p_protocol_liquidation_fee p) (protocol_liquidation_fee c)
  || differs (p_protocol_take_rate p) (protocol_take_rate c)
  || differs (p_added_borrow_weight_bps p) (added_borrow_weight_bps c)
  || differs (p_reserve_type p) (reserve_type c).

Definition merge_limiter (p : PartialReserveConfig) (c : RateLimiterConfig)
    : RateLimiterConfig :=
  mkRateLimiterConfig
    (merge (p_rate_limiter_window_duration p) (window_duration c))
    (merge (p_rate_limiter_max_outflow p) (max_outflow c)).

Definition limiter_differs (p : PartialReserveConfig) (c : RateLimiterConfig) : bool :=
  differs (p_rate_limiter_window_duration p) (window_duration c)
  || differs (p_rate_limiter_max_outflow p) (max_outflow c).

(** The Pyth product and price keys to send: a new price needs its product. *)
Definition merge_pyth (product price : option Pubkey) (l : ReserveLiquidity)
    : outcome CliError (Pubkey * Pubkey) :=
  match price with
  | Some price =>
      let? product := unwrap_option product in Ok (product, price)
  | None => Ok (NULL_PUBKEY, pyth_oracle_pubkey l)
  end.

Definition command_update_reserve (reserve_config : PartialReserveConfig)
    (pyth_product_pubkey pyth_price_pubkey switchboard_feed_pubkey : option Pubkey)
    (reserve_pubkey lending_market_pubkey lending_market_owner : Pubkey) : cli unit :=
  let! reserve_info := ask (fun sent => get_account sent reserve_pubkey) in
  let! reserve := lift (program_result (ReserveCodec.unpack_from_slice (data reserve_info))) in
  let l := liquidity reserve in
  let current := Reserve.config reserve in
  let limits := RateLimiter.config (Reserve.rate_limiter reserve) in
  let! pyth := lift (merge_pyth pyth_product_pubkey pyth_price_pubkey l) in
  let new_config := merge_config (mint_decimals l) reserve_config current in
  let no_change :=
    negb (config_differs reserve_config current || bool_decide (is_Some pyth_price_pubkey)
          || bool_decide (is_Some switchboard_feed_pubkey)
          || limiter_differs reserve_config limits) in
  let! valid :=
    ask (fun _ => match validate_reserve_config new_config with
                  | Ok _ => Ok true
                  | Err _ => Ok false
                  | Panic => Panic
                  end) in
  if negb valid then lift (Err InvalidReserveConfig)
  else if no_change then cli_ret tt
  else
    sign_and_send config [fee_payer config; lending_market_owner]
      [Builders.update_reserve_config (config_program_id config) new_config
         (merge_limiter reserve_config limits) reserve_pubkey lending_market_pubkey
         lending_market_owner pyth.1 pyth.2
         (option.default (switchboard_oracle_pubkey l) switchboard_feed_pubkey)].
End update.
