(* ===== verification/CliArgs.v ===== *)
(** cli/src/main.rs: the arguments that the client declares, and what of a command line
    they accept.

    Splitting a command line is clap's: here it is the function from the names of the
    arguments to the values given for them.  The help texts are left out. *)

From Stdlib Require Import Floats.SpecFloat Strings.String Strings.Ascii.
From S2P Require Import Prelude Errors Common Rate Decimal Codec ReserveConfig.
From S2P Require Import Runtime Oracles.

(** ** Declarations *)

(** The types that [is_parsable] is used at. *)
Inductive Parsable : Type := U8 | U64 | F64 | ReserveTypeName.

Inductive Validator : Type :=
  | is_url
  | is_pubkey
  | is_keypair
  | is_amount
  | is_parsable (t : Parsable).

(** An argument of an [App] or a [SubCommand]. *)
Record Arg : Type := mkArg {
  arg_name : string;
  arg_short : option string;
  arg_long : option string;
  arg_validator : option Validator;
  arg_value_name : option string;
  arg_takes_value : bool;
  arg_required : bool;
  arg_global : bool;
  arg_default : option string;
}.

(** [Arg::with_name], and the methods that set one property. *)
Definition with_name (name : string) : Arg :=
  mkArg name None None None None false false false None.
Definition short (s : string) (a : Arg) : Arg :=
  mkArg (arg_name a) (Some s) (arg_long a) (arg_validator a) (arg_value_name a)
    (arg_takes_value a) (arg_required a) (arg_global a) (arg_default a).
Definition long (s : string) (a : Arg) : Arg :=
  mkArg (arg_name a) (arg_short a) (Some s) (arg_validator a) (arg_value_name a)
    (arg_takes_value a) (arg_required a) (arg_global a) (arg_default a).
Definition validator (v : Validator) (a : Arg) : Arg :=
  mkArg (arg_name a) (arg_short a) (arg_long a) (Some v) (arg_value_name a)
    (arg_takes_value a) (arg_required a) (arg_global a) (arg_default a).
Definition value_name (s : string) (a : Arg) : Arg :=
  mkArg (arg_name a) (arg_short a) (arg_long a) (arg_validator a) (Some s)
    (arg_takes_value a) (arg_required a) (arg_global a) (arg_default a).
Definition takes_value (b : bool) (a : Arg) : Arg :=
  mkArg (arg_name a) (arg_short a) (arg_long a) (arg_validator a) (arg_value_name a)
    b (arg_required a) (arg_global a) (arg_default a).
Definition required (b : bool) (a : Arg) : Arg :=
  mkArg (arg_name a) (arg_short a) (arg_long a) (arg_validator a) (arg_value_name a)
    (arg_takes_value a) b (arg_global a) (arg_default a).
Definition global (b : bool) (a : Arg) : Arg :=
  mkArg (arg_name a) (arg_short a) (arg_long a) (arg_validator a) (arg_value_name a)
    (arg_takes_value a) (arg_required a) b (arg_default a).
Definition default_value (s : string) (a : Arg) : Arg :=
  mkArg (arg_name a) (arg_short a) (arg_long a) (arg_validator a) (arg_value_name a)
    (arg_takes_value a) (arg_required a) (arg_global a) (Some s).

Declare Scope cli_args_scope.
Notation "a |> f" := (f a) (at level 45, left associativity, only parsing) : cli_args_scope.
Local Open Scope cli_args_scope.
Local Open Scope string_scope.

Definition PYTH_PROGRAM_ID : string := "gSbePebfvPy7tRqimPoVecS2UsBvYv46ynrzWocc92s".
Definition SWITCHBOARD_PROGRAM_ID_DEV : string :=
  "7azgmy1pFXHikv36q1zZASvFq5vFa39TT9NweVugKKTU".
(** [solend_sdk::solend_mainnet::id().to_string()]. *)
Definition default_lending_program_id : string :=
  "So1endDq2YkqhipRh3WViPa8hdiSpxWy6z3Z6tMCpAo".

(** The arguments of every command.  The fee payer's is solana_clap_utils', the default
    configuration file the one of the environment. *)
Definition app_args (CONFIG_FILE : option string) (fee_payer_arg : Arg) : list Arg :=
  [let arg :=
     with_name "config_file" |> short "C" |> long "config" |> value_name "PATH"
       |> takes_value true |> global true in
   match CONFIG_FILE with
   | Some config_file => arg |> default_value config_file
   | None => arg
   end;
   with_name "json_rpc_url" |> long "url" |> value_name "URL" |> takes_value true
     |> validator is_url;
   fee_payer_arg |> short "p" |> global true;
   with_name "lending_program_id" |> long "program" |> validator is_pubkey
     |> value_name "PUBKEY" |> takes_value true |> required true
     |> default_value default_lending_program_id;
   with_name "verbose" |> long "verbose" |> short "v" |> takes_value false |> global true;
   with_name "dry_run" |> long "dry-run" |> takes_value false |> global true].

(** view-reserve *)
Definition view_reserve_args : list Arg :=
  [with_name "reserve" |> long "reserve" |> validator is_pubkey |> value_name "PUBKEY"
     |> takes_value true |> required true].

(** view-market *)
Definition view_market_args : list Arg :=
  [with_name "market" |> long "market" |> validator is_pubkey |> value_name "PUBKEY"
     |> takes_value true |> required true].

Definition view_all_markets_args : list Arg := [].

(** view-obligation *)
Definition view_obligation_args : list Arg :=
  [with_name "obligation" |> long "obligation" |> validator is_pubkey |> value_name "PUBKEY"
     |> takes_value true |> required true].

(** create-market *)
Definition create_market_args : list Arg :=
  [with_name "lending_market_owner" |> long "market-owner" |> validator is_pubkey
     |> value_name "PUBKEY" |> takes_value true |> required true;
   with_name "oracle_program_id" |> long "oracle" |> validator is_pubkey
     |> value_name "PUBKEY" |> takes_value true |> required true
     |> default_value PYTH_PROGRAM_ID;
   with_name "switchboard_oracle_program_id" |> long "switchboard-oracle"
     |> validator is_pubkey |> value_name "PUBKEY" |> takes_value true |> required true
     |> default_value SWITCHBOARD_PROGRAM_ID_DEV;
   with_name "quote_currency" |> long "quote" |> value_name "STRING" |> takes_value true
     |> required true |> default_value "USD"].

(** liquidate-obligation *)
Definition liquidate_obligation_args : list Arg :=
  [with_name "obligation" |> long "obligation" |> value_name "OBLIGATION_PUBKEY"
     |> takes_value true |> required true;
   with_name "repay-reserve" |> long "repay-reserve" |> value_name "RESERVE_PUBKEY"
     |> takes_value true |> required true;
   with_name "source-liquidity" |> long "source-liquidity" |> value_name "PUBKEY"
     |> takes_value true |> required true;
   with_name "withdraw-reserve" |> long "withdraw-reserve" |> value_name "RESERVE_PUBKEY"
     |> takes_value true |> required true;
   with_name "liquidity-amount" |> long "liquidity-amount" |> value_name "AMOUNT"
     |> takes_value true |> required true].

(** withdraw-collateral *)
Definition withdraw_collateral_args : list Arg :=
  [with_name "obligation" |> long "obligation" |> value_name "OBLIGATION_PUBKEY"
     |> takes_value true |> required true;
   with_name "withdraw-reserve" |> long "withdraw-reserve" |> value_name "RESERVE_PUBKEY"
     |> takes_value true |> required true;
   with_name "collateral-amount" |> long "withdraw-amount" |> value_name "AMOUNT"
     |> takes_value true |> required true].

(** redeem-collateral *)
Definition redeem_collateral_args : list Arg :=
  [with_name "redeem-reserve" |> long "redeem-reserve" |> value_name "RESERVE_PUBKEY"
     |> takes_value true |> required true;
   with_name "collateral-amount" |> long "redeem-amount" |> value_name "AMOUNT"
     |> takes_value true |> required true].

(** add-reserve: the accounts, the keypairs and the initial amount. *)
Definition add_reserve_account_args : list Arg :=
  [with_name "lending_market_owner" |> long "market-owner" |> validator is_keypair
     |> value_name "KEYPAIR" |> takes_value true |> required true;
   with_name "source_liquidity_owner" |> long "source-owner" |> validator is_keypair
     |> value_name "KEYPAIR" |> takes_value true |> required true;
   with_name "lending_market" |> long "market" |> validator is_pubkey |> value_name "PUBKEY"
     |> takes_value true |> required true;
   with_name "source_liquidity" |> long "source" |> validator is_pubkey
     |> value_name "PUBKEY" |> takes_value true |> required true;
   with_name "liquidity_amount" |> long "amount" |> validator is_amount
     |> value_name "DECIMAL_AMOUNT" |> takes_value true |> required true;
   with_name "pyth_product" |> long "pyth-product" |> validator is_pubkey
     |> value_name "PUBKEY" |> takes_value true |> required true;
   with_name "pyth_price" |> long "pyth-price" |> validator is_pubkey |> value_name "PUBKEY"
     |> takes_value true |> required true;
   with_name "switchboard_feed" |> long "switchboard-feed" |> validator is_pubkey
     |> value_name "PUBKEY" |> takes_value true |> required true].

(** add-reserve: the thresholds and the interest curve. *)
Definition add_reserve_rate_args : list Arg :=
  [with_name "optimal_utilization_rate" |> long "optimal-utilization-rate"
     |> validator (is_parsable U8) |> value_name "INTEGER_PERCENT" |> takes_value true
     |> required true |> default_value "80";
   with_name "max_utilization_rate" |> long "max-utilization-rate"
     |> validator (is_parsable U8) |> value_name "INTEGER_PERCENT" |> takes_value true
     |> required false |> default_value "90";
   with_name "loan_to_value_ratio" |> long "loan-to-value-ratio"
     |> validator (is_parsable U8) |> value_name "INTEGER_PERCENT" |> takes_value true
     |> required true |> default_value "50";
   with_name "liquidation_bonus" |> long "liquidation-bonus" |> validator (is_parsable U8)
     |> value_name "INTEGER_PERCENT" |> takes_value true |> required true
     |> default_value "5";
   with_name "max_liquidation_bonus" |> long "max-liquidation-bonus"
     |> validator (is_parsable U8) |> value_name "INTEGER_PERCENT" |> takes_value true
     |> required false |> default_value "5";
   with_name "liquidation_threshold" |> long "liquidation-threshold"
     |> validator (is_parsable U8) |> value_name "INTEGER_PERCENT" |> takes_value true
     |> required true |> default_value "55";
   with_name "max_liquidation_threshold" |> long "max-liquidation-threshold"
     |> validator (is_parsable U8) |> value_name "INTEGER_PERCENT" |> takes_value true
     |> required false |> default_value "65";
   with_name "min_borrow_rate" |> long "min-borrow-rate" |> validator (is_parsable U8)
     |> value_name "INTEGER_PERCENT" |> takes_value true |> required true
     |> default_value "0";
   with_name "optimal_borrow_rate" |> long "optimal-borrow-rate"
     |> validator (is_parsable U8) |> value_name "INTEGER_PERCENT" |> takes_value true
     |> required true |> default_value "4";
   with_name "max_borrow_rate" |> long "max-borrow-rate" |> validator (is_parsable U8)
     |> value_name "INTEGER_PERCENT" |> takes_value true |> required true
     |> default_value "30";
   with_name "super_max_borrow_rate" |> long "super-max-borrow-rate"
     |> validator (is_parsable U64) |> value_name "INTEGER" |> takes_value true
     |> required false |> default_value "100"].

(** add-reserve: the fees, the limits and the type. *)
Definition add_reserve_fee_args : list Arg :=
  [with_name "borrow_fee" |> long "borrow-fee" |> validator (is_parsable F64)
     |> value_name "DECIMAL_PERCENT" |> takes_value true |> required true
     |> default_value "0.0001";
   with_name "flash_loan_fee" |> long "flash-loan-fee" |> validator (is_parsable F64)
     |> value_name "DECIMAL_PERCENT" |> takes_value true |> required true
     |> default_value ".003";
   with_name "host_fee_percentage" |> long "host-fee-percentage"
     |> validator (is_parsable U8) |> value_name "INTEGER_PERCENT" |> takes_value true
     |> required true |> default_value "20";
   with_name "protocol_liquidation_fee" |> long "protocol-liquidation-fee"
     |> validator (is_parsable U8) |> value_name "INTEGER_PERCENT" |> takes_value true
     |> required false |> default_value "30";
   with_name "protocol_take_rate" |> long "protocol-take-rate" |> validator (is_parsable U8)
     |> value_name "INTEGER_PERCENT" |> takes_value true |> required false
     |> default_value "20";
   with_name "deposit_limit" |> long "deposit-limit" |> validator (is_parsable U64)
     |> value_name "INTEGER" |> takes_value true |> required true
     |> default_value "18446744073709551615";
   with_name "borrow_limit" |> long "borrow-limit" |> validator (is_parsable U64)
     |> value_name "INTEGER" |> takes_value true |> required true
     |> default_value "18446744073709551615";
   with_name "added_borrow_weight_bps" |> long "added-borrow-weight-bps"
     |> validator (is_parsable U64) |> value_name "INTEGER" |> takes_value true
     |> required false |> default_value "0";
   with_name "reserve_type" |> long "reserve-type" |> validator (is_parsable ReserveTypeName)
     |> value_name "RESERVE_TYPE" |> takes_value true |> required false
     |> default_value "Regular"].

Definition add_reserve_args : list Arg :=
  add_reserve_account_args ++ add_reserve_rate_args ++ add_reserve_fee_args.

(** set-lending-market-owner-and-config *)
Definition set_lending_market_owner_and_config_args : list Arg :=
  [with_name "lending_market_owner" |> long "lending-market-owner" |> validator is_keypair
     |> value_name "KEYPAIR" |> takes_value true |> required true;
   with_name "lending_market" |> long "market" |> validator is_pubkey |> value_name "PUBKEY"
     |> takes_value true |> required true;
   with_name "new_lending_market_owner" |> long "new-lending-market-owner"
     |> validator is_keypair |> value_name "KEYPAIR" |> takes_value true |> required false;
   with_name "rate_limiter_window_duration" |> long "rate-limiter-window-duration"
     |> validator (is_parsable U64) |> value_name "INTEGER" |> takes_value true
     |> required false;
   with_name "rate_limiter_max_outflow" |> long "rate-limiter-max-outflow"
     |> validator (is_parsable U64) |> value_name "INTEGER" |> takes_value true
     |> required false;
   with_name "whitelisted_liquidator" |> long "whitelisted-liquidator" |> validator is_pubkey
     |> value_name "PUBKEY" |> takes_value true;
   with_name "risk_authority" |> long "risk-authority" |> validator is_pubkey
     |> value_name "PUBKEY" |> takes_value true |> required false].

(** update-reserve: the accounts, the thresholds and the interest curve. *)
Definition update_reserve_rate_args : list Arg :=
  [with_name "reserve" |> long "reserve" |> validator is_pubkey |> value_name "PUBKEY"
     |> takes_value true |> required true;
   with_name "lending_market_owner" |> long "market-owner" |> validator is_keypair
     |> value_name "KEYPAIR" |> takes_value true |> required true;
   with_name "lending_market" |> long "market" |> validator is_pubkey |> value_name "PUBKEY"
     |> takes_value true |> required true;
   with_name "optimal_utilization_rate" |> long "optimal-utilization-rate"
     |> validator (is_parsable U8) |> value_name "INTEGER_PERCENT" |> takes_value true
     |> required false;
   with_name "max_utilization_rate" |> long "max-utilization-rate"
     |> validator (is_parsable U8) |> value_name "INTEGER_PERCENT" |> takes_value true
     |> required false;
   with_name "loan_to_value_ratio" |> long "loan-to-value-ratio"
     |> validator (is_parsable U8) |> value_name "INTEGER_PERCENT" |> takes_value true
     |> required false;
   with_name "liquidation_bonus" |> long "liquidation-bonus" |> validator (is_parsable U8)
     |> value_name "INTEGER_PERCENT" |> takes_value true |> required false;
   with_name "max_liquidation_bonus" |> long "max-liquidation-bonus"
     |> validator (is_parsable U8) |> value_name "INTEGER_PERCENT" |> takes_value true
     |> required false;
   with_name "liquidation_threshold" |> long "liquidation-threshold"
     |> validator (is_parsable U8) |> value_name "INTEGER_PERCENT" |> takes_value true
     |> required false;
   with_name "max_liquidation_threshold" |> long "max-liquidation-threshold"
     |> validator (is_parsable U8) |> value_name "INTEGER_PERCENT" |> takes_value true
     |> required false;
   with_name "min_borrow_rate" |> long "min-borrow-rate" |> validator (is_parsable U8)
     |> value_name "INTEGER_PERCENT" |> takes_value true |> required false;
   with_name "optimal_borrow_rate" |> long "optimal-borrow-rate"
     |> validator (is_parsable U8) |> value_name "INTEGER_PERCENT" |> takes_value true
     |> required false;
   with_name "max_borrow_rate" |> long "max-borrow-rate" |> validator (is_parsable U8)
     |> value_name "INTEGER_PERCENT" |> takes_value true |> required false;
   with_name "super_max_borrow_rate" |> long "super-max-borrow-rate"
     |> validator (is_parsable U64) |> value_name "INTEGER_PERCENT" |> takes_value true
     |> required false].

(** update-reserve: the fees, the limits, the oracles and the type. *)
Definition update_reserve_fee_args : list Arg :=
  [with_name "borrow_fee" |> long "borrow-fee" |> validator (is_parsable F64)
     |> value_name "DECIMAL_PERCENT" |> takes_value true |> required false;
   with_name "flash_loan_fee" |> long "flash-loan-fee" |> validator (is_parsable F64)
     |> value_name "DECIMAL_PERCENT" |> takes_value true |> required false;
   with_name "host_fee_percentage" |> long "host-fee-percentage"
     |> validator (is_parsable U8) |> value_name "INTEGER_PERCENT" |> takes_value true
     |> required false;
   with_name "protocol_liquidation_fee" |> long "protocol-liquidation-fee"
     |> validator (is_parsable U8) |> value_name "INTEGER_PERCENT" |> takes_value true
     |> required false;
   with_name "protocol_take_rate" |> long "protocol-take-rate" |> validator (is_parsable U8)
     |> value_name "INTEGER_PERCENT" |> takes_value true |> required false;
   with_name "deposit_limit" |> long "deposit-limit" |> validator (is_parsable U64)
     |> value_name "INTEGER" |> takes_value true |> required false;
   with_name "borrow_limit" |> long "borrow-limit" |> validator (is_parsable U64)
     |> value_name "INTEGER" |> takes_value true |> required false;
   with_name "fee_receiver" |> long "fee-receiver" |> validator is_pubkey
     |> value_name "PUBKEY" |> takes_value true |> required false;
   with_name "pyth_product" |> long "pyth-product" |> validator is_pubkey
     |> value_name "PUBKEY" |> takes_value true |> required false;
   with_name "pyth_price" |> long "pyth-price" |> validator is_pubkey |> value_name "PUBKEY"
     |> takes_value true |> required false;
   with_name "switchboard_feed" |> long "switchboard-feed" |> validator is_pubkey
     |> value_name "PUBKEY" |> takes_value true |> required false;
   with_name "rate_limiter_window_duration" |> long "rate-limiter-window-duration"
     |> validator (is_parsable U64) |> value_name "INTEGER" |> takes_value true
     |> required false;
   with_name "rate_limiter_max_outflow" |> long "rate-limiter-max-outflow"
     |> validator (is_parsable U64) |> value_name "INTEGER" |> takes_value true
     |> required false;
   with_name "added_borrow_weight_bps" |> long "added-borrow-weight-bps"
     |> validator (is_parsable U64) |> value_name "INTEGER" |> takes_value true
     |> required false;
   with_name "reserve_type" |> long "reserve-type" |> validator (is_parsable ReserveTypeName)
     |> value_name "RESERVE_TYPE" |> takes_value true |> required false
     |> default_value "Regular"].

Definition update_reserve_args : list Arg :=
  update_reserve_rate_args ++ update_reserve_fee_args.

(** The subcommands, by name. *)
Definition subcommands : list (string * list Arg) :=
  [("view-reserve", view_reserve_args); ("view-market", view_market_args);
   ("view-all-markets", view_all_markets_args); ("view-obligation", view_obligation_args);
   ("create-market", create_market_args);
   ("liquidate-obligation", liquidate_obligation_args);
   ("withdraw-collateral", withdraw_collateral_args);
   ("redeem-collateral", redeem_collateral_args); ("add-reserve", add_reserve_args);
   ("set-lending-market-owner-and-config", set_lending_market_owner_and_config_args);
   ("update-reserve", update_reserve_args)].

(** ** Numbers *)

Local Close Scope string_scope.

(** [T::from_str] of the standard library, for the types that are parsed. *)
Definition digit_of (c : ascii) : option Z :=
  let n := Z.of_N (N_of_ascii c) in
  if (48 <=? n) && (n <=? 57) then Some (n - 48) else None.

(** The longest prefix of digits: its value after [acc], its length after [n], and what
    follows it. *)
Fixpoint take_digits (acc : Z) (n : Z) (s : string) : Z * Z * string :=
  match s with
  | String c rest =>
      match digit_of c with
      | Some d => take_digits (acc * 10 + d) (n + 1) rest
      | None => (acc, n, s)
      end
  | EmptyString => (acc, n, s)
  end.

Definition strip_plus (s : string) : string :=
  match s with String "+" rest => rest | _ => s end.

(** A [w]-bit unsigned integer: at least one digit, nothing else but a plus sign. *)
Definition uint_from_str (w : Z) (s : string) : option Z :=
  match take_digits 0 0 (strip_plus s) with
  | (x, n, EmptyString) => if (0 <? n) && (x <? 2 ^ w) then Some x else None
  | _ => None
  end.

(** The sign of a number, and what follows it. *)
Definition take_sign (s : string) : bool * string :=
  match s with
  | String "+" rest => (false, rest)
  | String "-" rest => (true, rest)
  | _ => (false, s)
  end.

(** The exponent of a float: nothing, or [e] and an integer. *)
Definition exponent_from_str (s : string) : option Z :=
  match s with
  | EmptyString => Some 0
  | String "e" rest | String "E" rest =>
      let '(minus, digits) := take_sign rest in
      match take_digits 0 0 digits with
      | (x, n, EmptyString) => if 0 <? n then Some (if minus then - x else x) else None
      | _ => None
      end
  | _ => None
  end.

(** The float nearest to [m * 10^e]. *)
Definition f64_of_decimal (minus : bool) (m e : Z) : spec_float :=
  match m with
  | Zpos p =>
      if 0 <=? e then
        match m * 10 ^ e with
        | Zpos q => binary_normalize 53 1024 (if minus then Zneg q else Zpos q) 0 minus
        | _ => S754_zero minus
        end
      else
        match 10 ^ (- e) with
        | Zpos q => SFdiv 53 1024 (S754_finite minus p 0) (S754_finite false q 0)
        | _ => S754_zero minus
        end
  | _ => S754_zero minus
  end.

Definition lower (c : ascii) : ascii :=
  let n := N_of_ascii c in
  if ((65 <=? n) && (n <=? 90))%N then ascii_of_N (n + 32) else c.

Fixpoint to_ascii_lowercase (s : string) : string :=
  match s with
  | EmptyString => EmptyString
  | String c rest => String (lower c) (to_ascii_lowercase rest)
  end.

(** A float: digits with or without a point, at least one of them, and an exponent; or
    one of the names of the values that are not numbers. *)
Definition f64_from_str (s : string) : option spec_float :=
  let '(minus, body) := take_sign s in
  let '(m, whole, rest) := take_digits 0 0 body in
  let '(m, digits, fraction, rest) :=
    match rest with
    | String "." rest' =>
        let '(m', digits, rest'') := take_digits m whole rest' in
        (m', digits, digits - whole, rest'')
    | _ => (m, whole, 0, rest)
    end in
  if 0 <? digits then
    e ← exponent_from_str rest; Some (f64_of_decimal minus m (e - fraction))
  else
    let name := to_ascii_lowercase body in
    if String.eqb name "nan" then Some S754_nan
    else if String.eqb name "inf" || String.eqb name "infinity"
    then Some (S754_infinity minus)
    else None.

Example f64_parses :
  f64_from_str "0.5" = Some (S754_finite false 4503599627370496 (-53)) /\
  f64_from_str ".003" = f64_from_str "3e-3" /\ f64_from_str "+7" = f64_from_str "7.0" /\
  f64_from_str "-Inf" = Some (S754_infinity true) /\ f64_from_str "." = None.
Proof. vm_compute. by split_and!. Qed.

(** A string that parses as an integer parses as a float. *)
Lemma take_digits_count s : forall acc n x k rest,
  take_digits acc n s = (x, k, rest) -> n <= k.
Proof.
  induction s as [|c s IH]; intros acc n x k rest H; cbn in H.
  - injection H as <- <- <-. lia.
  - destruct (digit_of c); [apply IH in H; lia|]. injection H as <- <- <-. lia.
Qed.

Lemma take_sign_digits s c rest :
  take_digits 0 0 (strip_plus s) = (c, rest, EmptyString) -> 0 < rest ->
  exists minus, take_sign s = (minus, strip_plus s).
Proof.
  intros H Hr. destruct s as [|a s]; [by exists false|].
  destruct a as [[] [] [] [] [] [] [] []]; try (by exists false); cbn in H;
    injection H as <- <-; lia.
Qed.

Lemma uint_parses_as_f64 w s x : uint_from_str w s = Some x -> is_Some (f64_from_str s).
Proof.
  unfold uint_from_str, f64_from_str. intros H.
  destruct (take_digits 0 0 (strip_plus s)) as [[y n] rest] eqn:Hd.
  destruct rest; [|discriminate]. destruct (Z.ltb_spec 0 n); [|discriminate].
  destruct (take_sign_digits _ _ _ Hd) as [minus ->]; [done|]. rewrite Hd.
  destruct (Z.ltb_spec 0 n); [|lia]. cbn. by eexists.
Qed.

(** ** What is accepted *)

(** The value parsers and the validators of solana_clap_utils. *)
Class ClapUtils := {
  pubkey_from_value : string -> option Pubkey;
  keypair_from_value : string -> option Pubkey;
  url_ok : string -> bool;
  pubkey_ok : string -> bool;
  keypair_ok : string -> bool;
  amount_ok : string -> bool;
  parsable_ok : Parsable -> string -> bool;
}.

Definition is_some {A : Type} (o : option A) : bool := bool_decide (is_Some o).

Definition base58_digits (v : string) : bool :=
  forallb (fun c => is_some (String.index 0 (String c EmptyString) base58_alphabet))
    (list_ascii_of_string v).

(** [v.parse::<T>().is_ok()]. *)
Definition parses (t : Parsable) (v : string) : bool :=
  match t with
  | U8 => is_some (uint_from_str 8 v)
  | U64 => is_some (uint_from_str 64 v)
  | F64 => is_some (f64_from_str v)
  | ReserveTypeName => is_ok (reserve_type_from_str v)
  end.

(** A validator passes what its parser reads: an amount is an integer or a float, a key
    the base-58 form of 32 bytes. *)
Class ClapLaws `(ClapUtils) : Prop := {
  pubkey_ok_reads : forall v, pubkey_ok v = true -> is_Some (pubkey_from_value v);
  keypair_ok_reads : forall v, keypair_ok v = true -> is_Some (keypair_from_value v);
  amount_ok_parses : forall v, amount_ok v = true -> parses U64 v = true \/ parses F64 v = true;
  parsable_ok_parses : forall t v, parsable_ok t v = true -> parses t v = true;
  base58_key_reads : forall v,
    base58_digits v = true -> String.get 0 v <> Some "1"%char ->
    2 ^ 248 <= declare_id v < 2 ^ 256 -> pubkey_from_value v = Some (declare_id v);
}.

(** The values given on the command line, by the names of their arguments. *)
Abbreviation Given := (string -> option string).

Section accepted.
Context `{ClapUtils}.
Implicit Types (args : list Arg) (a : Arg) (given : Given).

Definition passes (c : Validator) (v : string) : bool :=
  match c with
  | is_url => url_ok v
  | is_pubkey => pubkey_ok v
  | is_keypair => keypair_ok v
  | is_amount => amount_ok v
  | is_parsable t => parsable_ok t v
  end.

(** The declared argument of a name, and the value that clap reports for it: the one
    that was given, or else its default. *)
Definition declared args (name : string) : option Arg :=
  find (fun a => String.eqb (arg_name a) name) args.

Definition matched args given (name : string) : option string :=
  match given name with
  | Some v => Some v
  | None => a ← declared args name; arg_default a
  end.

(** clap accepts the values if none is missing and the validators pass. *)
Definition arg_accepts given a : bool :=
  match given (arg_name a) with
  | Some v => match arg_validator a with Some c => passes c v | None => true end
  | None => negb (arg_required a) || is_some (arg_default a)
  end.

Definition accepts args given : bool := forallb (arg_accepts given) args.

(** [value.unwrap()] cannot fail for an argument that is always present, if what the
    validator passes is read, and the default too. *)
Definition unwrappable {A : Type} (read : string -> option A) a : Prop :=
  (arg_required a = true \/ is_Some (arg_default a)) /\
  (forall d, arg_default a = Some d -> is_Some (read d)) /\
  exists c, arg_validator a = Some c /\ forall v, passes c v = true -> is_Some (read v).

Lemma declared_In args name a :
  declared args name = Some a -> In a args /\ arg_name a = name.
Proof.
  intros [Hin Hn]%find_some. split; [done|]. by apply String.eqb_eq.
Qed.

Lemma argument_reads {A : Type} (read : string -> option A) args given name a :
  accepts args given = true -> declared args name = Some a -> unwrappable read a ->
  is_Some (matched args given name ≫= read).
Proof.
  intros Hacc Hd (Hpres & Hdef & c & Hc & Hpass). unfold matched.
  pose proof (declared_In _ _ _ Hd) as [Hin <-].
  unfold accepts in Hacc. rewrite forallb_forall in Hacc.
  specialize (Hacc a Hin). unfold arg_accepts in Hacc.
  destruct (given (arg_name a)) as [v|]; cbn; [rewrite Hc in Hacc; auto|].
  rewrite Hd. cbn. destruct (arg_default a) as [d|]; cbn; [auto|].
  destruct Hpres as [Hr|[? ?]]; [|done]. rewrite Hr in Hacc. discriminate.
Qed.

(** What each validator guarantees. *)
Context {L : ClapLaws _}.

Lemma some_passes {A : Type} (o : option A) : is_some o = true -> is_Some o.
Proof. unfold is_some. by case_bool_decide. Qed.

Lemma parsable_reads t v : passes (is_parsable t) v = true -> parses t v = true.
Proof. apply parsable_ok_parses. Qed.

Lemma amount_reads v : passes is_amount v = true -> is_Some (f64_from_str v).
Proof.
  intros [[x Hx]%some_passes|Hf%some_passes]%amount_ok_parses; [|done].
  by eapply uint_parses_as_f64.
Qed.

Lemma u64_reads_f64 v : passes (is_parsable U64) v = true -> is_Some (f64_from_str v).
Proof. intros [x Hx]%parsable_reads%some_passes. by eapply uint_parses_as_f64. Qed.
End accepted.
