(* ===== verification/CliMain.v ===== *)
(** cli/src/main.rs: from the values of a subcommand's arguments to its command. *)

From S2P Require Import Builders.
From Stdlib Require Import Floats.SpecFloat Strings.String.
From S2P Require Import Prelude Errors Common Rate Decimal Codec.
From S2P Require Import RateLimiter LendingMarket ReserveConfig Obligation ObligationCodec.
From S2P Require Import Reserve ReserveCodec.
From S2P Require Import Runtime Oracles ProcessorHelpers Client Cli CliArgs.

(** A percentage given as a float; [fee * WAD as f64) as u64]: a product of
    64-bit floats, truncated and saturated. *)
Definition f64_as_u64 (x : spec_float) : Z :=
  match x with
  | S754_zero _ | S754_nan => 0
  | S754_infinity s => if s then 0 else u64_max
  | S754_finite s m e => if s then 0 else Z.min u64_max (Z.shiftl (Z.pos m) e)
  end.

Definition fee_wad (fee : spec_float) : Z :=
  f64_as_u64 (SFmul 53 1024 fee (f64_of_u64 WAD)).

(** A subcommand with its arguments.  The configuration of add-reserve is complete
    but for the fees (floats), the limits (floats, in display units) and the fee
    receiver; that of update-reserve but for the fees and the reserve type. *)
Inductive Subcommand : Type :=
  | ViewReserve (reserve : Pubkey)
  | ViewMarket (market : Pubkey)
  | ViewObligation (obligation : Pubkey)
  | ViewAllMarkets
  | CreateMarket (lending_market_owner : Pubkey) (quote_currency : bytes)
      (oracle_program_id switchboard_oracle_program_id : Pubkey)
  | LiquidateObligationCommand (obligation repay_reserve source_liquidity
      withdraw_reserve : Pubkey) (liquidity_amount : Z)
  | WithdrawCollateral (obligation withdraw_reserve : Pubkey) (collateral_amount : Z)
  | RedeemCollateral (redeem_reserve : Pubkey) (collateral_amount : Z)
  | AddReserve (lending_market_owner source_liquidity_owner lending_market
      source_liquidity : Pubkey) (ui_amount : spec_float)
      (pyth_product pyth_price switchboard_feed : Pubkey)
      (arguments : ReserveFees -> Z -> Z -> Pubkey -> ReserveConfig)
      (borrow_fee flash_loan_fee : spec_float) (host_fee_percentage : Z)
      (deposit_limit borrow_limit : spec_float)
  | SetLendingMarketOwnerAndConfigCommand (lending_market_owner lending_market : Pubkey)
      (new_lending_market_owner : option Pubkey)
      (rate_limiter_window_duration rate_limiter_max_outflow : option Z)
      (whitelisted_liquidator : option Pubkey) (risk_authority : Pubkey)
  | UpdateReserve (reserve lending_market_owner lending_market : Pubkey)
      (arguments : PartialReserveFees -> option ReserveType -> PartialReserveConfig)
      (borrow_fee flash_loan_fee : option spec_float) (host_fee_percentage : option Z)
      (reserve_type : option ReserveType)
      (pyth_product pyth_price switchboard_feed : option Pubkey).

(** ** Reading the arguments *)

Definition reserve_type_of (v : string) : option ReserveType :=
  match reserve_type_from_str v with Ok t => Some t | _ => None end.

Section read.
Context `{ClapUtils} (pubkey_from_str : bytes -> outcome CliError Pubkey) (given : Given).
Local Open Scope string_scope.

(** The value of an argument, read by [from_str]; [unwrap_option] of it is the
    [unwrap] of the source. *)
Definition value_of {A : Type} (from_str : string -> option A) (args : list Arg)
    (name : string) : option A :=
  v ← matched args given name; from_str v.
Definition pubkey_of : list Arg -> string -> option Pubkey := value_of pubkey_from_value.
Definition keypair_of : list Arg -> string -> option Pubkey := value_of keypair_from_value.

Definition read_view_reserve : outcome CliError Subcommand :=
  let? reserve := unwrap_option (pubkey_of view_reserve_args "reserve") in
  Ok (ViewReserve reserve).

Definition read_view_market : outcome CliError Subcommand :=
  let? market := unwrap_option (pubkey_of view_market_args "market") in
  Ok (ViewMarket market).

Definition read_view_obligation : outcome CliError Subcommand :=
  let? obligation := unwrap_option (pubkey_of view_obligation_args "obligation") in
  Ok (ViewObligation obligation).

(** [quote_currency_of] converts with [Pubkey::from_str]. *)
Definition read_create_market : outcome CliError Subcommand :=
  let? lending_market_owner :=
    unwrap_option (pubkey_of create_market_args "lending_market_owner") in
  let? quote_currency :=
    quote_currency_of pubkey_from_str
      (list_byte_of_string <$> matched create_market_args given "quote_currency") in
  let? quote_currency := unwrap_option quote_currency in
  let? oracle_program_id := unwrap_option (pubkey_of create_market_args "oracle_program_id") in
  let? switchboard_oracle_program_id :=
    unwrap_option (pubkey_of create_market_args "switchboard_oracle_program_id") in
  Ok (CreateMarket lending_market_owner quote_currency oracle_program_id
        switchboard_oracle_program_id).

Definition read_liquidate_obligation : outcome CliError Subcommand :=
  let? obligation := unwrap_option (pubkey_of liquidate_obligation_args "obligation") in
  let? repay_reserve := unwrap_option (pubkey_of liquidate_obligation_args "repay-reserve") in
  let? source_liquidity :=
    unwrap_option (pubkey_of liquidate_obligation_args "source-liquidity") in
  let? withdraw_reserve :=
    unwrap_option (pubkey_of liquidate_obligation_args "withdraw-reserve") in
  let? liquidity_amount :=
    unwrap_option (value_of (uint_from_str 64) liquidate_obligation_args "liquidity-amount") in
  Ok (LiquidateObligationCommand obligation repay_reserve source_liquidity withdraw_reserve
        liquidity_amount).

Definition read_withdraw_collateral : outcome CliError Subcommand :=
  let? obligation := unwrap_option (pubkey_of withdraw_collateral_args "obligation") in
  let? withdraw_reserve :=
    unwrap_option (pubkey_of withdraw_collateral_args "withdraw-reserve") in
  let? collateral_amount :=
    unwrap_option (value_of (uint_from_str 64) withdraw_collateral_args "collateral-amount") in
  Ok (WithdrawCollateral obligation withdraw_reserve collateral_amount).

Definition read_redeem_collateral : outcome CliError Subcommand :=
  let? redeem_reserve := unwrap_option (pubkey_of redeem_collateral_args "redeem-reserve") in
  let? collateral_amount :=
    unwrap_option (value_of (uint_from_str 64) redeem_collateral_args "collateral-amount") in
  Ok (RedeemCollateral redeem_reserve collateral_amount).

(** The configuration of add-reserve, up to the fees, the limits and the receiver. *)
Definition read_reserve_config
    : outcome CliError (ReserveFees -> Z -> Z -> Pubkey -> ReserveConfig) :=
  let? optimal_utilization_rate :=
    unwrap_option (value_of (uint_from_str 8) add_reserve_args "optimal_utilization_rate") in
  let? max_utilization_rate :=
    unwrap_option (value_of (uint_from_str 8) add_reserve_args "max_utilization_rate") in
  let? loan_to_value_ratio :=
    unwrap_option (value_of (uint_from_str 8) add_reserve_args "loan_to_value_ratio") in
  let? liquidation_bonus :=
    unwrap_option (value_of (uint_from_str 8) add_reserve_args "liquidation_bonus") in
  let? max_liquidation_bonus :=
    unwrap_option (value_of (uint_from_str 8) add_reserve_args "max_liquidation_bonus") in
  let? liquidation_threshold :=
    unwrap_option (value_of (uint_from_str 8) add_reserve_args "liquidation_threshold") in
  let? max_liquidation_threshold :=
    unwrap_option (value_of (uint_from_str 8) add_reserve_args "max_liquidation_threshold") in
  let? min_borrow_rate :=
    unwrap_option (value_of (uint_from_str 8) add_reserve_args "min_borrow_rate") in
  let? optimal_borrow_rate :=
    unwrap_option (value_of (uint_from_str 8) add_reserve_args "optimal_borrow_rate") in
  let? max_borrow_rate :=
    unwrap_option (value_of (uint_from_str 8) add_reserve_args "max_borrow_rate") in
  let? super_max_borrow_rate :=
    unwrap_option (value_of (uint_from_str 64) add_reserve_args "super_max_borrow_rate") in
  let? added_borrow_weight_bps :=
    unwrap_option (value_of (uint_from_str 64) add_reserve_args "added_borrow_weight_bps") in
  let? reserve_type :=
    unwrap_option (value_of reserve_type_of add_reserve_args "reserve_type") in
  let? protocol_liquidation_fee :=
    unwrap_option (value_of (uint_from_str 8) add_reserve_args "protocol_liquidation_fee") in
  let? protocol_take_rate :=
    unwrap_option (value_of (uint_from_str 8) add_reserve_args "protocol_take_rate") in
  Ok (fun fees deposit_limit borrow_limit fee_receiver =>
        mkReserveConfig optimal_utilization_rate max_utilization_rate loan_to_value_ratio
          liquidation_bonus max_liquidation_bonus liquidation_threshold
          max_liquidation_threshold min_borrow_rate optimal_borrow_rate max_borrow_rate
          super_max_borrow_rate fees deposit_limit borrow_limit fee_receiver
          protocol_liquidation_fee protocol_take_rate added_borrow_weight_bps reserve_type).

Definition read_add_reserve : outcome CliError Subcommand :=
  let? lending_market_owner :=
    unwrap_option (keypair_of add_reserve_args "lending_market_owner") in
  let? source_liquidity_owner :=
    unwrap_option (keypair_of add_reserve_args "source_liquidity_owner") in
  let? lending_market := unwrap_option (pubkey_of add_reserve_args "lending_market") in
  let? source_liquidity := unwrap_option (pubkey_of add_reserve_args "source_liquidity") in
  let? ui_amount :=
    unwrap_option (value_of f64_from_str add_reserve_args "liquidity_amount") in
  let? pyth_product := unwrap_option (pubkey_of add_reserve_args "pyth_product") in
  let? pyth_price := unwrap_option (pubkey_of add_reserve_args "pyth_price") in
  let? switchboard_feed := unwrap_option (pubkey_of add_reserve_args "switchboard_feed") in
  let? config := read_reserve_config in
  let? borrow_fee := unwrap_option (value_of f64_from_str add_reserve_args "borrow_fee") in
  let? flash_loan_fee :=
    unwrap_option (value_of f64_from_str add_reserve_args "flash_loan_fee") in
  let? host_fee_percentage :=
    unwrap_option (value_of (uint_from_str 8) add_reserve_args "host_fee_percentage") in
  let? deposit_limit :=
    unwrap_option (value_of f64_from_str add_reserve_args "deposit_limit") in
  let? borrow_limit := unwrap_option (value_of f64_from_str add_reserve_args "borrow_limit") in
  Ok (AddReserve lending_market_owner source_liquidity_owner lending_market source_liquidity
        ui_amount pyth_product pyth_price switchboard_feed config borrow_fee flash_loan_fee
        host_fee_percentage deposit_limit borrow_limit).

Definition read_set_owner_and_config : outcome CliError Subcommand :=
  let? lending_market_owner :=
    unwrap_option (keypair_of set_lending_market_owner_and_config_args "lending_market_owner") in
  let? lending_market :=
    unwrap_option (pubkey_of set_lending_market_owner_and_config_args "lending_market") in
  let new_lending_market_owner :=
    keypair_of set_lending_market_owner_and_config_args "new_lending_market_owner" in
  let rate_limiter_window_duration :=
    value_of (uint_from_str 64) set_lending_market_owner_and_config_args "rate_limiter_window_duration" in
  let rate_limiter_max_outflow :=
    value_of (uint_from_str 64) set_lending_market_owner_and_config_args "rate_limiter_max_outflow" in
  let whitelisted_liquidator :=
    pubkey_of set_lending_market_owner_and_config_args "whitelisted_liquidator" in
  let? risk_authority :=
    unwrap_option (pubkey_of set_lending_market_owner_and_config_args "risk_authority") in
  Ok (SetLendingMarketOwnerAndConfigCommand lending_market_owner lending_market
        new_lending_market_owner rate_limiter_window_duration rate_limiter_max_outflow
        whitelisted_liquidator risk_authority).

(** The fields of update-reserve: none of them need be given. *)
Definition read_partial_config (fees : PartialReserveFees) (reserve_type : option ReserveType)
    : PartialReserveConfig :=
  let u8 := value_of (uint_from_str 8) update_reserve_args in
  let u64 := value_of (uint_from_str 64) update_reserve_args in
  mkPartialReserveConfig (u8 "optimal_utilization_rate") (u8 "max_utilization_rate")
    (u8 "loan_to_value_ratio") (u8 "liquidation_bonus") (u8 "max_liquidation_bonus")
    (u8 "liquidation_threshold") (u8 "max_liquidation_threshold") (u8 "min_borrow_rate")
    (u8 "optimal_borrow_rate") (u8 "max_borrow_rate") (u64 "super_max_borrow_rate") fees
    (u64 "deposit_limit") (u64 "borrow_limit") (pubkey_of update_reserve_args "fee_receiver")
    (u8 "protocol_liquidation_fee") (u8 "protocol_take_rate")
    (u64 "rate_limiter_window_duration") (u64 "rate_limiter_max_outflow")
    (u64 "added_borrow_weight_bps") reserve_type.

Definition read_update_reserve : outcome CliError Subcommand :=
  let? reserve := unwrap_option (pubkey_of update_reserve_args "reserve") in
  let? lending_market_owner :=
    unwrap_option (keypair_of update_reserve_args "lending_market_owner") in
  let? lending_market := unwrap_option (pubkey_of update_reserve_args "lending_market") in
  let borrow_fee := value_of f64_from_str update_reserve_args "borrow_fee" in
  let flash_loan_fee := value_of f64_from_str update_reserve_args "flash_loan_fee" in
  let host_fee_percentage :=
    value_of (uint_from_str 8) update_reserve_args "host_fee_percentage" in
  let pyth_product := pubkey_of update_reserve_args "pyth_product" in
  let pyth_price := pubkey_of update_reserve_args "pyth_price" in
  let switchboard_feed := pubkey_of update_reserve_args "switchboard_feed" in
  let reserve_type := value_of reserve_type_of update_reserve_args "reserve_type" in
  Ok (UpdateReserve reserve lending_market_owner lending_market read_partial_config borrow_fee
        flash_loan_fee host_fee_percentage reserve_type pyth_product pyth_price
        switchboard_feed).

(** [match matches.subcommand()]; any other name is unreachable. *)
Definition read_subcommand (name : string) : outcome CliError Subcommand :=
  if String.eqb name "view-reserve" then read_view_reserve
  else if String.eqb name "view-market" then read_view_market
  else if String.eqb name "view-obligation" then read_view_obligation
  else if String.eqb name "view-all-markets" then Ok ViewAllMarkets
  else if String.eqb name "create-market" then read_create_market
  else if String.eqb name "liquidate-obligation" then read_liquidate_obligation
  else if String.eqb name "withdraw-collateral" then read_withdraw_collateral
  else if String.eqb name "redeem-collateral" then read_redeem_collateral
  else if String.eqb name "add-reserve" then read_add_reserve
  else if String.eqb name "set-lending-market-owner-and-config"
  then read_set_owner_and_config
  else if String.eqb name "update-reserve" then read_update_reserve
  else Panic.
End read.

(** The configuration of the client, from the arguments of every command; the fee payer
    is the signer that solana_clap_utils finds. *)
Definition read_config `{ClapUtils} (given : Given) (args : list Arg) (signer : Pubkey)
    : outcome CliError Config :=
  let? lending_program_id := unwrap_option (pubkey_of given args "lending_program_id") in
  Ok (mkConfig signer lending_program_id (is_some (given "dry_run"%string))).

Section main.
Context `{Runtime, KnownIds, ClientEnv} (config : Config).

(** [T::unpack(&get_account_data(&key).unwrap())]; what is printed, the account or
    the error, is left out. *)
Definition view (T : Type) `{PackTrait T} (key : Pubkey) : cli unit :=
  let! account := ask (fun sent => unwrap (get_account sent key)) in
  lift (match pack_unpack T _ (data account) with
        | Ok _ | Err _ => Ok tt
        | Panic => Panic
        end).

(** The amounts of add-reserve are converted with the decimals of the mint of the
    source account, both read from the node. *)
Definition run_add_reserve (keys : ReserveKeys) (fee_receiver_key : Pubkey)
    (lending_market_owner source_liquidity_owner lending_market source_liquidity : Pubkey)
    (ui_amount : spec_float) (pyth_product pyth_price switchboard_feed : Pubkey)
    (arguments : ReserveFees -> Z -> Z -> Pubkey -> ReserveConfig)
    (borrow_fee flash_loan_fee : spec_float) (host_fee_percentage : Z)
    (deposit_limit borrow_limit : spec_float) : cli unit :=
  let fees :=
    mkReserveFees (fee_wad borrow_fee) (fee_wad flash_loan_fee) host_fee_percentage in
  let! source_account := ask (fun sent => unwrap (get_account sent source_liquidity)) in
  let! mint := lift (unwrap (token_unpack_mint (data source_account))) in
  let! mint_account := ask (fun sent => unwrap (get_account sent mint)) in
  let! decimals := lift (unwrap (mint_unpack_slice_decimals (data mint_account))) in
  let liquidity_amount := ui_amount_to_amount ui_amount decimals in
  let deposit_limit := ui_amount_to_amount deposit_limit decimals in
  let borrow_limit := ui_amount_to_amount borrow_limit decimals in
  command_add_reserve config keys liquidity_amount
    (arguments fees deposit_limit borrow_limit fee_receiver_key) source_liquidity
    source_liquidity_owner lending_market lending_market_owner pyth_product pyth_price
    switchboard_feed fee_receiver_key mint.

(** [fresh], [keys] and [fee_receiver_key] are the keys generated on the way. *)
Definition run_subcommand (fresh : Pubkey) (keys : ReserveKeys) (fee_receiver_key : Pubkey)
    (subcommand : Subcommand) : cli unit :=
  match subcommand with
  | ViewReserve k => view Reserve k
  | ViewMarket k => view LendingMarket k
  | ViewObligation k => view Obligation k
  | ViewAllMarkets =>
      let! _addresses :=
        ask (fun sent => unwrap (get_program_accounts_of_size sent (config_program_id config)
                                   LENDING_MARKET_LEN)) in
      cli_ret tt
  | CreateMarket owner quote_currency oracle switchboard =>
      command_create_lending_market config fresh owner quote_currency oracle switchboard
  | LiquidateObligationCommand obligation repay_reserve source_liquidity withdraw_reserve n =>
      command_liquidate_obligation config obligation repay_reserve source_liquidity
        withdraw_reserve n
  | WithdrawCollateral obligation withdraw_reserve n =>
      command_withdraw_collateral config obligation withdraw_reserve n
  | RedeemCollateral redeem_reserve n => command_redeem_collateral config redeem_reserve n
  | AddReserve owner source_owner market source ui_amount product price feed arguments
      borrow_fee flash_loan_fee host_fee deposit_limit borrow_limit =>
      run_add_reserve keys fee_receiver_key owner source_owner market source ui_amount
        product price feed arguments borrow_fee flash_loan_fee host_fee deposit_limit
        borrow_limit
  | SetLendingMarketOwnerAndConfigCommand owner market new_owner window outflow liquidator
      risk =>
      command_set_lending_market_owner_and_config config market owner new_owner window
        outflow liquidator risk
  | UpdateReserve reserve owner market arguments borrow_fee flash_loan_fee host_fee
      reserve_type product price feed =>
      let fees :=
        mkPartialReserveFees (fee_wad <$> borrow_fee) (fee_wad <$> flash_loan_fee) host_fee in
      command_update_reserve config (arguments fees reserve_type)
        product price feed reserve market owner
  end.
End main.

(** The whole client: what every command is given, the subcommand and its own
    arguments. *)
Definition main `{Runtime, KnownIds, ClientEnv, ClapUtils}
    (pubkey_from_str : bytes -> outcome CliError Pubkey)
    (CONFIG_FILE : option string) (fee_payer_arg : Arg) (signer fresh : Pubkey)
    (keys : ReserveKeys) (fee_receiver_key : Pubkey)
    (app_given : Given) (name : string) (given : Given) : cli unit :=
  let! config := lift (read_config app_given (app_args CONFIG_FILE fee_payer_arg) signer) in
  let! subcommand := lift (read_subcommand pubkey_from_str given name) in
  run_subcommand config fresh keys fee_receiver_key subcommand.
