(* ===== verification/CliSpec.v ===== *)
(** What the commands of the client send: which keys sign, what a withdrawal settles,
    and a concrete environment in which the commands run. *)

From S2P Require Import Builders.
From Stdlib Require Import Floats.SpecFloat.
From stdpp Require Import gmap.
From S2P Require Import Prelude Errors Common Rate Decimal Codec LastUpdate.
From S2P Require Import RateLimiter LendingMarket ReserveConfig ReserveConfigSpec.
From S2P Require Import ObligationCollateral ObligationLiquidity Obligation.
From S2P Require Import ReserveLiquidity ReserveCollateral Reserve ReserveCodec Instruction.
From S2P Require Import Runtime Oracles ProcessorHelpers ProcessObligation ProcessCollateral.
From S2P Require Import Processor AccountSpec RefreshSpec ObligationMoves WithdrawSpec.
From S2P Require Import ExampleRuntime BuilderSpec.
From S2P Require Import Client Cli.

Definition metas (signers others : list Pubkey) : list AccountMeta :=
  map (fun k => AccountMeta_new k true) signers ++ map (fun k => AccountMeta_new k false) others.

(** Both lists have the same elements. *)
Definition same_keys (ks ks' : list Pubkey) : bool :=
  forallb (fun k => bool_decide (k ∈ ks')) ks && forallb (fun k => bool_decide (k ∈ ks)) ks'.

Definition example_transaction_new (ks : list Pubkey) (m : Message)
    : outcome CliError Transaction :=
  if same_keys (required_signers m) ks then Ok (mkTransaction m ks) else Panic.

Definition example_client (w : World) : ClientEnv := {|
  get_account _ k :=
    match accounts w !! k with Some a => Ok a | None => Err RpcError end;
  get_multiple_accounts _ ks := Ok (map (fun k => accounts w !! k) ks);
  get_program_accounts_of_size _ _ _ := Ok [];
  get_minimum_balance_for_rent_exemption _ n := Ok (Z.of_nat n);
  get_latest_blockhash _ := Ok 1;
  get_fee_for_message _ _ := Ok 5000;
  get_balance _ _ := Ok 1000000;
  simulate_transaction _ _ := Ok tt;
  send_and_confirm_transaction _ _ := Ok tt;
  transaction_new := example_transaction_new;
  create_account from to _ _ _ := Builders.mkInstruction 0 (metas [from; to] []) [];
  set_compute_unit_price _ := Builders.mkInstruction 2 [] [];
  approve program source delegate owner _ :=
    Ok (Builders.mkInstruction program (metas [owner] [source; delegate]) []);
  revoke program source owner :=
    Ok (Builders.mkInstruction program (metas [owner] [source]) []);
  MINT_LEN := 82;
  TOKEN_LEN := 165;
  ui_amount_to_amount x _ := match x with S754_finite false m e => Z.shiftl (Z.pos m) e | _ => 0 end;
  token_unpack_mint _ := Ok 2;
  mint_unpack_slice_decimals _ := Ok 6;
  get_associated_token_address _ _ := 60;
  create_associated_token_account payer wallet mint :=
    Builders.mkInstruction 4 (metas [payer] [wallet; mint]) [];
  hash_set_keys := remove_dups;
|}.

Lemma same_keys_spec ks ks' :
  same_keys ks ks' = true <-> forall k, k ∈ ks <-> k ∈ ks'.
Proof.
  unfold same_keys. rewrite andb_true_iff, !forallb_forall.
  setoid_rewrite bool_decide_eq_true. setoid_rewrite <- list_elem_of_In. naive_solver.
Qed.

#[export] Instance example_client_laws w : ClientLaws (example_client w).
Proof.
  split; cbn.
  - intros ks m tx. rewrite <- same_keys_spec. unfold example_transaction_new.
    destruct (same_keys _ _); split; [|by intros [-> _]|discriminate|by intros [_ ?]].
    by intros [= <-].
  - intros ks m e. unfold example_transaction_new. by destruct (same_keys _ _).
  - done.
  - done.
  - by intros; simplify_eq.
  - by intros; simplify_eq.
  - done.
  - intros ks. split; [apply NoDup_remove_dups|]. intros k. apply elem_of_remove_dups.
Qed.

(** ** Taking a command apart *)

Lemma cli_bind_inv {A B : Type} (m : cli A) (k : A -> cli B) s s' b :
  cli_bind m k s = (s', Ok b) -> exists s1 a, m s = (s1, Ok a) /\ k a s1 = (s', Ok b).
Proof.
  unfold cli_bind. destruct (m s) as [s1 [a|e|]]; intros H; [|discriminate..]. by exists s1, a.
Qed.

Lemma ask_inv {A : Type} (f : list Transaction -> outcome CliError A) s s' a :
  ask f s = (s', Ok a) -> s' = s /\ f s = Ok a.
Proof. unfold ask. by intros [= <- ->]. Qed.

Lemma cli_ret_inv {A : Type} (a b : A) s s' : cli_ret a s = (s', Ok b) -> s' = s /\ b = a.
Proof. by intros [= <- <-]. Qed.

Lemma cli_unwrap_inv {A : Type} (m : cli A) s s' a :
  cli_unwrap m s = (s', Ok a) -> m s = (s', Ok a).
Proof.
  unfold cli_unwrap. destruct (m s) as [s1 r]. intros [= -> H]. by apply unwrap_Ok_inv in H as ->.
Qed.

Lemma program_result_inv {A : Type} (m : result A) a : program_result m = Ok a -> m = Ok a.
Proof. by destruct m; [intros [= ->]|..]. Qed.

(** One step of a command that succeeded. *)
Ltac cinv_step H :=
  lazymatch type of H with
  | cli_bind _ _ _ = (_, Ok _) =>
      let E := fresh "E" in
      apply cli_bind_inv in H as (? & ? & E & H); cinv_step E
  | ask _ _ = (_, Ok _) => apply ask_inv in H as [-> H]
  | lift _ _ = (_, Ok _) => apply ask_inv in H as [-> H]
  | cli_ret _ _ = (_, Ok _) => apply cli_ret_inv in H as [-> ->]
  | _ => idtac
  end.
Ltac cinv H := cbv zeta in H; repeat (progress cinv_step H; cbv zeta in H).

Section laws.
Context {R : Runtime} {K : KnownIds} {C : ClientEnv} {CL : ClientLaws C}.
Implicit Types (config : Config) (sent : list Transaction).

(** The keys that sign are those the message asks for. *)
Definition signed_by_all (ixs : list SdkInstruction) (payer : Pubkey) (ks : list Pubkey)
    : Prop :=
  forall k, k ∈ payer :: concat (map instruction_signers ixs) <-> k ∈ ks.

Lemma sign_and_send_inv config ks ixs sent sent' u :
  sign_and_send config ks ixs sent = (sent', Ok u) ->
  signed_by_all ixs (fee_payer config) ks /\
  if dry_run config then sent' = sent
  else exists hash,
    sent' = sent ++ [mkTransaction (mkMessage ixs (fee_payer config) hash) ks].
Proof.
  unfold sign_and_send. intros H. cinv H. apply transaction_new_spec in E0 as [-> Hs].
  split; [exact Hs|]. unfold send_transaction in H. destruct (dry_run config).
  - by apply ask_inv in H as [-> _].
  - unfold submit in H. injection H as <- _. by eexists.
Qed.

(** ** The messages of the commands *)

Inductive cli_message (config : Config) : list SdkInstruction -> list Pubkey -> Prop :=
  | message_create_market key owner quote oracle switchboard lamports :
      cli_message config
        [create_account (fee_payer config) key lamports (Z.of_nat LENDING_MARKET_LEN)
           (config_program_id config);
         Builders.init_lending_market (config_program_id config) owner quote key oracle
           switchboard]
        [fee_payer config; key]
  | message_redeem n source dest reserve coll_mint supply market :
      cli_message config
        [Builders.redeem_reserve_collateral (config_program_id config) n source dest reserve
           coll_mint supply market (fee_payer config)]
        [fee_payer config]
  | message_liquidate n reserves obligation keys source dest_coll dest_liquidity
      repay_reserve repay_supply reserve coll_mint coll_supply supply fees market :
      cli_message config
        ([set_compute_unit_price 30101] ++
         refresh_reserves (config_program_id config) reserves ++
         [Builders.refresh_obligation (config_program_id config) obligation keys;
          Builders.liquidate_obligation_and_redeem_reserve_collateral
            (config_program_id config) n source dest_coll dest_liquidity repay_reserve
            repay_supply reserve coll_mint coll_supply supply fees obligation market
            (fee_payer config)])
        [fee_payer config]
  | message_add_reserve_1 k b :
      cli_message config (add_reserve_message_1 config k b)
        [fee_payer config; reserve_key k; collateral_mint_key k; collateral_supply_key k;
         user_collateral_key k]
  | message_add_reserve_2 k b fee_receiver :
      cli_message config (add_reserve_message_2 config k b fee_receiver)
        [fee_payer config; liquidity_supply_key k; fee_receiver]
  | message_add_reserve_3 k n c source source_owner mint market owner product price feed ixs :
      add_reserve_message_3 config k n c source source_owner mint market owner product price
        feed = Ok ixs ->
      cli_message config ixs
        [fee_payer config; source_owner; owner; user_transfer_authority_key k]
  | message_set_owner market owner new_owner limits liquidator risk :
      cli_message config
        [Builders.set_lending_market_owner_and_config (config_program_id config) market owner
           new_owner limits liquidator risk]
        [fee_payer config; owner]
  | message_update_reserve c limits reserve market owner product price feed :
      cli_message config
        [Builders.update_reserve_config (config_program_id config) c limits reserve market
           owner product price feed]
        [fee_payer config; owner]
  | message_create_ata mint :
      cli_message config
        [create_associated_token_account (fee_payer config) (fee_payer config) mint]
        [fee_payer config].

Lemma refresh_reserves_signers program_id rs :
  concat (map instruction_signers (refresh_reserves program_id rs)) = [].
Proof. induction rs as [|[k r] rs IH]; [done|]. exact IH. Qed.

Lemma refresh_obligation_signers program_id obligation keys :
  instruction_signers (Builders.refresh_obligation program_id obligation keys) = [].
Proof.
  unfold instruction_signers, Builders.refresh_obligation. cbn [instruction_accounts].
  cbn [List.filter meta_is_signer AccountMeta_new]. induction keys as [|k keys IH]; [done|].
  exact IH.
Qed.

(** Every message the client composes is signed by the keys it asks for.  For
    each command, the keypairs it signs its message with are, as a set, the fee
    payer and the accounts that the instructions of the message mark as signers, so
    that signing neither lacks a signature nor has one too many. *)
Theorem client_signs_exactly (config : Config) (ixs : list SdkInstruction)
    (signers : list Pubkey) (Hm : cli_message config ixs signers) :
  signed_by_all ixs (fee_payer config) signers.
Proof.
  intros k. destruct Hm;
    try (match goal with H : add_reserve_message_3 _ _ _ _ _ _ _ _ _ _ _ _ = Ok _ |- _ =>
           unfold add_reserve_message_3 in H; minv H;
           apply unwrap_Ok_inv, approve_signers in E;
           apply unwrap_Ok_inv, revoke_signers in E0 end);
    unfold add_reserve_message_1, add_reserve_message_2, create_token_account;
    rewrite ?map_app, ?concat_app; cbn [map concat app];
    rewrite ?refresh_reserves_signers, ?refresh_obligation_signers, ?create_account_signers,
      ?compute_unit_price_signers, ?create_ata_signers;
    try rewrite E; try rewrite E0;
    cbn; rewrite ?elem_of_cons, ?elem_of_nil; tauto.
Qed.

(** ** Withdrawing *)

Lemma withdraw_signers s reserve n ixs :
  withdraw s reserve n = Ok ixs ->
  concat (map instruction_signers ixs) = [Obligation.owner (obligation s)].
Proof.
  unfold withdraw. intros H. minv H. unfold get_refresh_instructions.
  rewrite !map_app, !concat_app. cbn [map concat].
  by rewrite refresh_reserves_signers, refresh_obligation_signers.
Qed.

Lemma SolendState_new_inv program_id k sent sent' s :
  SolendState_new program_id k sent = (sent', Ok s) ->
  sent' = sent /\ lending_program_id s = program_id /\ obligation_pubkey s = k /\
  exists a, get_account sent k = Ok a /\
    pack_unpack Obligation _ (data a) = Ok (obligation s) /\
    exists accounts, get_multiple_accounts sent (hash_set_keys (position_keys (obligation s)))
        = Ok accounts /\
      unpack_reserves accounts (hash_set_keys (position_keys (obligation s)))
        = Ok (reserves s) /\
      length (reserves s) = length (hash_set_keys (position_keys (obligation s))).
Proof.
  unfold SolendState_new. intros H. cinv H.
  apply unwrap_Ok_inv in E. apply unwrap_Ok_inv, program_result_inv in E0.
  apply unwrap_Ok_inv in E1. unfold assert_length in E3.
  destruct (Nat.eqb_spec (length (hash_set_keys (position_keys x1))) (length x3)) as [Hl|];
    [|discriminate].
  cbn. split_and!; [done..|]. eexists. split; [exact E|]. split; [exact E0|].
  eexists. split_and!; [exact E1|exact E2|done].
Qed.

(** Every fetched account is unpacked under its key. *)
Lemma unpack_reserves_keys accounts : forall keys rs,
  unpack_reserves accounts keys = Ok rs -> length rs = length keys -> map fst rs = keys.
Proof.
  induction accounts as [|a accounts IH]; intros [|k keys] rs H Hl; cbn in H;
    try (injection H as <-; by cbn in * ).
  minv H. cbn in *. f_equal. apply IH; [done|lia].
Qed.

Lemma find_reserve_in k rs r : find_reserve k rs = Some r -> (k, r) ∈ rs.
Proof.
  induction rs as [|[p r0] rs IH]; cbn; [done|].
  destruct (Z.eqb_spec k p) as [->|]; intros H.
  - injection H as ->. apply list_elem_of_here.
  - apply list_elem_of_further. by apply IH.
Qed.

(** The refresh instructions cover the obligation: each of its reserves once, with
    its own oracles, then the obligation with its reserves in the program's order. *)
Lemma refresh_instructions_cover program_id k sent sent' s :
  SolendState_new program_id k sent = (sent', Ok s) ->
  NoDup (map fst (reserves s)) /\
  (forall p, p ∈ map fst (reserves s) <-> p ∈ position_keys (obligation s)) /\
  get_refresh_instructions s =
    map (fun '(p, r) =>
           Builders.refresh_reserve program_id p (pyth_oracle_pubkey (liquidity r))
             (switchboard_oracle_pubkey (liquidity r))) (reserves s) ++
    [Builders.refresh_obligation program_id k (position_keys (obligation s))].
Proof.
  intros (-> & Hp & Hk & a & _ & _ & accounts & _ & Hu & Hl)%SolendState_new_inv.
  apply unpack_reserves_keys in Hu; [|done]. rewrite Hu.
  destruct (hash_set_keys_spec (position_keys (obligation s))) as [Hnd Hin].
  split; [exact Hnd|]. split; [exact Hin|].
  unfold get_refresh_instructions, refresh_reserves. by rewrite Hp, Hk.
Qed.

(** At most one transaction creates a token account. *)
Lemma token_address_inv config mint sent sent' ata :
  get_or_create_associated_token_address config mint sent = (sent', Ok ata) ->
  ata = get_associated_token_address (fee_payer config) mint /\
  (sent' = sent \/ exists hash,
     sent' = sent ++ [mkTransaction (mkMessage [create_associated_token_account
       (fee_payer config) (fee_payer config) mint] (fee_payer config) hash)
       [fee_payer config]]).
Proof.
  unfold get_or_create_associated_token_address. intros H. cinv H. split; [done|].
  destruct x0; [|apply cli_ret_inv in E0 as [-> _]; by left].
  cinv E0. apply cli_unwrap_inv in E0. apply transaction_new_spec in E2 as [-> _].
  unfold send_transaction in E0. destruct (dry_run config).
  - apply ask_inv in E0 as [-> _]. by left.
  - unfold submit in E0. injection E0 as <- _. right. by eexists.
Qed.

(** Only the owner withdraws with the client.  When [withdraw-collateral]
    succeeds, the fee payer, the only key it signs with, is the owner of the
    obligation it fetched; for any other obligation the client stops before it
    sends the withdrawal.  It sends at most a transaction that creates the fee
    payer's token account, then one that refreshes each of the obligation's
    reserves exactly once, with the oracles of the reserve, then the obligation with
    its reserves in the order of its deposits and borrows, and withdraws. *)
Theorem client_withdraw_by_owner (config : Config) (obligation_key reserve : Pubkey) (n : Z)
    (sent sent' : list Transaction) (Hdry : dry_run config = false)
    (H : command_withdraw_collateral config obligation_key reserve n sent = (sent', Ok tt)) :
  exists s ixs created hash,
    SolendState_new (config_program_id config) obligation_key sent = (sent, Ok s) /\
    Obligation.owner (obligation s) = fee_payer config /\
    NoDup (map fst (reserves s)) /\
    (forall p, p ∈ map fst (reserves s) <-> p ∈ position_keys (obligation s)) /\
    withdraw s reserve n = Ok ixs /\ (length created <= 1)%nat /\
    sent' = sent ++ created ++
      [mkTransaction (mkMessage ixs (fee_payer config) hash) [fee_payer config]].
Proof.
  unfold command_withdraw_collateral in H. cinv H.
  apply SolendState_new_inv in E as Hn. destruct Hn as [-> _].
  apply sign_and_send_inv in H as [Hs H]. rewrite Hdry in H. destruct H as [hash ->].
  destruct (refresh_instructions_cover _ _ _ _ _ E) as (Hnd & Hin & _).
  unfold signed_by_all in Hs. rewrite (withdraw_signers _ _ _ _ E2) in Hs.
  specialize (Hs (Obligation.owner (obligation x0))).
  rewrite !elem_of_cons, !elem_of_nil in Hs.
  apply token_address_inv in E1 as [_ [->|[h ->]]].
  - exists x0, x5, [], hash. split_and!; try done; [tauto|auto with arith].
  - eexists x0, x5, [_], hash. split_and!; try done; [tauto|].
    by rewrite <- app_assoc.
Qed.
End laws.

(** ** What the withdrawal does on chain

    A transaction whose instructions are all the program's runs them in order, and
    takes effect only if each of them succeeds. *)

Section on_chain.
Context {R : Runtime} {K : KnownIds} {C : ClientEnv}.

Fixpoint execute (program_id : Pubkey) (ixs : list SdkInstruction) (w : World) : result World :=
  match ixs with
  | [] => Ok w
  | ix :: ixs =>
      let? w := process_instruction program_id (account_infos ix) (instruction_data ix) w in
      execute program_id ixs w
  end.

Lemma execute_app program_id ixs1 : forall ixs2 w,
  execute program_id (ixs1 ++ ixs2) w =
  (let? w := execute program_id ixs1 w in execute program_id ixs2 w).
Proof.
  induction ixs1 as [|ix ixs1 IH]; intros ixs2 w; [done|]. cbn [app execute].
  destruct (process_instruction _ _ _ w); [cbn [obind]; apply IH|done..].
Qed.

Lemma skip_clock_absent keys :
  clock_ID ∉ keys -> skip_clock (map account keys) = map account keys.
Proof.
  destruct keys as [|k keys]; [done|]. rewrite not_elem_of_cons. intros [Hk _].
  cbn [map]. apply skip_clock_cons. cbn. congruence.
Qed.

Context {program_id : Pubkey} {L : RuntimeLaws R program_id}.

(** The accounts of a refresh are the obligation's positions. *)
Lemma refreshed_keys (infos : list AccountInfo) {A B} (P : AccountInfo -> A -> B -> Prop)
    (f : A -> Pubkey) ds vs :
  Forall3 P infos ds vs -> (forall i d v, P i d v -> key i = f d) ->
  map key infos = map f ds.
Proof. intros H HP. revert H. induction 1 as [|i d v ??? H _ IH]; [done|]. cbn. by rewrite (HP i d v H), IH. Qed.

Lemma map_key_account keys : map key (map account keys) = keys.
Proof. induction keys as [|k keys IH]; [done|]. cbn in *. by rewrite IH. Qed.

(** C19: the transaction of [withdraw-collateral] brings the obligation up to date
    and then withdraws from it safely.  When its instructions succeed on chain, the
    obligation's positions are still those the client fetched, in the same order;
    every deposit is valued and every borrow accrued and valued by its own reserve, as
    that was just refreshed, and the obligation's values become the sums of these; and
    the withdrawal that follows reads exactly this obligation and satisfies its contract
    for the owner and the amount asked for. *)
Theorem client_withdraw_settles (s : SolendState) (reserve : Pubkey) (n : Z)
    (ixs : list SdkInstruction) (w w' : World)
    (Hids : spl_token_id <> clock_ID) (Hn : is_u64 n) (Hpos : n <> 0)
    (Hclock : clock_ID ∉ position_keys (obligation s))
    (Hprogram : lending_program_id s = program_id)
    (Hw : withdraw s reserve n = Ok ixs) (H : execute program_id ixs w = Ok w') :
  let obl := account (obligation_pubkey s) in
  exists w1 w2 dinfos binfos o o1 vs es amount r o2 c,
    execute program_id (refresh_reserves program_id (reserves s)) w = Ok w1 /\
    holds (program_id:=program_id) w1 obl o /\
    position_keys o = position_keys (obligation s) /\
    Forall3 (deposit_loaded (program_id:=program_id) w1) dinfos (deposits o) vs /\
    Forall3 (borrow_loaded (program_id:=program_id) w1) binfos (borrows o) es /\
    refreshed_positions o o1 (current_slot w1) vs es /\
    keeps_but (program_id:=program_id) [key obl] w1 w2 /\
    withdraw_contract (program_id:=program_id) n amount (account reserve) obl
      (account (Reserve.lending_market r)) (signer (Obligation.owner (obligation s)))
      w2 w' r o1 o2 c.
Proof.
  intros obl. unfold withdraw in Hw. minv Hw. unfold get_refresh_instructions in H.
  rewrite Hprogram, !execute_app in H. minv H. cbn [execute] in *. minv E0. minv H.
  rewrite (built_runs program_id Hids _ _ _
    (means_refresh_obligation program_id (obligation_pubkey s) _)) in E2.
  rewrite (built_runs program_id Hids _ _ _
    (means_withdraw program_id n _ _ reserve (obligation_pubkey s) _ _ Hn Hpos)) in E0.
  minv E0.
  apply withdraw_contract_holds in E3 as (r & o1 & o2 & c & Hc); [|done].
  pose proof (proj1 (wc_one_market _ _ _ _ _ _ _ _ _ _ _ _ Hc)) as Hm. cbn in Hm.
  pose proof (proj1 (wc_obligation _ _ _ _ _ _ _ _ _ _ _ _ Hc)) as Hu.
  pose proof (fresh_slot _ _ _ Hu (proj2 (wc_fresh _ _ _ _ _ _ _ _ _ _ _ _ Hc))) as Hslot.
  unfold current_slot in Hslot.
  rewrite (refresh_obligation_clock (program_id:=program_id) _ _ _ _ E2) in Hslot.
  destruct (refresh_reads_back (program_id:=program_id) _ _ _ _ _ E2 Hu Hslot) as
    (o & di & bi & vs & es & Hskip & Ho & Hd & Hb & Hr & Hk).
  rewrite skip_clock_absent in Hskip by done.
  apply (f_equal (map key)) in Hskip. rewrite map_key_account, map_app in Hskip.
  rewrite (refreshed_keys di _ deposit_reserve _ _ Hd
    ltac:(intros ? ? ? (? & (_ & Hk' & _) & _); exact Hk')) in Hskip.
  rewrite (refreshed_keys bi _ borrow_reserve _ _ Hb
    ltac:(intros ? ? ? ((_ & Hk' & _) & _); exact Hk')) in Hskip.
  exists v1, v2, di, bi, o, o1, vs, es. eexists _, r, o2, c. split_and!; try done.
  rewrite Hm. exact Hc.
Qed.
End on_chain.

(** ** The owner of an obligation withdraws from it *)

Definition example_config : Config := mkConfig 78 example_program false.

(** One deposit and one borrow of the reserve at 20, not refreshed in this slot. *)
Definition stale_obligation : Obligation :=
  mkObligation 1 (mkLastUpdate 6 true) 10 78
    [mkObligationCollateral 20 90000000 (from_int 90)]
    [mkObligationLiquidity 20 Decimal.one (from_int 30000000) (from_int 30)]
    Decimal.zero Decimal.zero Decimal.zero Decimal.zero Decimal.zero Decimal.zero false.
Definition withdraw_chain : World :=
  Eval vm_compute in
    world_of example_market example_reserve stale_obligation [(12, 90000000); (60, 0)].

#[local] Instance withdraw_client : ClientEnv := example_client withdraw_chain.

Definition fetched : SolendState :=
  Eval vm_compute in
    match SolendState_new (H := example_runtime [] 0) example_program 30 [] with
    | (_, Ok s) => s
    | _ => mkSolendState 0 0 stale_obligation []
    end.

Definition fetched_withdraw : list SdkInstruction :=
  Eval vm_compute in
    match withdraw (H := example_runtime [] 0) fetched 20 1000000 with
    | Ok ixs => ixs
    | _ => []
    end.

Lemma client_signs_exactly_witness :
  signed_by_all [create_associated_token_account 78 78 5] 78 [78].
Proof.
  exact (client_signs_exactly (R := example_runtime [] 0)
    (CL := example_client_laws withdraw_chain) example_config _ _
    (message_create_ata example_config 5)).
Defined.

Lemma client_withdraw_by_owner_witness :
  exists sent' s ixs created hash,
    command_withdraw_collateral (H := example_runtime [] 0) example_config 30 20 1000000 []
      = (sent', Ok tt) /\
    withdraw (H := example_runtime [] 0) s 20 1000000 = Ok ixs /\
    sent' = created ++ [mkTransaction (mkMessage ixs 78 hash) [78]].
Proof.
  assert (Hok : is_ok (snd (command_withdraw_collateral (H := example_runtime [] 0)
    example_config 30 20 1000000 [])) = true) by (vm_compute; reflexivity).
  destruct (command_withdraw_collateral (H := example_runtime [] 0) example_config 30 20
    1000000 []) as [sent' r] eqn:H.
  apply is_ok_true in Hok as [[] Hr]. cbn [snd] in Hr. subst r.
  destruct (client_withdraw_by_owner (R := example_runtime [] 0)
    (CL := example_client_laws withdraw_chain) example_config 30 20 1000000 [] sent' eq_refl H)
    as (s & ixs & created & hash & _ & _ & _ & _ & Hw & _ & Hs).
  exists sent', s, ixs, created, hash. split; [reflexivity|]. split; [exact Hw|exact Hs].
Defined.

Lemma client_withdraw_settles_witness :
  exists w' w1 w2 dinfos binfos o o1 vs es amount r o2 c,
    execute (R := example_runtime [] 0) example_program fetched_withdraw withdraw_chain = Ok w' /\
    execute (R := example_runtime [] 0) example_program
      (refresh_reserves example_program (reserves fetched))
      withdraw_chain = Ok w1 /\
    Forall3 (deposit_loaded (R := example_runtime [] 0) (program_id := example_program) w1)
      dinfos (deposits o) vs /\
    Forall3 (borrow_loaded (R := example_runtime [] 0) (program_id := example_program) w1)
      binfos (borrows o) es /\
    refreshed_positions o o1 (current_slot w1) vs es /\
    withdraw_contract (R := example_runtime [] 0) (program_id := example_program) 1000000 amount
      (account 20) (account 30) (account (Reserve.lending_market r)) (signer 78) w2 w' r o1 o2 c.
Proof.
  assert (Hu : is_u64 1000000) by (vm_compute; split; [discriminate|reflexivity]).
  assert (Hok : is_ok (execute (R := example_runtime [] 0) example_program fetched_withdraw
    withdraw_chain) = true) by (vm_compute; reflexivity).
  apply is_ok_true in Hok as [w' H].
  assert (Hclock : clock_ID (Runtime := example_runtime [] 0)
    ∉ position_keys (obligation fetched))
    by (apply (bool_decide_unpack _); vm_compute; exact I).
  assert (Hw : withdraw (H := example_runtime [] 0) fetched 20 1000000 = Ok fetched_withdraw)
    by (vm_compute; reflexivity).
  pose proof (client_withdraw_settles (R := example_runtime [] 0) (K := example_ids)
    (C := withdraw_client)
    (program_id := example_program) (L := example_laws [] 0) fetched 20 1000000
    fetched_withdraw withdraw_chain w' ltac:(discriminate) Hu
    ltac:(discriminate) Hclock eq_refl Hw H) as Hx.
  destruct Hx as (w1 & w2 & di & bi & o & o1 & vs & es & amount & r & o2 & c & H1 & _ & _ & Hd
    & Hb & Hr & _ & Hc).
  exists w', w1, w2, di, bi, o, o1, vs, es, amount, r, o2, c.
  split_and!; [exact H|exact H1|exact Hd|exact Hb|exact Hr|exact Hc].
Defined.
