(* ===== verification/ArgsSpec.v ===== *)
(** Reading a command line: what the client's declarations guarantee of the values that
    its commands unwrap. *)

From S2P Require Import Builders.
From Stdlib Require Import Floats.SpecFloat Strings.String Strings.Ascii.
From S2P Require Import Prelude Errors Common Rate Decimal Codec.
From S2P Require Import RateLimiter ReserveConfig ReserveConfigSpec.
From S2P Require Import Runtime Oracles Client Cli CliArgs CliMain.

(** ** The arguments that no validator guards *)

(** The arguments of a subcommand that are unwrapped, but whose value need not be there
    or need not parse. *)
Definition unguarded (name : string) : list string :=
  (if String.eqb name "liquidate-obligation" then
     ["obligation"; "repay-reserve"; "source-liquidity"; "withdraw-reserve";
      "liquidity-amount"]
   else if String.eqb name "withdraw-collateral" then
     ["obligation"; "withdraw-reserve"; "collateral-amount"]
   else if String.eqb name "redeem-collateral" then
     ["redeem-reserve"; "collateral-amount"]
   else if String.eqb name "set-lending-market-owner-and-config" then ["risk_authority"]
   else if String.eqb name "create-market" then ["quote_currency"]
   else [])%string.

(** What an unguarded argument is read as: an amount, a key, or a quote currency, which
    is a name of up to 32 bytes or a key that [Pubkey::from_str] accepts. *)
Definition reads_well `{ClapUtils} (pubkey_from_str : bytes -> outcome CliError Pubkey)
    (v : option string) (argument : string) : Prop :=
  if String.eqb argument "quote_currency" then
    match v with
    | Some v =>
        (length (list_byte_of_string v) <= 32)%nat \/
        exists k, pubkey_from_str (list_byte_of_string v) = Ok k
    | None => False
    end
  else if String.eqb argument "liquidity-amount" || String.eqb argument "collateral-amount"
  then is_Some (v ≫= uint_from_str 64)
  else is_Some (v ≫= pubkey_from_value).

Section reading.
Context {U : ClapUtils} {L : ClapLaws U}.
Implicit Types (given : Given) (args : list Arg).
Context (pubkey_from_str : bytes -> outcome CliError Pubkey).

Lemma unwrap_some {E A : Type} (o : option A) :
  is_Some o -> exists x, unwrap_option (E:=E) o = Ok x.
Proof. intros [x ->]. by exists x. Qed.

(** The readers of values that a validator guards. *)
Definition guard args name : option (bool * option string * option Validator) :=
  (fun a => (arg_required a, arg_default a, arg_validator a)) <$> declared args name.

Lemma guard_declared args name b d c :
  guard args name = Some (b, d, c) ->
  exists a, declared args name = Some a /\
    arg_required a = b /\ arg_default a = d /\ arg_validator a = c.
Proof. intros (a & Hd & [= -> -> ->])%fmap_Some. by exists a. Qed.

Lemma required_reads {A : Type} (read : string -> option A) c args given name :
  accepts args given = true -> guard args name = Some (true, None, Some c) ->
  (forall v, passes c v = true -> is_Some (read v)) ->
  is_Some (value_of given read args name).
Proof.
  intros Hacc (a & Hd & Hr & Hdef & Hc)%guard_declared Hpass.
  apply (argument_reads read args given name a Hacc Hd).
  split; [by left|]. split; [by rewrite Hdef|]. by exists c.
Qed.

Lemma defaulted_reads {A : Type} (read : string -> option A) b c args given name d :
  accepts args given = true -> guard args name = Some (b, Some d, Some c) ->
  is_Some (read d) -> (forall v, passes c v = true -> is_Some (read v)) ->
  is_Some (value_of given read args name).
Proof.
  intros Hacc (a & Hd & Hr & Hdef & Hc)%guard_declared Hread Hpass.
  apply (argument_reads read args given name a Hacc Hd).
  split; [right; by rewrite Hdef|]. split; [by rewrite Hdef; intros d' [= <-]|]. by exists c.
Qed.

Lemma passes_type v : passes (is_parsable ReserveTypeName) v = true -> is_Some (reserve_type_of v).
Proof.
  intros H%parsable_reads. unfold parses in H. unfold reserve_type_of.
  destruct (reserve_type_from_str v); [by eexists|done..].
Qed.

Lemma default_key v :
  base58_digits v = true -> String.get 0 v <> Some "1"%char ->
  2 ^ 248 <= declare_id v < 2 ^ 256 -> is_Some (pubkey_from_value v).
Proof. intros. eexists. by apply base58_key_reads. Qed.

Lemma pyth_key : is_Some (pubkey_from_value PYTH_PROGRAM_ID).
Proof. by apply default_key. Qed.

Lemma switchboard_key : is_Some (pubkey_from_value SWITCHBOARD_PROGRAM_ID_DEV).
Proof. by apply default_key. Qed.

Lemma program_key : is_Some (pubkey_from_value default_lending_program_id).
Proof. by apply default_key. Qed.

(** One unwrapped argument after the other. *)
Ltac passing :=
  lazymatch goal with
  | |- forall v, passes is_pubkey v = true -> _ => exact pubkey_ok_reads
  | |- forall v, passes is_keypair v = true -> _ => exact keypair_ok_reads
  | |- forall v, passes is_amount v = true -> _ => exact amount_reads
  | |- forall v, passes (is_parsable ReserveTypeName) v = true -> _ => exact passes_type
  | |- forall v, passes (is_parsable U64) v = true -> is_Some (f64_from_str v) =>
      exact u64_reads_f64
  | |- _ => intros ? H%parsable_reads; exact (some_passes _ H)
  end.
Ltac default_reads :=
  lazymatch goal with
  | |- is_Some (pubkey_from_value _) => first [exact pyth_key | exact switchboard_key]
  | |- _ => vm_compute; by eexists
  end.
Ltac guarded Hacc :=
  first
    [ eapply (required_reads _ _ _ _ _ Hacc); [vm_compute; reflexivity|passing]
    | eapply (defaulted_reads _ _ _ _ _ _ _ Hacc);
        [vm_compute; reflexivity|default_reads|passing] ].
Ltac read_next tac :=
  lazymatch goal with
  | |- context [obind (unwrap_option ?o) _] =>
      let H := fresh in
      assert (H : is_Some o) by tac;
      destruct (unwrap_some (E:=CliError) o H) as [? ->]; cbn [obind]; clear H
  end.
Ltac read_all tac := repeat read_next tac; by eexists.

Ltac unguarded_value Hun :=
  lazymatch goal with
  | |- is_Some (value_of _ _ _ ?name) => exact (Hun name ltac:(cbn; tauto))
  end.

Lemma add_reserve_reads given :
  accepts add_reserve_args given = true -> exists s, read_add_reserve given = Ok s.
Proof.
  intros Hacc. unfold read_add_reserve, pubkey_of, keypair_of. do 8 read_next ltac:(guarded Hacc).
  assert (Hc : exists c, read_reserve_config given = Ok c)
    by (unfold read_reserve_config; read_all ltac:(guarded Hacc)).
  destruct Hc as [c ->]. cbn [obind]. read_all ltac:(guarded Hacc).
Qed.

(** The quote currency of create-market is converted or panics. *)
Lemma quote_currency_reads v :
  reads_well pubkey_from_str v "quote_currency" ->
  exists q, quote_currency_of pubkey_from_str (list_byte_of_string <$> v) = Ok (Some q).
Proof.
  destruct v as [v|]; cbn; [|done]. intros Hv.
  case_bool_decide; [by eexists|].
  destruct (Nat.leb_spec (length (list_byte_of_string v)) 32); [by eexists|].
  destruct Hv as [Hv|[k ->]]; [lia|]. by eexists.
Qed.

Lemma quote_currency_panics {B : Type} v (k : bytes -> outcome CliError B) :
  ~ reads_well pubkey_from_str v "quote_currency" ->
  (let? q := quote_currency_of pubkey_from_str (list_byte_of_string <$> v) in
   let? q := unwrap_option q in k q) = Panic.
Proof.
  destruct v as [v|]; [|done]. cbn -[Nat.leb Nat.le]. intros Hv.
  case_bool_decide as Hu.
  { exfalso. apply Hv. left. rewrite Hu. vm_compute. lia. }
  destruct (Nat.leb_spec (length (list_byte_of_string v)) 32); [by exfalso; apply Hv; left|].
  destruct (pubkey_from_str _) as [key| |] eqn:Hk; [|done..].
  exfalso. apply Hv. right. by exists key.
Qed.

Lemma create_market_reads given :
  accepts create_market_args given = true ->
  reads_well pubkey_from_str (matched create_market_args given "quote_currency")
    "quote_currency" ->
  exists s, read_create_market pubkey_from_str given = Ok s.
Proof.
  intros Hacc [q Hq]%quote_currency_reads. unfold read_create_market, pubkey_of.
  read_next ltac:(guarded Hacc). rewrite Hq. cbn [obind unwrap_option unwrap].
  read_all ltac:(guarded Hacc).
Qed.

Ltac name_cases Hname :=
  repeat destruct Hname as [Hname|Hname]; try (destruct Hname; fail);
    injection Hname as <- <-;
    lazymatch goal with
    | |- context [read_subcommand ?f ?g ?n] =>
        let t := eval cbv [read_subcommand String.eqb Ascii.eqb Bool.eqb] in (read_subcommand f g n) in
        change (read_subcommand f g n) with t
    end;
    unfold read_view_reserve, read_view_market, read_view_obligation,
      read_liquidate_obligation, read_withdraw_collateral, read_redeem_collateral,
      read_set_owner_and_config, read_update_reserve, pubkey_of, keypair_of.

(** C30: whatever the client accepts on its command line, it reads.  If a subcommand
    accepts the values that are given, none is missing and the validators pass, then
    none of the values it unwraps fails to be there or to parse, so that a command is
    run: given or by default, of its width, a float where the validator asks for an
    integer.  The exceptions are the arguments listed by [unguarded]: those of
    liquidate-obligation, withdraw-collateral and redeem-collateral, and the quote
    currency of create-market, which have no validator, and the risk authority, which
    is not required; those read when they happen to be well formed ([reads_well]). *)
Theorem accepted_line_reads (name : string) (args : list Arg) (given : Given)
    (Hname : In (name, args) subcommands) (Hacc : accepts args given = true)
    (Hun : forall a, In a (unguarded name) -> reads_well pubkey_from_str (matched args given a) a) :
  exists s, read_subcommand pubkey_from_str given name = Ok s.
Proof.
  name_cases Hname; try by apply add_reserve_reads.
  all: try (apply create_market_reads; [done|apply (Hun "quote_currency"%string); by left]).
  all: read_all ltac:(first [guarded Hacc | unguarded_value Hun]).
Qed.

(** What no validator guards, and does not parse, panics. *)
Lemma unguarded_argument_panics (name : string) (args : list Arg) (given : Given) (a : string)
    (Hname : In (name, args) subcommands) (Hin : In a (unguarded name))
    (Hbad : ~ reads_well pubkey_from_str (matched args given a) a) :
  read_subcommand pubkey_from_str given name = Panic.
Proof.
  name_cases Hname; cbn in Hin; destruct_or? Hin; subst; try done.
  all: unfold read_create_market, pubkey_of; repeat lazymatch goal with
    | |- obind (unwrap_option ?o) _ = Panic =>
        let E := fresh "E" in
        destruct o as [?|] eqn:E; [cbn [unwrap_option unwrap obind]|reflexivity]
    end.
  all: try (exfalso; apply Hbad; red; cbn; by eexists).
  by apply quote_currency_panics.
Qed.

(** What add-reserve makes of its defaults is a configuration that the program accepts,
    whatever the limits, up to the fee receiver. *)
Lemma add_reserve_defaults_validate given (fees : ReserveFees)
    (deposit_limit borrow_limit : Z) (receiver : Pubkey) :
  (forall a, In a (add_reserve_rate_args ++ add_reserve_fee_args) -> given (arg_name a) = None) ->
  fees = mkReserveFees 100000000000000 3000000000000000 20 ->
  value_of given f64_from_str add_reserve_args "borrow_fee" ≫= (fun x => Some (fee_wad x))
    = Some (borrow_fee_wad fees) /\
  value_of given f64_from_str add_reserve_args "flash_loan_fee" ≫= (fun x => Some (fee_wad x))
    = Some (flash_loan_fee_wad fees) /\
  exists c, read_reserve_config given = Ok c /\
    validate_reserve_config (c fees deposit_limit borrow_limit receiver) = Ok tt.
Proof.
  intros Hnone ->.
  assert (Hgiven : forall n, existsb (fun a => String.eqb (arg_name a) n)
      (add_reserve_rate_args ++ add_reserve_fee_args) = true -> given n = None).
  { intros n (a & Hin & <-%String.eqb_eq)%existsb_exists. by apply Hnone. }
  unfold read_reserve_config, value_of, matched.
  rewrite !Hgiven by (vm_compute; reflexivity).
  split; [vm_compute; reflexivity|]. split; [vm_compute; reflexivity|].
  eexists. split; [vm_compute; reflexivity|]. vm_compute. reflexivity.
Qed.
End reading.

(** ** Clap's parsers, for examples *)

(** A key is the base-58 form of 32 bytes: the leading ones are zero bytes. *)
Fixpoint leading_ones (s : string) : Z :=
  match s with String "1" rest => 1 + leading_ones rest | _ => 0 end.
Definition byte_length (n : Z) : Z := if n =? 0 then 0 else Z.log2 n / 8 + 1.
Definition example_pubkey (v : string) : option Pubkey :=
  if base58_digits v && (leading_ones v + byte_length (declare_id v) =? 32)
  then Some (declare_id v) else None.

(** One keypair file. *)
Definition example_keypair (v : string) : option Pubkey :=
  if String.eqb v "owner.json" then Some 50 else None.

#[export] Instance example_clap : ClapUtils := {|
  pubkey_from_value := example_pubkey;
  keypair_from_value := example_keypair;
  url_ok _ := true;
  pubkey_ok v := is_some (example_pubkey v);
  keypair_ok v := is_some (example_keypair v);
  amount_ok v := parses U64 v || parses F64 v;
  parsable_ok := parses;
|}.

Lemma byte_length_32 n : 2 ^ 248 <= n < 2 ^ 256 -> byte_length n = 32.
Proof.
  intros [Hlo Hhi]. unfold byte_length. destruct (Z.eqb_spec n 0); [lia|].
  assert (248 <= Z.log2 n) by (apply Z.log2_le_pow2; lia).
  assert (Z.log2 n < 256) by (apply Z.log2_lt_pow2; lia).
  rewrite <- (Z.div_unique (Z.log2 n) 8 31 (Z.log2 n - 248)) by lia. done.
Qed.

#[export] Instance example_clap_laws : ClapLaws example_clap.
Proof.
  split; cbn -[Z.pow].
  - intros v. apply some_passes.
  - intros v. apply some_passes.
  - intros v. by rewrite orb_true_iff.
  - done.
  - intros v Hv H1 Hr. unfold example_pubkey. rewrite Hv, byte_length_32 by done.
    destruct v as [|[[] [] [] [] [] [] [] []] v]; try done.
Qed.

Definition example_pubkey_from_str (v : bytes) : outcome CliError Pubkey :=
  match example_pubkey (string_of_list_byte v) with Some k => Ok k | None => Err RpcError end.

(** The key [n] < 58 as a command line gives it, and values given by name. *)
Fixpoint ones (n : nat) : string :=
  match n with O => EmptyString | S n => String "1" (ones n) end.
Definition small_key (n : nat) : string :=
  (ones 31 ++ match String.get n base58_alphabet with
              | Some c => String c EmptyString | None => "" end)%string.
Definition given_values (values : list (string * string)) (name : string) : option string :=
  snd <$> find (fun v => String.eqb (fst v) name) values.

(** A withdrawal of everything, as it is accepted and read. *)
Definition withdraw_line : Given :=
  Eval vm_compute in given_values
    [("obligation", small_key 30); ("withdraw-reserve", small_key 20);
     ("collateral-amount", "18446744073709551615")]%string.

Lemma accepted_line_reads_witness :
  accepts withdraw_collateral_args withdraw_line = true /\
  read_subcommand example_pubkey_from_str withdraw_line "withdraw-collateral" = Ok (WithdrawCollateral 30 20 u64_max) /\
  exists s, read_subcommand example_pubkey_from_str withdraw_line "withdraw-collateral" = Ok s.
Proof.
  assert (Hacc : accepts withdraw_collateral_args withdraw_line = true)
    by (vm_compute; reflexivity).
  split; [exact Hacc|]. split; [vm_compute; reflexivity|].
  apply (accepted_line_reads example_pubkey_from_str "withdraw-collateral" withdraw_collateral_args withdraw_line).
  - do 6 right. left. reflexivity.
  - exact Hacc.
  - intros a [<-|[<-|[<-|[]]]]; vm_compute; by eexists.
Defined.

(** The same with an amount in display units is accepted too, and panics. *)
Definition fractional_line : Given :=
  Eval vm_compute in given_values
    [("obligation", small_key 30); ("withdraw-reserve", small_key 20);
     ("collateral-amount", "0.5")]%string.

Example fractional_withdrawal_panics :
  accepts withdraw_collateral_args fractional_line = true /\
  read_subcommand example_pubkey_from_str fractional_line "withdraw-collateral" = Panic.
Proof. by vm_compute. Qed.

(** So does a market whose quote currency is longer than 32 bytes and no key. *)
Definition long_quote_line : Given :=
  Eval vm_compute in given_values
    [("lending_market_owner", small_key 50);
     ("quote_currency", "a quote currency of thirty-four by")]%string.

Example long_quote_currency_panics :
  accepts create_market_args long_quote_line = true /\
  read_subcommand example_pubkey_from_str long_quote_line "create-market" = Panic.
Proof. by vm_compute. Qed.
