(* ===== verification/UpdateSpec.v ===== *)
(** What [update-reserve] sends, against a reference description of its arguments. *)

From S2P Require Import Builders.
From Stdlib Require Import Floats.SpecFloat Strings.String.
From stdpp Require Import gmap.
From S2P Require Import Prelude Errors Common Rate Decimal Codec.
From S2P Require Import RateLimiter ReserveConfig ReserveLiquidity Reserve ReserveCodec.
From S2P Require Import Runtime Oracles ProcessorHelpers ExampleRuntime BuilderSpec.
From S2P Require Import Client Cli CliArgs CliMain CliSpec ArgsSpec.

(** ** The arguments laid over a configuration *)

(** An argument that is given replaces the field. *)
Definition overlay {A : Type} (new : option A) (old : A) : A := option.default old new.

Lemma merge_overlay {A : Type} `{EqDecision A} (new : option A) (old : A) :
  merge new old = overlay new old.
Proof.
  destruct new as [a|]; [|done]. unfold merge, differs, overlay. cbn [option.default].
  destruct (decide (old = a)) as [->|Hne].
  - by destruct (bool_decide (a <> a)).
  - by rewrite bool_decide_true.
Qed.

Lemma merge_same {A : Type} `{EqDecision A} (new : option A) (old : A) :
  differs new old = false -> merge new old = old.
Proof. unfold merge. by intros ->. Qed.

Section update.
Context {R : Runtime} {K : KnownIds} {C : ClientEnv} {CL : ClientLaws C}.
Implicit Types (p : PartialReserveConfig) (c : ReserveConfig).

(** A limit is given in display units, except that the limit in force, as it is
    stored, stands for itself. *)
Definition overlay_limit (decimals : Z) (new : option Z) (old : Z) : Z :=
  match new with
  | Some n => if n =? old then old else ui_amount_to_amount (f64_of_u64 n) decimals
  | None => old
  end.

Definition overlay_fees (p : PartialReserveFees) (f : ReserveFees) : ReserveFees := {|
  borrow_fee_wad := overlay (p_borrow_fee_wad p) (borrow_fee_wad f);
  flash_loan_fee_wad := overlay (p_flash_loan_fee_wad p) (flash_loan_fee_wad f);
  host_fee_percentage := overlay (p_host_fee_percentage p) (host_fee_percentage f);
|}.

Definition overlay_config (decimals : Z) p c : ReserveConfig := {|
  optimal_utilization_rate :=
    overlay (p_optimal_utilization_rate p) (optimal_utilization_rate c);
  max_utilization_rate := overlay (p_max_utilization_rate p) (max_utilization_rate c);
  ReserveConfig.loan_to_value_ratio :=
    overlay (p_loan_to_value_ratio p) (ReserveConfig.loan_to_value_ratio c);
  liquidation_bonus := overlay (p_liquidation_bonus p) (liquidation_bonus c);
  max_liquidation_bonus := overlay (p_max_liquidation_bonus p) (max_liquidation_bonus c);
  liquidation_threshold := overlay (p_liquidation_threshold p) (liquidation_threshold c);
  max_liquidation_threshold :=
    overlay (p_max_liquidation_threshold p) (max_liquidation_threshold c);
  min_borrow_rate := overlay (p_min_borrow_rate p) (min_borrow_rate c);
  optimal_borrow_rate := overlay (p_optimal_borrow_rate p) (optimal_borrow_rate c);
  max_borrow_rate := overlay (p_max_borrow_rate p) (max_borrow_rate c);
  super_max_borrow_rate := overlay (p_super_max_borrow_rate p) (super_max_borrow_rate c);
  fees := overlay_fees (p_fees p) (fees c);
  deposit_limit := overlay_limit decimals (p_deposit_limit p) (deposit_limit c);
  borrow_limit := overlay_limit decimals (p_borrow_limit p) (borrow_limit c);
  fee_receiver := overlay (p_fee_receiver p) (fee_receiver c);
  protocol_liquidation_fee :=
    overlay (p_protocol_liquidation_fee p) (protocol_liquidation_fee c);
  protocol_take_rate := overlay (p_protocol_take_rate p) (protocol_take_rate c);
  added_borrow_weight_bps := overlay (p_added_borrow_weight_bps p) (added_borrow_weight_bps c);
  reserve_type := overlay (p_reserve_type p) (reserve_type c);
|}.

Lemma merge_limit_overlay d new old : merge_limit d new old = overlay_limit d new old.
Proof.
  unfold merge_limit, differs, overlay_limit. destruct new as [n|]; [|done].
  cbn [option.default]. destruct (Z.eqb_spec n old) as [->|Hne].
  - by rewrite bool_decide_false by tauto.
  - by rewrite bool_decide_true by congruence.
Qed.

Lemma merge_config_overlay d p c : merge_config d p c = overlay_config d p c.
Proof.
  unfold merge_config, merge_fees. by rewrite !merge_overlay, !merge_limit_overlay.
Qed.

(** Where no field differs, nothing changes. *)
Lemma merge_config_same d p c : config_differs p c = false -> merge_config d p c = c.
Proof.
  unfold config_differs, fees_differ. rewrite !orb_false_iff. intros H. destruct_and! H.
  unfold merge_config, merge_fees, merge_limit.
  repeat match goal with E : differs _ _ = false |- _ =>
    rewrite ?(merge_same _ _ E), ?E; clear E end.
  destruct c as [? ? ? ? ? ? ? ? ? ? ? []]. reflexivity.
Qed.

Definition overlay_limiter p (l : RateLimiterConfig) : RateLimiterConfig := {|
  window_duration := overlay (p_rate_limiter_window_duration p) (window_duration l);
  max_outflow := overlay (p_rate_limiter_max_outflow p) (max_outflow l);
|}.

Lemma merge_limiter_overlay p l : merge_limiter p l = overlay_limiter p l.
Proof. unfold merge_limiter. by rewrite !merge_overlay. Qed.

Lemma merge_limiter_same p l : limiter_differs p l = false -> merge_limiter p l = l.
Proof.
  unfold limiter_differs, merge_limiter. rewrite orb_false_iff. intros [H1 H2].
  rewrite (merge_same _ _ H1), (merge_same _ _ H2). by destruct l.
Qed.

(** ** The command *)

(** The argument is not given, or is the value in force. *)
Definition unchanged {A : Type} (new : option A) (old : A) : Prop :=
  forall a, new = Some a -> a = old.

Lemma differs_unchanged {A : Type} `{EqDecision A} (new : option A) (old : A) :
  differs new old = false <-> unchanged new old.
Proof.
  unfold differs, unchanged. destruct new as [a|]; cbn [option.default].
  - rewrite bool_decide_eq_false. split; [|intros H; specialize (H a eq_refl); congruence].
    intros H b [= <-]. destruct (decide (old = a)); [done|by destruct H].
  - by split.
Qed.

(** Nothing is asked for: no argument is another value than the one in force, in the
    units in which it is stored, and no oracle is given. *)
Record asks_nothing (p : PartialReserveConfig) (price feed : option Pubkey)
    (c : ReserveConfig) (limits : RateLimiterConfig) : Prop := {
  an_optimal_utilization :
    unchanged (p_optimal_utilization_rate p) (optimal_utilization_rate c);
  an_max_utilization : unchanged (p_max_utilization_rate p) (max_utilization_rate c);
  an_ltv : unchanged (p_loan_to_value_ratio p) (ReserveConfig.loan_to_value_ratio c);
  an_bonus : unchanged (p_liquidation_bonus p) (liquidation_bonus c);
  an_max_bonus : unchanged (p_max_liquidation_bonus p) (max_liquidation_bonus c);
  an_threshold : unchanged (p_liquidation_threshold p) (liquidation_threshold c);
  an_max_threshold : unchanged (p_max_liquidation_threshold p) (max_liquidation_threshold c);
  an_min_rate : unchanged (p_min_borrow_rate p) (min_borrow_rate c);
  an_optimal_rate : unchanged (p_optimal_borrow_rate p) (optimal_borrow_rate c);
  an_max_rate : unchanged (p_max_borrow_rate p) (max_borrow_rate c);
  an_super_max_rate : unchanged (p_super_max_borrow_rate p) (super_max_borrow_rate c);
  an_borrow_fee : unchanged (p_borrow_fee_wad (p_fees p)) (borrow_fee_wad (fees c));
  an_flash_fee : unchanged (p_flash_loan_fee_wad (p_fees p)) (flash_loan_fee_wad (fees c));
  an_host_fee : unchanged (p_host_fee_percentage (p_fees p)) (host_fee_percentage (fees c));
  an_deposit_limit : unchanged (p_deposit_limit p) (deposit_limit c);
  an_borrow_limit : unchanged (p_borrow_limit p) (borrow_limit c);
  an_fee_receiver : unchanged (p_fee_receiver p) (fee_receiver c);
  an_liquidation_fee : unchanged (p_protocol_liquidation_fee p) (protocol_liquidation_fee c);
  an_take_rate : unchanged (p_protocol_take_rate p) (protocol_take_rate c);
  an_borrow_weight : unchanged (p_added_borrow_weight_bps p) (added_borrow_weight_bps c);
  an_reserve_type : unchanged (p_reserve_type p) (reserve_type c);
  an_window : unchanged (p_rate_limiter_window_duration p) (window_duration limits);
  an_outflow : unchanged (p_rate_limiter_max_outflow p) (max_outflow limits);
  an_price : price = None;
  an_feed : feed = None;
}.

Lemma no_change_asks_nothing p price feed c limits :
  config_differs p c || bool_decide (is_Some price) || bool_decide (is_Some feed)
    || limiter_differs p limits = false <-> asks_nothing p price feed c limits.
Proof.
  unfold config_differs, fees_differ, limiter_differs.
  rewrite !orb_false_iff, !differs_unchanged, !bool_decide_eq_false, <- !eq_None_not_Some.
  split; [intros H; destruct_and! H; by split|]. intros []. by split_and!.
Qed.

(** The transaction that carries configuration [c] and outflow limits [l]. *)
Definition update_transaction (config : Config) (owner reserve market product price feed : Pubkey)
    (hash : Z) (c : ReserveConfig) (l : RateLimiterConfig) : Transaction :=
  mkTransaction
    (mkMessage
       [Builders.update_reserve_config (config_program_id config) c l reserve market owner
          product price feed]
       (fee_payer config) hash)
    [fee_payer config; owner].

Definition fetched_reserve (sent : list Transaction) (key : Pubkey) (r : Reserve) : Prop :=
  exists a, get_account sent key = Ok a /\ ReserveCodec.unpack_from_slice (data a) = Ok r.

Record update_sent (config : Config) p (product price feed : option Pubkey)
    (reserve market owner : Pubkey) (sent sent' : list Transaction) (r : Reserve) : Prop := {
  us_fetched : fetched_reserve sent reserve r;
  (* the configuration that results is one the program accepts *)
  us_valid :
    let c := overlay_config (mint_decimals (liquidity r)) p (Reserve.config r) in
    validate_reserve_config c = Ok tt;
  us_sent :
    let l := liquidity r in
    let c := overlay_config (mint_decimals l) p (Reserve.config r) in
    let limits := RateLimiter.config (Reserve.rate_limiter r) in
    (* nothing to change *)
    (asks_nothing p price feed (Reserve.config r) limits /\
     sent' = sent /\ c = Reserve.config r /\ overlay_limiter p limits = limits) \/
    (* one transaction, with the oracles in force where none is given *)
    (~ asks_nothing p price feed (Reserve.config r) limits) /\
    exists hash, sent' = sent ++
      [update_transaction config owner reserve market
         (match price with Some _ => option.default NULL_PUBKEY product | None => NULL_PUBKEY end)
         (overlay price (pyth_oracle_pubkey l)) (overlay feed (switchboard_oracle_pubkey l))
         hash c (overlay_limiter p limits)];
}.

Lemma merge_pyth_inv product price l pyth :
  merge_pyth product price l = Ok pyth ->
  pyth = (match price with Some _ => option.default NULL_PUBKEY product | None => NULL_PUBKEY end,
          overlay price (pyth_oracle_pubkey l)).
Proof.
  unfold merge_pyth. intros H. destruct price as [k|]; [|by injection H as <-].
  minv H. by destruct product; [injection E as ->|].
Qed.

Lemma update_reserve_inv config p product price feed reserve market owner sent sent' :
  dry_run config = false ->
  command_update_reserve config p product price feed reserve market owner sent
    = (sent', Ok tt) ->
  exists r, update_sent config p product price feed reserve market owner sent sent' r.
Proof.
  intros Hdry H. unfold command_update_reserve in H. cinv H.
  apply program_result_inv in E0. apply merge_pyth_inv in E1 as ->.
  destruct (validate_reserve_config _) as [[]| |] eqn:Hv in E2;
    [|injection E2 as <-; discriminate|discriminate].
  injection E2 as <-. cbn [negb] in H. rewrite merge_config_overlay in Hv.
  exists x1. split; [by exists x0|exact Hv|]. cbn zeta.
  pose proof (no_change_asks_nothing p price feed (Reserve.config x1)
    (RateLimiter.config (Reserve.rate_limiter x1))) as Hask.
  destruct (config_differs p (Reserve.config x1) || _ || _ || _) eqn:Hd; cbn [negb] in H.
  - right. split; [by rewrite <- Hask|].
    apply sign_and_send_inv in H as [_ H]. rewrite Hdry in H. destruct H as [hash ->].
    exists hash. unfold update_transaction. cbn [fst snd].
    by rewrite merge_config_overlay, merge_limiter_overlay.
  - left. apply cli_ret_inv in H as [-> _]. split; [by apply Hask|].
    rewrite !orb_false_iff in Hd. destruct Hd as [[[Hc _] _] Hl].
    rewrite <- merge_config_overlay, <- merge_limiter_overlay.
    split_and!; [done|by apply merge_config_same|by apply merge_limiter_same].
Qed.

(** C28: [update-reserve] changes what it was asked to and nothing else.  When it
    succeeds, the configuration it arrives at is the reserve's, as fetched, with
    each field replaced by the argument that was given for it, if any (limits
    converted from display units), and it validates.  If no argument
    is another value than the one stored, and no oracle is given, nothing is sent;
    otherwise exactly one transaction is, signed by the fee payer
    and the market's owner, that sets this configuration, the outflow limits
    overlaid the same way, and the oracles, those in force unless given. *)
Theorem update_reserve_sends (config : Config) (p : PartialReserveConfig)
    (product price feed : option Pubkey) (reserve market owner : Pubkey)
    (sent sent' : list Transaction) (Hdry : dry_run config = false)
    (H : command_update_reserve config p product price feed reserve market owner sent
           = (sent', Ok tt)) :
  exists r, update_sent config p product price feed reserve market owner sent sent' r.
Proof. by apply update_reserve_inv. Qed.

(** [update-reserve] makes an isolated reserve regular unless told not to.  The
    option for the reserve type has a default, Regular, so that when the client is run
    on an isolated reserve without it, whatever else it is asked to change, the
    transaction it sends makes the reserve regular. *)
Theorem update_reserve_unisolates {U : ClapUtils}
    (pubkey_from_str : bytes -> outcome CliError Pubkey)
    (CONFIG_FILE : option string) (fee_payer_arg : Arg) (signer fresh_key fee_key : Pubkey)
    (keys : ReserveKeys) (app_given given : Given) (reserve : Pubkey) (r : Reserve)
    (sent sent' : list Transaction)
    (Hdry : app_given "dry_run"%string = None)
    (Htype : given "reserve_type"%string = None)
    (Hk : pubkey_of given update_reserve_args "reserve" = Some reserve)
    (Hr : fetched_reserve sent reserve r)
    (Hisolated : reserve_type (Reserve.config r) = Isolated)
    (H : main pubkey_from_str CONFIG_FILE fee_payer_arg signer fresh_key keys fee_key
           app_given "update-reserve" given sent = (sent', Ok tt)) :
  exists config owner market c limits new_product new_price new_feed hash,
    reserve_type c = Regular /\
    sent' = sent ++ [update_transaction config owner reserve market new_product new_price
                       new_feed hash c limits].
Proof.
  unfold main in H. cinv H. unfold read_config in E. minv E.
  change (read_subcommand pubkey_from_str given "update-reserve") with (read_update_reserve given) in E0.
  unfold read_update_reserve in E0. minv E0.
  rewrite Hk in E. injection E as <-.
  replace (value_of given reserve_type_of update_reserve_args "reserve_type")
    with (Some Regular) in H by (unfold value_of, matched; by rewrite Htype).
  replace (is_some (app_given "dry_run"%string)) with false in H by by rewrite Hdry.
  apply update_reserve_inv in H as [r' [Hr' _ Hs]]; [|done].
  assert (r' = r) as ->.
  { destruct Hr as (a & Ha & Hu), Hr' as (a' & Ha' & Hu'). congruence. }
  cbn zeta in Hs. destruct Hs as [(_ & _ & Hc & _)|(_ & hash & ->)].
  - apply (f_equal reserve_type) in Hc. rewrite Hisolated in Hc. discriminate.
  - do 9 eexists. split; [|reflexivity]. done.
Qed.
End update.

(** ** An isolated reserve whose optimal utilization is updated *)

Definition no_fees : PartialReserveFees := mkPartialReserveFees None None None.
Definition partial_config (optimal ltv : option Z) (f : PartialReserveFees)
    (t : option ReserveType) : PartialReserveConfig :=
  mkPartialReserveConfig optimal None ltv None None ltv None None None None None f None None
    None None None None None None t.

Definition isolated_reserve : Reserve :=
  Reserve.set_config example_reserve
    (overlay_config (C := example_client withdraw_chain) 6
       (partial_config None (Some 0) no_fees (Some Isolated))
       (Reserve.config example_reserve)).
Definition isolated_chain : World :=
  Eval vm_compute in world_of example_market isolated_reserve stale_obligation [].
#[local] Instance update_client : ClientEnv := example_client isolated_chain.

Lemma update_reserve_sends_witness :
  exists sent' r,
    command_update_reserve (H := example_runtime [] 0) (H1 := update_client)
      example_config (partial_config (Some 70) None no_fees (Some Isolated)) None None None 20 10 50
      [] = (sent', Ok tt) /\ length sent' = 1%nat /\
    update_sent (R := example_runtime [] 0) (C := update_client) example_config
      (partial_config (Some 70) None no_fees (Some Isolated)) None None None 20 10 50 [] sent' r.
Proof.
  assert (Hok : (fun x => (length (fst x) =? 1)%nat && is_ok (snd x))
    (command_update_reserve (H := example_runtime [] 0) (H1 := update_client)
      example_config (partial_config (Some 70) None no_fees (Some Isolated)) None None None 20 10 50
      []) = true) by (vm_compute; reflexivity).
  destruct (command_update_reserve _ _ _ _ _ _ _ _ []) as [sent' r] eqn:H.
  cbn [fst snd] in Hok. apply andb_true_iff in Hok as [Hl Hr].
  apply is_ok_true in Hr as [[] ->]. apply Nat.eqb_eq in Hl.
  destruct (update_reserve_sends (R := example_runtime [] 0) (C := update_client)
    (CL := example_client_laws isolated_chain) example_config _ _ _ _ _ _ _ _ _ eq_refl H)
    as [r Hs].
  exists sent', r. split; [reflexivity|]. split; [exact Hl|exact Hs].
Defined.

Definition unused_keys : ReserveKeys := mkReserveKeys 0 0 0 0 0 0.

(** [solend-program update-reserve --reserve .. --optimal-utilization-rate 70]. *)
Definition update_line : Given :=
  Eval vm_compute in given_values
    [("reserve", small_key 20); ("lending_market", small_key 10);
     ("lending_market_owner", "owner.json"); ("optimal_utilization_rate", "70")]%string.
Definition no_values : Given := fun _ => None.

Lemma update_reserve_unisolates_witness :
  exists sent' config owner market c limits product price feed hash,
    main (H := example_runtime [] 0) (H1 := update_client) (fun _ => Err RpcError) None
      (with_name "fee_payer") 78 0 unused_keys 0 no_values "update-reserve" update_line []
      = (sent', Ok tt) /\
    reserve_type c = Regular /\
    sent' = [update_transaction (R := example_runtime [] 0) config owner 20 market product price
               feed hash c limits].
Proof.
  assert (Hok : is_ok (snd (main (H := example_runtime [] 0) (H1 := update_client)
      (fun _ => Err RpcError) None (with_name "fee_payer") 78 0 unused_keys 0 no_values
      "update-reserve" update_line [])) = true) by (vm_compute; reflexivity).
  destruct (main _ _ _ _ _ _ _ _ _ _ []) as [sent' x] eqn:H.
  apply is_ok_true in Hok as [[] Hx]. cbn [snd] in Hx. subst x.
  assert (Hf : fetched_reserve (C := update_client) [] 20 isolated_reserve)
    by (eexists; split; vm_compute; reflexivity).
  destruct (update_reserve_unisolates (R := example_runtime [] 0) (C := update_client)
    (CL := example_client_laws isolated_chain) (U := example_clap) _ _ _ _ _ _ _ no_values update_line 20
    isolated_reserve [] sent' eq_refl eq_refl ltac:(vm_compute; reflexivity) Hf eq_refl H)
    as (config & owner & market & c & limits & product & price & feed & hash & Hc & Hs).
  exists sent', config, owner, market, c, limits, product, price, feed, hash.
  split; [reflexivity|]. split; [exact Hc|exact Hs].
Defined.
