(* ===== verification/ObligationTracks.v ===== *)
(** What every instruction does to the obligations is a sequence of the moves of
    ObligationMoves, signed for as the moves demand. *)

From stdpp Require Import relations.
From S2P Require Import Prelude Errors Common Rate Decimal Codec LastUpdate.
From S2P Require Import RateLimiter LendingMarket ReserveConfig.
From S2P Require Import ObligationCollateral ObligationLiquidity Obligation ObligationCodec.
From S2P Require Import ReserveLiquidity ReserveCollateral Reserve ReserveCodec.
From S2P Require Import Runtime ProcessorHelpers ProcessMarket ProcessReserve ProcessDeposit.
From S2P Require Import ProcessConfig ProcessObligation ProcessCollateral ProcessBorrow.
From S2P Require Import ProcessLiquidation ProcessFlash AccountSpec Identity Evolution Frames.
From S2P Require Import Instruction Processor HistorySpec Tracking.
From S2P Require Import ObligationMoves Nonneg.
From S2P Require Import ReserveExchange LiquidationSpec WithdrawSpec RefreshSpec Nonneg.

(** ** Amounts *)

Lemma sub_or_zero_nonneg (m : result Decimal) v :
  (forall d, m = Ok d -> dec_nonneg d) -> unwrap_or_else m Decimal.zero = Ok v -> dec_nonneg v.
Proof. intros Hm [H|[_ ->]]%unwrap_or_else_Ok_inv; [by apply Hm|done]. Qed.

Lemma max_outflow_tokens_nonneg m r v s ml rl q :
  reserve_wf r -> dec_nonneg v -> max_outflow_tokens m r v s = Ok (ml, rl, q) -> dec_nonneg q.
Proof.
  intros Hwf Hv H. unfold max_outflow_tokens in H. minv H. subst.
  apply remaining_outflow_nonneg in E, E0.
  apply usd_to_liquidity_nonneg in E1; [|done|by apply min_nonneg].
  by apply min_nonneg.
Qed.

Lemma minted_nonneg r n r' y :
  reserve_wf r -> 0 <= n -> deposit_liquidity r n = Ok (r', y) -> 0 <= y.
Proof.
  unfold deposit_liquidity. intros Hwf Hn H. minv H. subst.
  apply exchange_rate_nonneg in E; [|done]. apply liquidity_to_collateral_inv in E0 as ->.
  repeat apply div_nonneg; try done. unfold WAD in *. nia.
Qed.

Lemma minted_amount_nonneg `{Runtime} program_id `{!RuntimeLaws _ program_id}
    n a1 a2 a3 a4 a5 a6 a7 a8 a9 w w' c :
  0 <= n ->
  _deposit_reserve_liquidity program_id n a1 a2 a3 a4 a5 a6 a7 a8 a9 w = Ok (w', c) -> 0 <= c.
Proof.
  unfold _deposit_reserve_liquidity. intros Hn H1. minv H1. subst.
  eapply minted_nonneg; [|exact Hn|eassumption]. by eapply read_reserve_wf.
Qed.

(** The amounts of a liquidation of an obligation that was read. *)
Lemma liquidation_amounts_read r n o l i c j res :
  reserve_wf r -> 0 <= n -> obligation_ranges o ->
  borrows o !! i = Some l -> deposits o !! j = Some c ->
  calculate_liquidation r n o l c = Ok res -> liquidation_amounts res.
Proof.
  intros Hwf Hn [] Hl Hc H.
  apply (list.Forall_lookup_1 _ _ _ _ rng_borrows) in Hl as (_ & _ & [? _] & [? _]).
  apply (list.Forall_lookup_1 _ _ _ _ rng_deposits) in Hc as (_ & [? _] & [? _]).
  eapply calculate_liquidation_amounts; [exact Hwf|exact Hn|apply rng_borrowed|..]; eassumption.
Qed.

(** The settled amount of a repayment of a borrow that was read. *)
Lemma settled_nonneg r o i l l' n res :
  reserve_wf r -> obligation_ranges o -> borrows o !! i = Some l -> 0 <= n ->
  ObligationLiquidity.accrue_interest l (cumulative_borrow_rate_wads (liquidity r)) = Ok l' ->
  calculate_repay r n (ObligationLiquidity.borrowed_amount_wads l') = Ok res ->
  dec_nonneg (repay_settle_amount res).
Proof.
  intros Hwf [] Hl Hn Hacc [-> _]%calculate_repay_inv.
  apply (list.Forall_lookup_1 _ _ _ _ rng_borrows) in Hl as (Hk & [Hc _] & [Ha _] & [Hv _]).
  pose proof (wf_borrow_rate _ Hwf) as [Hr _].
  destruct (accrue_accrued l _ _ ltac:(by split) Hr Hacc) as [_ [_ _ Ha' _]].
  destruct (n =? u64_max); nonneg.
Qed.

(** ** The parts of the handlers *)

Section handlers.
Context {R : Runtime} {program_id : Pubkey} {L : RuntimeLaws R program_id}.
Context (accs : list AccountInfo) (liquidates : bool).
Implicit Types w : World.

Abbreviation tracks :=
  (tracks (program_id:=program_id) (obligation_move accs liquidates) obligation_opens).

Lemma refresh_interest_obligations i w w' :
  _refresh_reserve_interest program_id i w = Ok w' -> tracks w w'.
Proof. unfold _refresh_reserve_interest. intros H. minv H. track. Qed.

Lemma mark_stale_obligations i w w' : mark_stale_in_account i w = Ok w' -> tracks w w'.
Proof. unfold mark_stale_in_account. intros H. minv H. track. Qed.

#[local] Hint Resolve refresh_interest_obligations mark_stale_obligations : tracking.

Lemma refresh_reserve_obligations i p o w w' :
  _refresh_reserve program_id i p o w = Ok w' -> tracks w w'.
Proof. unfold _refresh_reserve. intros H. minv H. track. Qed.

Lemma deposit_liquidity_obligations n a1 a2 a3 a4 a5 a6 a7 a8 a9 w w' c :
  _deposit_reserve_liquidity program_id n a1 a2 a3 a4 a5 a6 a7 a8 a9 w = Ok (w', c) ->
  tracks w w'.
Proof. unfold _deposit_reserve_liquidity. intros H. minv H. track. Qed.

Lemma redeem_collateral_obligations n a1 a2 a3 a4 a5 a6 a7 a8 a9 b w w' c :
  _redeem_reserve_collateral program_id n a1 a2 a3 a4 a5 a6 a7 a8 a9 b w = Ok (w', c) ->
  tracks w w'.
Proof.
  unfold _redeem_reserve_collateral. intros H. minv H. destruct b; minv E4; track.
Qed.

(** The signer that a guard asked for is one of the accounts. *)
Lemma guard_signed own k :
  own ∈ accs -> negb (k =? key own) = false -> negb (is_signer own) = false -> signed accs k.
Proof.
  intros Hin Hk%negb_eqb_false Hs%negb_false_iff. exists own. by split_and!.
Qed.

Lemma deposit_collateral_obligations n a1 a2 res obl mkt own a7 a8 w w' :
  own ∈ accs -> is_u256 (key res) -> 0 <= n ->
  _deposit_obligation_collateral program_id n a1 a2 res obl mkt own a7 a8 w = Ok w' ->
  tracks w w'.
Proof.
  unfold _deposit_obligation_collateral. intros Hown Hres Hn H. minv H. track.
  eapply move_pledge; [exact Hres|exact Hn| |exact E3]. by eapply guard_signed.
Qed.

Lemma withdraw_collateral_obligations n a1 a2 res obl mkt a6 own a8 b w w' c :
  own ∈ accs -> 0 <= n ->
  _withdraw_obligation_collateral program_id n a1 a2 res obl mkt a6 own a8 b w = Ok (w', c) ->
  tracks w w'.
Proof.
  unfold _withdraw_obligation_collateral. intros Hown Hn H. minv H. track.
  apply find_collateral_inv in E4 as [Hc _].
  destruct (withdraw_room _ _ _ _ _ _ _ _ _ (read_reserve_wf _ _ _ E0)
    (read_obligation_ranges _ _ _ E2) Hc E6 E7) as (? & ? & _).
  eapply move_withdraw; [|by eapply guard_signed|exact E8]. lia.
Qed.

Lemma borrow_transfers_obligations s d f a t seeds host bf hf n w w' :
  borrow_transfers s d f a t seeds host bf hf n w = Ok w' -> tracks w w'.
Proof.
  unfold borrow_transfers. intros H. minv H.
  destruct (next_account_info host) as [[h l]|e|]; [destruct (0 <? hf)|..]; minv E;
    subst; destruct (0 <? _); minv E0; subst; track.
Qed.
#[local] Hint Resolve borrow_transfers_obligations : tracking.

Lemma borrow_liquidity_obligations n a1 a2 res a4 obl mkt a7 own a9 h w w' :
  own ∈ accs -> is_u256 (key res) -> 0 <= n ->
  _borrow_obligation_liquidity program_id n a1 a2 res a4 obl mkt a7 own a9 h w = Ok w' ->
  tracks w w'.
Proof.
  unfold _borrow_obligation_liquidity. intros Hown Hres Hn H. minv H. track.
  pose proof (read_reserve_wf _ _ _ E0) as Hwf.
  eapply move_borrow; [exact Hres|apply (wf_borrow_rate _ Hwf)| |by eapply guard_signed|eassumption].
  assert (Hv7 : dec_nonneg v7).
  { eapply sub_or_zero_nonneg; [|exact E7]. unfold remaining_borrow_value. nonneg. }
  assert (Hv8 : dec_nonneg v8) by (eapply sub_or_zero_nonneg; [|exact E8]; nonneg).
  apply max_outflow_tokens_nonneg in E9; [|done..].
  eapply calculate_borrow_nonneg; [exact Hwf|exact Hn| | |exact E10]; nonneg.
Qed.

Lemma liquidate_obligations n a1 a2 a3 a4 a5 a6 a7 a8 a9 a10 a11 w w' c :
  liquidates = true -> 0 <= n ->
  _liquidate_obligation program_id n a1 a2 a3 a4 a5 a6 a7 a8 a9 a10 a11 w = Ok (w', c) ->
  tracks w w'.
Proof.
  unfold _liquidate_obligation. intros Hl Hn H. minv H. track.
  apply find_liquidity_inv in E6 as [Hb _]. apply find_collateral_inv in E7 as [Hc _].
  destruct (liquidation_amounts_read _ _ _ _ _ _ _ _ (read_reserve_wf _ _ _ E2) Hn
    (read_obligation_ranges _ _ _ E4) Hb Hc E9).
  eapply move_liquidate; [exact Hl|exact la_settle|exact la_withdraw| |exact E12|exact E13].
  unfold dec_lt in G18. lia.
Qed.

#[local] Hint Resolve redeem_collateral_obligations : tracking.

Lemma redeem_liquidated_obligations n b a1 a2 a3 a4 a5 a6 a7 a8 a9 a10 w w' :
  redeem_liquidated program_id n b a1 a2 a3 a4 a5 a6 a7 a8 a9 a10 w = Ok w' -> tracks w w'.
Proof.
  unfold redeem_liquidated. intros H. minv H. destruct (negb _); minv H; track.
Qed.

Lemma flash_borrow_obligations n a1 a2 a3 a4 a5 a6 a7 w w' :
  _flash_borrow_reserve_liquidity program_id n a1 a2 a3 a4 a5 a6 a7 w = Ok w' -> tracks w w'.
Proof. unfold _flash_borrow_reserve_liquidity. intros H. minv H. track. Qed.

Lemma flash_repay_obligations n i a1 a2 a3 a4 a5 a6 a7 a8 a9 w w' :
  _flash_repay_reserve_liquidity program_id n i a1 a2 a3 a4 a5 a6 a7 a8 a9 w = Ok w' ->
  tracks w w'.
Proof.
  unfold _flash_repay_reserve_liquidity. intros H. minv H.
  destruct (0 <? host_fee); minv E6; destruct (0 <? origination_fee); minv H; track.
Qed.
End handlers.

(** ** The refresh *)

Section refresh.
Context {R : Runtime} {program_id : Pubkey} {L : RuntimeLaws R program_id}.
Implicit Types w : World.

Lemma refresh_obligation_obligations accs liquidates rest obl w w' :
  is_u64 (current_slot w) ->
  process_refresh_obligation program_id (obl :: rest) w = Ok w' ->
  tracks (program_id:=program_id) (obligation_move accs liquidates) obligation_opens w w'.
Proof.
  intros Hslot H.
  pose proof (refresh_obligation_clock _ _ _ _ H) as Hc.
  apply refresh_obligation_holds in H
    as (o & o' & dinfos & binfos & vs & es & _ & Ho & Hds & Hbs & Hr & Hs & Hk).
  eapply saved_tracks; [exact Ho|exact Hs|exact Hk|exact Hc|]. apply move_refresh.
  eapply refreshed_positions_refreshed; [exact Hds|exact Hbs| |exact Hslot|exact Hr].
  destruct Ho as [Hu _]. apply (unpack_account_inv (program_id:=program_id)) in Hu as (Hl & Hu & _).
  by eapply unpacked_obligation_sized.
Qed.
End refresh.

(** ** The instructions *)

(** The types of what an instruction is given: keys of 32 bytes and a 64-bit slot. *)
Definition keys_sized (accs : list AccountInfo) : Prop := Forall (fun i => is_u256 (key i)) accs.

Ltac in_accounts := subst; rewrite !elem_of_cons; tauto.

Section instructions.
Context {R : Runtime} {program_id : Pubkey} {L : RuntimeLaws R program_id}.
Context (liquidates : bool).
Implicit Types (w : World) (accs : list AccountInfo).

Abbreviation tracks accs :=
  (tracks (program_id:=program_id) (obligation_move accs liquidates) obligation_opens).

#[local] Hint Resolve refresh_interest_obligations mark_stale_obligations
  refresh_reserve_obligations deposit_liquidity_obligations redeem_collateral_obligations
  redeem_liquidated_obligations flash_borrow_obligations flash_repay_obligations : tracking.

Lemma key_sized accs i : keys_sized accs -> i ∈ accs -> is_u256 (key i).
Proof. unfold keys_sized. rewrite list.Forall_forall. auto. Qed.

Lemma init_market_obligations o q accs w w' :
  length q = 32%nat ->
  process_init_lending_market program_id o q accs w = Ok w' -> tracks accs w w'.
Proof. unfold process_init_lending_market. intros Hq H. open_handler H. track. Qed.

Lemma set_market_owner_obligations o rl wl ra accs w w' :
  process_set_lending_market_owner_and_config program_id o rl wl ra accs w = Ok w' ->
  tracks accs w w'.
Proof.
  unfold process_set_lending_market_owner_and_config. intros H. open_handler H. track.
Qed.

Lemma init_reserve_obligations n c accs w w' :
  process_init_reserve program_id n c accs w = Ok w' -> tracks accs w w'.
Proof. unfold process_init_reserve. intros H. open_handler H. track. Qed.

Lemma refresh_reserve_instruction_obligations accs w w' :
  process_refresh_reserve program_id accs w = Ok w' -> tracks accs w w'.
Proof. unfold process_refresh_reserve. intros H. open_handler H. track. Qed.

Lemma deposit_instruction_obligations n accs w w' :
  process_deposit_reserve_liquidity program_id n accs w = Ok w' -> tracks accs w w'.
Proof. unfold process_deposit_reserve_liquidity. intros H. open_handler H. track. Qed.

Lemma redeem_instruction_obligations n accs w w' :
  process_redeem_reserve_collateral program_id n accs w = Ok w' -> tracks accs w w'.
Proof. unfold process_redeem_reserve_collateral. intros H. open_handler H. track. Qed.

Lemma init_obligation_obligations accs w w' :
  keys_sized accs -> is_u64 (current_slot w) ->
  process_init_obligation program_id accs w = Ok w' -> tracks accs w w'.
Proof.
  unfold process_init_obligation. intros Hk Hs H. open_handler H. track.
  split; [|done]. apply uninitialized_inv in E1 as (Hl & Hu & _).
  apply unpacked_obligation_sized in Hu as []; [|exact Hl].
  split; cbn; try done; (eapply key_sized; [exact Hk|in_accounts]).
Qed.

Lemma refresh_obligation_instruction_obligations accs w w' :
  is_u64 (current_slot w) ->
  process_refresh_obligation program_id accs w = Ok w' -> tracks accs w w'.
Proof.
  intros Hs H. destruct accs as [|obl rest]; [discriminate|].
  by eapply refresh_obligation_obligations.
Qed.

Lemma pledge_instruction_obligations n accs w w' :
  keys_sized accs -> 0 <= n ->
  process_deposit_obligation_collateral program_id n accs w = Ok w' -> tracks accs w w'.
Proof.
  unfold process_deposit_obligation_collateral. intros Hk Hn H. open_handler H.
  apply deposit_collateral_obligations with (accs := accs) (liquidates := liquidates) in E0;
    [|in_accounts|eapply key_sized; [exact Hk|in_accounts]|done].
  track.
Qed.

Lemma deposit_and_pledge_obligations n accs w w' :
  keys_sized accs -> 0 <= n ->
  process_deposit_reserve_liquidity_and_obligation_collateral program_id n accs w = Ok w' ->
  tracks accs w w'.
Proof.
  unfold process_deposit_reserve_liquidity_and_obligation_collateral. intros Hk Hn H.
  open_handler H.
  apply deposit_collateral_obligations with (accs := accs) (liquidates := liquidates) in E2;
    [|in_accounts|eapply key_sized; [exact Hk|in_accounts]|].
  - track.
  - by eapply minted_amount_nonneg, E0.
Qed.

Lemma withdraw_instruction_obligations n accs w w' :
  0 <= n ->
  process_withdraw_obligation_collateral program_id n accs w = Ok w' -> tracks accs w w'.
Proof.
  unfold process_withdraw_obligation_collateral. intros Hn H. open_handler H.
  eapply (withdraw_collateral_obligations accs liquidates) in E; [|in_accounts|done]. track.
Qed.

Lemma withdraw_and_redeem_obligations n accs w w' :
  0 <= n ->
  process_withdraw_obligation_collateral_and_redeem_reserve_liquidity program_id n accs w
    = Ok w' ->
  tracks accs w w'.
Proof.
  unfold process_withdraw_obligation_collateral_and_redeem_reserve_liquidity.
  intros Hn H. open_handler H.
  eapply (withdraw_collateral_obligations accs liquidates) in E; [|in_accounts|done]. track.
Qed.

Lemma borrow_instruction_obligations n accs w w' :
  keys_sized accs -> 0 <= n ->
  process_borrow_obligation_liquidity program_id n accs w = Ok w' -> tracks accs w w'.
Proof.
  unfold process_borrow_obligation_liquidity. intros Hk Hn H. open_handler H.
  eapply (borrow_liquidity_obligations accs liquidates);
    [| |exact Hn|exact H]; [in_accounts|eapply key_sized; [exact Hk|in_accounts]].
Qed.

Lemma repay_instruction_obligations n accs w w' :
  0 <= n ->
  process_repay_obligation_liquidity program_id n accs w = Ok w' -> tracks accs w w'.
Proof.
  unfold process_repay_obligation_liquidity. intros Hn H. open_handler H. track.
  apply find_liquidity_inv in E4 as [Hl _]. pose proof (read_reserve_wf _ _ _ E1) as Hwf.
  eapply (move_repay _ _ _ _ _ _ _ _ _ Hl); [apply (wf_borrow_rate _ Hwf)| |exact E5|exact E9].
  exact (settled_nonneg _ _ _ _ _ _ _ Hwf (read_obligation_ranges _ _ _ E3) Hl Hn E5 E6).
Qed.

Lemma liquidate_instruction_obligations n accs w w' :
  liquidates = true -> 0 <= n ->
  process_liquidate_obligation_and_redeem_reserve_collateral program_id n accs w = Ok w' ->
  tracks accs w w'.
Proof.
  unfold process_liquidate_obligation_and_redeem_reserve_collateral.
  intros Hl Hn H. open_handler H.
  eapply (liquidate_obligations accs liquidates) in E; [|done|done]. track.
Qed.

Lemma forgive_instruction_obligations n accs w w' :
  0 <= n -> process_forgive_debt program_id n accs w = Ok w' -> tracks accs w w'.
Proof.
  unfold process_forgive_debt. intros Hn H. open_handler H. track.
  apply find_liquidity_inv in E7 as [Hl _].
  pose proof (list.Forall_lookup_1 _ _ _ _ (rng_borrows _ (read_obligation_ranges _ _ _ E2)) Hl)
    as (_ & _ & [Ha _] & _).
  assert (deposits v2 = []) as Hd by (destruct (deposits v2); [done|discriminate]).
  eapply move_forgive; [|exact Hd|exact E10].
  apply min_nonneg; [by apply from_int_nonneg|]. apply min_nonneg; [exact Ha|nonneg].
Qed.

Lemma update_config_obligations c rl accs w w' :
  process_update_reserve_config program_id c rl accs w = Ok w' -> tracks accs w w'.
Proof. unfold process_update_reserve_config. intros H. open_handler H. track. Qed.

Lemma redeem_fees_obligations accs w w' :
  process_redeem_fees program_id accs w = Ok w' -> tracks accs w w'.
Proof. unfold process_redeem_fees. intros H. open_handler H. track. Qed.

Lemma flash_borrow_instruction_obligations n accs w w' :
  process_flash_borrow_reserve_liquidity program_id n accs w = Ok w' -> tracks accs w w'.
Proof. unfold process_flash_borrow_reserve_liquidity. intros H. open_handler H. track. Qed.

Lemma flash_repay_instruction_obligations n i accs w w' :
  process_flash_repay_reserve_liquidity program_id n i accs w = Ok w' -> tracks accs w w'.
Proof. unfold process_flash_repay_reserve_liquidity. intros H. open_handler H. track. Qed.

#[local] Hint Resolve init_market_obligations set_market_owner_obligations
  init_reserve_obligations refresh_reserve_instruction_obligations
  deposit_instruction_obligations redeem_instruction_obligations init_obligation_obligations
  refresh_obligation_instruction_obligations pledge_instruction_obligations
  deposit_and_pledge_obligations withdraw_instruction_obligations
  withdraw_and_redeem_obligations borrow_instruction_obligations repay_instruction_obligations
  liquidate_instruction_obligations forgive_instruction_obligations update_config_obligations
  redeem_fees_obligations flash_borrow_instruction_obligations
  flash_repay_instruction_obligations : tracking.

Lemma process_instruction_obligations accs input w w' :
  keys_sized accs -> is_u64 (current_slot w) ->
  process_instruction program_id accs input w = Ok w' ->
  (forall n, Instruction.unpack input = Ok (LiquidateObligationAndRedeemReserveCollateral n) ->
     liquidates = true) ->
  tracks accs w w'.
Proof.
  unfold process_instruction. intros Hk Hs H Hliq. minv H.
  destruct v; try discriminate;
    try (apply unpack_inv in E as Ht; [|discriminate]; destruct Ht as (_ & _ & Hwf);
         cbn in Hwf; try (destruct Hwf as [Hn Hq]); eauto with tracking; fail).
  - minv H. apply metadata_length in E0. by eapply metadata_tracks.
Qed.
End instructions.
