(* ===== verification/CustodySpec.v ===== *)
(** Histories, the instructions of the program that succeed interleaved with whatever
    other programs do, and what holds of an obligation over any of them: its positions
    stay unique and few, its collateral is its owner's, and its debt grows by interest
    only, as long as its owner does not sign. *)

From stdpp Require Import relations.
From S2P Require Import Prelude Errors Common Rate Decimal Codec LastUpdate.
From S2P Require Import RateLimiter LendingMarket ReserveConfig.
From S2P Require Import ObligationCollateral ObligationLiquidity Obligation ObligationCodec.
From S2P Require Import ReserveLiquidity ReserveCollateral Reserve Instruction Processor.
From S2P Require Import Runtime ProcessorHelpers AccountSpec Identity Evolution ExampleRuntime.
From S2P Require Import ObligationSpec BorrowSpec RepaySpec Tracking ObligationMoves.
From S2P Require Import ObligationTracks.

(** ** Histories of calls *)

Section calls.
Context {R : Runtime} {program_id : Pubkey} {L : RuntimeLaws R program_id}.

(** A step of the chain: an instruction that succeeds, with accounts and input as [Q]
    asks, keys of 32 bytes and a 64-bit slot; or anything that leaves the accounts of
    the program alone. *)
Inductive call (Q : list AccountInfo -> bytes -> Prop) (w w' : World) : Prop :=
  | call_instruction accs input :
      keys_sized accs -> is_u64 (current_slot w) -> Q accs input ->
      process_instruction program_id accs input w = Ok w' -> call Q w w'
  | call_other : keeps_but (program_id:=program_id) [] w w' -> call Q w w'.

(** What every step preserves of an account, a history does. *)
Lemma calls_always {T : Type} {P : PackTrait T} (inv : T -> Prop) Q w w' info :
  (forall w1 w2, call Q w1 w2 -> owner_of w1 info = program_id ->
     always inv (data_of w1 info) ->
     owner_of w2 info = program_id /\ always inv (data_of w2 info)) ->
  rtc (call Q) w w' -> owner_of w info = program_id ->
  always inv (data_of w info) -> always inv (data_of w' info).
Proof.
  intros Hstep. induction 1 as [w|w1 w2 w3 Hc _ IH]; [done|]. intros Ho Ha.
  destruct (Hstep _ _ Hc Ho Ha) as [Ho2 Ha2]. by apply IH.
Qed.

(** An account of the program remains one. *)
Lemma call_owned Q w w' info :
  call Q w w' -> owner_of w info = program_id -> owner_of w' info = program_id.
Proof.
  intros [accs input Hk Hs _ H|H] Ho.
  - pose proof (process_instruction_obligations true _ _ _ _ Hk Hs H ltac:(done)) as [_ Ht].
    by destruct (Ht info Ho).
  - by destruct (H info Ho (not_elem_of_nil _)).
Qed.

Lemma calls_owned Q w w' info :
  rtc (call Q) w w' -> owner_of w info = program_id -> owner_of w' info = program_id.
Proof. induction 1; eauto using call_owned. Qed.

Lemma always_holds {T : Type} {P : PackTrait T} (inv : T -> Prop) w info :
  owner_of w info = program_id ->
  always inv (data_of w info) <->
  forall v, holds (program_id:=program_id) w info v -> inv v.
Proof.
  intros Ho. split.
  - intros Ha v [Hu _]. apply (unpack_account_inv (program_id:=program_id)) in Hu
      as (Hl & Hu & Hi). by apply Ha.
  - intros Hv v Hl Hu Hi. apply Hv. split; [|done].
    by apply (pack_unpack_spec (program_id:=program_id)).
Qed.
End calls.

Lemma keys_sized_check accs :
  forallb (fun i => (0 <=? key i) && (key i <? 2 ^ 256)) accs = true -> keys_sized accs.
Proof.
  intros H. apply list.Forall_forall. intros i Hi%list_elem_of_In.
  rewrite forallb_forall in H. apply H in Hi. unfold in_uint. lia.
Qed.

Section custody.
Context {R : Runtime} {program_id : Pubkey} {L : RuntimeLaws R program_id}.

Abbreviation call := (call (program_id:=program_id)).

Definition liquidates (input : bytes) : Prop :=
  exists n, Instruction.unpack input = Ok (LiquidateObligationAndRedeemReserveCollateral n).

Abbreviation holds := (holds (program_id:=program_id)).

(** ** The positions *)

Lemma call_positions Q w w' info :
  call Q w w' -> owner_of w info = program_id ->
  always (T:=Obligation) positions_ok (data_of w info) ->
  owner_of w' info = program_id /\ always (T:=Obligation) positions_ok (data_of w' info).
Proof.
  intros Hc Ho Ha. destruct Hc as [accs input Hk Hs _ H|H].
  - pose proof (process_instruction_obligations true _ _ _ _ Hk Hs H ltac:(done)) as [_ Ht].
    destruct (Ht info Ho) as [Ho' Hw]. split; [done|].
    eapply writes_always; [apply obligation_reads_back|..|exact Hw|exact Ha].
    + intros o o'. by apply move_positions.
    + apply opens_positions.
  - destruct (H info Ho (not_elem_of_nil _)) as [Hd Ho']. by rewrite Hd.
Qed.

(** C9: the positions of every obligation stay unique and few.  In every state that
    instructions of the program can lead to, interleaved with whatever other programs
    do, an obligation has at most one deposit and one borrow per reserve and at most
    ten positions in all, if it had in the state the history starts from; an account
    that is not yet initialized there may become an obligation on the way. *)
Theorem positions_always_ok (info : AccountInfo) (w w' : World)
    (Hrun : rtc (call (fun _ _ => True)) w w') (Hown : owner_of w info = program_id)
    (Hok : forall o, holds w info o -> positions_ok o) :
  forall o, holds w' info o -> positions_ok o.
Proof.
  apply (always_holds _ _ _ Hown) in Hok.
  pose proof (calls_owned _ _ _ _ Hrun Hown) as Hown'. apply (always_holds _ _ _ Hown').
  eapply calls_always; [|exact Hrun|exact Hown|exact Hok].
  intros w1 w2. apply call_positions.
Qed.

(** ** Custody *)

Lemma holds_sized w info o : holds w info o -> obligation_sized o.
Proof.
  intros [(Hl & Hu & _)%(unpack_account_inv (program_id:=program_id)) _].
  by eapply unpacked_obligation_sized.
Qed.

(** What is left to the obligation when its owner does not sign. *)
Record kept (seizable : bool) (o o' : Obligation) : Prop := {
  kept_owner : Obligation.owner o' = Obligation.owner o;
  kept_debts : by_interest o o';
  kept_collateral : seizable = false -> forall k, deposited_in o k <= deposited_in o' k;
}.

Lemma kept_trans b o1 o2 o3 :
  obligation_sized o1 -> kept b o1 o2 -> kept b o2 o3 -> kept b o1 o3.
Proof.
  intros Hsz [Ho1 Hd1 Hc1] [Ho2 Hd2 Hc2].
  split; [congruence|by eapply by_interest_trans|].
  intros Hb k. etrans; [by apply Hc1|by apply Hc2].
Qed.

Definition without_owner (seizable : bool) (k : Pubkey) (accs : list AccountInfo)
    (input : bytes) : Prop :=
  ~ signed accs k /\ (seizable = false -> ~ liquidates input).

Lemma call_custody seizable w w' info o :
  call (without_owner seizable (Obligation.owner o)) w w' -> holds w info o ->
  exists o', holds w' info o' /\ kept seizable o o'.
Proof.
  intros Hc Ho. destruct Hc as [accs input Hk Hs [Hns Hnl] H|H].
  - assert (Hliq : forall n, Instruction.unpack input
      = Ok (LiquidateObligationAndRedeemReserveCollateral n) -> seizable = true).
    { intros n Hn. destruct seizable; [done|]. destruct (Hnl eq_refl). by exists n. }
    pose proof (process_instruction_obligations seizable _ _ _ _ Hk Hs H Hliq) as [_ Ht].
    destruct (writes_holds _ _ _ _ _ _ (obligation_reads_back accs seizable) Ht Ho)
      as (o' & Ho' & Hm).
    exists o'. split; [done|].
    assert (Hid : obligation_identity o' = obligation_identity o).
    { clear -Hm. induction Hm as [|o1 o2 o3 Hm _ IH]; [done|].
      rewrite IH. by eapply move_identity. }
    destruct (moves_custody _ _ _ _ (holds_sized _ _ _ Ho) Hm) as [?|[Hd Hi]]; [done|].
    split; [unfold obligation_identity in Hid; congruence|done|done].
  - exists o. split.
    + eapply keeps_holds; [exact H|apply not_elem_of_nil|exact Ho].
    + split; [done|apply by_interest_refl|done].
Qed.

(** C6: an obligation is in its owner's custody.  Through any history in which the
    owner signs nothing, whatever else happens, the account goes on holding an
    obligation of the same owner; every borrow it has was there before and grew by no
    more than the cumulative rate of its reserve; and if it is not liquidated, its
    collateral in every reserve is at least what it was. *)
Theorem custody_of_owner (info : AccountInfo) (seizable : bool) (w w' : World)
    (o : Obligation) (Ho : holds w info o)
    (Hrun : rtc (call (without_owner seizable (Obligation.owner o))) w w') :
  exists o', holds w' info o' /\ kept seizable o o'.
Proof.
  remember (Obligation.owner o) as k eqn:Hk. revert o Ho Hk.
  induction Hrun as [w|w1 w2 w3 Hc _ IH]; intros o Ho ->.
  - exists o. split; [done|]. split; [done|apply by_interest_refl|done].
  - destruct (call_custody _ _ _ _ _ Hc Ho) as (o1 & Ho1 & Hk1).
    destruct (IH o1 Ho1 (eq_sym (kept_owner _ _ _ Hk1))) as (o' & Ho' & Hk').
    exists o'. split; [done|]. eapply kept_trans; [by eapply holds_sized|done|done].
Qed.
End custody.

(** ** A debt repaid by a third party *)

Definition repay_accounts : list AccountInfo :=
  [account 60; account 2; account 20; account 30; account 10; signer 62; account 3].
Definition repay_input : bytes :=
  Eval vm_compute in Instruction.pack (RepayObligationLiquidity 20000000).
Definition repaid_example : Obligation :=
  mkObligation 1 (mkLastUpdate 6 true) 10 78
    [mkObligationCollateral 21 90000000 (from_int 90)]
    [mkObligationLiquidity 20 Decimal.one (from_int 40000000) (from_int 60)]
    Decimal.zero Decimal.zero Decimal.zero Decimal.zero Decimal.zero Decimal.zero false.

Lemma repay_runs :
  exists w', process_instruction (H := example_runtime [] 0) example_program repay_accounts
      repay_input repay_world = Ok w' /\
    holds (R := example_runtime [] 0) (program_id := example_program) w' (account 30)
      repaid_example.
Proof.
  assert (H : (let? w' := process_instruction (H := example_runtime [] 0) example_program
      repay_accounts repay_input repay_world in
    let? o := unpack_account (H := example_runtime [] 0) Obligation w' (account 30) in
    Ok (o, owner_of w' (account 30))) = Ok (repaid_example, example_program))
    by (vm_compute; reflexivity).
  apply obind_Ok_inv in H as (w' & H & Hu). exists w'. split; [exact H|].
  apply obind_Ok_inv in Hu as (o & Hu & [= -> Ho]). by split.
Qed.

Lemma holds_repay_example :
  holds (R := example_runtime [] 0) (program_id := example_program) repay_world (account 30)
    repay_example.
Proof. split; vm_compute; reflexivity. Qed.

Lemma repay_keys : keys_sized repay_accounts.
Proof. apply keys_sized_check. vm_compute. reflexivity. Qed.

Lemma repay_call Q :
  Q repay_accounts repay_input ->
  exists w', call (R := example_runtime [] 0) (program_id := example_program) Q repay_world w' /\
    holds (R := example_runtime [] 0) (program_id := example_program) w' (account 30)
      repaid_example.
Proof.
  intros HQ. destruct repay_runs as (w' & H & Ho). exists w'. split; [|exact Ho].
  assert (Hs : is_u64 (current_slot repay_world)) by (vm_compute; split; [discriminate|done]).
  eapply call_instruction; [exact repay_keys|exact Hs|exact HQ|exact H].
Qed.

Lemma positions_always_ok_witness :
  holds (R := example_runtime [] 0) (program_id := example_program) repay_world (account 30)
    repay_example /\ positions_ok repaid_example.
Proof.
  split; [exact holds_repay_example|].
  destruct (repay_call (fun _ _ => True) I) as (w' & Hc & Ho').
  apply (positions_always_ok (R := example_runtime [] 0) (program_id := example_program)
    (account 30) repay_world w' (rtc_once _ _ Hc) (proj2 holds_repay_example)); [|exact Ho'].
  intros o Ho. assert (o = repay_example) as ->.
  { destruct Ho as [Hu _], holds_repay_example as [Hu' _]. rewrite Hu' in Hu. by injection Hu. }
  split; [apply (NoDup_singleton 21)|apply (NoDup_singleton 20)|vm_compute; lia].
Defined.

Lemma custody_of_owner_witness :
  exists w' o', holds (R := example_runtime [] 0) (program_id := example_program) w'
      (account 30) o' /\
    kept false repay_example o' /\ total_debt o' = WAD * 40000000.
Proof.
  assert (HQ : without_owner false (Obligation.owner repay_example) repay_accounts repay_input).
  { split.
    - intros (s & Hs & Hk & Hsig). apply list_elem_of_In in Hs. cbn in Hs.
      repeat destruct Hs as [<-|Hs]; try discriminate; destruct Hs.
    - intros _ (n & Hn). vm_compute in Hn. discriminate. }
  destruct (repay_call _ HQ) as (w' & Hc & Ho'). exists w', repaid_example.
  split; [exact Ho'|]. split; [|vm_compute; reflexivity].
  destruct (custody_of_owner (R := example_runtime [] 0) (program_id := example_program)
    (account 30) false repay_world w' repay_example holds_repay_example (rtc_once _ _ Hc))
    as (o' & [Hu _] & Hkept).
  destruct Ho' as [Hu' _]. rewrite Hu' in Hu. injection Hu as <-. exact Hkept.
Defined.
