(* ===== verification/ReserveMoves.v ===== *)
(** The abstract machine of a reserve: the moves that instructions make on it, and
    what every move preserves. *)

From stdpp Require Import relations.
From S2P Require Import Prelude Errors Common Rate Decimal Codec LastUpdate.
From S2P Require Import RateLimiter ReserveConfig ReserveConfigSpec.
From S2P Require Import ReserveLiquidity ReserveCollateral Reserve ReserveRates ReserveExchange.
From S2P Require Import ReserveCodec Nonneg.
From S2P Require Import Runtime ProcessorHelpers ProcessReserve Tracking.

(** ** What is packed is read back *)

Record limiter_sized (l : RateLimiter) : Prop := {
  lsz_config : rate_limiter_config_wf (RateLimiter.config l);
  lsz_prev : dec_nonneg (prev_qty l);
  lsz_start : is_u64 (window_start l);
  lsz_cur : dec_nonneg (cur_qty l);
}.

Definition reserve_keys (r : Reserve) : list Pubkey :=
  [Reserve.lending_market r; ReserveLiquidity.mint_pubkey (liquidity r);
   ReserveLiquidity.supply_pubkey (liquidity r); pyth_oracle_pubkey (liquidity r);
   switchboard_oracle_pubkey (liquidity r); ReserveCollateral.mint_pubkey (collateral r);
   ReserveCollateral.supply_pubkey (collateral r)].

Definition reserve_values (r : Reserve) : list Decimal :=
  [borrowed_amount_wads (liquidity r); cumulative_borrow_rate_wads (liquidity r);
   accumulated_protocol_fees_wads (liquidity r); market_price (liquidity r);
   smoothed_market_price (liquidity r)].

(** The integers fit their fields, nothing is negative, and the configuration is as
    reading leaves it. *)
Record reserve_sized (r : Reserve) : Prop := {
  rsz_version : 0 <= Reserve.version r <= PROGRAM_VERSION;
  rsz_slot : is_u64 (slot (Reserve.last_update r));
  rsz_keys : Forall (fun k => is_u256 k) (reserve_keys r);
  rsz_decimals : is_u8 (mint_decimals (liquidity r));
  rsz_available : is_u64 (available_amount (liquidity r));
  rsz_values : Forall dec_nonneg (reserve_values r);
  rsz_ctokens : is_u64 (mint_total_supply (collateral r));
  rsz_config : reserve_config_wf (Reserve.config r);
  rsz_ordered : normalize_config (Reserve.config r) = Reserve.config r;
  rsz_limiter : limiter_sized (Reserve.rate_limiter r);
}.

Lemma dec_u128_nonneg v : dec_u128 v -> dec_nonneg v.
Proof. by intros []. Qed.

Section packed.
Implicit Types (r : Reserve) (d : bytes).

Lemma packed_limiter_wf (l : RateLimiter) d d' :
  limiter_sized l -> RateLimiter.pack_into_slice l d = Ok d' -> rate_limiter_wf l.
Proof.
  unfold RateLimiter.pack_into_slice. destruct (_ <? _)%nat; [discriminate|].
  intros [Hc Hp Hs Hq] H. minv H. apply pack_decimal_inv in E as [_ ?], E0 as [_ ?].
  by split_and!.
Qed.

Lemma packed_reserve_wf r d d' :
  reserve_sized r -> ReserveCodec.pack_into_slice r d = Ok d' -> reserve_wf r.
Proof.
  unfold ReserveCodec.pack_into_slice. destruct (_ <? _)%nat; [discriminate|].
  intros [Hv Hs Hk Hd Ha Hvs Hc Hcf _ Hl] H.
  repeat apply list.Forall_cons in Hvs as [? Hvs].
  repeat apply list.Forall_cons in Hk as [? Hk]. minv H.
  repeat match goal with
         | E : pack_decimal _ = Ok _ |- _ => apply pack_decimal_inv in E as [_ ?]
         end.
  split; try done; by eapply packed_limiter_wf.
Qed.

Lemma packed_reserve_reads r d d' :
  reserve_sized r -> length d = RESERVE_LEN -> ReserveCodec.pack_into_slice r d = Ok d' ->
  length d' = RESERVE_LEN /\ ReserveCodec.unpack_from_slice d' = Ok r.
Proof.
  intros Hsz Hl Hp. pose proof (packed_reserve_wf _ _ _ Hsz Hp) as Hwf.
  destruct (reserve_unpack_pack r d Hwf ltac:(lia)) as (bs & Hp2 & Hl2 & _ & Hu).
  assert (bs = d') as -> by congruence. rewrite Hl2. split; [done|].
  rewrite Hu, (rsz_ordered _ Hsz). by destruct r.
Qed.

Lemma unpacked_reserve_sized d r : ReserveCodec.unpack_from_slice d = Ok r -> reserve_sized r.
Proof.
  intros Hu. pose proof (reserve_unpack_wf _ _ Hu) as [].
  apply unpack_from_slice_inv in Hu as (_ & H1 & H2 & H3 & H4 & H5).
  split; try done.
  - repeat apply list.Forall_cons_2; done.
  - repeat apply list.Forall_cons_2; [..|done]; by apply dec_u128_nonneg.
  - unfold normalize_config. destruct (Reserve.config r). cbn in *. f_equal; lia.
  - destruct wf_limiter as ([] & [] & ? & []). by split.
Qed.
End packed.

(** ** The rate limiter *)

Section limiter.
Implicit Types l : RateLimiter.

Lemma window_start_sized s d : is_u64 s -> 0 <= d -> is_u64 (s / d * d).
Proof.
  unfold in_uint. intros [Hs Hlt] Hd.
  destruct (Z.eq_dec d 0) as [->|]; [rewrite Z.mul_0_r; lia|].
  pose proof (div_mul_le_l s d ltac:(lia)). pose proof (div_nonneg s d Hs ltac:(lia)). nia.
Qed.

Lemma limiter_new_sized c s :
  rate_limiter_config_wf c -> is_u64 s -> limiter_sized (RateLimiter.new c s).
Proof.
  intros Hc Hs. split; cbn; try done. destruct (negb _); [|done].
  by apply window_start_sized; [|apply Hc].
Qed.

Lemma limiter_window_sized l s l' :
  limiter_sized l -> is_u64 s -> _update l s = Ok l' -> limiter_sized l'.
Proof.
  unfold _update. intros Hl Hs H. minv H.
  apply unwrap_option_Ok_inv, checked_div_Some_inv in E as [-> _].
  pose proof (window_start_sized s _ Hs (proj1 (proj1 (lsz_config _ Hl)))).
  destruct Hl. destruct (_ ?= _); minv H; by split.
Qed.

Lemma limiter_remaining_sized l s l' q :
  limiter_sized l -> is_u64 s -> remaining_outflow l s = Ok (l', q) -> limiter_sized l'.
Proof.
  unfold remaining_outflow. intros Hl Hs H. destruct (_ =? 0); [by minv H|]. minv H.
  apply limiter_window_sized in E; [|done..]. destruct (dec_lt _ _); by minv H.
Qed.

Lemma limiter_update_sized l s q l' :
  limiter_sized l -> is_u64 s -> dec_nonneg q -> RateLimiter.update l s q = Ok l' ->
  limiter_sized l'.
Proof.
  unfold RateLimiter.update. intros Hl Hs Hq H. destruct (_ =? 0); [by minv H|]. minv H.
  apply limiter_window_sized in E as []; [|done..]. split; cbn; try done. nonneg.
Qed.
End limiter.

(** ** The moves *)

Definition sound (r : Reserve) : Prop := sound_config (Reserve.config r).

(** What an instruction may do to a reserve; [lossy] tells whether it may redeem
    collateral or forgive a debt, the two that can cost the holders of the collateral
    something. *)
Inductive reserve_move (lossy : bool) : Reserve -> Reserve -> Prop :=
  | rmove_deposit r n r' y :
      0 <= n -> deposit_liquidity r n = Ok (r', y) -> reserve_move lossy r r'
  | rmove_borrow r b l :
      dec_nonneg b -> ReserveLiquidity.borrow (liquidity r) b = Ok l ->
      reserve_move lossy r (set_liquidity r l)
  | rmove_repay r n s l :
      0 <= n -> dec_nonneg s -> dec_raw s <= WAD * n ->
      ReserveLiquidity.repay (liquidity r) n s = Ok l ->
      reserve_move lossy r (set_liquidity r l)
  | rmove_accrue r s r' :
      Reserve.accrue_interest r s = Ok r' -> reserve_move lossy r r'
  | rmove_fees r n l :
      calculate_redeem_fees r = Ok n -> redeem_fees (liquidity r) n = Ok l ->
      reserve_move lossy r (set_liquidity r l)
  | rmove_redeem r n r' x :
      lossy = true -> 0 <= n -> redeem_collateral r n = Ok (r', x) -> reserve_move lossy r r'
  | rmove_forgive r s l :
      lossy = true -> dec_nonneg s -> forgive_debt (liquidity r) s = Ok l ->
      reserve_move lossy r (set_liquidity r l)
  | rmove_slot r s :
      is_u64 s ->
      reserve_move lossy r (set_last_update r (update_slot (Reserve.last_update r) s))
  | rmove_stale r : reserve_move lossy r (mark_reserve_stale r)
  | rmove_prices r p q :
      dec_nonneg p -> dec_nonneg q -> reserve_move lossy r (set_reserve_prices r p q)
  | rmove_oracles r p s :
      is_u256 p -> is_u256 s ->
      reserve_move lossy r (set_liquidity r (set_oracles (liquidity r) p s))
  | rmove_limiter r l : limiter_sized l -> reserve_move lossy r (Reserve.set_rate_limiter r l)
  | rmove_config r c :
      reserve_config_wf c -> normalize_config c = c ->
      (sound_config (Reserve.config r) -> sound_config c) ->
      reserve_move lossy r (Reserve.set_config r c).

(** What the moves that only deal with amounts leave alone. *)
Record same_settings (r r' : Reserve) : Prop := {
  same_version : Reserve.version r' = Reserve.version r;
  same_slot : Reserve.last_update r' = Reserve.last_update r;
  same_keys : reserve_keys r' = reserve_keys r;
  same_decimals : mint_decimals (liquidity r') = mint_decimals (liquidity r);
  same_config : Reserve.config r' = Reserve.config r;
  same_limiter : Reserve.rate_limiter r' = Reserve.rate_limiter r;
}.

(** An opened reserve was initialized with a configuration that validates. *)
Definition reserve_opens (r : Reserve) : Prop := reserve_sized r /\ sound r.

Section moves.
Implicit Types r : Reserve.

Lemma sized_amounts r r' :
  reserve_sized r -> same_settings r r' ->
  is_u64 (available_amount (liquidity r')) -> is_u64 (mint_total_supply (collateral r')) ->
  Forall dec_nonneg (reserve_values r') -> reserve_sized r'.
Proof.
  intros [] [Hv Hs Hk Hd Hc Hl] Ha Hct Hvs. by split; rewrite ?Hv, ?Hs, ?Hk, ?Hd, ?Hc, ?Hl.
Qed.

Lemma same_liquidity r (l : ReserveLiquidity) a b :
  l = set_amounts (liquidity r) a b -> same_settings r (set_liquidity r l).
Proof. by intros ->. Qed.

(** Only the amounts change, and the collateral tokens. *)
Lemma sized_liquidity r a b :
  reserve_sized r -> is_u64 a -> dec_nonneg b ->
  reserve_sized (set_liquidity r (set_amounts (liquidity r) a b)).
Proof.
  intros Hsz Ha Hb. eapply sized_amounts; [exact Hsz|by eapply same_liquidity|exact Ha|apply Hsz|].
  pose proof (rsz_values _ Hsz) as Hv. apply list.Forall_cons in Hv as [_ Hv].
  by apply list.Forall_cons_2.
Qed.

Lemma sized_ctokens r n :
  reserve_sized r -> is_u64 n ->
  reserve_sized (set_collateral r (set_total_supply (collateral r) n)).
Proof. intros [] Hn. by split. Qed.

Lemma rate_sized_nonneg r e :
  reserve_sized r -> collateral_exchange_rate r = Ok e ->
  0 <= rate_raw (exchange_rate_inner e).
Proof. intros Hsz. apply rate_nonneg. apply (rsz_ctokens _ Hsz). Qed.

Lemma minted_tokens_nonneg e n y :
  0 <= rate_raw (exchange_rate_inner e) -> 0 <= n -> liquidity_to_collateral e n = Ok y ->
  0 <= y.
Proof.
  intros He Hn ->%liquidity_to_collateral_inv. repeat apply div_nonneg; unfold WAD; nia.
Qed.

Lemma redeemed_tokens_nonneg e n x :
  0 <= rate_raw (exchange_rate_inner e) -> 0 <= n -> collateral_to_liquidity e n = Ok x ->
  0 <= x.
Proof.
  intros He Hn [-> Hne]%collateral_to_liquidity_inv.
  repeat apply div_nonneg; unfold WAD; lia.
Qed.

Lemma sized_debt r : reserve_sized r -> dec_nonneg (borrowed_amount_wads (liquidity r)).
Proof. intros [_ _ _ _ _ Hv _ _ _ _]. by apply list.Forall_cons in Hv as [Hb _]. Qed.

Lemma deposit_sized_move r n r' y :
  reserve_sized r -> 0 <= n -> deposit_liquidity r n = Ok (r', y) -> reserve_sized r'.
Proof.
  intros Hsz Hn H. unfold deposit_liquidity in H. minv H. subst.
  apply (rate_sized_nonneg _ _ Hsz) in E. apply (minted_tokens_nonneg _ _ _ E Hn) in E0.
  apply liq_deposit_inv in E1 as [-> Hlt]. apply mint_inv in E2 as [-> Hlt2].
  pose proof (rsz_available _ Hsz). pose proof (rsz_ctokens _ Hsz). unfold in_uint in *.
  apply (sized_ctokens (set_liquidity r _)); [apply sized_liquidity|];
    try (unfold in_uint; lia); by eauto using sized_debt.
Qed.

Lemma redeem_sized_move r n r' x :
  reserve_sized r -> 0 <= n -> redeem_collateral r n = Ok (r', x) -> reserve_sized r'.
Proof.
  intros Hsz Hn H. unfold redeem_collateral in H. minv H. subst.
  apply (rate_sized_nonneg _ _ Hsz) in E. apply (redeemed_tokens_nonneg _ _ _ E Hn) in E0.
  apply burn_inv in E1 as [-> Hle]. apply liq_withdraw_inv in E2 as [-> Hle2].
  pose proof (rsz_available _ Hsz). pose proof (rsz_ctokens _ Hsz). unfold in_uint in *.
  apply (sized_ctokens (set_liquidity r _)); [apply sized_liquidity|];
    try (unfold in_uint; lia); by eauto using sized_debt.
Qed.

Lemma accrue_sized_move r s r' :
  reserve_sized r -> Reserve.accrue_interest r s = Ok r' -> reserve_sized r'.
Proof.
  unfold Reserve.accrue_interest. intros Hsz H. minv H.
  destruct (0 <? v); [|by minv H]. minv H.
  pose proof (rsz_values _ Hsz) as (Hb & Hvs)%list.Forall_cons.
  apply list.Forall_cons in Hvs as (Hc & Hvs). apply list.Forall_cons in Hvs as (Hf & Hvs).
  apply (current_borrow_rate_nonneg _ (rsz_config _ Hsz)) in E0; [|apply Hsz|done].
  apply compound_nonneg in E1 as (b & c & f & -> & ? & ? & ?); [|done| |done..].
  - eapply sized_amounts; [exact Hsz|done|apply Hsz|apply Hsz|].
    do 3 (apply list.Forall_cons_2; [done|]). exact Hvs.
  - apply rate_from_percent_nonneg, (wf_protocol_take_rate _ (rsz_config _ Hsz)).
Qed.
Lemma fees_sized_move r n l :
  reserve_sized r -> calculate_redeem_fees r = Ok n -> redeem_fees (liquidity r) n = Ok l ->
  reserve_sized (set_liquidity r l).
Proof.
  unfold calculate_redeem_fees, redeem_fees. intros Hsz Hn H. minv Hn. minv H.
  apply math_Ok_inv, checked_sub_Some_inv in E0 as [-> Hle].
  pose proof (rsz_values _ Hsz) as (Hb & (Hc & (Hf & Hvs)%list.Forall_cons)%list.Forall_cons)%list.Forall_cons.
  apply floor_nonneg in E; [|done]. pose proof (rsz_available _ Hsz) as Ha. unfold in_uint in Ha.
  eapply sized_amounts; [exact Hsz|done| |apply Hsz|].
  - unfold in_uint. cbn. lia.
  - do 3 (apply list.Forall_cons_2; [first [done|nonneg]|]). exact Hvs.
Qed.

Lemma move_reserve_sized lossy r r' :
  reserve_sized r -> reserve_move lossy r r' -> reserve_sized r'.
Proof.
  intros Hsz Hm. pose proof (rsz_available _ Hsz) as Ha. unfold in_uint in Ha.
  pose proof (sized_debt _ Hsz) as Hb.
  destruct Hm;
    eauto using deposit_sized_move, redeem_sized_move, accrue_sized_move, fees_sized_move;
    unfold dec_nonneg in *.
  - apply liq_borrow_inv in H0 as [-> ?]. pose proof (div_nonneg (dec_raw b) WAD H WAD_pos).
    apply sized_liquidity; [done|unfold in_uint; lia|unfold dec_nonneg; cbn; lia].
  - apply liq_repay_inv in H2 as [-> ?].
    apply sized_liquidity; [done|unfold in_uint; lia|unfold dec_nonneg; cbn; lia].
  - apply liq_forgive_inv in H1 as [-> ?].
    apply sized_liquidity; [done|unfold in_uint; lia|unfold dec_nonneg; cbn; lia].
  - destruct Hsz. by split.
  - destruct Hsz. by split.
  - destruct Hsz as [? ? ? ? ? Hv ? ? ? ?]. split; try done.
    do 3 apply list.Forall_cons in Hv as [? Hv].
    by repeat (apply list.Forall_cons_2; [done|]).
  - destruct Hsz as [? ? Hk ? ? ? ? ? ? ?]. split; try done.
    do 5 apply list.Forall_cons in Hk as [? Hk].
    by repeat (apply list.Forall_cons_2; [done|]).
  - destruct Hsz. by split.
  - destruct Hsz. by split.
Qed.

Lemma moves_reserve_sized lossy r r' :
  reserve_sized r -> rtc (reserve_move lossy) r r' -> reserve_sized r'.
Proof. induction 2; eauto using move_reserve_sized. Qed.

(** ** The moves keep the version, and are read back *)

Lemma accrue_settings r s r' : Reserve.accrue_interest r s = Ok r' -> same_settings r r'.
Proof.
  unfold Reserve.accrue_interest. intros H. minv H. destruct (0 <? v); [|by minv H]. minv H.
  unfold compound_interest in E1. by minv E1.
Qed.

Lemma deposit_settings r n r' y : deposit_liquidity r n = Ok (r', y) -> same_settings r r'.
Proof.
  unfold deposit_liquidity. intros H. minv H. subst.
  apply liq_deposit_inv in E1 as [-> _]. by apply mint_inv in E2 as [-> _].
Qed.

Lemma redeem_settings r n r' x : redeem_collateral r n = Ok (r', x) -> same_settings r r'.
Proof.
  unfold redeem_collateral. intros H. minv H. subst.
  apply burn_inv in E1 as [-> _]. by apply liq_withdraw_inv in E2 as [-> _].
Qed.

Lemma move_reserve_version lossy r r' :
  reserve_move lossy r r' -> Reserve.version r' = Reserve.version r.
Proof.
  destruct 1; eauto using same_version, deposit_settings, redeem_settings, accrue_settings.
Qed.

Lemma moves_reserve_version lossy r r' :
  rtc (reserve_move lossy) r r' -> Reserve.version r' = Reserve.version r.
Proof.
  induction 1 as [|r1 r2 r3 Hm _ IH]; [done|]. by rewrite IH, (move_reserve_version _ _ _ Hm).
Qed.

Lemma reserve_reads_back lossy : reads_back (rtc (reserve_move lossy)) reserve_opens.
Proof.
  split.
  - intros d d' r r' Hl Hu Hi Hm Hp.
    pose proof (moves_reserve_sized _ _ _ (unpacked_reserve_sized _ _ Hu) Hm) as Hsz.
    destruct (packed_reserve_reads _ _ _ Hsz Hl Hp) as [Hl' Hu']. split_and!; try done.
    apply moves_reserve_version in Hm. cbn in Hi |- *.
    unfold Reserve.is_initialized in *. by rewrite Hm.
  - intros d d' r Hl [Hsz _] Hp. by apply (packed_reserve_reads r d).
Qed.

(** ** What the moves preserve *)

Lemma move_sound lossy r r' : sound r -> reserve_move lossy r r' -> sound r'.
Proof.
  unfold sound. intros Hs Hm. destruct Hm; auto.
  - by rewrite (same_config _ _ (deposit_settings _ _ _ _ H0)).
  - by rewrite (same_config _ _ (accrue_settings _ _ _ H)).
  - by rewrite (same_config _ _ (redeem_settings _ _ _ _ H1)).
Qed.
Definition borrow_rate (r : Reserve) : Z :=
  dec_raw (cumulative_borrow_rate_wads (liquidity r)).

Lemma borrow_rate_sized r : reserve_sized r -> 0 <= borrow_rate r.
Proof.
  intros Hsz. pose proof (rsz_values _ Hsz) as Hv.
  by apply list.Forall_cons in Hv as [_ [Hc _]%list.Forall_cons].
Qed.

(** A move that is not lossy is a step of ReserveExchange, or leaves the amounts
    alone. *)
Lemma lossless_step r r' :
  reserve_sized r -> sound r -> reserve_move false r r' ->
  reserve_step r r' \/
  (raw_supply (liquidity r') = raw_supply (liquidity r) /\
   available_amount (liquidity r') = available_amount (liquidity r) /\
   borrowed_amount_wads (liquidity r') = borrowed_amount_wads (liquidity r) /\
   borrow_rate r' = borrow_rate r /\ ctokens r' = ctokens r).
Proof.
  intros Hsz Hs Hm. destruct Hm; try (by right); try discriminate; left.
  - by eapply step_deposit.
  - by eapply step_borrow.
  - eapply step_repay; [exact H|by split|exact H2].
  - eapply step_accrue; [apply Hsz|exact Hs|done].
  - by eapply step_redeem_fees.
Qed.

Lemma lossless_share_price r r' :
  reserve_sized r -> sound r -> reserve_ok r -> reserve_move false r r' ->
  reserve_ok r' /\ share_price_le r r'.
Proof.
  intros Hsz Hs Hok Hm.
  destruct (lossless_step _ _ Hsz Hs Hm) as [Hst|(H1 & H2 & H3 & _ & H4)].
  - by destruct (step_preserves _ _ Hok (borrow_rate_sized _ Hsz) Hst) as (? & ? & _).
  - unfold share_price_le, supply. rewrite H1, H4. split; [|done].
    destruct Hok. by split; unfold supply; rewrite ?H1, ?H2, ?H3, ?H4.
Qed.

(** Interest is never negative. *)
Lemma accrue_borrow_rate r s r' :
  reserve_sized r -> sound r -> Reserve.accrue_interest r s = Ok r' ->
  borrow_rate r <= borrow_rate r'.
Proof.
  unfold Reserve.accrue_interest. intros Hsz Hs H. minv H.
  destruct (0 <? v); [|by minv H]. minv H.
  pose proof (proj1 (rsz_available _ Hsz)) as Ha. pose proof (sized_debt _ Hsz) as Hb.
  apply compound_interest_inv in E1 as (? & ? & _ & _ & _ & _ & Hr & _);
    [exact Hr| |by apply take_rate_bounds; [apply Hsz|]|exact Hb|by apply borrow_rate_sized].
  by apply (current_borrow_rate_nonneg _ (rsz_config _ Hsz)) in E0.
Qed.

Lemma move_borrow_rate lossy r r' :
  reserve_sized r -> sound r -> reserve_move lossy r r' -> borrow_rate r <= borrow_rate r'.
Proof.
  intros Hsz Hs Hm. destruct Hm; try done.
  - unfold deposit_liquidity in H0. minv H0. subst. by apply liq_deposit_inv in E1 as [-> _].
  - by apply liq_borrow_inv in H0 as [-> _].
  - by apply liq_repay_inv in H2 as [-> _].
  - by eapply accrue_borrow_rate.
  - apply liq_redeem_fees_inv in H0 as (_ & _ & Hr & _). unfold borrow_rate. cbn. by rewrite Hr.
  - unfold redeem_collateral in H1. minv H1. subst. by apply liq_withdraw_inv in E2 as [-> _].
  - by apply liq_forgive_inv in H1 as [-> _].
Qed.

(** What any number of moves does to a sound reserve. *)
Record grown (lossy : bool) (r r' : Reserve) : Prop := {
  grown_sound : sound r';
  grown_rate : borrow_rate r <= borrow_rate r';
  grown_price : lossy = false -> reserve_ok r -> reserve_ok r' /\ share_price_le r r';
}.

Lemma grown_trans lossy r1 r2 r3 :
  grown lossy r1 r2 -> grown lossy r2 r3 -> grown lossy r1 r3.
Proof.
  intros [_ Hr1 Hp1] [Hs Hr2 Hp2]. split; [done|lia|]. intros Hl Hok.
  destruct (Hp1 Hl Hok) as [Hok2 H12]. destruct (Hp2 Hl Hok2) as [Hok3 H23].
  split; [done|]. exact (share_price_trans _ _ _ Hok Hok2 Hok3 H12 H23).
Qed.

Lemma moves_grown lossy r r' :
  reserve_sized r -> sound r -> rtc (reserve_move lossy) r r' -> grown lossy r r'.
Proof.
  intros Hsz Hs Hm. induction Hm as [r|r1 r2 r3 Hm _ IH].
  - split; [done|lia|]. intros _ Hok. split; [done|]. unfold share_price_le. lia.
  - pose proof (move_reserve_sized _ _ _ Hsz Hm) as Hsz2.
    pose proof (move_sound _ _ _ Hs Hm) as Hs2.
    eapply grown_trans; [|by apply IH]. split; [done|by eapply move_borrow_rate|].
    intros -> Hok. by apply lossless_share_price.
Qed.
End moves.
