(* ===== verification/ReserveTracks.v ===== *)
(** What every instruction does to the reserves is a sequence of the moves of
    ReserveMoves. *)

From stdpp Require Import relations.
From S2P Require Import Prelude Errors Common Rate Decimal Codec LastUpdate.
From S2P Require Import RateLimiter LendingMarket ReserveConfig ReserveConfigSpec.
From S2P Require Import ObligationCollateral ObligationLiquidity Obligation ObligationCodec.
From S2P Require Import ReserveLiquidity ReserveCollateral Reserve ReserveExchange ReserveCodec.
From S2P Require Import Runtime Oracles ProcessorHelpers ProcessMarket ProcessReserve.
From S2P Require Import ProcessDeposit ProcessConfig ProcessObligation ProcessCollateral.
From S2P Require Import ProcessBorrow ProcessLiquidation ProcessFlash AccountSpec Identity.
From S2P Require Import Evolution Frames Instruction Processor OracleSpec.
From S2P Require Import Nonneg LiquidationSpec WithdrawSpec Tracking.
From S2P Require Import HistorySpec ObligationMoves ObligationTracks ReserveMoves ReserveTyped.

(** A sequence of moves, one at a time. *)
Ltac first_move lemma :=
  eapply rtc_l; [eapply lemma|cbn [liquidity set_liquidity Reserve.set_rate_limiter]].
Ltac then_stale := apply rtc_once, rmove_stale.

(** A repayment of the settled amount, rounded up. *)
Lemma moves_covered_repay lossy r n s l :
  dec_nonneg s -> n = (WAD - 1 + dec_raw s) / WAD ->
  ReserveLiquidity.repay (liquidity r) n s = Ok l ->
  rtc (reserve_move lossy) r (mark_reserve_stale (set_liquidity r l)).
Proof.
  intros Hs -> H. first_move rmove_repay; [| | |exact H|then_stale].
  - apply div_nonneg; [unfold dec_nonneg, WAD in *; lia|done].
  - exact Hs.
  - apply ceil_covers.
Qed.

(** ** The parts of the handlers *)

Section handlers.
Context {R : Runtime} {program_id : Pubkey} {L : RuntimeLaws R program_id}.
Context (lossy : bool).
Implicit Types w : World.

Abbreviation tracks :=
  (tracks (program_id:=program_id) (rtc (reserve_move lossy)) reserve_opens).

Lemma read_reserve_sized w i r : unpack_account Reserve w i = Ok r -> reserve_sized r.
Proof.
  intros (_ & Hu & _)%(unpack_account_inv (program_id:=program_id)).
  by eapply unpacked_reserve_sized.
Qed.

Lemma tracks_slot w w' : tracks w w' -> is_u64 (current_slot w) -> is_u64 (current_slot w').
Proof. intros [Hc _]. unfold current_slot. by rewrite Hc. Qed.

Lemma refresh_interest_reserves i w w' :
  is_u64 (current_slot w) ->
  _refresh_reserve_interest program_id i w = Ok w' -> tracks w w'.
Proof.
  unfold _refresh_reserve_interest. intros Hs H. minv H. track.
  first_move rmove_accrue; [exact E0|]. by apply rtc_once, rmove_slot.
Qed.

Lemma mark_stale_reserves i w w' : mark_stale_in_account i w = Ok w' -> tracks w w'.
Proof. unfold mark_stale_in_account. intros H. minv H. track. then_stale. Qed.

Lemma refresh_reserve_reserves i p o w w' :
  is_u64 (current_slot w) -> _refresh_reserve program_id i p o w = Ok w' -> tracks w w'.
Proof.
  unfold _refresh_reserve. intros Hs H. minv H. subst.
  assert (Ht : tracks w v0).
  { track. apply rtc_once, rmove_prices; apply get_price_nonneg in E0 as [Hp Hq]; [exact Hp|].
    pose proof (smoothed_price_nonneg _ (read_reserve_wf _ _ _ E)).
    destruct (_ =? NULL_PUBKEY); [exact Hp|]. destruct smoothed_market_price; [by apply Hq|done]. }
  eapply tracks_trans; [exact Ht|]. eapply refresh_interest_reserves; [|exact H].
  by eapply tracks_slot.
Qed.

Lemma deposit_liquidity_reserves n a1 a2 a3 a4 a5 a6 a7 a8 a9 w w' c :
  0 <= n ->
  _deposit_reserve_liquidity program_id n a1 a2 a3 a4 a5 a6 a7 a8 a9 w = Ok (w', c) ->
  tracks w w'.
Proof.
  unfold _deposit_reserve_liquidity. intros Hn H. minv H. subst. track.
  first_move rmove_deposit; [exact Hn|eassumption|]. then_stale.
Qed.

Lemma redeemed_nonneg r n r' x :
  reserve_wf r -> 0 <= n -> redeem_collateral r n = Ok (r', x) -> 0 <= x.
Proof.
  unfold redeem_collateral. intros Hwf Hn H. minv H. subst.
  apply exchange_rate_nonneg in E; [|done]. exact (redeemed_tokens_nonneg _ _ _ E Hn E0).
Qed.

Lemma redeem_collateral_reserves n a1 a2 a3 a4 a5 a6 a7 a8 a9 b w w' c :
  lossy = true -> 0 <= n -> is_u64 (current_slot w) ->
  _redeem_reserve_collateral program_id n a1 a2 a3 a4 a5 a6 a7 a8 a9 b w = Ok (w', c) ->
  tracks w w'.
Proof.
  unfold _redeem_reserve_collateral. intros Hl Hn Hs H. minv H. subst.
  pose proof (read_reserve_wf _ _ _ E0) as Hwf.
  pose proof (redeemed_nonneg _ _ _ _ Hwf Hn E3) as Hx.
  destruct b; minv E4; subst; track; (first_move rmove_redeem; [done|exact Hn|exact E3|]).
  - first_move rmove_limiter; [|then_stale].
    eapply limiter_update_sized; [|exact Hs|by apply from_int_nonneg|eassumption].
    eapply move_reserve_sized; [|exact (rmove_redeem true _ _ _ _ eq_refl Hn E3)].
    by eapply read_reserve_sized.
  - then_stale.
Qed.

Lemma deposit_collateral_reserves n a1 a2 a3 a4 a5 a6 a7 a8 w w' :
  _deposit_obligation_collateral program_id n a1 a2 a3 a4 a5 a6 a7 a8 w = Ok w' ->
  tracks w w'.
Proof. unfold _deposit_obligation_collateral. intros H. minv H. track. Qed.

Lemma withdraw_collateral_reserves n a1 a2 a3 a4 a5 a6 a7 a8 b w w' c :
  _withdraw_obligation_collateral program_id n a1 a2 a3 a4 a5 a6 a7 a8 b w = Ok (w', c) ->
  tracks w w'.
Proof. unfold _withdraw_obligation_collateral. intros H. minv H. track. Qed.

(** What leaves an obligation is an amount. *)
Lemma withdrawn_nonneg n a1 a2 a3 a4 a5 a6 a7 a8 b w w' c :
  0 <= n ->
  _withdraw_obligation_collateral program_id n a1 a2 a3 a4 a5 a6 a7 a8 b w = Ok (w', c) ->
  0 <= c.
Proof.
  unfold _withdraw_obligation_collateral. intros Hn H. minv H. subst.
  apply find_collateral_inv in E4 as [Hc _].
  destruct (withdraw_room _ _ _ _ _ _ _ _ _ (read_reserve_wf _ _ _ E0)
    (read_obligation_ranges _ _ _ E2) Hc E6 E7) as (? & ? & _). lia.
Qed.

Lemma seized_nonneg n a1 a2 a3 a4 a5 a6 a7 a8 a9 a10 a11 w w' c b :
  0 <= n ->
  _liquidate_obligation program_id n a1 a2 a3 a4 a5 a6 a7 a8 a9 a10 a11 w = Ok (w', (c, b)) ->
  0 <= c.
Proof.
  unfold _liquidate_obligation. intros Hn H. minv H. subst.
  apply find_liquidity_inv in E6 as [Hb _]. apply find_collateral_inv in E7 as [Hc _].
  by destruct (liquidation_amounts_read _ _ _ _ _ _ _ _ (read_reserve_wf _ _ _ E2) Hn
    (read_obligation_ranges _ _ _ E4) Hb Hc E9).
Qed.

Lemma borrow_transfers_reserves s d f a t seeds host bf hf n w w' :
  borrow_transfers s d f a t seeds host bf hf n w = Ok w' -> tracks w w'.
Proof.
  unfold borrow_transfers. intros H. minv H.
  destruct (next_account_info host) as [[h l]|e|]; [destruct (0 <? hf)|..]; minv E;
    subst; destruct (0 <? _); minv E0; subst; track.
Qed.
#[local] Hint Resolve borrow_transfers_reserves : tracking.

Lemma max_outflow_limiter r m v s ml rl q :
  reserve_sized r -> is_u64 s -> max_outflow_tokens m r v s = Ok (ml, rl, q) ->
  limiter_sized rl.
Proof.
  unfold max_outflow_tokens. intros Hsz Hs H. minv H. subst.
  by eapply limiter_remaining_sized; [apply Hsz| |].
Qed.

Lemma borrow_liquidity_reserves n a1 a2 a3 a4 a5 a6 a7 a8 a9 h w w' :
  0 <= n -> is_u64 (current_slot w) ->
  _borrow_obligation_liquidity program_id n a1 a2 a3 a4 a5 a6 a7 a8 a9 h w = Ok w' ->
  tracks w w'.
Proof.
  unfold _borrow_obligation_liquidity. intros Hn Hs H. minv H. track.
  pose proof (read_reserve_wf _ _ _ E0) as Hwf.
  assert (Hv7 : dec_nonneg v7).
  { eapply sub_or_zero_nonneg; [|exact E7]. unfold remaining_borrow_value. nonneg. }
  assert (Hv8 : dec_nonneg v8) by (eapply sub_or_zero_nonneg; [|exact E8]; nonneg).
  pose proof (max_outflow_limiter _ _ _ _ _ _ _ (read_reserve_sized _ _ _ E0) Hs E9) as Hlim.
  apply max_outflow_tokens_nonneg in E9; [|done..].
  eapply calculate_borrow_nonneg in E10; [|exact Hwf|exact Hn|exact Hv7|nonneg].
  first_move rmove_limiter.
  { eapply limiter_update_sized; [exact Hlim|exact Hs|exact E10|eassumption]. }
  first_move rmove_borrow; [exact E10|eassumption|]. then_stale.
Qed.

Lemma liquidate_reserves n a1 a2 a3 a4 a5 a6 a7 a8 a9 a10 a11 w w' c :
  0 <= n ->
  _liquidate_obligation program_id n a1 a2 a3 a4 a5 a6 a7 a8 a9 a10 a11 w = Ok (w', c) ->
  tracks w w'.
Proof.
  unfold _liquidate_obligation. intros Hn H. minv H. track.
  apply find_liquidity_inv in E6 as [Hb _]. apply find_collateral_inv in E7 as [Hc _].
  destruct (liquidation_amounts_read _ _ _ _ _ _ _ _ (read_reserve_wf _ _ _ E2) Hn
    (read_obligation_ranges _ _ _ E4) Hb Hc E9) as [Hset Hrep _].
  by eapply moves_covered_repay.
Qed.

Lemma redeem_liquidated_reserves n b a1 a2 a3 a4 a5 a6 a7 a8 a9 a10 w w' :
  lossy = true -> 0 <= n -> is_u64 (current_slot w) ->
  redeem_liquidated program_id n b a1 a2 a3 a4 a5 a6 a7 a8 a9 a10 w = Ok w' -> tracks w w'.
Proof.
  unfold redeem_liquidated. intros Hl Hn Hs H. minv H.
  apply (refresh_interest_reserves _ _ _ Hs) in E.
  pose proof (tracks_slot _ _ E Hs) as Hs2.
  destruct (negb _); minv H; [|track].
  apply redeem_collateral_reserves in E3; [track|done| |done].
  pose proof (read_reserve_wf _ _ _ E0) as Hwf. apply Z.min_glb; [done|].
  apply exchange_rate_nonneg in E1; [|done].
  eapply minted_tokens_nonneg; [exact E1| |exact E2]. by apply available_nonneg.
Qed.

Lemma flash_borrow_reserves n a1 a2 a3 a4 a5 a6 a7 w w' :
  0 <= n ->
  _flash_borrow_reserve_liquidity program_id n a1 a2 a3 a4 a5 a6 a7 w = Ok w' -> tracks w w'.
Proof.
  unfold _flash_borrow_reserve_liquidity. intros Hn H. minv H. track.
  first_move rmove_borrow; [by apply from_int_nonneg|eassumption|]. then_stale.
Qed.

Lemma flash_repay_reserves n i a1 a2 a3 a4 a5 a6 a7 a8 a9 w w' :
  0 <= n ->
  _flash_repay_reserve_liquidity program_id n i a1 a2 a3 a4 a5 a6 a7 a8 a9 w = Ok w' ->
  tracks w w'.
Proof.
  unfold _flash_repay_reserve_liquidity. intros Hn H. minv H.
  destruct (0 <? host_fee); minv E6; destruct (0 <? origination_fee); minv H; track;
    (first_move rmove_repay; [exact Hn|by apply from_int_nonneg|cbn; lia|eassumption|]);
    then_stale.
Qed.
End handlers.

(** ** The instructions *)

(** Redemptions of collateral, and the forgiveness of a debt. *)
Definition redeems (ix : LendingInstruction) : bool :=
  match ix with
  | RedeemReserveCollateral _
  | WithdrawObligationCollateralAndRedeemReserveCollateral _
  | LiquidateObligationAndRedeemReserveCollateral _
  | ForgiveDebt _ => true
  | _ => false
  end.

Section instructions.
Context {R : Runtime} {program_id : Pubkey} {L : RuntimeLaws R program_id}.
Context (lossy : bool).
Implicit Types (w : World) (accs : list AccountInfo).

Abbreviation tracks :=
  (tracks (program_id:=program_id) (rtc (reserve_move lossy)) reserve_opens).

#[local] Hint Resolve refresh_interest_reserves mark_stale_reserves refresh_reserve_reserves
  deposit_liquidity_reserves redeem_collateral_reserves deposit_collateral_reserves
  withdraw_collateral_reserves borrow_liquidity_reserves liquidate_reserves
  redeem_liquidated_reserves flash_borrow_reserves flash_repay_reserves : tracking.

(** The slot of a later world of the same instruction. *)
Ltac same_slot :=
  lazymatch goal with
  | H : is_u64 (current_slot ?w) |- is_u64 (current_slot ?w) => exact H
  | H : tracks _ ?w |- is_u64 (current_slot ?w) =>
      apply (tracks_slot lossy _ _ H); same_slot
  end.

Lemma init_market_reserves o q accs w w' :
  length q = 32%nat ->
  process_init_lending_market program_id o q accs w = Ok w' -> tracks w w'.
Proof. unfold process_init_lending_market. intros Hq H. open_handler H. track. Qed.

Lemma set_market_owner_reserves o rl wl ra accs w w' :
  process_set_lending_market_owner_and_config program_id o rl wl ra accs w = Ok w' ->
  tracks w w'.
Proof.
  unfold process_set_lending_market_owner_and_config. intros H. open_handler H. track.
Qed.

(** The reserve that an initialization starts from. *)
Lemma initial_reserve_sized r0 s market mint decimals supply pyth feed p q cmint csupply c :
  is_u64 s -> Forall (fun k => is_u256 k) [market; mint; supply; pyth; feed; cmint; csupply] ->
  is_u8 decimals -> dec_nonneg p -> dec_nonneg q -> reserve_config_wf c ->
  validate_reserve_config c = Ok tt ->
  reserve_sized
    (Reserve.init r0
       (mkInitReserveParams s market
          (ReserveLiquidity.new
             (mkNewReserveLiquidityParams mint decimals supply pyth feed p q))
          (ReserveCollateral.new (mkNewReserveCollateralParams cmint csupply))
          c rate_limiter_config_default)).
Proof.
  intros Hs Hk Hd Hp Hq Hc Hv. split; cbn; try done.
  - by repeat apply list.Forall_cons_2.
  - by apply normalize_valid, validated_sound.
Qed.

Lemma unpacked_decimals d n : unpack_mint d = Ok n -> is_u8 n.
Proof.
  unfold unpack_mint, map_err. destruct (mint_unpack_decimals _) eqn:Hm; [|done..].
  intros [= <-]. by eapply (mint_decimals_u8 (program_id:=program_id)).
Qed.

Lemma init_reserve_reserves n c accs w w' :
  keys_sized accs -> is_u64 (current_slot w) -> 0 <= n -> reserve_config_wf c ->
  process_init_reserve program_id n c accs w = Ok w' -> tracks w w'.
Proof.
  unfold process_init_reserve. intros Hk Hs Hn Hc H. open_handler H. subst. track.
  apply get_price_nonneg in E6 as [Hp Hq]. destruct v. split; [|unfold sound].
  - eapply deposit_sized_move; [|exact Hn|eassumption].
    apply initial_reserve_sized; try done; [|by eapply unpacked_decimals| ].
    + repeat apply list.Forall_cons_2; [..|done];
        (eapply key_sized; [exact Hk|in_accounts]).
    + destruct smoothed_market_price; [by apply Hq|done].
  - apply validated_sound in E. by rewrite (same_config _ _ (deposit_settings _ _ _ _ E9)).
Qed.

Lemma refresh_reserve_instruction_reserves accs w w' :
  is_u64 (current_slot w) ->
  process_refresh_reserve program_id accs w = Ok w' -> tracks w w'.
Proof. unfold process_refresh_reserve. intros Hs H. open_handler H. track. Qed.

Lemma deposit_instruction_reserves n accs w w' :
  is_u64 (current_slot w) -> 0 <= n ->
  process_deposit_reserve_liquidity program_id n accs w = Ok w' -> tracks w w'.
Proof. unfold process_deposit_reserve_liquidity. intros Hs Hn H. open_handler H. track. Qed.

Lemma redeem_instruction_reserves n accs w w' :
  lossy = true -> is_u64 (current_slot w) -> 0 <= n ->
  process_redeem_reserve_collateral program_id n accs w = Ok w' -> tracks w w'.
Proof.
  unfold process_redeem_reserve_collateral. intros Hl Hs Hn H. open_handler H. track.
Qed.

Lemma init_obligation_reserves accs w w' :
  process_init_obligation program_id accs w = Ok w' -> tracks w w'.
Proof. unfold process_init_obligation. intros H. open_handler H. track. Qed.

Lemma refresh_obligation_reserves accs w w' :
  process_refresh_obligation program_id accs w = Ok w' -> tracks w w'.
Proof. unfold process_refresh_obligation. intros H. open_handler H. track. Qed.

Lemma pledge_instruction_reserves n accs w w' :
  is_u64 (current_slot w) ->
  process_deposit_obligation_collateral program_id n accs w = Ok w' -> tracks w w'.
Proof.
  unfold process_deposit_obligation_collateral. intros Hs H. open_handler H. track.
Qed.

Lemma deposit_and_pledge_reserves n accs w w' :
  is_u64 (current_slot w) -> 0 <= n ->
  process_deposit_reserve_liquidity_and_obligation_collateral program_id n accs w = Ok w' ->
  tracks w w'.
Proof.
  unfold process_deposit_reserve_liquidity_and_obligation_collateral. intros Hs Hn H.
  open_handler H. apply (refresh_interest_reserves lossy _ _ _ Hs) in E.
  eapply (deposit_liquidity_reserves lossy) in E0; [|done].
  assert (Ht : tracks w w0) by track.
  eapply (refresh_interest_reserves lossy) in E1; [track|same_slot].
Qed.

Lemma withdraw_instruction_reserves n accs w w' :
  process_withdraw_obligation_collateral program_id n accs w = Ok w' -> tracks w w'.
Proof. unfold process_withdraw_obligation_collateral. intros H. open_handler H. track. Qed.

Lemma withdraw_and_redeem_reserves n accs w w' :
  lossy = true -> is_u64 (current_slot w) -> 0 <= n ->
  process_withdraw_obligation_collateral_and_redeem_reserve_liquidity program_id n accs w
    = Ok w' ->
  tracks w w'.
Proof.
  unfold process_withdraw_obligation_collateral_and_redeem_reserve_liquidity.
  intros Hl Hs Hn H. open_handler H.
  pose proof (withdrawn_nonneg _ _ _ _ _ _ _ _ _ _ _ _ _ Hn E) as Hc.
  apply (withdraw_collateral_reserves lossy) in E.
  apply (redeem_collateral_reserves lossy) in E0; [track|done|done|same_slot].
Qed.

Lemma borrow_instruction_reserves n accs w w' :
  is_u64 (current_slot w) -> 0 <= n ->
  process_borrow_obligation_liquidity program_id n accs w = Ok w' -> tracks w w'.
Proof.
  unfold process_borrow_obligation_liquidity. intros Hs Hn H. open_handler H.
  by eapply borrow_liquidity_reserves.
Qed.

Lemma repay_instruction_reserves n accs w w' :
  is_u64 (current_slot w) -> 0 <= n ->
  process_repay_obligation_liquidity program_id n accs w = Ok w' -> tracks w w'.
Proof.
  unfold process_repay_obligation_liquidity. intros Hs Hn H. open_handler H.
  apply (refresh_interest_reserves lossy _ _ _ Hs) in E0. track.
  apply find_liquidity_inv in E4 as [Hl _].
  pose proof (settled_nonneg _ _ _ _ _ _ _ (read_reserve_wf _ _ _ E1)
    (read_obligation_ranges _ _ _ E3) Hl Hn E5 E6) as Hset.
  apply calculate_repay_inv in E6 as [_ Hrep]. by eapply moves_covered_repay.
Qed.

Lemma liquidate_instruction_reserves n accs w w' :
  lossy = true -> is_u64 (current_slot w) -> 0 <= n ->
  process_liquidate_obligation_and_redeem_reserve_collateral program_id n accs w = Ok w' ->
  tracks w w'.
Proof.
  unfold process_liquidate_obligation_and_redeem_reserve_collateral.
  intros Hl Hs Hn H. open_handler H.
  pose proof (seized_nonneg _ _ _ _ _ _ _ _ _ _ _ _ _ _ _ _ Hn E) as Hc.
  apply (liquidate_reserves lossy) in E; [|done].
  apply (redeem_liquidated_reserves lossy) in H; [track|done|done|same_slot].
Qed.

Lemma forgive_instruction_reserves n accs w w' :
  lossy = true -> 0 <= n ->
  process_forgive_debt program_id n accs w = Ok w' -> tracks w w'.
Proof.
  unfold process_forgive_debt. intros Hl Hn H. open_handler H. track.
  apply find_liquidity_inv in E7 as [Hb _].
  pose proof (list.Forall_lookup_1 _ _ _ _ (rng_borrows _ (read_obligation_ranges _ _ _ E2)) Hb)
    as (_ & _ & [Ha _] & _).
  first_move rmove_forgive; [done| |eassumption|then_stale].
  apply min_nonneg; [by apply from_int_nonneg|]. apply min_nonneg; [exact Ha|nonneg].
Qed.

Lemma redeem_fees_reserves accs w w' :
  process_redeem_fees program_id accs w = Ok w' -> tracks w w'.
Proof.
  unfold process_redeem_fees. intros H. open_handler H. track.
  first_move rmove_fees; [eassumption..|]. then_stale.
Qed.

Lemma flash_borrow_instruction_reserves n accs w w' :
  is_u64 (current_slot w) -> 0 <= n ->
  process_flash_borrow_reserve_liquidity program_id n accs w = Ok w' -> tracks w w'.
Proof.
  unfold process_flash_borrow_reserve_liquidity. intros Hs Hn H. open_handler H.
  apply (refresh_interest_reserves lossy _ _ _ Hs) in E. track.
Qed.

Lemma flash_repay_instruction_reserves n i accs w w' :
  0 <= n -> process_flash_repay_reserve_liquidity program_id n i accs w = Ok w' -> tracks w w'.
Proof.
  unfold process_flash_repay_reserve_liquidity. intros Hn H. open_handler H.
  by eapply flash_repay_reserves.
Qed.

(** ** Configuration *)

Lemma limits_config old d b :
  reserve_config_wf old -> normalize_config old = old -> is_u64 d -> is_u64 b ->
  reserve_config_wf (set_limits old d b) /\
  normalize_config (set_limits old d b) = set_limits old d b /\
  (sound_config old -> sound_config (set_limits old d b)).
Proof.
  intros Hwf Hn Hd Hb. split; [by apply limits_typed|]. split; [|apply limits_sound].
  unfold normalize_config in *. destruct old. cbn in *. injection Hn as H1 H2 H3 H4 H5.
  unfold set_limits. cbn. by rewrite H1, H2, H3, H4, H5.
Qed.

Lemma fee_config old c :
  reserve_config_wf old -> normalize_config old = old -> reserve_config_wf c ->
  sound_config c ->
  reserve_config_wf (set_fee_fields old c) /\
  normalize_config (set_fee_fields old c) = set_fee_fields old c /\
  (sound_config old -> sound_config (set_fee_fields old c)).
Proof.
  intros Hold Hn Hwf Hc. split; [by apply fee_fields_typed|].
  split; [|by intros; apply fee_fields_sound]. destruct Hc.
  unfold normalize_config in *. destruct old. cbn in *. injection Hn as H1 H2 H3 H4 _.
  unfold set_fee_fields. cbn. rewrite H1, H2, H3, H4. f_equal. lia.
Qed.

Lemma update_owner_moves r m c rl a1 a2 a3 w r' :
  is_u256 (key a2) -> is_u256 (key a3) -> is_u64 (current_slot w) -> reserve_sized r ->
  reserve_config_wf c -> sound_config c -> rate_limiter_config_wf rl ->
  update_as_owner r m c rl a1 a2 a3 w = Ok r' -> rtc (reserve_move lossy) r r'.
Proof.
  unfold update_as_owner. intros H2 H3 Hs Hsz Hwf Hc Hrl H. cbv zeta in H.
  set (r1 := if bool_decide _ then r else _) in H.
  assert (Hr1 : rtc (reserve_move lossy) r r1).
  { unfold r1. destruct (bool_decide _); [apply rtc_refl|]. apply rtc_once, rmove_limiter, limiter_new_sized; done. }
  pose proof (moves_reserve_sized _ _ _ Hsz Hr1) as [_ _ Hk _ _ _ _ _ _ _].
  do 3 apply list.Forall_cons in Hk as [_ Hk].
  apply list.Forall_cons in Hk as [Hpy Hk]. apply list.Forall_cons in Hk as [Hsw _].
  etrans; [exact Hr1|]. minv H.
  first_move rmove_oracles; [| |apply rtc_once, rmove_config; try done; by apply normalize_valid].
  - destruct (negb (key a2 =? _)); minv E; done.
  - destruct (negb (key a3 =? _)); minv E0; done.
Qed.

Lemma update_risk_moves r c rl w :
  is_u64 (current_slot w) -> reserve_sized r -> reserve_config_wf c ->
  rate_limiter_config_wf rl ->
  rtc (reserve_move lossy) r (update_as_risk_authority r c rl w).
Proof.
  intros Hs Hsz Hwf Hrl. unfold update_as_risk_authority. cbv zeta.
  set (r1 := if _ && _ then _ else r).
  assert (Hr1 : rtc (reserve_move lossy) r r1).
  { unfold r1. case_match; [|done]. apply rtc_once, rmove_limiter, limiter_new_sized; done. }
  pose proof (moves_reserve_sized _ _ _ Hsz Hr1) as [_ _ _ _ _ _ _ Hc Ho _].
  etrans; [exact Hr1|]. apply rtc_once.
  destruct (limits_config (Reserve.config r1)
    (if deposit_limit c <? deposit_limit (Reserve.config r1) then deposit_limit c
     else deposit_limit (Reserve.config r1))
    (if borrow_limit c <? borrow_limit (Reserve.config r1) then borrow_limit c
     else borrow_limit (Reserve.config r1))) as (H1 & H2 & H3); try done.
  - destruct Hc, Hwf. by case_match.
  - destruct Hc, Hwf. by case_match.
  - by apply rmove_config.
Qed.

(** The three authorities. *)
Lemma config_update_moves r m c rl a1 a2 a3 s w r' :
  is_u256 (key a2) -> is_u256 (key a3) -> is_u64 (current_slot w) -> reserve_sized r ->
  reserve_config_wf c -> sound_config c -> rate_limiter_config_wf rl ->
  (if key s =? LendingMarket.owner m then update_as_owner r m c rl a1 a2 a3 w
   else if key s =? risk_authority m then Ok (update_as_risk_authority r c rl w)
   else if key s =? solend_market_owner_id
   then Ok (Reserve.set_config r (set_fee_fields (Reserve.config r) c))
   else fail InvalidSigner) = Ok r' ->
  rtc (reserve_move lossy) r r'.
Proof.
  intros H2 H3 Hs Hsz Hc Hv Hrl H. destruct (key s =? LendingMarket.owner m).
  { by eapply update_owner_moves in H. }
  destruct (key s =? risk_authority m); [minv H; by apply update_risk_moves|].
  destruct (key s =? solend_market_owner_id); [|discriminate]. minv H.
  destruct (fee_config _ _ (rsz_config _ Hsz) (rsz_ordered _ Hsz) Hc Hv) as (Hc' & Ho' & Hs').
  exact (rtc_once _ _ (rmove_config _ _ _ Hc' Ho' Hs')).
Qed.

Lemma update_config_reserves c rl accs w w' :
  keys_sized accs -> is_u64 (current_slot w) -> reserve_config_wf c ->
  rate_limiter_config_wf rl ->
  process_update_reserve_config program_id c rl accs w = Ok w' -> tracks w w'.
Proof.
  unfold process_update_reserve_config. intros Hk Hs Hc Hrl H. open_handler H. track.
  destruct v. apply validated_sound in E. pose proof (read_reserve_sized _ _ _ E0) as Hsz.
  eapply rtc_r; [|apply rmove_stale].
  eapply config_update_moves; [| |exact Hs|exact Hsz|exact Hc|exact E|exact Hrl|exact E3];
    (eapply key_sized; [exact Hk|in_accounts]).
Qed.

#[local] Hint Resolve init_market_reserves set_market_owner_reserves init_reserve_reserves
  refresh_reserve_instruction_reserves deposit_instruction_reserves redeem_instruction_reserves
  init_obligation_reserves refresh_obligation_reserves pledge_instruction_reserves
  deposit_and_pledge_reserves withdraw_instruction_reserves withdraw_and_redeem_reserves
  borrow_instruction_reserves repay_instruction_reserves liquidate_instruction_reserves
  forgive_instruction_reserves update_config_reserves redeem_fees_reserves
  flash_borrow_instruction_reserves flash_repay_instruction_reserves : tracking.

Lemma process_instruction_reserves accs input w w' :
  keys_sized accs -> is_u64 (current_slot w) ->
  process_instruction program_id accs input w = Ok w' ->
  (forall ix, Instruction.unpack input = Ok ix -> redeems ix = true -> lossy = true) ->
  tracks w w'.
Proof.
  unfold process_instruction. intros Hk Hs H Hlossy. minv H.
  specialize (Hlossy _ E).
  destruct v; try discriminate; try specialize (Hlossy eq_refl);
    try (apply unpack_inv in E as Ht; [|discriminate]; destruct Ht as (_ & _ & Hwf);
         cbn in Hwf; first [destruct Hwf as [[Hn _] Hq] | destruct Hwf as [Hn Hq] | idtac];
         eauto with tracking; fail).
  - apply unpack_inv in E as (_ & _ & Hc & Hrl); [|discriminate].
    by eapply update_config_reserves.
  - minv H. apply metadata_length in E0. by eapply metadata_tracks.
Qed.
End instructions.
