(* ===== verification/ReserveHistory.v ===== *)
(** What holds of a reserve over any history of the program: its configuration stays
    sound, its interest index never falls, and a collateral token loses no value but
    by redemptions and forgiven debts. *)

From stdpp Require Import relations.
From S2P Require Import Prelude Errors Common Rate Decimal Codec LastUpdate.
From S2P Require Import RateLimiter LendingMarket ReserveConfig ReserveConfigSpec.
From S2P Require Import ReserveLiquidity ReserveCollateral Reserve ReserveRates ReserveExchange.
From S2P Require Import ReserveCodec Instruction Processor Runtime ProcessorHelpers.
From S2P Require Import ProcessReserve ProcessConfig AccountSpec Identity ExampleRuntime.
From S2P Require Import RepaySpec Tracking ObligationTracks ReserveMoves ReserveTracks.
From S2P Require Import CustodySpec.
From S2P Require Import CustodySpec.

Section history.
Context {R : Runtime} {program_id : Pubkey} {L : RuntimeLaws R program_id}.

Abbreviation call := (call (program_id:=program_id)).
Abbreviation holds := (holds (program_id:=program_id)).

(** ** The configuration *)

Lemma call_sound Q w w' info :
  call Q w w' -> owner_of w info = program_id ->
  always sound (data_of w info) ->
  owner_of w' info = program_id /\ always sound (data_of w' info).
Proof.
  intros Hc Ho Ha. split; [by eapply call_owned|].
  destruct Hc as [accs input Hk Hs _ H|H].
  - pose proof (process_instruction_reserves true _ _ _ _ Hk Hs H ltac:(done)) as [_ Ht].
    destruct (Ht info Ho) as [Ho' Hw].
    eapply writes_always; [apply (reserve_reads_back true)|..|exact Hw|exact Ha].
    + intros r r' Hr Hm. induction Hm; eauto using move_sound.
    + by intros r [_ Hr].
  - destruct (H info Ho (not_elem_of_nil _)) as [Hd _]. by rewrite Hd.
Qed.

(** C8: the configuration of every reserve stays sound.  In every state that
    instructions of the program can lead to, interleaved with whatever other programs
    do, the configuration of a reserve satisfies every constraint that
    [validate_reserve_config] states but the cap on the total bonus: the points of the
    interest curve are ordered, the loan-to-value ratio is below the liquidation
    threshold, the fees and the take rate are fractions, if it did in the state the
    history starts from; an account that is not initialized there may become a
    reserve on the way.  (The cap is checked on the argument of an update, not on the
    configuration that results: see [fee_update_breaks_cap].) *)
Theorem configurations_stay_sound (info : AccountInfo) (w w' : World)
    (Hrun : rtc (call (fun _ _ => True)) w w') (Hown : owner_of w info = program_id)
    (Hok : forall r, holds w info r -> sound_config (Reserve.config r)) :
  forall r, holds w' info r -> sound_config (Reserve.config r).
Proof.
  apply (always_holds sound _ _ Hown) in Hok.
  pose proof (calls_owned _ _ _ _ Hrun Hown) as Hown'. apply (always_holds sound _ _ Hown').
  eapply calls_always; [|exact Hrun|exact Hown|exact Hok].
  intros w1 w2. apply call_sound.
Qed.

(** ** The value of a collateral token *)

(** The instruction redeems collateral or forgives a debt only if [lossy]. *)
Definition redeems_only (lossy : bool) (accs : list AccountInfo) (input : bytes) : Prop :=
  forall ix, Instruction.unpack input = Ok ix -> redeems ix = true -> lossy = true.

Lemma call_grown lossy w w' info r :
  call (redeems_only lossy) w w' -> holds w info r -> sound r ->
  exists r', holds w' info r' /\ grown lossy r r'.
Proof.
  intros Hc Hr Hs.
  assert (Hsz : reserve_sized r) by (destruct Hr as [Hu _]; by eapply read_reserve_sized).
  destruct Hc as [accs input Hk Hslot HQ H|H].
  - pose proof (process_instruction_reserves lossy _ _ _ _ Hk Hslot H HQ) as [_ Ht].
    destruct (writes_holds _ _ _ _ _ _ (reserve_reads_back lossy) Ht Hr) as (r' & Hr' & Hm).
    exists r'. split; [done|]. apply moves_grown; [done|done|].
    clear -Hm. induction Hm; [done|]. by etrans.
  - exists r. split; [|by apply moves_grown].
    eapply keeps_holds; [exact H|apply not_elem_of_nil|exact Hr].
Qed.

(** C7: interest only accrues, and a collateral token keeps its value.  Through any
    history, the account of a reserve with a sound configuration goes on holding such
    a reserve, whose cumulative borrow rate, the index that every debt is scaled by,
    never falls; and if no instruction of the history redeems collateral or forgives a
    debt, the liquidity behind each collateral token never falls either: not by
    deposits, borrows, repayments, flash loans, interest, fees collected or any change
    of configuration, whatever their order and rounding. *)
Theorem collateral_keeps_value (info : AccountInfo) (lossy : bool) (w w' : World)
    (r : Reserve) (Hr : holds w info r) (Hs : sound_config (Reserve.config r))
    (Hrun : rtc (call (redeems_only lossy)) w w') :
  exists r', holds w' info r' /\ grown lossy r r'.
Proof.
  revert r Hr Hs. induction Hrun as [w|w1 w2 w3 Hc _ IH]; intros r Hr Hs.
  - exists r. split; [done|]. apply moves_grown; [|done|done].
    destruct Hr as [Hu _]. by eapply read_reserve_sized.
  - destruct (call_grown _ _ _ _ _ Hc Hr Hs) as (r1 & Hr1 & H1).
    destruct (IH r1 Hr1 (grown_sound _ _ _ H1)) as (r' & Hr' & H').
    exists r'. split; [done|]. by eapply grown_trans.
Qed.
End history.

(** ** A reserve repaid to *)

Abbreviation holds_example w info r :=
  (holds (R := example_runtime [] 0) (program_id := example_program) w info r).
Abbreviation call_example Q :=
  (call (R := example_runtime [] 0) (program_id := example_program) Q).

Lemma holds_repay_reserve : holds_example repay_world (account 20) example_reserve.
Proof. split; vm_compute; reflexivity. Qed.

Lemma example_reserve_sound : sound_config (Reserve.config example_reserve).
Proof. apply validated_sound. vm_compute. reflexivity. Qed.

Lemma configurations_stay_sound_witness :
  exists w' r', rtc (call_example (fun _ _ => True)) repay_world w' /\
    holds_example w' (account 20) r' /\ sound_config (Reserve.config r').
Proof.
  destruct (repay_call (fun _ _ => True) I) as (w' & Hc & _).
  assert (Hq : call_example (redeems_only true) repay_world w').
  { destruct Hc as [accs input Hk Hs _ H|H]; [eapply call_instruction; eauto; by intros ??|].
    by apply call_other. }
  destruct (call_grown true _ _ _ _ Hq holds_repay_reserve example_reserve_sound)
    as (r' & Hr' & _).
  exists w', r'. split; [exact (rtc_once _ _ Hc)|]. split; [exact Hr'|].
  apply (configurations_stay_sound (account 20) repay_world w' (rtc_once _ _ Hc)
    (proj2 holds_repay_reserve)); [|exact Hr'].
  intros r [Hr _]. assert (r = example_reserve) as ->.
  { destruct holds_repay_reserve as [Hu _]. rewrite Hu in Hr. by injection Hr. }
  exact example_reserve_sound.
Defined.

Lemma collateral_keeps_value_witness :
  exists w' r', holds_example w' (account 20) r' /\ grown false example_reserve r'.
Proof.
  assert (HQ : redeems_only false repay_accounts repay_input).
  { intros ix Hix Hr. vm_compute in Hix. injection Hix as <-. discriminate. }
  destruct (repay_call _ HQ) as (w' & Hc & _).
  destruct (collateral_keeps_value (account 20) false repay_world w' example_reserve
    holds_repay_reserve example_reserve_sound (rtc_once _ _ Hc)) as (r' & Hr' & Hg).
  exists w', r'. split; [exact Hr'|exact Hg].
Defined.

(** ** The cap on the bonus *)

(** The whole bonus is the liquidator's. *)
Definition capped_config : ReserveConfig :=
  mkReserveConfig 80 90 50 5 25 55 60 0 4 30 120
    (mkReserveFees 100000000000 3000000000000000 20)
    u64_max u64_max 7 0 10 0 Regular.
Definition capped_world : World :=
  Eval vm_compute in
    world_of example_market (Reserve.set_config example_reserve capped_config)
      example_obligation [].
Definition fee_accounts : list AccountInfo :=
  [account 20; account 10; account 77; signer solend_market_owner_id; account 0; account 3;
   account 4].

(** The owner of the program's markets can break the cap on the total bonus.  Both the
    configuration that the reserve has and the one that the instruction carries are
    valid; but of the latter only the fee fields are stored, and the combination is
    not validated. *)
Theorem fee_update_breaks_cap :
  validate_reserve_config capped_config = Ok tt /\
  validate_reserve_config test_config = Ok tt /\
  exists w' r',
    process_update_reserve_config (H := example_runtime [] 0) example_program test_config
      (mkRateLimiterConfig 1 u64_max) fee_accounts capped_world = Ok w' /\
    holds_example w' (account 20) r' /\
    validate_reserve_config (Reserve.config r') = Err (lending_error InvalidConfig).
Proof.
  split; [reflexivity|]. split; [reflexivity|].
  assert (H : (let? w' := process_update_reserve_config (H := example_runtime [] 0)
      example_program test_config (mkRateLimiterConfig 1 u64_max) fee_accounts capped_world in
    let? r := unpack_account (H := example_runtime [] 0) Reserve w' (account 20) in
    Ok (Reserve.config r, owner_of w' (account 20)))
    = Ok (set_fee_fields capped_config test_config, example_program))
    by (vm_compute; reflexivity).
  apply obind_Ok_inv in H as (w' & H & Hu). apply obind_Ok_inv in Hu as (r & Hu & [= Hc Ho]).
  exists w', r. split; [exact H|]. split; [by split|]. rewrite Hc. reflexivity.
Qed.
