(* ===== verification/TokenFlow.v ===== *)
(** The tokens behind a reserve: what each step of a handler does to the difference
    between the tokens in the supply account of a reserve and its available liquidity. *)

From stdpp Require Import gmap relations.
From S2P Require Import Prelude Errors Common Rate Decimal Codec LastUpdate.
From S2P Require Import RateLimiter LendingMarket ReserveConfig.
From S2P Require Import ReserveLiquidity ReserveCollateral Reserve ReserveCodec.
From S2P Require Import ObligationCollateral ObligationLiquidity Obligation ObligationCodec.
From S2P Require Import Runtime ProcessorHelpers ProcessMarket ProcessReserve Nonneg.
From S2P Require Import AccountSpec Identity Frames Tracking ObligationTracks ReserveMoves.

Abbreviation supply_account r := (ReserveLiquidity.supply_pubkey (Reserve.liquidity r)).
Abbreviation pledged_account r := (ReserveCollateral.supply_pubkey (Reserve.collateral r)).
Abbreviation available r := (available_amount (Reserve.liquidity r)).

(** ** The moves leave the supply accounts in place *)

Definition same_accounts (r r' : Reserve) : Prop :=
  supply_account r' = supply_account r /\ pledged_account r' = pledged_account r.

Lemma settings_accounts r r' : same_settings r r' -> same_accounts r r'.
Proof.
  intros [_ _ Hk _ _ _]. unfold reserve_keys in Hk. by injection Hk.
Qed.

Lemma move_accounts lossy r r' : reserve_move lossy r r' -> same_accounts r r'.
Proof.
  destruct 1; try done;
    try (by eapply settings_accounts; eauto using deposit_settings, redeem_settings, accrue_settings).
  - by apply liq_borrow_inv in H0 as [-> _].
  - by apply liq_repay_inv in H2 as [-> _].
  - unfold redeem_fees in H0. by minv H0.
  - by apply liq_forgive_inv in H1 as [-> _].
Qed.

Lemma moves_accounts lossy r r' : rtc (reserve_move lossy) r r' -> same_accounts r r'.
Proof.
  unfold same_accounts. induction 1 as [|r1 r2 r3 Hm _ [IH1 IH2]]; [done|].
  apply move_accounts in Hm as [Hm1 Hm2]. split; congruence.
Qed.

Section tokens.
Context {R : Runtime} {program_id : Pubkey} {L : RuntimeLaws R program_id}.
Context {T : TokenProgram} {TL : TokenLaws R T program_id}.
Implicit Types (w : World) (r : Reserve) (a : Account).

Abbreviation holds := (holds (program_id:=program_id)).
Abbreviation keeps_but := (keeps_but (program_id:=program_id)).

(** ** The state behind a reserve *)

(** Only the program can sign for an address derived from it. *)
Definition program_address (k : Pubkey) : Prop :=
  exists seeds, create_program_address seeds program_id = Ok k.

(** Such an address does not sign a transaction. *)
Definition plain (i : AccountInfo) : Prop := is_signer i = true -> ~ program_address (key i).

Definition token_at w (k : Pubkey) a : Prop := accounts w !! k = Some a /\ is_token a.

(** The account [i] holds reserve [r], whose supply account [a] only the program can
    spend from, and which no other reserve uses, nor any as its collateral supply. *)
Record secure (i : AccountInfo) w r a : Prop := {
  sec_holds : holds w i r;
  sec_token : token_at w (supply_account r) a;
  sec_spends : forall b, spends a b -> program_address b;
  sec_apart : forall j rj, holds w j rj ->
    (key j <> key i -> supply_account rj <> supply_account r) /\
    pledged_account rj <> supply_account r;
}.

(** What the supply account holds beyond the available liquidity. *)
Definition surplus r a : Z := tokens a - available r.

(** Nobody gets a new right to spend from a token account. *)
Definition spent_by a a' : Prop := forall b, spends a' b -> spends a b.
Definition tokens_stay w w' : Prop :=
  forall k a, token_at w k a -> exists a', token_at w' k a' /\ spent_by a a'.

(** Every reserve was one, with the same accounts. *)
Definition no_new_reserves w w' : Prop :=
  forall j r', holds w' j r' -> exists r, holds w j r /\ same_accounts r r'.

(** From [w] to [w'] the surplus of the reserve in [i] grows by [d] of its supply
    account or more. *)
Definition flows (i : AccountInfo) (d : Pubkey -> Z) w w' : Prop :=
  clock w' = clock w /\ tokens_stay w w' /\ no_new_reserves w w' /\
  forall r a, secure i w r a -> exists r' a', secure i w' r' a' /\
    same_accounts r r' /\ surplus r a + d (supply_account r) <= surplus r' a'.

Lemma flows_refl i w : flows i (fun _ => 0) w w.
Proof.
  split; [done|]. split; [intros k a Ha; exists a; by split; [|intros b]|].
  split; [intros j r Hr; by exists r|].
  intros r a Hs. exists r, a. split; [done|]. split; [done|lia].
Qed.

Lemma same_accounts_trans r1 r2 r3 :
  same_accounts r1 r2 -> same_accounts r2 r3 -> same_accounts r1 r3.
Proof. intros [? ?] [? ?]. split; congruence. Qed.

Lemma tokens_stay_trans w1 w2 w3 :
  tokens_stay w1 w2 -> tokens_stay w2 w3 -> tokens_stay w1 w3.
Proof.
  intros H1 H2 k a Ha. destruct (H1 k a Ha) as (a1 & Ha1 & Hs1).
  destruct (H2 k a1 Ha1) as (a2 & Ha2 & Hs2). exists a2. split; [done|]. intros b Hb. auto.
Qed.

Lemma no_new_reserves_trans w1 w2 w3 :
  no_new_reserves w1 w2 -> no_new_reserves w2 w3 -> no_new_reserves w1 w3.
Proof.
  intros H1 H2 j r3 H3. destruct (H2 j r3 H3) as (r2 & Hr2 & Hs2).
  destruct (H1 j r2 Hr2) as (r1 & Hr1 & Hs1). exists r1. split; [done|].
  by eapply same_accounts_trans.
Qed.

Lemma flows_trans i d1 d2 w1 w2 w3 :
  flows i d1 w1 w2 -> flows i d2 w2 w3 -> flows i (fun s => d1 s + d2 s) w1 w3.
Proof.
  intros (Hc1 & Ht1 & Hn1 & H1) (Hc2 & Ht2 & Hn2 & H2). split; [congruence|].
  split; [by eapply tokens_stay_trans|]. split; [by eapply no_new_reserves_trans|].
  intros r a Hs. destruct (H1 r a Hs) as (r1 & a1 & Hs1 & He1 & Hd1).
  destruct (H2 r1 a1 Hs1) as (r2 & a2 & Hs2 & He2 & Hd2). exists r2, a2.
  split; [done|]. split; [by eapply same_accounts_trans|]. rewrite (proj1 He1) in Hd2. lia.
Qed.

(** The account of the reserve decides: only [d] of its supply account counts. *)
Lemma flows_weaken i d d' w w' :
  flows i d w w' ->
  (forall r a, secure i w r a -> d' (supply_account r) <= d (supply_account r)) ->
  flows i d' w w'.
Proof.
  intros (Hc & Ht & Hn & H) Hd. do 3 (split; [done|]). intros r a Hs.
  destruct (H r a Hs) as (r' & a' & Hs' & He & Hle). exists r', a'.
  split; [done|]. split; [done|]. specialize (Hd r a Hs). lia.
Qed.

Lemma holds_functional w i (r r' : Reserve) : holds w i r -> holds w i r' -> r = r'.
Proof. intros [H _] [H' _]. congruence. Qed.

Lemma holds_key w i j (r : Reserve) : key i = key j -> holds w i r -> holds w j r.
Proof. unfold AccountSpec.holds, unpack_account, data_of, owner_of, get. by intros ->. Qed.

Lemma secure_key i j w r a : key i = key j -> secure i w r a -> secure j w r a.
Proof.
  intros He [Hh Ht Hs Hap]. split; [by eapply holds_key|done..|].
  rewrite <- He. exact Hap.
Qed.

(** A reserve that a handler read is the one in [i], or has other supply accounts. *)
Lemma secure_read i w r a j rj :
  secure i w r a -> holds w j rj ->
  (key j = key i /\ rj = r \/ key j <> key i /\ supply_account rj <> supply_account r) /\
  pledged_account rj <> supply_account r.
Proof.
  intros Hs Hj. destruct (sec_apart _ _ _ _ Hs j rj Hj) as [Hne Hp]. split; [|done].
  destruct (decide (key j = key i)) as [He|]; [|by right; auto].
  left. split; [done|]. eapply holds_functional; [|apply (sec_holds _ _ _ _ Hs)].
  by eapply holds_key.
Qed.

(** ** Accounts of another program, blank when handed over *)

Lemma blank_holds_nothing w j r : data_of w j = zero_bytes (length (data_of w j)) -> ~ holds w j r.
Proof.
  intros Hz [(Hl & Hu & Hi)%(unpack_account_inv (program_id:=program_id)) _].
  destruct (unpack_identity _ _ Hl Hu Hi) as [Hid _]. rewrite Hz, Hl in Hid. discriminate.
Qed.

(** A step that hands over only blank accounts makes no reserve. *)
Lemma blank_came_from w w' j r :
  keeps_but [] w w' ->
  (forall (k : Pubkey) a', accounts w' !! k = Some a' -> owner a' = program_id ->
     (exists a, accounts w !! k = Some a /\ owner a = program_id) \/
     data a' = zero_bytes (length (data a'))) ->
  holds w' j r -> holds w j r.
Proof.
  intros Hk Hblank Hj. pose proof Hj as [Hu Ho].
  assert (Hx : exists a', accounts w' !! key j = Some a' /\ owner a' = program_id).
  { unfold owner_of, get in Ho. destruct (accounts w' !! key j) as [a'|]; [by exists a'|].
    destruct (program_not_system (eq_sym Ho)). }
  destruct Hx as (a' & Ha' & Ho').
  destruct (Hblank _ _ Ha' Ho') as [(a & Ha & Hoa)|Hz].
  - assert (Hown : owner_of w j = program_id) by (unfold owner_of, get; by rewrite Ha).
    destruct (Hk j Hown (not_elem_of_nil _)) as [Hd _]. split; [|done].
    unfold unpack_account in *. by rewrite Hd in Hu.
  - exfalso. eapply blank_holds_nothing; [|exact Hj]. unfold data_of, get. by rewrite Ha'.
Qed.

Lemma call_came_from program ix infos seeds w w' j r :
  program <> program_id -> invoke_in program ix infos seeds w = Ok w' ->
  holds w' j r -> holds w j r.
Proof.
  intros Hp H. pose proof (invoke_keeps _ _ _ _ _ _ Hp H) as Hk. apply blank_came_from; [done|].
  unfold invoke_in in H. minv H. intros k a' Ha' Ho'. by eapply handed_over_blank.
Qed.

(** ** Calls of the token program *)

Lemma token_call_flows i program ix infos seeds w w' :
  check_program_account program = Ok tt -> invoke_in program ix infos seeds w = Ok w' ->
  flows i (token_change ix) w w'.
Proof.
  intros Hc H. pose proof (token_program_foreign _ Hc) as Hp.
  pose proof (invoke_keeps _ _ _ _ _ _ Hp H) as Hk.
  assert (Hmoved : forall k a, token_at w k a -> exists a', token_at w' k a' /\
    tokens a' = tokens a + token_change ix k /\ spent_by a a').
  { intros k a [Ha Hta]. unfold invoke_in in H. minv H.
    destruct (token_moved _ _ _ _ _ _ _ _ Hc E Ha Hta) as (a' & ? & ? & ? & ?). by exists a'. }
  split; [by eapply invoke_clock|]. split.
  { intros k a Ha. destruct (Hmoved k a Ha) as (a' & Ha' & _ & Hs). by exists a'. }
  split. { intros j r Hj. exists r. split; [by eapply call_came_from|done]. }
  intros r a [Hh Ht Hs Hap]. destruct (Hmoved _ _ Ht) as (a' & Ha' & Hn & Hsp).
  exists r, a'. split; [|split; [done|unfold surplus; lia]]. split; [|done|eauto|].
  - eapply keeps_holds; [exact Hk|apply not_elem_of_nil|exact Hh].
  - intros j rj Hj. by eapply Hap, call_came_from.
Qed.

(** The system program creates accounts. *)
Lemma system_call_flows i from to n space o infos seeds w w' :
  invoke_in system_program_id (SystemCreateAccount from to n space o) infos seeds w = Ok w' ->
  flows i (fun _ => 0) w w'.
Proof.
  intros H. pose proof (invoke_keeps _ _ _ _ _ _ system_program_foreign H) as Hk.
  assert (Hstay : forall k a, token_at w k a -> token_at w' k a).
  { intros k a [Ha Hta]. split; [|done]. unfold invoke_in in H. minv H.
    by eapply (system_keeps_tokens (program_id:=program_id)). }
  split; [by eapply invoke_clock|].
  split; [intros k a Ha; exists a; split; [by apply Hstay|by intros b]|].
  assert (Hcame : forall j r, holds w' j r -> holds w j r).
  { intros j r. by eapply call_came_from; [apply system_program_foreign|]. }
  split. { intros j r Hj%Hcame. by exists r. }
  intros r a [Hh Ht Hs Hap]. exists r, a. split; [|split; [done|lia]]. split; [|by auto|done|].
  - eapply keeps_holds; [exact Hk|apply not_elem_of_nil|exact Hh].
  - intros j rj Hj%Hcame. by apply Hap.
Qed.

Lemma optionally_signed_flows i program ix infos seeds w w' :
  check_program_account program = Ok tt ->
  invoke_optionally_signed program ix infos seeds w = Ok w' -> flows i (token_change ix) w w'.
Proof. unfold invoke_optionally_signed. destruct seeds; apply token_call_flows. Qed.

Lemma transfer_flows i s d n u seeds t w w' :
  spl_token_transfer s d n u seeds t w = Ok w' ->
  flows i (fun k => (if key d =? k then n else 0) - (if key s =? k then n else 0)) w w'.
Proof.
  unfold spl_token_transfer. intros H. minv H. destruct v. apply map_err_Ok_inv in H.
  by apply (optionally_signed_flows i) in H.
Qed.

Lemma mint_to_flows i m d n u seeds t w w' :
  spl_token_mint_to m d n u seeds t w = Ok w' ->
  flows i (fun k => if key d =? k then n else 0) w w'.
Proof.
  unfold spl_token_mint_to. intros H. minv H. destruct v. apply map_err_Ok_inv in H.
  by apply (optionally_signed_flows i) in H.
Qed.

Lemma init_mint_flows i m x u n t w w' :
  spl_token_init_mint m x u n t w = Ok w' -> flows i (fun _ => 0) w w'.
Proof.
  unfold spl_token_init_mint. intros H. minv H. destruct v. apply map_err_Ok_inv in H.
  by apply (token_call_flows i) in H.
Qed.

Lemma init_account_flows i k m o x t w w' :
  spl_token_init_account k m o x t w = Ok w' -> flows i (fun _ => 0) w w'.
Proof.
  unfold spl_token_init_account. intros H. minv H. destruct v. apply map_err_Ok_inv in H.
  by apply (token_call_flows i) in H.
Qed.

(** An account that is initialized was not a token account. *)
Lemma init_account_opens k m o x t w w' :
  spl_token_init_account k m o x t w = Ok w' ->
  (forall a, ~ token_at w (key k) a) /\
  exists a, token_at w' (key k) a /\ forall b, spends a b -> b = key o.
Proof.
  unfold spl_token_init_account. intros H. minv H. destruct v. apply map_err_Ok_inv in H.
  unfold invoke_in in H. minv H.
  destruct (token_opened _ _ _ _ _ _ _ _ E E0) as [Hn (a & Ha & Hta & Hs)]. split.
  - intros a' [Ha' Hta']. by eapply Hn.
  - exists a. by split.
Qed.

(** What a user signs for does not come from the supply account. *)
Lemma user_draw i program ix infos w w' (k b : Pubkey) r a :
  check_program_account program = Ok tt ->
  invoke_optionally_signed program ix infos [] w = Ok w' ->
  token_draw ix = Some (k, b) -> Forall plain infos -> secure i w r a ->
  k <> supply_account r.
Proof.
  intros Hc H Hd Hpl Hs ->. unfold invoke_optionally_signed, invoke_in in H. minv H.
  destruct (sec_token _ _ _ _ Hs) as [Ha Hta].
  destruct (token_drawn _ _ _ _ _ _ _ _ _ Hc E Hd Ha Hta) as [Hsp [(j & Hj & Hk & Hsg)|(x & [] & _)]].
  rewrite list.Forall_forall in Hpl.
  apply (Hpl j (proj2 (list_elem_of_In _ _) Hj) Hsg). rewrite Hk. by apply (sec_spends _ _ _ _ Hs).
Qed.

Lemma user_transfer_flows i s d n u t w w' :
  plain s -> plain d -> plain u -> plain t ->
  spl_token_transfer s d n u [] t w = Ok w' ->
  flows i (fun k => if key d =? k then n else 0) w w'.
Proof.
  intros Hs Hd Ha Ht H. eapply flows_weaken; [by eapply transfer_flows|].
  intros r acct Hsec. assert (key s <> supply_account r).
  { unfold spl_token_transfer in H. minv H. destruct v. apply map_err_Ok_inv in H.
    eapply user_draw; [done|exact H|reflexivity| |exact Hsec].
    by repeat apply list.Forall_cons_2. }
  cbv beta. destruct (Z.eqb_spec (key s) (supply_account r)); [done|lia].
Qed.

Lemma user_burn_flows i m s n u t w w' :
  plain m -> plain s -> plain u -> plain t ->
  spl_token_burn m s n u [] t w = Ok w' -> flows i (fun _ => 0) w w'.
Proof.
  intros Hm Hs Ha Ht H. unfold spl_token_burn in H. minv H. destruct v.
  apply map_err_Ok_inv in H.
  eapply flows_weaken; [by eapply optionally_signed_flows|].
  intros r acct Hsec. assert (key s <> supply_account r).
  { eapply user_draw; [done|exact H|reflexivity| |exact Hsec].
    by repeat apply list.Forall_cons_2. }
  cbn. destruct (Z.eqb_spec (key s) (supply_account r)); lia.
Qed.

(** ** Writes *)

Lemma write_keeps_tokens w j d k a :
  token_at w k a -> length (data_of w j) <> 165%nat -> token_at (set_data w j d) k a.
Proof.
  intros [Ha Ht] Hl. split; [|done]. unfold set_data. cbn.
  rewrite lookup_insert_ne; [done|]. intros He. apply Hl.
  unfold data_of, get. rewrite He, Ha. by apply (token_account_len (program_id:=program_id)).
Qed.

Lemma pack_keeps_tokens {T2 : Type} {P2 : PackTrait T2} (v : T2) j w w' k a :
  pack_account v j w = Ok w' -> LEN (PackTrait:=P2) <> 165%nat ->
  token_at w k a -> token_at w' k a.
Proof.
  intros Hp Hl Ha. pose proof Hp as (Hd & _)%(pack_account_inv (program_id:=program_id)).
  unfold pack_account in Hp. minv Hp. apply write_keeps_tokens; [done|congruence].
Qed.

(** A write after which the account holds no reserve, or one with the accounts of the
    reserve it held. *)
Lemma write_flows i j w w' (d : Pubkey -> Z) :
  clock w' = clock w ->
  (forall k a, token_at w k a -> token_at w' k a) ->
  (forall j', key j' <> key j -> get w' j' = get w j') ->
  (forall rj', holds w' j rj' -> exists rj, holds w j rj /\ same_accounts rj rj') ->
  (forall r a, secure i w r a -> if key j =? key i then
     exists r', holds w' i r' /\ same_accounts r r' /\
       available r' + d (supply_account r) <= available r
   else d (supply_account r) <= 0) ->
  flows i d w w'.
Proof.
  intros Hc Ht Hget Hback Hd. split; [done|].
  split; [intros k a Ha; exists a; split; [by apply Ht|by intros b]|].
  assert (Hold : no_new_reserves w w').
  { intros j' r' Hj. destruct (decide (key j' = key j)) as [He|Hne].
    - destruct (Hback r') as (rj & Hrj & Hsame); [by eapply holds_key|].
      exists rj. split; [|done]. by eapply holds_key.
    - exists r'. split; [|done]. destruct Hj as [Hu Ho].
      unfold AccountSpec.holds, unpack_account, data_of, owner_of in *. by rewrite (Hget j' Hne) in *. }
  split; [exact Hold|]. intros r a Hs.
  assert (Hnew : exists r', holds w' i r' /\ same_accounts r r' /\
    available r' + d (supply_account r) <= available r).
  { specialize (Hd r a Hs). destruct (Z.eqb_spec (key j) (key i)) as [He|Hne]; [done|].
    exists r. split; [|split; [done|lia]]. pose proof (sec_holds _ _ _ _ Hs) as [Hu Ho].
    unfold AccountSpec.holds, unpack_account, data_of, owner_of in *.
    by rewrite (Hget i (not_eq_sym Hne)). }
  destruct Hnew as (r' & Hr' & [Hs1 Hs2] & Hle). exists r', a.
  split; [|split; [done|unfold surplus; lia]].
  pose proof (sec_token _ _ _ _ Hs). pose proof (sec_spends _ _ _ _ Hs).
  split; rewrite ?Hs1; auto.
  intros j' rj' Hj. destruct (Hold j' rj' Hj) as (rj & Hrj & H1 & H2). rewrite H1, H2.
  by apply (sec_apart _ _ _ _ Hs).
Qed.

Lemma pack_reserve_flows i j lossy r r' w0 w1 w2 :
  unpack_account Reserve w0 j = Ok r -> data_of w1 j = data_of w0 j ->
  rtc (reserve_move lossy) r r' -> pack_account r' j w1 = Ok w2 ->
  flows i (fun _ => if key j =? key i then available r - available r' else 0) w1 w2.
Proof.
  intros Hu Hd Hm Hp.
  assert (Hu1 : unpack_account Reserve w1 j = Ok r) by (unfold unpack_account in *; by rewrite Hd).
  pose proof Hu1 as (Hl & Huf & Hi)%(unpack_account_inv (program_id:=program_id)).
  pose proof Hp as (_ & Hpf & Hown & Hget & Hc & _)%(pack_account_inv (program_id:=program_id)).
  destruct (proj1 (reserve_reads_back lossy) _ _ _ _ Hl Huf Hi Hm Hpf) as (Hl2 & Hu2 & Hi2).
  assert (Hr' : unpack_account Reserve w2 j = Ok r')
    by by apply (pack_unpack_spec (program_id:=program_id)).
  apply moves_accounts in Hm. apply (write_flows i j).
  - done.
  - intros k a. apply (pack_keeps_tokens (P2:=reserve_pack) _ _ _ _ _ _ Hp). vm_compute. discriminate.
  - exact Hget.
  - intros rj' [Hj Ho]. exists r. assert (rj' = r') as -> by congruence.
    split; [|done]. split; [done|]. by rewrite <- (Hown j).
  - intros r0 a Hs. destruct (Z.eqb_spec (key j) (key i)) as [He|]; [|lia].
    pose proof (holds_key _ _ j _ (eq_sym He) (sec_holds _ _ _ _ Hs)) as [Hh Ho].
    assert (r0 = r) as -> by congruence.
    exists r'. split; [|split; [done|lia]]. apply (holds_key _ j); [done|].
    split; [done|]. by rewrite Hown.
Qed.

Lemma holds_length w j r : holds w j r -> length (data_of w j) = RESERVE_LEN.
Proof. by intros [(Hl & _)%(unpack_account_inv (program_id:=program_id)) _]. Qed.

(** A write to an account that is too short or too long for a reserve, before and
    after. *)
Lemma other_write_flows i j w w' :
  clock w' = clock w -> (forall k a, token_at w k a -> token_at w' k a) ->
  (forall j', key j' <> key j -> get w' j' = get w j') ->
  length (data_of w j) <> RESERVE_LEN -> length (data_of w' j) <> RESERVE_LEN ->
  flows i (fun _ => 0) w w'.
Proof.
  intros Hc Ht Hget Hl Hl'. apply (write_flows i j); [done..| |].
  - by intros rj' Hj%holds_length.
  - intros r a Hs. destruct (Z.eqb_spec (key j) (key i)) as [He|]; [|lia].
    pose proof (holds_key _ _ j _ (eq_sym He) (sec_holds _ _ _ _ Hs)) as Hh.
    by apply holds_length in Hh.
Qed.

Lemma pack_other_flows {T2 : Type} {P2 : PackTrait T2} i (v : T2) j w w' :
  pack_account v j w = Ok w' ->
  LEN (PackTrait:=P2) <> RESERVE_LEN -> LEN (PackTrait:=P2) <> 165%nat ->
  (forall d d', length d = LEN (PackTrait:=P2) -> pack_into_slice v d = Ok d' ->
     length d' = length d) ->
  flows i (fun _ => 0) w w'.
Proof.
  intros Hp Hn Hn2 Hlen.
  pose proof Hp as (Hl & Hpf & _ & Hget & Hc & _)%(pack_account_inv (program_id:=program_id)).
  apply (other_write_flows i j); [done| |exact Hget|congruence|].
  - intros k a. by apply (pack_keeps_tokens _ _ _ _ _ _ Hp).
  - rewrite (Hlen _ _ Hl Hpf). congruence.
Qed.
End tokens.
