(* ===== verification/Solvency.v ===== *)
(** Every reserve is backed: what it counts as available is in its supply account. *)

From stdpp Require Import gmap relations.
From S2P Require Import Prelude Errors Common Rate Decimal Codec LastUpdate.
From S2P Require Import RateLimiter LendingMarket ReserveConfig ReserveConfigSpec.
From S2P Require Import ObligationCollateral ObligationLiquidity Obligation ObligationCodec.
From S2P Require Import ReserveLiquidity ReserveCollateral Reserve ReserveExchange ReserveCalc.
From S2P Require Import ReserveCodec.
From S2P Require Import Runtime Oracles ProcessorHelpers ProcessMarket ProcessReserve.
From S2P Require Import ProcessDeposit ProcessConfig ProcessObligation ProcessCollateral.
From S2P Require Import ProcessBorrow ProcessLiquidation ProcessFlash AccountSpec Identity.
From S2P Require Import Evolution Frames Instruction Processor OracleSpec.
From S2P Require Import Nonneg LiquidationSpec WithdrawSpec Tracking ObligationTracks.
From S2P Require Import HistorySpec ReserveMoves ReserveTracks TokenFlow.
From S2P Require Import RepaySpec CustodySpec ExampleRuntime.

(** ** What the operations do to the available liquidity *)

Lemma deposit_available r n r' y :
  deposit_liquidity r n = Ok (r', y) -> available r' = available r + n.
Proof. by intros (e & _ & _ & _ & _ & _ & ?)%deposit_liquidity_inv. Qed.

Lemma deposit_minted r n r' y :
  reserve_sized r -> 0 <= n -> deposit_liquidity r n = Ok (r', y) -> 0 <= y.
Proof.
  unfold deposit_liquidity. intros Hsz Hn H. minv H. subst.
  apply (rate_sized_nonneg _ _ Hsz) in E. by apply (minted_tokens_nonneg _ _ _ E Hn) in E0.
Qed.

Lemma redeem_available r n r' x :
  redeem_collateral r n = Ok (r', x) -> available r' = available r - x.
Proof.
  unfold redeem_collateral. intros H. minv H. subst.
  apply burn_inv in E1 as [-> _]. by apply liq_withdraw_inv in E2 as [-> _].
Qed.

Lemma accrue_available r s r' :
  Reserve.accrue_interest r s = Ok r' -> available r' = available r.
Proof.
  unfold Reserve.accrue_interest. intros H. minv H. destruct (0 <? v); [|by minv H]. minv H.
  unfold compound_interest in E1. by minv E1.
Qed.

Lemma protocol_fee_positive r x b n :
  calculate_protocol_liquidation_fee r x b = Ok n -> 0 < n.
Proof. unfold calculate_protocol_liquidation_fee. intros H. minv H. lia. Qed.

Lemma redeemable_nonneg r n : reserve_sized r -> calculate_redeem_fees r = Ok n -> 0 <= n.
Proof.
  unfold calculate_redeem_fees. intros Hsz H. minv H.
  pose proof (rsz_values _ Hsz) as (_ & (_ & (Hf & _)%list.Forall_cons)%list.Forall_cons)%list.Forall_cons.
  apply floor_nonneg in E; [|done]. pose proof (proj1 (rsz_available _ Hsz)). lia.
Qed.

(** Whole tokens, as a flash loan borrows them. *)
Lemma round_whole n : dec_raw (from_int n) / WAD = n.
Proof. cbn. by rewrite Z.mul_comm, Z.div_mul by done. Qed.

(** From the last world to the first; what is left are the moves. *)
Ltac flow_other H :=
  lazymatch type of H with
  | @pack_account _ ?T2 ?P2 _ _ _ = _ =>
      eapply (pack_other_flows (T2:=T2) (P2:=P2));
      [exact H|vm_compute; discriminate|vm_compute; discriminate|];
      lazymatch T2 with
      | Obligation => apply obligation_write_length
      | LendingMarket =>
          intros ??; apply market_write_length; cbn; eauto using unpacked_quote_length
      end
  end.
Ltac flow_move H :=
  lazymatch type of H with
  | pack_account _ ?i ?w1 = Ok _ =>
      lazymatch goal with
      | U : unpack_account Reserve w1 i = Ok _ |- _ =>
          eapply (pack_reserve_flows _ _ true _ _ _ _ _ U eq_refl); [|exact H]
      | U : unpack_account Reserve _ i = Ok _ |- _ =>
          eapply (pack_reserve_flows _ _ true _ _ _ _ _ U); [left_alone| |exact H]
      end
  end.
Create HintDb flows discriminated.
Ltac flow_call H :=
  first
    [ eapply user_transfer_flows; [..|exact H]; assumption
    | eapply transfer_flows; exact H
    | eapply user_burn_flows; [..|exact H]; assumption
    | eapply mint_to_flows; exact H
    | eapply init_account_flows; exact H
    | eapply init_mint_flows; exact H
    | solve [eauto 3 with flows] ].
Ltac flow :=
  lazymatch goal with
  | |- flows _ _ ?w ?w => apply flows_refl
  | H : flows _ _ ?w1 ?w2 |- flows _ _ ?w0 ?w2 =>
      eapply (flows_trans _ _ _ w0 w1 w2); [flow|exact H]
  | H : pack_account _ _ ?w1 = Ok ?w2 |- flows _ _ ?w0 ?w2 =>
      eapply (flows_trans _ _ _ w0 w1 w2); [flow|first [flow_other H | flow_move H]]
  | H : _ = Ok ?w2 |- flows _ _ _ ?w2 => eapply flows_trans; cycle 1; [flow_call H|flow]
  | H : _ = Ok (?w2, _) |- flows _ _ _ ?w2 => eapply flows_trans; cycle 1; [flow_call H|flow]
  end.

(** What remains is arithmetic: the reserves that were read are the one in question or
    have other accounts. *)
Ltac know_reserve Hs :=
  match goal with
  | U : unpack_account Reserve ?w ?j = Ok ?rj, G : negb (owner_of ?w ?j =? _) = false |- _ =>
      let H1 := fresh "Hread" in let H2 := fresh "Hpledged" in
      destruct (secure_read _ _ _ _ _ _ Hs (conj U (negb_eqb_false _ _ G))) as [H1 H2];
      clear G
  end.
Ltac know_amounts :=
  repeat match goal with
  | H : deposit_liquidity _ _ = Ok _ |- _ => apply deposit_available in H
  | H : redeem_collateral _ _ = Ok _ |- _ => apply redeem_available in H
  | H : Reserve.accrue_interest _ _ = Ok _ |- _ => apply accrue_available in H
  | H : ReserveLiquidity.borrow _ _ = Ok _ |- _ => apply liq_borrow_inv in H as [-> _]
  | H : ReserveLiquidity.repay _ _ _ = Ok _ |- _ => apply liq_repay_inv in H as [-> _]
  | H : forgive_debt _ _ = Ok _ |- _ => apply liq_forgive_inv in H as [-> _]
  | H : redeem_fees _ _ = Ok _ |- _ => apply liq_redeem_fees_inv in H as [H _]
  end.
Ltac account_for :=
  let r := fresh "r" in let a := fresh "a" in let Hs := fresh "Hs" in
  intros r a Hs; cbv beta; repeat know_reserve Hs; know_amounts;
  repeat match goal with G : negb (_ =? _) = false |- _ => apply negb_eqb_false in G end;
  repeat match goal with
    | H : _ /\ _ = _ \/ _ |- _ => destruct H as [[? ?]|[? ?]]; subst
    end;
  repeat match goal with |- context [?x =? ?y] => destruct (Z.eqb_spec x y) end;
  cbn [liquidity set_liquidity mark_reserve_stale set_last_update Reserve.set_rate_limiter
       set_reserve_prices set_prices set_amounts available_amount] in *;
  first [congruence | lia].

Section handlers.
Context {R : Runtime} {program_id : Pubkey} {L : RuntimeLaws R program_id}.
Context {T : TokenProgram} {TL : TokenLaws R T program_id}.
Context (i : AccountInfo).
Implicit Types (w : World).

Abbreviation flows := (flows (program_id:=program_id) i).
Abbreviation plain := (plain (program_id:=program_id)).
Abbreviation nothing := (fun _ : Pubkey => 0).

Lemma flows_slot d w w' : flows d w w' -> is_u64 (current_slot w) -> is_u64 (current_slot w').
Proof. intros [Hc _]. unfold current_slot. by rewrite Hc. Qed.

Lemma refresh_interest_flows j w w' :
  is_u64 (current_slot w) ->
  _refresh_reserve_interest program_id j w = Ok w' -> flows nothing w w'.
Proof.
  unfold _refresh_reserve_interest. intros Hs H. minv H.
  eapply flows_weaken; [flow|].
  { first_move rmove_accrue; [exact E0|]. by apply rtc_once, rmove_slot. }
  account_for.
Qed.

Lemma mark_stale_flows j w w' : mark_stale_in_account j w = Ok w' -> flows nothing w w'.
Proof.
  unfold mark_stale_in_account. intros H. minv H.
  eapply flows_weaken; [flow; then_stale|]. account_for.
Qed.

Lemma refresh_reserve_flows j p o w w' :
  is_u64 (current_slot w) -> _refresh_reserve program_id j p o w = Ok w' -> flows nothing w w'.
Proof.
  unfold _refresh_reserve. intros Hs H. minv H. subst.
  assert (Hf : flows nothing w v0).
  { eapply flows_weaken; [flow|account_for].
    apply rtc_once, rmove_prices; apply get_price_nonneg in E0 as [Hp Hq]; [exact Hp|].
    pose proof (smoothed_price_nonneg _ (read_reserve_wf _ _ _ E)).
    destruct (_ =? NULL_PUBKEY); [exact Hp|]. destruct smoothed_market_price; [by apply Hq|done]. }
  apply refresh_interest_flows in H; [|by eapply flows_slot].
  eapply flows_weaken; [flow|account_for].
Qed.

Lemma deposit_liquidity_flows n a1 a2 a3 a4 a5 a6 a7 a8 a9 w w' c :
  plain a1 -> plain a4 -> plain a8 -> plain a9 -> 0 <= n ->
  _deposit_reserve_liquidity program_id n a1 a2 a3 a4 a5 a6 a7 a8 a9 w = Ok (w', c) ->
  flows nothing w w'.
Proof.
  unfold _deposit_reserve_liquidity. intros H1 H4 H8 H9 Hn H. minv H. subst.
  eapply flows_weaken; [flow|].
  { first_move rmove_deposit; [exact Hn|eassumption|]. then_stale. }
  pose proof (deposit_minted _ _ _ _ (read_reserve_sized _ _ _ E0) Hn E6). account_for.
Qed.

Lemma deposited_minted n a1 a2 a3 a4 a5 a6 a7 a8 a9 w w' c :
  0 <= n ->
  _deposit_reserve_liquidity program_id n a1 a2 a3 a4 a5 a6 a7 a8 a9 w = Ok (w', c) ->
  0 <= c.
Proof.
  unfold _deposit_reserve_liquidity. intros Hn H. minv H. subst.
  exact (deposit_minted _ _ _ _ (read_reserve_sized _ _ _ E0) Hn E6).
Qed.

Lemma redeem_collateral_flows n a1 a2 a3 a4 a5 a6 a7 a8 a9 b w w' c :
  plain a1 -> plain a4 -> plain a8 -> plain a9 -> 0 <= n -> is_u64 (current_slot w) ->
  _redeem_reserve_collateral program_id n a1 a2 a3 a4 a5 a6 a7 a8 a9 b w = Ok (w', c) ->
  flows nothing w w'.
Proof.
  unfold _redeem_reserve_collateral. intros H1 H4 H8 H9 Hn Hs H. minv H. subst.
  pose proof (read_reserve_wf _ _ _ E0) as Hwf.
  pose proof (redeemed_nonneg _ _ _ _ Hwf Hn E3) as Hx.
  destruct b; minv E4; subst; (eapply flows_weaken; [flow|account_for]).
  - first_move rmove_redeem; [done|exact Hn|exact E3|].
    first_move rmove_limiter; [|then_stale].
    eapply limiter_update_sized; [|exact Hs|by apply from_int_nonneg|eassumption].
    eapply move_reserve_sized; [|exact (rmove_redeem true _ _ _ _ eq_refl Hn E3)].
    by eapply read_reserve_sized.
  - first_move rmove_redeem; [done|exact Hn|exact E3|]. then_stale.
Qed.

Lemma deposit_collateral_flows n a1 a2 a3 a4 a5 a6 a7 a8 w w' :
  plain a1 -> plain a2 -> plain a7 -> plain a8 -> 0 <= n ->
  _deposit_obligation_collateral program_id n a1 a2 a3 a4 a5 a6 a7 a8 w = Ok w' ->
  flows nothing w w'.
Proof.
  unfold _deposit_obligation_collateral. intros H1 H2 H7 H8 Hn H. minv H.
  eapply flows_weaken; [flow|account_for].
Qed.

Lemma withdraw_collateral_flows n a1 a2 a3 a4 a5 a6 a7 a8 b w w' c :
  0 <= n ->
  _withdraw_obligation_collateral program_id n a1 a2 a3 a4 a5 a6 a7 a8 b w = Ok (w', c) ->
  flows nothing w w'.
Proof.
  intros Hn H. pose proof (withdrawn_nonneg _ _ _ _ _ _ _ _ _ _ _ _ _ Hn H) as Hc.
  unfold _withdraw_obligation_collateral in H. minv H. subst.
  eapply flows_weaken; [flow|account_for].
Qed.

(** A borrow takes from the supply what it records as borrowed. *)
Lemma borrow_transfers_flows s d f u t seeds host bf hf n w w' :
  0 <= hf -> 0 <= n ->
  borrow_transfers s d f u t seeds host bf hf n w = Ok w' ->
  flows (fun k => - (if key s =? k then n + Z.max 0 bf else 0)) w w'.
Proof.
  unfold borrow_transfers. intros Hh Hn H. minv H.
  destruct (next_account_info host) as [[h l]|e|]; [destruct (0 <? hf) eqn:Hhf|..]; minv E;
    subst; destruct (0 <? _) eqn:Hof in E0; minv E0; subst;
    try match goal with X : math (checked_sub _ _) = Ok _ |- _ =>
      apply math_Ok_inv, checked_sub_Some_inv in X as [-> ?] end;
    (eapply flows_weaken; [flow|account_for]).
Qed.

Lemma borrow_liquidity_flows n a1 a2 a3 a4 a5 a6 a7 a8 a9 h w w' :
  0 <= n -> is_u64 (current_slot w) ->
  _borrow_obligation_liquidity program_id n a1 a2 a3 a4 a5 a6 a7 a8 a9 h w = Ok w' ->
  flows nothing w w'.
Proof.
  unfold _borrow_obligation_liquidity. intros Hn Hs H. minv H.
  pose proof (read_reserve_wf _ _ _ E0) as Hwf.
  assert (Hv7 : dec_nonneg v7).
  { eapply sub_or_zero_nonneg; [|exact E7]. unfold remaining_borrow_value. nonneg. }
  assert (Hv8 : dec_nonneg v8) by (eapply sub_or_zero_nonneg; [|exact E8]; nonneg).
  pose proof (max_outflow_limiter _ _ _ _ _ _ _ (read_reserve_sized _ _ _ E0) Hs E9) as Hlim.
  apply max_outflow_tokens_nonneg in E9; [|done..].
  destruct (calculate_borrow_split _ _ _ _ _
    (proj1 (proj2 (proj2 (wf_fees _ (rsz_config _ (read_reserve_sized _ _ _ E0)))))) Hn E10)
    as (Hsplit & Hrec & Hfee & Hhost).
  eapply calculate_borrow_nonneg in E10; [|exact Hwf|exact Hn|exact Hv7|nonneg].
  apply borrow_transfers_flows in H; [|done..].
  eapply flows_weaken; [flow|account_for].
  first_move rmove_limiter.
  { eapply limiter_update_sized; [exact Hlim|exact Hs|exact E10|eassumption]. }
  first_move rmove_borrow; [exact E10|eassumption|]. then_stale.
Qed.

Lemma liquidate_flows n a1 a2 a3 a4 a5 a6 a7 a8 a9 a10 a11 w w' c :
  plain a1 -> plain a4 -> plain a10 -> plain a11 -> 0 <= n ->
  _liquidate_obligation program_id n a1 a2 a3 a4 a5 a6 a7 a8 a9 a10 a11 w = Ok (w', c) ->
  flows nothing w w'.
Proof.
  intros H1 H4 H10 H11 Hn H. destruct c as [c b].
  pose proof (seized_nonneg _ _ _ _ _ _ _ _ _ _ _ _ _ _ _ _ Hn H) as Hc.
  unfold _liquidate_obligation in H. minv H. subst.
  apply find_liquidity_inv in E6 as [Hb _]. apply find_collateral_inv in E7 as [Hcl _].
  destruct (liquidation_amounts_read _ _ _ _ _ _ _ _ (read_reserve_wf _ _ _ E2) Hn
    (read_obligation_ranges _ _ _ E4) Hb Hcl E9) as [Hset Hrep _].
  eapply flows_weaken; [flow|account_for]. by eapply moves_covered_repay.
Qed.

Lemma redeem_liquidated_flows n b a1 a2 a3 a4 a5 a6 a7 a8 a9 a10 w w' :
  plain a1 -> plain a2 -> plain a4 -> plain a6 -> plain a9 -> plain a10 ->
  0 <= n -> is_u64 (current_slot w) ->
  redeem_liquidated program_id n b a1 a2 a3 a4 a5 a6 a7 a8 a9 a10 w = Ok w' ->
  flows nothing w w'.
Proof.
  unfold redeem_liquidated. intros H1 H2 H4 H6 H9 H10 Hn Hs H. minv H.
  apply (refresh_interest_flows _ _ _ Hs) in E.
  pose proof (flows_slot _ _ _ E Hs) as Hs2.
  destruct (negb _); minv H; [|eapply flows_weaken; [flow|account_for]].
  pose proof (read_reserve_wf _ _ _ E0) as Hwf. apply exchange_rate_nonneg in E1; [|done].
  apply redeem_collateral_flows in E3; [|done..| |done].
  2: { apply Z.min_glb; [done|]. eapply minted_tokens_nonneg; [exact E1| |exact E2].
       by apply available_nonneg. }
  apply protocol_fee_positive in E5. eapply flows_weaken; [flow|account_for].
Qed.

Lemma flash_borrow_flows n a1 a2 a3 a4 a5 a6 a7 w w' :
  0 <= n ->
  _flash_borrow_reserve_liquidity program_id n a1 a2 a3 a4 a5 a6 a7 w = Ok w' ->
  flows nothing w w'.
Proof.
  unfold _flash_borrow_reserve_liquidity. intros Hn H. minv H.
  pose proof (round_whole n).
  eapply flows_weaken; [flow|account_for].
  first_move rmove_borrow; [by apply from_int_nonneg|eassumption|]. then_stale.
Qed.

Lemma flash_repay_flows n k a1 a2 a3 a4 a5 a6 a7 a8 a9 w w' :
  plain a1 -> plain a2 -> plain a3 -> plain a4 -> plain a7 -> plain a9 -> 0 <= n ->
  _flash_repay_reserve_liquidity program_id n k a1 a2 a3 a4 a5 a6 a7 a8 a9 w = Ok w' ->
  flows nothing w w'.
Proof.
  unfold _flash_repay_reserve_liquidity. intros H1 H2 H3 H4 H7 H9 Hn H. minv H.
  destruct (0 <? host_fee) eqn:Hh; minv E6; destruct (0 <? origination_fee) eqn:Ho; minv H;
    (eapply flows_weaken; [flow|account_for]);
    (first_move rmove_repay; [exact Hn|by apply from_int_nonneg|cbn; lia|eassumption|]);
    then_stale.
Qed.
Lemma plain_skip_clock accs : Forall plain accs -> Forall plain (skip_clock accs).
Proof.
  destruct accs as [|j accs]; [done|]. cbn. intros Hpl. destruct (key j =? clock_ID); [|done].
  by apply list.Forall_cons in Hpl as [_ Hpl].
Qed.
End handlers.

(** ** The instructions *)

(** Each account of the instruction. *)
Ltac plain_each Hpl :=
  repeat lazymatch type of Hpl with
  | Forall _ (_ :: _) => let Hp := fresh "Hp" in apply list.Forall_cons in Hpl as [Hp Hpl]
  | Forall _ ?l =>
      lazymatch goal with
      | H : l = _ :: _ |- _ => rewrite H in Hpl
      | H : skip_clock l = _ :: _ |- _ => apply plain_skip_clock in Hpl
      end
  end.
Ltac same_slot :=
  lazymatch goal with
  | H : is_u64 (current_slot ?w) |- is_u64 (current_slot ?w) => exact H
  | H : flows _ _ _ ?w |- is_u64 (current_slot ?w) =>
      eapply flows_slot; [exact H|same_slot]
  end.
Ltac flow_through := eapply flows_weaken; [flow|account_for].

Section instructions.
Context {R : Runtime} {program_id : Pubkey} {L : RuntimeLaws R program_id}.
Context {T : TokenProgram} {TL : TokenLaws R T program_id}.
Context (i : AccountInfo).
Implicit Types (w : World) (accs : list AccountInfo).

Abbreviation flows := (flows (program_id:=program_id) i).
Abbreviation plain := (plain (program_id:=program_id)).
Abbreviation nothing := (fun _ : Pubkey => 0).

#[local] Hint Resolve refresh_interest_flows mark_stale_flows refresh_reserve_flows
  : flows.

(** What a part of the instruction did. *)
Ltac part_flows H lemma := apply (lemma i) in H; [|first [assumption|same_slot]..].

Lemma deposit_instruction_flows n accs w w' :
  Forall plain accs -> is_u64 (current_slot w) -> 0 <= n ->
  process_deposit_reserve_liquidity program_id n accs w = Ok w' -> flows nothing w w'.
Proof.
  unfold process_deposit_reserve_liquidity. intros Hpl Hs Hn H. open_handler H.
  plain_each Hpl. part_flows E refresh_interest_flows.
  part_flows E0 deposit_liquidity_flows. flow_through.
Qed.

Lemma redeem_instruction_flows n accs w w' :
  Forall plain accs -> is_u64 (current_slot w) -> 0 <= n ->
  process_redeem_reserve_collateral program_id n accs w = Ok w' -> flows nothing w w'.
Proof.
  unfold process_redeem_reserve_collateral. intros Hpl Hs Hn H. open_handler H.
  plain_each Hpl. part_flows E redeem_collateral_flows. flow_through.
Qed.

Lemma pledge_instruction_flows n accs w w' :
  Forall plain accs -> is_u64 (current_slot w) -> 0 <= n ->
  process_deposit_obligation_collateral program_id n accs w = Ok w' -> flows nothing w w'.
Proof.
  unfold process_deposit_obligation_collateral. intros Hpl Hs Hn H. open_handler H.
  plain_each Hpl. part_flows E refresh_interest_flows.
  part_flows E0 deposit_collateral_flows. flow_through.
Qed.

Lemma deposit_and_pledge_flows n accs w w' :
  Forall plain accs -> is_u64 (current_slot w) -> 0 <= n ->
  process_deposit_reserve_liquidity_and_obligation_collateral program_id n accs w = Ok w' ->
  flows nothing w w'.
Proof.
  unfold process_deposit_reserve_liquidity_and_obligation_collateral. intros Hpl Hs Hn H.
  open_handler H. plain_each Hpl. part_flows E refresh_interest_flows.
  pose proof (deposited_minted _ _ _ _ _ _ _ _ _ _ _ _ _ Hn E0) as Hc.
  part_flows E0 deposit_liquidity_flows. part_flows E1 refresh_interest_flows.
  part_flows E2 deposit_collateral_flows. flow_through.
Qed.

Lemma withdraw_instruction_flows n accs w w' :
  0 <= n -> process_withdraw_obligation_collateral program_id n accs w = Ok w' ->
  flows nothing w w'.
Proof.
  unfold process_withdraw_obligation_collateral. intros Hn H. open_handler H.
  part_flows E withdraw_collateral_flows. flow_through.
Qed.

Lemma withdraw_and_redeem_flows n accs w w' :
  Forall plain accs -> is_u64 (current_slot w) -> 0 <= n ->
  process_withdraw_obligation_collateral_and_redeem_reserve_liquidity program_id n accs w
    = Ok w' ->
  flows nothing w w'.
Proof.
  unfold process_withdraw_obligation_collateral_and_redeem_reserve_liquidity.
  intros Hpl Hs Hn H. open_handler H. plain_each Hpl.
  pose proof (withdrawn_nonneg _ _ _ _ _ _ _ _ _ _ _ _ _ Hn E) as Hc.
  part_flows E withdraw_collateral_flows. part_flows E0 redeem_collateral_flows. flow_through.
Qed.

Lemma borrow_instruction_flows n accs w w' :
  is_u64 (current_slot w) -> 0 <= n ->
  process_borrow_obligation_liquidity program_id n accs w = Ok w' -> flows nothing w w'.
Proof.
  unfold process_borrow_obligation_liquidity. intros Hs Hn H. open_handler H.
  by eapply borrow_liquidity_flows.
Qed.

Lemma repay_instruction_flows n accs w w' :
  Forall plain accs -> is_u64 (current_slot w) -> 0 <= n ->
  process_repay_obligation_liquidity program_id n accs w = Ok w' -> flows nothing w w'.
Proof.
  unfold process_repay_obligation_liquidity. intros Hpl Hs Hn H. open_handler H.
  plain_each Hpl. part_flows E0 refresh_interest_flows.
  apply find_liquidity_inv in E4 as [Hl _].
  pose proof (settled_nonneg _ _ _ _ _ _ _ (read_reserve_wf _ _ _ E1)
    (read_obligation_ranges _ _ _ E3) Hl Hn E5 E6) as Hset.
  apply calculate_repay_inv in E6 as [_ Hrep].
  assert (Hf : flows nothing v0 w').
  { flow_through. by eapply moves_covered_repay. }
  flow_through.
Qed.

Lemma liquidate_instruction_flows n accs w w' :
  Forall plain accs -> is_u64 (current_slot w) -> 0 <= n ->
  process_liquidate_obligation_and_redeem_reserve_collateral program_id n accs w = Ok w' ->
  flows nothing w w'.
Proof.
  unfold process_liquidate_obligation_and_redeem_reserve_collateral.
  intros Hpl Hs Hn H. open_handler H. plain_each Hpl.
  pose proof (seized_nonneg _ _ _ _ _ _ _ _ _ _ _ _ _ _ _ _ Hn E) as Hc.
  part_flows E liquidate_flows. part_flows H redeem_liquidated_flows. flow_through.
Qed.

Lemma forgive_instruction_flows n accs w w' :
  0 <= n -> process_forgive_debt program_id n accs w = Ok w' -> flows nothing w w'.
Proof.
  unfold process_forgive_debt. intros Hn H. open_handler H. flow_through.
  apply find_liquidity_inv in E7 as [Hb _].
  pose proof (list.Forall_lookup_1 _ _ _ _ (rng_borrows _ (read_obligation_ranges _ _ _ E2)) Hb)
    as (_ & _ & [Ha _] & _).
  first_move rmove_forgive; [done| |eassumption|then_stale].
  apply min_nonneg; [by apply from_int_nonneg|]. apply min_nonneg; [exact Ha|nonneg].
Qed.

Lemma redeem_fees_flows accs w w' :
  process_redeem_fees program_id accs w = Ok w' -> flows nothing w w'.
Proof.
  unfold process_redeem_fees. intros H. open_handler H.
  pose proof (redeemable_nonneg _ _ (read_reserve_sized _ _ _ E) E3) as Hn. flow_through.
  first_move rmove_fees; [eassumption..|]. then_stale.
Qed.

Lemma flash_borrow_instruction_flows n accs w w' :
  is_u64 (current_slot w) -> 0 <= n ->
  process_flash_borrow_reserve_liquidity program_id n accs w = Ok w' -> flows nothing w w'.
Proof.
  unfold process_flash_borrow_reserve_liquidity. intros Hs Hn H. open_handler H.
  part_flows E refresh_interest_flows. part_flows H flash_borrow_flows. flow_through.
Qed.

Lemma flash_repay_instruction_flows n k accs w w' :
  Forall plain accs -> 0 <= n ->
  process_flash_repay_reserve_liquidity program_id n k accs w = Ok w' -> flows nothing w w'.
Proof.
  unfold process_flash_repay_reserve_liquidity. intros Hpl Hn H. open_handler H.
  plain_each Hpl. by part_flows H flash_repay_flows.
Qed.

Lemma init_market_flows o q accs w w' :
  length q = 32%nat ->
  process_init_lending_market program_id o q accs w = Ok w' -> flows nothing w w'.
Proof. unfold process_init_lending_market. intros Hq H. open_handler H. flow_through. Qed.

Lemma set_market_owner_flows o rl wl ra accs w w' :
  process_set_lending_market_owner_and_config program_id o rl wl ra accs w = Ok w' ->
  flows nothing w w'.
Proof.
  unfold process_set_lending_market_owner_and_config. intros H. open_handler H. flow_through.
Qed.

Lemma refresh_reserve_instruction_flows accs w w' :
  is_u64 (current_slot w) ->
  process_refresh_reserve program_id accs w = Ok w' -> flows nothing w w'.
Proof.
  unfold process_refresh_reserve. intros Hs H. open_handler H.
  part_flows H refresh_reserve_flows. exact H.
Qed.

Lemma init_obligation_flows accs w w' :
  process_init_obligation program_id accs w = Ok w' -> flows nothing w w'.
Proof. unfold process_init_obligation. intros H. open_handler H. flow_through. Qed.

Lemma refresh_obligation_flows accs w w' :
  process_refresh_obligation program_id accs w = Ok w' -> flows nothing w w'.
Proof. unfold process_refresh_obligation. intros H. open_handler H. flow_through. Qed.

(** The configuration. *)
Lemma owner_update_available r m c rl a1 a2 a3 w r' :
  update_as_owner r m c rl a1 a2 a3 w = Ok r' -> available r' = available r.
Proof.
  unfold update_as_owner. intros H. cbv zeta in H. minv H. by destruct (bool_decide _).
Qed.

Lemma risk_update_available r c rl w :
  available (update_as_risk_authority r c rl w) = available r.
Proof. unfold update_as_risk_authority. cbv zeta. cbn. by case_match. Qed.

Lemma config_update_available r m c rl a1 a2 a3 s w r' :
  (if key s =? LendingMarket.owner m then update_as_owner r m c rl a1 a2 a3 w
   else if key s =? risk_authority m then Ok (update_as_risk_authority r c rl w)
   else if key s =? solend_market_owner_id
   then Ok (Reserve.set_config r (set_fee_fields (Reserve.config r) c))
   else fail InvalidSigner) = Ok r' ->
  available r' = available r.
Proof.
  intros H. destruct (_ =? _); [by eapply owner_update_available|].
  destruct (_ =? _); [injection H as <-; apply risk_update_available|].
  destruct (_ =? _); [by injection H as <-|discriminate].
Qed.

Lemma update_config_flows c rl accs w w' :
  keys_sized accs -> is_u64 (current_slot w) -> reserve_config_wf c ->
  rate_limiter_config_wf rl ->
  process_update_reserve_config program_id c rl accs w = Ok w' -> flows nothing w w'.
Proof.
  unfold process_update_reserve_config. intros Hk Hs Hc Hrl H. open_handler H.
  destruct v. apply validated_sound in E. pose proof (read_reserve_sized _ _ _ E0) as Hsz.
  assert (Ha : available v3 = available v0) by (by eapply config_update_available).
  flow_through. eapply rtc_r; [|apply rmove_stale].
  eapply config_update_moves; [| |exact Hs|exact Hsz|exact Hc|exact E|exact Hrl|exact E3];
    (eapply key_sized; [exact Hk|in_accounts]).
Qed.

(** The account of the metadata is created blank, and is no reserve. *)
Lemma metadata_flows m accs w w' :
  length (metadata_bytes m) = size_of_metadata ->
  process_update_market_metadata program_id m accs w = Ok w' -> flows nothing w w'.
Proof.
  unfold process_update_market_metadata. intros Hm H. open_handler H.
  assert (Hf : flows nothing w v0).
  { destruct (length (data_of w x3) =? 0)%nat; minv E0; [|apply flows_refl].
    by eapply system_call_flows. }
  destruct (Nat.eqb_spec (length (data_of v0 x3)) (length (metadata_bytes m)))
    as [Hl|]; [|discriminate]. injection H as <-. rewrite Hm in Hl.
  assert (Hw : flows nothing v0 (set_data v0 x3 (metadata_bytes m))).
  { apply (other_write_flows _ x3); [done| | | |].
    - intros k a Ha. apply write_keeps_tokens; [done|]. rewrite Hl. by vm_compute.
    - intros j Hj. by apply get_set_data_ne.
    - rewrite Hl. by vm_compute.
    - unfold data_of. rewrite get_set_data_eq by done. cbn [data]. rewrite Hm. by vm_compute. }
  flow_through.
Qed.

Lemma check_authority_address m_info m k :
  check_authority program_id m_info m k = Ok tt -> program_address (program_id:=program_id) (key k).
Proof.
  unfold check_authority. intros H. minv H. exists (authority_seeds m_info m).
  apply negb_eqb_false in G. congruence.
Qed.
End instructions.

(** ** A new reserve *)

Section opening.
Context {R : Runtime} {program_id : Pubkey} {L : RuntimeLaws R program_id}.
Context {T : TokenProgram} {TL : TokenLaws R T program_id}.
Implicit Types (w : World) (r : Reserve) (accs : list AccountInfo).

Abbreviation holds := (holds (program_id:=program_id)).
Abbreviation secure := (secure (program_id:=program_id)).
Abbreviation flows := (flows (program_id:=program_id)).
Abbreviation plain := (plain (program_id:=program_id)).

(** A token account that only the program can spend from. *)
Definition locked_at w (k : Pubkey) (a : Account) : Prop :=
  token_at w k a /\ forall b, spends a b -> program_address (program_id:=program_id) b.

(** What the initialization of a reserve in account [j] does to the tokens: the reserve
    is written, its supply account initialized in [w2], and filled by [w']; its
    collateral supply, which is no token account in [w2], is one then. *)
Record opening (j : AccountInfo) (r : Reserve) w w1 w2 w' : Prop := {
  op_fresh : forall r0 : Reserve, ~ holds w j r0;
  op_write : pack_account r j w = Ok w1;
  op_holds : holds w1 j r /\ holds w2 j r;
  op_empty : forall a, ~ token_at w1 (supply_account r) a;
  op_supply : exists a, locked_at w2 (supply_account r) a;
  op_called : forall i, flows i (fun _ => 0) w1 w2;
  op_filled : forall i,
    flows i (fun k => if supply_account r =? k then available r else 0) w2 w';
  op_pledged : forall a, ~ token_at w2 (pledged_account r) a;
  op_pledges : exists a, locked_at w' (pledged_account r) a;
}.

Lemma tokens_gone w w' k :
  tokens_stay w w' -> (forall a, ~ token_at w' k a) -> forall a, ~ token_at w k a.
Proof. intros Hs Hn a Ha. destruct (Hs k a Ha) as (a' & Ha' & _). by eapply Hn. Qed.

Lemma locked_stays w w' k a :
  tokens_stay w w' -> locked_at w k a -> exists a', locked_at w' k a'.
Proof.
  intros Hs [Ha Hl]. destruct (Hs k a Ha) as (a' & Ha' & Hb). exists a'. split; [done|].
  intros b Hsp. by apply Hl, Hb.
Qed.

Lemma init_account_holds k m o x t w w' j r :
  spl_token_init_account k m o x t w = Ok w' -> holds w j r -> holds w' j r.
Proof.
  unfold spl_token_init_account. intros H Hj. minv H. destruct v. apply map_err_Ok_inv in H.
  eapply keeps_holds; [|apply not_elem_of_nil|exact Hj].
  eapply invoke_keeps; [|exact H]. by apply token_program_foreign.
Qed.

(** A reserve that is written can be read. *)
Lemma packed_reserve_holds r j w w' :
  length (data_of w j) = RESERVE_LEN -> reserve_sized r -> version r = PROGRAM_VERSION ->
  owner_of w j = program_id -> pack_account r j w = Ok w' -> holds w' j r.
Proof.
  intros Hl Hsz Hv Ho Hp.
  apply (pack_account_inv (program_id:=program_id)) in Hp as (_ & Hp & Hown & _).
  destruct (packed_reserve_reads _ _ _ Hsz Hl Hp) as [Hl' Hu]. split; [|by rewrite Hown].
  apply (pack_unpack_spec (program_id:=program_id)). split; [exact Hl'|]. split; [exact Hu|].
  cbn. unfold Reserve.is_initialized. by rewrite Hv.
Qed.

Lemma init_reserve_opening n c accs w w' :
  Forall plain accs -> keys_sized accs -> is_u64 (current_slot w) -> 0 <= n ->
  reserve_config_wf c ->
  process_init_reserve program_id n c accs w = Ok w' ->
  exists j r w1 w2, opening j r w w1 w2 w'.
Proof.
  unfold process_init_reserve. intros Hpl Hk Hs Hn Hc H. open_handler H. subst.
  destruct v, v6. apply get_price_nonneg in E6 as [Hp Hq].
  match type of E9 with deposit_liquidity ?r0 _ = _ => assert (Hsz0 : reserve_sized r0) end.
  { apply initial_reserve_sized; try done; [|by eapply unpacked_decimals| ].
    - repeat apply list.Forall_cons_2; [..|done];
        (eapply key_sized; [exact Hk|in_accounts]).
    - destruct smoothed_market_price; [by apply Hq|done]. }
  pose proof (deposit_sized_move _ _ _ _ Hsz0 Hn E9) as Hsz.
  pose proof (deposit_minted _ _ _ _ Hsz0 Hn E9) as Hc0.
  pose proof (deposit_available _ _ _ _ E9) as Hav. cbn in Hav.
  pose proof (deposit_settings _ _ _ _ E9) as Hset.
  destruct (settings_accounts _ _ Hset) as [Hsup Hpled]. cbn in Hsup, Hpled.
  pose proof (same_version _ _ Hset) as Hver. cbn in Hver. clear Hset Hsz0 E9.
  apply uninitialized_inv in E2 as (Hl & Hu & Hi).
  plain_each Hpl. apply negb_eqb_false in G0.
  apply check_authority_address in E7.
  destruct (init_account_opens _ _ _ _ _ _ _ E11) as [Hno (a & Ha & Hsp)].
  destruct (init_account_opens _ _ _ _ _ _ _ E14) as [Hno' (a' & Ha' & Hsp2)].
  assert (Hlock : forall w0 k (b : Account), (forall p, spends b p -> p = key x23) ->
    token_at w0 k b -> locked_at w0 k b) by (intros w0 k b Hb Ht; split; [done|];
    intros p Hp0'; by rewrite (Hb p Hp0')).
  exists x3, reserve, v8, v9. split.
  - intros r0 [Hr0 _]. apply (unpack_account_inv (program_id:=program_id)) in Hr0
      as (_ & Hu0 & Hi0). congruence.
  - exact E10.
  - assert (holds v8 x3 reserve) by (by eapply packed_reserve_holds).
    split; [done|by eapply init_account_holds].
  - intros b. rewrite Hsup. apply Hno.
  - exists a. rewrite Hsup. by apply Hlock.
  - intros i. flow_through.
  - intros i. flow_through.
  - intros b. rewrite Hpled.
    assert (Hf : flows x3 (fun _ => 0) v9 v11) by flow_through.
    eapply tokens_gone; [exact (proj1 (proj2 Hf))|exact Hno'].
  - rewrite Hpled. assert (Hf : flows x3 (fun _ => 0) v12 w') by flow_through.
    eapply locked_stays; [exact (proj1 (proj2 Hf))|].
    by apply (Hlock _ _ _ Hsp2).
Qed.

(** *** It leaves the other reserves alone *)

Section opened.
Context (j : AccountInfo) (r : Reserve) (w w1 w2 w' : World).
Context (Ho : opening j r w w1 w2 w').

Lemma opening_clock : clock w' = clock w.
Proof.
  destruct (op_called _ _ _ _ _ _ Ho j) as [H1 _], (op_filled _ _ _ _ _ _ Ho j) as [H2 _].
  pose proof (op_write _ _ _ _ _ _ Ho) as (_ & _ & _ & _ & H0 & _)%(pack_account_inv (program_id:=program_id)).
  congruence.
Qed.

Lemma opening_tokens_kept k a : token_at w k a -> token_at w1 k a.
Proof.
  apply (pack_keeps_tokens (P2:=reserve_pack) _ _ _ _ _ _ (op_write _ _ _ _ _ _ Ho)).
  vm_compute. discriminate.
Qed.

Lemma opening_tokens_stay : tokens_stay w w'.
Proof.
  apply tokens_stay_trans with w1.
  - intros k a Ha%opening_tokens_kept. exists a. split; [done|by intros b].
  - apply tokens_stay_trans with w2.
    + by destruct (op_called _ _ _ _ _ _ Ho j) as (_ & ? & _).
    + by destruct (op_filled _ _ _ _ _ _ Ho j) as (_ & ? & _).
Qed.

(** A reserve is the new one or was there. *)
Lemma opening_holds j' r' :
  holds w1 j' r' -> key j' = key j /\ r' = r \/ key j' <> key j /\ holds w j' r'.
Proof.
  intros Hj. destruct (op_holds _ _ _ _ _ _ Ho) as [Hr _].
  destruct (decide (key j' = key j)) as [He|Hne].
  - left. split; [done|]. eapply holds_functional; [exact Hj|]. by eapply holds_key.
  - right. split; [done|]. destruct Hj as [Hu Hown].
    pose proof (op_write _ _ _ _ _ _ Ho)
      as (_ & _ & _ & Hget & _)%(pack_account_inv (program_id:=program_id)).
    unfold AccountSpec.holds, unpack_account, data_of, owner_of in *. by rewrite (Hget j' Hne) in *.
Qed.

Lemma opening_held j' r0 : holds w j' r0 -> key j' <> key j /\ holds w1 j' r0.
Proof.
  intros Hj. assert (Hne : key j' <> key j).
  { intros He. eapply (op_fresh _ _ _ _ _ _ Ho r0). by eapply holds_key. }
  split; [done|]. destruct Hj as [Hu Hown].
  pose proof (op_write _ _ _ _ _ _ Ho)
    as (_ & _ & _ & Hget & _)%(pack_account_inv (program_id:=program_id)).
  unfold AccountSpec.holds, unpack_account, data_of, owner_of in *. by rewrite (Hget j' Hne).
Qed.

(** The accounts of the new reserve were not token accounts. *)
Lemma opening_apart k a :
  token_at w k a -> supply_account r <> k /\ pledged_account r <> k.
Proof.
  intros Ha%opening_tokens_kept. split; intros <-.
  - by eapply (op_empty _ _ _ _ _ _ Ho).
  - destruct (op_called _ _ _ _ _ _ Ho j) as (_ & Hs & _).
    destruct (Hs _ _ Ha) as (a' & Ha' & _). by eapply (op_pledged _ _ _ _ _ _ Ho).
Qed.

Lemma opening_others i r0 a :
  secure i w r0 a -> exists r' a', secure i w' r' a' /\
    same_accounts r0 r' /\ surplus r0 a <= surplus r' a'.
Proof.
  intros [Hh Ht Hs Hap]. pose proof (opening_apart _ _ Ht) as [Hn1 Hn2].
  assert (Hs1 : secure i w1 r0 a).
  { split; [by apply opening_held|by apply opening_tokens_kept|done|].
    intros j' rj [[He ->]|[Hne Hj]]%opening_holds; [done|]. by apply (Hap j'). }
  destruct (op_called _ _ _ _ _ _ Ho i) as (_ & _ & _ & H1).
  destruct (H1 _ _ Hs1) as (r1 & a1 & Hs2 & He1 & Hle1).
  destruct (op_filled _ _ _ _ _ _ Ho i) as (_ & _ & _ & H2).
  destruct (H2 _ _ Hs2) as (r2 & a2 & Hs3 & He2 & Hle2). exists r2, a2.
  split; [done|]. split; [by eapply same_accounts_trans|].
  rewrite (proj1 He1) in Hle2. destruct (Z.eqb_spec (supply_account r) (supply_account r0)); [done|lia].
Qed.

(** The new one is backed, as long as the accounts of all others are token accounts. *)
Lemma opening_new :
  (forall j' (rj : Reserve), holds w j' rj ->
     (exists a, token_at w (supply_account rj) a) /\
     exists c, token_at w (pledged_account rj) c) ->
  exists r' a', secure j w' r' a' /\ same_accounts r r' /\ 0 <= surplus r' a'.
Proof.
  intros Hall. destruct (op_supply _ _ _ _ _ _ Ho) as (a & Ha & Hl).
  assert (Hs : secure j w2 r a).
  { split; [by destruct (op_holds _ _ _ _ _ _ Ho)|done..|]. intros j' rj Hj.
    destruct (op_called _ _ _ _ _ _ Ho j) as (_ & _ & Hn & _).
    destruct (Hn j' rj Hj) as (r1 & Hr1 & He1 & He2). rewrite He1, He2.
    destruct (opening_holds _ _ Hr1) as [[He ->]|[Hne Hw]].
    - split; [done|]. intros Hp. eapply (op_pledged _ _ _ _ _ _ Ho). by rewrite Hp.
    - destruct (Hall j' r1 Hw) as [[b Hb] [c Hc]].
      apply opening_apart in Hb as [Hb _], Hc as [Hc _]. split; congruence. }
  destruct (op_filled _ _ _ _ _ _ Ho j) as (_ & _ & _ & H).
  destruct (H _ _ Hs) as (r' & a' & Hs' & He & Hle). exists r', a'. split; [done|].
  split; [done|]. rewrite Z.eqb_refl in Hle.
  pose proof (tokens_nonneg (program_id:=program_id) a (proj2 Ha)). unfold surplus in Hle |- *. lia.
Qed.
End opened.
End opening.

(** ** Solvency *)

Section solvency.
Context {R : Runtime} {program_id : Pubkey} {L : RuntimeLaws R program_id}.
Context {T : TokenProgram} {TL : TokenLaws R T program_id}.
Implicit Types (w : World) (r : Reserve) (accs : list AccountInfo).

Abbreviation holds := (holds (program_id:=program_id)).
Abbreviation secure := (secure (program_id:=program_id)).
Abbreviation flows := (flows (program_id:=program_id)).
Abbreviation plain := (plain (program_id:=program_id)).
Abbreviation locked_at := (locked_at (program_id:=program_id)).
Abbreviation opening := (opening (program_id:=program_id)).

(** Every reserve has a supply account of its own, out of which only the program can
    pay, with at least the available liquidity in it; and its collateral supply is such
    an account too. *)
Definition solvent w : Prop :=
  forall i r, holds w i r ->
    (exists a, secure i w r a /\ available r <= tokens a) /\
    exists c, locked_at w (pledged_account r) c.

Lemma flows_solvent w w' : (forall i, flows i (fun _ => 0) w w') -> solvent w -> solvent w'.
Proof.
  intros Hf Hs i r' Hr'. destruct (Hf i) as (_ & Ht & Hn & H).
  destruct (Hn i r' Hr') as (r & Hr & He & He').
  destruct (Hs i r Hr) as [(a & Ha & Hle) [c Hc]].
  destruct (H r a Ha) as (r1 & a1 & Ha1 & _ & Hle1).
  rewrite (holds_functional _ _ _ _ Hr' (sec_holds _ _ _ _ Ha1)) in *. split.
  - exists a1. split; [done|]. unfold surplus in Hle1. lia.
  - rewrite He'. by eapply locked_stays.
Qed.

Lemma opening_solvent j r w w1 w2 w' : opening j r w w1 w2 w' -> solvent w -> solvent w'.
Proof.
  intros Ho Hs i r' Hr'. destruct (op_filled _ _ _ _ _ _ Ho i) as (_ & _ & Hn & _).
  destruct (Hn i r' Hr') as (r2 & Hr2 & He2 & He2').
  destruct (op_called _ _ _ _ _ _ Ho i) as (_ & _ & Hn' & _).
  destruct (Hn' i r2 Hr2) as (r1 & Hr1 & He1 & He1').
  destruct (opening_holds _ _ _ _ _ _ Ho _ _ Hr1) as [[Hk ->]|[Hk Hw]].
  - destruct (opening_new _ _ _ _ _ _ Ho) as (r0 & a & Ha & _ & Hle).
    { intros j' rj Hj. destruct (Hs j' rj Hj) as [(b & Hb & _) [c [Hc _]]].
      split; [|by exists c]. exists b. by apply (sec_token _ _ _ _ Hb). }
    apply (secure_key _ i) in Ha; [|done].
    rewrite (holds_functional _ _ _ _ Hr' (sec_holds _ _ _ _ Ha)) in *. split.
    + exists a. split; [done|]. unfold surplus in Hle. lia.
    + rewrite He2', He1'. apply (op_pledges _ _ _ _ _ _ Ho).
  - destruct (Hs i r1 Hw) as [(a & Ha & Hle) [c Hc]].
    destruct (opening_others _ _ _ _ _ _ Ho _ _ _ Ha) as (r0 & a' & Ha' & _ & Hle').
    rewrite (holds_functional _ _ _ _ Hr' (sec_holds _ _ _ _ Ha')) in *. split.
    + exists a'. split; [done|]. unfold surplus in Hle'. lia.
    + rewrite He2', He1'. eapply locked_stays; [|exact Hc].
      by eapply opening_tokens_stay.
Qed.

#[local] Hint Resolve init_market_flows set_market_owner_flows refresh_reserve_instruction_flows
  deposit_instruction_flows redeem_instruction_flows init_obligation_flows
  refresh_obligation_flows pledge_instruction_flows withdraw_instruction_flows
  borrow_instruction_flows repay_instruction_flows deposit_and_pledge_flows
  withdraw_and_redeem_flows liquidate_instruction_flows redeem_fees_flows
  flash_borrow_instruction_flows flash_repay_instruction_flows forgive_instruction_flows
  : flows.

Lemma process_instruction_flows accs input w w' :
  Forall plain accs -> keys_sized accs -> is_u64 (current_slot w) ->
  process_instruction program_id accs input w = Ok w' ->
  (forall i, flows i (fun _ => 0) w w') \/ exists j r w1 w2, opening j r w w1 w2 w'.
Proof.
  unfold process_instruction. intros Hpl Hk Hs H. minv H.
  destruct v; try discriminate;
    try (apply unpack_inv in E as Ht; [|discriminate]; destruct Ht as (_ & _ & Hwf);
         cbn in Hwf; first [destruct Hwf as [[Hn _] Hq] | destruct Hwf as [Hn Hq] | idtac];
         first [by left; eauto with flows | by right; eapply init_reserve_opening]; fail).
  - left. apply unpack_inv in E as (_ & _ & Hc & Hrl); [|discriminate].
    intros i. by eapply update_config_flows.
  - left. minv H. apply metadata_length in E0. intros i. by eapply metadata_flows.
Qed.

(** A step of the chain: an instruction that succeeds, which no address of the program
    signed; or anything that leaves the accounts of the program alone and hands it only
    blank ones, and takes nothing from a token account that only the program can spend
    from. *)
Record outside w w' : Prop := {
  out_keeps : keeps_but (program_id:=program_id) [] w w';
  out_blank : forall (k : Pubkey) a', accounts w' !! k = Some a' -> owner a' = program_id ->
    (exists a, accounts w !! k = Some a /\ owner a = program_id) \/
    data a' = zero_bytes (length (data a'));
  out_tokens : forall k a, locked_at w k a ->
    exists a', locked_at w' k a' /\ tokens a <= tokens a';
}.

Inductive step w w' : Prop :=
  | step_instruction accs input :
      Forall plain accs -> keys_sized accs -> is_u64 (current_slot w) ->
      process_instruction program_id accs input w = Ok w' -> step w w'
  | step_outside : outside w w' -> step w w'.

Lemma step_solvent w w' : step w w' -> solvent w -> solvent w'.
Proof.
  intros [accs input Hpl Hk Hs H|[Hkeep Hblank Htok]] Hsol.
  - apply process_instruction_flows in H as [Hf|(j & r & w1 & w2 & Ho)]; [..|done|done|done].
    + by eapply flows_solvent.
    + by eapply opening_solvent.
  - assert (Hcame : forall j r, holds w' j r -> holds w j r).
    { intros j r. by apply blank_came_from. }
    intros i r Hr%Hcame. destruct (Hsol i r Hr) as [(a & [Hh Ht Hsp Hap] & Hle) [c Hc]]. split.
    + destruct (Htok _ a (conj Ht Hsp)) as (a' & [Ha' Hs'] & Hle'). exists a'.
      split; [|lia]. split; [|done|done|intros j rj Hj%Hcame; by apply (Hap j)].
      eapply keeps_holds; [exact Hkeep|apply not_elem_of_nil|exact Hh].
    + destruct (Htok _ c Hc) as (c' & Hc' & _). by exists c'.
Qed.

(** C5: the reserves stay solvent.  Through any history of the program's instructions,
    in any order and interleaved with whatever other programs do, every reserve keeps a
    supply account of its own that only the program can pay out of and that holds at
    least the liquidity the reserve counts as available; a reserve that is created on
    the way starts that way. *)
Theorem reserves_stay_solvent (w w' : World) (Hrun : rtc step w w') (Hs : solvent w) :
  solvent w'.
Proof. induction Hrun; eauto using step_solvent. Qed.
End solvency.

(** ** A repayment *)

(** The supply of the reserve holds no more than what is available. *)
Definition supply_example : Account := Eval vm_compute in owned_tokens example_authority 5000000.
Definition pledged_example : Account := Eval vm_compute in owned_tokens example_authority 90000000.
Definition solvent_world : World :=
  set_accounts repay_world
    (<[2 := supply_example]> (<[12 := pledged_example]> (accounts repay_world))).

Lemma locked_example k a :
  accounts solvent_world !! k = Some a -> owner a = example_token_program ->
  length (data a) = 165%nat -> token_owner a = example_authority ->
  locked_at (R := example_runtime [] 0) (program_id := example_program) solvent_world k a.
Proof.
  intros Hk Ho Hl Ht. split; [by split|]. intros b Hb. exists []. cbn in Hb. rewrite Ht in Hb.
  cbn. destruct Hb as [Hb|<-]; [discriminate|done].
Qed.

(** The one reserve of this world. *)
Lemma other_lengths :
  forallb (fun ka => (ka.1 =? 20) || negb (length (data ka.2) =? RESERVE_LEN)%nat)
    (map_to_list (accounts solvent_world)) = true.
Proof. vm_compute. reflexivity. Qed.

Lemma reserve_example (i : AccountInfo) r :
  holds (R := example_runtime [] 0) (program_id := example_program) solvent_world i r ->
  key i = 20 /\ r = example_reserve.
Proof.
  intros Hr. assert (Hi : key i = 20).
  { pose proof (proj2 Hr) as Ho.
    apply holds_length in Hr as Hl. unfold data_of, owner_of, get in Hl, Ho.
    destruct (accounts solvent_world !! key i) as [a|] eqn:Ha; [|discriminate].
    assert (Hin : (key i, a) ∈ map_to_list (accounts solvent_world))
      by by apply elem_of_map_to_list.
    pose proof other_lengths as Hall. rewrite forallb_forall in Hall.
    apply list_elem_of_In, Hall in Hin.
    apply orb_true_iff in Hin as [Hin%Z.eqb_eq|Hin]; [exact Hin|].
    change (negb (length (data a) =? RESERVE_LEN)%nat = true) in Hin.
    by rewrite (Hl : length (data a) = RESERVE_LEN), Nat.eqb_refl in Hin. }
  split; [done|]. eapply holds_functional; [exact Hr|].
  eapply (holds_key _ (account 20)); [by rewrite Hi|]. split; vm_compute; reflexivity.
Qed.

Lemma solvent_example :
  solvent (R := example_runtime [] 0) (program_id := example_program) solvent_world.
Proof.
  intros i r Hr. pose proof Hr as [Hi ->]%reserve_example.
  assert (Ha : accounts solvent_world !! 2 = Some supply_example) by (vm_compute; reflexivity).
  assert (Hc : accounts solvent_world !! 12 = Some pledged_example) by (vm_compute; reflexivity).
  split.
  - destruct (locked_example 2 supply_example Ha) as [Ht Hs]; [by vm_compute..|].
    exists supply_example. split; [|by vm_compute]. split; [done..|].
    intros j rj Hj. apply reserve_example in Hj as [Hj ->]. split; [congruence|discriminate].
  - exists pledged_example. apply locked_example; [exact Hc|by vm_compute..].
Qed.

Lemma reserves_stay_solvent_witness :
  solvent (R := example_runtime [] 0) (program_id := example_program) solvent_world /\
  exists w', process_instruction (H := example_runtime [] 0) example_program repay_accounts
      repay_input solvent_world = Ok w' /\
    solvent (R := example_runtime [] 0) (program_id := example_program) w'.
Proof.
  split; [exact solvent_example|].
  assert (Hok : is_ok (process_instruction (H := example_runtime [] 0) example_program
    repay_accounts repay_input solvent_world) = true) by (vm_compute; reflexivity).
  apply is_ok_true in Hok as [w' H]. exists w'. split; [exact H|].
  apply (reserves_stay_solvent (R := example_runtime [] 0) (program_id := example_program)
    solvent_world w'); [|exact solvent_example].
  apply rtc_once. eapply step_instruction; [|exact repay_keys| |exact H].
  - repeat apply list.Forall_cons_2; [..|by apply list.Forall_nil];
      intros Hs (seeds & Hp); first [discriminate Hs|discriminate Hp].
  - vm_compute. by split.
Defined.
