(* ===== verification/SourceTests.v ===== *)
(** The repository's own tests of the SDK, run on the model.

    A test is the computation its function describes: an assertion that does not hold
    panics, as [unwrap] of an error does, and the test passes if it ends with [Ok tt].
    The unit tests and the tables of cases are evaluated.  The property tests draw their
    arguments from ranges: each is proved to pass for every argument, or refuted by an
    argument in its range. *)

From Stdlib Require Import Strings.String.
From S2P Require Import Prelude Errors Common Rate Decimal RatePow Codec LastUpdate.
From S2P Require Import RateLimiter RateLimiterSpec ReserveConfig ReserveConfigSpec.
From S2P Require Import ObligationCollateral ObligationLiquidity Obligation.
From S2P Require Import ReserveLiquidity ReserveCollateral Reserve ReserveRates ReserveExchange.
From S2P Require Import ObligationWithdraw LendingMarket ReserveCodec ObligationCodec.
From S2P Require Import Nonneg Instruction Runtime ProcessorHelpers ExampleRuntime.
Close Scope string_scope.

(** ** Assertions *)

Definition assert_that (b : bool) : result unit := if b then Ok tt else Panic.
Definition assert_eq {A : Type} `{EqDecision A} (a b : A) : result unit :=
  assert_that (bool_decide (a = b)).

#[export] Instance outcome_eq_dec {E A : Type} `{EqDecision E} `{EqDecision A} :
  EqDecision (outcome E A).
Proof. solve_decision. Defined.
#[export] Instance string_eq_decision : EqDecision string := string_dec.
#[export] Instance borrow_result_eq_dec : EqDecision CalculateBorrowResult.
Proof. solve_decision. Defined.
#[export] Instance liquidation_result_eq_dec : EqDecision CalculateLiquidationResult.
Proof. solve_decision. Defined.

(** Every case of a table. *)
Fixpoint each {A : Type} (test : A -> result unit) (cases : list A) : result unit :=
  match cases with
  | [] => Ok tt
  | c :: cases => test c;;? each test cases
  end.

Lemma assert_passes (b : bool) : b = true -> assert_that b = Ok tt.
Proof. by intros ->. Qed.

Lemma assert_eq_passes {A : Type} `{EqDecision A} (a b : A) : a = b -> assert_eq a b = Ok tt.
Proof. intros H1. by apply assert_passes, bool_decide_eq_true. Qed.

(** ** math/rate.rs *)

Module rate_test.
Definition test_scaled_val : result unit :=
  assert_eq (Rate.to_scaled_val (Rate.from_percent 50)) HALF_WAD.

Definition checked_pow : result unit :=
  let? p := unwrap (try_pow Rate.one u64_max) in
  assert_eq Rate.one p;;?
  let? p := unwrap (try_pow (Rate.from_percent 200) 7) in
  let? q := unwrap (rate_try_from (from_int 128)) in
  assert_eq p q.

Definition test_display : result unit :=
  let? r := unwrap (try_div Rate.one 3) in
  assert_eq (Rate.to_string r) "0.333333333333333333"%string.

Definition test_basic_arithmetic : result unit :=
  let? r := unwrap (try_add Rate.one Rate.one) in
  assert_eq r (Rate.from_scaled_val (2 * WAD));;?
  let? r := unwrap (try_sub Rate.one Rate.one) in
  assert_eq r Rate.zero;;?
  let? r := unwrap (try_mul (Rate.from_percent 240) (Rate.from_percent 50)) in
  assert_eq r (Rate.from_percent 120);;?
  let? r := unwrap (try_mul (Rate.from_percent 240) 10) in
  let? q := unwrap (rate_try_from (from_int 24)) in
  assert_eq r q;;?
  let? r := unwrap (try_div (Rate.from_percent 240) (Rate.from_percent 60)) in
  assert_eq r (Rate.from_scaled_val (4 * WAD)).

Example rate_tests_pass :
  test_scaled_val = Ok tt /\ checked_pow = Ok tt /\ test_display = Ok tt /\
  test_basic_arithmetic = Ok tt.
Proof. vm_compute. split_and!; reflexivity. Qed.
End rate_test.

(** ** math/decimal.rs *)

Module decimal_test.
Definition test_scaler : result unit := assert_eq (10 ^ Z.of_nat SCALE) WAD.

Definition test_from_percent : result unit :=
  let? right := unwrap (try_div (from_int 20) (from_int 100)) in
  assert_eq (Decimal.from_percent 20) right.

Definition test_from_deca_bps : result unit :=
  let? left := from_deca_bps 250 in
  assert_eq left (Decimal.from_percent 25).

Definition test_from_bps : result unit :=
  let? left := from_bps 190000 in
  assert_eq left (from_int 19).

Definition test_to_scaled_val : result unit :=
  let? v := unwrap (to_scaled_val (mkDecimal (2 ^ 128 - 1))) in
  assert_eq v (2 ^ 128 - 1);;?
  let? d := unwrap (try_add (mkDecimal (2 ^ 128 - 1)) (mkDecimal 1)) in
  assert_eq (to_scaled_val d) (fail MathOverflow).

Definition rounds (val : Decimal) (round floor ceil : Z) : result unit :=
  let? n := unwrap (try_round_u64 val) in
  assert_eq n round;;?
  let? n := unwrap (try_floor_u64 val) in
  assert_eq n floor;;?
  let? n := unwrap (try_ceil_u64 val) in
  assert_eq n ceil.

Definition test_round_floor_ceil_u64 : result unit :=
  let val := Decimal.one in
  rounds val 1 1 1;;?
  let? val := unwrap (try_add val (Decimal.from_scaled_val (HALF_WAD - 1))) in
  rounds val 1 1 2;;?
  let? val := unwrap (try_add val (Decimal.from_scaled_val 1)) in
  rounds val 2 1 2.

Definition test_display : result unit :=
  assert_eq (Decimal.to_string (from_int 1)) "1.000000000000000000"%string;;?
  assert_eq (Decimal.to_string (Decimal.from_scaled_val 1)) "0.000000000000000001"%string.

Example decimal_tests_pass :
  test_scaler = Ok tt /\ test_from_percent = Ok tt /\ test_from_deca_bps = Ok tt /\
  test_from_bps = Ok tt /\ test_to_scaled_val = Ok tt /\
  test_round_floor_ceil_u64 = Ok tt /\ test_display = Ok tt.
Proof. vm_compute. split_and!; reflexivity. Qed.
End decimal_test.

(** ** state/rate_limiter.rs

    A call that fails has moved the window already. *)

Module rate_limiter_test.
Definition moved (self : RateLimiter) (slot : Z) : RateLimiter :=
  match _update self slot with Ok self => self | _ => self end.

Definition refused (self : RateLimiter) (slot n : Z) (e : LendingError) : result RateLimiter :=
  match update self slot (from_int n) with
  | Ok _ => Panic
  | r => assert_eq r (fail e);;? Ok (moved self slot)
  end.

Definition admitted (self : RateLimiter) (slot n : Z) : result RateLimiter :=
  unwrap (update self slot (from_int n)).

Definition remains (self : RateLimiter) (slot n : Z) : result RateLimiter :=
  let? ' (self, d) := unwrap (remaining_outflow self slot) in
  assert_eq d (from_int n);;? Ok self.

(** [for i in from..from + n]. *)
Fixpoint for_slots (n : nat) (from : Z) (body : Z -> RateLimiter -> result RateLimiter)
    (self : RateLimiter) : result RateLimiter :=
  match n with
  | O => Ok self
  | S n => let? self := body from self in for_slots n (from + 1) body self
  end.

Definition test_rate_limiter : result unit :=
  let self := RateLimiter.new (mkRateLimiterConfig 10 100) 10 in
  let? self := refused self 9 1 InvalidAccountInput in
  let? self := refused self 10 101 OutflowRateLimitExceeded in
  let? self := remains self 10 100 in
  let? self := admitted self 10 100 in
  let? self := remains self 10 0 in
  let? self := for_slots 9 11 (fun i self =>
    let? self := refused self i 1 OutflowRateLimitExceeded in
    remains self i 0) self in
  let? self := for_slots 10 20 (fun i self =>
    let? self := refused self i 11 OutflowRateLimitExceeded in
    let? self := remains self i 10 in
    let? self := admitted self i 10 in
    let? self := remains self i 0 in
    refused self i 1 OutflowRateLimitExceeded) self in
  let? self := remains self 100 100 in
  let? self := admitted self 100 10 in
  let? self := for_slots 8 101 (fun i self =>
    let? self := remains self i (100 - 10 * (i - 100)) in
    let? self := admitted self i 10 in
    remains self i (90 - 10 * (i - 100))) self in
  Ok tt.

Example rate_limiter_test_passes : test_rate_limiter = Ok tt.
Proof. vm_compute. reflexivity. Qed.
End rate_limiter_test.

(** ** state/reserve.rs: the cases *)

Module reserve_test.
Definition LAMPORTS_PER_SOL : Z := 1000000000.

(** [..Reserve::default()]. *)
Definition reserve_with (l : ReserveLiquidity) (c : ReserveCollateral) (cfg : ReserveConfig)
    : Reserve :=
  mkReserve 0 LastUpdate.default 0 l c cfg RateLimiter.default.

Definition priced_liquidity (decimals available : Z) (price smoothed : Decimal)
    : ReserveLiquidity :=
  mkReserveLiquidity 0 decimals 0 0 0 available Decimal.zero Decimal.zero Decimal.zero price
    smoothed.

(** *** Fees *)

Definition fees_too_small (fees : ReserveFees) (amount : Z) : result unit :=
  assert_eq (calculate_borrow_fees fees (from_int amount) Exclusive) (fail BorrowTooSmall).

Definition fees_are (fees : ReserveFees) (amount total host : Z) : result unit :=
  let? ' (total_fee, host_fee) :=
    unwrap (calculate_borrow_fees fees (from_int amount) Exclusive) in
  assert_eq total_fee total;;? assert_eq host_fee host.

Definition one_percent (host : Z) : ReserveFees := mkReserveFees 10000000000000000 0 host.

Definition borrow_fee_calculation_min_host : result unit :=
  fees_too_small (one_percent 20) 2;;?
  fees_too_small (one_percent 20) 1;;?
  fees_are (one_percent 20) 0 0 0.

Definition borrow_fee_calculation_min_no_host : result unit :=
  fees_are (one_percent 0) 2 1 0;;?
  fees_too_small (one_percent 0) 1;;?
  fees_are (one_percent 0) 0 0 0.

Definition borrow_fee_calculation_host : result unit := fees_are (one_percent 20) 1000 10 2.
Definition borrow_fee_calculation_no_host : result unit := fees_are (one_percent 0) 1000 10 0.

Example fee_tests_pass :
  borrow_fee_calculation_min_host = Ok tt /\ borrow_fee_calculation_min_no_host = Ok tt /\
  borrow_fee_calculation_host = Ok tt /\ borrow_fee_calculation_no_host = Ok tt.
Proof. vm_compute. split_and!; reflexivity. Qed.

(** *** The protocol's fee and market values *)

Definition protocol_fee_reserve (fee : Z) : Reserve :=
  reserve_with ReserveLiquidity.default ReserveCollateral.default
    (mkReserveConfig 0 0 0 0 0 0 0 0 0 0 0 reserve_fees_default 0 0 0 fee 0 0 Regular).

Definition calculate_protocol_liquidation_fee : result unit :=
  let? n := unwrap (Reserve.calculate_protocol_liquidation_fee (protocol_fee_reserve 10) 105
                      (Decimal.from_percent 105)) in
  assert_eq n 1;;?
  let? n := unwrap (Reserve.calculate_protocol_liquidation_fee (protocol_fee_reserve 20) 105
                      (Decimal.from_percent 105)) in
  assert_eq n 2.

Definition priced_reserve : Reserve :=
  reserve_with (priced_liquidity 9 0 (from_int 25) (from_int 50)) ReserveCollateral.default
    reserve_config_default.

Definition market_value : result unit :=
  let? v := unwrap (Reserve.market_value priced_reserve (from_int 1)) in
  let? q := unwrap (try_div (from_int 25) 1000000000) in
  assert_eq v q;;?
  let? v := unwrap (Reserve.market_value priced_reserve (from_int (10 * LAMPORTS_PER_SOL))) in
  assert_eq v (from_int 250);;?
  let? v := unwrap (market_value_lower_bound priced_reserve
                      (from_int (10 * LAMPORTS_PER_SOL))) in
  assert_eq v (from_int 250);;?
  let? v := unwrap (market_value_upper_bound priced_reserve
                      (from_int (10 * LAMPORTS_PER_SOL))) in
  assert_eq v (from_int 500).

Definition usd_to_liquidity_amount_lower_bound : result unit :=
  let? v := unwrap (Reserve.usd_to_liquidity_amount_lower_bound priced_reserve (from_int 100)) in
  assert_eq v (from_int (2 * LAMPORTS_PER_SOL)).

Example value_tests_pass :
  calculate_protocol_liquidation_fee = Ok tt /\ market_value = Ok tt /\
  usd_to_liquidity_amount_lower_bound = Ok tt.
Proof. vm_compute. split_and!; reflexivity. Qed.

(** *** Validation *)

Record ReserveConfigTestCase : Type := mkReserveConfigTestCase {
  rct_config : ReserveConfig;
  rct_result : result unit;
}.

(** The fields that the cases set: the loan to value ratio, the thresholds and bonuses,
    the protocol's fee and the type. *)
Definition config_case (ltv threshold max_threshold bonus max_bonus fee : Z)
    (t : ReserveType) (r : result unit) : ReserveConfigTestCase :=
  mkReserveConfigTestCase
    (mkReserveConfig 0 0 ltv bonus max_bonus threshold max_threshold 0 0 0 0
       reserve_fees_default 0 0 0 fee 0 0 t) r.

Definition reserve_config_test_cases : list ReserveConfigTestCase :=
  [config_case 1 0 0 0 0 0 Isolated (fail InvalidConfig);
   config_case 0 1 0 0 0 0 Isolated (fail InvalidConfig);
   config_case 0 0 0 0 0 0 Isolated (Ok tt);
   config_case 0 85 75 0 0 0 Regular (fail InvalidConfig);
   config_case 0 0 0 10 5 0 Regular (fail InvalidConfig);
   config_case 0 0 0 0 20 50 Regular (Ok tt);
   config_case 0 0 0 0 20 60 Regular (fail InvalidConfig);
   config_case 0 0 0 0 0 51 Regular (fail InvalidConfig)].

Definition test_validate_reserve_config (c : ReserveConfigTestCase) : result unit :=
  assert_eq (validate_reserve_config (rct_config c)) (rct_result c).

Example validation_cases_pass :
  each test_validate_reserve_config reserve_config_test_cases = Ok tt.
Proof. vm_compute. reflexivity. Qed.

(** *** The bonus *)

Record LiquidationBonusTestCase : Type := mkLiquidationBonusTestCase {
  lbt_borrowed_value : Decimal;
  lbt_unhealthy_borrow_value : Decimal;
  lbt_super_unhealthy_borrow_value : Decimal;
  lbt_liquidation_bonus : Z;
  lbt_max_liquidation_bonus : Z;
  lbt_protocol_liquidation_fee : Z;
  lbt_result : result Decimal;
}.

Definition bonus_case (borrowed unhealthy super bonus max_bonus fee : Z) (r : result Decimal)
    : LiquidationBonusTestCase :=
  mkLiquidationBonusTestCase (from_int borrowed) (from_int unhealthy) (from_int super)
    bonus max_bonus fee r.

Definition calculate_bonus_test_cases : list LiquidationBonusTestCase :=
  [bonus_case 100 101 150 10 20 10 (fail ObligationHealthy);
   bonus_case 100 100 150 10 20 10 (Ok (Decimal.from_percent 11));
   bonus_case 100 50 150 10 20 10 (Ok (Decimal.from_percent 16));
   bonus_case 100 50 100 10 20 10 (Ok (Decimal.from_percent 21));
   bonus_case 200 50 100 10 20 10 (Ok (Decimal.from_percent 21));
   bonus_case 60 50 50 10 20 10 (Ok (Decimal.from_percent 11));
   bonus_case 60 40 60 10 30 10 (Ok (Decimal.from_percent 25));
   bonus_case 60 40 60 30 30 30 (Ok (Decimal.from_percent 25))].

Definition calculate_bonus (c : LiquidationBonusTestCase) : result unit :=
  let reserve :=
    reserve_with ReserveLiquidity.default ReserveCollateral.default
      (mkReserveConfig 0 0 0 (lbt_liquidation_bonus c) (lbt_max_liquidation_bonus c) 0 0 0 0 0
         0 reserve_fees_default 0 0 0 (lbt_protocol_liquidation_fee c) 0 0 Regular) in
  let obligation :=
    mkObligation 0 LastUpdate.default 0 0 [] [] Decimal.zero (lbt_borrowed_value c)
      Decimal.zero Decimal.zero (lbt_unhealthy_borrow_value c)
      (lbt_super_unhealthy_borrow_value c) false in
  assert_eq (Reserve.calculate_bonus reserve obligation) (lbt_result c).

Example bonus_cases_pass : each calculate_bonus calculate_bonus_test_cases = Ok tt.
Proof. vm_compute. reflexivity. Qed.

(** *** Liquidation *)

Record LiquidationTestCase : Type := mkLiquidationTestCase {
  lct_deposit_amount : Z;
  lct_deposit_market_value : Decimal;
  lct_borrow_amount : Z;
  lct_borrow_market_value : Decimal;
  lct_liquidation_result : CalculateLiquidationResult;
}.

(** What a close factor of the debt is worth, with the bonus. *)
Definition close_of (n : Z) : Z := n * LIQUIDATION_CLOSE_FACTOR / 100.
Definition seized_of (n : Z) : Z := n * LIQUIDATION_CLOSE_FACTOR * 105 / 10000.

Definition calculate_liquidation_test_cases : result (list LiquidationTestCase) :=
  let close_factor := from_rate (Rate.from_percent LIQUIDATION_CLOSE_FACTOR) in
  let? bonus := unwrap (try_add (Rate.from_percent 5) Rate.one) in
  let liquidation_bonus := from_rate bonus in
  let? settle_amount := unwrap (try_mul close_factor (from_int 800)) in
  let? repay_amount := unwrap (try_ceil_u64 settle_amount) in
  let? withdrawn := unwrap (try_mul close_factor liquidation_bonus) in
  let? withdrawn := unwrap (try_mul withdrawn (from_int 800)) in
  let? withdraw_amount := unwrap (try_floor_u64 withdrawn) in
  let? price := from_bps 5250 in
  Ok [mkLiquidationTestCase 1000 (from_int 100) 800 (from_int 80)
        (mkCalculateLiquidationResult settle_amount repay_amount withdraw_amount
           liquidation_bonus);
      mkLiquidationTestCase (seized_of 8000) (from_int (seized_of 8000)) 8000 (from_int 8000)
        (mkCalculateLiquidationResult (from_int (close_of 8000)) (close_of 8000)
           (seized_of 8000) liquidation_bonus);
      mkLiquidationTestCase (seized_of 8000 / 2) (from_int (seized_of 8000 / 2)) 8000
        (from_int 8000)
        (mkCalculateLiquidationResult (from_int (close_of 8000 / 2)) (close_of 8000 / 2)
           (seized_of 8000 / 2) liquidation_bonus);
      mkLiquidationTestCase 100 (from_int 1) 100 (Decimal.from_percent 50)
        (mkCalculateLiquidationResult (from_int 100) 100 52 liquidation_bonus);
      mkLiquidationTestCase 1000 (Decimal.from_percent 105) 1 (from_int 1)
        (mkCalculateLiquidationResult (from_int 1) 1 1000 liquidation_bonus);
      mkLiquidationTestCase 10 price 10 Decimal.one
        (mkCalculateLiquidationResult (from_int 5) 5 10 liquidation_bonus);
      mkLiquidationTestCase 1 (from_int 10) 1 Decimal.one
        (mkCalculateLiquidationResult (from_int 1) 1 1 liquidation_bonus)].

Definition calculate_liquidation (c : LiquidationTestCase) : result unit :=
  let reserve :=
    reserve_with ReserveLiquidity.default ReserveCollateral.default
      (mkReserveConfig 0 0 0 5 5 0 0 0 0 0 0 reserve_fees_default 0 0 0 0 0 0 Regular) in
  let deposit :=
    mkObligationCollateral 1 (lct_deposit_amount c) (lct_deposit_market_value c) in
  let borrow :=
    mkObligationLiquidity 2 Decimal.one (from_int (lct_borrow_amount c))
      (lct_borrow_market_value c) in
  let obligation :=
    mkObligation 0 LastUpdate.default 0 0 [deposit] [borrow] Decimal.zero
      (lct_borrow_market_value c) Decimal.zero Decimal.zero (lct_borrow_market_value c)
      (lct_borrow_market_value c) false in
  let? r := unwrap (Reserve.calculate_liquidation reserve u64_max obligation borrow deposit) in
  assert_eq r (lct_liquidation_result c).

Example liquidation_cases_pass :
  (let? cases := calculate_liquidation_test_cases in each calculate_liquidation cases) = Ok tt.
Proof. vm_compute. reflexivity. Qed.

(** *** Borrowing *)

Record CalculateBorrowTestCase : Type := mkCalculateBorrowTestCase {
  cbt_borrow_amount : Z;
  cbt_remaining_borrow_value : Decimal;
  cbt_remaining_reserve_capacity : Decimal;
  cbt_market_price : Decimal;
  cbt_smoothed_market_price : Decimal;
  cbt_decimal : Z;
  cbt_added_borrow_weight_bps : Z;
  cbt_borrow_fee_wad : Z;
  cbt_host_fee : Z;
  cbt_result : result CalculateBorrowResult;
}.

Definition calculate_borrow_test_cases : list CalculateBorrowTestCase :=
  let SOL := LAMPORTS_PER_SOL in
  let fee := 10000000000000000 in
  let with_fee :=
    Ok (mkCalculateBorrowResult (from_int (SOL * 101 / 100)) SOL (SOL / 100)
          (SOL / 100 / 100 * 20)) in
  let without_fee := fun n => Ok (mkCalculateBorrowResult (from_int n) n 0 0) in
  [mkCalculateBorrowTestCase SOL (from_int 10) (from_int (SOL * 10)) (from_int 1) (from_int 1)
     9 0 fee 20 with_fee;
   mkCalculateBorrowTestCase u64_max (from_int 10) (from_int (SOL * 101 / 100)) (from_int 1)
     (from_int 1) 9 0 fee 20 with_fee;
   mkCalculateBorrowTestCase (SOL / 2) (from_int 1) (from_int SOL) (from_int 1) (from_int 1)
     9 10000 0 0 (without_fee (SOL / 2));
   mkCalculateBorrowTestCase u64_max (from_int 1) (from_int SOL) (from_int 1) (from_int 1)
     9 10000 0 0 (without_fee (SOL / 2));
   mkCalculateBorrowTestCase u64_max (from_int 100) (from_int (100 * SOL)) (from_int 10)
     (from_int 20) 9 0 0 0 (without_fee (5 * SOL));
   mkCalculateBorrowTestCase u64_max (from_int 100) (from_int (100 * SOL)) (from_int 20)
     (from_int 10) 9 0 0 0 (without_fee (5 * SOL));
   mkCalculateBorrowTestCase (7 * SOL) (from_int 100) (from_int (100 * SOL)) (from_int 10)
     (from_int 20) 9 0 0 0 (fail BorrowTooLarge)].

(** [as u64] keeps the low 64 bits. *)
Definition calculate_borrow (c : CalculateBorrowTestCase) : result unit :=
  let? capacity := unwrap (Decimal.to_scaled_val (cbt_remaining_reserve_capacity c)) in
  let reserve :=
    reserve_with
      (priced_liquidity (cbt_decimal c) (capacity mod 2 ^ 64) (cbt_market_price c)
         (cbt_smoothed_market_price c))
      ReserveCollateral.default
      (mkReserveConfig 0 0 0 0 0 0 0 0 0 0 0
         (mkReserveFees (cbt_borrow_fee_wad c) 0 (cbt_host_fee c)) 0 0 0 0 0
         (cbt_added_borrow_weight_bps c) Regular) in
  assert_eq (Reserve.calculate_borrow reserve (cbt_borrow_amount c)
               (cbt_remaining_borrow_value c) (cbt_remaining_reserve_capacity c))
    (cbt_result c).

Example borrow_cases_pass : each calculate_borrow calculate_borrow_test_cases = Ok tt.
Proof. vm_compute. reflexivity. Qed.
End reserve_test.

(** ** state/obligation.rs: the cases *)

Module obligation_test.
Import reserve_test.
Definition MAX_COMPOUNDED_INTEREST : Z := 100.

(** [..ObligationLiquidity::default()] and [..Obligation::default()]. *)
Definition debt (index amount value : Decimal) : ObligationLiquidity :=
  mkObligationLiquidity 0 index amount value.

Definition obligation_accrue_interest_failure : result unit :=
  assert_eq (ObligationLiquidity.accrue_interest
               (debt Decimal.zero Decimal.zero Decimal.zero) Decimal.one)
    (fail MathOverflow);;?
  assert_eq (ObligationLiquidity.accrue_interest
               (debt (from_int 2) Decimal.zero Decimal.zero) Decimal.one)
    (fail NegativeInterestRate);;?
  assert_eq (ObligationLiquidity.accrue_interest
               (debt Decimal.one (from_int u64_max) Decimal.zero)
               (from_int (10 * MAX_COMPOUNDED_INTEREST)))
    (fail MathOverflow).

Definition valued_obligation (value : Decimal) (borrow : ObligationLiquidity) : Obligation :=
  mkObligation 0 LastUpdate.default 0 0 [] [borrow] value value Decimal.zero Decimal.zero
    Decimal.zero Decimal.zero false.

Definition liquidates_at_most (value : Decimal) (borrow : ObligationLiquidity)
    (expected : Decimal) : result unit :=
  let? n := unwrap (max_liquidation_amount (valued_obligation value borrow) borrow) in
  assert_eq n expected.

Definition max_liquidation_amount_normal : result unit :=
  let? e := unwrap (try_mul (from_int 50) (from_int LIQUIDATION_CLOSE_FACTOR)) in
  let? expected_collateral := unwrap (try_div e 100) in
  liquidates_at_most (from_int 100) (debt Decimal.zero (from_int 50) (from_int 100))
    expected_collateral.

Definition max_liquidation_amount_low_liquidity : result unit :=
  liquidates_at_most (from_int 100) (debt Decimal.zero (from_int 100) (from_int 1))
    (from_int 100).

Definition max_liquidation_amount_big_whale : result unit :=
  liquidates_at_most (from_int 1000000000)
    (debt Decimal.zero (from_int 1000000000) (from_int 1000000000))
    (from_int MAX_LIQUIDATABLE_VALUE_AT_ONCE).

Example obligation_tests_pass :
  obligation_accrue_interest_failure = Ok tt /\ max_liquidation_amount_normal = Ok tt /\
  max_liquidation_amount_low_liquidity = Ok tt /\ max_liquidation_amount_big_whale = Ok tt.
Proof. vm_compute. split_and!; reflexivity. Qed.

Record MaxWithdrawAmountTestCase : Type := mkMaxWithdrawAmountTestCase {
  mwt_obligation : Obligation;
  mwt_reserve : Reserve;
  mwt_expected_max_withdraw_amount : Z;
}.

(** An obligation with one deposit, its debts, and the values that the cases set. *)
Definition withdraw_obligation (deposited : Z) (borrows : list ObligationLiquidity)
    (deposited_value upper_bound allowed : Z) : Obligation :=
  mkObligation 0 LastUpdate.default 0 0 [mkObligationCollateral 0 deposited Decimal.zero]
    borrows (from_int deposited_value) Decimal.zero (from_int upper_bound) (from_int allowed)
    Decimal.zero Decimal.zero false.

Definition ltv_config (ltv : Z) : ReserveConfig :=
  mkReserveConfig 0 0 ltv 0 0 0 0 0 0 0 0 reserve_fees_default 0 0 0 0 0 0 Regular.

Definition max_withdraw_amount_test_cases : list MaxWithdrawAmountTestCase :=
  let SOL := LAMPORTS_PER_SOL in
  let ten := [debt Decimal.zero (from_int 10) Decimal.zero] in
  let ltv_reserve :=
    reserve_with ReserveLiquidity.default ReserveCollateral.default (ltv_config 50) in
  let priced_reserve :=
    reserve_with (priced_liquidity 9 (100 * SOL) (from_int 10) (from_int 5))
      (mkReserveCollateral 0 (50 * SOL) 0) (ltv_config 50) in
  [mkMaxWithdrawAmountTestCase (withdraw_obligation (20 * SOL) ten 100 50 50) ltv_reserve 0;
   mkMaxWithdrawAmountTestCase (withdraw_obligation (20 * SOL) ten 0 50 100) priced_reserve
     (10 * SOL);
   mkMaxWithdrawAmountTestCase (withdraw_obligation (2 * SOL) ten 0 50 100) priced_reserve
     (2 * SOL);
   mkMaxWithdrawAmountTestCase (withdraw_obligation (100 * SOL) [] 0 0 100) ltv_reserve
     (100 * SOL);
   mkMaxWithdrawAmountTestCase (withdraw_obligation (100 * SOL) ten 0 50 100) Reserve.default
     (100 * SOL);
   mkMaxWithdrawAmountTestCase (withdraw_obligation (100 * SOL) ten 0 100 100) Reserve.default
     0].

Definition max_withdraw_amount (c : MaxWithdrawAmountTestCase) : result unit :=
  let? collateral := unwrap_option (head (deposits (mwt_obligation c))) in
  let? n :=
    unwrap (ObligationWithdraw.max_withdraw_amount (mwt_obligation c) collateral
              (mwt_reserve c)) in
  assert_eq n (mwt_expected_max_withdraw_amount c).

Example withdraw_cases_pass :
  each max_withdraw_amount max_withdraw_amount_test_cases = Ok tt.
Proof. vm_compute. reflexivity. Qed.
End obligation_test.

(** ** state/reserve.rs: the properties *)

Module reserve_properties.
Import reserve_test.
Definition MAX_LIQUIDITY : Z := u64_max / 5.

(** A liquidity of which a fraction is lent out.  The subtraction panics below zero. *)
Definition lent (total_liquidity borrowed_percent : Z) : result ReserveLiquidity :=
  let? borrowed_amount_wads :=
    try_mul (from_int total_liquidity) (Rate.from_scaled_val borrowed_percent) in
  let? rounded := try_round_u64 borrowed_amount_wads in
  let? available_amount := unwrap_option (checked_sub total_liquidity rounded) in
  Ok (mkReserveLiquidity 0 0 0 0 0 available_amount borrowed_amount_wads Decimal.zero
        Decimal.zero Decimal.zero Decimal.zero).

(** Two percentages in order, and four rates in order, the last a [u64]. *)
Definition utilizations (a b : Z) : Prop := 0 <= a <= b /\ b <= 100.
Definition borrow_rates (a b c d : Z) : Prop := 0 <= a <= b /\ b <= c <= 255 /\ c <= d <= u64_max.

Definition current_borrow_rate (total_liquidity borrowed_percent optimal_utilization_rate
    max_utilization_rate min_borrow_rate optimal_borrow_rate max_borrow_rate
    super_max_borrow_rate : Z) : result unit :=
  let? l := lent total_liquidity borrowed_percent in
  let reserve :=
    reserve_with l ReserveCollateral.default
      (mkReserveConfig optimal_utilization_rate max_utilization_rate 0 0 0 0 0 min_borrow_rate
         optimal_borrow_rate max_borrow_rate super_max_borrow_rate reserve_fees_default
         0 0 0 0 0 0 Regular) in
  let? rate := Reserve.current_borrow_rate reserve in
  assert_that (rate_le (Rate.from_percent min_borrow_rate) rate);;?
  assert_that (rate_le rate (Rate.from_percent_u64 super_max_borrow_rate));;?
  let? current_rate := utilization_rate l in
  if rate_le current_rate (Rate.from_percent optimal_utilization_rate) then
    assert_that (rate_le rate (Rate.from_percent optimal_borrow_rate))
  else if rate_le current_rate (Rate.from_percent max_utilization_rate) then
    assert_that (rate_le (Rate.from_percent optimal_borrow_rate) rate);;?
    assert_that (rate_le rate (Rate.from_percent max_borrow_rate))
  else
    assert_that (rate_le (Rate.from_percent max_borrow_rate) rate);;?
    assert_that (rate_le rate (Rate.from_percent_u64 super_max_borrow_rate)).

Definition current_utilization_rate (total_liquidity borrowed_percent : Z) : result unit :=
  let? l := lent total_liquidity borrowed_percent in
  let? current_rate := utilization_rate l in
  assert_that (rate_le current_rate Rate.one).

Definition collateral_exchange_rate (total_liquidity borrowed_percent collateral_multiplier
    borrow_rate : Z) : result unit :=
  let? l := lent total_liquidity borrowed_percent in
  let? m := try_mul (from_int total_liquidity) (Rate.from_scaled_val collateral_multiplier) in
  let? mint_total_supply := try_round_u64 m in
  let reserve :=
    reserve_with l (mkReserveCollateral 0 mint_total_supply 0)
      (mkReserveConfig 100 0 0 0 0 0 0 borrow_rate borrow_rate 0 0 reserve_fees_default
         0 0 0 0 0 0 Regular) in
  let? exchange_rate := Reserve.collateral_exchange_rate reserve in
  assert_that (Rate.to_scaled_val (exchange_rate_inner exchange_rate) <=? 5 * WAD);;?
  let? reserve := Reserve.accrue_interest reserve 1 in
  let? new_exchange_rate := Reserve.collateral_exchange_rate reserve in
  if (0 <? borrow_rate) && (0 <? total_liquidity) && (0 <? borrowed_percent) then
    assert_that (rate_lt (exchange_rate_inner new_exchange_rate)
                   (exchange_rate_inner exchange_rate))
  else
    assert_eq (exchange_rate_inner new_exchange_rate) (exchange_rate_inner exchange_rate).

(** [n] rounds of the loop. *)
Fixpoint compounded (n : nat) (borrow_rate : Rate) (slots_elapsed : Z) (take_rate : Rate)
    (l : ReserveLiquidity) : result unit :=
  match n with
  | O => Ok tt
  | S n =>
      let? l := ReserveLiquidity.compound_interest l borrow_rate slots_elapsed take_rate in
      Decimal.to_scaled_val (cumulative_borrow_rate_wads l);;?
      Decimal.to_scaled_val (accumulated_protocol_fees_wads l);;?
      compounded n borrow_rate slots_elapsed take_rate l
  end.

Definition compound_interest (slots_elapsed borrow_rate take_rate : Z) : result unit :=
  compounded 1000 (Rate.from_percent borrow_rate) slots_elapsed (Rate.from_percent take_rate)
    ReserveLiquidity.default.

Definition reserve_accrue_interest (slots_elapsed borrowed_liquidity borrow_rate : Z)
    : result unit :=
  let borrowed_amount_wads := from_int borrowed_liquidity in
  let reserve :=
    reserve_with
      (mkReserveLiquidity 0 0 0 0 0 0 borrowed_amount_wads Decimal.zero Decimal.zero
         Decimal.zero Decimal.zero)
      ReserveCollateral.default
      (mkReserveConfig 0 0 0 0 0 0 0 borrow_rate borrow_rate borrow_rate borrow_rate
         reserve_fees_default 0 0 0 0 0 0 Regular) in
  let? reserve := Reserve.accrue_interest reserve slots_elapsed in
  if (0 <? borrow_rate) && (0 <? slots_elapsed) then
    assert_that (dec_lt borrowed_amount_wads
                   (ReserveLiquidity.borrowed_amount_wads (liquidity reserve)))
  else
    assert_that (dec_eqb (ReserveLiquidity.borrowed_amount_wads (liquidity reserve))
                   borrowed_amount_wads).

Definition borrow_fee_calculation (borrow_fee_wad flash_loan_fee_wad host_fee_percentage
    borrow_amount : Z) : result unit :=
  let fees := mkReserveFees borrow_fee_wad flash_loan_fee_wad host_fee_percentage in
  let? ' (total_fee, host_fee) :=
    calculate_borrow_fees fees (from_int borrow_amount) Exclusive in
  assert_that (total_fee <=? borrow_amount);;?
  assert_that (host_fee <=? total_fee);;?
  (if 0 <? borrow_fee_wad then assert_that (0 <? total_fee) else Ok tt);;?
  (if host_fee_percentage =? 100 then assert_eq host_fee total_fee else Ok tt);;?
  (if (0 <? host_fee_percentage) && (0 <? borrow_fee_wad) then assert_that (0 <? host_fee)
   else assert_eq host_fee 0).

(** The sum of two [u64] panics when it overflows. *)
Definition flash_loan_fee_calculation (borrow_fee_wad flash_loan_fee_wad host_fee_percentage
    borrow_amount : Z) : result unit :=
  let fees := mkReserveFees borrow_fee_wad flash_loan_fee_wad host_fee_percentage in
  let? ' (origination_fee, host_fee) :=
    calculate_flash_loan_fees fees (from_int borrow_amount) in
  let? sum := unwrap_option (checked_add 64 origination_fee host_fee) in
  assert_that (sum <=? borrow_amount);;?
  (if 0 <? borrow_fee_wad then assert_that (0 <? sum) else Ok tt);;?
  (if host_fee_percentage =? 100 then assert_eq origination_fee 0 else Ok tt);;?
  (if (0 <? host_fee_percentage) && (0 <? borrow_fee_wad) then assert_that (0 <? host_fee)
   else assert_eq host_fee 0).

(** *** What holds *)

Lemma lent_ok total p :
  0 <= total <= MAX_LIQUIDITY -> 0 <= p <= WAD ->
  exists l, lent total p = Ok l /\ is_u64 (available_amount l) /\
    dec_u128 (borrowed_amount_wads l) /\ 0 <= raw_supply l.
Proof.
  intros Ht Hp. unfold lent. assert (HM : MAX_LIQUIDITY < 2 ^ 62) by by vm_compute.
  assert (HW : WAD < 2 ^ 60) by by vm_compute. pose proof WAD_pos.
  assert (Htp : 0 <= total * p < 2 ^ 122) by nia.
  rewrite dec_mul_rate_ok by
    (cbn [from_int dec_raw Rate.from_scaled_val rate_raw]; rewrite <- Z.mul_assoc; nia).
  mred. cbn [from_int dec_raw Rate.from_scaled_val rate_raw].
  assert (E : WAD * total * p / WAD = total * p)
    by (rewrite <- Z.mul_assoc, Z.mul_comm; by apply Z.div_mul).
  rewrite E. assert (Hr : 0 <= (HALF_WAD + total * p) / WAD <= total).
  { split; [apply div_nonneg; unfold HALF_WAD; nia|].
    apply Z.lt_succ_r, Z.div_lt_upper_bound; [done|]. unfold HALF_WAD, WAD in *. nia. }
  rewrite dec_round_ok by (cbn [dec_raw]; lia). mred. cbn [dec_raw].
  rewrite checked_sub_Some by lia. mred. eexists. split; [reflexivity|].
  unfold dec_u128, in_uint, raw_supply. cbn. unfold dec_raw. nia.
Qed.

Lemma plain_config_sound ou mu a b c d :
  utilizations ou mu -> borrow_rates a b c d ->
  let cfg := mkReserveConfig ou mu 0 0 0 0 0 a b c d reserve_fees_default 0 0 0 0 0 0 Regular in
  reserve_config_wf cfg /\ sound_config cfg.
Proof.
  intros Hu Hb. unfold utilizations, borrow_rates, u64_max in *.
  split; split; cbn; unfold in_uint, reserve_fees_wf, MAX_PROTOCOL_LIQUIDATION_FEE_DECA_BPS, WAD;
    cbn; lia || (by split_and!) || idtac.
Qed.

Lemma rate_le_passes (a b : Rate) : rate_raw a <= rate_raw b -> assert_that (rate_le a b) = Ok tt.
Proof. intros H. apply assert_passes. unfold rate_le. lia. Qed.

Theorem current_borrow_rate_passes (total p ou mu a b c d : Z) :
  0 <= total <= MAX_LIQUIDITY -> 0 <= p <= WAD -> utilizations ou mu -> borrow_rates a b c d ->
  current_borrow_rate total p ou mu a b c d = Ok tt.
Proof.
  intros Ht Hp Hu Hb. destruct (plain_config_sound _ _ _ _ _ _ Hu Hb) as [Hwf Hv].
  destruct (lent_ok total p Ht Hp) as (l & Hl & Ha & Hbw & Hs).
  unfold current_borrow_rate. rewrite Hl. mred.
  match goal with |- context [Reserve.current_borrow_rate ?x] => set (r := x) end.
  destruct (current_borrow_rate_ok r Hwf Hv Ha Hbw Hs) as [q Hq]. rewrite Hq. mred.
  destruct (current_borrow_rate_at r q Hq) as (u & Hu2 & Hqu).
  change (utilization_rate l = Ok u) in Hu2.
  pose proof (utilization_rate_inv l u (proj1 Ha) (proj1 Hbw) Hu2) as Hur.
  destruct (rate_at_on_curve (config r) Hwf Hv (rate_raw u) Hur) as [H1 H2 H3 H4].
  rewrite <- Hqu in H1, H2, H3, H4. cbn [config r reserve_with optimal_utilization_rate
    max_utilization_rate min_borrow_rate optimal_borrow_rate max_borrow_rate
    super_max_borrow_rate] in H1, H2, H3, H4. unfold percent in *.
  do 2 (rewrite rate_le_passes by (cbn [Rate.from_percent from_percent_u64 rate_raw]; lia);
        cbn [obind]).
  rewrite Hu2. mred.
  change (rate_le u (Rate.from_percent ou)) with (rate_raw u <=? ou * PERCENT_SCALER).
  change (rate_le u (Rate.from_percent mu)) with (rate_raw u <=? mu * PERCENT_SCALER).
  destruct (Z.leb_spec (rate_raw u) (ou * PERCENT_SCALER)).
  { apply rate_le_passes. cbn [Rate.from_percent rate_raw]. lia. }
  destruct (Z.leb_spec (rate_raw u) (mu * PERCENT_SCALER));
    (rewrite rate_le_passes by (cbn [Rate.from_percent rate_raw]; lia); cbn [obind];
     first [reflexivity|apply rate_le_passes; cbn [Rate.from_percent rate_raw]; lia]).
Qed.

Theorem current_utilization_rate_passes (total p : Z) :
  0 <= total <= MAX_LIQUIDITY -> 0 <= p <= WAD -> current_utilization_rate total p = Ok tt.
Proof.
  intros Ht Hp. destruct (lent_ok total p Ht Hp) as (l & Hl & Ha & Hb & Hs).
  unfold current_utilization_rate. rewrite Hl. mred.
  destruct (utilization_rate_ok l Ha Hb Hs) as [u Hu]. rewrite Hu. mred.
  apply rate_le_passes. by apply (utilization_rate_inv l u (proj1 Ha) (proj1 Hb)) in Hu as [_ Hu].
Qed.

(** The loop compounds nothing: a reserve by default has neither debt nor index. *)
Definition untouched (l : ReserveLiquidity) : Prop :=
  dec_raw (borrowed_amount_wads l) = 0 /\ dec_raw (cumulative_borrow_rate_wads l) = 0 /\
  dec_raw (accumulated_protocol_fees_wads l) = 0.

Theorem compound_interest_passes (slots borrow take : Z) :
  0 <= slots <= SLOTS_PER_YEAR -> 0 <= borrow <= 255 -> 0 <= take <= 100 ->
  compound_interest slots borrow take = Ok tt.
Proof.
  intros Hs Hb Ht. unfold compound_interest.
  assert (Hun : untouched ReserveLiquidity.default) by done. revert Hun.
  generalize ReserveLiquidity.default. generalize 1000%nat.
  induction n as [|n IH]; intros l (H1 & H2 & H3); [done|]. cbn [compounded].
  destruct (compound_interest_year l (Rate.from_percent borrow) (Rate.from_percent take) slots)
    as (l' & Hl & Hb' & Hc' & Hf').
  { cbn. unfold percent, PERCENT_SCALER. lia. }
  { cbn. unfold PERCENT_SCALER, WAD. lia. }
  { done. }
  1-3: unfold dec_u128; rewrite ?H1, ?H2, ?H3; by vm_compute.
  rewrite Hl. mred. rewrite H1, H2, H3 in *.
  rewrite !to_scaled_val_ok by lia. mred. apply IH. unfold untouched. lia.
Qed.

(** The assertion that interest is earned fails for a debt of zero. *)
Theorem reserve_accrue_interest_decided (slots borrowed rate : Z) :
  0 <= slots <= SLOTS_PER_YEAR -> 0 <= borrowed <= u64_max -> 0 <= rate <= 255 ->
  reserve_accrue_interest slots borrowed rate =
    assert_that (negb ((borrowed =? 0) && (0 <? rate) && (0 <? slots))).
Proof.
  intros Hs Hb Hr. unfold reserve_accrue_interest.
  match goal with |- context [Reserve.accrue_interest ?x _] => set (r := x) end.
  assert (Hcfg : reserve_config_wf (config r) /\ sound_config (config r)).
  { apply (plain_config_sound 0 0 rate rate rate rate); unfold utilizations, borrow_rates, u64_max; lia. }
  destruct Hcfg as [Hwf Hv].
  assert (Hdebt : dec_raw (borrowed_amount_wads (liquidity r)) = WAD * borrowed) by done.
  assert (Hwads : WAD * borrowed < 2 ^ 128) by (unfold WAD, u64_max in *; lia).
  pose proof WAD_pos.
  assert (Hacc : exists r', Reserve.accrue_interest r slots = Ok r' /\
    ((0 <? rate) = true -> (0 <? slots) = true -> dec_lt (from_int borrowed)
      (borrowed_amount_wads (liquidity r')) = negb (borrowed =? 0)) /\
    ((0 <? rate) && (0 <? slots) = false ->
      dec_eqb (borrowed_amount_wads (liquidity r')) (from_int borrowed) = true)).
  { unfold Reserve.accrue_interest, slots_elapsed.
    change (slot (last_update r)) with 0. rewrite checked_sub_Some, Z.sub_0_r by lia. mred.
    destruct (Z.ltb_spec 0 slots) as [Hpos|].
    2: { exists r. split; [done|]. split; [done|]. intros _. unfold dec_eqb.
         change ((WAD * borrowed =? WAD * borrowed) = true). lia. }
    destruct (current_borrow_rate_ok r Hwf Hv) as [q Hq];
      [by vm_compute|split; rewrite Hdebt; [unfold u64_max in *; lia|done]|
       change (0 <= WAD * 0 + WAD * borrowed - 0); lia|].
    rewrite Hq. mred.
    apply (current_borrow_rate_range r Hwf Hv q) in Hq; [|by vm_compute|rewrite Hdebt; lia].
    change (percent rate <= rate_raw q <= percent rate) in Hq. unfold percent in Hq.
    destruct (compound_interest_year (liquidity r) q (Rate.from_percent 0) slots)
      as (l' & Hl & Hyear & _); try done;
      [unfold percent, PERCENT_SCALER in *; lia|split; rewrite Hdebt; [lia|done]|].
    change (protocol_take_rate (config r)) with 0. rewrite Hl. mred.
    eexists. split; [reflexivity|]. cbn [liquidity set_liquidity]. split.
    - intros Hrate _. unfold dec_lt. destruct (Z.eqb_spec borrowed 0) as [->|].
      { rewrite Hdebt in Hyear. cbn [from_int dec_raw negb]. lia. }
      apply compound_interest_grows in Hl; [| |done|].
      + rewrite Hdebt in Hl. cbn [from_int dec_raw]. lia.
      + transitivity PERCENT_SCALER; [by vm_compute|]. unfold PERCENT_SCALER in *. lia.
      + rewrite Hdebt. nia.
    - intros Hrate. rewrite andb_true_r in Hrate. unfold dec_eqb.
      apply compound_interest_idle in Hl; [|unfold PERCENT_SCALER in *; lia|done].
      rewrite Hl, Hdebt. cbn [from_int dec_raw]. lia. }
  destruct Hacc as (r' & Hr' & Hgrow & Hsame). rewrite Hr'. mred.
  destruct ((0 <? rate) && (0 <? slots)) eqn:E.
  - apply andb_true_iff in E as [E1 E2]. rewrite Hgrow, E1, E2 by done.
    by rewrite !andb_true_r.
  - rewrite <- andb_assoc, E, andb_false_r, Hsame by done. done.
Qed.

Lemma exclusive_fees_exist (f : ReserveFees) (w n : Z) :
  0 <= w < WAD -> 0 <= host_fee_percentage f <= 100 -> 3 <= n <= u64_max ->
  exists total host, calculate_fees f (from_int n) w Exclusive = Ok (total, host).
Proof.
  intros Hf Hh Hn. unfold calculate_fees. pose proof WAD_pos.
  assert (HW : WAD < 2 ^ 60) by by vm_compute.
  assert (Hmax : u64_max < 2 ^ 64) by by vm_compute.
  assert (Hwn : WAD * n < 2 ^ 124) by nia.
  destruct (rate_pos (Rate.from_scaled_val w) && dec_pos (from_int n));
    [|by eexists _, _].
  rewrite rate_pos_percent by lia.
  assert (Hmul : WAD * n * w / WAD = n * w)
    by (rewrite <- Z.mul_assoc, Z.mul_comm; by apply Z.div_mul).
  rewrite dec_mul_rate_ok by (cbn [from_int dec_raw Rate.from_scaled_val rate_raw]; nia).
  mred. cbn [from_int dec_raw Rate.from_scaled_val rate_raw]. rewrite Hmul.
  set (m := if 0 <? host_fee_percentage f then 2 else 1).
  assert (Hm : 1 <= m <= 2) by (unfold m; case_match; lia).
  set (d := dec_max _ _).
  assert (Hd : 0 <= dec_raw d < WAD * n) by (unfold d; rewrite dec_max_raw; cbn; nia).
  unfold dec_le. cbn [from_int dec_raw].
  destruct (Z.leb_spec (WAD * n) (dec_raw d)); [lia|].
  assert (Hround : forall x, 0 <= x <= dec_raw d -> (HALF_WAD + x) / WAD < 2 ^ 64).
  { intros x Hx. apply Z.div_lt_upper_bound; [done|]. unfold HALF_WAD, WAD in *. lia. }
  rewrite dec_round_ok by (apply Hround; lia). mred.
  destruct (0 <? host_fee_percentage f); [|by eexists _, _].
  assert (Hp : 0 <= host_fee_percentage f * PERCENT_SCALER <= WAD)
    by (unfold PERCENT_SCALER, WAD; lia).
  rewrite dec_mul_rate_ok by (cbn [Rate.from_percent rate_raw]; nia).
  mred. cbn [Rate.from_percent rate_raw].
  rewrite dec_round_ok; [by eexists _, _|]. apply Hround. cbn [dec_raw].
  split; [apply div_nonneg; nia|apply mul_div_le_self; lia].
Qed.

(** What both tests of fees assert, of a fee rate [w]. *)
Lemma exclusive_fees (f : ReserveFees) (w n : Z) :
  let p := host_fee_percentage f in
  0 <= w < WAD -> 0 <= p <= 100 -> 3 <= n <= u64_max ->
  exists t h, calculate_fees f (from_int n) w Exclusive = Ok (t, h) /\
    0 <= h <= t /\ t <= n /\ (0 < w -> 0 < t) /\ (p = 100 -> h = t) /\
    (0 < p -> 0 < w -> 0 < h) /\ (p = 0 \/ w = 0 -> h = 0) /\ (w = 0 -> t = 0).
Proof.
  intros p Hf Hh Hn. destruct (exclusive_fees_exist f w n Hf Hh Hn) as (t & h & E).
  exists t, h. split; [done|]. pose proof WAD_pos.
  pose proof (calculate_fees_range _ _ _ _ _ _ Hh E) as [Hht Hrange].
  cbn [from_int dec_raw] in Hrange. rewrite round_wad_whole in Hrange.
  apply calculate_fees_inv in E; [|exact (proj1 Hh)]. fold p in E, Hrange.
  cbn [from_int dec_raw] in E.
  assert (Hmin : 1 <= minimum_fee f) by (unfold minimum_fee; destruct (0 <? _); lia).
  destruct E as [(Hz & -> & ->)|(Hw & d & Hd & Ht & _ & Hh2)]; [nia|].
  destruct Hrange as [Ht2 Hh3]; [done|nia|]. split; [done|]. split; [lia|]. split; [lia|].
  split; [|split; [lia|split; [|lia]]].
  - intros Hp. rewrite Hh2, Hp. change (100 * PERCENT_SCALER) with WAD.
    rewrite Z.div_mul, <- Ht by done. change (0 <? 100) with true. cbn iota. lia.
  - intros [Hp | ->]; [by rewrite Hh2, Hp|lia].
Qed.

(** The assertions of the two tests, of facts that [lia] decides. *)
Ltac asserted :=
  repeat match goal with
    | |- context [assert_that ?b] =>
        first [rewrite (assert_passes b) by lia
              |lazymatch b with false => fail | _ => replace b with false by lia end]
    | |- context [@assert_eq Z _ ?a ?b] =>
        first [rewrite (assert_eq_passes a b) by lia
              |unfold assert_eq; rewrite (bool_decide_eq_false_2 (a = b)) by lia]
    end;
  try reflexivity.

Theorem borrow_fee_calculation_passes (fee flash host n : Z) :
  0 <= fee < WAD -> 0 <= host <= 100 -> 3 <= n <= u64_max ->
  borrow_fee_calculation fee flash host n = Ok tt.
Proof.
  intros Hf Hh Hn. unfold borrow_fee_calculation, calculate_borrow_fees.
  destruct (exclusive_fees (mkReserveFees fee flash host) fee n Hf Hh Hn)
    as (t & h & E & Hfacts). cbn [borrow_fee_wad host_fee_percentage] in *. rewrite E. mred.
  clear -Hfacts Hf Hh.
  destruct (Z.ltb_spec 0 fee), (Z.eqb_spec host 100), (Z.ltb_spec 0 host); cbn [andb];
    asserted.
Qed.

(** The test of the flash loan fee takes it to be positive exactly when the fee of a
    borrow is: what it asserts about the fee holds if so, what it asserts about the
    host's part if so or without a host. *)
Theorem flash_loan_fee_calculation_decided (fee flash host n : Z) :
  0 <= fee < WAD -> 0 <= flash < WAD -> 0 <= host <= 100 -> 3 <= n <= u64_max ->
  flash_loan_fee_calculation fee flash host n =
    assert_that (implb (0 <? fee) (0 <? flash) &&
                 implb (0 <? host) (Bool.eqb (0 <? fee) (0 <? flash))).
Proof.
  intros Hf Hfl Hh Hn. unfold flash_loan_fee_calculation, calculate_flash_loan_fees.
  destruct (exclusive_fees (mkReserveFees fee flash host) flash n Hfl Hh Hn)
    as (t & h & E & Hfacts). cbn [flash_loan_fee_wad host_fee_percentage] in *. rewrite E. mred.
  assert (Hn2 : n < 2 ^ 64) by (unfold u64_max in *; lia).
  rewrite checked_sub_Some by lia. mred.
  rewrite checked_add_Some by lia. mred. clear -Hfacts Hf Hh Hfl.
  destruct (Z.ltb_spec 0 fee), (Z.ltb_spec 0 flash), (Z.eqb_spec host 100),
    (Z.ltb_spec 0 host); cbn [andb implb Bool.eqb]; asserted.
Qed.

(** *** What does not

    The exchange rate of a tiny reserve exceeds five when half a token is lent out: the
    available amount is what the rounding leaves. *)
Example collateral_exchange_rate_fails :
  1 <= MAX_LIQUIDITY /\ collateral_exchange_rate 1 (WAD / 2) (5 * WAD) 0 = Panic.
Proof. split; [by vm_compute|vm_compute; reflexivity]. Qed.

(** Without a debt, no interest is earned. *)
Example reserve_accrue_interest_fails : reserve_accrue_interest 1 0 1 = Panic.
Proof. vm_compute. reflexivity. Qed.

(** The test of the flash loan fee asserts a fee when the fee of a borrow is positive. *)
Example flash_loan_fee_calculation_fails : flash_loan_fee_calculation 1 0 0 3 = Panic.
Proof. vm_compute. reflexivity. Qed.

(** From the index of a new reserve, the thousand years of the loop are too many. *)
Example compounded_index_overflows :
  compounded 1000 (Rate.from_percent 255) SLOTS_PER_YEAR (Rate.from_percent 0)
    (ReserveLiquidity.new (mkNewReserveLiquidityParams 0 0 0 0 0 Decimal.zero Decimal.zero))
  = fail MathOverflow.
Proof. vm_compute. reflexivity. Qed.
End reserve_properties.

(** ** state/obligation.rs: the properties *)

Module obligation_properties.
Import obligation_test.
Definition MAX_BORROWED : Z := u64_max * WAD.

(** [repay < borrow]; [repay = borrow]; and two rates [r1 <= r2 <= 100 * r1]. *)
Definition repay_partial_amounts (repay borrow : Z) : Prop :=
  exists amount, 1 <= amount <= u64_max /\ repay = WAD * amount /\
    WAD * amount + 1 <= borrow <= MAX_BORROWED.
Definition repay_full_amounts (repay borrow : Z) : Prop :=
  exists amount, 1 <= amount <= u64_max /\ repay = WAD * amount /\ borrow = repay.
Definition cumulative_rates (rate new_rate : Z) : Prop :=
  1 <= rate < 2 ^ 128 /\
  rate <= new_rate <= saturating_mul 128 rate MAX_COMPOUNDED_INTEREST.

Definition indebted (borrowed_amount_wads : Decimal) : Obligation :=
  mkObligation 0 LastUpdate.default 0 0 []
    [debt Decimal.zero borrowed_amount_wads Decimal.zero]
    Decimal.zero Decimal.zero Decimal.zero Decimal.zero Decimal.zero Decimal.zero false.

Definition repay_partial (repay_amount borrowed_amount : Z) : result unit :=
  let borrowed_amount_wads := Decimal.from_scaled_val borrowed_amount in
  let repay_amount_wads := Decimal.from_scaled_val repay_amount in
  let? obligation := Obligation.repay (indebted borrowed_amount_wads) repay_amount_wads 0 in
  let? borrow := unwrap_option (borrows obligation !! 0%nat) in
  assert_that (dec_lt (ObligationLiquidity.borrowed_amount_wads borrow) borrowed_amount_wads);;?
  assert_that (dec_lt Decimal.zero (ObligationLiquidity.borrowed_amount_wads borrow)).

Definition repay_full (repay_amount borrowed_amount : Z) : result unit :=
  let borrowed_amount_wads := Decimal.from_scaled_val borrowed_amount in
  let repay_amount_wads := Decimal.from_scaled_val repay_amount in
  let? obligation := Obligation.repay (indebted borrowed_amount_wads) repay_amount_wads 0 in
  assert_eq (length (borrows obligation)) 0%nat.

Definition accrue_interest (current_borrow_rate new_borrow_rate borrowed_amount : Z)
    : result unit :=
  let? cumulative_borrow_rate_wads :=
    try_add Decimal.one (Decimal.from_scaled_val current_borrow_rate) in
  let borrowed_amount_wads := from_int borrowed_amount in
  let? next_cumulative_borrow_rate :=
    try_add Decimal.one (Decimal.from_scaled_val new_borrow_rate) in
  let? liquidity :=
    ObligationLiquidity.accrue_interest
      (debt cumulative_borrow_rate_wads borrowed_amount_wads Decimal.zero)
      next_cumulative_borrow_rate in
  if dec_lt cumulative_borrow_rate_wads next_cumulative_borrow_rate then
    assert_that (dec_lt borrowed_amount_wads
                   (ObligationLiquidity.borrowed_amount_wads liquidity))
  else
    assert_that (dec_eqb (ObligationLiquidity.borrowed_amount_wads liquidity)
                   borrowed_amount_wads).

Theorem repay_partial_passes (repay borrow : Z) :
  repay_partial_amounts repay borrow -> repay_partial repay borrow = Ok tt.
Proof.
  intros (n & Hn & -> & Hb). unfold repay_partial, Obligation.repay.
  assert (0 < WAD * n) by (pose proof WAD_pos; nia).
  cbn [indebted borrows lookup list_lookup unwrap_option obind debt
    ObligationLiquidity.borrowed_amount_wads].
  unfold dec_eqb. cbn [Decimal.from_scaled_val dec_raw].
  destruct (Z.eqb_spec (WAD * n) borrow); [lia|].
  unfold ObligationLiquidity.repay, debt.
  rewrite dec_sub_ok
    by (cbn [ObligationLiquidity.borrowed_amount_wads dec_raw Decimal.from_scaled_val]; lia).
  cbn -[dec_lt WAD Z.mul Z.sub].
  rewrite !assert_passes by
    (unfold dec_lt; cbn [dec_raw Decimal.from_scaled_val Decimal.zero]; lia).
  reflexivity.
Qed.

Theorem repay_full_passes (repay borrow : Z) :
  repay_full_amounts repay borrow -> repay_full repay borrow = Ok tt.
Proof.
  intros (n & Hn & -> & ->). unfold repay_full, Obligation.repay.
  cbn [indebted borrows lookup list_lookup unwrap_option obind debt
    ObligationLiquidity.borrowed_amount_wads].
  unfold dec_eqb. rewrite Z.eqb_refl. reflexivity.
Qed.

(** The interest of no debt is none; nor is that of a rate which the rounded quotient of
    the indices does not show. *)
Example accrue_interest_fails :
  cumulative_rates 1 2 /\ accrue_interest 1 2 0 = Panic /\
  cumulative_rates (10 ^ 30) (10 ^ 30 + 1) /\
  accrue_interest (10 ^ 30) (10 ^ 30 + 1) u64_max = Panic.
Proof.
  split; [by vm_compute|]. split; [vm_compute; reflexivity|].
  split; [by vm_compute|]. vm_compute. reflexivity.
Qed.
End obligation_properties.

(** ** The packing tests

    They draw the fields of a value at random, a hundred times; here from any source of
    random values, the [n]th draw of a type being a function of [n]. *)

Class Draws : Type := {
  gen_u8 : nat -> Z;
  gen_u64 : nat -> Z;
  gen_u128 : nat -> Z;
  gen_bool : nat -> bool;
  new_unique : nat -> Pubkey;
}.

(** A draw fits its type; [Pubkey::new_unique] counts from one. *)
Class DrawsLaws (D : Draws) : Prop := {
  gen_u8_fits : forall n, is_u8 (gen_u8 n);
  gen_u64_fits : forall n, is_u64 (gen_u64 n);
  gen_u128_fits : forall n, 0 <= gen_u128 n < 2 ^ 128;
  new_unique_fits : forall n, is_u256 (new_unique n);
  new_unique_positive : forall n, 0 < new_unique n;
}.

#[export] Instance LendingMarket_eq_dec : EqDecision LendingMarket.
Proof. solve_decision. Defined.
#[export] Instance LendingInstruction_eq_dec : EqDecision LendingInstruction.
Proof. solve_decision. Defined.

Module packing.
Section packing.
Context {D : Draws}.

Definition rand_decimal (n : nat) : Decimal := Decimal.from_scaled_val (gen_u128 n).

Definition rand_rate_limiter : RateLimiter :=
  mkRateLimiter (mkRateLimiterConfig (gen_u64 100) (gen_u64 101)) (rand_decimal 100)
    (gen_u64 102) (rand_decimal 101).

Definition rand_reserve : result Reserve :=
  let optimal_utilization_rate := gen_u8 0 in
  let liquidation_bonus := gen_u8 1 in
  let liquidation_threshold := gen_u8 2 in
  let? reserve_type := unwrap_option (reserve_type_from_u8 (gen_u8 14 mod 2)) in
  Ok (mkReserve PROGRAM_VERSION (mkLastUpdate (gen_u64 0) (gen_bool 0)) (new_unique 0)
        (mkReserveLiquidity (new_unique 1) (gen_u8 3) (new_unique 2) (new_unique 3)
           (new_unique 4) (gen_u64 1) (rand_decimal 0) (rand_decimal 1) (rand_decimal 2)
           (rand_decimal 3) (rand_decimal 4))
        (mkReserveCollateral (new_unique 5) (gen_u64 2) (new_unique 6))
        (mkReserveConfig optimal_utilization_rate
           (Z.max optimal_utilization_rate (gen_u8 4)) (gen_u8 5) liquidation_bonus
           (Z.max liquidation_bonus (gen_u8 6)) liquidation_threshold
           (Z.max liquidation_threshold (gen_u8 7)) (gen_u8 8) (gen_u8 9) (gen_u8 10)
           (Z.max 255 (gen_u64 3)) (mkReserveFees (gen_u64 4) (gen_u64 5) (gen_u8 11))
           (gen_u64 6) (gen_u64 7) (new_unique 7)
           (Z.min (gen_u8 12) MAX_PROTOCOL_LIQUIDATION_FEE_DECA_BPS) (gen_u8 13) (gen_u64 8)
           reserve_type)
        rand_rate_limiter).

Definition rand_obligation : Obligation :=
  mkObligation PROGRAM_VERSION (mkLastUpdate (gen_u64 0) (gen_bool 0)) (new_unique 0)
    (new_unique 1) [mkObligationCollateral (new_unique 2) (gen_u64 1) (rand_decimal 0)]
    [mkObligationLiquidity (new_unique 3) (rand_decimal 1) (rand_decimal 2) (rand_decimal 3)]
    (rand_decimal 4) (rand_decimal 5) (rand_decimal 6) (rand_decimal 7) (rand_decimal 8)
    (rand_decimal 9) (gen_bool 1).

Definition rand_lending_market : LendingMarket :=
  mkLendingMarket PROGRAM_VERSION (gen_u8 0) (new_unique 0)
    (concat (replicate 32 (to_le_bytes 1 (gen_u8 1)))) (new_unique 1) (new_unique 2)
    (new_unique 3) rand_rate_limiter
    (if gen_bool 0 then None else Some (new_unique 4)) (new_unique 5).

(** The configuration of instructions 2 and 16, whose fields are drawn freely, from the
    draws after [n]. *)
Definition rand_config (n : nat) : result ReserveConfig :=
  let? reserve_type := unwrap_option (reserve_type_from_u8 (gen_u8 (n + 13) mod 2)) in
  Ok (mkReserveConfig (gen_u8 n) (gen_u8 (n + 1)) (gen_u8 (n + 2)) (gen_u8 (n + 3))
        (gen_u8 (n + 4)) (gen_u8 (n + 5)) (gen_u8 (n + 6)) (gen_u8 (n + 7)) (gen_u8 (n + 8))
        (gen_u8 (n + 9)) (gen_u64 n)
        (mkReserveFees (gen_u64 (n + 1)) (gen_u64 (n + 2)) (gen_u8 (n + 10)))
        (gen_u64 (n + 3)) (gen_u64 (n + 4)) (new_unique n) (gen_u8 (n + 11))
        (gen_u8 (n + 12)) (gen_u64 (n + 5)) reserve_type).

Definition rand_instructions : result (list LendingInstruction) :=
  let? init_config := rand_config 10 in
  let? update_config := rand_config 30 in
  Ok [InitLendingMarket (new_unique 0) (concat (replicate 32 (to_le_bytes 1 (gen_u8 0))));
      SetLendingMarketOwnerAndConfig (new_unique 1)
        (mkRateLimiterConfig (gen_u64 50) (gen_u64 51))
        (if gen_bool 0 then None else Some (new_unique 2)) (new_unique 3);
      InitReserve (gen_u64 52) init_config;
      RefreshReserve;
      DepositReserveLiquidity (gen_u64 53);
      RedeemReserveCollateral (gen_u64 54);
      InitObligation;
      RefreshObligation;
      DepositObligationCollateral (gen_u64 55);
      BorrowObligationLiquidity (gen_u64 56);
      RepayObligationLiquidity (gen_u64 57);
      LiquidateObligation (gen_u64 58);
      FlashLoan (gen_u64 59);
      DepositReserveLiquidityAndObligationCollateral (gen_u64 60);
      WithdrawObligationCollateralAndRedeemReserveCollateral (gen_u64 61);
      UpdateReserveConfig update_config (mkRateLimiterConfig (gen_u64 62) (gen_u64 63));
      LiquidateObligationAndRedeemReserveCollateral (gen_u64 64);
      RedeemFees;
      FlashBorrowReserveLiquidity (gen_u64 65);
      FlashRepayReserveLiquidity (gen_u64 66) (gen_u8 1);
      ForgiveDebt (gen_u64 67)].

Definition pack_and_unpack_instruction (instruction : LendingInstruction) : result unit :=
  let packed := Instruction.pack instruction in
  let? unpacked := unwrap (Instruction.unpack packed) in
  assert_eq instruction unpacked.

Definition pack_and_unpack_instructions : result unit :=
  let? instructions := rand_instructions in
  each pack_and_unpack_instruction instructions.

Section accounts.
Context {R : Runtime}.

Definition pack_and_unpack_reserve : result unit :=
  let? reserve := rand_reserve in
  let? packed := unwrap (pack_pack Reserve _ reserve (zero_bytes RESERVE_LEN)) in
  let? unpacked := unwrap (pack_unpack Reserve _ packed) in
  assert_eq reserve unpacked.

Definition pack_and_unpack_obligation : result unit :=
  let obligation := rand_obligation in
  let? packed := unwrap (pack_pack Obligation _ obligation (zero_bytes OBLIGATION_LEN)) in
  let? unpacked := unwrap (pack_unpack Obligation _ packed) in
  assert_eq obligation unpacked.

Definition pack_and_unpack_lending_market : result unit :=
  let lending_market := rand_lending_market in
  let? packed :=
    unwrap (pack_pack LendingMarket _ lending_market (zero_bytes LENDING_MARKET_LEN)) in
  let? unpacked := unwrap (LendingMarket.unpack_from_slice packed) in
  assert_eq unpacked lending_market.
End accounts.

Context {DL : DrawsLaws D}.

#[local] Ltac drawn :=
  repeat first [assumption|apply gen_u8_fits|apply gen_u64_fits|apply gen_u128_fits
               |apply new_unique_fits|done|split].

Lemma rand_limiter_wf : rate_limiter_wf rand_rate_limiter.
Proof.
  unfold rate_limiter_wf, rate_limiter_config_wf. drawn.
Qed.

Lemma rand_config_wf n c : rand_config n = Ok c -> reserve_config_wf c.
Proof.
  intros H. unfold rand_config in H. minv H.
  split; cbn; drawn.
Qed.

Lemma rand_type_exists n : exists t, reserve_type_from_u8 (gen_u8 n mod 2) = Some t.
Proof.
  pose proof (Z.mod_pos_bound (gen_u8 n) 2 ltac:(done)).
  assert (gen_u8 n mod 2 = 0 \/ gen_u8 n mod 2 = 1) as [-> | ->]; [lia| |]; by eexists.
Qed.

Lemma rand_config_exists n : exists c, rand_config n = Ok c.
Proof.
  unfold rand_config. destruct (rand_type_exists (n + 13)) as [t ->]. by eexists.
Qed.

(** A quote currency of one byte, repeated. *)
Lemma rand_currency_length n : length (concat (replicate 32 (to_le_bytes 1 n))) = 32%nat.
Proof. reflexivity. Qed.

Lemma pack_and_unpack_instruction_passes i :
  instruction_wf i -> pack_and_unpack_instruction i = Ok tt.
Proof.
  intros Hwf. unfold pack_and_unpack_instruction.
  rewrite <- (app_nil_r (Instruction.pack i)), unpack_pack_app by done.
  by apply assert_eq_passes.
Qed.

Lemma each_passes {A : Type} (test : A -> result unit) (cases : list A) :
  Forall (fun c => test c = Ok tt) cases -> each test cases = Ok tt.
Proof. induction 1 as [|c cases Hc _ IH]; [done|]. cbn [each]. by rewrite Hc. Qed.

Lemma instructions_pass : pack_and_unpack_instructions = Ok tt.
Proof.
  unfold pack_and_unpack_instructions, rand_instructions.
  destruct (rand_config_exists 10) as [c1 H1], (rand_config_exists 30) as [c2 H2].
  rewrite H1, H2. apply rand_config_wf in H1, H2. cbn [obind].
  assert (Hk : forall k, (if gen_bool 0 then None else Some (new_unique 2)) = Some k -> is_u256 k).
  { intros k. destruct (gen_bool 0); intros [= <-]. apply new_unique_fits. }
  apply each_passes. apply Forall_forall. intros i Hi. apply pack_and_unpack_instruction_passes.
  revert i Hi. apply Forall_forall.
  repeat apply Forall_cons; [..|apply Forall_nil]; cbn [instruction_wf]; drawn.
Qed.

Section accounts_pass.
Context {R : Runtime} {program_id : Pubkey} {L : RuntimeLaws R program_id}.

Lemma packs_ok `{P : PackTrait T} (v : T) (dst bs : bytes) :
  length dst = LEN -> pack_into_slice v dst = Ok bs -> pack_pack T P v dst = Ok bs.
Proof. intros. by apply (pack_pack_spec (program_id := program_id)). Qed.

Lemma unpacks_ok `{P : PackTrait T} (bs : bytes) (v : T) :
  length bs = LEN -> unpack_from_slice bs = Ok v -> is_initialized v = true ->
  pack_unpack T P bs = Ok v.
Proof. intros. by apply (pack_unpack_spec (program_id := program_id)). Qed.

Lemma rand_obligation_wf : obligation_wf rand_obligation.
Proof.
  split; cbn; drawn; try lia; repeat constructor; drawn.
Qed.

Lemma obligation_passes : pack_and_unpack_obligation = Ok tt.
Proof.
  unfold pack_and_unpack_obligation.
  destruct (obligation_unpack_pack rand_obligation (zero_bytes OBLIGATION_LEN)
    rand_obligation_wf) as (bs & Hp & Hl & _ & Hu); [by rewrite length_zero_bytes|vm_compute; lia|].
  rewrite (packs_ok (P := obligation_pack) _ (zero_bytes OBLIGATION_LEN) bs)
    by (exact Hp || apply length_zero_bytes). mred.
  rewrite (unpacks_ok (P := obligation_pack) bs rand_obligation) by done. by apply assert_eq_passes.
Qed.

Lemma rand_reserve_ok :
  exists r, rand_reserve = Ok r /\ reserve_wf r /\ Reserve.version r = PROGRAM_VERSION /\
    Reserve.set_config r (normalize_config (Reserve.config r)) = r.
Proof.
  unfold rand_reserve. destruct (rand_type_exists 14) as [t ->]. eexists.
  split; [reflexivity|]. split; [|split; [reflexivity|]].
  - pose proof rand_limiter_wf. pose proof gen_u8_fits. pose proof gen_u64_fits.
    split; lazymatch goal with
           | |- reserve_config_wf _ => idtac
           | |- _ => cbn; drawn; try lia
           end.
    split; cbn; first [apply in_uint_max|apply in_uint_min|idtac]; drawn.
  - destruct (gen_u8_fits 10). unfold Reserve.set_config, normalize_config. cbn. f_equal.
    f_equal; lia.
Qed.

Lemma reserve_passes : pack_and_unpack_reserve = Ok tt.
Proof.
  unfold pack_and_unpack_reserve. destruct rand_reserve_ok as (r & -> & Hwf & Hv & Hc). mred.
  destruct (reserve_unpack_pack r (zero_bytes RESERVE_LEN) Hwf) as (bs & Hp & Hl & _ & Hu);
    [by rewrite length_zero_bytes|]. rewrite Hc in Hu.
  rewrite (packs_ok (P := reserve_pack) _ (zero_bytes RESERVE_LEN) bs)
    by (exact Hp || apply length_zero_bytes). mred.
  rewrite (unpacks_ok (P := reserve_pack) bs r); [by apply assert_eq_passes|exact Hl|exact Hu|].
  unfold is_initialized. cbn. unfold Reserve.is_initialized. by rewrite Hv.
Qed.

Lemma rand_lending_market_wf : lending_market_wf rand_lending_market.
Proof.
  pose proof rand_limiter_wf.
  assert (Hk : forall k, (if gen_bool 0 then None else Some (new_unique 4)) = Some k ->
    is_u256 k /\ k <> 0).
  { intros k. destruct (gen_bool 0); intros [= <-].
    pose proof (new_unique_positive 4). split; [apply new_unique_fits|lia]. }
  split; cbn; drawn; lia.
Qed.

Lemma lending_market_passes : pack_and_unpack_lending_market = Ok tt.
Proof.
  unfold pack_and_unpack_lending_market.
  destruct (lending_market_roundtrip rand_lending_market (zero_bytes LENDING_MARKET_LEN)
    rand_lending_market_wf) as (bs & Hp & Hl & _ & Hu); [by rewrite length_zero_bytes|].
  rewrite (packs_ok (P := lending_market_pack) _ (zero_bytes LENDING_MARKET_LEN) bs)
    by (exact Hp || apply length_zero_bytes). mred.
  rewrite Hu. mred. apply assert_eq_passes. unfold effective_risk_authority.
  pose proof (new_unique_positive 5). cbn [rand_lending_market risk_authority].
  destruct (Z.eqb_spec (new_unique 5) 0); [lia|done].
Qed.
End accounts_pass.
End packing.

(** Draws that count. *)
Definition counting : Draws := {|
  gen_u8 n := Z.of_nat n mod 2 ^ 8;
  gen_u64 n := Z.of_nat n mod 2 ^ 64;
  gen_u128 n := Z.of_nat n mod 2 ^ 128;
  gen_bool := Nat.even;
  new_unique n := 1 + Z.of_nat n mod 2 ^ 64;
|}.

Lemma counting_laws : DrawsLaws counting.
Proof.
  split; intros n; cbn [gen_u8 gen_u64 gen_u128 new_unique counting];
    try (apply Z.mod_pos_bound; reflexivity);
    pose proof (Z.mod_pos_bound (Z.of_nat n) (2 ^ 64) ltac:(reflexivity)) as H; [split|]; lia.
Qed.
End packing.

(** ** The tests of the SDK *)

(** The cases of the tables and of the unit tests of the state of the SDK. *)
Definition sdk_cases : result unit :=
  rate_limiter_test.test_rate_limiter;;?
  each reserve_test.test_validate_reserve_config reserve_test.reserve_config_test_cases;;?
  each reserve_test.calculate_bonus reserve_test.calculate_bonus_test_cases;;?
  (let? cases := reserve_test.calculate_liquidation_test_cases in
   each reserve_test.calculate_liquidation cases);;?
  each reserve_test.calculate_borrow reserve_test.calculate_borrow_test_cases;;?
  each obligation_test.max_withdraw_amount obligation_test.max_withdraw_amount_test_cases.

(** C38: which of the tests of the SDK hold, and of which arguments.  For every argument in
    their ranges, these property tests hold: the borrow rate is within the segment of the
    curve that the utilization selects; the utilization of a reserve is at most one; a
    thousand times a year of interest compounds on a default reserve (whose index is zero);
    a borrow fee is at most the amount, positive when the rate is, and shared with the host
    as the percentage says; a partial repayment leaves a smaller positive debt, and a full
    one removes the position; and reserves, obligations, markets and instructions read back
    as they were packed.  Of the others two are decided: that of a reserve's interest
    fails exactly for a debt of zero at a positive rate and time, and that of the flash
    loan fee exactly when that fee is zero and the fee of a borrow is not, or, with a share
    for the host, the other way round.  The two left, of the exchange rate and of the
    interest of an obligation, are refuted by arguments in their ranges.  The tables of
    cases for validation, the bonus, liquidation, borrowing and withdrawing pass. *)
Theorem sdk_tests_decided :
  (forall total borrowed_percent optimal_utilization max_utilization r1 r2 r3 r4,
    0 <= total <= reserve_properties.MAX_LIQUIDITY -> 0 <= borrowed_percent <= WAD ->
    reserve_properties.utilizations optimal_utilization max_utilization ->
    reserve_properties.borrow_rates r1 r2 r3 r4 ->
    reserve_properties.current_borrow_rate total borrowed_percent optimal_utilization
      max_utilization r1 r2 r3 r4 = Ok tt) /\
  (forall total borrowed_percent,
    0 <= total <= reserve_properties.MAX_LIQUIDITY -> 0 <= borrowed_percent <= WAD ->
    reserve_properties.current_utilization_rate total borrowed_percent = Ok tt) /\
  (forall slots borrow_rate take_rate,
    0 <= slots <= SLOTS_PER_YEAR -> 0 <= borrow_rate <= 255 -> 0 <= take_rate <= 100 ->
    reserve_properties.compound_interest slots borrow_rate take_rate = Ok tt) /\
  (forall slots borrowed borrow_rate,
    0 <= slots <= SLOTS_PER_YEAR -> 0 <= borrowed <= u64_max -> 0 <= borrow_rate <= 255 ->
    reserve_properties.reserve_accrue_interest slots borrowed borrow_rate
      = assert_that (negb ((borrowed =? 0) && (0 <? borrow_rate) && (0 <? slots)))) /\
  (forall borrow_fee_wad flash_loan_fee_wad host_fee_percentage amount,
    0 <= borrow_fee_wad < WAD -> 0 <= host_fee_percentage <= 100 -> 3 <= amount <= u64_max ->
    reserve_properties.borrow_fee_calculation borrow_fee_wad flash_loan_fee_wad
      host_fee_percentage amount = Ok tt) /\
  (forall borrow_fee_wad flash_loan_fee_wad host_fee_percentage amount,
    0 <= borrow_fee_wad < WAD -> 0 <= flash_loan_fee_wad < WAD ->
    0 <= host_fee_percentage <= 100 -> 3 <= amount <= u64_max ->
    reserve_properties.flash_loan_fee_calculation borrow_fee_wad flash_loan_fee_wad
      host_fee_percentage amount
      = assert_that (implb (0 <? borrow_fee_wad) (0 <? flash_loan_fee_wad) &&
                     implb (0 <? host_fee_percentage)
                       (Bool.eqb (0 <? borrow_fee_wad) (0 <? flash_loan_fee_wad)))) /\
  (exists total borrowed_percent multiplier borrow_rate,
    0 <= total <= reserve_properties.MAX_LIQUIDITY /\ 0 <= borrowed_percent <= WAD /\
    0 <= multiplier <= 5 * WAD /\ 0 <= borrow_rate <= 255 /\
    reserve_properties.collateral_exchange_rate total borrowed_percent multiplier borrow_rate
      = Panic) /\
  (exists rate new_rate amount,
    obligation_properties.cumulative_rates rate new_rate /\ 0 < amount <= u64_max /\
    obligation_properties.accrue_interest rate new_rate amount = Panic) /\
  (forall repay borrowed, obligation_properties.repay_partial_amounts repay borrowed ->
    obligation_properties.repay_partial repay borrowed = Ok tt) /\
  (forall repay borrowed, obligation_properties.repay_full_amounts repay borrowed ->
    obligation_properties.repay_full repay borrowed = Ok tt) /\
  (forall (D : Draws) (R : Runtime) (program_id : Pubkey),
    DrawsLaws D -> RuntimeLaws R program_id ->
    packing.pack_and_unpack_reserve = Ok tt /\ packing.pack_and_unpack_obligation = Ok tt /\
    packing.pack_and_unpack_lending_market = Ok tt /\
    packing.pack_and_unpack_instructions = Ok tt) /\
  sdk_cases = Ok tt.
Proof.
  split; [exact reserve_properties.current_borrow_rate_passes|].
  split; [exact reserve_properties.current_utilization_rate_passes|].
  split; [exact reserve_properties.compound_interest_passes|].
  split; [exact reserve_properties.reserve_accrue_interest_decided|].
  split; [exact reserve_properties.borrow_fee_calculation_passes|].
  split; [exact reserve_properties.flash_loan_fee_calculation_decided|].
  split.
  { exists 1, (WAD / 2), (5 * WAD), 0. by split_and!; vm_compute. }
  split.
  { exists (10 ^ 30), (10 ^ 30 + 1), u64_max. by split_and!; vm_compute. }
  split; [exact obligation_properties.repay_partial_passes|].
  split; [exact obligation_properties.repay_full_passes|].
  split; [|vm_compute; reflexivity]. intros D R program_id HD HR.
  split; [exact packing.reserve_passes|]. split; [exact packing.obligation_passes|].
  split; [exact packing.lending_market_passes|exact packing.instructions_pass].
Qed.

Lemma sdk_tests_decided_witness :
  3 <= 1000 <= u64_max /\
  reserve_properties.borrow_fee_calculation (WAD / 100) 0 20 1000 = Ok tt /\
  obligation_properties.repay_full (WAD * 7) (WAD * 7) = Ok tt /\
  packing.pack_and_unpack_reserve (D := packing.counting) (R := example_runtime [] 0) = Ok tt.
Proof.
  destruct sdk_tests_decided as (_ & _ & _ & _ & H1 & _ & _ & _ & _ & H2 & H3 & _).
  split; [split; vm_compute; congruence|]. split.
  - apply H1; split; vm_compute; congruence.
  - split; [apply H2; exists 7; split; [split; vm_compute; congruence|split; reflexivity]|].
    exact (proj1 (H3 packing.counting (example_runtime [] 0) example_program
      packing.counting_laws (example_laws [] 0))).
Defined.
